(* ===== verification/_CoqProject ===== *)
-Q . S2P
Prelude.v
Util.v
Dbd.v
Numbers.v
Times.v
Mime.v
Db.v
Bind.v
Paths.v
Lookup.v
Resource.v
Names.v
Quota.v
DbmsDeltav.v
Rows.v
BodyFiles.v
Redirect.v
Transaction.v
Bridge.v
Groups.v
GroupCounts.v
GroupMembers.v
GroupExamples.v
Users.v
Properties.v
PropertyQuota.v
Acl.v
GroupDeletion.v
Listing.v
ListingSpec.v
Request.v
Create.v
Principal.v
Versions.v
CreateSpec.v
VersionsSpec.v
VersionExamples.v
UncheckoutSpec.v
Locks.v
LocksSpec.v
LockRemoval.v
Gc.v
GcLive.v
Bodies.v
GcExamples.v
Unbind.v
UnbindSpec.v
Copy.v
UnbindEnds.v
BindHooks.v
Repos.v
Put.v
ReposSpec.v
TwoBodies.v
ReposExamples.v
Search.v
SearchBuild.v
SearchResponse.v
SearchSpec.v
SearchExamples.v
LiveProps.v
LimebitsProps.v
LivePropsSpec.v
AclProps.v
AclPropsSpec.v
MembersShown.v
PrincipalReports.v
Reports.v
ReportsSpec.v
PropExamples.v
Walk.v
WalkSpec.v
FolderExamples.v
DeadProps.v
LockHooks.v
Config.v
Session.v
Adduser.v
AdduserSpec.v
Examples.v
