(* ===== verification/Prelude.v ===== *)
(** * Limestone: a verification library

    Limestone is a WebDAV repository: a module of the Apache server that keeps
    resources, collections, access control lists, versions, locks and redirect
    references in a relational database and the bodies of resources in files
    named by their SHA-1 sum.  The code under [src/limestone] has four layers: the
    module and its configuration ([mod_dav_repos.c]), the hooks of the DAV module
    ([repos.c], [acl.c], [props.c], [search.c], [transaction.c], ...), the storage bridge
    ([bridge.c], [deltav_bridge.c], functions [sabridge_*]), and the statements
    ([dbms*.c], functions [dbms_*]).  A thread of its own collects garbage ([gc.c]).
    The command line tool [src/adduser] makes users through requests to the server.

    ** How the code is modelled

    The tables are lists of rows ([Db.db]); a statement of the source is the
    function from tables to tables that its SQL text denotes, with the unique and
    check constraints, cascades and rules of the schema.  A C function that executes
    statements is a computation of the monad [Db.M] on a connection ([Db.conn]):
    tables, clock, body files, the refusals to come, and whether a statement has
    failed.  Any statement may be refused; a theorem that needs the server to
    answer says so, with [quiet] (no refusal to come) or with [c_errnum] (none
    happened); the start and the COMMIT of a transaction may be refused too.  A SELECT gives all its rows at once; [Rows] shows that the loops of the
    source over a result do so.  A function that returns [dav_error *] returns an [option
    dav_error]; a result parameter is a component of the result, unchanged where
    the code leaves it as it was.  Functions that may dereference NULL return an
    [outcome] with the case [Crash]; writes outside a buffer are a [None].  Code of
    libraries ([apr_strtok], [apr_dbd_escape], [basename], the driver of the database
    and its transactions, the file system, the parser of XML, the requests of neon) is
    an argument, a class or a class with laws.

    ** Files

    - [Prelude]: errors, machine integers, lemmas on strings and lists, hints.
    - [Util], [Mime] ([util.c]): strings, paths, UUIDs; where a body is stored, the hash
      of a password, the type of a file.  [Numbers]: numbers in texts.  [Times]: the
      text of a time, written and read back, over a class for the calendar of [apr].
    - [Dbd], [Rows] ([dbms_dbd.c]): query templates, the buffer of [dbms_execute]; the
      rows and columns of a result.
    - [BodyFiles] ([util.c], [bridge.c], [repos.c]): the files of bodies and of streams.
    - [Db] (the schema): tables, statements, connection; the classes of computations
      [Reads] and [Mono] with their tactics.
    - [Bind] ([dbms_bind.c]): lookups, shortest paths, changes of binds, the
      queue of the collector.  [Paths] proves the search, [Lookup] the lookup of a
      URI, [Names] the effect of a rename and the modification times.
    - [Resource] ([dbms.c], [dbms_quota.c]): the record [dav_repos_resource], its
      tables, deletion with its cascades; [Quota] proves the accounts exact.
    - [DbmsDeltav] ([dbms_deltav.c]): versions and histories.
    - [Redirect] ([dbms_redirect.c]): redirect references, through [Dbd].
    - [Transaction] ([transaction.c], [dbms_transaction.c]): the class of drivers
      and the checks before a commit.
    - [Bridge] ([bridge.c], [deltav_bridge.c], [repos.c]): properties of a
      resource, parents, deletion, orphans, unbinding.  [Bodies] is about its files.
    - [Groups] ([dbms_principal.c], [principal.c], [acl_liveprops.c]): membership of
      groups; [GroupCounts] specifies the table of all members by the numbers of
      paths, [GroupMembers] proves the change of the property group-member-set,
      [GroupDeletion] is about the deletion of a principal that is in groups.
    - [Users] ([dbms_principal.c]): principals, users, addresses and domains.
    - [Properties] ([dbms.c], [props.c]): dead properties and namespaces; [DeadProps]:
      the walk over their names; [PropertyQuota]: what copies of them are charged.
    - [Acl] ([dbms_acl.c], [acl.c], [bridge.c]): entries, evaluation, setting.
    - [Listing] ([dbms.c], [bridge.c]): the children of a collection, level by level;
      [ListingSpec] says which binds are listed.
    - [Request]: what a request gives, where its cache is kept, the monad [R] of code that
      reads its caches, and the rules [Moves], [wp] for what a computation leaves and achieves.
    - [Create] ([bridge.c], [repos.c]): new resources; [Principal] ([principal.c],
      [acl.c]): new users and groups, names of principals; [Versions] ([version.c],
      [deltav_bridge.c]): check-out, check-in, version control, the bodies and
      properties of versions.  [CreateSpec] and [VersionsSpec] prove their effect on
      the tables, [UncheckoutSpec] that of uncheck-out.
    - [Locks] ([dbms_locks.c], [lock.c], [lock_bridge.c]): locks; [LocksSpec] is about
      discovery, [LockRemoval] about removal; [LockHooks]: locks on unmapped URLs.
    - [Gc] ([gc.c]): the loop of the collector, its refinement of an abstract step
      relation [gc_step], safety; [GcLive]: liveness.
    - [Unbind] ([bridge.c]): unbinding without the collector; [UnbindSpec] shows that
      it deletes garbage only, [UnbindEnds] that its loops end.
    - [Copy] ([bridge.c]): copies of resources and trees, used bytes, bit marks.
    - [BindHooks] ([bind.c], [redirect.c]), [Repos] and [Put] ([repos.c]): the hooks for
      binds, redirect references, MKCOL, COPY, MOVE, DELETE and PUT; [ReposSpec] is
      about COPY, PUT and the URIs of responses, [TwoBodies] about both on a lock-null resource.
    - [Walk] ([repos.c]): the walk over a tree, streams, headers and GET; [WalkSpec].
    - [Search], [SearchBuild], [SearchResponse] ([search.c]): the request of a search, the
      query it becomes, and the response; [SearchSpec] is about conditions, literals,
      keys and the response.
    - [LiveProps] ([liveprops.c] and the other files [*_liveprops.c]), [LimebitsProps]
      ([limebits_liveprops.c]): the live properties, shown and changed; [LivePropsSpec].
    - [AclProps] ([acl_liveprops.c], [acl.c], [dbms_acl.c]): the properties of access control, with
      [AclPropsSpec] and [MembersShown]; [PrincipalReports] ([acl.c]): the reports on
      principals.
    - [Reports] ([version.c]): the reports on versions and the dispatch of reports;
      [ReportsSpec].
    - [Config] ([mod_dav_repos.c]): directives, merge, records of requests; [Session]
      ([dbms.c], [dbms_dbd.c], [dbms_transaction.c]): the opening of a connection, isolation
      levels, constraints.
    - [Adduser] ([src/adduser/adduser.c]): the command line tool; [AdduserSpec].
    - [Examples], [GroupExamples], [VersionExamples], [FolderExamples], [GcExamples],
      [ReposExamples], [SearchExamples], [PropExamples]: small repositories and requests on
      which the theorems are applied.

    ** What is shown

    - Access control: an access check gives the answer of the first relevant entry, and
      so does the list of entries that is shown; a request replaces what it should and
      is free of conflicts; the privileges reported are those that a check grants; a
      refused query grants.
    - Groups: the operations keep the membership graph free of loops and every count
      the number of paths; a new list of members is what the group has afterwards, and
      the list shown, sent back, changes nothing; the removals that always fail.  The
      deletion of a principal keeps the counts right exactly when it is not between a
      group and a member; otherwise its members stay in the groups above, and keep the
      access granted to those.
    - Collector: it never deletes what the root reaches, keeps all garbage below
      a queued resource, and ends by deleting all of it; the conditions under
      which one request blocks it.
    - Name space: the search is sound, complete and shortest; a lookup is a walk;
      the two are inverse; a rename moves one bind; an update touches exactly the
      collections above.
    - Creation, versions and copies: a new resource adds its rows and no other; a
      check-in makes one version with the body and properties of the resource, and an
      uncheck-out brings back those of the version; a COPY to a free place does the same
      for a resource (what these theorems say of other tables is in their records: entries
      of access control, quota and modification times are not part of them); a PUT changes one body, and every body keeps its file.
    - Files: every file of the store holds a body with the sum in its name, the empty one
      included, as long as the requests on the files do not interleave; two that do break it.
    - Deletion: unbinding deletes nothing that can be reached, and ends; a COPY over a tree may crash; a resource that a COPY and a PUT
      gave two bodies is never deleted.
    - Listings, walks and locks: a listing to an infinite depth lists every visible bind
      once and ends; a walk calls the walker once for each resource; the locks
      discovered are those that hold, the locks added among them with their times; a LOCK of an unmapped
      URL makes one resource.
    - Quota: every operation on bodies keeps the accounts exact, deletions included, and
      the end of a transaction, its COMMIT refused or not, leaves no principal over its
      quota or the tables as they were; copies of properties are charged for one of
      them and refunded for all.
    - Queries: execution is simultaneous substitution in a buffer of the right size, as
      long as that size is an [int]; parameters that stay unset make it do nothing, which affects lookups and
      redirects whose text has a question mark; a result is read completely, in order,
      and by both of the loops that are used.
    - Searches: a condition that is understood becomes the text of the expression it
      denotes, and one that is not may leave a parenthesis open; a literal can
      put any text into the query; the response has one element for each URI.
    - Properties, redirects: what is written is read back; a change of the settings of a
      user is undone by its rollback; the names of dead properties are listed once; the
      expansion of properties ends.
    - Session, configuration and tool: a connection is opened at the serializable level;
      what a virtual host inherits; when the escaping of the tool stays in its buffer.

    ** Fuel

    [path_loop] runs at most as many rounds as there are binds, plus two
    ([shortest_path_spec] shows that it never runs out); [ancestors] one round per
    bind, plus one ([ancestors_of_spec]); [chomp_loop], [reverse_loop], [replace_all] and
    [add_extensions] one per character; [doomed_versions] one per history, plus one;
    [gc_main n] is [n] turns of the endless loop, and [gc_main_collects] says how
    many are enough.  [children_loop] has one round per bind, plus two
    ([get_collection_children_spec] shows that it ends); [unbind_loop] and
    [clear_unused_loop] one turn per bind, plus one ([unbind_resource_ends],
    [clear_unused_ends]); the calls of [sabridge_unbind_resource] and
    [sabridge_coll_clear_children] are nested once ([unbind_depth]).  The expansion of
    properties has as many levels as the document ([expand_property_ends]); the loop over the
    bit marks of a row one round per token; [next_loop] one per row, plus one
    ([rows_of_select]).

    ** Not modelled

    The registration of hooks, properties and directives with the server and the DAV
    module, the messages for the log, process and thread management, the library for magic
    numbers, memory pools and their exhaustion: they are glue to the server and its
    libraries.  The column for comments and the lengths of the columns of a resource.
    The branches for MySQL, except for the texts of the session.  [Db.M] keeps the set
    of body files only; [BodyFiles] has their contents. *)
From Stdlib Require Export ZArith Lia Ascii String.
From stdpp Require Export base gmap strings list.

#[global] Open Scope Z_scope.

(** ** Notations *)
Declare Scope limestone_scope.
Delimit Scope limestone_scope with lime.

(** ** HTTP statuses and [dav_error]

    A C function that returns [dav_error *] is modelled by a function that
    returns [option dav_error]: [None] is the NULL of success. *)
Definition OK : Z := 0.
Definition HTTP_BAD_REQUEST : Z := 400.
Definition HTTP_FORBIDDEN : Z := 403.
Definition HTTP_CONFLICT : Z := 409.
Definition HTTP_PRECONDITION_FAILED : Z := 412.
Definition HTTP_INTERNAL_SERVER_ERROR : Z := 500.
Definition HTTP_INSUFFICIENT_STORAGE : Z := 507.

Record dav_error := DavError {
  err_status : Z;
  err_tag : option string
}.

#[export] Instance dav_error_eq_dec : EqDecision dav_error.
Proof. solve_decision. Defined.

(** [dav_new_error] and [dav_new_error_tag]: the message texts are not kept. *)
Definition dav_new_error (status : Z) : dav_error := DavError status None.
Definition dav_new_error_tag (status : Z) (tag : string) : dav_error :=
  DavError status (Some tag).

(** ** Machine integers: a 32-bit [int] *)
Definition wrap32 (z : Z) : Z := (z + 2 ^ 31) mod 2 ^ 32 - 2 ^ 31.

Lemma wrap32_small z : - 2 ^ 31 <= z < 2 ^ 31 -> wrap32 z = z.
Proof. intros H. unfold wrap32. rewrite Z.mod_small; lia. Qed.

Lemma wrap32_range z : - 2 ^ 31 <= wrap32 z < 2 ^ 31.
Proof.
  unfold wrap32.
  pose proof (Z.mod_pos_bound (z + 2 ^ 31) (2 ^ 32) ltac:(lia)). lia.
Qed.

(** A 64-bit [long] or [apr_int64_t]. *)
Definition wrap64 (z : Z) : Z := (z + 2 ^ 63) mod 2 ^ 64 - 2 ^ 63.

Lemma wrap64_small z : - 2 ^ 63 <= z < 2 ^ 63 -> wrap64 z = z.
Proof. intros H. unfold wrap64. rewrite Z.mod_small; lia. Qed.

(** ** Strings

    stdpp blocks the reduction of [String.append]; the lemmas below compute it
    on constructors. *)
#[global] Arguments String.append : simpl nomatch.

Lemma string_length_app (s t : string) :
  String.length (s +:+ t) = (String.length s + String.length t)%nat.
Proof. induction s as [|c s IH]; simpl; [done | by rewrite IH]. Qed.

Lemma string_app_nil_r (s : string) : s +:+ "" = s.
Proof. induction s as [|c s IH]; simpl; [done | by rewrite IH]. Qed.

Lemma string_app_assoc (s t u : string) : (s +:+ t) +:+ u = s +:+ (t +:+ u).
Proof. induction s as [|c s IH]; simpl; [done | by rewrite IH]. Qed.

Lemma string_app_inj_l (s t u : string) : s +:+ t = s +:+ u -> t = u.
Proof. induction s as [|c s IH]; simpl; [done | intros [= H]; by apply IH]. Qed.

(** Number of occurrences of a character. *)
Fixpoint count_char (a : ascii) (s : string) : nat :=
  match s with
  | EmptyString => 0
  | String c r => (if Ascii.eqb c a then 1 else 0) + count_char a r
  end%nat.

Lemma count_char_app a (s t : string) :
  count_char a (s +:+ t) = (count_char a s + count_char a t)%nat.
Proof. induction s as [|c s IH]; simpl; [done|]. rewrite IH. lia. Qed.

Lemma count_char_le_length a (s : string) : (count_char a s <= String.length s)%nat.
Proof. induction s as [|c s IH]; simpl; [done|]. destruct (Ascii.eqb c a); lia. Qed.

(** The pieces of a text, as [apr_strtok] is documented to give them: the longest
    ones without the separator, [t] being what is read of the first. *)
Definition add_token (t : string) (l : list string) : list string :=
  match t with EmptyString => l | _ => t :: l end.
Fixpoint tokens (sep : ascii) (t s : string) : list string :=
  match s with
  | EmptyString => add_token t []
  | String c rest =>
      if Ascii.eqb c sep then add_token t (tokens sep EmptyString rest)
      else tokens sep (t +:+ String c EmptyString) rest
  end.

Lemma tokens_nonempty sep t s : Forall (fun x => x <> EmptyString) (tokens sep t s).
Proof.
  assert (forall t l, Forall (fun x => x <> EmptyString) l ->
                      Forall (fun x => x <> EmptyString) (add_token t l)) as Hadd.
  { intros [|c u] l Hl; [done|]. by constructor. }
  revert t. induction s as [|c s IH]; intros t; cbn; [by apply Hadd|].
  destruct (Ascii.eqb c sep); [apply Hadd|]; apply IH.
Qed.

(** Only the characters that satisfy [f]. *)
Fixpoint string_filter (f : ascii -> bool) (s : string) : string :=
  match s with
  | EmptyString => EmptyString
  | String c r => if f c then String c (string_filter f r) else string_filter f r
  end.

(** The characters of [s] in order satisfy [P]. *)
Fixpoint string_forall (f : ascii -> bool) (s : string) : bool :=
  match s with
  | EmptyString => true
  | String c r => f c && string_forall f r
  end.

Lemma string_filter_all f s : string_forall f s = true -> string_filter f s = s.
Proof.
  induction s as [|c s IH]; simpl; [done|]. intros [H1 H2]%andb_prop.
  by rewrite H1, IH.
Qed.

Lemma string_filter_app f (s t : string) :
  string_filter f (s +:+ t) = string_filter f s +:+ string_filter f t.
Proof.
  induction s as [|c s IH]; simpl; [done|]. destruct (f c); simpl; by rewrite IH.
Qed.

Lemma string_filter_forall f s : string_forall f (string_filter f s) = true.
Proof.
  induction s as [|c s IH]; simpl; [done|]. destruct (f c) eqn:E; simpl; [|done].
  by rewrite E.
Qed.

(** ** Lists *)
Lemma filter_all {A} (P : A -> Prop) {Hdec : forall x, Decision (P x)} (l : list A) :
  (forall x, x ∈ l -> P x) -> filter P l = l.
Proof.
  induction l as [|x l IH]; intros H; [done|].
  rewrite filter_cons_True; [|apply H; set_solver].
  f_equal. apply IH. set_solver.
Qed.

Lemma filter_none {A} (P : A -> Prop) {Hdec : forall x, Decision (P x)} (l : list A) :
  (forall x, x ∈ l -> ~ P x) -> filter P l = [].
Proof.
  induction l as [|x l IH]; intros H; [done|].
  rewrite filter_cons_False; [|apply H; set_solver].
  apply IH. set_solver.
Qed.

Lemma elem_of_filter_bool {A} (f : A -> bool) (l : list A) x :
  x ∈ List.filter f l <-> f x = true /\ x ∈ l.
Proof. rewrite !list_elem_of_In, filter_In. tauto. Qed.

Lemma filter_bool_none {A} (f : A -> bool) (l : list A) :
  (forall x, x ∈ l -> f x = false) -> List.filter f l = [].
Proof.
  induction l as [|x l IH]; intros H; [done|]. cbn. rewrite (H x) by set_solver.
  apply IH. set_solver.
Qed.

Lemma filter_bool_all {A} (f : A -> bool) (l : list A) :
  (forall x, x ∈ l -> f x = true) -> List.filter f l = l.
Proof.
  induction l as [|x l IH]; intros H; [done|]. cbn. rewrite (H x) by set_solver.
  f_equal. apply IH. set_solver.
Qed.

(** A search is not disturbed by the removal of what it does not look for. *)
Lemma find_filter {A} (f g : A -> bool) (l : list A) :
  (forall x, f x = true -> g x = true) -> List.find f (List.filter g l) = List.find f l.
Proof.
  intros H. induction l as [|x l IH]; cbn; [done|].
  destruct (g x) eqn:Hg; cbn; [by rewrite IH|].
  destruct (f x) eqn:Hf; [|done]. rewrite (H x Hf) in Hg. done.
Qed.

Lemma find_app {A} (f : A -> bool) l k :
  List.find f (l ++ k) = match List.find f l with Some x => Some x | None => List.find f k end.
Proof. induction l as [|x l IH]; cbn; [done|]. by destruct (f x). Qed.

Lemma find_fresh {A} (f : A -> bool) l :
  (forall x, x ∈ l -> f x = false) -> List.find f l = None.
Proof.
  intros H. destruct (List.find f l) as [x|] eqn:E; [|done].
  apply List.find_some in E as [Hx%list_elem_of_In Hf]. by rewrite H in Hf.
Qed.

Lemma elem_of_map {A B} (f : A -> B) (l : list A) y :
  y ∈ map f l <-> exists x, f x = y /\ x ∈ l.
Proof. rewrite list_elem_of_In, in_map_iff. by setoid_rewrite list_elem_of_In. Qed.

Lemma elem_of_flat_map {A B} (f : A -> list B) (l : list A) y :
  y ∈ flat_map f l <-> exists x, x ∈ l /\ y ∈ f x.
Proof.
  rewrite list_elem_of_In, in_flat_map. by setoid_rewrite list_elem_of_In.
Qed.

Lemma elem_of_rev {A} (l : list A) x : x ∈ rev l <-> x ∈ l.
Proof. rewrite !list_elem_of_In. symmetry. apply in_rev. Qed.

Lemma NoDup_map_eq {A B} (f : A -> B) (l : list A) x y :
  NoDup (map f l) -> x ∈ l -> y ∈ l -> f x = f y -> x = y.
Proof.
  induction l as [|z l IH]; cbn; [set_solver|].
  intros [Hz Hnd]%NoDup_cons [->|Hx]%elem_of_cons [->|Hy]%elem_of_cons Heq; [done| | |auto].
  - destruct Hz. rewrite Heq. apply elem_of_map. eauto.
  - destruct Hz. rewrite <- Heq. apply elem_of_map. eauto.
Qed.

Lemma NoDup_map_filter {A B} (f : A -> B) (g : A -> bool) (l : list A) :
  NoDup (map f l) -> NoDup (map f (List.filter g l)).
Proof.
  induction l as [|z l IH]; cbn; [done|]. intros [Hz Hnd]%NoDup_cons.
  destruct (g z); cbn; [|by apply IH]. apply NoDup_cons. split; [|by apply IH].
  intros (x & Hx & [_ Hin]%elem_of_filter_bool)%elem_of_map. apply Hz.
  apply elem_of_map. eauto.
Qed.

Lemma NoDup_filter_bool {A} (g : A -> bool) (l : list A) : NoDup l -> NoDup (List.filter g l).
Proof. rewrite !NoDup_ListNoDup. apply List.NoDup_filter. Qed.

Lemma filter_filter_bool {A} (f g : A -> bool) (l : list A) :
  List.filter f (List.filter g l) = List.filter (fun x => g x && f x) l.
Proof.
  induction l as [|x l IH]; [done|]. cbn. destruct (g x); cbn; [destruct (f x)|]; by rewrite IH.
Qed.

(** Two filters that share nothing make up their union. *)
Lemma filter_union_perm {A} (f g h : A -> bool) (l : list A) :
  (forall x, x ∈ l -> h x = f x || g x) -> (forall x, x ∈ l -> f x && g x = false) ->
  List.filter f l ++ List.filter g l ≡ₚ List.filter h l.
Proof.
  induction l as [|x l IH]; intros Hh Hd; [done|]. cbn.
  rewrite (Hh x) by set_solver. specialize (Hd x ltac:(set_solver)) as Hx.
  assert (IH' : List.filter f l ++ List.filter g l ≡ₚ List.filter h l)
    by (apply IH; intros y Hy; [apply Hh|apply Hd]; by right).
  destruct (f x), (g x); cbn; try done; [by rewrite IH'|].
  rewrite <- Permutation_middle. by rewrite IH'.
Qed.

(** ** Sums *)
Fixpoint sum (l : list Z) : Z := match l with [] => 0 | x :: r => x + sum r end.

Lemma sum_app l k : sum (l ++ k) = sum l + sum k.
Proof. induction l as [|x l IH]; cbn; lia. Qed.

Lemma sum_nonneg l : (forall x, x ∈ l -> 0 <= x) -> 0 <= sum l.
Proof.
  induction l as [|x l IH]; cbn; [done|]. intros H.
  specialize (IH ltac:(set_solver)). specialize (H x ltac:(set_solver)). lia.
Qed.

(** A sum split along a test. *)
Lemma sum_split {A} (f : A -> Z) (g : A -> bool) (l : list A) :
  sum (map f l) = sum (map f (List.filter g l))
                  + sum (map f (List.filter (fun x => negb (g x)) l)).
Proof. induction l as [|x l IH]; cbn; [done|]. destruct (g x); cbn; lia. Qed.

Lemma sum_ext {A} (f g : A -> Z) (l : list A) :
  (forall x, x ∈ l -> f x = g x) -> sum (map f l) = sum (map g l).
Proof.
  induction l as [|x l IH]; cbn; [done|]. intros H.
  rewrite (H x ltac:(set_solver)), IH by set_solver. done.
Qed.

(** At one place a function is 1, elsewhere 0. *)
Lemma sum_indicator (f : Z -> Z) (w : Z) (l : list Z) :
  NoDup l -> (forall z, z ∈ l -> f z = if decide (z = w) then 1 else 0) ->
  sum (map f l) = if decide (w ∈ l) then 1 else 0.
Proof.
  induction l as [|z l IH]; intros Hnd Hf; [done|]. cbn.
  apply NoDup_cons in Hnd as [Hz Hnd]. rewrite IH by (done || set_solver).
  rewrite (Hf z) by set_solver.
  destruct (decide (z = w)) as [->|Hne]; [rewrite decide_False, decide_True by set_solver; lia|].
  destruct (decide (w ∈ l)); [rewrite decide_True by set_solver|rewrite decide_False by set_solver];
    lia.
Qed.

Lemma sum_positive {A} (f : A -> Z) (l : list A) :
  0 < sum (map f l) -> exists x, x ∈ l /\ 0 < f x.
Proof.
  induction l as [|x l IH]; cbn; [lia|]. intros H.
  destruct (decide (0 < f x)) as [Hx|Hx]; [set_solver|].
  destruct IH as (y & Hy & Hpos); [lia|set_solver].
Qed.

Lemma sum_ge {A} (f : A -> Z) (l : list A) x :
  (forall y, y ∈ l -> 0 <= f y) -> x ∈ l -> f x <= sum (map f l).
Proof.
  induction l as [|z l IH]; intros H; [by intros ?%elem_of_nil|]. cbn.
  assert (0 <= f z) by (apply H; set_solver).
  assert (0 <= sum (map f l)).
  { apply sum_nonneg. intros v (y & <- & Hy)%elem_of_map. apply H. set_solver. }
  intros [->|Hin]%elem_of_cons; [lia|]. specialize (IH ltac:(set_solver) Hin). lia.
Qed.

Lemma sum_sub {A} (f g : A -> Z) k (l : list A) :
  sum (map (fun x => f x - g x * k) l) = sum (map f l) - sum (map g l) * k.
Proof. induction l as [|x l IH]; cbn; [done|]. rewrite IH. lia. Qed.

Lemma sum_add {A} (f g : A -> Z) k (l : list A) :
  sum (map (fun x => f x + g x * k) l) = sum (map f l) + sum (map g l) * k.
Proof. induction l as [|x l IH]; cbn; [done|]. rewrite IH. lia. Qed.

(** ** Automation *)
Create HintDb lime.
Create Rewrite HintDb lime.
#[export] Hint Rewrite string_length_app string_app_nil_r count_char_app : lime.
#[export] Hint Resolve wrap32_range count_char_le_length : lime.

(** Case analysis on every [match], [if] and [decide] of the goal or of the
    hypotheses, with the contradictory cases closed. *)
Ltac cases_step :=
  match goal with
  | H : context [match ?x with _ => _ end] |- _ => destruct x eqn:?
  | |- context [match ?x with _ => _ end] => destruct x eqn:?
  end; simplify_eq/=; try done.
Ltac cases := repeat cases_step.

(** Closes a decidable goal by evaluation. *)
Ltac by_evaluation := apply (bool_decide_unpack _); vm_compute; exact I.
