(* ===== verification/Util.v ===== *)
(** * String and buffer utilities ([limestone/util.c])

    The C strings of the program are Coq [string]s; a routine that writes
    through a fixed buffer or indexes past a terminator returns [option], with
    [None] for the out-of-bounds access.  [apr] and [httpd] functions the
    routines call are arguments. *)
From S2P Require Import Prelude.


(** ** Data *)

(** ** Operations *)

Definition NULL_NAMESPACE : string := " ".
Definition TAB : ascii := "009"%char.
Definition SLASH : ascii := "/"%char.
Definition HYPHEN : ascii := "-"%char.
Definition NUL : ascii := "000"%char.
Definition LF : string := String "010"%char EmptyString.

Definition dav_repos_build_ns_name_key (ns name : option string) : option string :=
  match ns, name with
  | Some ns, Some name =>
      let ns := if decide (String.length ns = 0%nat) then NULL_NAMESPACE else ns in
      Some (ns +:+ String TAB name)
  | _, _ => None
  end.

(** The last character of a string, as [str[len - 1]] reads it. *)
Definition last_char (s : string) : option ascii := String.get (String.length s - 1) s.

(** One round of the [while] loop of [dav_repos_chomp_slash] per unit of fuel. *)
Fixpoint chomp_loop (fuel : nat) (str : string) : string :=
  match fuel with
  | O => str
  | S n =>
      if bool_decide (0 < String.length str)%nat
         && bool_decide (last_char str = Some SLASH)
      then chomp_loop n (String.substring 0 (String.length str - 1) str)
      else str
  end.

Definition dav_repos_chomp_slash (str : string) : string :=
  chomp_loop (String.length str) str.

Definition dav_repos_chomp_trailing_slash (str : string) : string :=
  if bool_decide (1 < String.length str)%nat then dav_repos_chomp_slash str else str.

Definition dav_repos_mk_href (apr_xml_quote_string : string -> string)
    (uri : option string) : option string :=
  match uri with
  | None => None
  | Some uri => Some ("<D:href>" +:+ apr_xml_quote_string uri +:+ "</D:href>")
  end.

(** The attribute list of an [apr_xml_elem], as (name, value) pairs. *)
Fixpoint find_attr (attrs : list (string * string)) (attr_name : string) : option string :=
  match attrs with
  | [] => None
  | (n, v) :: rest => if String.eqb n attr_name then Some v else find_attr rest attr_name
  end.

Definition dav_find_attr (elem : option (list (string * string))) (attr_name : string)
  : option string :=
  match elem with
  | None => None
  | Some attrs => find_attr attrs attr_name
  end.

(** [compact_uri]: [last] is [v[j]], the character written last. *)
Fixpoint compact_loop (last : ascii) (rest : string) : string :=
  match rest with
  | EmptyString => EmptyString
  | String c r =>
      if negb (Ascii.eqb last SLASH) || negb (Ascii.eqb c SLASH)
      then String c (compact_loop c r)
      else compact_loop last r
  end.

Definition compact_uri (u : string) : string :=
  match u with
  | EmptyString => EmptyString
  | String c r => String c (compact_loop c r)
  end.

Definition get_parent_uri (ap_make_dirstr_parent : string -> string) (uri : string)
  : string :=
  dav_repos_chomp_slash (ap_make_dirstr_parent uri).

(** A read [s[i]] of a C string: its terminator is readable, what follows is not. *)
Definition c_read (s : string) (i : nat) : option ascii :=
  if decide (i = String.length s) then Some NUL else String.get i s.

(** The C string a buffer holds: what precedes the first NUL. *)
Fixpoint c_string (buf : list ascii) : string :=
  match buf with
  | [] => EmptyString
  | c :: r => if Ascii.eqb c NUL then EmptyString else String c (c_string r)
  end.

Fixpoint add_hyphens_loop (n i : nat) (uuid : string) : option (list ascii) :=
  match n with
  | O => Some []
  | S n' =>
      match c_read uuid i, add_hyphens_loop n' (S i) uuid with
      | Some c, Some rest =>
          Some ((if bool_decide (i = 8 \/ i = 12 \/ i = 16 \/ i = 20)%nat
                 then [HYPHEN] else []) ++ c :: rest)
      | _, _ => None
      end
  end.

Definition add_hyphens_to_uuid (uuid : string) : option string :=
  match add_hyphens_loop 32 0 uuid with
  | Some buf => Some (c_string buf)
  | None => None
  end.

(** [char buf[33]] *)
Definition uuid_buf_size : nat := 33.

Fixpoint remove_hyphens_loop (uuid : string) (j : nat) : option string :=
  match uuid with
  | EmptyString => if bool_decide (j < uuid_buf_size)%nat then Some EmptyString else None
  | String c r =>
      if Ascii.eqb c HYPHEN then remove_hyphens_loop r j
      else if bool_decide (j < uuid_buf_size)%nat
      then match remove_hyphens_loop r (S j) with
           | Some out => Some (String c out)
           | None => None
           end
      else None
  end.

Definition remove_hyphens_from_uuid (uuid : string) : option string :=
  remove_hyphens_loop uuid 0.

(** [get_new_plain_uuid]: the formatted UUID is what [apr_uuid_format] gives. *)
Definition get_new_plain_uuid (formatted : string) : option string :=
  remove_hyphens_from_uuid formatted.

(** The token count of the [apr_strtok] loop, from the sequence of tokens that
    [apr_strtok] delivers. *)
Definition get_num_tokens (apr_strtok_slash : string -> list string) (uri : string) : nat :=
  List.fold_left (fun n _ => S n) (apr_strtok_slash uri) 0%nat.

Definition bad_content_types : list string := ["multipart/form-data"%string].

Definition is_content_type_good (content_type : option string) : Z :=
  match content_type with
  | None => 0
  | Some ct =>
      if String.eqb ct "" then 0
      else if existsb (fun bad => String.prefix bad ct) bad_content_types then 0 else 1
  end.

(** [reverse_string] on the bytes of the string: three exclusive ors per swap. *)
Definition xor_swap (str : list Z) (start fin : nat) : list Z :=
  let str := <[start := Z.lxor (str !!! start) (str !!! fin)]> str in
  let str := <[fin := Z.lxor (str !!! fin) (str !!! start)]> str in
  <[start := Z.lxor (str !!! start) (str !!! fin)]> str.

Fixpoint reverse_loop (fuel : nat) (str : list Z) (start fin : nat) : list Z :=
  match fuel with
  | O => str
  | S n =>
      if bool_decide (start < fin)%nat
      then reverse_loop n (xor_swap str start fin) (S start) (fin - 1)
      else str
  end.

Definition reverse_string (str : list Z) : list Z :=
  reverse_loop (length str) str 0 (length str - 1).

(** [isspace] of the C locale. *)
Definition isspace (c : ascii) : bool :=
  let n := N_of_ascii c in
  (N.leb 9 n && N.leb n 13) || N.eqb n 32.

Fixpoint skip_spaces (data : string) : string :=
  match data with
  | EmptyString => EmptyString
  | String c r => if isspace c then skip_spaces r else data
  end.

(** The first loop of [strip_whitespace]: [n] is [len] before the decrement; the
    flag says that the condition read [data[-1]]. *)
Fixpoint strip_tail (n : nat) (data : string) : string * bool :=
  match n with
  | O => (data, true)
  | S len =>
      match String.get len data with
      | Some c => if isspace c then strip_tail len (String.substring 0 len data)
                  else (data, false)
      | None => (data, false)
      end
  end.

Definition strip_whitespace (data : string) : string * bool :=
  if String.eqb data "" then (data, false)
  else let '(d, oob) := strip_tail (String.length data) data in (skip_spaces d, oob).

(** [time_apr_to_str], for a time other than 0: the timestamp its text denotes in a column
    ([Times.time_apr_to_str_denotes]), the microseconds at the start of its second. *)
Definition time_apr_to_str (aprtime : Z) : Z := aprtime - aprtime mod 1000000.

(** ** Lemmas: paths *)

(** No two consecutive slashes. *)
Fixpoint no_double_slash (s : string) : bool :=
  match s with
  | String c (String d _ as r) =>
      negb (Ascii.eqb c SLASH && Ascii.eqb d SLASH) && no_double_slash r
  | _ => true
  end.

Lemma compact_loop_no_double last rest :
  no_double_slash (String last (compact_loop last rest)) = true.
Proof.
  revert last. induction rest as [|c r IH]; intros last; [done|]. cbn [compact_loop].
  destruct (Ascii.eqb last SLASH) eqn:Hl, (Ascii.eqb c SLASH) eqn:Hc;
    cbn [negb orb]; [apply IH | | |];
    change (negb (Ascii.eqb last SLASH && Ascii.eqb c SLASH)
            && no_double_slash (String c (compact_loop c r)) = true);
    rewrite Hl, Hc, IH; done.
Qed.

Lemma compact_loop_id last rest :
  no_double_slash (String last rest) = true -> compact_loop last rest = rest.
Proof.
  revert last. induction rest as [|c r IH]; intros last H; [done|].
  change (negb (Ascii.eqb last SLASH && Ascii.eqb c SLASH)
          && no_double_slash (String c r) = true) in H.
  apply andb_prop in H as [H1 H2]. cbn [compact_loop].
  rewrite <- negb_andb, H1, IH by done. done.
Qed.

(** The non-slash characters survive in order. *)
Lemma compact_loop_filter last rest :
  string_filter (fun c => negb (Ascii.eqb c SLASH)) (compact_loop last rest)
  = string_filter (fun c => negb (Ascii.eqb c SLASH)) rest.
Proof.
  revert last. induction rest as [|c r IH]; intros last; [done|]. cbn [compact_loop].
  destruct (Ascii.eqb last SLASH) eqn:Hl, (Ascii.eqb c SLASH) eqn:Hc; cbn;
    rewrite ?Hc; cbn; by rewrite ?IH.
Qed.

(** ** Lemmas: UUIDs *)

Definition not_hyphen (c : ascii) : bool := negb (Ascii.eqb c HYPHEN).
Definition not_nul (c : ascii) : bool := negb (Ascii.eqb c NUL).

Lemma remove_hyphens_loop_ok uuid j :
  (j + String.length (string_filter not_hyphen uuid) < uuid_buf_size)%nat ->
  remove_hyphens_loop uuid j = Some (string_filter not_hyphen uuid).
Proof.
  revert j. induction uuid as [|c r IH]; intros j H; cbn in *.
  - by rewrite bool_decide_true by (unfold uuid_buf_size in *; lia).
  - unfold not_hyphen in *. destruct (Ascii.eqb c HYPHEN); cbn in *; [by apply IH|].
    rewrite bool_decide_true by lia. rewrite IH by lia. done.
Qed.

Lemma remove_hyphens_loop_overflow uuid j :
  (j <= uuid_buf_size)%nat ->
  (uuid_buf_size <= j + String.length (string_filter not_hyphen uuid))%nat ->
  remove_hyphens_loop uuid j = None.
Proof.
  revert j. induction uuid as [|c r IH]; intros j Hj H; cbn in *.
  - by rewrite bool_decide_false by lia.
  - unfold not_hyphen in *. destruct (Ascii.eqb c HYPHEN); cbn in *; [by apply IH|].
    case_bool_decide; [|done]. rewrite IH by lia. done.
Qed.

(** The bytes a run of [add_hyphens_loop] copies. *)
Lemma string_get_None i s : (String.length s <= i)%nat -> String.get i s = None.
Proof.
  revert s. induction i as [|i IH]; intros [|c s] H; simpl in *; try done; [lia|].
  apply IH. lia.
Qed.

Lemma string_get_Some i s : (i < String.length s)%nat -> is_Some (String.get i s).
Proof.
  revert s. induction i as [|i IH]; intros [|c s] H; simpl in *; try lia; [done|].
  apply IH. lia.
Qed.

Lemma string_get_filter f i s c :
  string_forall f s = true -> String.get i s = Some c -> f c = true.
Proof.
  revert s. induction i as [|i IH]; intros [|a s] H; simpl in *; try done;
    apply andb_prop in H as [H1 H2]; [by intros [= <-] | by apply IH].
Qed.

(** Dropping the first [i] characters. *)
Fixpoint string_drop (i : nat) (s : string) : string :=
  match i, s with
  | O, _ => s
  | S i, EmptyString => EmptyString
  | S i, String _ r => string_drop i r
  end.

Lemma string_drop_get i s c :
  String.get i s = Some c -> string_drop i s = String c (string_drop (S i) s).
Proof.
  revert s. induction i as [|i IH]; intros [|a s]; simpl; try done.
  - by intros [= ->].
  - intros H. by rewrite (IH _ H).
Qed.

Lemma string_drop_all i s : (String.length s <= i)%nat -> string_drop i s = "".
Proof.
  revert s. induction i as [|i IH]; intros [|a s]; simpl; try done; [lia|].
  intros H. apply IH. lia.
Qed.

Lemma add_hyphens_loop_ok n i uuid :
  (i + n = String.length uuid)%nat ->
  string_forall (fun c => not_nul c && not_hyphen c) uuid = true ->
  exists buf, add_hyphens_loop n i uuid = Some buf
    /\ string_filter not_hyphen (c_string buf) = string_drop i uuid.
Proof.
  revert i. induction n as [|n IH]; intros i Hlen Hf.
  - exists []. split; [done|]. cbn. by rewrite string_drop_all by lia.
  - destruct (IH (S i)) as (buf & Hbuf & Hdrop); [lia|done|].
    destruct (string_get_Some i uuid) as [c Hc]; [lia|].
    pose proof (string_get_filter _ _ _ _ Hf Hc) as Hcc. cbn in Hcc.
    apply andb_prop in Hcc as [Hn Hh].
    cbn [add_hyphens_loop]. unfold c_read. rewrite decide_False by lia.
    rewrite Hc, Hbuf. eexists. split; [done|].
    rewrite (string_drop_get _ _ _ Hc), <- Hdrop.
    assert (Hrest : string_filter not_hyphen (c_string (c :: buf))
                    = String c (string_filter not_hyphen (c_string buf))).
    { cbn. unfold not_nul in Hn. destruct (Ascii.eqb c NUL); [done|]. cbn.
      by rewrite Hh. }
    case_bool_decide; exact Hrest.
Qed.

(** ** Lemmas: the in-place reversal *)

Lemma lxor_swap a b : Z.lxor (Z.lxor a b) (Z.lxor b (Z.lxor a b)) = b.
Proof.
  rewrite (Z.lxor_comm a b), <- (Z.lxor_assoc b b a), Z.lxor_nilpotent, Z.lxor_0_l.
  by rewrite Z.lxor_assoc, Z.lxor_nilpotent, Z.lxor_0_r.
Qed.

Lemma lxor_cancel a b : Z.lxor b (Z.lxor a b) = a.
Proof.
  by rewrite (Z.lxor_comm a b), <- Z.lxor_assoc, Z.lxor_nilpotent, Z.lxor_0_l.
Qed.

Lemma xor_swap_spec str s e a b :
  s <> e -> str !! s = Some a -> str !! e = Some b ->
  xor_swap str s e = <[s := b]> (<[e := a]> str).
Proof.
  intros Hne Ha Hb. unfold xor_swap.
  assert (Hs : (s < length str)%nat) by (by eapply lookup_lt_Some).
  assert (He : (e < length str)%nat) by (by eapply lookup_lt_Some).
  rewrite (list_lookup_total_correct _ _ _ Ha), (list_lookup_total_correct _ _ _ Hb).
  rewrite (list_lookup_total_insert_eq _ s) by done.
  rewrite (list_lookup_total_insert_ne _ s e) by done.
  rewrite (list_lookup_total_correct _ _ _ Hb), lxor_cancel.
  rewrite (list_lookup_total_insert_ne _ e s) by done.
  rewrite (list_lookup_total_insert_eq _ s) by done.
  rewrite (list_lookup_total_insert_eq _ e) by (by rewrite length_insert).
  rewrite (list_insert_insert_ne _ e s) by done.
  rewrite list_insert_insert_eq.
  f_equal. by rewrite Z.lxor_comm, <- Z.lxor_assoc, Z.lxor_nilpotent, Z.lxor_0_l.
Qed.

Lemma reverse_loop_spec fuel str s e i :
  (e < length str)%nat -> (e - s <= fuel)%nat ->
  reverse_loop fuel str s e !! i
  = if decide (s <= i <= e)%nat then str !! (s + e - i)%nat else str !! i.
Proof.
  revert str s e. induction fuel as [|fuel IH]; intros str s e He Hf; cbn [reverse_loop].
  { case_decide; [|done]. f_equal. lia. }
  case_bool_decide as Hlt; cycle 1.
  { case_decide; [|done]. f_equal. lia. }
  destruct (lookup_lt_is_Some_2 str s) as [a Ha]; [lia|].
  destruct (lookup_lt_is_Some_2 str e) as [b Hb]; [lia|].
  rewrite (xor_swap_spec str s e a b) by (done || lia).
  rewrite IH by (rewrite ?length_insert; lia).
  destruct (decide (i = s)) as [->|His].
  { rewrite decide_False, decide_True by lia.
    rewrite list_lookup_insert_eq by (rewrite length_insert; lia).
    rewrite <- Hb. f_equal. lia. }
  destruct (decide (i = e)) as [->|Hie].
  { rewrite decide_False, decide_True by lia.
    rewrite list_lookup_insert_ne, list_lookup_insert_eq by lia.
    rewrite <- Ha. f_equal. lia. }
  destruct (decide (s <= i <= e)%nat).
  - rewrite decide_True by lia.
    rewrite !list_lookup_insert_ne by lia. f_equal. lia.
  - rewrite decide_False by lia. by rewrite !list_lookup_insert_ne by lia.
Qed.

(** ** Lemmas: trailing slashes *)

Lemma substring_prefix n s :
  (n <= String.length s)%nat ->
  exists t, s = String.substring 0 n s +:+ t
            /\ String.length (String.substring 0 n s) = n.
Proof.
  revert s. induction n as [|n IH]; intros [|c s] H; simpl in *; try lia.
  - by exists "".
  - by exists (String c s).
  - destruct (IH s) as (t & Ht & Hl); [lia|]. exists t. split; [|lia].
    by rewrite <- Ht.
Qed.

(** A string of slashes. *)
Fixpoint slashes (n : nat) : string :=
  match n with O => EmptyString | S n => String SLASH (slashes n) end.

Lemma slashes_snoc n : slashes n +:+ String SLASH "" = slashes (S n).
Proof. induction n as [|n IH]; [done|]. cbn. f_equal. exact IH. Qed.

Lemma string_last_split s :
  (0 < String.length s)%nat ->
  exists c, last_char s = Some c
    /\ s = String.substring 0 (String.length s - 1) s +:+ String c "".
Proof.
  unfold last_char. induction s as [|c s IH]; simpl; [lia|]. intros _.
  rewrite Nat.sub_0_r. destruct s as [|d s']; [by exists c|].
  destruct IH as (e & He & Hs); [simpl; lia|].
  exists e. simpl in *. rewrite Nat.sub_0_r in *. split; [done|].
  f_equal. exact Hs.
Qed.

Lemma last_char_app s c : last_char (s +:+ String c "") = Some c.
Proof.
  unfold last_char. rewrite string_length_app. simpl.
  replace (String.length s + 1 - 1)%nat with (String.length s) by lia.
  by induction s.
Qed.

Lemma chomp_loop_spec fuel s :
  (String.length s <= fuel)%nat ->
  exists n, s = chomp_loop fuel s +:+ slashes n
    /\ last_char (chomp_loop fuel s) <> Some SLASH.
Proof.
  revert s. induction fuel as [|fuel IH]; intros s Hf; cbn [chomp_loop].
  { exists 0%nat. destruct s; [|simpl in Hf; lia]. by split. }
  case_bool_decide as Hpos; cbn [andb]; cycle 1.
  { exists 0%nat. destruct s; [|simpl in Hpos; lia]. by split. }
  case_bool_decide as Hlast; cycle 1.
  { exists 0%nat. by rewrite string_app_nil_r. }
  destruct (string_last_split s Hpos) as (c & Hc & Hs). simplify_eq.
  destruct (substring_prefix (String.length s - 1) s) as (_ & _ & Hl); [lia|].
  destruct (IH (String.substring 0 (String.length s - 1) s)) as (n & Hn & Hnl); [lia|].
  exists (S n). split; [|done].
  rewrite <- slashes_snoc, <- string_app_assoc, <- Hn. congruence.
Qed.

(** ** Lemmas: white space *)

Lemma skip_spaces_spec s :
  exists w, s = w +:+ skip_spaces s /\ string_forall isspace w = true
    /\ forall c r, skip_spaces s = String c r -> isspace c = false.
Proof.
  induction s as [|c s (w & Hw & Hsp & Hr)]; simpl; [by exists ""|].
  destruct (isspace c) eqn:Hc.
  - exists (String c w). simpl. rewrite Hc. split_and!; [by rewrite <- Hw|done|done].
  - exists "". split_and!; [done|done|]. by intros ?? [= <- <-].
Qed.

(** ** Properties *)

(** The hyphens are put in after 8, 12, 16 and 20 characters, and taking them
    out again, within the buffer of 33 bytes, gives the identifier back. *)
Lemma uuid_hyphens_roundtrip uuid :
  String.length uuid = 32%nat ->
  string_forall (fun c => not_nul c && not_hyphen c) uuid = true ->
  exists f, add_hyphens_to_uuid uuid = Some f /\ remove_hyphens_from_uuid f = Some uuid.
Proof.
  intros Hl Hf. destruct (add_hyphens_loop_ok 32 0 uuid) as (buf & Hb & Hd); [by rewrite Hl|done|].
  exists (c_string buf). unfold add_hyphens_to_uuid, remove_hyphens_from_uuid. rewrite Hb.
  split; [done|]. cbn [string_drop] in Hd.
  rewrite remove_hyphens_loop_ok by (rewrite Hd, Hl; unfold uuid_buf_size; lia).
  by rewrite Hd.
Qed.

(** [remove_hyphens_from_uuid] stays inside its buffer of 33 bytes exactly for
    the inputs with at most 32 characters that are not hyphens. *)
Theorem remove_hyphens_overflows uuid :
  remove_hyphens_from_uuid uuid
  = if bool_decide (String.length (string_filter not_hyphen uuid) <= 32)%nat
    then Some (string_filter not_hyphen uuid) else None.
Proof.
  unfold remove_hyphens_from_uuid. case_bool_decide.
  - apply remove_hyphens_loop_ok. unfold uuid_buf_size. lia.
  - apply remove_hyphens_loop_overflow; unfold uuid_buf_size; lia.
Qed.

(** [compact_uri] leaves no two consecutive slashes, keeps the other characters
    in their order, and changes nothing when there is nothing to compact; so
    it is idempotent. *)
Theorem compact_uri_spec u :
  no_double_slash (compact_uri u) = true
  /\ string_filter (fun c => negb (Ascii.eqb c SLASH)) (compact_uri u)
     = string_filter (fun c => negb (Ascii.eqb c SLASH)) u
  /\ (no_double_slash u = true -> compact_uri u = u)
  /\ compact_uri (compact_uri u) = compact_uri u.
Proof.
  destruct u as [|c r]; [done|]. cbn [compact_uri].
  assert (H : no_double_slash (String c (compact_loop c r)) = true)
    by apply compact_loop_no_double.
  split_and!; [done| | |].
  - cbn [string_filter]. by rewrite compact_loop_filter.
  - intros Hn. by rewrite compact_loop_id.
  - cbn [compact_uri]. by rewrite (compact_loop_id c (compact_loop c r)).
Qed.

(** The reversal in place by three exclusive ors per pair is the reversal. *)
Theorem reverse_string_rev str : reverse_string str = rev str.
Proof.
  unfold reverse_string. destruct str as [|x l] eqn:E; [done|]. rewrite <- E.
  assert (Hl : (0 < length str)%nat) by (subst; cbn; lia).
  rewrite rev_alt. change (rev_append str []) with (reverse str).
  apply list_eq. intros i. rewrite reverse_loop_spec by lia.
    destruct (decide (i < length str)%nat).
  - rewrite decide_True by lia. rewrite reverse_lookup by lia. f_equal. lia.
  - rewrite decide_False by lia.
    rewrite !lookup_ge_None_2 by (rewrite ?length_reverse; lia). done.
Qed.

(** Trailing slashes are removed, all of them; the second routine leaves the
    root, or any string of one character, as it is. *)
Theorem chomp_slash_spec s :
  (exists n, s = dav_repos_chomp_slash s +:+ slashes n
     /\ last_char (dav_repos_chomp_slash s) <> Some SLASH)
  /\ dav_repos_chomp_trailing_slash s
     = if bool_decide (1 < String.length s)%nat then dav_repos_chomp_slash s else s.
Proof. split; [|done]. by apply chomp_loop_spec. Qed.

Lemma string_forall_app f s t :
  string_forall f (s +:+ t) = string_forall f s && string_forall f t.
Proof. induction s as [|c s IH]; cbn; [done|]. by rewrite IH, andb_assoc. Qed.

Lemma strip_tail_spec n data d oob :
  String.length data = n -> strip_tail n data = (d, oob) ->
  exists w, data = d +:+ w /\ string_forall isspace w = true
    /\ if oob then d = EmptyString
       else exists c, last_char d = Some c /\ isspace c = false.
Proof.
  revert data. induction n as [|n IH]; intros data Hl; cbn [strip_tail].
  { intros [= <- <-]. exists EmptyString. destruct data; [done|]. cbn in Hl. lia. }
  destruct (string_last_split data) as (c & Hc & Hs); [lia|].
  unfold last_char in Hc. rewrite Hl in Hc. replace (S n - 1)%nat with n in Hc by lia.
  rewrite Hc. destruct (isspace c) eqn:Hsp.
  - intros E. destruct (substring_prefix n data) as (_ & _ & Hlen); [lia|].
    destruct (IH _ Hlen E) as (w & Hw & Hws & Hd). exists (w +:+ String c "").
    split_and!; [|by rewrite string_forall_app, Hws; cbn; rewrite Hsp|done].
    rewrite Hs at 1. rewrite Hl. replace (S n - 1)%nat with n by lia.
    by rewrite Hw, string_app_assoc.
  - intros [= <- <-]. exists EmptyString. rewrite string_app_nil_r. split_and!; [done|done|].
    exists c. split; [|done]. unfold last_char. by rewrite Hl, Nat.sub_succ, Nat.sub_0_r.
Qed.

Lemma skip_spaces_last s c :
  last_char s = Some c -> isspace c = false -> last_char (skip_spaces s) = Some c.
Proof.
  induction s as [|a s IH]; [done|]. intros Hl Hc. cbn [skip_spaces].
  destruct (isspace a) eqn:Ha; [|done]. destruct s as [|b s].
  - cbn in Hl. congruence.
  - apply IH; [|done]. unfold last_char in *. cbn in *. rewrite Nat.sub_0_r in *. done.
Qed.

(** White space is removed at both ends and nowhere else.  The byte before the
    string is read exactly when the string is white space only. *)
Theorem strip_whitespace_spec s r oob :
  strip_whitespace s = (r, oob) ->
  (exists w1 w2, s = w1 +:+ r +:+ w2
     /\ string_forall isspace w1 = true /\ string_forall isspace w2 = true)
  /\ (r = EmptyString
      \/ (exists c t, r = String c t /\ isspace c = false)
         /\ exists c, last_char r = Some c /\ isspace c = false)
  /\ (oob = true <-> s <> EmptyString /\ string_forall isspace s = true).
Proof.
  unfold strip_whitespace. destruct (String.eqb_spec s "") as [->|Hne].
  { intros [= <- <-]. split_and!; [by exists EmptyString, EmptyString|by left|naive_solver]. }
  destruct (strip_tail (String.length s) s) as [d o] eqn:E. intros [= <- <-].
  destruct (strip_tail_spec _ _ _ _ eq_refl E) as (w & Hw & Hws & Ho).
  destruct (skip_spaces_spec d) as (w1 & Hw1 & Hs1 & Hr1). split_and!.
  - exists w1, w. split_and!; [|done|done]. by rewrite <- string_app_assoc, <- Hw1.
  - destruct o; [left; by rewrite Ho|right]. destruct Ho as (c & Hc & Hsp).
    pose proof (skip_spaces_last d c Hc Hsp) as Hlast.
    split; [|by exists c]. destruct (skip_spaces d) as [|a t] eqn:Ed; [done|].
    exists a, t. split; [done|]. by apply (Hr1 a t).
  - split; [intros ->; split; [done|]; rewrite Hw, Ho; cbn; done|].
    intros [_ Hall]. destruct o; [done|]. destruct Ho as (c & Hc & Hsp).
    rewrite Hw, string_forall_app in Hall. apply andb_prop in Hall as [Hall _].
    rewrite (string_get_filter _ _ _ _ Hall Hc) in Hsp. done.
Qed.

Lemma strip_whitespace_spec_witness :
  strip_whitespace "  a b " = ("a b"%string, false)
  /\ (false = true <-> "  a b "%string <> EmptyString
      /\ string_forall isspace "  a b " = true).
Proof.
  split; [reflexivity|].
  apply (strip_whitespace_spec "  a b " "a b" false). reflexivity.
Defined.
