(* ===== verification/Dbd.v ===== *)
(** * Query templates ([limestone/dbms_dbd.c])

    [dbms_prepare] counts the question marks of a query text, [dbms_set_int]
    and [dbms_set_string] fill the parameters, and [dbms_execute] writes the
    final text into one buffer of a size computed beforehand.  The escaping
    function of the database driver ([apr_dbd_escape]) is an argument. *)
From S2P Require Import Prelude Util.
From stdpp Require Import pretty.
Local Open Scope Z_scope.

(** ** Data *)

Inductive query_state :=
| DAV_REPOS_STATE_PREPARED
| DAV_REPOS_STATE_EXECUTED
| DAV_REPOS_STATE_ERROR.

Record dav_repos_query := Query {
  query_string : string;
  param_count : nat;
  parameters : list (option string);
  state : query_state;
  is_select : bool
}.

(** What [dbms_execute] hands to the driver. *)
Inductive driver_call :=
| NoCall
| AprDbdSelect (text : string)
| AprDbdQuery (text : string).

Definition QMARK : ascii := "?"%char.
Definition QUOTE : ascii := "'"%char.

(** ** Operations *)

Definition dbms_prepare (query : string) : dav_repos_query :=
  Query query (count_char QMARK query) (replicate (count_char QMARK query) None)
    DAV_REPOS_STATE_PREPARED false.

(** [query->parameters[num - 1] = value], under the range check the setters make. *)
Definition set_parameter (q : dav_repos_query) (num : Z) (value : string)
  : Z * dav_repos_query :=
  if bool_decide (num < 1) || bool_decide (Z.of_nat (param_count q) < num)
  then (-1, q)
  else (0, Query (query_string q) (param_count q)
             (<[Z.to_nat (num - 1) := Some value]> (parameters q)) (state q) (is_select q)).

Definition dbms_set_int (q : dav_repos_query) (num : Z) (value : Z)
  : Z * dav_repos_query :=
  set_parameter q num (pretty value).

Definition dbms_set_string (apr_dbd_escape : string -> string) (q : dav_repos_query)
    (num : Z) (value : option string) : Z * dav_repos_query :=
  match value with
  | None => set_parameter q num "null"
  | Some v => set_parameter q num (String QUOTE (apr_dbd_escape v +:+ String QUOTE ""))
  end.

(** [strlen] kept in an [int]. *)
Definition strlen_int (s : string) : Z := wrap32 (Z.of_nat (String.length s)).

(** [full_length], an [int]: the text's length, plus each parameter's, minus one per
    question mark; [None] when a parameter was never set. *)
Fixpoint add_lengths (full_length : Z) (ps : list (option string)) : option Z :=
  match ps with
  | [] => Some full_length
  | None :: _ => None
  | Some p :: r => add_lengths (wrap32 (full_length + (Z.of_nat (String.length p) - 1))) r
  end.

(** A store [buf[i] = c] into an allocated buffer. *)
Definition store (buf : list ascii) (i : nat) (c : ascii) : option (list ascii) :=
  if decide (i < length buf)%nat then Some (<[i := c]> buf) else None.

(** [strcpy(buf + j, p)], terminator included. *)
Fixpoint strcpy (buf : list ascii) (j : nat) (p : string) : option (list ascii) :=
  match p with
  | EmptyString => store buf j NUL
  | String c r =>
      match store buf j c with
      | Some buf => strcpy buf (S j) r
      | None => None
      end
  end.

(** The copying loop of [dbms_execute]: [j] is the write index, [ps] the
    parameters not yet consumed. *)
Fixpoint fill_loop (qs : string) (ps : list (option string)) (buf : list ascii) (j : nat)
  : option (list ascii * nat) :=
  match qs with
  | EmptyString => Some (buf, j)
  | String c r =>
      if Ascii.eqb c QMARK then
        match ps with
        | Some p :: ps =>
            match strcpy buf j p with
            | Some buf => fill_loop r ps buf (j + String.length p)
            | None => None
            end
        | _ => None
        end
      else
        match store buf j c with
        | Some buf => fill_loop r ps buf (S j)
        | None => None
        end
  end.

(** [apr_pcalloc]; a negative size is the greatest part of the memory as an [apr_size_t], which
    is not to be had. *)
Definition apr_pcalloc (size : Z) : option (list ascii) :=
  if decide (size < 0) then None else Some (replicate (Z.to_nat size) NUL).

(** [escquery]; [None] is an access outside the buffer, or no buffer.  The loop goes over the
    first [query_string_length] characters, none when the [int] is negative. *)
Definition build_escquery (q : dav_repos_query) (query_string_length full_length : Z)
  : option string :=
  if decide (param_count q = 0%nat) then Some (query_string q)
  else
    match (apr_pcalloc (wrap32 (full_length + 1))) ≫= fun buf =>
          fill_loop (String.substring 0 (Z.to_nat query_string_length) (query_string q))
            (parameters q) buf 0 with
    | None => None
    | Some (buf, j) =>
        match store buf j NUL with
        | Some buf => Some (c_string buf)
        | None => None
        end
    end.

Definition lower (c : ascii) : ascii :=
  let n := N_of_ascii c in
  if (N.leb 65 n && N.leb n 90)%bool then ascii_of_N (n + 32) else c.

(** [strncasecmp(p, s, strlen(p)) == 0] for a lower-case [p]. *)
Fixpoint prefix_nocase (p s : string) : bool :=
  match p, s with
  | EmptyString, _ => true
  | String a p, String b s => Ascii.eqb a (lower b) && prefix_nocase p s
  | _, _ => false
  end.

Fixpoint strstr (s needle : string) : bool :=
  String.prefix needle s ||
  match s with
  | EmptyString => false
  | String _ r => strstr r needle
  end.

Definition is_select_text (escquery : string) : bool :=
  prefix_nocase "select" escquery || prefix_nocase "with" escquery
  || strstr escquery " RETURNING ".

(** [dbms_execute] up to the driver's answer [error]: the outer [option] is the
    memory-safe run, the pair the return value and the query afterwards. *)
Definition dbms_execute (driver : driver_call -> Z) (q : dav_repos_query)
  : option (Z * dav_repos_query * driver_call) :=
  let query_string_length := strlen_int (query_string q) in
  match add_lengths query_string_length (parameters q) with
  | None => Some (0, q, NoCall)
  | Some full_length =>
      match build_escquery q query_string_length full_length with
      | None => None
      | Some text =>
          let sel := is_select_text text in
          let call := if sel then AprDbdSelect text else AprDbdQuery text in
          let error := driver call in
          let st := if decide (error = 0) then DAV_REPOS_STATE_EXECUTED
                    else DAV_REPOS_STATE_ERROR in
          Some (error,
                Query (query_string q) (param_count q) (parameters q) st
                  (is_select q || sel), call)
      end
  end.

(** ** Specification: one simultaneous substitution *)

Fixpoint substitute (qs : string) (ps : list string) : string :=
  match qs with
  | EmptyString => EmptyString
  | String c r =>
      if Ascii.eqb c QMARK then
        match ps with
        | p :: ps => p +:+ substitute r ps
        | [] => EmptyString
        end
      else String c (substitute r ps)
  end.

Fixpoint total_length (ps : list string) : nat :=
  match ps with [] => 0%nat | p :: r => (String.length p + total_length r)%nat end.

(** ** Lemmas *)

Lemma wrap32_add a b : wrap32 (wrap32 a + b) = wrap32 (a + b).
Proof.
  unfold wrap32. f_equal. replace ((a + 2 ^ 31) mod 2 ^ 32 - 2 ^ 31 + b + 2 ^ 31)
    with ((a + 2 ^ 31) mod 2 ^ 32 + b) by lia.
  rewrite Zplus_mod_idemp_l. f_equal. lia.
Qed.

Lemma add_lengths_some n (ps : list string) :
  add_lengths (wrap32 n) (Some <$> ps)
  = Some (wrap32 (n + Z.of_nat (total_length ps) - Z.of_nat (length ps))).
Proof.
  revert n. induction ps as [|p ps IH]; intros n; cbn [fmap list_fmap add_lengths].
  - cbn. do 2 f_equal. lia.
  - rewrite wrap32_add, IH. cbn [total_length length]. do 2 f_equal. lia.
Qed.

Lemma add_lengths_unset n ps : None ∈ ps -> add_lengths n ps = None.
Proof.
  revert n. induction ps as [|[p|] ps IH]; intros n H; [set_solver| |done].
  cbn. apply IH. set_solver.
Qed.

Lemma substitute_length qs ps :
  count_char QMARK qs = length ps ->
  (String.length (substitute qs ps) + length ps
   = String.length qs + total_length ps)%nat.
Proof.
  revert ps. induction qs as [|c r IH]; intros ps Hc; cbn in *.
  - by destruct ps.
  - destruct (Ascii.eqb c QMARK); cbn in *.
    + destruct ps as [|p ps]; cbn in *; [done|]. injection Hc as Hc.
      rewrite string_length_app. specialize (IH _ Hc). lia.
    + specialize (IH _ Hc). lia.
Qed.

(** The contents of a buffer from index 0 to [j]. *)
Fixpoint chars (s : string) : list ascii :=
  match s with EmptyString => [] | String c r => c :: chars r end.

Lemma chars_app s t : chars (s +:+ t) = chars s ++ chars t.
Proof. induction s as [|c s IH]; [done|]. cbn. f_equal. exact IH. Qed.

Lemma length_chars s : length (chars s) = String.length s.
Proof. induction s as [|c s IH]; [done|]. cbn. by rewrite IH. Qed.

Lemma c_string_chars s r :
  string_forall not_nul s = true -> c_string (chars s ++ NUL :: r) = s.
Proof.
  induction s as [|c s IH]; cbn; [done|]. intros [H1 H2]%andb_prop.
  unfold not_nul in H1. destruct (Ascii.eqb c NUL); [done|]. by rewrite IH.
Qed.

Lemma store_at (pre : list ascii) j x post c :
  length pre = j -> store (pre ++ x :: post) j c = Some (pre ++ c :: post).
Proof.
  intros <-. unfold store. rewrite decide_True by (rewrite length_app; cbn; lia).
  by rewrite insert_app_r_alt, Nat.sub_diag by lia.
Qed.

(** [strcpy] at the end of what is already written. *)
Lemma strcpy_at p (pre tail : list ascii) :
  (String.length p < length tail)%nat ->
  exists tail', strcpy (pre ++ tail) (length pre) p = Some (pre ++ chars p ++ tail')
    /\ (length tail' + String.length p = length tail)%nat.
Proof.
  revert pre tail. induction p as [|c p IH]; intros pre tail H; cbn in *.
  - destruct tail as [|x tail]; [cbn in H; lia|].
    rewrite store_at by done. exists (NUL :: tail). split; [done|]. cbn. lia.
  - destruct tail as [|x tail]; [cbn in H; lia|]. cbn in H.
    rewrite store_at by done.
    destruct (IH (pre ++ [c]) tail) as (tail' & Ht & Hl); [lia|].
    rewrite length_app, Nat.add_comm in Ht. cbn in Ht.
    rewrite <- !app_assoc in Ht. exists tail'. split; [exact Ht|]. cbn. lia.
Qed.

Lemma fill_loop_at qs ps (pre tail : list ascii) :
  count_char QMARK qs = length ps ->
  (String.length (substitute qs ps) < length tail)%nat ->
  exists tail',
    fill_loop qs (Some <$> ps) (pre ++ tail) (length pre)
    = Some (pre ++ chars (substitute qs ps) ++ tail',
            (length pre + String.length (substitute qs ps))%nat)
    /\ (length tail' + String.length (substitute qs ps) = length tail)%nat.
Proof.
  revert ps pre tail. induction qs as [|c r IH]; intros ps pre tail Hc Hlen; cbn in *.
  { exists tail. by rewrite Nat.add_0_r. }
  destruct (Ascii.eqb c QMARK); cbn in *.
  - destruct ps as [|p ps]; [done|]. cbn in *. injection Hc as Hc.
    rewrite string_length_app in *.
    destruct (strcpy_at p pre tail) as (tail1 & -> & Hl1); [lia|].
    destruct (IH ps (pre ++ chars p) tail1) as (tail2 & Ht2 & Hl2); [done|lia|].
    rewrite length_app, length_chars, <- app_assoc in Ht2. rewrite Ht2.
    exists tail2. split; [|lia].
    rewrite chars_app, <- !app_assoc. f_equal. f_equal. lia.
  - destruct tail as [|x tail]; [cbn in Hlen; lia|]. cbn in Hlen.
    rewrite store_at by done.
    destruct (IH ps (pre ++ [c]) tail) as (tail2 & Ht2 & Hl2); [done|lia|].
    rewrite length_app, Nat.add_comm, <- !app_assoc in Ht2. cbn in Ht2. rewrite Ht2.
    exists tail2. split; [|cbn; lia]. cbn. f_equal. f_equal. lia.
Qed.

Lemma substitute_none qs : count_char QMARK qs = 0%nat -> substitute qs [] = qs.
Proof.
  induction qs as [|c r IH]; cbn; [done|].
  destruct (Ascii.eqb c QMARK); [done|]. intros H. by rewrite IH.
Qed.

Lemma count_char_substitute_0 qs ps :
  count_char QMARK qs = 0%nat -> substitute qs ps = qs.
Proof.
  induction qs as [|c r IH]; cbn; [done|].
  destruct (Ascii.eqb c QMARK); [done|]. intros H. by rewrite IH.
Qed.

(** A text and its terminator whose lengths are [int]s. *)
Definition fits (text : string) : Prop := Z.of_nat (String.length text) < 2 ^ 31 - 1.

#[export] Instance fits_dec text : Decision (fits text).
Proof. unfold fits. apply _. Defined.

Lemma substring_all s : String.substring 0 (String.length s) s = s.
Proof. induction s as [|c s IH]; [done|]. cbn. by rewrite IH. Qed.

Lemma strlen_int_fits s : fits s -> strlen_int s = Z.of_nat (String.length s).
Proof. unfold fits, strlen_int. intros H. apply wrap32_small. lia. Qed.

(** The length computed for a query with its parameters, and the text the loop goes over. *)
Lemma full_length_of qs ps :
  count_char QMARK qs = length ps ->
  add_lengths (strlen_int qs) (Some <$> ps)
  = Some (wrap32 (Z.of_nat (String.length (substitute qs ps)))).
Proof.
  intros Hc. unfold strlen_int. rewrite add_lengths_some. pose proof (substitute_length qs ps Hc). 
  do 2 f_equal. lia.
Qed.

(** The buffer computed by [dbms_execute] is filled to its last byte and holds
    the substituted text. *)
Lemma build_escquery_ok qs ps st sel :
  count_char QMARK qs = length ps -> fits qs -> fits (substitute qs ps) ->
  string_forall not_nul (substitute qs ps) = true ->
  build_escquery (Query qs (length ps) (Some <$> ps) st sel) (strlen_int qs)
    (wrap32 (Z.of_nat (String.length (substitute qs ps))))
  = Some (substitute qs ps).
Proof.
  intros Hc Hq Ht Hnul. unfold build_escquery. cbn [param_count query_string parameters].
  case_decide as H0.
  { rewrite count_char_substitute_0 by congruence. done. }
  rewrite (strlen_int_fits qs Hq), Nat2Z.id, substring_all. unfold fits in Ht.
  rewrite wrap32_add, wrap32_small by lia. unfold apr_pcalloc. rewrite decide_False by lia. cbn [mbind option_bind].
  destruct (fill_loop_at qs ps []
    (replicate (Z.to_nat (Z.of_nat (String.length (substitute qs ps)) + 1)) NUL))
    as (tail & Hf & Hl); [done|rewrite length_replicate; lia|].
  cbn [app length] in Hf. rewrite Hf. rewrite length_replicate in Hl.
  destruct tail as [|x tail]; [cbn in Hl; lia|].
  rewrite store_at by (rewrite length_chars; lia).
  by rewrite c_string_chars.
Qed.

Lemma store_bound buf j c buf' : store buf j c = Some buf' ->
  (j < length buf)%nat /\ length buf' = length buf.
Proof.
  unfold store. case_decide; [|done]. intros [= <-]. split; [done|apply length_insert].
Qed.

Lemma strcpy_bound p buf j buf' : strcpy buf j p = Some buf' ->
  (j + String.length p < length buf)%nat /\ length buf' = length buf.
Proof.
  revert buf j. induction p as [|c p IH]; intros buf j; cbn [strcpy String.length].
  - intros [? ?]%store_bound. split; [lia|done].
  - destruct (store buf j c) as [b|] eqn:E; [|done]. apply store_bound in E as [_ El].
    intros [? ?]%IH. split; [lia|congruence].
Qed.

(** What the loop writes is written to the buffer. *)
Lemma fill_loop_bound qs ps buf j buf' j' :
  count_char QMARK qs = length ps -> fill_loop qs (Some <$> ps) buf j = Some (buf', j') ->
  j' = (j + String.length (substitute qs ps))%nat /\ length buf' = length buf.
Proof.
  revert ps buf j. induction qs as [|c r IH]; intros ps buf j Hc; cbn in *.
  - intros [= <- <-]. split; [lia|done].
  - destruct (Ascii.eqb c QMARK); cbn in *.
    + destruct ps as [|p ps]; [done|]. cbn in *. injection Hc as Hc.
      destruct (strcpy buf j p) as [b|] eqn:E; [|done]. apply strcpy_bound in E as [_ El].
      intros H. apply IH in H as [-> ->]; [|done]. rewrite string_length_app. split; [lia|done].
    + destruct (store buf j c) as [b|] eqn:E; [|done]. apply store_bound in E as [_ El].
      intros H. apply IH in H as [-> ->]; [|done]. cbn [String.length]. split; [lia|done].
Qed.

(** A text whose length is no [int] never gets into the buffer. *)
Lemma build_escquery_overflow qs ps st sel :
  count_char QMARK qs = length ps -> fits qs -> ~ fits (substitute qs ps) ->
  build_escquery (Query qs (length ps) (Some <$> ps) st sel) (strlen_int qs)
    (wrap32 (Z.of_nat (String.length (substitute qs ps)))) = None.
Proof.
  intros Hc Hq Ht. assert (ps <> []) as Hps.
  { intros ->. apply Ht. by rewrite substitute_none. }
  unfold build_escquery, fits in *. cbn [param_count query_string parameters].
  rewrite decide_False by (by destruct ps).
  rewrite (strlen_int_fits qs Hq), Nat2Z.id, substring_all, wrap32_add.
  set (size := wrap32 _). assert (size < 2 ^ 31) as Hs by apply wrap32_range.
  unfold apr_pcalloc. case_decide; [done|]. cbn [mbind option_bind].
  destruct (fill_loop _ _ _ _) as [[buf j]|] eqn:E; [|done].
  apply fill_loop_bound in E as [-> El]; [|done]. rewrite length_replicate in El.
  destruct (store buf _ NUL) as [b|] eqn:E; [|done]. apply store_bound in E as [E _].
  exfalso. rewrite El in E. apply Nat2Z.inj_lt in E. rewrite Z2Nat.id in E by lia.
  cbn [Nat.add] in E. lia.
Qed.

(** A setter within the range of the parameters. *)
Lemma set_parameter_in_range q num v :
  1 <= num <= Z.of_nat (param_count q) ->
  (set_parameter q num v).2
  = Query (query_string q) (param_count q)
      (<[Z.to_nat (num - 1) := Some v]> (parameters q)) (state q) (is_select q).
Proof.
  intros H. unfold set_parameter. by rewrite !bool_decide_false by lia.
Qed.

(** ** Properties *)

(** A value for a parameter, and its setter. *)
Inductive param_value := ParamInt (value : Z) | ParamString (value : option string).

Section setters.
Variable apr_dbd_escape : string -> string.

Definition set_value (q : dav_repos_query) (num : Z) (v : param_value) : dav_repos_query :=
  match v with
  | ParamInt z => (dbms_set_int q num z).2
  | ParamString s => (dbms_set_string apr_dbd_escape q num s).2
  end.

(** The parameters set one after the other, from number [num]. *)
Fixpoint set_values (q : dav_repos_query) (num : Z) (vs : list param_value)
  : dav_repos_query :=
  match vs with
  | [] => q
  | v :: vs => set_values (set_value q num v) (num + 1) vs
  end.

(** What stands for a value in the text. *)
Definition text_of_value (v : param_value) : string :=
  match v with
  | ParamInt z => pretty z
  | ParamString None => "null"
  | ParamString (Some s) => String QUOTE (apr_dbd_escape s +:+ String QUOTE "")
  end.

Lemma set_value_text q num v : set_value q num v = (set_parameter q num (text_of_value v)).2.
Proof. by destruct v as [z|[s|]]. Qed.

Lemma set_values_parameters vs done rest qs n st sel :
  (length vs <= length rest)%nat -> n = (length done + length rest)%nat ->
  set_values (Query qs n (done ++ rest) st sel) (Z.of_nat (length done) + 1) vs
  = Query qs n (done ++ (Some <$> map text_of_value vs) ++ drop (length vs) rest) st sel.
Proof.
  revert done rest. induction vs as [|v vs IH]; intros dn rest Hl Hn; cbn [set_values].
  { by cbn. }
  destruct rest as [|x rest]; cbn in Hl; [lia|].
  rewrite set_value_text, set_parameter_in_range by (subst n; cbn; lia).
  cbn [query_string param_count parameters state is_select].
  replace (Z.to_nat (Z.of_nat (length dn) + 1 - 1)) with (length dn) by lia.
  rewrite insert_app_r_alt, Nat.sub_diag by lia. cbn [insert list_insert].
  specialize (IH (dn ++ [Some (text_of_value v)]) rest).
  rewrite length_app, Nat2Z.inj_add, <- !app_assoc in IH. cbn [length app] in IH.
  change (Z.of_nat 1) with 1 in IH.
  rewrite IH by (subst n; cbn; lia). done.
Qed.

(** C30. A prepared query whose parameters are all set is executed as the one
    simultaneous substitution of the values for the question marks, exactly when the length
    of the result and its terminator is an [int]: the buffer is then filled and never
    overrun, a value with a question mark is not substituted again, and the state records the
    driver's answer, which is also returned.  For a longer text the size wraps round: there is no
    buffer, or the text is written out of it. *)
Theorem execute_substitutes driver qs vs :
  count_char QMARK qs = length vs -> fits qs ->
  string_forall not_nul (substitute qs (map text_of_value vs)) = true ->
  let text := substitute qs (map text_of_value vs) in
  let call := if is_select_text text then AprDbdSelect text else AprDbdQuery text in
  let result := dbms_execute driver (set_values (dbms_prepare qs) 1 vs) in
  (fits text ->
   exists q', result = Some (driver call, q', call)
     /\ state q' = if decide (driver call = 0) then DAV_REPOS_STATE_EXECUTED
                   else DAV_REPOS_STATE_ERROR)
  /\ (~ fits text -> result = None).
Proof.
  intros Hc Hfq Hnul text call result. unfold result, dbms_prepare.
  rewrite (set_values_parameters vs [] (replicate (count_char QMARK qs) None))
    by (rewrite length_replicate; cbn; lia).
  rewrite drop_ge, app_nil_r by (rewrite length_replicate; lia). cbn [app].
  unfold dbms_execute. cbn [query_string parameters].
  assert (Hc' : count_char QMARK qs = length (map text_of_value vs)) by (by rewrite length_map).
  rewrite full_length_of, Hc' by done. split; intros Hf.
  - rewrite build_escquery_ok by done. eexists. split; [reflexivity|done].
  - by rewrite build_escquery_overflow.
Qed.

(** A query with a parameter that was never set is not executed, and 0, success,
    is returned. *)
Theorem execute_unset driver q :
  None ∈ parameters q -> dbms_execute driver q = Some (0, q, NoCall).
Proof. intros H. unfold dbms_execute. by rewrite add_lengths_unset. Qed.
End setters.

Lemma execute_substitutes_witness :
  let qs := "SELECT id FROM binds WHERE name = ? AND collection_id = ?"%string in
  let vs := [ParamString (Some "what?"%string); ParamInt 12] in
  exists q', dbms_execute (fun _ => 0) (set_values (fun s => s) (dbms_prepare qs) 1 vs)
    = Some (0, q', AprDbdSelect
        "SELECT id FROM binds WHERE name = 'what?' AND collection_id = 12")
    /\ state q' = DAV_REPOS_STATE_EXECUTED.
Proof.
  cbv zeta. refine (proj1 (execute_substitutes (fun s => s) (fun _ => 0)
    "SELECT id FROM binds WHERE name = ? AND collection_id = ?"
    [ParamString (Some "what?"%string); ParamInt 12] _ _ _) _);
    vm_compute; reflexivity.
Defined.

Lemma execute_unset_witness :
  dbms_execute (fun _ => 1) (dbms_prepare "DELETE FROM binds WHERE name = 'what?'")
  = Some (0, dbms_prepare "DELETE FROM binds WHERE name = 'what?'", NoCall).
Proof. apply execute_unset. cbn. left. Defined.
