(* ===== verification/Numbers.v ===== *)
(** * Numbers in texts ([atoi], [atoll] of the C library)

    A text is read as the number its leading digits denote; what [pretty] writes is
    read back. *)
From S2P Require Import Prelude Util.
From stdpp Require Import pretty.
Local Open Scope Z_scope.

Definition digit (c : ascii) : option Z :=
  let n := Z.of_N (N_of_ascii c) in
  if bool_decide (48 <= n <= 57) then Some (n - 48) else None.

Fixpoint atoi_digits (acc : Z) (s : string) : Z :=
  match s with
  | EmptyString => acc
  | String c rest =>
      match digit c with
      | Some d => atoi_digits (10 * acc + d) rest
      | None => acc
      end
  end.

(** A sign and digits, after white space. *)
Definition signed_digits (s : string) : Z :=
  match skip_spaces s with
  | String c rest =>
      if Ascii.eqb c "-"%char then - atoi_digits 0 rest
      else if Ascii.eqb c "+"%char then atoi_digits 0 rest
      else atoi_digits 0 (String c rest)
  | EmptyString => 0
  end.

(** An [int] has 32 bits; a [long long] has 64 and stays at its bounds. *)
Definition atoi (s : string) : Z := wrap32 (signed_digits s).
Definition atoll (s : string) : Z := Z.max (- 2 ^ 63) (Z.min (2 ^ 63 - 1) (signed_digits s)).

(** The digits of a number. *)
Lemma atoi_digits_pretty_go (x : N) s :
  (0 < x)%N -> atoi_digits 0 (pretty_N_go x s) = atoi_digits (Z.of_N x) s.
Proof.
  revert s. induction (N.lt_wf_0 x) as [x _ IH]. intros s Hx. rewrite pretty_N_go_step by done.
  assert (forall a r, atoi_digits a (String (pretty_N_char (x mod 10)) r)
                      = atoi_digits (10 * a + Z.of_N (x mod 10)) r) as Hd.
  { intros a r. assert (x mod 10 < 10)%N as Hm by (apply N.mod_lt; lia).
    destruct (x mod 10)%N as [|p]; [done|].
    repeat (destruct p as [p|p|]; try done; try lia). }
  destruct (decide (x / 10 = 0)%N) as [E|E].
  - rewrite E, pretty_N_go_0, Hd. f_equal. pose proof (N.div_mod' x 10). lia.
  - rewrite IH; [|apply N.div_lt; lia|by apply N.neq_0_lt_0]. rewrite Hd. f_equal. pose proof (N.div_mod' x 10). lia.
Qed.

Lemma pretty_go_digits (x : N) s (f : ascii -> bool) :
  (forall n, (n < 10)%N -> f (pretty_N_char n) = true) ->
  string_forall f s = true -> string_forall f (pretty_N_go x s) = true.
Proof.
  intros Hf. revert s. induction (N.lt_wf_0 x) as [x _ IH]. intros s Hs.
  destruct (decide (x = 0)%N) as [->|]; [by rewrite pretty_N_go_0|].
  rewrite pretty_N_go_step by lia. apply IH; [apply N.div_lt; lia|].
  cbn. rewrite Hf by (apply N.mod_lt; lia). done.
Qed.

Lemma pretty_go_nonempty (x : N) s : s <> EmptyString -> pretty_N_go x s <> EmptyString.
Proof.
  revert s. induction (N.lt_wf_0 x) as [x _ IH]. intros s Hs.
  destruct (decide (x = 0)%N) as [->|]; [by rewrite pretty_N_go_0|].
  rewrite pretty_N_go_step by lia. apply IH; [apply N.div_lt; lia|done].
Qed.

(** The text of a positive number starts with a digit. *)
Lemma pretty_go_digit (p : positive) :
  exists c r, pretty_N_go (N.pos p) "" = String c r /\ is_Some (digit c).
Proof.
  assert (string_forall (fun c => bool_decide (is_Some (digit c))) (pretty_N_go (N.pos p) "") = true) as Hd.
  { apply pretty_go_digits; [|done]. intros m Hm. destruct m as [|q]; [done|].
    repeat (destruct q as [q|q|]; try done; try lia). }
  assert (pretty_N_go (N.pos p) "" <> EmptyString) as Hne.
  { rewrite pretty_N_go_step by lia. by apply pretty_go_nonempty. }
  destruct (pretty_N_go (N.pos p) "") as [|c r]; [done|].
  cbn in Hd. apply andb_prop in Hd as [Hc%bool_decide_eq_true _]. by exists c, r.
Qed.

(** What is written is read back. *)
Lemma signed_digits_pretty (n : Z) : signed_digits (pretty n) = n.
Proof.
  destruct n as [|p|p]; [done| |].
  - change (pretty (Z.pos p)) with (pretty_N_go (N.pos p) "").
    pose proof (atoi_digits_pretty_go (N.pos p) "" eq_refl) as Ha.
    destruct (pretty_go_digit p) as (c & r & E & Hc). rewrite E in *.
    unfold signed_digits. assert (skip_spaces (String c r) = String c r
      /\ Ascii.eqb c "-" = false /\ Ascii.eqb c "+" = false) as (-> & -> & ->).
    { destruct c as [[] [] [] [] [] [] [] []]; try (by destruct Hc); by repeat split. }
    by rewrite Ha.
  - change (signed_digits (pretty (Z.neg p))) with (- atoi_digits 0 (pretty_N_go (N.pos p) "")).
    by rewrite (atoi_digits_pretty_go (N.pos p) "" eq_refl).
Qed.

Lemma atoll_pretty (n : Z) : - 2 ^ 63 <= n < 2 ^ 63 -> atoll (pretty n) = n.
Proof. intros H. unfold atoll. rewrite signed_digits_pretty. lia. Qed.
