(* ===== verification/Times.v ===== *)
(** * Times ([limestone/util.c])

    An [apr_time_t] counts microseconds from the beginning of 1970; the tables hold its
    text, to the second.  [apr_time_exp_gmt] and [apr_time_exp_get] are a class whose laws are
    what [apr] documents: each gives back what the other was given.  The texts are written
    as by [strftime] and read as by [sscanf] of the C library. *)
From S2P Require Import Prelude Util Numbers.
From stdpp Require Import pretty.
Local Open Scope Z_scope.

(** ** The library *)

(** [apr_time_exp_t]: the fields that are used. *)
Record apr_time_exp_t := TimeExp {
  tm_sec : Z; tm_min : Z; tm_hour : Z;
  tm_mday : Z; tm_mon : Z; tm_year : Z
}.

(** [apr_time_exp_get] is [None] for an error, when the result is not set: [unset_time] is what
    the variable for it then holds. *)
Class AprTime := {
  apr_time_exp_gmt : Z -> apr_time_exp_t;
  apr_time_exp_get : apr_time_exp_t -> option Z;
  unset_time : Z
}.

(** A date of the calendar from 1970 on. *)
Record calendar_date (x : apr_time_exp_t) : Prop := {
  cd_sec : 0 <= tm_sec x <= 60;
  cd_min : 0 <= tm_min x <= 59;
  cd_hour : 0 <= tm_hour x <= 23;
  cd_mday : 1 <= tm_mday x <= 31;
  cd_mon : 0 <= tm_mon x <= 11;
  cd_year : 70 <= tm_year x <= 2 ^ 30
}.

(** [t - t mod 1000000] is the time without its microseconds. *)
Class AprTimeLaws (A : AprTime) : Prop := {
  exp_gmt_date t : 0 <= t < 2 ^ 63 -> calendar_date (apr_time_exp_gmt t);
  exp_get_gmt t : 0 <= t < 2 ^ 63 ->
    apr_time_exp_get (apr_time_exp_gmt t) = Some (t - t mod 1000000);
  exp_gmt_seconds t : 0 <= t < 2 ^ 63 ->
    apr_time_exp_gmt (t - t mod 1000000) = apr_time_exp_gmt t;
  exp_gmt_9999 : apr_time_exp_gmt 253402214400000000 = TimeExp 0 0 0 31 11 8099
}.

(** ** Texts *)

(** [%m], [%d] and the parts of [%X]: two digits; [%Y] is the number of the year. *)
Definition digit_char (d : Z) : ascii := ascii_of_N (Z.to_N (48 + d)).
Definition two_digits (n : Z) : string :=
  String (digit_char (n / 10)) (String (digit_char (n mod 10)) EmptyString).

Definition strftime_datetime (x : apr_time_exp_t) : string :=
  pretty (tm_year x + 1900) +:+ String "-" (two_digits (tm_mon x + 1)
    +:+ String "-" (two_digits (tm_mday x) +:+ String " " (two_digits (tm_hour x)
    +:+ String ":" (two_digits (tm_min x) +:+ String ":" (two_digits (tm_sec x)))))).

(** The directives of [sscanf]: a number, a character as it is, white space. *)
Inductive scan_directive := ScanInt | ScanChar (c : ascii) | ScanBlank.

(** The digits at the start and what follows them. *)
Fixpoint scan_digits (acc : Z) (s : string) : Z * string :=
  match s with
  | EmptyString => (acc, EmptyString)
  | String c rest =>
      match digit c with
      | Some d => scan_digits (10 * acc + d) rest
      | None => (acc, s)
      end
  end.

Definition scan_unsigned (s : string) : option (Z * string) :=
  match s with
  | String c _ => if decide (is_Some (digit c)) then Some (scan_digits 0 s) else None
  | EmptyString => None
  end.

(** [%d]: white space, a sign, digits. *)
Definition scan_int (s : string) : option (Z * string) :=
  match skip_spaces s with
  | String c rest =>
      if Ascii.eqb c "-"%char then
        match scan_unsigned rest with Some (n, r) => Some (wrap32 (- n), r) | None => None end
      else
        match scan_unsigned (if Ascii.eqb c "+"%char then rest else String c rest) with
        | Some (n, r) => Some (wrap32 n, r)
        | None => None
        end
  | EmptyString => None
  end.

(** The numbers that are read, up to the first directive that does not fit. *)
Fixpoint sscanf (fmt : list scan_directive) (s : string) : list Z :=
  match fmt with
  | [] => []
  | ScanInt :: fmt =>
      match scan_int s with
      | Some (n, rest) => n :: sscanf fmt rest
      | None => []
      end
  | ScanChar c :: fmt =>
      match s with
      | String d rest => if Ascii.eqb c d then sscanf fmt rest else []
      | EmptyString => []
      end
  | ScanBlank :: fmt => sscanf fmt (skip_spaces s)
  end.

Definition datetime_format : list scan_directive :=
  [ScanInt; ScanChar "-"; ScanInt; ScanChar "-"; ScanInt; ScanBlank;
   ScanInt; ScanChar ":"; ScanInt; ScanChar ":"; ScanInt]%char.

(** ** Operations *)

Definition INF_TIME_STR : string := "9999-12-31 00:00:00".

Section times.
Context {A : AprTime}.

Definition dav_repos_format_time (t : Z) : string :=
  if decide (t = 0) then INF_TIME_STR else strftime_datetime (apr_time_exp_gmt t).

(** A field that is not read stays 0. *)
Definition dav_repos_parse_time (t : string) : Z :=
  if String.eqb t INF_TIME_STR then 0
  else
    let field i := default 0 (sscanf datetime_format t !! i) in
    let tx := TimeExp (field 5%nat) (field 4%nat) (field 3%nat) (field 2%nat)
                (wrap32 (field 1%nat - 1)) (wrap32 (field 0%nat - 1900)) in
    default unset_time (apr_time_exp_get tx).

(** [apr_time_sec] and [apr_time_ansi_put]: [time_t] counts seconds. *)
Definition time_datetime_to_ansi (datetime : string) : Z :=
  Z.quot (dav_repos_parse_time datetime) 1000000.
Definition time_ansi_to_datetime (ansi_time : Z) : string :=
  dav_repos_format_time (wrap64 (ansi_time * 1000000)).
End times.

(** ** Lemmas: texts *)

(** What follows a number. *)
Definition no_digit (rest : string) : Prop :=
  match rest with String c _ => digit c = None | EmptyString => True end.

Lemma digit_of_char d : 0 <= d < 10 ->
  digit (digit_char d) = Some d /\ isspace (digit_char d) = false
  /\ Ascii.eqb (digit_char d) "-" = false /\ Ascii.eqb (digit_char d) "+" = false.
Proof.
  intros H. assert (d ∈ seqZ 0 10) as Hin by (apply elem_of_seqZ; lia).
  assert (Forall (fun d => digit (digit_char d) = Some d /\ isspace (digit_char d) = false
    /\ Ascii.eqb (digit_char d) "-" = false /\ Ascii.eqb (digit_char d) "+" = false) (seqZ 0 10))
    as Hf by (repeat constructor).
  rewrite list.Forall_forall in Hf. by apply Hf.
Qed.

(** A text that begins with a digit is read as a number. *)
Lemma scan_int_digits c s d n rest :
  digit c = Some d -> isspace c = false -> Ascii.eqb c "-" = false -> Ascii.eqb c "+" = false ->
  scan_digits d s = (n, rest) -> - 2 ^ 31 <= n < 2 ^ 31 ->
  scan_int (String c s) = Some (n, rest).
Proof.
  intros Hd Hs Hm Hp Hn Hr. unfold scan_int. cbn [skip_spaces]. rewrite Hs, Hm, Hp.
  unfold scan_unsigned. rewrite Hd, decide_True by (by eexists). cbn [scan_digits].
  rewrite Hd. replace (10 * 0 + d) with d by lia. rewrite Hn, wrap32_small by lia. done.
Qed.

Lemma scan_digits_stop n rest : no_digit rest -> scan_digits n rest = (n, rest).
Proof. destruct rest as [|c r]; [done|]. cbn. by intros ->. Qed.

Lemma scan_two_digits n rest :
  0 <= n <= 99 -> no_digit rest -> scan_int (two_digits n +:+ rest) = Some (n, rest).
Proof.
  intros Hn Hr. pose proof (Z.div_mod n 10 ltac:(lia)). pose proof (Z.mod_pos_bound n 10 ltac:(lia)).
  destruct (digit_of_char (n / 10)) as (H1 & H2 & H3 & H4); [lia|].
  destruct (digit_of_char (n mod 10)) as (H5 & _); [lia|].
  unfold two_digits. cbn [String.append]. eapply scan_int_digits; [done..| |].
  - cbn [scan_digits]. rewrite H5. rewrite scan_digits_stop by done.
    replace (10 * (n / 10) + n mod 10) with n by lia. done.
  - lia.
Qed.

Lemma pretty_go_app (x : N) s t : pretty_N_go x s +:+ t = pretty_N_go x (s +:+ t).
Proof.
  revert s. induction (N.lt_wf_0 x) as [x _ IH]. intros s.
  destruct (decide (x = 0)%N) as [->|]; [by rewrite !pretty_N_go_0|].
  rewrite !(pretty_N_go_step x) by lia. rewrite IH by (apply N.div_lt; lia). done.
Qed.

Lemma digit_of_pretty m : (m < 10)%N ->
  digit (pretty_N_char m) = Some (Z.of_N m) /\ isspace (pretty_N_char m) = false
  /\ Ascii.eqb (pretty_N_char m) "-" = false /\ Ascii.eqb (pretty_N_char m) "+" = false.
Proof.
  intros H. destruct m as [|p]; [done|]. repeat (destruct p as [p|p|]; try done; try lia).
Qed.

Lemma pretty_go_first (x : N) s :
  (0 < x)%N -> exists m r, (m < 10)%N /\ pretty_N_go x s = String (pretty_N_char m) r
    /\ forall a, scan_digits a (String (pretty_N_char m) r) = scan_digits (10 * a + Z.of_N m) r.
Proof.
  revert s. induction (N.lt_wf_0 x) as [x _ IH]. intros s Hx. rewrite pretty_N_go_step by done.
  assert (x mod 10 < 10)%N as Hm by (apply N.mod_lt; lia).
  destruct (decide (x / 10 = 0)%N) as [E|E].
  - rewrite E, pretty_N_go_0. exists (x mod 10)%N, s. split_and!; [done|done|].
    intros a. cbn [scan_digits]. by rewrite (proj1 (digit_of_pretty _ Hm)).
  - apply IH; [apply N.div_lt; lia|by apply N.neq_0_lt_0].
Qed.

Lemma scan_digits_pretty (x : N) s :
  scan_digits 0 (pretty_N_go x s) = scan_digits (Z.of_N x) s.
Proof.
  revert s. induction (N.lt_wf_0 x) as [x _ IH]. intros s.
  destruct (decide (x = 0)%N) as [->|]; [by rewrite pretty_N_go_0|].
  rewrite pretty_N_go_step, IH by (try apply N.div_lt; lia).
  assert (x mod 10 < 10)%N as Hm by (apply N.mod_lt; lia).
  cbn [scan_digits]. rewrite (proj1 (digit_of_pretty _ Hm)). f_equal.
  pose proof (N.div_mod' x 10). lia.
Qed.

Lemma scan_int_pretty n rest :
  0 < n < 2 ^ 31 -> no_digit rest -> scan_int (pretty n +:+ rest) = Some (n, rest).
Proof.
  intros Hn Hr. destruct n as [|p|p]; [lia| |lia].
  change (pretty (Z.pos p)) with (pretty_N_go (N.pos p) "").
  rewrite pretty_go_app. cbn [String.append].
  pose proof (scan_digits_pretty (N.pos p) rest) as Hs.
  destruct (pretty_go_first (N.pos p) rest) as (m & r & Hm & E & Hd); [lia|].
  rewrite E in *. destruct (digit_of_pretty m Hm) as (H1 & H2 & H3 & H4).
  rewrite Hd in Hs. eapply scan_int_digits; [done..| |].
  - replace (10 * 0 + Z.of_N m) with (Z.of_N m) in Hs by lia. rewrite Hs. by apply scan_digits_stop.
  - cbn. lia.
Qed.

(** The text of a date is read as its fields. *)
Lemma scan_datetime x :
  calendar_date x ->
  sscanf datetime_format (strftime_datetime x)
  = [tm_year x + 1900; tm_mon x + 1; tm_mday x; tm_hour x; tm_min x; tm_sec x].
Proof.
  intros [Hs Hm Hh Hd Hmo Hy]. unfold datetime_format, strftime_datetime.
  cbn [sscanf]. rewrite scan_int_pretty by (try done; lia). f_equal.
  cbn [Ascii.eqb Bool.eqb]. rewrite scan_two_digits by (try done; lia). f_equal.
  cbn [Ascii.eqb Bool.eqb]. rewrite scan_two_digits by (try done; lia). f_equal.
  cbn [skip_spaces]. change (isspace " ") with true. cbn iota.
  assert (forall n r, 0 <= n <= 99 -> skip_spaces (two_digits n +:+ r) = two_digits n +:+ r) as Hsk.
  { intros n r Hn. unfold two_digits. cbn [String.append skip_spaces].
    by destruct (digit_of_char (n / 10)) as (_ & -> & _); [split; [apply Z.div_pos|apply Z.div_lt_upper_bound]; lia|]. }
  rewrite Hsk, scan_two_digits by (try done; lia). f_equal.
  cbn [Ascii.eqb Bool.eqb]. rewrite scan_two_digits by (try done; lia). f_equal.
  cbn [Ascii.eqb Bool.eqb].
  rewrite <- (string_app_nil_r (two_digits (tm_sec x))), scan_two_digits by (try done; lia). done.
Qed.

(** ** Round trips *)

(** The seconds of the date that stands for infinity. *)
Definition INF_SECONDS : Z := 253402214400.

Section laws.
Context {A : AprTime} {L : AprTimeLaws A}.

Lemma strftime_inj x y :
  calendar_date x -> calendar_date y -> strftime_datetime x = strftime_datetime y -> x = y.
Proof.
  intros Hx Hy E. pose proof (scan_datetime x Hx) as H. rewrite E, (scan_datetime y Hy) in H.
  destruct x, y. cbn in H. injection H as ? ? ? ? ? ?. f_equal; lia.
Qed.

Lemma INF_TIME_STR_date : INF_TIME_STR = strftime_datetime (apr_time_exp_gmt (INF_SECONDS * 1000000)).
Proof. change (INF_SECONDS * 1000000) with 253402214400000000. by rewrite exp_gmt_9999. Qed.

(** The text of a time is that of infinity in the one second only. *)
Lemma format_infinite t :
  0 <= t < 2 ^ 63 ->
  strftime_datetime (apr_time_exp_gmt t) = INF_TIME_STR <-> t / 1000000 = INF_SECONDS.
Proof.
  intros Ht. pose proof (Z.div_mod t 1000000 ltac:(lia)) as Hdm.
  pose proof (Z.mod_pos_bound t 1000000 ltac:(lia)) as Hb.
  rewrite INF_TIME_STR_date, <- (exp_gmt_seconds t Ht). unfold INF_SECONDS in *. split.
  - intros E. apply strftime_inj in E; [|apply exp_gmt_date; lia..].
    apply (f_equal apr_time_exp_get) in E. rewrite exp_gmt_seconds, !exp_get_gmt in E by done.
    injection E as E. change (253402214400 * 1000000 - (253402214400 * 1000000) mod 1000000)
      with 253402214400000000 in E. lia.
  - intros E. do 2 f_equal. lia.
Qed.

(** A time is read back from its text to the second, but for the last day of the year 9999 at
    0 o'clock, which is read as 0. *)
Lemma parse_format t :
  0 <= t < 2 ^ 63 ->
  dav_repos_parse_time (dav_repos_format_time t)
  = if decide (t / 1000000 = INF_SECONDS) then 0 else t - t mod 1000000.
Proof.
  intros Ht. unfold dav_repos_format_time. case_decide as H0.
  { subst t. by rewrite decide_False. }
  unfold dav_repos_parse_time. destruct (String.eqb_spec (strftime_datetime (apr_time_exp_gmt t)) INF_TIME_STR) as [E|E].
  - apply format_infinite in E; [|done]. by rewrite decide_True.
  - rewrite decide_False by (by rewrite <- format_infinite).
    pose proof (exp_gmt_date t Ht) as Hd. rewrite scan_datetime by done. cbn.
    destruct Hd. rewrite !wrap32_small by lia.
    replace (TimeExp _ _ _ _ _ _) with (apr_time_exp_gmt t); [by rewrite exp_get_gmt|].
    destruct (apr_time_exp_gmt t). cbn. f_equal; lia.
Qed.

(** A time in seconds is read back as it was written, 0 for a lock that never expires, but for
    the one second that stands for infinity. *)
Theorem ansi_time_roundtrip t :
  0 <= t <= 9223372036854 ->
  time_datetime_to_ansi (time_ansi_to_datetime t) = (if decide (t = INF_SECONDS) then 0 else t)
  /\ (time_ansi_to_datetime t = INF_TIME_STR <-> t = 0 \/ t = INF_SECONDS).
Proof.
  intros Ht. unfold time_datetime_to_ansi, time_ansi_to_datetime. rewrite wrap64_small by lia.
  rewrite parse_format, Z.div_mul, Z.mod_mul, Z.sub_0_r by lia. split.
  - case_decide; [done|]. by rewrite Z.quot_mul.
  - unfold dav_repos_format_time. case_decide as H; [split; [left; lia|done]|].
    rewrite format_infinite, Z.div_mul by lia. lia.
Qed.

(** [Util.time_apr_to_str] is the time that its text denotes. *)
Lemma time_apr_to_str_denotes t :
  0 <= t < 2 ^ 63 -> t / 1000000 <> INF_SECONDS ->
  dav_repos_parse_time (dav_repos_format_time t) = time_apr_to_str t.
Proof. intros Ht Hi. rewrite parse_format by done. by rewrite decide_False. Qed.
End laws.

(** ** The calendar *)

(** The day of the calendar of a number of days since March 1st of the year 0, by centuries,
    four years, years and the months from March on. *)
Definition civil_of_days (z : Z) : Z * Z * Z :=
  let era := z / 146097 in
  let r := z mod 146097 in
  let c := Z.min 3 (r / 36524) in let r := r - c * 36524 in
  let q := r / 1461 in let r := r mod 1461 in
  let y := Z.min 3 (r / 365) in let doy := r - y * 365 in
  let mp := (5 * doy + 2) / 153 in
  let year := era * 400 + c * 100 + q * 4 + y in
  (if decide (mp < 10) then year else year + 1,
   if decide (mp < 10) then mp + 2 else mp - 10,
   doy - (153 * mp + 2) / 5 + 1).

(** The days before a date; the months count from 0. *)
Definition days_of_civil (year mon mday : Z) : Z :=
  let y := if decide (mon < 2) then year - 1 else year in
  let mp := if decide (mon < 2) then mon + 10 else mon - 2 in
  y * 365 + y / 4 - y / 100 + y / 400 + (153 * mp + 2) / 5 + mday - 1.

(** January 1st of 1970 is the day 719468. *)
Definition gregorian : AprTime := {|
  apr_time_exp_gmt t :=
    let s := Z.quot t 1000000 in
    let '(year, mon, mday) := civil_of_days (s / 86400 + 719468) in
    TimeExp (s mod 60) (s / 60 mod 60) (s / 3600 mod 24) mday mon (year - 1900);
  apr_time_exp_get x :=
    let s := (days_of_civil (tm_year x + 1900) (tm_mon x) (tm_mday x) - 719468) * 86400
             + tm_hour x * 3600 + tm_min x * 60 + tm_sec x in
    if bool_decide (0 <= tm_mon x < 12) && bool_decide (0 <= s) then Some (s * 1000000) else None;
  unset_time := 0
|}.

(** The parts of a day of the calendar, and the number they denote. *)
Lemma civil_parts z :
  0 <= z ->
  exists era c q y doy,
    z = era * 146097 + c * 36524 + q * 1461 + y * 365 + doy
    /\ 0 <= era /\ 0 <= c <= 3 /\ 0 <= q <= 24 /\ 0 <= y <= 3 /\ 0 <= doy <= 365
    /\ era = z / 146097
    /\ let mp := (5 * doy + 2) / 153 in
       0 <= mp <= 11
       /\ civil_of_days z
          = (if decide (mp < 10) then era * 400 + c * 100 + q * 4 + y
             else era * 400 + c * 100 + q * 4 + y + 1,
             if decide (mp < 10) then mp + 2 else mp - 10, doy - (153 * mp + 2) / 5 + 1).
Proof.
  intros Hz. set (era := z / 146097). set (r := z mod 146097).
  set (c := Z.min 3 (r / 36524)). set (r1 := r - c * 36524).
  set (q := r1 / 1461). set (r2 := r1 mod 1461).
  set (y := Z.min 3 (r2 / 365)). exists era, c, q, y, (r2 - y * 365).
  assert (0 <= r < 146097) as Hr by (apply Z.mod_pos_bound; lia).
  assert (z = 146097 * era + r) as Hzr by (apply Z.div_mod; lia).
  assert (0 <= era) as He by (apply Z.div_pos; lia).
  assert (0 <= r1 <= 36524 /\ 0 <= c <= 3) as [Hr1 Hc].
  { pose proof (Z.div_mod r 36524 ltac:(lia)). pose proof (Z.mod_pos_bound r 36524 ltac:(lia)). lia. }
  assert (r1 = 1461 * q + r2 /\ 0 <= r2 < 1461) as [Hr1' Hr2].
  { split; [apply Z.div_mod; lia|apply Z.mod_pos_bound; lia]. }
  assert (0 <= r2 - y * 365 <= 365 /\ 0 <= y <= 3) as [Hd Hy].
  { pose proof (Z.div_mod r2 365 ltac:(lia)). pose proof (Z.mod_pos_bound r2 365 ltac:(lia)). lia. }
  do 6 (split; [lia|]). split; [done|]. cbv zeta. split; [|reflexivity].
  set (doy := r2 - y * 365) in *. pose proof (Z.div_mod (5 * doy + 2) 153 ltac:(lia)).
  pose proof (Z.mod_pos_bound (5 * doy + 2) 153 ltac:(lia)). lia.
Qed.

Lemma days_of_march era c q y mp :
  0 <= era -> 0 <= c <= 3 -> 0 <= q <= 24 -> 0 <= y <= 3 ->
  let Y := era * 400 + c * 100 + q * 4 + y in
  Y * 365 + Y / 4 - Y / 100 + Y / 400 + (153 * mp + 2) / 5
  = era * 146097 + c * 36524 + q * 1461 + y * 365 + (153 * mp + 2) / 5.
Proof.
  intros He Hc Hq Hy Y.
  assert (Y / 4 = era * 100 + c * 25 + q) as -> by (symmetry; apply (Z.div_unique _ _ _ y); lia).
  assert (Y / 100 = era * 4 + c) as -> by (symmetry; apply (Z.div_unique _ _ _ (q * 4 + y)); lia).
  assert (Y / 400 = era) as -> by (symmetry; apply (Z.div_unique _ _ _ (c * 100 + q * 4 + y)); lia).
  unfold Y. lia.
Qed.

(** A day of the calendar is the day of its number, in the bounds of a date. *)
Lemma civil_days z :
  0 <= z ->
  let '(year, mon, mday) := civil_of_days z in
  days_of_civil year mon mday = z /\ 0 <= mon <= 11 /\ 1 <= mday <= 31
  /\ (719468 <= z -> 1970 <= year) /\ 365 * (year - 1) <= z.
Proof.
  intros Hz. destruct (civil_parts z Hz) as (era & c & q & y & doy & E & He & Hc & Hq & Hy & Hd & _ & Hmp & ->).
  set (mp := (5 * doy + 2) / 153) in *.
  pose proof (days_of_march era c q y mp He Hc Hq Hy) as H. cbv zeta in H.
  assert (153 * mp <= 5 * doy + 2 < 153 * (mp + 1)) as Hmd.
  { pose proof (Z.div_mod (5 * doy + 2) 153 ltac:(lia)). pose proof (Z.mod_pos_bound (5 * doy + 2) 153 ltac:(lia)). lia. }
  assert (153 * mp + 2 - 4 <= 5 * ((153 * mp + 2) / 5) <= 153 * mp + 2) as Hm5.
  { pose proof (Z.div_mod (153 * mp + 2) 5 ltac:(lia)). pose proof (Z.mod_pos_bound (153 * mp + 2) 5 ltac:(lia)). lia. }
  set (Y := era * 400 + c * 100 + q * 4 + y) in *.
  assert (365 * Y <= z) as HY by (unfold Y; lia).
  destruct (decide (mp < 10)); cbn beta iota.
  - split; [|split; [lia|split; [lia|split; [intros Hz'; unfold Y in *; lia|lia]]]].
    unfold days_of_civil. rewrite !decide_False by lia. replace (mp + 2 - 2) with mp by lia. lia.
  - split; [|split; [lia|split; [lia|split; [intros Hz'; unfold Y in *; lia|lia]]]].
    unfold days_of_civil. rewrite !decide_True by lia.
    replace (mp - 10 + 10) with mp by lia. replace (Y + 1 - 1) with Y by lia. lia.
Qed.

#[export] Instance gregorian_laws : AprTimeLaws gregorian.
Proof.
  assert (forall t, 0 <= t < 2 ^ 63 -> let s := t / 1000000 in
    0 <= s < 9223372036855 /\ 0 <= s / 86400 < 106751992 /\ Z.quot t 1000000 = s) as Hs.
  { intros t Ht s. assert (0 <= s < 9223372036855) as Hb.
    { split; [apply Z.div_pos; lia|apply Z.div_lt_upper_bound; lia]. }
    split_and!; try lia; [apply Z.div_pos; lia|apply Z.div_lt_upper_bound; lia|].
    apply Z.quot_div_nonneg; lia. }
  split.
  - intros t Ht. destruct (Hs t Ht) as (Hb & Hd & Hq). cbn -[civil_of_days Z.quot Z.div Z.modulo Z.pow].
    rewrite Hq. set (s := t / 1000000) in *.
    pose proof (civil_days (s / 86400 + 719468) ltac:(lia)) as H.
    destruct (civil_of_days _) as [[year mon] mday]. destruct H as (_ & Hm & Hmd & Hy1 & Hy2).
    specialize (Hy1 ltac:(lia)).
    pose proof (Z.mod_pos_bound s 60 ltac:(lia)). pose proof (Z.mod_pos_bound (s / 60) 60 ltac:(lia)).
    pose proof (Z.mod_pos_bound (s / 3600) 24 ltac:(lia)). split; cbn -[Z.pow Z.div Z.modulo]; lia.
  - intros t Ht. destruct (Hs t Ht) as (Hb & Hd & Hq). cbn -[civil_of_days days_of_civil Z.quot Z.div Z.modulo Z.pow].
    rewrite Hq. set (s := t / 1000000) in *.
    pose proof (civil_days (s / 86400 + 719468) ltac:(lia)) as H.
    destruct (civil_of_days _) as [[year mon] mday]. destruct H as (H & Hm & _).
    cbn -[days_of_civil Z.div Z.modulo Z.mul].
    replace (year - 1900 + 1900) with year by lia. rewrite H.
    replace ((s / 86400 + 719468 - 719468) * 86400 + s / 3600 mod 24 * 3600 + s / 60 mod 60 * 60 + s mod 60)
      with s by (Z.div_mod_to_equations; lia).
    rewrite !bool_decide_true by lia. cbn -[Z.mul]. f_equal. unfold s.
    pose proof (Z.div_mod t 1000000 ltac:(lia)). lia.
  - intros t Ht. cbn -[civil_of_days Z.quot Z.div Z.modulo].
    pose proof (Z.div_mod t 1000000 ltac:(lia)). pose proof (Z.mod_pos_bound t 1000000 ltac:(lia)).
    assert (0 <= t / 1000000) by (apply Z.div_pos; lia).
    replace (Z.quot (t - t mod 1000000) 1000000) with (Z.quot t 1000000); [done|].
    rewrite !Z.quot_div_nonneg by lia. apply Z.div_unique with 0; lia.
  - vm_compute. reflexivity.
Qed.
