(* ===== verification/Mime.v ===== *)
(** * Files and types of bodies ([limestone/util.c])

    Where a body is stored, the hash of a password and the type of a file. *)
From S2P Require Import Prelude Util Dbd.
Local Open Scope Z_scope.

Section files.
(** The server's directory, and the function of httpd that removes double slashes. *)
Variable file_dir : string.
Variable ap_no2slash : string -> string.

(** The eight first characters of the digest name four directories; a shorter digest is
    read past its end. *)
Fixpoint hash_dirs (n : nat) (hash : string) : option (string * string) :=
  match n, hash with
  | O, _ => Some (EmptyString, hash)
  | S n, String a (String b rest) =>
      match hash_dirs n rest with
      | Some (dirs, file) => Some ("/" +:+ String a (String b dirs), file)
      | None => None
      end
  | S _, _ => None
  end.

Definition generate_path (hash : string) : option string :=
  match hash_dirs 4 hash with
  | Some (dirs, file) => Some (ap_no2slash (file_dir +:+ dirs) +:+ "/" +:+ file)
  | None => None
  end.
End files.

(** The sum that the code writes for an empty body. *)
Definition sha1_of_empty : string := "da39a3ee5e6b4b0d3255bfef95601890afd80709".

Section password.
Variable apr_md5 : string -> list Z.

Definition hex_digit (d : Z) : ascii :=
  Ascii.ascii_of_nat (Z.to_nat (if bool_decide (d < 10) then 48 + d else 87 + d)).

Fixpoint hex_string (bytes : list Z) : string :=
  match bytes with
  | [] => EmptyString
  | b :: rest => String (hex_digit (Z.shiftr b 4)) (String (hex_digit (Z.land b 15)) (hex_string rest))
  end.

Definition get_password_hash (user password : string) : string :=
  hex_string (apr_md5 (user +:+ ":users@limebits.com:" +:+ password)).
End password.

Section mime.
Variable basename : string -> string.
Variable dav_repos_mime_type_ext_map : string -> option string.
Variable guess_mime_type : string -> string.

(** [strrchr (s, '.') + 1] *)
Fixpoint extension (s : string) : option string :=
  match s with
  | EmptyString => None
  | String c rest =>
      match extension rest with
      | Some e => Some e
      | None => if Ascii.eqb c "."%char then Some rest else None
      end
  end.

Definition get_mime_type (uri path : string) : string :=
  match extension (basename uri) with
  | Some ext => default (guess_mime_type path) (dav_repos_mime_type_ext_map ext)
  | None => guess_mime_type path
  end.
End mime.
