(* ===== verification/Db.v ===== *)
(** * The database: tables, statements, connection

    The tables of [limestone/create_postgres_full.sql] and of the change sets
    of [limestone/database], with the columns the C code reads or writes
    (less [comment], a text that is only passed through), and the connection on which the
    [dbms_*] functions execute their statements.

    A table is the list of its rows; a statement of the source is the function
    from tables to tables its SQL text denotes.  Rows of a query without ORDER BY
    come in the order of the table's list, so a theorem about every table holds
    for every order in which the server may deliver them.  A statement fails
    when it violates a UNIQUE or CHECK constraint of the schema, or when the
    server refuses it: the connection carries the list of the coming refusals,
    one boolean per statement, and no theorem assumes it empty unless it says so. *)
From S2P Require Import Prelude Util.
Local Open Scope Z_scope.

(** ** Resource types ([dav_repos.h]) *)

Inductive dav_repos_type :=
| dav_repos_RESOURCE | dav_repos_COLLECTION | dav_repos_PRINCIPAL | dav_repos_USER
| dav_repos_GROUP | dav_repos_REDIRECT | dav_repos_VERSION | dav_repos_VERSIONED
| dav_repos_VERSIONHISTORY | dav_repos_VERSIONED_COLLECTION
| dav_repos_COLLECTION_VERSION | dav_repos_LOCKNULL.

#[export] Instance dav_repos_type_eq_dec : EqDecision dav_repos_type.
Proof. solve_decision. Defined.

Definition all_types : list dav_repos_type :=
  [dav_repos_RESOURCE; dav_repos_COLLECTION; dav_repos_PRINCIPAL; dav_repos_USER;
   dav_repos_GROUP; dav_repos_REDIRECT; dav_repos_VERSION; dav_repos_VERSIONED;
   dav_repos_VERSIONHISTORY; dav_repos_VERSIONED_COLLECTION;
   dav_repos_COLLECTION_VERSION; dav_repos_LOCKNULL].

Definition dav_repos_resource_types (t : dav_repos_type) : string :=
  match t with
  | dav_repos_RESOURCE => "Resource"
  | dav_repos_COLLECTION => "Collection"
  | dav_repos_PRINCIPAL => "Principal"
  | dav_repos_USER => "User"
  | dav_repos_GROUP => "Group"
  | dav_repos_REDIRECT => "Redirect"
  | dav_repos_VERSION => "Version"
  | dav_repos_VERSIONED => "VersionControlled"
  | dav_repos_VERSIONHISTORY => "VersionHistory"
  | dav_repos_VERSIONED_COLLECTION => "VersionedCollection"
  | dav_repos_COLLECTION_VERSION => "CollectionVersion"
  | dav_repos_LOCKNULL => "LockNull"
  end.

(** [None] is [dav_repos_MAX_TYPES]. *)
Definition dav_repos_get_type_id (type : string) : option dav_repos_type :=
  List.find (fun t => String.eqb (dav_repos_resource_types t) type) all_types.

(** ** Rows *)

Record bind_row := BindRow {
  b_id : Z; b_name : string; b_coll : Z; b_res : Z; b_updated : Z }.
Record resource_row := ResourceRow {
  r_id : Z; r_uuid : string; r_type : dav_repos_type; r_owner : Z; r_creator : Z;
  r_displayname : string; r_created : Z; r_lastmodified : Z;
  r_language : string; r_limebar : option string }.
Record media_row := MediaRow {
  m_res : Z; m_size : Z; m_mimetype : option string; m_sha1 : string; m_updated : Z }.
Record cleanup_row := CleanupRow { c_id : Z; c_res : Z }.
Record quota_row := QuotaRow { q_prin : Z; q_used : Z; q_total : Z }.
Record lock_row := LockRow {
  l_id : Z; l_uuid : string; l_res : Z; l_owner : Z; l_form : string; l_depth : Z;
  l_expires : string; l_owner_info : string; l_lockroot : string }.
Record principal_row := PrincipalRow { p_res : Z; p_name : string }.
Record ace_row := AceRow {
  a_id : Z; a_grantdeny : string; a_protected : string; a_res : Z; a_prin : Z;
  a_prop_ns : Z; a_prop_name : option string }.
Record privilege_row := PrivilegeRow {
  v_id : Z; v_ns : Z; v_name : string; v_lft : Z; v_rgt : Z }.
Record tgm_row := TgmRow { t_group : Z; t_member : Z; t_count : Z }.
Record vcr_row := VcrRow {
  vc_res : Z; vc_checked : Z; vc_vhr : Z; vc_state : string; vc_version_type : Z;
  vc_checkin_on_unlock : Z }.
Record version_row := VersionRow {
  ve_res : Z; ve_number : Z; ve_vcr : option Z; ve_vhr : Z }.

#[export] Instance bind_row_eq_dec : EqDecision bind_row.
Proof. solve_decision. Defined.
#[export] Instance cleanup_row_eq_dec : EqDecision cleanup_row.
Proof. solve_decision. Defined.
#[export] Instance tgm_row_eq_dec : EqDecision tgm_row.
Proof. solve_decision. Defined.

Record redirect_row := RedirectRow {
  rd_res : Z; rd_target : string; rd_lifetime : string }.
Record property_row := PropertyRow {
  pr_ns : Z; pr_name : string; pr_res : Z; pr_xmlinfo : string; pr_value : string }.
Record user_row := UserRow {
  u_prin : Z; u_pwhash : string; u_email : option string; u_pwhash_type : string;
  u_login_all : bool }.

Record domain_row := DomainRow {
  do_prin : Z; do_domain : string; do_path : string }.

(** The next values of the sequences that number the rows; they never go back. *)
Record sequence_values := Sequences {
  resources_id_seq : Z; binds_id_seq : Z; cleanup_id_seq : Z; locks_id_seq : Z;
  aces_id_seq : Z; namespaces_id_seq : Z }.

(** ** Tables *)

Record db := Db {
  resources : list resource_row;
  binds : list bind_row;
  media : list media_row;
  cleanup : list cleanup_row;
  quota : list quota_row;
  locks : list lock_row;
  locks_resources : list (Z * Z);      (* lock_id, resource_id *)
  binds_locks : list (Z * Z);          (* lock_id, bind_id *)
  principals : list principal_row;
  group_members : list (Z * Z);        (* group_id, member_id *)
  transitive_group_members : list tgm_row;
  aces : list ace_row;
  dav_aces_privileges : list (Z * Z);  (* ace_id, privilege_id *)
  acl_privileges : list privilege_row;
  acl_inheritance : list (Z * string); (* resource_id, path *)
  namespaces : list (Z * string);      (* id, name *)
  vcrs : list vcr_row;
  versions : list version_row;
  vhrs : list (Z * Z);                 (* resource_id, root_version_id *)
  collections : list (Z * Z);          (* resource_id, auto_version_new_children *)
  redirectrefs : list redirect_row;
  properties : list property_row;
  users : list user_row;
  user_domains : list domain_row;
  sequences : sequence_values
}.

Definition empty_db : db :=
  Db [] [] [] [] [] [] [] [] [] [] [] [] [] [] [] [] [] [] [] [] [] [] [] []
     (Sequences 1 1 1 1 1 1).

(** Replacing one table. *)
Definition set_resources (x : list resource_row) (d : db) : db :=
  Db x (binds d) (media d) (cleanup d) (quota d) (locks d) (locks_resources d)
     (binds_locks d) (principals d) (group_members d)
     (transitive_group_members d) (aces d) (dav_aces_privileges d)
     (acl_privileges d) (acl_inheritance d) (namespaces d) (vcrs d) (versions
     d) (vhrs d) (collections d) (redirectrefs d) (properties d) (users d)
     (user_domains d) (sequences d).
Definition set_binds (x : list bind_row) (d : db) : db :=
  Db (resources d) x (media d) (cleanup d) (quota d) (locks d)
     (locks_resources d) (binds_locks d) (principals d) (group_members d)
     (transitive_group_members d) (aces d) (dav_aces_privileges d)
     (acl_privileges d) (acl_inheritance d) (namespaces d) (vcrs d) (versions
     d) (vhrs d) (collections d) (redirectrefs d) (properties d) (users d)
     (user_domains d) (sequences d).
Definition set_media (x : list media_row) (d : db) : db :=
  Db (resources d) (binds d) x (cleanup d) (quota d) (locks d)
     (locks_resources d) (binds_locks d) (principals d) (group_members d)
     (transitive_group_members d) (aces d) (dav_aces_privileges d)
     (acl_privileges d) (acl_inheritance d) (namespaces d) (vcrs d) (versions
     d) (vhrs d) (collections d) (redirectrefs d) (properties d) (users d)
     (user_domains d) (sequences d).
Definition set_cleanup (x : list cleanup_row) (d : db) : db :=
  Db (resources d) (binds d) (media d) x (quota d) (locks d) (locks_resources
     d) (binds_locks d) (principals d) (group_members d)
     (transitive_group_members d) (aces d) (dav_aces_privileges d)
     (acl_privileges d) (acl_inheritance d) (namespaces d) (vcrs d) (versions
     d) (vhrs d) (collections d) (redirectrefs d) (properties d) (users d)
     (user_domains d) (sequences d).
Definition set_quota (x : list quota_row) (d : db) : db :=
  Db (resources d) (binds d) (media d) (cleanup d) x (locks d)
     (locks_resources d) (binds_locks d) (principals d) (group_members d)
     (transitive_group_members d) (aces d) (dav_aces_privileges d)
     (acl_privileges d) (acl_inheritance d) (namespaces d) (vcrs d) (versions
     d) (vhrs d) (collections d) (redirectrefs d) (properties d) (users d)
     (user_domains d) (sequences d).
Definition set_locks (x : list lock_row) (d : db) : db :=
  Db (resources d) (binds d) (media d) (cleanup d) (quota d) x
     (locks_resources d) (binds_locks d) (principals d) (group_members d)
     (transitive_group_members d) (aces d) (dav_aces_privileges d)
     (acl_privileges d) (acl_inheritance d) (namespaces d) (vcrs d) (versions
     d) (vhrs d) (collections d) (redirectrefs d) (properties d) (users d)
     (user_domains d) (sequences d).
Definition set_locks_resources (x : list (Z * Z)) (d : db) : db :=
  Db (resources d) (binds d) (media d) (cleanup d) (quota d) (locks d) x
     (binds_locks d) (principals d) (group_members d)
     (transitive_group_members d) (aces d) (dav_aces_privileges d)
     (acl_privileges d) (acl_inheritance d) (namespaces d) (vcrs d) (versions
     d) (vhrs d) (collections d) (redirectrefs d) (properties d) (users d)
     (user_domains d) (sequences d).
Definition set_binds_locks (x : list (Z * Z)) (d : db) : db :=
  Db (resources d) (binds d) (media d) (cleanup d) (quota d) (locks d)
     (locks_resources d) x (principals d) (group_members d)
     (transitive_group_members d) (aces d) (dav_aces_privileges d)
     (acl_privileges d) (acl_inheritance d) (namespaces d) (vcrs d) (versions
     d) (vhrs d) (collections d) (redirectrefs d) (properties d) (users d)
     (user_domains d) (sequences d).
Definition set_principals (x : list principal_row) (d : db) : db :=
  Db (resources d) (binds d) (media d) (cleanup d) (quota d) (locks d)
     (locks_resources d) (binds_locks d) x (group_members d)
     (transitive_group_members d) (aces d) (dav_aces_privileges d)
     (acl_privileges d) (acl_inheritance d) (namespaces d) (vcrs d) (versions
     d) (vhrs d) (collections d) (redirectrefs d) (properties d) (users d)
     (user_domains d) (sequences d).
Definition set_group_members (x : list (Z * Z)) (d : db) : db :=
  Db (resources d) (binds d) (media d) (cleanup d) (quota d) (locks d)
     (locks_resources d) (binds_locks d) (principals d) x
     (transitive_group_members d) (aces d) (dav_aces_privileges d)
     (acl_privileges d) (acl_inheritance d) (namespaces d) (vcrs d) (versions
     d) (vhrs d) (collections d) (redirectrefs d) (properties d) (users d)
     (user_domains d) (sequences d).
Definition set_transitive_group_members (x : list tgm_row) (d : db) : db :=
  Db (resources d) (binds d) (media d) (cleanup d) (quota d) (locks d)
     (locks_resources d) (binds_locks d) (principals d) (group_members d) x
     (aces d) (dav_aces_privileges d) (acl_privileges d) (acl_inheritance d)
     (namespaces d) (vcrs d) (versions d) (vhrs d) (collections d)
     (redirectrefs d) (properties d) (users d) (user_domains d) (sequences d).
Definition set_aces (x : list ace_row) (d : db) : db :=
  Db (resources d) (binds d) (media d) (cleanup d) (quota d) (locks d)
     (locks_resources d) (binds_locks d) (principals d) (group_members d)
     (transitive_group_members d) x (dav_aces_privileges d) (acl_privileges d)
     (acl_inheritance d) (namespaces d) (vcrs d) (versions d) (vhrs d)
     (collections d) (redirectrefs d) (properties d) (users d) (user_domains
     d) (sequences d).
Definition set_dav_aces_privileges (x : list (Z * Z)) (d : db) : db :=
  Db (resources d) (binds d) (media d) (cleanup d) (quota d) (locks d)
     (locks_resources d) (binds_locks d) (principals d) (group_members d)
     (transitive_group_members d) (aces d) x (acl_privileges d)
     (acl_inheritance d) (namespaces d) (vcrs d) (versions d) (vhrs d)
     (collections d) (redirectrefs d) (properties d) (users d) (user_domains
     d) (sequences d).
Definition set_acl_privileges (x : list privilege_row) (d : db) : db :=
  Db (resources d) (binds d) (media d) (cleanup d) (quota d) (locks d)
     (locks_resources d) (binds_locks d) (principals d) (group_members d)
     (transitive_group_members d) (aces d) (dav_aces_privileges d) x
     (acl_inheritance d) (namespaces d) (vcrs d) (versions d) (vhrs d)
     (collections d) (redirectrefs d) (properties d) (users d) (user_domains
     d) (sequences d).
Definition set_acl_inheritance (x : list (Z * string)) (d : db) : db :=
  Db (resources d) (binds d) (media d) (cleanup d) (quota d) (locks d)
     (locks_resources d) (binds_locks d) (principals d) (group_members d)
     (transitive_group_members d) (aces d) (dav_aces_privileges d)
     (acl_privileges d) x (namespaces d) (vcrs d) (versions d) (vhrs d)
     (collections d) (redirectrefs d) (properties d) (users d) (user_domains
     d) (sequences d).
Definition set_namespaces (x : list (Z * string)) (d : db) : db :=
  Db (resources d) (binds d) (media d) (cleanup d) (quota d) (locks d)
     (locks_resources d) (binds_locks d) (principals d) (group_members d)
     (transitive_group_members d) (aces d) (dav_aces_privileges d)
     (acl_privileges d) (acl_inheritance d) x (vcrs d) (versions d) (vhrs d)
     (collections d) (redirectrefs d) (properties d) (users d) (user_domains
     d) (sequences d).
Definition set_vcrs (x : list vcr_row) (d : db) : db :=
  Db (resources d) (binds d) (media d) (cleanup d) (quota d) (locks d)
     (locks_resources d) (binds_locks d) (principals d) (group_members d)
     (transitive_group_members d) (aces d) (dav_aces_privileges d)
     (acl_privileges d) (acl_inheritance d) (namespaces d) x (versions d)
     (vhrs d) (collections d) (redirectrefs d) (properties d) (users d)
     (user_domains d) (sequences d).
Definition set_versions (x : list version_row) (d : db) : db :=
  Db (resources d) (binds d) (media d) (cleanup d) (quota d) (locks d)
     (locks_resources d) (binds_locks d) (principals d) (group_members d)
     (transitive_group_members d) (aces d) (dav_aces_privileges d)
     (acl_privileges d) (acl_inheritance d) (namespaces d) (vcrs d) x (vhrs d)
     (collections d) (redirectrefs d) (properties d) (users d) (user_domains
     d) (sequences d).
Definition set_vhrs (x : list (Z * Z)) (d : db) : db :=
  Db (resources d) (binds d) (media d) (cleanup d) (quota d) (locks d)
     (locks_resources d) (binds_locks d) (principals d) (group_members d)
     (transitive_group_members d) (aces d) (dav_aces_privileges d)
     (acl_privileges d) (acl_inheritance d) (namespaces d) (vcrs d) (versions
     d) x (collections d) (redirectrefs d) (properties d) (users d)
     (user_domains d) (sequences d).
Definition set_collections (x : list (Z * Z)) (d : db) : db :=
  Db (resources d) (binds d) (media d) (cleanup d) (quota d) (locks d)
     (locks_resources d) (binds_locks d) (principals d) (group_members d)
     (transitive_group_members d) (aces d) (dav_aces_privileges d)
     (acl_privileges d) (acl_inheritance d) (namespaces d) (vcrs d) (versions
     d) (vhrs d) x (redirectrefs d) (properties d) (users d) (user_domains d)
     (sequences d).
Definition set_redirectrefs (x : list redirect_row) (d : db) : db :=
  Db (resources d) (binds d) (media d) (cleanup d) (quota d) (locks d)
     (locks_resources d) (binds_locks d) (principals d) (group_members d)
     (transitive_group_members d) (aces d) (dav_aces_privileges d)
     (acl_privileges d) (acl_inheritance d) (namespaces d) (vcrs d) (versions
     d) (vhrs d) (collections d) x (properties d) (users d) (user_domains d)
     (sequences d).
Definition set_properties (x : list property_row) (d : db) : db :=
  Db (resources d) (binds d) (media d) (cleanup d) (quota d) (locks d)
     (locks_resources d) (binds_locks d) (principals d) (group_members d)
     (transitive_group_members d) (aces d) (dav_aces_privileges d)
     (acl_privileges d) (acl_inheritance d) (namespaces d) (vcrs d) (versions
     d) (vhrs d) (collections d) (redirectrefs d) x (users d) (user_domains d)
     (sequences d).
Definition set_users (x : list user_row) (d : db) : db :=
  Db (resources d) (binds d) (media d) (cleanup d) (quota d) (locks d)
     (locks_resources d) (binds_locks d) (principals d) (group_members d)
     (transitive_group_members d) (aces d) (dav_aces_privileges d)
     (acl_privileges d) (acl_inheritance d) (namespaces d) (vcrs d) (versions
     d) (vhrs d) (collections d) (redirectrefs d) (properties d) x
     (user_domains d) (sequences d).
Definition set_user_domains (x : list domain_row) (d : db) : db :=
  Db (resources d) (binds d) (media d) (cleanup d) (quota d) (locks d)
     (locks_resources d) (binds_locks d) (principals d) (group_members d)
     (transitive_group_members d) (aces d) (dav_aces_privileges d)
     (acl_privileges d) (acl_inheritance d) (namespaces d) (vcrs d) (versions
     d) (vhrs d) (collections d) (redirectrefs d) (properties d) (users d) x
     (sequences d).
Definition set_sequences (x : sequence_values) (d : db) : db :=
  Db (resources d) (binds d) (media d) (cleanup d) (quota d) (locks d)
     (locks_resources d) (binds_locks d) (principals d) (group_members d)
     (transitive_group_members d) (aces d) (dav_aces_privileges d)
     (acl_privileges d) (acl_inheritance d) (namespaces d) (vcrs d) (versions
     d) (vhrs d) (collections d) (redirectrefs d) (properties d) (users d)
     (user_domains d) x.

(** [nextval]: the identifier a new row gets, and the sequence afterwards. *)
Definition bump_resources_id_seq (d : db) : db :=
  set_sequences (Sequences (1 + resources_id_seq (sequences d)) (binds_id_seq (sequences d))
    (cleanup_id_seq (sequences d)) (locks_id_seq (sequences d))
    (aces_id_seq (sequences d)) (namespaces_id_seq (sequences d))) d.
Definition bump_binds_id_seq (d : db) : db :=
  set_sequences (Sequences (resources_id_seq (sequences d)) (1 + binds_id_seq (sequences d))
    (cleanup_id_seq (sequences d)) (locks_id_seq (sequences d))
    (aces_id_seq (sequences d)) (namespaces_id_seq (sequences d))) d.
Definition bump_cleanup_id_seq (d : db) : db :=
  set_sequences (Sequences (resources_id_seq (sequences d)) (binds_id_seq (sequences d)) (1 +
    cleanup_id_seq (sequences d)) (locks_id_seq (sequences d))
    (aces_id_seq (sequences d)) (namespaces_id_seq (sequences d))) d.
Definition bump_locks_id_seq (d : db) : db :=
  set_sequences (Sequences (resources_id_seq (sequences d)) (binds_id_seq (sequences d))
    (cleanup_id_seq (sequences d)) (1 + locks_id_seq (sequences d))
    (aces_id_seq (sequences d)) (namespaces_id_seq (sequences d))) d.
Definition bump_aces_id_seq (d : db) : db :=
  set_sequences (Sequences (resources_id_seq (sequences d)) (binds_id_seq (sequences d))
    (cleanup_id_seq (sequences d)) (locks_id_seq (sequences d)) (1 +
    aces_id_seq (sequences d)) (namespaces_id_seq (sequences d))) d.
Definition bump_namespaces_id_seq (d : db) : db :=
  set_sequences (Sequences (resources_id_seq (sequences d)) (binds_id_seq (sequences d))
    (cleanup_id_seq (sequences d)) (locks_id_seq (sequences d))
    (aces_id_seq (sequences d)) (1 + namespaces_id_seq (sequences d))) d.

(** ** The connection *)

Record conn := Conn {
  c_db : db;
  c_faults : list bool;   (** the coming refusals, [true] for a refused statement *)
  c_now : Z;              (** the clock ([apr_time_now]) *)
  c_files : list string;  (** the sha1 names of the bodies in [DAVDBMSFileDir] *)
  c_errnum : bool         (** a statement failed since the transaction began *)
}.

Definition M (A : Type) : Type := conn -> A * conn.

#[export] Instance M_ret : MRet M := fun A x s => (x, s).
#[export] Instance M_bind : MBind M := fun A B f m s => let '(a, s') := m s in f a s'.

(** [dbms_execute]: [None] for a non-zero return. *)
Definition execute {R} (stmt : db -> option (R * db)) : M (option R) := fun s =>
  match c_faults s with
  | true :: fs => (None, Conn (c_db s) fs (c_now s) (c_files s) true)
  | fs =>
      let fs' := tail fs in
      match stmt (c_db s) with
      | None => (None, Conn (c_db s) fs' (c_now s) (c_files s) true)
      | Some (r, d) => (Some r, Conn d fs' (c_now s) (c_files s) (c_errnum s))
      end
  end.

(** SELECT, and the statements no constraint can reject. *)
Definition select {R} (f : db -> R) : M (option R) := execute (fun d => Some (f d, d)).
Definition update (f : db -> db) : M (option unit) := execute (fun d => Some (tt, f d)).

Definition get_db : M db := fun s => (c_db s, s).
Definition get_files : M (list string) := fun s => (c_files s, s).
Definition set_files (l : list string) : M unit := fun s =>
  (tt, Conn (c_db s) (c_faults s) (c_now s) l (c_errnum s)).
(** [time_apr_to_str(pool, apr_time_now())] *)
Definition time_now_str : M Z := fun s => (time_apr_to_str (c_now s), s).

(** [if (dbms_execute(q)) err = dav_new_error(...)]: the result is dropped. *)
Definition err_of {R} (r : option R) : option dav_error :=
  match r with
  | None => Some (dav_new_error HTTP_INTERNAL_SERVER_ERROR)
  | Some _ => None
  end.

(** [if ((err = ...)) return err;] *)
Notation "'TRY' m ;; k" :=
  (m ≫= λ err : option dav_error,
     match err with Some e => mret (Some e) | None => k end)
  (at level 100, m at level 99, k at level 200, right associativity) : limestone_scope.

(** ** Lemmas *)

Lemma bind_run {A B} (m : M A) (f : A -> M B) s :
  (m ≫= f) s = f (m s).1 (m s).2.
Proof. unfold mbind, M_bind. by destruct (m s). Qed.

Lemma ret_run {A} (x : A) s : (mret x : M A) s = (x, s).
Proof. done. Qed.

(** No statement is refused. *)
Definition quiet (s : conn) : Prop := c_faults s = [].

Lemma execute_quiet {R} (stmt : db -> option (R * db)) d n fl e :
  execute stmt (Conn d [] n fl e)
  = match stmt d with
    | None => (None, Conn d [] n fl true)
    | Some (r, d') => (Some r, Conn d' [] n fl e)
    end.
Proof. unfold execute. cbn. by destruct (stmt d) as [[]|]. Qed.

Lemma select_quiet {R} (f : db -> R) d n fl e :
  select f (Conn d [] n fl e) = (Some (f d), Conn d [] n fl e).
Proof. done. Qed.

Lemma update_quiet (f : db -> db) d n fl e :
  update f (Conn d [] n fl e) = (Some tt, Conn (f d) [] n fl e).
Proof. done. Qed.

(** A query leaves the tables as they are, refused or not. *)
Lemma select_db {R} (f : db -> R) s : c_db (select f s).2 = c_db s.
Proof. unfold select, execute. by destruct (c_faults s) as [|[] ?]. Qed.

Lemma select_result {R} (f : db -> R) s r :
  (select f s).1 = Some r -> r = f (c_db s).
Proof. unfold select, execute. destruct (c_faults s) as [|[] ?]; cbn; congruence. Qed.

(** A statement either fails and changes no table, or succeeds. *)
Lemma execute_cases {R} (stmt : db -> option (R * db)) s :
  ((execute stmt s).1 = None /\ c_db (execute stmt s).2 = c_db s)
  \/ exists r d, stmt (c_db s) = Some (r, d)
       /\ (execute stmt s).1 = Some r /\ c_db (execute stmt s).2 = d.
Proof.
  unfold execute. destruct (c_faults s) as [|[] ?]; cbn; [| by left |];
    destruct (stmt (c_db s)) as [[r d]|]; eauto 10.
Qed.

Lemma update_cases f s :
  ((update f s).1 = None /\ c_db (update f s).2 = c_db s)
  \/ ((update f s).1 = Some tt /\ c_db (update f s).2 = f (c_db s)).
Proof.
  destruct (execute_cases (fun d => Some (tt, f d)) s) as [?|(r & d & ? & ? & ?)];
    simplify_eq; [by left | by right].
Qed.

Lemma select_now {R} (f : db -> R) s : c_now (select f s).2 = c_now s.
Proof. unfold select, execute. by destruct (c_faults s) as [|[] ?]. Qed.

Lemma execute_files {R} (stmt : db -> option (R * db)) s :
  c_files (execute stmt s).2 = c_files s.
Proof.
  unfold execute. by destruct (c_faults s) as [|[] ?]; cbn; try done;
    destruct (stmt (c_db s)) as [[]|].
Qed.

#[export] Hint Rewrite @bind_run @ret_run @select_db @select_now : lime.

(** The round trip between the type constants and their names. *)
Lemma type_id_roundtrip t : dav_repos_get_type_id (dav_repos_resource_types t) = Some t.
Proof. by destruct t. Qed.

(** ** Computations that only read

    [Reads m]: whatever the server refuses, [m] leaves the tables, the files and the
    clock as they are and does not forget that a statement failed; with no refusal to
    come, nothing fails. *)
Definition Reads {A} (m : M A) : Prop :=
  forall s, c_db (m s).2 = c_db s
    /\ (c_errnum (m s).2 = false -> c_errnum s = false)
    /\ (c_files (m s).2 = c_files s /\ c_now (m s).2 = c_now s)
    /\ (c_faults s = [] -> c_faults (m s).2 = [] /\ c_errnum (m s).2 = c_errnum s).

Lemma reads_ret {A} (x : A) : Reads (mret x).
Proof. done. Qed.

Lemma reads_bind {A B} (m : M A) (f : A -> M B) :
  Reads m -> (forall a, Reads (f a)) -> Reads (m ≫= f).
Proof.
  intros Hm Hf s. rewrite bind_run. destruct (Hm s) as (H1 & H2 & H3 & H4).
  destruct (Hf (m s).1 (m s).2) as (K1 & K2 & K3 & K4).
  destruct H3, K3. split; [congruence|]. split; [auto|]. split; [split; congruence|].
  intros Hs. destruct (H4 Hs) as [Hs' He]. destruct (K4 Hs'). split; congruence.
Qed.

Lemma reads_select {R} (f : db -> R) : Reads (select f).
Proof. intros s. unfold select, execute. by destruct (c_faults s) as [|[] ?]. Qed.

Lemma reads_get_files : Reads get_files.
Proof. done. Qed.

Lemma reads_get_db : Reads get_db.
Proof. done. Qed.

Lemma reads_now : Reads time_now_str.
Proof. done. Qed.

(** When no statement failed, a query gave the rows it asks for. *)
Lemma select_ok {R} (f : db -> R) s :
  c_errnum (select f s).2 = false -> (select f s).1 = Some (f (c_db s)).
Proof. unfold select, execute. by destruct (c_faults s) as [|[] ?]. Qed.

(** A statement that failed is remembered; one that succeeded changed the tables
    as it says. *)
Lemma execute_spec {R} (stmt : db -> option (R * db)) s :
  match (execute stmt s).1 with
  | None => c_errnum (execute stmt s).2 = true /\ c_db (execute stmt s).2 = c_db s
  | Some r => exists d, stmt (c_db s) = Some (r, d) /\ c_db (execute stmt s).2 = d
                /\ c_errnum (execute stmt s).2 = c_errnum s
  end.
Proof.
  unfold execute. destruct (c_faults s) as [|[] ?]; cbn; [|done|];
    destruct (stmt (c_db s)) as [[r d]|]; cbn; eauto.
Qed.

#[export] Hint Resolve reads_ret reads_select reads_get_db reads_get_files reads_now : lime.

(** Proves [Reads] along the structure of the computation. *)
Ltac reads_step :=
  match goal with
  | |- forall _, _ => intro
  | |- Reads (_ ≫= _) => apply reads_bind
  | |- Reads (match ?x with _ => _ end) => destruct x
  | |- Reads (let _ := _ in _) => cbv zeta
  | |- Reads _ => solve [eauto with lime]
  end.
Ltac reads := repeat reads_step.

(** ** Failures are not forgotten *)

Definition Mono {A} (m : M A) : Prop :=
  forall s, c_errnum (m s).2 = false -> c_errnum s = false.

Lemma mono_reads {A} (m : M A) : Reads m -> Mono m.
Proof. intros H s. apply H. Qed.

Lemma mono_ret {A} (x : A) : Mono (mret x).
Proof. by intros s. Qed.

Lemma mono_execute {R} (stmt : db -> option (R * db)) : Mono (execute stmt).
Proof.
  intros s. pose proof (execute_spec stmt s) as H.
  destruct (execute stmt s).1; [destruct H as (d & _ & _ & ->)|destruct H as [-> _]]; done.
Qed.

Lemma mono_update f : Mono (update f).
Proof. apply mono_execute. Qed.

Lemma mono_bind {A B} (m : M A) (f : A -> M B) :
  Mono m -> (forall a, Mono (f a)) -> Mono (m ≫= f).
Proof. intros Hm Hf s. rewrite bind_run. intros H. apply Hm. by eapply Hf. Qed.

#[export] Hint Resolve mono_ret mono_execute mono_update : lime.
#[export] Hint Extern 5 (Mono _) => apply mono_reads : lime.

Ltac mono_step :=
  match goal with
  | |- forall _, _ => intro
  | |- Mono (_ ≫= _) => apply mono_bind
  | |- Mono (match ?x with _ => _ end) => destruct x
  | |- Mono (let _ := _ in _) => cbv zeta
  | |- Mono _ => solve [eauto with lime]
  end.
Ltac mono := repeat mono_step.

(** An update that did not fail. *)
Lemma update_ok f s :
  c_errnum (update f s).2 = false ->
  (update f s).1 = Some tt /\ c_db (update f s).2 = f (c_db s).
Proof.
  intros He. pose proof (execute_spec (fun d => Some (tt, f d)) s) as H.
  unfold update in *. destruct (execute _ s) as [[[]|] s']; cbn in *.
  - destruct H as (d & [= <-] & -> & _). done.
  - destruct H as [H _]. congruence.
Qed.

(** A statement that did not fail. *)
Lemma execute_ok {R} (stmt : db -> option (R * db)) s :
  c_errnum (execute stmt s).2 = false ->
  exists r d, stmt (c_db s) = Some (r, d) /\ (execute stmt s).1 = Some r
    /\ c_db (execute stmt s).2 = d.
Proof.
  intros He. pose proof (execute_spec stmt s) as H.
  destruct (execute stmt s) as [[r|] s']; cbn in *.
  - destruct H as (d & H1 & H2 & _). eauto.
  - destruct H as [H _]. congruence.
Qed.

(** A statement the schema accepts, with no refusal to come. *)
Lemma execute_accepted {R} (stmt : db -> option (R * db)) s r d :
  c_faults s = [] -> stmt (c_db s) = Some (r, d) ->
  execute stmt s = (Some r, Conn d [] (c_now s) (c_files s) (c_errnum s)).
Proof. intros Hs Hd. unfold execute. rewrite Hs. cbn. by rewrite Hd. Qed.
