(* ===== verification/Bind.v ===== *)
(** * Binds: the name space of the repository ([limestone/dbms_bind.c])

    A bind (collection, name, resource) is an edge of the graph of collections.
    This file models the lookups of a URI, the search for a shortest path
    between two resources, the changes to the table and the cleanup queue of the
    garbage collector.  [apr_strtok] with the separator "/" is the argument
    [apr_strtok_slash], the sequence of tokens its successive calls return, and
    the escaping of string literals is [apr_dbd_escape]. *)
From S2P Require Import Prelude Util Dbd Db.
From stdpp Require Import pretty.
Local Open Scope Z_scope.
Local Open Scope limestone_scope.

Definition ROOT_COLLECTION_ID : Z := 2.
(** [ROOT_UPDATED_AT], 2006-07-14 13:15:49 *)
Definition ROOT_UPDATED_AT : Z := 1152882949000000.

(** ** Data: [struct dbms_bind_list]; a chain is a list *)
Record dbms_bind_list := BindItem {
  bind_id : Z;
  parent_id : Z;
  resource_id : Z;
  bind_name : string;
  updated_at : Z;
  bind_uri : option string
}.

Definition zero_bind : dbms_bind_list := BindItem 0 0 0 "" 0 None.

(** ** Statements on the table [binds] *)

(** The UNIQUE constraint on (collection_id, name). *)
Definition bind_taken (coll : Z) (name : string) (l : list bind_row) : bool :=
  existsb (fun b => bool_decide (b_coll b = coll /\ b_name b = name)) l.

Definition insert_bind_stmt (name : string) (coll res now : Z) (d : db)
  : option (unit * db) :=
  if bind_taken coll name (binds d) then None
  else Some (tt, bump_binds_id_seq
                   (set_binds (binds d ++ [BindRow (binds_id_seq (sequences d)) name coll res now]) d)).

(** The INSERT with several rows: one of them rejected rejects all. *)
Fixpoint insert_binds_stmt (rows : list (Z * string * Z)) (now : Z) (d : db)
  : option (unit * db) :=
  match rows with
  | [] => Some (tt, d)
  | (coll, name, res) :: rest =>
      match insert_bind_stmt name coll res now d with
      | None => None
      | Some (_, d) => insert_binds_stmt rest now d
      end
  end.

(** UPDATE binds SET collection_id, name, updated_at WHERE collection_id, name *)
Definition rebind_stmt (src : Z) (src_name : string) (dst : Z) (dst_name : string)
    (now : Z) (d : db) : option (unit * db) :=
  let hit b := bool_decide (b_coll b = src /\ b_name b = src_name) in
  let rest := List.filter (fun b => negb (hit b)) (binds d) in
  if existsb hit (binds d) && bind_taken dst dst_name rest then None
  else Some (tt, set_binds
         (map (fun b => if hit b then BindRow (b_id b) dst_name dst (b_res b) now else b)
            (binds d)) d).

Definition delete_bind_stmt (coll res : Z) (name : string) (d : db) : db :=
  let gone := List.filter
    (fun b => bool_decide (b_coll b = coll /\ b_res b = res /\ b_name b = name)) (binds d) in
  (* ON DELETE CASCADE of binds_locks *)
  set_binds_locks
    (List.filter (fun lb => negb (existsb (fun b => bool_decide (b_id b = lb.2)) gone))
       (binds_locks d))
    (set_binds (List.filter (fun b =>
       negb (bool_decide (b_coll b = coll /\ b_res b = res /\ b_name b = name))) (binds d)) d).

(** ** The operations on single binds *)

Definition dbms_delete_bind (coll_id res_id : Z) (name : string) : M (option dav_error) :=
  r ← update (delete_bind_stmt coll_id res_id name);
  mret (err_of r).

(** A NULL name violates the NOT NULL constraint of the column. *)
Definition dbms_insert_bind (res coll : Z) (bindname : option string)
  : M (option dav_error) :=
  now ← time_now_str;
  r ← execute (fun d => match bindname with
                        | None => None
                        | Some name => insert_bind_stmt name coll res now d
                        end);
  mret (err_of r).

Definition dbms_get_bind_resource_id (coll_id : Z) (name : string)
  : M (dav_error + Z) :=
  q ← select (fun d => List.find
        (fun b => bool_decide (b_coll b = coll_id /\ b_name b = name)) (binds d));
  mret (match q with
        | None => inl (dav_new_error HTTP_INTERNAL_SERVER_ERROR)
        | Some None => inr 0
        | Some (Some b) => inr (b_res b)
        end).

(** [dbms_get_bind]: with no row, [dbms_get_int] gives 0; on an error the
    caller's structure is as it was. *)
Definition dbms_get_bind (bind : dbms_bind_list) : M (option dav_error * dbms_bind_list) :=
  q ← select (fun d => List.find
        (fun b => bool_decide (b_coll b = parent_id bind /\ b_name b = bind_name bind))
        (binds d));
  mret (match q with
        | None => (Some (dav_new_error HTTP_INTERNAL_SERVER_ERROR), bind)
        | Some None =>
            (None, BindItem 0 (parent_id bind) 0 (bind_name bind) 0 (bind_uri bind))
        | Some (Some b) =>
            (None, BindItem (b_id b) (parent_id bind) (b_res b) (bind_name bind)
                     (b_updated b) (bind_uri bind))
        end).

Definition dbms_rebind_resource (src_parent_id : Z) (src_bind_name : string)
    (dst_parent_id : Z) (dst_bind_name : string) : M (option dav_error) :=
  now ← time_now_str;
  r ← execute (rebind_stmt src_parent_id src_bind_name dst_parent_id dst_bind_name now);
  mret (err_of r).

(** The list comes in the reverse order of the rows. *)
Definition dbms_get_child_binds (serialno : Z) (exclude_self : bool)
  : M (dav_error + list dbms_bind_list) :=
  q ← select (fun d => List.filter
        (fun b => bool_decide (b_coll b = serialno)
                  && negb (exclude_self && bool_decide (b_res b = b_coll b))) (binds d));
  mret (match q with
        | None => inl (dav_new_error HTTP_INTERNAL_SERVER_ERROR)
        | Some rows =>
            inr (rev (map (fun b => BindItem (b_id b) 0 (b_res b) "" (b_updated b) None)
                        rows))
        end).

(** SELECT greatest('updated_at', MAX(updated_at)); the results of a refused
    query are read after [dbms_query_destroy], which is the [None]. *)
Definition dbms_get_collection_max_updated_at (collection_id updated : Z)
  : M (option Z) :=
  select (fun d => foldr Z.max updated
    (map b_updated (List.filter (fun b => bool_decide (b_coll b = collection_id))
       (binds d)))).

(** ** The cleanup queue of the garbage collector *)

(** UNION drops the duplicates among the requested identifiers. *)
Fixpoint add_cleanup (ids : list Z) (d : db) : db :=
  match ids with
  | [] => d
  | i :: rest =>
      add_cleanup rest
        (bump_cleanup_id_seq
           (set_cleanup (cleanup d ++ [CleanupRow (cleanup_id_seq (sequences d)) i]) d))
  end.

Definition dbms_insert_cleanup_reqs (bind : list dbms_bind_list) : M (option dav_error) :=
  match bind with
  | [] => mret None
  | _ =>
      r ← update (add_cleanup (remove_dups (map resource_id bind)));
      mret (err_of r)
  end.

(** SELECT ... ORDER BY id LIMIT 1 *)
Fixpoint first_cleanup (l : list cleanup_row) : option cleanup_row :=
  match l with
  | [] => None
  | c :: rest =>
      match first_cleanup rest with
      | Some c' => if bool_decide (c_id c' < c_id c) then Some c' else Some c
      | None => Some c
      end
  end.

Definition delete_cleanup_stmt (i : Z) (d : db) : db :=
  set_cleanup (List.filter (fun c => negb (bool_decide (c_id c = i))) (cleanup d)) d.

(** The error and the resource to look at, 0 for none.  The result of the
    DELETE is not tested. *)
Definition dbms_next_cleanup_req : M (option dav_error * Z) :=
  q ← select (fun d => first_cleanup (cleanup d));
  match q with
  | None => mret (Some (dav_new_error HTTP_INTERNAL_SERVER_ERROR), 0)
  | Some None => mret (None, 0)
  | Some (Some c) =>
      if bool_decide (0 < c_id c)
      then _ ← update (delete_cleanup_stmt (c_id c)); mret (None, c_res c)
      else mret (None, c_res c)
  end.

(** ** Shortest paths *)

(** The rows of one query are scanned in order.  [inl p] is the early return
    with the path [p]; otherwise the hash of the paths found so far and the new
    forefathers. *)
Fixpoint scan_rows (from : Z) (rows : list bind_row) (hash : gmap Z string)
    (new_forefathers : list Z) : string + (gmap Z string * list Z) :=
  match rows with
  | [] => inr (hash, new_forefathers)
  | b :: rest =>
      match hash !! b_coll b with
      | Some _ => scan_rows from rest hash new_forefathers
      | None =>
          let parent_sp := String SLASH (b_name b) +:+ default EmptyString (hash !! b_res b) in
          if bool_decide (b_coll b = from) then inl parent_sp
          else scan_rows from rest (<[b_coll b := parent_sp]> hash)
                 (new_forefathers ++ [b_coll b])
      end
  end.

(** SELECT ... FROM binds WHERE resource_id IN (forefathers) AND id NOT IN (excl) *)
Definition parents_query (forefathers excl : list Z) (d : db) : list bind_row :=
  List.filter (fun b => bool_decide (b_res b ∈ forefathers)
                        && negb (bool_decide (b_id b ∈ excl))) (binds d).

(** The identifiers the first query excludes: the head of the chain always, the
    others when positive. *)
Definition excluded_ids (excl_binds : list dbms_bind_list) : list Z :=
  match excl_binds with
  | [] => []
  | b :: rest =>
      bind_id b :: List.filter (fun i => bool_decide (0 < i)) (map bind_id rest)
  end.

(** The [do ... while] loop; the variable [excl_binds] is advanced to NULL while
    the first query is written, so the later rounds exclude nothing.  [None] is
    an exhausted fuel. *)
Fixpoint path_loop (fuel : nat) (from : Z) (excl : list Z) (forefathers : list Z)
    (hash : gmap Z string) : M (option (option dav_error * option string)) :=
  match fuel with
  | O => mret None
  | S n =>
      q ← select (parents_query forefathers excl);
      match q with
      | None => mret (Some (Some (dav_new_error HTTP_INTERNAL_SERVER_ERROR), None))
      | Some rows =>
          match scan_rows from rows hash [] with
          | inl p => mret (Some (None, Some p))
          | inr (hash, []) => mret (Some (None, None))
          | inr (hash, news) => path_loop n from [] (forefathers ++ news) hash
          end
      end
  end.

(** Each round but the last adds a collection, so as many rounds as there are
    binds, plus two, are enough ([path_loop_total]). *)
Definition path_fuel (d : db) : nat := S (S (length (binds d))).

Definition dbms_find_shortest_path_excl_binds (from_res_id to_res_id : Z)
    (excl_binds : list dbms_bind_list) : M (option dav_error * option string) :=
  if bool_decide (from_res_id = to_res_id) then mret (None, Some EmptyString)
  else
    d ← get_db;
    r ← path_loop (path_fuel d) from_res_id (excluded_ids excl_binds) [to_res_id]
          {[ to_res_id := EmptyString ]};
    mret (default (None, None) r).

Definition dbms_find_shortest_path (from_res_id to_res_id : Z)
  : M (option dav_error * option string) :=
  dbms_find_shortest_path_excl_binds from_res_id to_res_id [].

(** ** Lookups of a URI *)

Section lookup.
Variable apr_strtok_slash : string -> list string.
Variable apr_dbd_escape : string -> string.

(** The text of the query that joins one copy of [binds] per token. *)
Fixpoint lookup_select (i n : nat) : string :=
  match n with
  | O => EmptyString
  | S n => ", b" +:+ pretty (N.of_nat i) +:+ ".resource_id" +:+ lookup_select (S i) n
  end.

Fixpoint lookup_greatest (i n : nat) : string :=
  match n with
  | O => EmptyString
  | S n => ", b" +:+ pretty (N.of_nat i) +:+ ".updated_at" +:+ lookup_greatest (S i) n
  end.

Fixpoint lookup_from (i : nat) (tokens : list string) : string :=
  match tokens with
  | [] => EmptyString
  | t :: rest =>
      "LEFT OUTER JOIN binds b" +:+ pretty (N.of_nat i) +:+ " ON (b"
      +:+ pretty (N.of_nat (i - 1)) +:+ ".resource_id = b" +:+ pretty (N.of_nat i)
      +:+ ".collection_id AND b" +:+ pretty (N.of_nat i) +:+ ".name = '"
      +:+ apr_dbd_escape t +:+ "') " +:+ lookup_from (S i) rest
  end.

Definition lookup_query (first : string) (rest : list string) : string :=
  let i := length (first :: rest) in
  "SELECT b1.resource_id" +:+ lookup_select 2 (length rest) +:+ ", "
  +:+ "greatest(lastmodified, b1.updated_at" +:+ lookup_greatest 2 (length rest)
  +:+ ") AS uri_max_updated_at, b" +:+ pretty (N.of_nat i) +:+ ".id "
  +:+ "FROM binds b1 " +:+ lookup_from 2 rest
  +:+ "LEFT OUTER JOIN resources ON resources.id = b" +:+ pretty (N.of_nat i)
  +:+ ".resource_id WHERE b1.collection_id = " +:+ pretty ROOT_COLLECTION_ID
  +:+ " AND b1.name = '" +:+ apr_dbd_escape first +:+ "' ".

(** One LEFT OUTER JOIN with the binds of the last resource of each row. *)
Definition join_binds (bt : list bind_row) (name : string)
    (rows : list (list (option bind_row))) : list (list (option bind_row)) :=
  flat_map (fun row =>
    match last row with
    | Some (Some b) =>
        match List.filter (fun c => bool_decide (b_coll c = b_res b /\ b_name c = name)) bt with
        | [] => [row ++ [None]]
        | matches => map (fun c => row ++ [Some c]) matches
        end
    | _ => [row ++ [None]]
    end) rows.

Definition join_path (bt : list bind_row) (first : string) (rest : list string)
  : list (list (option bind_row)) :=
  fold_left (fun rows name => join_binds bt name rows) rest
    (map (fun b => [Some b])
       (List.filter (fun b => bool_decide (b_coll b = ROOT_COLLECTION_ID /\ b_name b = first))
          bt)).

(** [greatest]: NULL arguments are ignored. *)
Definition greatest (l : list (option Z)) : Z :=
  match omap id l with
  | [] => 0
  | t :: ts => foldr Z.max t ts
  end.

(** greatest(lastmodified, b1.updated_at, ...) *)
Definition row_updated_at (rt : list resource_row) (row : list (option bind_row)) : Z :=
  let lastmodified :=
    match last row with
    | Some (Some b) => r_lastmodified <$> List.find (fun r => bool_decide (r_id r = b_res b)) rt
    | _ => None
    end in
  greatest (lastmodified :: map (fmap b_updated) row).

Definition lookup_rows (first : string) (rest : list string) (d : db)
  : list (list (option bind_row) * Z) :=
  map (fun row => (row, row_updated_at (resources d) row)) (join_path (binds d) first rest).

(** [while (dbrow[j][0] && j < i) j++]: a NULL column is the empty string. *)
Fixpoint leading (row : list (option bind_row)) : nat :=
  match row with
  | Some _ :: rest => S (leading rest)
  | _ => 0
  end.

(** The offset at which the existing part of the URI ends: [count] slashes seen. *)
Fixpoint uri_offset (uri : string) (count limit : nat) : nat * nat :=
  match uri with
  | EmptyString => (0%nat, count)
  | String c r =>
      if bool_decide (count < limit)%nat
      then let '(o, k) := uri_offset r (if Ascii.eqb c SLASH then S count else count) limit in
           (S o, k)
      else (0%nat, count)
  end.

Definition existing_uri (uri : string) (j : nat) : string :=
  let '(offset, count) := uri_offset uri 0 (j + 2) in
  let offset := if bool_decide (count = j + 2)%nat then (offset - 1)%nat else offset in
  String.substring 0 offset uri.

Definition bind_of_row (uri : string) (row : list (option bind_row)) (updated : Z)
  : dbms_bind_list :=
  let j := leading row in
  let found := from_option (from_option b_res 0) 0 (row !! (j - 1)%nat) in
  let id := from_option (from_option b_id 0) 0 (last row) in
  if bool_decide (j = length row)
  then BindItem id 0 found "" updated None
  else BindItem id found (-1) "" updated (Some (existing_uri uri (j - 1))).

(** The outer [option] is [None] when [dbms_execute] ran nothing, so that
    [dbms_results_count] is called on a query without results.  The inner value
    [inr None] is an untouched [*p_bind]. *)
Definition dbms_lookup_uri (uri_from_root : string)
  : M (option (dav_error + option dbms_bind_list)) :=
  let uri := compact_uri uri_from_root in
  match apr_strtok_slash uri with
  | [] => mret (Some (inr (Some (BindItem 0 0 ROOT_COLLECTION_ID "" ROOT_UPDATED_AT None))))
  | first :: rest =>
      match parameters (dbms_prepare (lookup_query first rest)) with
      | _ :: _ => mret None
      | [] =>
          q ← select (lookup_rows first rest);
          mret (Some (match q with
                      | None => inl (dav_new_error HTTP_INTERNAL_SERVER_ERROR)
                      | Some [] => inr None
                      | Some ((row, updated) :: _) => inr (Some (bind_of_row uri row updated))
                      end))
      end
  end.

(** [dbms_get_path_binds]: the errors of [dbms_get_bind] are dropped. *)
Fixpoint path_binds_loop (parent : Z) (tokens : list string) : M (list dbms_bind_list) :=
  match tokens with
  | [] => mret []
  | t :: rest =>
      b ← dbms_get_bind (BindItem 0 parent 0 t 0 None);
      bs ← path_binds_loop (resource_id b.2) rest;
      mret (b.2 :: bs)
  end.

Definition dbms_get_path_binds (path : string) : M (list dbms_bind_list) :=
  path_binds_loop ROOT_COLLECTION_ID (apr_strtok_slash path).

(** [dbms_detect_bind]: the prefix of [path] up to the bind, or all of it.  The
    structure [next_bind] is reused, so a refused query leaves it as it was; after
    the last token one query is made for a NULL name, which no row has. *)
Fixpoint detect_bind_loop (target : Z) (prefix : string) (next_bind : dbms_bind_list)
    (tokens : list string) : M string :=
  match tokens with
  | [] => _ ← select (fun _ => tt); mret prefix
  | t :: rest =>
      b ← dbms_get_bind (BindItem (bind_id next_bind) (parent_id next_bind)
                           (resource_id next_bind) t (updated_at next_bind) None);
      let prefix := prefix +:+ String SLASH t in
      if bool_decide (bind_id b.2 = target) then mret prefix
      else detect_bind_loop target prefix
             (BindItem (bind_id b.2) (resource_id b.2) (resource_id b.2) t (updated_at b.2) None)
             rest
  end.

(** The fields of [next_bind] that are not initialised are taken to be 0. *)
Definition dbms_detect_bind (bind : dbms_bind_list) (path : string) : M string :=
  detect_bind_loop (bind_id bind) EmptyString (BindItem 0 ROOT_COLLECTION_ID 0 "" 0 None)
    (apr_strtok_slash path).

(** ** The INSERT of a list of binds, written into a buffer of
    [300 + 150 * array] bytes with every name escaped twice *)

Definition quoted (s : string) : string := String QUOTE (s +:+ String QUOTE "").

Definition bind_values (now : string) (b : dbms_bind_list) : string :=
  "(" +:+ pretty (parent_id b) +:+ ", "
  +:+ quoted (apr_dbd_escape (apr_dbd_escape (bind_name b))) +:+ ", "
  +:+ pretty (resource_id b) +:+ ", " +:+ quoted now +:+ ")".

Fixpoint more_values (now : string) (l : list dbms_bind_list) : string :=
  match l with
  | [] => EmptyString
  | b :: rest => "," +:+ bind_values now b +:+ more_values now rest
  end.

Definition insert_list_text (now : string) (l : list dbms_bind_list) : string :=
  match l with
  | [] => EmptyString
  | b :: rest =>
      "INSERT INTO binds(collection_id,name,resource_id,updated_at) VALUES "
      +:+ bind_values now b +:+ more_values now rest
  end.

Definition insert_list_buffer (l : list dbms_bind_list) : nat := (300 + 150 * length l)%nat.

(** The outer [option] is [None] when [sprintf] writes past the buffer.  The
    literal written for a name is the name escaped once more, so its value is
    the name escaped once. *)
Definition dbms_insert_bind_list (format_time : Z -> string) (l : list dbms_bind_list)
  : M (option (option dav_error)) :=
  now ← time_now_str;
  match l with
  | [] => mret (Some (Some (dav_new_error HTTP_INTERNAL_SERVER_ERROR)))
  | _ =>
      let text := insert_list_text (format_time now) l in
      if bool_decide (insert_list_buffer l <= String.length text)%nat then mret None
      else
        match parameters (dbms_prepare text) with
        | _ :: _ => mret (Some None)
        | [] =>
            r ← execute (insert_binds_stmt
                  (map (fun b => (parent_id b, apr_dbd_escape (bind_name b), resource_id b)) l)
                  now);
            mret (Some (err_of r))
        end
  end.
End lookup.
