(* ===== verification/Paths.v ===== *)
(** * Correctness of the shortest-path search of [Bind.v]

    Paths in the graph of binds, and the proof that the breadth-first search of
    [dbms_find_shortest_path_excl_binds] is sound, complete and shortest, and
    ends within its fuel, whatever statements the server refuses. *)
From S2P Require Import Prelude Util Db Bind.
Local Open Scope Z_scope.

(** ** Specification: paths of binds *)

(** [bind_path bt c names r]: following [names] from the collection [c] leads to [r]. *)
Inductive bind_path (bt : list bind_row) : Z -> list string -> Z -> Prop :=
| bind_path_nil c : bind_path bt c [] c
| bind_path_cons b names r :
    b ∈ bt -> bind_path bt (b_res b) names r ->
    bind_path bt (b_coll b) (b_name b :: names) r.

Definition reaches (bt : list bind_row) (c r : Z) : Prop :=
  exists names, bind_path bt c names r.

(** The text of a path: each name after a slash. *)
Fixpoint path_string (names : list string) : string :=
  match names with
  | [] => EmptyString
  | n :: rest => String SLASH n +:+ path_string rest
  end.

#[export] Hint Constructors bind_path : lime.

Lemma bind_path_app bt c ns d ms r :
  bind_path bt c ns d -> bind_path bt d ms r -> bind_path bt c (ns ++ ms) r.
Proof. induction 1; cbn; eauto with lime. Qed.

Lemma reaches_refl bt c : reaches bt c c.
Proof. exists []. constructor. Qed.

Lemma reaches_trans bt a b c : reaches bt a b -> reaches bt b c -> reaches bt a c.
Proof. intros [ns H1] [ms H2]. exists (ns ++ ms). eauto using bind_path_app. Qed.

Lemma reaches_step bt b : b ∈ bt -> reaches bt (b_coll b) (b_res b).
Proof. intros H. exists [b_name b]. eauto with lime. Qed.

Lemma bind_path_mono bt bt' c ns r :
  (forall b, b ∈ bt -> b ∈ bt') -> bind_path bt c ns r -> bind_path bt' c ns r.
Proof. intros Hs. induction 1; eauto with lime. Qed.

Lemma reaches_mono bt bt' c r :
  (forall b, b ∈ bt -> b ∈ bt') -> reaches bt c r -> reaches bt' c r.
Proof. intros Hs [ns H]. exists ns. eauto using bind_path_mono. Qed.

#[export] Hint Resolve reaches_refl reaches_step : lime.

(** ** The invariant of the search after [k] rounds *)

Section search.
Context (bt : list bind_row) (from to : Z).

Record search_inv (k : nat) (hash : gmap Z string) : Prop := {
  inv_path : forall x p, hash !! x = Some p ->
    exists ns, p = path_string ns /\ bind_path bt x ns to /\ (length ns <= k)%nat;
  inv_complete : forall x ns, bind_path bt x ns to -> (length ns <= k)%nat ->
    is_Some (hash !! x);
  inv_from : hash !! from = None
}.

(** What one scan of rows may yield. *)
Definition scan_ok (k : nat) (hash : gmap Z string) (rows : list bind_row)
    (r : string + (gmap Z string * list Z)) (news0 : list Z) : Prop :=
  match r with
  | inl p => exists ns, p = path_string ns /\ bind_path bt from ns to
                        /\ (length ns <= S k)%nat
  | inr (hash', news) =>
      (forall x p, hash' !! x = Some p -> hash !! x = Some p
         \/ (x ∈ news /\ exists ns, p = path_string ns /\ bind_path bt x ns to
             /\ (length ns <= S k)%nat))
      /\ (forall x p, hash !! x = Some p -> hash' !! x = Some p)
      /\ (forall b, b ∈ rows -> is_Some (hash' !! b_coll b))
      /\ (forall x, x ∈ news -> x ∈ news0 \/ (exists b, b ∈ rows /\ x = b_coll b
             /\ hash !! x = None /\ is_Some (hash' !! x)))
      /\ (forall x, x ∈ news0 -> x ∈ news)
      /\ hash' !! from = None
  end.

Lemma scan_rows_ok k rows (old hash : gmap Z string) news0 :
  (forall x p, old !! x = Some p ->
     exists ns, p = path_string ns /\ bind_path bt x ns to /\ (length ns <= k)%nat) ->
  (forall x p, old !! x = Some p -> hash !! x = Some p) ->
  (forall b, b ∈ rows -> b ∈ bt /\ is_Some (old !! b_res b)) ->
  hash !! from = None ->
  scan_ok k hash rows (scan_rows from rows hash news0) news0.
Proof.
  intros Hold. revert hash news0.
  induction rows as [|b rows IH]; intros hash news0 Hsub Hrows Hfrom; cbn [scan_rows].
  { split_and!; set_solver. }
  assert (Hrest : forall c, c ∈ rows -> c ∈ bt /\ is_Some (old !! b_res c)) by set_solver.
  destruct (hash !! b_coll b) as [p|] eqn:Hb.
  - specialize (IH hash news0 Hsub Hrest Hfrom).
    destruct (scan_rows from rows hash news0) as [q|[hash' news]]; [exact IH|].
    destruct IH as (H1 & H2 & H3 & H4 & H5 & H6). split_and!; try done.
    + intros c [->|Hc]%elem_of_cons; [eauto|by apply H3].
    + intros x Hx. destruct (H4 x Hx) as [?|(c & ? & ?)]; [by left|right].
      exists c. set_solver.
  - destruct (Hrows b ltac:(set_solver)) as [Hbt [p Hp]].
    destruct (Hold _ _ Hp) as (ns & -> & Hpath & Hlen).
    rewrite (Hsub _ _ Hp). cbn [default from_option].
    assert (Hnew : exists ms, String SLASH (b_name b) +:+ path_string ns = path_string ms
                     /\ bind_path bt (b_coll b) ms to /\ (length ms <= S k)%nat).
    { exists (b_name b :: ns). split_and!; [done|eauto with lime|cbn; lia]. }
    case_bool_decide as Hfb; [rewrite Hfb in Hnew; exact Hnew|].
    set (hash1 := <[b_coll b := _]> hash).
    assert (Hsub1 : forall x q, hash !! x = Some q -> hash1 !! x = Some q).
    { intros x q Hx. unfold hash1. rewrite lookup_insert_ne; congruence. }
    specialize (IH hash1 (news0 ++ [b_coll b])).
    destruct (scan_rows from rows hash1 _) as [q|[hash' news]].
    { apply IH; eauto. unfold hash1. by rewrite lookup_insert_ne. }
    destruct IH as (H1 & H2 & H3 & H4 & H5 & H6); eauto.
    { unfold hash1. by rewrite lookup_insert_ne. }
    assert (Hin : b_coll b ∈ news) by (apply H5; set_solver).
    assert (Hsome : hash' !! b_coll b = Some (String SLASH (b_name b) +:+ path_string ns)).
    { apply H2. unfold hash1. by rewrite lookup_insert_eq. }
    split_and!; try done.
    + intros x q Hx. destruct (H1 x q Hx) as [Hx1|?]; [|by right].
      unfold hash1 in Hx1. apply lookup_insert_Some in Hx1 as [[<- <-]|[_ ?]]; [|by left].
      right. eauto.
    + eauto.
    + intros c [->|Hc]%elem_of_cons; [eauto|by apply H3].
    + intros x Hx. destruct (H4 x Hx) as [[?| ->%list_elem_of_singleton]%elem_of_app|(c & Hc & -> & Hn & Hs)].
      * by left.
      * right. exists b. split_and!; [set_solver|done|done|eauto].
      * right. exists c. split_and!; [set_solver|done| |done].
        unfold hash1 in Hn. by apply lookup_insert_None in Hn as [? _].
    + intros x Hx. apply H5. set_solver.
Qed.

(** ** One round *)

Lemma parents_query_in forefathers excl d b :
  b ∈ parents_query forefathers excl d <->
  b ∈ binds d /\ b_res b ∈ forefathers /\ b_id b ∉ excl.
Proof.
  unfold parents_query. rewrite !list_elem_of_In, filter_In, <- !list_elem_of_In.
  rewrite andb_true_iff, negb_true_iff, bool_decide_eq_true, bool_decide_eq_false. done.
Qed.

(** The number of binds out of a collection that the hash does not know. *)
Definition unseen (hash : gmap Z string) : nat :=
  length (filter (fun b => hash !! b_coll b = None) bt).

Lemma unseen_le (l : list bind_row) (h h' : gmap Z string) :
  (forall x, is_Some (h !! x) -> is_Some (h' !! x)) ->
  (length (filter (fun b => h' !! b_coll b = None) l)
   <= length (filter (fun b => h !! b_coll b = None) l))%nat.
Proof.
  intros Hsub. induction l as [|b l IH]; [done|]. rewrite !filter_cons.
  case_decide as H1; case_decide as H2; cbn; try lia.
  apply not_eq_None_Some, Hsub in H2 as [? H2]. congruence.
Qed.

Lemma unseen_lt (h h' : gmap Z string) b :
  (forall x, is_Some (h !! x) -> is_Some (h' !! x)) ->
  b ∈ bt -> h !! b_coll b = None -> is_Some (h' !! b_coll b) ->
  (unseen h' < unseen h)%nat.
Proof.
  intros Hsub Hb Hn [q Hs]. unfold unseen.
  apply list_elem_of_split in Hb as (l1 & l2 & ->).
  rewrite !filter_app, !length_app, !filter_cons, Hs, Hn.
  rewrite decide_False, decide_True by done. cbn.
  pose proof (unseen_le l1 h h' Hsub). pose proof (unseen_le l2 h h' Hsub). lia.
Qed.

(** The invariant is preserved by a round that excludes nothing. *)
Lemma search_inv_step k hash hash' news (rows : list bind_row) :
  search_inv k hash ->
  (forall b, b ∈ rows <-> b ∈ bt /\ is_Some (hash !! b_res b)) ->
  scan_rows from rows hash [] = inr (hash', news) ->
  search_inv (S k) hash'.
Proof.
  intros [I1 I2 I3] Hrows Hscan.
  pose proof (scan_rows_ok k rows hash hash [] I1 ltac:(done)
                ltac:(intros b Hb; by apply Hrows) I3) as H.
  rewrite Hscan in H. destruct H as (H1 & H2 & H3 & H4 & H5 & H6). split.
  - intros x p Hx. destruct (H1 x p Hx) as [Hx1|[_ ?]]; [|done].
    destruct (I1 x p Hx1) as (ns & ? & ? & ?). exists ns. split_and!; [done|done|lia].
  - intros x ns Hpath Hlen. inversion Hpath as [|b ms r Hb Hrest]; subst.
    { destruct (I2 to [] ltac:(constructor)) as [p Hp]; [cbn; lia|]. eauto. }
    apply H3, Hrows. split; [done|]. eapply I2; [done|]. cbn in Hlen. lia.
  - done.
Qed.

(** A found path is shortest: the start was out of reach in [k] steps. *)
Lemma scan_found k hash p (rows : list bind_row) :
  search_inv k hash ->
  (forall b, b ∈ rows -> b ∈ bt /\ is_Some (hash !! b_res b)) ->
  scan_rows from rows hash [] = inl p ->
  exists ns, p = path_string ns /\ bind_path bt from ns to
    /\ forall ms, bind_path bt from ms to -> (length ns <= length ms)%nat.
Proof.
  intros [I1 I2 I3] Hrows Hscan.
  pose proof (scan_rows_ok k rows hash hash [] I1 ltac:(done) Hrows I3) as H.
  rewrite Hscan in H. destruct H as (ns & -> & Hpath & Hlen).
  exists ns. split_and!; [done|done|]. intros ms Hms.
  destruct (decide (length ms <= k)%nat) as [Hle|]; [|lia].
  destruct (I2 from ms Hms Hle) as [q Hq]. congruence.
Qed.

(** With nothing new the hash is closed, so the start reaches nothing. *)
Lemma scan_nothing_new k hash hash' (rows : list bind_row) :
  search_inv k hash ->
  (forall b, b ∈ rows <-> b ∈ bt /\ is_Some (hash !! b_res b)) ->
  scan_rows from rows hash [] = inr (hash', []) ->
  ~ reaches bt from to.
Proof.
  intros [I1 I2 I3] Hrows Hscan [ns Hpath].
  pose proof (scan_rows_ok k rows hash hash [] I1 ltac:(done)
                ltac:(intros b Hb; by apply Hrows) I3) as H.
  rewrite Hscan in H. destruct H as (H1 & H2 & H3 & _).
  assert (Hclosed : forall x ms y, bind_path bt x ms y -> y = to -> is_Some (hash !! x)).
  { induction 1 as [c|b ms r Hb Hrest IH]; intros ->.
    - apply (I2 to []); [constructor|cbn; lia].
    - destruct (H3 b) as [q Hq]; [apply Hrows; eauto|].
      destruct (H1 _ _ Hq) as [?|[? _]]; [eauto|set_solver]. }
  destruct (Hclosed _ _ _ Hpath eq_refl). congruence.
Qed.
End search.

(** ** The loop *)

(** The forefathers listed in the query are the keys of the hash. *)
Definition same_keys (forefathers : list Z) (hash : gmap Z string) : Prop :=
  forall x, x ∈ forefathers <-> is_Some (hash !! x).

Lemma same_keys_step bt from to k hash hash' news rows forefathers :
  search_inv bt from to k hash ->
  (forall b, b ∈ rows -> b ∈ bt /\ is_Some (hash !! b_res b)) ->
  same_keys forefathers hash ->
  scan_rows from rows hash [] = inr (hash', news) ->
  same_keys (forefathers ++ news) hash'.
Proof.
  intros [I1 I2 I3] Hrows Hk Hscan x.
  pose proof (scan_rows_ok bt from to k rows hash hash [] I1 ltac:(done) Hrows I3) as H.
  rewrite Hscan in H. destruct H as (H1 & H2 & H3 & H4 & H5 & H6).
  rewrite elem_of_app, (Hk x). split.
  - intros [[p Hp]|Hx]; [eauto|].
    destruct (H4 x Hx) as [?|(b & _ & -> & _ & ?)]; [set_solver|done].
  - intros [p Hp]. destruct (H1 x p Hp) as [?|[? _]]; eauto.
Qed.

Lemma news_decrease bt from to k hash hash' news rows :
  search_inv bt from to k hash ->
  (forall b, b ∈ rows -> b ∈ bt /\ is_Some (hash !! b_res b)) ->
  scan_rows from rows hash [] = inr (hash', news) -> news <> [] ->
  (unseen bt hash' < unseen bt hash)%nat.
Proof.
  intros [I1 I2 I3] Hrows Hscan Hne.
  pose proof (scan_rows_ok bt from to k rows hash hash [] I1 ltac:(done) Hrows I3) as H.
  rewrite Hscan in H. destruct H as (_ & H2 & _ & H4 & _).
  destruct news as [|x news]; [done|].
  destruct (H4 x) as [?|(b & Hb & -> & Hn & Hs)]; [set_solver|set_solver|].
  apply unseen_lt with b; [|by apply Hrows|done|done].
  intros y [q Hq]. eauto.
Qed.

(** The specification of a run of the search: an error and nothing else, or a
    shortest path, or the proof that there is none. *)
Definition path_result (bt : list bind_row) (from to : Z)
    (r : option dav_error * option string) : Prop :=
  match r with
  | (Some e, p) => e = dav_new_error HTTP_INTERNAL_SERVER_ERROR /\ p = None
  | (None, Some p) =>
      exists ns, p = path_string ns /\ bind_path bt from ns to
        /\ forall ms, bind_path bt from ms to -> (length ns <= length ms)%nat
  | (None, None) => ~ reaches bt from to
  end.

Lemma path_loop_ok fuel from to k forefathers hash s :
  search_inv (binds (c_db s)) from to k hash ->
  same_keys forefathers hash ->
  (unseen (binds (c_db s)) hash < fuel)%nat ->
  exists r, (path_loop fuel from [] forefathers hash s).1 = Some r
    /\ c_db (path_loop fuel from [] forefathers hash s).2 = c_db s
    /\ path_result (binds (c_db s)) from to r.
Proof.
  revert k forefathers hash s.
  induction fuel as [|fuel IH]; intros k forefathers hash s Hinv Hk Hf; [lia|].
  cbn [path_loop]. rewrite bind_run.
  pose proof (select_db (parents_query forefathers []) s) as Hdb.
  pose proof (select_result (parents_query forefathers []) s) as Hres.
  destruct (select (parents_query forefathers []) s) as [[rows|] s']; cbn in Hdb, Hres |- *.
  2:{ by eexists. }
  specialize (Hres rows eq_refl).
  assert (Hrows : forall b, b ∈ rows <-> b ∈ binds (c_db s) /\ is_Some (hash !! b_res b)).
  { intros b. rewrite Hres, parents_query_in, (Hk (b_res b)). set_solver. }
  destruct (scan_rows from rows hash []) as [p|[hash' news]] eqn:Hscan; cbn.
  { exists (None, Some p). split_and!; [done|done|].
    apply (scan_found _ _ _ k hash p rows); [done|by intros; apply Hrows|done]. }
  destruct news as [|x news]; cbn.
  { exists (None, None). split_and!; [done|done|].
    by apply (scan_nothing_new _ _ _ k hash hash' rows). }
  destruct (IH (S k) (forefathers ++ x :: news) hash' s') as (r & H1 & H2 & H3).
  - rewrite Hdb. by apply (search_inv_step _ _ _ k hash hash' (x :: news) rows).
  - apply (same_keys_step (binds (c_db s)) from to k hash hash' (x :: news) rows);
      [done|by intros; apply Hrows|done|done].
  - rewrite Hdb. pose proof (news_decrease (binds (c_db s)) from to k hash hash'
      (x :: news) rows Hinv ltac:(intros; by apply Hrows) Hscan ltac:(done)). lia.
  - exists r. rewrite Hdb in *. done.
Qed.

Lemma unseen_le_length bt hash : (unseen bt hash <= length bt)%nat.
Proof. unfold unseen. apply length_filter. Qed.

Lemma search_inv_start bt from to :
  from <> to -> search_inv bt from to 0 {[ to := EmptyString ]}.
Proof.
  intros Hne. split.
  - intros x p [<- <-]%lookup_singleton_Some. exists []. split_and!; [done|constructor|cbn; lia].
  - intros x ns Hp Hl. destruct ns; [|cbn in Hl; lia]. inversion Hp; subst.
    by rewrite lookup_singleton_eq.
  - by rewrite lookup_singleton_ne.
Qed.

Lemma search_start_ok from to s :
  from <> to ->
  exists r, (path_loop (path_fuel (c_db s)) from [] [to] {[ to := EmptyString ]} s).1 = Some r
    /\ c_db (path_loop (path_fuel (c_db s)) from [] [to] {[ to := EmptyString ]} s).2 = c_db s
    /\ path_result (binds (c_db s)) from to r.
Proof.
  intros Heq. apply (path_loop_ok _ from to 0).
  - by apply search_inv_start.
  - intros x. rewrite list_elem_of_singleton. split.
    + intros ->. by rewrite lookup_singleton_eq.
    + by intros [? [<- _]%lookup_singleton_Some].
  - unfold path_fuel. pose proof (unseen_le_length (binds (c_db s)) {[ to := EmptyString ]}). lia.
Qed.

Lemma shortest_path_spec from to s :
  exists r, dbms_find_shortest_path from to s
            = (r, (dbms_find_shortest_path from to s).2)
    /\ c_db (dbms_find_shortest_path from to s).2 = c_db s
    /\ path_result (binds (c_db s)) from to r.
Proof.
  exists (dbms_find_shortest_path from to s).1.
  split; [by destruct (dbms_find_shortest_path from to s)|].
  unfold dbms_find_shortest_path, dbms_find_shortest_path_excl_binds.
  case_bool_decide as Heq.
  - subst. split; [done|]. cbn. exists []. split_and!; [done|constructor|cbn; lia].
  - cbn [excluded_ids]. rewrite bind_run. cbn [get_db fst snd]. rewrite bind_run.
    destruct (search_start_ok from to s Heq) as (r & -> & Hdb & Hr). by split.
Qed.

(** An error of the search is a statement that failed. *)
Lemma path_loop_error fuel from excl fore hash s e p :
  (path_loop fuel from excl fore hash s).1 = Some (Some e, p) ->
  c_errnum (path_loop fuel from excl fore hash s).2 = true.
Proof.
  revert excl fore hash s. induction fuel as [|n IH]; intros excl fore hash s; cbn [path_loop].
  { done. }
  rewrite bind_run. pose proof (execute_spec (fun d => Some (parents_query fore excl d, d)) s) as H.
  unfold select. destruct (execute _ s) as [[rows|] s1]; cbn in *; [|by intros; destruct H].
  destruct (scan_rows from rows hash []) as [|[h [|x l]]]; cbn; [done|done|apply IH].
Qed.

Lemma shortest_path_error from to s e p :
  (dbms_find_shortest_path from to s).1 = (Some e, p) ->
  c_errnum (dbms_find_shortest_path from to s).2 = true.
Proof.
  unfold dbms_find_shortest_path, dbms_find_shortest_path_excl_binds.
  case_bool_decide; [done|]. rewrite bind_run. cbn [get_db fst snd]. rewrite bind_run.
  cbn [fst snd mret M_ret]. intros H1.
  eapply path_loop_error. destruct (path_loop _ _ _ _ _ _).1 as [r|]; cbn in H1; [|done].
  by rewrite H1.
Qed.

(** With no refusal to come the search ends without an error: it decides
    reachability. *)
Lemma path_loop_quiet fuel from excl fore hash s e p :
  quiet s -> (path_loop fuel from excl fore hash s).1 <> Some (Some e, p).
Proof.
  revert excl fore hash s. induction fuel as [|n IH]; intros excl fore hash s Hq;
    cbn [path_loop]; [done|].
  rewrite bind_run. destruct s as [d f t fl er]. unfold quiet in Hq. cbn in Hq. subst f.
  rewrite select_quiet. cbn [fst snd].
  destruct (scan_rows from _ hash []) as [|[h [|x l]]]; cbn; [done|done|].
  by apply IH.
Qed.

Lemma shortest_path_quiet from to s e p :
  quiet s -> (dbms_find_shortest_path from to s).1 <> (Some e, p).
Proof.
  intros Hq. unfold dbms_find_shortest_path, dbms_find_shortest_path_excl_binds.
  case_bool_decide; [done|]. rewrite bind_run. cbn [get_db fst snd]. rewrite bind_run.
  cbn [fst snd mret M_ret].
  pose proof (fun e p => path_loop_quiet (path_fuel (c_db s)) from (excluded_ids []) [to]
    {[to := EmptyString]} s e p Hq) as Hloop.
  destruct (path_loop _ _ _ _ _ _).1 as [[[e'|] p']|]; cbn; [|done|done].
  intros [= -> ->]. by eapply Hloop.
Qed.

#[export] Instance reaches_decision bt from to : Decision (reaches bt from to).
Proof.
  set (s := Conn (set_binds bt empty_db) [] 0 [] false).
  destruct (dbms_find_shortest_path from to s).1 as [[e|] [p|]] eqn:E.
  - exfalso. by apply (shortest_path_quiet from to s e (Some p)).
  - exfalso. by apply (shortest_path_quiet from to s e None).
  - left. destruct (shortest_path_spec from to s) as (r & Hr & _ & Hres).
    rewrite Hr in E. cbn in E. subst r. destruct Hres as (ns & _ & H & _). by exists ns.
  - right. destruct (shortest_path_spec from to s) as (r & Hr & _ & Hres).
    rewrite Hr in E. cbn in E. by subst r.
Defined.

(** A path that uses a bind that is gone ends, after the last such bind, in the
    binds that are left. *)
Lemma bind_path_suffix bt bt' c ns r :
  bind_path bt c ns r ->
  bind_path bt' c ns r
  \/ exists b, b ∈ bt /\ b ∉ bt' /\ reaches bt' (b_res b) r.
Proof.
  induction 1 as [c|b ns r Hb Hp [IH|IH]]; [left; constructor| |by right].
  destruct (decide (b ∈ bt')); [left; by constructor|].
  right. exists b. split_and!; [done|done|by exists ns].
Qed.

Lemma reaches_suffix bt bt' c r :
  reaches bt c r ->
  reaches bt' c r \/ exists b, b ∈ bt /\ b ∉ bt' /\ reaches bt' (b_res b) r.
Proof.
  intros [ns H]. destruct (bind_path_suffix bt bt' c ns r H) as [H'|H']; [|by right].
  left. by exists ns.
Qed.

(** Nothing leads out of a node without binds, but to itself. *)
Lemma reaches_no_out bt c r :
  (forall b, b ∈ bt -> b_coll b <> c) -> reaches bt c r -> r = c.
Proof.
  intros Hout [ns H]. destruct H as [|b ns r Hb _]; [done|]. by destruct (Hout b Hb).
Qed.

(** A node that [c] does not reach is on no path from [c]. *)
Lemma reaches_avoid bt c r x :
  ~ reaches bt c x -> reaches bt c r ->
  reaches (List.filter (fun b => negb (bool_decide (b_coll b = x \/ b_res b = x))) bt) c r.
Proof.
  intros Hx [ns H]. exists ns. induction H as [c|b ns r Hb Hp IH]; [constructor|].
  assert (Hx' : ~ reaches bt (b_res b) x).
  { intros Hr. apply Hx. eapply reaches_trans; [by apply reaches_step|done]. }
  constructor; [|by apply IH].
  apply elem_of_filter_bool. split; [|done].
  apply negb_true_iff, bool_decide_eq_false. intros [<-|<-]; apply Hx; auto with lime.
Qed.

(** ** Properties *)

(** C6. The search ends, within its fuel, whatever the server refuses: with an
    error, or with a shortest path between the two resources, or with the answer
    that there is none when there is none.  It changes no table. *)
Theorem find_shortest_path_spec from to s :
  (from <> to ->
   is_Some (path_loop (path_fuel (c_db s)) from [] [to] {[ to := EmptyString ]} s).1)
  /\ c_db (dbms_find_shortest_path from to s).2 = c_db s
  /\ path_result (binds (c_db s)) from to (dbms_find_shortest_path from to s).1.
Proof.
  destruct (shortest_path_spec from to s) as (r & -> & Hdb & Hr). split; [|done].
  intros Hne. destruct (search_start_ok from to s Hne) as (r' & -> & _). done.
Qed.

(** The binds left when some are excluded. *)
Definition without_binds (excl : list dbms_bind_list) (bt : list bind_row) : list bind_row :=
  List.filter (fun b => negb (bool_decide (b_id b ∈ map bind_id excl))) bt.

(** The exclusion holds in the first round of the search only: a path can be
    returned where every path uses an excluded bind. *)
Theorem excluded_bind_returned :
  exists s from to excl p,
    (dbms_find_shortest_path_excl_binds from to excl s).1 = (None, Some p)
    /\ ~ reaches (without_binds excl (binds (c_db s))) from to.
Proof.
  set (bt := [BindRow 1 "a" 10 11 0; BindRow 2 "b" 11 12 0]).
  set (excl := [BindItem 1 10 11 "a" 0 None]).
  exists (Conn (set_binds bt empty_db) [] 0 [] false), 10, 12, excl, "/a/b"%string.
  split; [by vm_compute|].
  intros H. apply reaches_no_out in H; [done|].
  intros b. unfold without_binds. rewrite elem_of_filter_bool. cbn.
  intros [Hf Hb] Hc. set_unfold in Hb. destruct Hb as [->|[->|[]]]; done.
Qed.
