(* ===== verification/Lookup.v ===== *)
(** * Correctness of the lookup of a URI in [Bind.v]

    The one query with an outer join per component of the path is equivalent to a
    walk through the table [binds], one component at a time. *)
From S2P Require Import Prelude Util Dbd Db Bind Paths.
From stdpp Require Import pretty.
Local Open Scope Z_scope.

(** ** Specification *)

(** The UNIQUE constraint on (collection_id, name). *)
Definition bind_key (b : bind_row) : Z * string := (b_coll b, b_name b).
Definition binds_unique (bt : list bind_row) : Prop := NoDup (map bind_key bt).

Definition find_bind (bt : list bind_row) (coll : Z) (name : string) : option bind_row :=
  List.find (fun b => bool_decide (b_coll b = coll /\ b_name b = name)) bt.

(** The binds met when the names are followed as far as they lead. *)
Fixpoint walk (bt : list bind_row) (coll : Z) (names : list string) : list bind_row :=
  match names with
  | [] => []
  | n :: rest =>
      match find_bind bt coll n with
      | Some b => b :: walk bt (b_res b) rest
      | None => []
      end
  end.

(** ** One step of the join *)

Lemma find_bind_some bt coll name b :
  find_bind bt coll name = Some b -> b ∈ bt /\ b_coll b = coll /\ b_name b = name.
Proof.
  intros [Hin H]%find_some. rewrite <- list_elem_of_In in Hin.
  apply bool_decide_eq_true in H. tauto.
Qed.

Lemma filter_unique bt coll name :
  binds_unique bt ->
  List.filter (fun b => bool_decide (b_coll b = coll /\ b_name b = name)) bt
  = option_list (find_bind bt coll name).
Proof.
  unfold binds_unique, find_bind. induction bt as [|b bt IH]; cbn; [done|].
  intros [Hb Hnd]%NoDup_cons. case_bool_decide as H; [|by apply IH]. cbn. f_equal.
  apply filter_bool_none. intros x Hx. apply bool_decide_eq_false. intros H'. apply Hb.
  apply elem_of_map. exists x. split; [|done]. unfold bind_key. destruct H, H'. congruence.
Qed.

Definition join_row (bt : list bind_row) (row : list (option bind_row)) (name : string)
  : list (option bind_row) :=
  row ++ [match last row with
          | Some (Some b) => find_bind bt (b_res b) name
          | _ => None
          end].

Lemma join_binds_unique bt name row :
  binds_unique bt -> join_binds bt name [row] = [join_row bt row name].
Proof.
  intros Hu. unfold join_binds, join_row. cbn [flat_map]. rewrite app_nil_r.
  destruct (last row) as [[b|]|]; try done. rewrite filter_unique by done.
  by destruct (find_bind bt (b_res b) name).
Qed.

(** The padded row of a walk. *)
Definition walk_row (bt : list bind_row) (coll : Z) (names : list string)
  : list (option bind_row) :=
  let w := walk bt coll names in
  (Some <$> w) ++ replicate (length names - length w) None.

Lemma walk_length bt coll names : (length (walk bt coll names) <= length names)%nat.
Proof.
  revert coll. induction names as [|n names IH]; intros coll; cbn; [done|].
  destruct (find_bind bt coll n); cbn; [|lia]. specialize (IH (b_res b)). lia.
Qed.

Lemma fold_join_dead bt rest row :
  binds_unique bt -> last row = Some None ->
  fold_left (fun rows name => join_binds bt name rows) rest [row]
  = [row ++ replicate (length rest) None].
Proof.
  intros Hu. revert row. induction rest as [|n rest IH]; intros row Hl; cbn [fold_left].
  { by rewrite app_nil_r. }
  rewrite join_binds_unique by done. unfold join_row. rewrite Hl.
  rewrite IH by (by rewrite last_snoc). by rewrite <- app_assoc.
Qed.

Lemma fold_join_live bt rest row b :
  binds_unique bt ->
  fold_left (fun rows name => join_binds bt name rows) rest [row ++ [Some b]]
  = [row ++ [Some b] ++ walk_row bt (b_res b) rest].
Proof.
  intros Hu. revert row b. induction rest as [|n rest IH]; intros row b; cbn [fold_left].
  { done. }
  rewrite join_binds_unique by done. unfold join_row, walk_row. rewrite last_snoc.
  cbn [walk]. destruct (find_bind bt (b_res b) n) as [c|].
  - rewrite (IH (row ++ [Some b]) c). unfold walk_row. by rewrite <- !app_assoc.
  - rewrite fold_join_dead by (done || by rewrite last_snoc).
    rewrite <- !app_assoc. cbn. done.
Qed.

Lemma join_path_walk bt first rest :
  binds_unique bt ->
  join_path bt first rest
  = match walk bt ROOT_COLLECTION_ID (first :: rest) with
    | [] => []
    | _ => [walk_row bt ROOT_COLLECTION_ID (first :: rest)]
    end.
Proof.
  intros Hu. unfold join_path. rewrite filter_unique by done. unfold walk_row. cbn [walk].
  destruct (find_bind bt ROOT_COLLECTION_ID first) as [b|]; cbn [option_list map].
  - apply (fold_join_live bt rest [] b Hu).
  - by induction rest as [|n rest IH].
Qed.

(** ** The row that is read *)

Lemma leading_walk (w : list bind_row) k :
  leading ((Some <$> w) ++ replicate k None) = length w.
Proof. induction w as [|b w IH]; cbn; [by destruct k|by rewrite IH]. Qed.

(** ** The part of the URI that exists *)

(** A name in a path: at least one character, no slash. *)
Definition name_ok (n : string) : bool :=
  negb (String.eqb n EmptyString) && bool_decide (count_char SLASH n = 0%nat).

Lemma uri_offset_name n rest count limit :
  count_char SLASH n = 0%nat -> (count < limit)%nat ->
  uri_offset (n +:+ rest) count limit
  = ((String.length n + (uri_offset rest count limit).1)%nat, (uri_offset rest count limit).2).
Proof.
  intros Hn Hlt. induction n as [|c n IH]; cbn [append String.length].
  { by destruct (uri_offset rest count limit). }
  cbn in Hn. cbn [uri_offset]. rewrite bool_decide_true by done.
  destruct (Ascii.eqb c SLASH); [done|]. rewrite IH by done. done.
Qed.

Lemma uri_offset_path names count limit :
  Forall (fun n => name_ok n = true) names -> (count < limit)%nat ->
  uri_offset (path_string names) count limit
  = if bool_decide (limit - count <= length names)%nat
    then (S (String.length (path_string (take (limit - count - 1) names))), limit)
    else (String.length (path_string names), (count + length names)%nat).
Proof.
  intros Hf. revert count. induction Hf as [|n names Hn Hf IH]; intros count Hlt.
  { cbn. rewrite bool_decide_false by lia. by rewrite Nat.add_0_r. }
  apply andb_prop in Hn as [_ Hn]. apply bool_decide_eq_true in Hn.
  cbn [path_string append uri_offset]. rewrite bool_decide_true by done.
  change (Ascii.eqb SLASH SLASH) with true. cbn iota.
  destruct (decide (S count = limit)) as [<-|Hne].
  - replace (uri_offset (n +:+ path_string names) (S count) (S count)) with (0%nat, S count).
    + rewrite bool_decide_true by (cbn; lia). replace (S count - count - 1)%nat with 0%nat by lia.
      done.
    + destruct (n +:+ path_string names); cbn; [done|]. by rewrite bool_decide_false by lia.
  - rewrite uri_offset_name, IH by (done || lia). cbn [fst snd length].
    destruct (decide (limit - count <= S (length names))%nat).
    + rewrite !bool_decide_true by lia. cbn [fst snd].
      replace (limit - count - 1)%nat with (S (limit - S count - 1)) by lia.
      cbn [take path_string append String.length]. rewrite string_length_app. f_equal. lia.
    + rewrite !bool_decide_false by lia. cbn [fst snd String.length].
      rewrite string_length_app. f_equal; lia.
Qed.

Lemma path_string_app l1 l2 : path_string (l1 ++ l2) = path_string l1 +:+ path_string l2.
Proof.
  induction l1 as [|n l1 IH]; [done|]. cbn [app path_string append]. f_equal.
  by rewrite IH, string_app_assoc.
Qed.

Lemma substring_app n s t :
  n = String.length s -> String.substring 0 n (s +:+ t) = s.
Proof.
  intros ->. induction s as [|c s IH]; cbn; [by destruct t|]. by rewrite IH.
Qed.

Lemma existing_uri_path names j :
  Forall (fun n => name_ok n = true) names -> (S j < length names)%nat ->
  existing_uri (path_string names) j = path_string (take (S j) names).
Proof.
  intros Hf Hj. unfold existing_uri. rewrite uri_offset_path by (done || lia).
  rewrite bool_decide_true by lia. cbn iota beta.
  rewrite (bool_decide_true (j + 2 = j + 2)%nat) by done.
  replace (j + 2 - 0 - 1)%nat with (S j) by lia.
  rewrite Nat.sub_succ, Nat.sub_0_r.
  rewrite <- (take_drop (S j) names) at 2. rewrite path_string_app.
  by apply substring_app.
Qed.

(** ** The URI is already compact *)

Lemma no_double_slash_name n s :
  count_char SLASH n = 0%nat -> no_double_slash s = true -> no_double_slash (n +:+ s) = true.
Proof.
  intros Hn Hs. induction n as [|c n IH]; [done|]. cbn in Hn |- *.
  destruct (Ascii.eqb c SLASH) eqn:Hc; [done|]. rewrite IH by done.
  by destruct (n +:+ s).
Qed.

Lemma no_double_slash_path names :
  Forall (fun n => name_ok n = true) names -> no_double_slash (path_string names) = true.
Proof.
  induction 1 as [|n names Hn Hf IH]; [done|].
  apply andb_prop in Hn as [Hne Hn]. apply bool_decide_eq_true in Hn.
  cbn [path_string append]. destruct n as [|c n]; [done|].
  pose proof (no_double_slash_name (String c n) (path_string names) Hn IH) as H.
  cbn in Hn. destruct (Ascii.eqb c SLASH) eqn:Hc; [done|].
  change (negb (Ascii.eqb SLASH SLASH && Ascii.eqb c SLASH)
          && no_double_slash (String c n +:+ path_string names) = true).
  by rewrite H, Hc, andb_false_r.
Qed.

Lemma compact_uri_path names :
  Forall (fun n => name_ok n = true) names -> compact_uri (path_string names) = path_string names.
Proof.
  intros Hf%no_double_slash_path. destruct (path_string names) as [|c r]; [done|].
  cbn [compact_uri]. by rewrite compact_loop_id.
Qed.

(** ** The question marks of the query text *)

Lemma pretty_N_go_qmarks x s :
  count_char QMARK (pretty_N_go x s) = count_char QMARK s.
Proof.
  revert s. induction (N.lt_wf_0 x) as [x _ IH]; intros s.
  destruct (decide (x = 0)%N) as [->|Hx]; [by rewrite pretty_N_go_0|].
  rewrite pretty_N_go_step by lia. rewrite IH by (apply N.div_lt; lia).
  cbn [count_char]. assert (Ascii.eqb (pretty_N_char (x `mod` 10)) QMARK = false) as ->; [|done].
  unfold pretty_N_char. by repeat case_match.
Qed.

Lemma pretty_N_qmarks (n : N) : count_char QMARK (pretty n) = 0%nat.
Proof. unfold pretty, pretty_N. case_decide; [done|]. by rewrite pretty_N_go_qmarks. Qed.

Section lookup.
Context (apr_strtok_slash : string -> list string) (apr_dbd_escape : string -> string).

Fixpoint qmarks (names : list string) : nat :=
  match names with
  | [] => 0%nat
  | n :: rest => (count_char QMARK (apr_dbd_escape n) + qmarks rest)%nat
  end.

Lemma lookup_select_qmarks i n : count_char QMARK (lookup_select i n) = 0%nat.
Proof.
  revert i. induction n as [|n IH]; intros i; [done|]. cbn [lookup_select].
  rewrite !count_char_app, pretty_N_qmarks, IH. done.
Qed.

Lemma lookup_greatest_qmarks i n : count_char QMARK (lookup_greatest i n) = 0%nat.
Proof.
  revert i. induction n as [|n IH]; intros i; [done|]. cbn [lookup_greatest].
  rewrite !count_char_app, pretty_N_qmarks, IH. done.
Qed.

Lemma lookup_from_qmarks i tokens :
  count_char QMARK (lookup_from apr_dbd_escape i tokens) = qmarks tokens.
Proof.
  revert i. induction tokens as [|t tokens IH]; intros i; [done|]. cbn [lookup_from].
  rewrite !count_char_app, !pretty_N_qmarks, IH. cbn. lia.
Qed.

Lemma lookup_query_qmarks first rest :
  count_char QMARK (lookup_query apr_dbd_escape first rest) = qmarks (first :: rest).
Proof.
  unfold lookup_query.
  rewrite !count_char_app, !pretty_N_qmarks, lookup_select_qmarks, lookup_greatest_qmarks,
    lookup_from_qmarks.
  replace (count_char QMARK (pretty ROOT_COLLECTION_ID)) with 0%nat by (by vm_compute).
  cbn. lia.
Qed.

(** ** Properties *)

(** What a lookup finds: nothing when the first component is missing; the
    resource when every component is there; otherwise the last collection found
    with the URI of what exists. *)
Definition lookup_answer (names : list string) (d : db) : option dbms_bind_list :=
  let w := walk (binds d) ROOT_COLLECTION_ID names in
  let updated := row_updated_at (resources d) (walk_row (binds d) ROOT_COLLECTION_ID names) in
  match last w with
  | None => None
  | Some b =>
      Some (if bool_decide (length w = length names)
            then BindItem (b_id b) 0 (b_res b) "" updated None
            else BindItem 0 (b_res b) (-1) "" updated
                   (Some (path_string (take (length w) names))))
  end.

Lemma bind_of_row_walk names d b updated :
  Forall (fun n => name_ok n = true) names ->
  last (walk (binds d) ROOT_COLLECTION_ID names) = Some b ->
  bind_of_row (path_string names) (walk_row (binds d) ROOT_COLLECTION_ID names) updated
  = let w := walk (binds d) ROOT_COLLECTION_ID names in
    if bool_decide (length w = length names)
    then BindItem (b_id b) 0 (b_res b) "" updated None
    else BindItem 0 (b_res b) (-1) "" updated (Some (path_string (take (length w) names))).
Proof.
  intros Hf Hl. pose proof (walk_length (binds d) ROOT_COLLECTION_ID names) as Hlen.
  unfold bind_of_row, walk_row. set (w := walk _ _ _) in *.
  rewrite leading_walk, length_app, length_fmap, length_replicate.
  assert (Hpos : (0 < length w)%nat) by (destruct w; [done|cbn; lia]).
  rewrite lookup_app_l by (rewrite length_fmap; lia).
  assert (Hb : w !! (length w - 1)%nat = Some b).
  { rewrite <- Hl, last_lookup. f_equal. lia. }
  rewrite list_lookup_fmap, Hb. cbn [fmap option_fmap option_map from_option].
  destruct (decide (length w = length names)) as [He|Hne].
  - rewrite !bool_decide_true by lia. rewrite He, Nat.sub_diag, app_nil_r.
    replace (last (Some <$> w)) with (Some (Some b)); [done|].
    by rewrite fmap_last, Hl.
  - rewrite !bool_decide_false by lia.
    destruct (length names - length w)%nat as [|k] eqn:Hk; [lia|].
    rewrite replicate_S_end, app_assoc, last_snoc. cbn [from_option].
    rewrite existing_uri_path by (done || lia).
    replace (S (length w - 1)) with (length w) by lia. done.
Qed.

Lemma lookup_uri_run names s :
  binds_unique (binds (c_db s)) -> quiet s ->
  Forall (fun n => name_ok n = true) names -> names <> [] ->
  apr_strtok_slash (path_string names) = names ->
  qmarks names = 0%nat ->
  dbms_lookup_uri apr_strtok_slash apr_dbd_escape (path_string names) s
  = (Some (inr (lookup_answer names (c_db s))), s).
Proof.
  intros Hu Hq Hf Hne Htok Hmarks. destruct s as [d f t fl e].
  unfold quiet in Hq. cbn in Hq, Hu. subst f. unfold dbms_lookup_uri.
  rewrite compact_uri_path, Htok by done. destruct names as [|first rest]; [done|].
  unfold dbms_prepare. rewrite lookup_query_qmarks, Hmarks. cbn [replicate parameters].
  rewrite bind_run, select_quiet. cbn [fst snd]. rewrite ret_run. f_equal. f_equal. f_equal.
  unfold lookup_rows, lookup_answer. cbn [c_db]. rewrite join_path_walk by done.
  destruct (last (walk (binds d) ROOT_COLLECTION_ID (first :: rest))) as [b|] eqn:Hl.
  - destruct (walk (binds d) ROOT_COLLECTION_ID (first :: rest)) as [|b0 w] eqn:Hw; [done|].
    cbn [map]. rewrite <- Hw in *. by erewrite bind_of_row_walk.
  - by apply last_None in Hl as ->.
Qed.

(** C11. On a table that keeps its UNIQUE constraint, the one query of
    [dbms_lookup_uri] is the walk from the root, component by component. *)
Theorem lookup_uri_walk names s :
  binds_unique (binds (c_db s)) -> quiet s ->
  Forall (fun n => name_ok n = true) names -> names <> [] ->
  apr_strtok_slash (path_string names) = names ->
  qmarks names = 0%nat ->
  dbms_lookup_uri apr_strtok_slash apr_dbd_escape (path_string names) s
  = (Some (inr (lookup_answer names (c_db s))), s).
Proof. apply lookup_uri_run. Qed.

(** A component whose escaped text has a question mark: the statement counts as
    a template with a parameter that was never set, so it is not executed, and
    the results of a query without results are read. *)
Theorem lookup_uri_question_mark uri s :
  qmarks (apr_strtok_slash (compact_uri uri)) <> 0%nat ->
  dbms_lookup_uri apr_strtok_slash apr_dbd_escape uri s = (None, s).
Proof.
  intros Hq. unfold dbms_lookup_uri.
  destruct (apr_strtok_slash (compact_uri uri)) as [|first rest]; [done|].
  unfold dbms_prepare. rewrite lookup_query_qmarks.
  by destruct (qmarks (first :: rest)).
Qed.

Lemma bind_path_walk bt c names r :
  binds_unique bt -> bind_path bt c names r ->
  length (walk bt c names) = length names
  /\ (names <> [] -> b_res <$> last (walk bt c names) = Some r).
Proof.
  intros Hu. induction 1 as [c|b names r Hb Hp [IH1 IH2]]; [done|]. cbn [walk].
  assert (find_bind bt (b_coll b) (b_name b) = Some b) as ->.
  { pose proof (filter_unique bt (b_coll b) (b_name b) Hu) as Hfil.
    assert (Hin : b ∈ option_list (find_bind bt (b_coll b) (b_name b))).
    { rewrite <- Hfil. apply elem_of_filter_bool. split; [by apply bool_decide_eq_true|done]. }
    destruct (find_bind _ _ _) as [c|]; cbn in Hin; set_solver. }
  cbn [length]. split; [by rewrite IH1|]. intros _.
  destruct names as [|n names]; [by inversion Hp; subst|].
  specialize (IH2 ltac:(done)). destruct (walk bt (b_res b) (n :: names)) as [|b' w]; [done|].
  exact IH2.
Qed.

(** C12. The path the search finds from the root to a resource leads back to that
    resource when it is looked up. *)
Theorem shortest_path_lookup to p s :
  binds_unique (binds (c_db s)) -> quiet s -> to <> ROOT_COLLECTION_ID ->
  (forall b, b ∈ binds (c_db s) ->
     name_ok (b_name b) = true /\ count_char QMARK (apr_dbd_escape (b_name b)) = 0%nat) ->
  (forall names, Forall (fun n => name_ok n = true) names ->
     apr_strtok_slash (path_string names) = names) ->
  (dbms_find_shortest_path ROOT_COLLECTION_ID to s).1 = (None, Some p) ->
  exists bind, (dbms_lookup_uri apr_strtok_slash apr_dbd_escape p s).1
               = Some (inr (Some bind))
    /\ resource_id bind = to.
Proof.
  intros Hu Hq Hto Hnames Htok Hp.
  destruct (shortest_path_spec ROOT_COLLECTION_ID to s) as (r & Hr & _ & Hres).
  rewrite Hr in Hp. cbn in Hp. subst r. destruct Hres as (ns & -> & Hpath & _).
  assert (Hall : Forall (fun n => name_ok n = true
                 /\ count_char QMARK (apr_dbd_escape n) = 0%nat) ns).
  { clear -Hnames Hpath. revert Hpath. generalize ROOT_COLLECTION_ID. intros c Hpath.
    induction Hpath as [|b ns r Hb _ IH]; constructor; auto. }
  assert (Hne : ns <> []) by (intros ->; by inversion Hpath).
  destruct (bind_path_walk _ _ _ _ Hu Hpath) as [Hlen Hlast]. specialize (Hlast Hne).
  assert (Hf : Forall (fun n => name_ok n = true) ns)
    by (eapply Forall_impl; [exact Hall|naive_solver]).
  rewrite lookup_uri_run; [|done|done|done|done|by apply Htok|].
  - cbn [fst]. unfold lookup_answer. rewrite Hlen, bool_decide_true by done.
    destruct (last _) as [b|]; [|done]. eexists. split; [done|]. cbn in *. congruence.
  - clear -Hall. induction Hall as [|n ns [_ H] _ IH]; cbn; lia.
Qed.
End lookup.

(** ** Examples *)

(** The tokens between slashes that are not empty, as [apr_strtok] is documented. *)
Definition token (cur : string) : list string :=
  if String.eqb cur EmptyString then [] else [cur].

Fixpoint sample_tokens (cur s : string) : list string :=
  match s with
  | EmptyString => token cur
  | String c r => if Ascii.eqb c SLASH then token cur ++ sample_tokens EmptyString r
                  else sample_tokens (cur +:+ String c EmptyString) r
  end.

Definition sample_strtok (s : string) : list string := sample_tokens EmptyString s.

Lemma sample_tokens_name cur n s :
  count_char SLASH n = 0%nat -> sample_tokens cur (n +:+ s) = sample_tokens (cur +:+ n) s.
Proof.
  revert cur. induction n as [|c n IH]; intros cur Hn.
  { by rewrite string_app_nil_r. }
  cbn in Hn. cbn [append sample_tokens]. destruct (Ascii.eqb c SLASH); [done|].
  rewrite IH by done. by rewrite string_app_assoc.
Qed.

Lemma sample_tokens_path cur names :
  Forall (fun n => name_ok n = true) names ->
  sample_tokens cur (path_string names) = token cur ++ names.
Proof.
  intros Hf. revert cur. induction Hf as [|n names Hn Hf IH]; intros cur.
  { by rewrite app_nil_r. }
  apply andb_prop in Hn as [Hne Hn]. apply bool_decide_eq_true in Hn.
  cbn [path_string append sample_tokens]. change (Ascii.eqb SLASH SLASH) with true.
  cbn iota. f_equal. rewrite sample_tokens_name by done. rewrite IH. cbn [append].
  unfold token. by destruct (String.eqb n EmptyString).
Qed.

Definition sample_binds : list bind_row :=
  [BindRow 1 "home" ROOT_COLLECTION_ID 8 5; BindRow 2 "ann" 8 20 6; BindRow 3 "notes" 20 21 7;
   BindRow 4 "shared" 8 21 9].

Definition sample_names_db : conn := Conn (set_binds sample_binds empty_db) [] 0 [] false.

Lemma lookup_uri_walk_witness :
  dbms_lookup_uri sample_strtok (fun s => s) "/home/ann/todo/now" sample_names_db
  = (Some (inr (Some (BindItem 0 20 (-1) "" 6 (Some "/home/ann"%string)))), sample_names_db).
Proof.
  apply (lookup_uri_walk sample_strtok (fun s => s) ["home"; "ann"; "todo"; "now"]%string
    sample_names_db).
  - apply (bool_decide_unpack _). vm_compute. exact I.
  - reflexivity.
  - repeat constructor.
  - discriminate.
  - vm_compute. reflexivity.
  - vm_compute. reflexivity.
Defined.

Lemma lookup_uri_question_mark_witness :
  dbms_lookup_uri sample_strtok (fun s => s) "/home/what?" sample_names_db
  = (None, sample_names_db).
Proof.
  apply (lookup_uri_question_mark sample_strtok (fun s => s)). vm_compute. discriminate.
Defined.

Lemma shortest_path_lookup_witness :
  (dbms_find_shortest_path ROOT_COLLECTION_ID 21 sample_names_db).1
    = (None, Some "/home/shared"%string)
  /\ exists bind, (dbms_lookup_uri sample_strtok (fun s => s) "/home/shared" sample_names_db).1
                  = Some (inr (Some bind)) /\ resource_id bind = 21.
Proof.
  split; [vm_compute; reflexivity|].
  apply (shortest_path_lookup sample_strtok (fun s => s) 21).
  - apply (bool_decide_unpack _). vm_compute. exact I.
  - reflexivity.
  - discriminate.
  - intros b Hb. cbn in Hb. set_unfold in Hb. destruct Hb as [->|[->|[->|[->|[]]]]];
      split; vm_compute; reflexivity.
  - intros names Hf. by apply sample_tokens_path.
  - vm_compute. reflexivity.
Defined.
