(* ===== verification/Resource.v ===== *)
(** * Resources, bodies and quota ([limestone/dbms.c], [dbms_quota.c])

    [dav_repos_resource] is the transfer record the C code passes around; the
    statements on the tables [resources], [media] and [quota] follow, with the
    quota rules of the schema and the cascades of a deletion. *)
From S2P Require Import Prelude Util Db Bind.
Local Open Scope Z_scope.
Local Open Scope limestone_scope.

(** ** Data *)

Inductive dav_resource_checked_state :=
| DAV_RESOURCE_NOT_VERSIONED | DAV_RESOURCE_CHECKED_IN | DAV_RESOURCE_CHECKED_OUT.

#[export] Instance checked_state_eq_dec : EqDecision dav_resource_checked_state.
Proof. solve_decision. Defined.

(** [has_resource] says that the pointer [resource] is not NULL; [bind] is the
    [serialno] of the earlier element of the chain with the same resource. *)
Record dav_repos_resource := Dbr {
  has_resource : bool;
  serialno : Z;
  root_path : string;
  uri : option string;
  dbr_bind_id : Z;
  dbr_created_at : Z;
  dbr_updated_at : Z;
  displayname : option string;
  getcontenttype : option string;
  getcontentlength : Z;
  resourcetype : option dav_repos_type;
  creator_id : Z;
  owner_id : Z;
  uuid : string;
  root_version_id : Z;
  autoversion_type : Z;
  lastversion : bool;
  checked_id : Z;
  checked_state : dav_resource_checked_state;
  vr_num : Z;
  version : Z;
  vcr_id : Z;
  vhr_id : Z;
  checkin_on_unlock : Z;
  sha1str : option string;
  dbr_parent_id : Z;
  dbr_bind : bool;
  av_new_children : Z;
  redirect_lifetime : option string;
  reftarget : option string;
  creator_displayname : option string;
  getcontentlanguage : option string;
  limebar_state : option string
}.

(** [apr_pcalloc]: every field zero. *)
Definition zero_dbr : dav_repos_resource :=
  Dbr false 0 "" None 0 0 0 None None 0 None 0 0 "" 0 0 false 0
    DAV_RESOURCE_NOT_VERSIONED 0 0 0 0 0 None 0 false 0 None None None None None.

(** Assignments to one field. *)
Definition set_has_resource (x : bool) (r : dav_repos_resource) : dav_repos_resource :=
  Dbr x (serialno r) (root_path r) (uri r) (dbr_bind_id r) (dbr_created_at r)
    (dbr_updated_at r) (displayname r) (getcontenttype r) (getcontentlength r)
    (resourcetype r) (creator_id r) (owner_id r) (uuid r) (root_version_id r)
    (autoversion_type r) (lastversion r) (checked_id r) (checked_state r)
    (vr_num r) (version r) (vcr_id r) (vhr_id r) (checkin_on_unlock r)
    (sha1str r) (dbr_parent_id r) (dbr_bind r) (av_new_children r)
    (redirect_lifetime r) (reftarget r) (creator_displayname r)
    (getcontentlanguage r) (limebar_state r).
Definition set_serialno (x : Z) (r : dav_repos_resource) : dav_repos_resource :=
  Dbr (has_resource r) x (root_path r) (uri r) (dbr_bind_id r) (dbr_created_at
    r) (dbr_updated_at r) (displayname r) (getcontenttype r) (getcontentlength
    r) (resourcetype r) (creator_id r) (owner_id r) (uuid r) (root_version_id
    r) (autoversion_type r) (lastversion r) (checked_id r) (checked_state r)
    (vr_num r) (version r) (vcr_id r) (vhr_id r) (checkin_on_unlock r)
    (sha1str r) (dbr_parent_id r) (dbr_bind r) (av_new_children r)
    (redirect_lifetime r) (reftarget r) (creator_displayname r)
    (getcontentlanguage r) (limebar_state r).
Definition set_root_path (x : string) (r : dav_repos_resource) : dav_repos_resource :=
  Dbr (has_resource r) (serialno r) x (uri r) (dbr_bind_id r) (dbr_created_at
    r) (dbr_updated_at r) (displayname r) (getcontenttype r) (getcontentlength
    r) (resourcetype r) (creator_id r) (owner_id r) (uuid r) (root_version_id
    r) (autoversion_type r) (lastversion r) (checked_id r) (checked_state r)
    (vr_num r) (version r) (vcr_id r) (vhr_id r) (checkin_on_unlock r)
    (sha1str r) (dbr_parent_id r) (dbr_bind r) (av_new_children r)
    (redirect_lifetime r) (reftarget r) (creator_displayname r)
    (getcontentlanguage r) (limebar_state r).
Definition set_uri (x : option string) (r : dav_repos_resource) : dav_repos_resource :=
  Dbr (has_resource r) (serialno r) (root_path r) x (dbr_bind_id r)
    (dbr_created_at r) (dbr_updated_at r) (displayname r) (getcontenttype r)
    (getcontentlength r) (resourcetype r) (creator_id r) (owner_id r) (uuid r)
    (root_version_id r) (autoversion_type r) (lastversion r) (checked_id r)
    (checked_state r) (vr_num r) (version r) (vcr_id r) (vhr_id r)
    (checkin_on_unlock r) (sha1str r) (dbr_parent_id r) (dbr_bind r)
    (av_new_children r) (redirect_lifetime r) (reftarget r)
    (creator_displayname r)
    (getcontentlanguage r) (limebar_state r).
Definition set_bind_id (x : Z) (r : dav_repos_resource) : dav_repos_resource :=
  Dbr (has_resource r) (serialno r) (root_path r) (uri r) x (dbr_created_at r)
    (dbr_updated_at r) (displayname r) (getcontenttype r) (getcontentlength r)
    (resourcetype r) (creator_id r) (owner_id r) (uuid r) (root_version_id r)
    (autoversion_type r) (lastversion r) (checked_id r) (checked_state r)
    (vr_num r) (version r) (vcr_id r) (vhr_id r) (checkin_on_unlock r)
    (sha1str r) (dbr_parent_id r) (dbr_bind r) (av_new_children r)
    (redirect_lifetime r) (reftarget r) (creator_displayname r)
    (getcontentlanguage r) (limebar_state r).
Definition set_created_at (x : Z) (r : dav_repos_resource) : dav_repos_resource :=
  Dbr (has_resource r) (serialno r) (root_path r) (uri r) (dbr_bind_id r) x
    (dbr_updated_at r) (displayname r) (getcontenttype r) (getcontentlength r)
    (resourcetype r) (creator_id r) (owner_id r) (uuid r) (root_version_id r)
    (autoversion_type r) (lastversion r) (checked_id r) (checked_state r)
    (vr_num r) (version r) (vcr_id r) (vhr_id r) (checkin_on_unlock r)
    (sha1str r) (dbr_parent_id r) (dbr_bind r) (av_new_children r)
    (redirect_lifetime r) (reftarget r) (creator_displayname r)
    (getcontentlanguage r) (limebar_state r).
Definition set_updated_at (x : Z) (r : dav_repos_resource) : dav_repos_resource :=
  Dbr (has_resource r) (serialno r) (root_path r) (uri r) (dbr_bind_id r)
    (dbr_created_at r) x (displayname r) (getcontenttype r) (getcontentlength
    r) (resourcetype r) (creator_id r) (owner_id r) (uuid r) (root_version_id
    r) (autoversion_type r) (lastversion r) (checked_id r) (checked_state r)
    (vr_num r) (version r) (vcr_id r) (vhr_id r) (checkin_on_unlock r)
    (sha1str r) (dbr_parent_id r) (dbr_bind r) (av_new_children r)
    (redirect_lifetime r) (reftarget r) (creator_displayname r)
    (getcontentlanguage r) (limebar_state r).
Definition set_displayname (x : option string) (r : dav_repos_resource) : dav_repos_resource :=
  Dbr (has_resource r) (serialno r) (root_path r) (uri r) (dbr_bind_id r)
    (dbr_created_at r) (dbr_updated_at r) x (getcontenttype r)
    (getcontentlength r) (resourcetype r) (creator_id r) (owner_id r) (uuid r)
    (root_version_id r) (autoversion_type r) (lastversion r) (checked_id r)
    (checked_state r) (vr_num r) (version r) (vcr_id r) (vhr_id r)
    (checkin_on_unlock r) (sha1str r) (dbr_parent_id r) (dbr_bind r)
    (av_new_children r) (redirect_lifetime r) (reftarget r)
    (creator_displayname r)
    (getcontentlanguage r) (limebar_state r).
Definition set_getcontenttype (x : option string) (r : dav_repos_resource) : dav_repos_resource :=
  Dbr (has_resource r) (serialno r) (root_path r) (uri r) (dbr_bind_id r)
    (dbr_created_at r) (dbr_updated_at r) (displayname r) x (getcontentlength
    r) (resourcetype r) (creator_id r) (owner_id r) (uuid r) (root_version_id
    r) (autoversion_type r) (lastversion r) (checked_id r) (checked_state r)
    (vr_num r) (version r) (vcr_id r) (vhr_id r) (checkin_on_unlock r)
    (sha1str r) (dbr_parent_id r) (dbr_bind r) (av_new_children r)
    (redirect_lifetime r) (reftarget r) (creator_displayname r)
    (getcontentlanguage r) (limebar_state r).
Definition set_getcontentlength (x : Z) (r : dav_repos_resource) : dav_repos_resource :=
  Dbr (has_resource r) (serialno r) (root_path r) (uri r) (dbr_bind_id r)
    (dbr_created_at r) (dbr_updated_at r) (displayname r) (getcontenttype r) x
    (resourcetype r) (creator_id r) (owner_id r) (uuid r) (root_version_id r)
    (autoversion_type r) (lastversion r) (checked_id r) (checked_state r)
    (vr_num r) (version r) (vcr_id r) (vhr_id r) (checkin_on_unlock r)
    (sha1str r) (dbr_parent_id r) (dbr_bind r) (av_new_children r)
    (redirect_lifetime r) (reftarget r) (creator_displayname r)
    (getcontentlanguage r) (limebar_state r).
Definition set_resourcetype (x : option dav_repos_type) (r : dav_repos_resource) : dav_repos_resource :=
  Dbr (has_resource r) (serialno r) (root_path r) (uri r) (dbr_bind_id r)
    (dbr_created_at r) (dbr_updated_at r) (displayname r) (getcontenttype r)
    (getcontentlength r) x (creator_id r) (owner_id r) (uuid r)
    (root_version_id r) (autoversion_type r) (lastversion r) (checked_id r)
    (checked_state r) (vr_num r) (version r) (vcr_id r) (vhr_id r)
    (checkin_on_unlock r) (sha1str r) (dbr_parent_id r) (dbr_bind r)
    (av_new_children r) (redirect_lifetime r) (reftarget r)
    (creator_displayname r)
    (getcontentlanguage r) (limebar_state r).
Definition set_creator_id (x : Z) (r : dav_repos_resource) : dav_repos_resource :=
  Dbr (has_resource r) (serialno r) (root_path r) (uri r) (dbr_bind_id r)
    (dbr_created_at r) (dbr_updated_at r) (displayname r) (getcontenttype r)
    (getcontentlength r) (resourcetype r) x (owner_id r) (uuid r)
    (root_version_id r) (autoversion_type r) (lastversion r) (checked_id r)
    (checked_state r) (vr_num r) (version r) (vcr_id r) (vhr_id r)
    (checkin_on_unlock r) (sha1str r) (dbr_parent_id r) (dbr_bind r)
    (av_new_children r) (redirect_lifetime r) (reftarget r)
    (creator_displayname r)
    (getcontentlanguage r) (limebar_state r).
Definition set_owner_id (x : Z) (r : dav_repos_resource) : dav_repos_resource :=
  Dbr (has_resource r) (serialno r) (root_path r) (uri r) (dbr_bind_id r)
    (dbr_created_at r) (dbr_updated_at r) (displayname r) (getcontenttype r)
    (getcontentlength r) (resourcetype r) (creator_id r) x (uuid r)
    (root_version_id r) (autoversion_type r) (lastversion r) (checked_id r)
    (checked_state r) (vr_num r) (version r) (vcr_id r) (vhr_id r)
    (checkin_on_unlock r) (sha1str r) (dbr_parent_id r) (dbr_bind r)
    (av_new_children r) (redirect_lifetime r) (reftarget r)
    (creator_displayname r)
    (getcontentlanguage r) (limebar_state r).
Definition set_uuid (x : string) (r : dav_repos_resource) : dav_repos_resource :=
  Dbr (has_resource r) (serialno r) (root_path r) (uri r) (dbr_bind_id r)
    (dbr_created_at r) (dbr_updated_at r) (displayname r) (getcontenttype r)
    (getcontentlength r) (resourcetype r) (creator_id r) (owner_id r) x
    (root_version_id r) (autoversion_type r) (lastversion r) (checked_id r)
    (checked_state r) (vr_num r) (version r) (vcr_id r) (vhr_id r)
    (checkin_on_unlock r) (sha1str r) (dbr_parent_id r) (dbr_bind r)
    (av_new_children r) (redirect_lifetime r) (reftarget r)
    (creator_displayname r)
    (getcontentlanguage r) (limebar_state r).
Definition set_root_version_id (x : Z) (r : dav_repos_resource) : dav_repos_resource :=
  Dbr (has_resource r) (serialno r) (root_path r) (uri r) (dbr_bind_id r)
    (dbr_created_at r) (dbr_updated_at r) (displayname r) (getcontenttype r)
    (getcontentlength r) (resourcetype r) (creator_id r) (owner_id r) (uuid r)
    x (autoversion_type r) (lastversion r) (checked_id r) (checked_state r)
    (vr_num r) (version r) (vcr_id r) (vhr_id r) (checkin_on_unlock r)
    (sha1str r) (dbr_parent_id r) (dbr_bind r) (av_new_children r)
    (redirect_lifetime r) (reftarget r) (creator_displayname r)
    (getcontentlanguage r) (limebar_state r).
Definition set_autoversion_type (x : Z) (r : dav_repos_resource) : dav_repos_resource :=
  Dbr (has_resource r) (serialno r) (root_path r) (uri r) (dbr_bind_id r)
    (dbr_created_at r) (dbr_updated_at r) (displayname r) (getcontenttype r)
    (getcontentlength r) (resourcetype r) (creator_id r) (owner_id r) (uuid r)
    (root_version_id r) x (lastversion r) (checked_id r) (checked_state r)
    (vr_num r) (version r) (vcr_id r) (vhr_id r) (checkin_on_unlock r)
    (sha1str r) (dbr_parent_id r) (dbr_bind r) (av_new_children r)
    (redirect_lifetime r) (reftarget r) (creator_displayname r)
    (getcontentlanguage r) (limebar_state r).
Definition set_lastversion (x : bool) (r : dav_repos_resource) : dav_repos_resource :=
  Dbr (has_resource r) (serialno r) (root_path r) (uri r) (dbr_bind_id r)
    (dbr_created_at r) (dbr_updated_at r) (displayname r) (getcontenttype r)
    (getcontentlength r) (resourcetype r) (creator_id r) (owner_id r) (uuid r)
    (root_version_id r) (autoversion_type r) x (checked_id r) (checked_state
    r) (vr_num r) (version r) (vcr_id r) (vhr_id r) (checkin_on_unlock r)
    (sha1str r) (dbr_parent_id r) (dbr_bind r) (av_new_children r)
    (redirect_lifetime r) (reftarget r) (creator_displayname r)
    (getcontentlanguage r) (limebar_state r).
Definition set_checked_id (x : Z) (r : dav_repos_resource) : dav_repos_resource :=
  Dbr (has_resource r) (serialno r) (root_path r) (uri r) (dbr_bind_id r)
    (dbr_created_at r) (dbr_updated_at r) (displayname r) (getcontenttype r)
    (getcontentlength r) (resourcetype r) (creator_id r) (owner_id r) (uuid r)
    (root_version_id r) (autoversion_type r) (lastversion r) x (checked_state
    r) (vr_num r) (version r) (vcr_id r) (vhr_id r) (checkin_on_unlock r)
    (sha1str r) (dbr_parent_id r) (dbr_bind r) (av_new_children r)
    (redirect_lifetime r) (reftarget r) (creator_displayname r)
    (getcontentlanguage r) (limebar_state r).
Definition set_checked_state (x : dav_resource_checked_state) (r : dav_repos_resource) : dav_repos_resource :=
  Dbr (has_resource r) (serialno r) (root_path r) (uri r) (dbr_bind_id r)
    (dbr_created_at r) (dbr_updated_at r) (displayname r) (getcontenttype r)
    (getcontentlength r) (resourcetype r) (creator_id r) (owner_id r) (uuid r)
    (root_version_id r) (autoversion_type r) (lastversion r) (checked_id r) x
    (vr_num r) (version r) (vcr_id r) (vhr_id r) (checkin_on_unlock r)
    (sha1str r) (dbr_parent_id r) (dbr_bind r) (av_new_children r)
    (redirect_lifetime r) (reftarget r) (creator_displayname r)
    (getcontentlanguage r) (limebar_state r).
Definition set_vr_num (x : Z) (r : dav_repos_resource) : dav_repos_resource :=
  Dbr (has_resource r) (serialno r) (root_path r) (uri r) (dbr_bind_id r)
    (dbr_created_at r) (dbr_updated_at r) (displayname r) (getcontenttype r)
    (getcontentlength r) (resourcetype r) (creator_id r) (owner_id r) (uuid r)
    (root_version_id r) (autoversion_type r) (lastversion r) (checked_id r)
    (checked_state r) x (version r) (vcr_id r) (vhr_id r) (checkin_on_unlock
    r) (sha1str r) (dbr_parent_id r) (dbr_bind r) (av_new_children r)
    (redirect_lifetime r) (reftarget r) (creator_displayname r)
    (getcontentlanguage r) (limebar_state r).
Definition set_version (x : Z) (r : dav_repos_resource) : dav_repos_resource :=
  Dbr (has_resource r) (serialno r) (root_path r) (uri r) (dbr_bind_id r)
    (dbr_created_at r) (dbr_updated_at r) (displayname r) (getcontenttype r)
    (getcontentlength r) (resourcetype r) (creator_id r) (owner_id r) (uuid r)
    (root_version_id r) (autoversion_type r) (lastversion r) (checked_id r)
    (checked_state r) (vr_num r) x (vcr_id r) (vhr_id r) (checkin_on_unlock r)
    (sha1str r) (dbr_parent_id r) (dbr_bind r) (av_new_children r)
    (redirect_lifetime r) (reftarget r) (creator_displayname r)
    (getcontentlanguage r) (limebar_state r).
Definition set_vcr_id (x : Z) (r : dav_repos_resource) : dav_repos_resource :=
  Dbr (has_resource r) (serialno r) (root_path r) (uri r) (dbr_bind_id r)
    (dbr_created_at r) (dbr_updated_at r) (displayname r) (getcontenttype r)
    (getcontentlength r) (resourcetype r) (creator_id r) (owner_id r) (uuid r)
    (root_version_id r) (autoversion_type r) (lastversion r) (checked_id r)
    (checked_state r) (vr_num r) (version r) x (vhr_id r) (checkin_on_unlock
    r) (sha1str r) (dbr_parent_id r) (dbr_bind r) (av_new_children r)
    (redirect_lifetime r) (reftarget r) (creator_displayname r)
    (getcontentlanguage r) (limebar_state r).
Definition set_vhr_id (x : Z) (r : dav_repos_resource) : dav_repos_resource :=
  Dbr (has_resource r) (serialno r) (root_path r) (uri r) (dbr_bind_id r)
    (dbr_created_at r) (dbr_updated_at r) (displayname r) (getcontenttype r)
    (getcontentlength r) (resourcetype r) (creator_id r) (owner_id r) (uuid r)
    (root_version_id r) (autoversion_type r) (lastversion r) (checked_id r)
    (checked_state r) (vr_num r) (version r) (vcr_id r) x (checkin_on_unlock
    r) (sha1str r) (dbr_parent_id r) (dbr_bind r) (av_new_children r)
    (redirect_lifetime r) (reftarget r) (creator_displayname r)
    (getcontentlanguage r) (limebar_state r).
Definition set_checkin_on_unlock (x : Z) (r : dav_repos_resource) : dav_repos_resource :=
  Dbr (has_resource r) (serialno r) (root_path r) (uri r) (dbr_bind_id r)
    (dbr_created_at r) (dbr_updated_at r) (displayname r) (getcontenttype r)
    (getcontentlength r) (resourcetype r) (creator_id r) (owner_id r) (uuid r)
    (root_version_id r) (autoversion_type r) (lastversion r) (checked_id r)
    (checked_state r) (vr_num r) (version r) (vcr_id r) (vhr_id r) x (sha1str
    r) (dbr_parent_id r) (dbr_bind r) (av_new_children r) (redirect_lifetime
    r) (reftarget r) (creator_displayname r)
    (getcontentlanguage r) (limebar_state r).
Definition set_sha1str (x : option string) (r : dav_repos_resource) : dav_repos_resource :=
  Dbr (has_resource r) (serialno r) (root_path r) (uri r) (dbr_bind_id r)
    (dbr_created_at r) (dbr_updated_at r) (displayname r) (getcontenttype r)
    (getcontentlength r) (resourcetype r) (creator_id r) (owner_id r) (uuid r)
    (root_version_id r) (autoversion_type r) (lastversion r) (checked_id r)
    (checked_state r) (vr_num r) (version r) (vcr_id r) (vhr_id r)
    (checkin_on_unlock r) x (dbr_parent_id r) (dbr_bind r) (av_new_children r)
    (redirect_lifetime r) (reftarget r) (creator_displayname r)
    (getcontentlanguage r) (limebar_state r).
Definition set_parent_id (x : Z) (r : dav_repos_resource) : dav_repos_resource :=
  Dbr (has_resource r) (serialno r) (root_path r) (uri r) (dbr_bind_id r)
    (dbr_created_at r) (dbr_updated_at r) (displayname r) (getcontenttype r)
    (getcontentlength r) (resourcetype r) (creator_id r) (owner_id r) (uuid r)
    (root_version_id r) (autoversion_type r) (lastversion r) (checked_id r)
    (checked_state r) (vr_num r) (version r) (vcr_id r) (vhr_id r)
    (checkin_on_unlock r) (sha1str r) x (dbr_bind r) (av_new_children r)
    (redirect_lifetime r) (reftarget r) (creator_displayname r)
    (getcontentlanguage r) (limebar_state r).
Definition set_bind (x : bool) (r : dav_repos_resource) : dav_repos_resource :=
  Dbr (has_resource r) (serialno r) (root_path r) (uri r) (dbr_bind_id r)
    (dbr_created_at r) (dbr_updated_at r) (displayname r) (getcontenttype r)
    (getcontentlength r) (resourcetype r) (creator_id r) (owner_id r) (uuid r)
    (root_version_id r) (autoversion_type r) (lastversion r) (checked_id r)
    (checked_state r) (vr_num r) (version r) (vcr_id r) (vhr_id r)
    (checkin_on_unlock r) (sha1str r) (dbr_parent_id r) x (av_new_children r)
    (redirect_lifetime r) (reftarget r) (creator_displayname r)
    (getcontentlanguage r) (limebar_state r).
Definition set_av_new_children (x : Z) (r : dav_repos_resource) : dav_repos_resource :=
  Dbr (has_resource r) (serialno r) (root_path r) (uri r) (dbr_bind_id r)
    (dbr_created_at r) (dbr_updated_at r) (displayname r) (getcontenttype r)
    (getcontentlength r) (resourcetype r) (creator_id r) (owner_id r) (uuid r)
    (root_version_id r) (autoversion_type r) (lastversion r) (checked_id r)
    (checked_state r) (vr_num r) (version r) (vcr_id r) (vhr_id r)
    (checkin_on_unlock r) (sha1str r) (dbr_parent_id r) (dbr_bind r) x
    (redirect_lifetime r) (reftarget r) (creator_displayname r)
    (getcontentlanguage r) (limebar_state r).
Definition set_redirect_lifetime (x : option string) (r : dav_repos_resource) : dav_repos_resource :=
  Dbr (has_resource r) (serialno r) (root_path r) (uri r) (dbr_bind_id r)
    (dbr_created_at r) (dbr_updated_at r) (displayname r) (getcontenttype r)
    (getcontentlength r) (resourcetype r) (creator_id r) (owner_id r) (uuid r)
    (root_version_id r) (autoversion_type r) (lastversion r) (checked_id r)
    (checked_state r) (vr_num r) (version r) (vcr_id r) (vhr_id r)
    (checkin_on_unlock r) (sha1str r) (dbr_parent_id r) (dbr_bind r)
    (av_new_children r) x (reftarget r) (creator_displayname r)
    (getcontentlanguage r) (limebar_state r).
Definition set_reftarget (x : option string) (r : dav_repos_resource) : dav_repos_resource :=
  Dbr (has_resource r) (serialno r) (root_path r) (uri r) (dbr_bind_id r)
    (dbr_created_at r) (dbr_updated_at r) (displayname r) (getcontenttype r)
    (getcontentlength r) (resourcetype r) (creator_id r) (owner_id r) (uuid r)
    (root_version_id r) (autoversion_type r) (lastversion r) (checked_id r)
    (checked_state r) (vr_num r) (version r) (vcr_id r) (vhr_id r)
    (checkin_on_unlock r) (sha1str r) (dbr_parent_id r) (dbr_bind r)
    (av_new_children r) (redirect_lifetime r) x (creator_displayname r)
    (getcontentlanguage r) (limebar_state r).
Definition set_creator_displayname (x : option string) (r : dav_repos_resource) : dav_repos_resource :=
  Dbr (has_resource r) (serialno r) (root_path r) (uri r) (dbr_bind_id r)
    (dbr_created_at r) (dbr_updated_at r) (displayname r) (getcontenttype r)
    (getcontentlength r) (resourcetype r) (creator_id r) (owner_id r) (uuid r)
    (root_version_id r) (autoversion_type r) (lastversion r) (checked_id r)
    (checked_state r) (vr_num r) (version r) (vcr_id r) (vhr_id r)
    (checkin_on_unlock r) (sha1str r) (dbr_parent_id r) (dbr_bind r)
    (av_new_children r) (redirect_lifetime r) (reftarget r) x
    (getcontentlanguage r) (limebar_state r).
Definition set_getcontentlanguage (x : option string) (r : dav_repos_resource) : dav_repos_resource :=
  Dbr (has_resource r) (serialno r) (root_path r) (uri r) (dbr_bind_id r)
    (dbr_created_at r) (dbr_updated_at r) (displayname r) (getcontenttype r)
    (getcontentlength r) (resourcetype r) (creator_id r) (owner_id r) (uuid r)
    (root_version_id r) (autoversion_type r) (lastversion r) (checked_id r)
    (checked_state r) (vr_num r) (version r) (vcr_id r) (vhr_id r)
    (checkin_on_unlock r) (sha1str r) (dbr_parent_id r) (dbr_bind r)
    (av_new_children r) (redirect_lifetime r) (reftarget r) (creator_displayname r)
    x (limebar_state r).
Definition set_limebar_state (x : option string) (r : dav_repos_resource) : dav_repos_resource :=
  Dbr (has_resource r) (serialno r) (root_path r) (uri r) (dbr_bind_id r)
    (dbr_created_at r) (dbr_updated_at r) (displayname r) (getcontenttype r)
    (getcontentlength r) (resourcetype r) (creator_id r) (owner_id r) (uuid r)
    (root_version_id r) (autoversion_type r) (lastversion r) (checked_id r)
    (checked_state r) (vr_num r) (version r) (vcr_id r) (vhr_id r)
    (checkin_on_unlock r) (sha1str r) (dbr_parent_id r) (dbr_bind r)
    (av_new_children r) (redirect_lifetime r) (reftarget r) (creator_displayname r)
    (getcontentlanguage r) x.

(** [sabridge_new_dbr_from_dbr] with [*res_p == NULL]: a new record when the
    source has a [resource], the NULL pointer otherwise. *)
Definition sabridge_new_dbr_from_dbr (db_r : dav_repos_resource)
  : option dav_repos_resource :=
  if has_resource db_r
  then Some (set_root_path (root_path db_r) (set_has_resource true zero_dbr))
  else None.

(** ** Reading the table [resources] *)

Definition find_resource (id : Z) (d : db) : option resource_row :=
  List.find (fun r => bool_decide (r_id r = id)) (resources d).

Definition dbms_get_resource (r : dav_repos_resource)
  : M (option dav_error * dav_repos_resource) :=
  q ← select (find_resource (serialno r));
  mret (match q with
        | None => (Some (dav_new_error HTTP_INTERNAL_SERVER_ERROR), r)
        | Some None => (None, r)
        | Some (Some row) =>
            (None, set_resourcetype (Some (r_type row))
                     (set_created_at (r_created row)
                        (set_displayname (Some (r_displayname row))
                           (set_getcontentlanguage (Some (r_language row))
                              (set_owner_id (r_owner row)
                                 (set_creator_id (r_creator row)
                                    (set_uuid (r_uuid row)
                                       (set_limebar_state (r_limebar row) r))))))))
        end).

(** ** Last modification times *)

(** The recursive query: the resource and, through binds of collections after
    the home collection, its ancestors.  Each round adds a resource not yet
    seen, so as many rounds as there are binds are enough. *)
Definition HOME_COLLECTION_ID : Z := 8.

Definition parents_of (bt : list bind_row) (seen : list Z) : list Z :=
  map b_coll (List.filter (fun b =>
    bool_decide (b_res b ∈ seen) && bool_decide (HOME_COLLECTION_ID < b_coll b)) bt).

Fixpoint ancestors (fuel : nat) (bt : list bind_row) (seen : list Z) : list Z :=
  match fuel with
  | O => seen
  | S n =>
      match List.filter (fun i => negb (bool_decide (i ∈ seen))) (parents_of bt seen) with
      | [] => seen
      | i :: _ => ancestors n bt (seen ++ [i])
      end
  end.

Definition ancestors_of (bt : list bind_row) (id : Z) : list Z :=
  ancestors (S (length bt)) bt [id].

Definition touch_stmt (ids : list Z) (t : Z) (d : db) : db :=
  set_resources (map (fun r =>
    if bool_decide (r_id r ∈ ids)
    then ResourceRow (r_id r) (r_uuid r) (r_type r) (r_owner r) (r_creator r)
           (r_displayname r) (r_created r) t (r_language r) (r_limebar r)
    else r) (resources d)) d.

Definition dbms_notify_resource_updated (r : dav_repos_resource) : M (option dav_error) :=
  q ← update (fun d => touch_stmt (ancestors_of (binds d) (serialno r)) (dbr_updated_at r) d);
  mret (err_of q).

(** ** Quota rules and the table [media] *)

Definition owner_of (id : Z) (d : db) : option Z := r_owner <$> find_resource id d.

(** UPDATE quota SET used_quota = used_quota + delta WHERE principal_id = owner;
    the CHECK constraint is used_quota >= 0. *)
Definition charge (owner : option Z) (delta : Z) (l : list quota_row)
  : option (list quota_row) :=
  let l' := map (fun q => if bool_decide (Some (q_prin q) = owner)
                          then QuotaRow (q_prin q) (q_used q + delta) (q_total q)
                          else q) l in
  if existsb (fun q => bool_decide (Some (q_prin q) = owner)
                       && bool_decide (q_used q < 0)) l'
  then None else Some l'.

Definition find_media (id : Z) (d : db) : option media_row :=
  List.find (fun m => bool_decide (m_res m = id)) (media d).

(** INSERT INTO media, with the rule [update_quota_media_insert]. *)
Definition insert_media_stmt (m : media_row) (d : db) : option (unit * db) :=
  match charge (owner_of (m_res m) d) (m_size m) (quota d) with
  | None => None
  | Some qs => Some (tt, set_quota qs (set_media (media d ++ [m]) d))
  end.

(** DELETE FROM media WHERE resource_id = ?, with [update_quota_media_delete]. *)
Definition delete_media_stmt (id : Z) (d : db) : option (unit * db) :=
  match find_media id d with
  | None => Some (tt, d)
  | Some m =>
      match charge (owner_of id d) (- m_size m) (quota d) with
      | None => None
      | Some qs =>
          Some (tt, set_quota qs
            (set_media (List.filter (fun m => negb (bool_decide (m_res m = id))) (media d)) d))
      end
  end.

(** UPDATE media SET ... WHERE resource_id = ?, with [update_quota_media_update]. *)
Definition update_media_stmt (m : media_row) (d : db) : option (unit * db) :=
  match find_media (m_res m) d with
  | None => Some (tt, d)
  | Some old =>
      match charge (owner_of (m_res m) d) (m_size m - m_size old) (quota d) with
      | None => None
      | Some qs =>
          Some (tt, set_quota qs
            (set_media (map (fun x => if bool_decide (m_res x = m_res m) then m else x)
               (media d)) d))
      end
  end.

(** The column sha1 is NOT NULL, mimetype is not: a record without a sum has its INSERT refused,
    and its UPDATE when there is a row to change. *)
Definition insert_media_of (r : dav_repos_resource) (now : Z) (d : db) : option (unit * db) :=
  match sha1str r with
  | Some h =>
      insert_media_stmt (MediaRow (serialno r) (getcontentlength r) (getcontenttype r) h now) d
  | None => None
  end.

Definition update_media_of (r : dav_repos_resource) (now : Z) (d : db) : option (unit * db) :=
  match sha1str r, find_media (serialno r) d with
  | Some h, _ =>
      update_media_stmt (MediaRow (serialno r) (getcontentlength r) (getcontenttype r) h now) d
  | None, None => Some (tt, d)
  | None, Some _ => None
  end.

Definition dbms_insert_media (r : dav_repos_resource)
  : M (option dav_error * dav_repos_resource) :=
  now ← time_now_str;
  let r := set_updated_at now r in
  q ← execute (insert_media_of r now);
  match q with
  | None => mret (err_of q, r)
  | Some _ => err ← dbms_notify_resource_updated r; mret (err, r)
  end.

Definition has_body (t : option dav_repos_type) : bool :=
  bool_decide (t = Some dav_repos_RESOURCE \/ t = Some dav_repos_VERSIONED
               \/ t = Some dav_repos_VERSION).

Definition is_collection (t : option dav_repos_type) : bool :=
  bool_decide (t = Some dav_repos_COLLECTION \/ t = Some dav_repos_VERSIONED_COLLECTION).

Definition dbms_get_media_props (r : dav_repos_resource)
  : M (option dav_error * dav_repos_resource) :=
  if has_body (resourcetype r) then
    q ← select (find_media (serialno r));
    mret (match q with
          | None => (Some (dav_new_error HTTP_INTERNAL_SERVER_ERROR), r)
          | Some None => (None, r)
          | Some (Some m) =>
              (None, set_getcontentlength (m_size m)
                       (set_getcontenttype (m_mimetype m)
                          (set_sha1str (Some (m_sha1 m)) r)))
          end)
  else mret (None, r).

Definition dbms_update_media_props (r : dav_repos_resource)
  : M (option dav_error * dav_repos_resource) :=
  now ← time_now_str;
  let r := set_updated_at now r in
  q ← execute (update_media_of r now);
  match q with
  | None => mret (err_of q, r)
  | Some _ => err ← dbms_notify_resource_updated r; mret (err, r)
  end.

(** INSERT INTO media SELECT ... FROM media WHERE resource_id = src *)
Definition copy_media_stmt (dest src now : Z) (d : db) : option (unit * db) :=
  match find_media src d with
  | None => Some (tt, d)
  | Some m => insert_media_stmt (MediaRow dest (m_size m) (m_mimetype m) (m_sha1 m) now) d
  end.

(** The result of the first DELETE is not tested. *)
Definition dbms_copy_media_props (r_src r_dest : dav_repos_resource)
  : M (option dav_error * dav_repos_resource) :=
  _ ← execute (delete_media_stmt (serialno r_dest));
  now ← time_now_str;
  let r_dest := set_updated_at now r_dest in
  q ← execute (copy_media_stmt (serialno r_dest) (serialno r_src) now);
  match q with
  | None => mret (err_of q, r_dest)
  | Some _ =>
      let r_dest := set_getcontentlength (getcontentlength r_src)
                      (set_getcontenttype (getcontenttype r_src)
                         (set_sha1str (sha1str r_src) r_dest)) in
      err ← dbms_notify_resource_updated r_dest;
      mret (err, r_dest)
  end.

(** ** Collections and redirect references *)

Definition dbms_get_collection_props (r : dav_repos_resource)
  : M (option dav_error * dav_repos_resource) :=
  q ← select (fun d => List.find (fun c => bool_decide (c.1 = serialno r)) (collections d));
  mret (match q with
        | None => (Some (dav_new_error HTTP_INTERNAL_SERVER_ERROR), r)
        | Some None => (None, r)
        | Some (Some c) => (None, set_av_new_children c.2 r)
        end).

Definition dbms_set_collection_new_children_av_type (r : dav_repos_resource)
  : M (option dav_error) :=
  q ← update (fun d => set_collections (map (fun c =>
        if bool_decide (c.1 = serialno r) then (c.1, av_new_children r) else c)
        (collections d)) d);
  mret (err_of q).

Definition dbms_insert_collection (r : dav_repos_resource) : M (option dav_error) :=
  q ← execute (fun d =>
        if existsb (fun c => bool_decide (c.1 = serialno r)) (collections d) then None
        else Some (tt, set_collections (collections d ++ [(serialno r, av_new_children r)]) d));
  mret (err_of q).

(** [dbms_num_sha1_resources]: -1 on an error. *)
Definition dbms_num_sha1_resources (sha1 : option string) : M Z :=
  q ← select (fun d =>
        length (List.filter (fun m => bool_decide (Some (m_sha1 m) = sha1)) (media d)));
  mret (match q with None => -1 | Some n => Z.of_nat n end).

(** ** Changes to the table [resources] *)

Definition insert_resource_stmt (row : Z -> resource_row) (d : db) : option (Z * db) :=
  let id := resources_id_seq (sequences d) in
  if existsb (fun r => bool_decide (r_id r = id)) (resources d) then None
  else Some (id, bump_resources_id_seq (set_resources (resources d ++ [row id]) d)).

(** The identifier the server returns becomes [r->serialno]. *)
Definition dbms_insert_resource (r : dav_repos_resource)
  : M (option dav_error * dav_repos_resource) :=
  now ← time_now_str;
  match resourcetype r with
  | None => (* the type name of index 0 is NULL, the column is NOT NULL *)
      mret (Some (dav_new_error HTTP_INTERNAL_SERVER_ERROR), r)
  | Some t =>
      q ← execute (insert_resource_stmt (fun id =>
            ResourceRow id (uuid r) t (owner_id r) (creator_id r)
              (default EmptyString (displayname r)) (dbr_created_at r) now
              (default "en-US"%string (getcontentlanguage r)) (limebar_state r)));
      mret (match q with
            | None => (Some (dav_new_error HTTP_INTERNAL_SERVER_ERROR), r)
            | Some id => (None, set_serialno id r)
            end)
  end.

Definition update_resource_stmt (id : Z) (f : resource_row -> resource_row) (d : db) : db :=
  set_resources (map (fun r => if bool_decide (r_id r = id) then f r else r) (resources d)) d.

Definition dbms_update_displayname (r : dav_repos_resource) : M (option dav_error) :=
  q ← update (update_resource_stmt (serialno r) (fun x =>
        ResourceRow (r_id x) (r_uuid x) (r_type x) (r_owner x) (r_creator x)
          (default EmptyString (displayname r)) (r_created x) (r_lastmodified x)
          (r_language x) (r_limebar x)));
  mret (err_of q).

Definition dbms_set_property (r : dav_repos_resource) : M (option dav_error) :=
  match resourcetype r with
  | None => mret (Some (dav_new_error HTTP_INTERNAL_SERVER_ERROR))
  | Some t =>
      q ← update (update_resource_stmt (serialno r) (fun x =>
            ResourceRow (r_id x) (uuid r) t (owner_id r) (creator_id r)
              (default EmptyString (displayname r)) (dbr_created_at r) (r_lastmodified x)
              (default "en-US"%string (getcontentlanguage r)) (r_limebar x)));
      mret (err_of q)
  end.

Definition dbms_set_limebar_state (r : dav_repos_resource) : M (option dav_error) :=
  q ← update (update_resource_stmt (serialno r) (fun x =>
        ResourceRow (r_id x) (r_uuid x) (r_type x) (r_owner x) (r_creator x)
          (r_displayname x) (r_created x) (r_lastmodified x) (r_language x) (limebar_state r)));
  mret (err_of q).

Definition dbms_update_resource_type (r : dav_repos_resource) (t : dav_repos_type)
  : M (option dav_error * dav_repos_resource) :=
  q ← update (update_resource_stmt (serialno r) (fun x =>
        ResourceRow (r_id x) (r_uuid x) t (r_owner x) (r_creator x)
          (r_displayname x) (r_created x) (r_lastmodified x) (r_language x) (r_limebar x)));
  mret (match q with
        | None => (Some (dav_new_error HTTP_INTERNAL_SERVER_ERROR), r)
        | Some _ => (None, set_resourcetype (Some t) r)
        end).

(** ** Deletion *)

(** The versions and version histories that go with the resource [id]: a history
    goes with its root version, a version with its history. *)
Fixpoint doomed_versions (fuel : nat) (id : Z) (d : db) (vs hs : list Z) : list Z * list Z :=
  match fuel with
  | O => (vs, hs)
  | S n =>
      let hs' := map fst (List.filter
        (fun h => bool_decide (h.1 = id) || bool_decide (h.2 ∈ vs)) (vhrs d)) in
      let vs' := map ve_res (List.filter
        (fun v => bool_decide (ve_res v = id) || bool_decide (ve_vhr v ∈ hs')) (versions d)) in
      doomed_versions n id d vs' hs'
  end.

(** DELETE FROM resources WHERE id = ?, with every ON DELETE CASCADE. *)
Definition cascade_resource (id : Z) (d : db) : db :=
  let gone_binds := map b_id (List.filter
    (fun b => bool_decide (b_coll b = id \/ b_res b = id)) (binds d)) in
  let gone_locks := map l_id (List.filter
    (fun l => bool_decide (l_res l = id \/ l_owner l = id)) (locks d)) in
  let gone_aces := map a_id (List.filter (fun a => bool_decide (a_res a = id)) (aces d)) in
  let '(vs, hs) := doomed_versions (S (length (vhrs d))) id d [id] [] in
  let gone_vcr v := bool_decide (vc_res v = id \/ vc_checked v ∈ vs \/ vc_vhr v ∈ hs) in
  let gone_vcrs := map vc_res (List.filter gone_vcr (vcrs d)) in
  Db (List.filter (fun r => negb (bool_decide (r_id r = id))) (resources d))
     (List.filter (fun b => negb (bool_decide (b_coll b = id \/ b_res b = id))) (binds d))
     (List.filter (fun m => negb (bool_decide (m_res m = id))) (media d))
     (List.filter (fun c => negb (bool_decide (c_res c = id))) (cleanup d))
     (List.filter (fun q => negb (bool_decide (q_prin q = id))) (quota d))
     (List.filter (fun l => negb (bool_decide (l_res l = id \/ l_owner l = id))) (locks d))
     (List.filter (fun lr => negb (bool_decide (lr.2 = id \/ lr.1 ∈ gone_locks)))
        (locks_resources d))
     (List.filter (fun lb => negb (bool_decide (lb.2 ∈ gone_binds \/ lb.1 ∈ gone_locks)))
        (binds_locks d))
     (List.filter (fun p => negb (bool_decide (p_res p = id))) (principals d))
     (List.filter (fun g => negb (bool_decide (g.1 = id \/ g.2 = id))) (group_members d))
     (List.filter (fun t => negb (bool_decide (t_group t = id \/ t_member t = id)))
        (transitive_group_members d))
     (List.filter (fun a => negb (bool_decide (a_res a = id))) (aces d))
     (List.filter (fun ap => negb (bool_decide (ap.1 ∈ gone_aces))) (dav_aces_privileges d))
     (acl_privileges d)
     (List.filter (fun i => negb (bool_decide (i.1 = id))) (acl_inheritance d))
     (namespaces d)
     (List.filter (fun v => negb (gone_vcr v)) (vcrs d))
     (map (fun v => match ve_vcr v with
                    | Some c => if bool_decide (c ∈ gone_vcrs)
                                then VersionRow (ve_res v) (ve_number v) None (ve_vhr v)
                                else v
                    | None => v
                    end)
        (List.filter (fun v => negb (bool_decide (ve_res v ∈ vs))) (versions d)))
     (List.filter (fun h => negb (bool_decide (h.1 ∈ hs))) (vhrs d))
     (List.filter (fun c => negb (bool_decide (c.1 = id))) (collections d))
     (List.filter (fun r => negb (bool_decide (rd_res r = id))) (redirectrefs d))
     (List.filter (fun p => negb (bool_decide (pr_res p = id))) (properties d))
     (List.filter (fun u => negb (bool_decide (u_prin u = id))) (users d))
     (List.filter (fun u => negb (bool_decide (do_prin u = id))) (user_domains d))
     (sequences d).

(** UPDATE quota SET used_quota = used_quota - (SELECT size ...): without a
    media row the difference is NULL, with two the subquery is an error; the
    subquery runs when the owner has a quota row. *)
Definition release_quota_stmt (id : Z) (d : db) : option (unit * db) :=
  let paid := existsb (fun q => bool_decide (Some (q_prin q) = owner_of id d)) (quota d) in
  match List.filter (fun m => bool_decide (m_res m = id)) (media d) with
  | [m] =>
      match charge (owner_of id d) (- m_size m) (quota d) with
      | None => None
      | Some qs => Some (tt, set_quota qs d)
      end
  | _ => if paid then None else Some (tt, d)
  end.

Definition dbms_delete_resource (r : dav_repos_resource) : M (option dav_error) :=
  q ← (if has_body (resourcetype r) then execute (release_quota_stmt (serialno r))
       else mret (Some tt));
  match q with
  | None => mret (err_of q)
  | Some _ =>
      q ← update (cascade_resource (serialno r));
      mret (err_of q)
  end.

(** ** Quota ([dbms_quota.c]) *)

Definition dbms_insert_quota (principal_id q : Z) : M (option dav_error) :=
  r ← execute (fun d =>
        if existsb (fun x => bool_decide (q_prin x = principal_id)) (quota d) then None
        else Some (tt, set_quota (quota d ++ [QuotaRow principal_id 0 q]) d));
  mret (err_of r).

Definition dbms_get_available_bytes (owner : Z) : M (option dav_error * Z) :=
  q ← select (fun d => List.find (fun x => bool_decide (q_prin x = owner)) (quota d));
  mret (match q with
        | Some (Some x) => (None, q_total x - q_used x)
        | _ => (Some (dav_new_error HTTP_INTERNAL_SERVER_ERROR), 0)
        end).

(** ** A record as a row of [media] *)

Lemma insert_media_of_some r now d x :
  insert_media_of r now d = Some x -> exists m, m_res m = serialno r /\ insert_media_stmt m d = Some x.
Proof. unfold insert_media_of. destruct (sha1str r); [|done]. intros H. by eexists (MediaRow _ _ _ _ _). Qed.

Lemma update_media_of_some r now d d' :
  update_media_of r now d = Some (tt, d') ->
  d' = d \/ exists m, m_res m = serialno r /\ update_media_stmt m d = Some (tt, d').
Proof.
  unfold update_media_of. destruct (sha1str r).
  - intros H. right. by eexists (MediaRow _ _ _ _ _).
  - destruct (find_media _ _); [done|]. intros [= ->]. by left.
Qed.

(** ** What a deletion does to the tables *)

Lemma cascade_resources id d :
  resources (cascade_resource id d)
  = List.filter (fun r => negb (bool_decide (r_id r = id))) (resources d).
Proof. unfold cascade_resource. by destruct (doomed_versions _ _ _ _ _). Qed.
Lemma cascade_binds id d :
  binds (cascade_resource id d)
  = List.filter (fun b => negb (bool_decide (b_coll b = id \/ b_res b = id))) (binds d).
Proof. unfold cascade_resource. by destruct (doomed_versions _ _ _ _ _). Qed.
Lemma cascade_cleanup id d :
  cleanup (cascade_resource id d)
  = List.filter (fun c => negb (bool_decide (c_res c = id))) (cleanup d).
Proof. unfold cascade_resource. by destruct (doomed_versions _ _ _ _ _). Qed.
Lemma cascade_media id d :
  media (cascade_resource id d)
  = List.filter (fun m => negb (bool_decide (m_res m = id))) (media d).
Proof. unfold cascade_resource. by destruct (doomed_versions _ _ _ _ _). Qed.
Lemma cascade_quota id d :
  quota (cascade_resource id d)
  = List.filter (fun q => negb (bool_decide (q_prin q = id))) (quota d).
Proof. unfold cascade_resource. by destruct (doomed_versions _ _ _ _ _). Qed.

Lemma cascade_sequences id d : sequences (cascade_resource id d) = sequences d.
Proof. unfold cascade_resource. by destruct (doomed_versions _ _ _ _ _). Qed.

(** A deletion none of whose statements failed. *)
Lemma delete_resource_ok r s :
  c_errnum (dbms_delete_resource r s).2 = false ->
  (dbms_delete_resource r s).1 = None
  /\ exists d', (if has_body (resourcetype r) then release_quota_stmt (serialno r) (c_db s)
                 else Some (tt, c_db s)) = Some (tt, d')
       /\ c_db (dbms_delete_resource r s).2 = cascade_resource (serialno r) d'.
Proof.
  unfold dbms_delete_resource. rewrite bind_run.
  destruct (has_body (resourcetype r)).
  - pose proof (execute_spec (release_quota_stmt (serialno r)) s) as H.
    destruct (execute _ s) as [[[]|] s1]; cbn [fst snd] in *.
    + destruct H as (d' & H1 & <- & _). rewrite bind_run. cbn. intros He.
      destruct (update_ok _ _ He) as [-> Hd]. split; [done|]. by exists (c_db s1).
    + destruct H as [H _]. cbn. congruence.
  - cbn [fst snd mret M_ret]. rewrite bind_run. cbn. intros He.
    destruct (update_ok _ _ He) as [-> Hd]. split; [done|]. by exists (c_db s).
Qed.
