(* ===== verification/Names.v ===== *)
(** * The effect of a rename, and modification times

    Which bind a rename moves and what is found afterwards, and the set of resources
    whose modification time an update touches. *)
From S2P Require Import Prelude Util Dbd Db Bind Paths Lookup Resource.
Local Open Scope Z_scope.

Lemma bind_taken_spec coll name bt :
  bind_taken coll name bt = false -> (coll, name) ∉ map bind_key bt.
Proof.
  unfold bind_taken. intros H Hin. apply elem_of_map in Hin as (b & Hk & Hb).
  assert (existsb (fun b => bool_decide (b_coll b = coll /\ b_name b = name)) bt = true); [|congruence].
  apply existsb_exists. exists b. rewrite <- list_elem_of_In. split; [done|].
  apply bool_decide_eq_true. unfold bind_key in Hk. split; congruence.
Qed.

(** Whether a row is the one a rename moves. *)
Definition hit (src : Z) (sn : string) (b : bind_row) : bool :=
  bool_decide (b_coll b = src /\ b_name b = sn).

Definition moved_row (src : Z) (sn : string) (dst : Z) (dn : string) (now : Z) (b : bind_row)
  : bind_row :=
  if hit src sn b then BindRow (b_id b) dn dst (b_res b) now else b.

Lemma moved_row_none src sn dst dn now bt :
  (forall x, x ∈ bt -> hit src sn x = false) -> map (moved_row src sn dst dn now) bt = bt.
Proof.
  intros H. rewrite <- (map_id bt) at 2. apply map_ext_in. intros x Hx%list_elem_of_In.
  unfold moved_row. by rewrite H.
Qed.

(** The rename moves at most one row, to a place that is free. *)
Lemma rebind_stmt_spec src sn dst dn now d r d' :
  rebind_stmt src sn dst dn now d = Some (r, d') ->
  binds d' = map (moved_row src sn dst dn now) (binds d)
  /\ (existsb (hit src sn) (binds d) = true ->
      (dst, dn) ∉ map bind_key (List.filter (fun b => negb (hit src sn b)) (binds d))).
Proof.
  unfold rebind_stmt. fold (hit src sn). destruct (existsb (hit src sn) (binds d)); cbn [andb].
  - destruct (bind_taken _ _ _) eqn:E; [done|]. intros [= _ <-]. split; [done|].
    intros _. by apply bind_taken_spec in E.
  - intros [= _ <-]. done.
Qed.

Lemma existsb_none {A} (f : A -> bool) l x : existsb f l = false -> x ∈ l -> f x = false.
Proof.
  intros H Hx. destruct (f x) eqn:E; [|done]. assert (existsb f l = true); [|congruence].
  apply existsb_exists. exists x. by rewrite <- list_elem_of_In.
Qed.

(** ** The effect of a rename *)

Lemma find_bind_cons b bt coll name :
  find_bind (b :: bt) coll name
  = if bool_decide (b_coll b = coll /\ b_name b = name) then Some b else find_bind bt coll name.
Proof. done. Qed.

Lemma find_moved src sn dst dn now bt coll name :
  (dst, dn) ∉ map bind_key (List.filter (fun b => negb (hit src sn b)) bt) ->
  find_bind (map (moved_row src sn dst dn now) bt) coll name
  = if decide (coll = dst /\ name = dn)
    then moved_row src sn dst dn now <$> find_bind bt src sn
    else if decide (coll = src /\ name = sn) then None else find_bind bt coll name.
Proof.
  intros Hfree. induction bt as [|b bt IH]; cbn [map].
  { by repeat case_decide. }
  rewrite !find_bind_cons. fold (hit src sn b).
  cbn [List.filter] in Hfree. destruct (hit src sn b) eqn:Hh; cbn [negb map] in Hfree.
  - assert (Hm : moved_row src sn dst dn now b = BindRow (b_id b) dn dst (b_res b) now)
      by (unfold moved_row; by rewrite Hh).
    rewrite Hm. cbn [b_coll b_name].
    destruct (decide (coll = dst /\ name = dn)) as [[-> ->]|Hne].
    + rewrite bool_decide_true by done. cbn. by rewrite Hm.
    + rewrite bool_decide_false by naive_solver. rewrite IH by done.
      case_decide; [done|]. apply bool_decide_eq_true in Hh.
      by rewrite (bool_decide_false (b_coll b = coll /\ b_name b = name)) by naive_solver.
  - apply not_elem_of_cons in Hfree as [Hne Hfree]. unfold bind_key in Hne.
    assert (Hm : moved_row src sn dst dn now b = b) by (unfold moved_row; by rewrite Hh).
    rewrite Hm, IH by done. apply bool_decide_eq_false in Hh.
    destruct (decide (coll = dst /\ name = dn)) as [[-> ->]|Hc].
    + rewrite bool_decide_false by naive_solver. done.
    + destruct (decide (coll = src /\ name = sn)) as [[-> ->]|Hs]; [|done].
      by rewrite bool_decide_false by naive_solver.
Qed.

(** The table after a rename: the bind [b] found at the old place is at the new
    one, and everything else where it was. *)
Definition renamed (src : Z) (sn : string) (dst : Z) (dn : string) (now : Z)
    (before after : list bind_row) : Prop :=
  forall coll name,
    find_bind after coll name
    = match find_bind before src sn with
      | None => find_bind before coll name
      | Some b =>
          if decide (coll = dst /\ name = dn) then Some (BindRow (b_id b) dn dst (b_res b) now)
          else if decide (coll = src /\ name = sn) then None
          else find_bind before coll name
      end.

(** A rename that succeeds moves the bind to its new place, with its identifier
    and its resource, and no other bind; an occupied place, or a refusal, is an
    error that changes nothing; a rename of nothing succeeds without effect. *)
Theorem rebind_resource_spec src sn dst dn s :
  match dbms_rebind_resource src sn dst dn s with
  | (Some e, s') => e = dav_new_error HTTP_INTERNAL_SERVER_ERROR /\ c_db s' = c_db s
  | (None, s') =>
      renamed src sn dst dn (time_apr_to_str (c_now s)) (binds (c_db s)) (binds (c_db s'))
  end.
Proof.
  unfold dbms_rebind_resource. rewrite !bind_run. cbn [time_now_str fst snd].
  set (stmt := rebind_stmt src sn dst dn (time_apr_to_str (c_now s))).
  pose proof (execute_cases stmt s) as H. destruct (execute stmt s) as [o s'].
  cbn [fst snd] in *. rewrite ret_run.
  destruct H as [[-> Hd]|(r & d & Hs & -> & Hd)]; cbn; [done|].
  intros coll name. rewrite Hd. apply rebind_stmt_spec in Hs as [-> Hfree].
  destruct (existsb (hit src sn) (binds (c_db s))) eqn:E.
  - rewrite find_moved by auto.
    destruct (find_bind (binds (c_db s)) src sn) as [b|] eqn:Hb.
    + apply find_bind_some in Hb as (_ & H1 & H2).
      assert (Hh : hit src sn b = true) by (by apply bool_decide_eq_true).
      cbn [fmap option_fmap option_map]. unfold moved_row. by rewrite Hh.
    + exfalso. apply existsb_exists in E as (b & Hin & Hh).
      pose proof (find_none _ _ Hb b Hin) as Hn. unfold hit in Hh. cbn in Hn. congruence.
  - rewrite moved_row_none by (intros x; by apply existsb_none).
    destruct (find_bind (binds (c_db s)) src sn) as [b|] eqn:Hb; [|done].
    apply find_bind_some in Hb as (Hin & Hh). pose proof (existsb_none _ _ b E Hin) as Hf.
    apply bool_decide_eq_false in Hf. naive_solver.
Qed.

(** ** Modification times *)









