(* ===== verification/Quota.v ===== *)
(** * Quota accounting

    The rules of the schema charge the owner of a resource for the size of its
    body.  This file proves that the statements of [Resource.v] keep every
    principal's [used_quota] equal to the sum of the sizes of the bodies it owns,
    deletions included, where the C code has to do the accounting itself. *)
From S2P Require Import Prelude Util Db Bind Resource.
Local Open Scope Z_scope.
Local Open Scope limestone_scope.

(** ** Specification *)

(** What the body [m] costs the principal [p]. *)
Definition cost (p : Z) (d : db) (m : media_row) : Z :=
  if decide (owner_of (m_res m) d = Some p) then m_size m else 0.

Definition owned_size (p : Z) (d : db) : Z := sum (map (cost p d) (media d)).

(** [base p] is what [p] is charged for beside bodies (the values of its
    properties). *)
Definition quota_exact (base : Z -> Z) (d : db) : Prop :=
  forall q, q ∈ quota d -> q_used q = base (q_prin q) + owned_size (q_prin q) d.

(** What is needed of a deletion never to be refused. *)
Definition quota_covers (d : db) : Prop :=
  forall q, q ∈ quota d -> owned_size (q_prin q) d <= q_used q.

(** At most one body per resource, and the resources have distinct numbers. *)
Definition media_unique (d : db) : Prop := NoDup (map m_res (media d)).

(** ** The rules *)

(** A principal's row after a charge. *)
Lemma charge_row owner delta l l' q' :
  charge owner delta l = Some l' -> q' ∈ l' ->
  exists q, q ∈ l /\ q_prin q' = q_prin q /\ q_total q' = q_total q
    /\ q_used q' = q_used q + (if decide (owner = Some (q_prin q)) then delta else 0).
Proof.
  unfold charge. case_match; [done|]. intros [= <-] (q & <- & Hq)%elem_of_map.
  exists q. case_bool_decide as Hc; cbn; [rewrite decide_True by done|
    rewrite decide_False by (intros ?; by destruct Hc)]; split_and!; try done; lia.
Qed.

(** A charge is refused only when it would leave a negative amount. *)
Lemma charge_accepted owner delta l :
  (forall q, q ∈ l -> owner = Some (q_prin q) -> 0 <= q_used q + delta) ->
  is_Some (charge owner delta l).
Proof.
  intros H. unfold charge. case_match eqn:E; [|done]. exfalso.
  apply existsb_exists in E as (q' & Hin & Hq).
  apply list_elem_of_In, elem_of_map in Hin as (q & <- & Hin).
  apply andb_prop in Hq as [H1%bool_decide_eq_true H2%bool_decide_eq_true].
  case_bool_decide as Hc; cbn in *; [|by destruct Hc].
  specialize (H q Hin ltac:(done)). lia.
Qed.

Lemma find_media_split id d m :
  media_unique d -> find_media id d = Some m ->
  m_res m = id /\ m ∈ media d
  /\ List.filter (fun x => bool_decide (m_res x = id)) (media d) = [m].
Proof.
  unfold media_unique, find_media. induction (media d) as [|x l IH]; cbn; [done|].
  intros [Hx Hnd]%NoDup_cons. case_bool_decide as Hc.
  - intros [= ->]. split_and!; [done|left|]. f_equal.
    apply filter_bool_none. intros y Hy. apply bool_decide_eq_false. intros Heq.
    apply Hx. apply elem_of_map. exists y. split; [congruence|done].
  - intros Hf. destruct (IH Hnd Hf) as (? & ? & ?). split_and!; [done|by right|done].
Qed.

(** The bodies of the other resources, and the sizes they have. *)
Definition other_size (p id : Z) (d : db) : Z :=
  sum (map (cost p d) (List.filter (fun m => negb (bool_decide (m_res m = id))) (media d))).

Lemma owned_size_split p id d m :
  media_unique d -> find_media id d = Some m ->
  owned_size p d = cost p d m + other_size p id d.
Proof.
  intros Hu Hf. destruct (find_media_split id d m Hu Hf) as (_ & _ & He).
  unfold owned_size, other_size.
  rewrite (sum_split _ (fun x => bool_decide (m_res x = id))), He. cbn. lia.
Qed.

Lemma find_media_none id d :
  find_media id d = None ->
  List.filter (fun m => negb (bool_decide (m_res m = id))) (media d) = media d.
Proof.
  unfold find_media. induction (media d) as [|x l IH]; cbn; [done|].
  case_bool_decide; cbn; [done|]. intros Hf. by rewrite IH.
Qed.

(** Owners depend on the table [resources] only. *)
Lemma cost_resources p d d' m : resources d' = resources d -> cost p d' m = cost p d m.
Proof. intros H. unfold cost, owner_of, find_resource. by rewrite H. Qed.

(** ** The statements keep the accounts exact *)

Lemma insert_media_exact base m d d' :
  insert_media_stmt m d = Some (tt, d') -> quota_exact base d -> quota_exact base d'.
Proof.
  unfold insert_media_stmt. destruct (charge _ _ _) as [qs|] eqn:E; [|done].
  intros [= <-] Hx q' Hq'. destruct (charge_row _ _ _ _ _ E Hq') as (q & Hq & -> & _ & ->).
  unfold owned_size. cbn. rewrite map_app, sum_app. cbn.
  rewrite (sum_ext _ (cost (q_prin q) d)) by (intros; by apply cost_resources).
  rewrite (cost_resources _ d) by done. rewrite (Hx q Hq). unfold owned_size, cost. lia.
Qed.

Lemma delete_media_exact base id d d' :
  media_unique d -> delete_media_stmt id d = Some (tt, d') -> quota_exact base d -> quota_exact base d'.
Proof.
  intros Hu. unfold delete_media_stmt. destruct (find_media id d) as [m|] eqn:Hm.
  - destruct (charge _ _ _) as [qs|] eqn:E; [|done].
    intros [= <-] Hx q' Hq'. destruct (charge_row _ _ _ _ _ E Hq') as (q & Hq & -> & _ & ->).
    rewrite (Hx q Hq), (owned_size_split _ id d m) by done.
    destruct (find_media_split id d m Hu Hm) as (Hid & _ & _).
    unfold owned_size, other_size. cbn.
    rewrite (sum_ext (cost _ (set_quota _ _)) (cost (q_prin q) d))
      by (intros; by apply cost_resources).
    unfold cost at 1. rewrite Hid. case_decide; lia.
  - intros [= <-]. done.
Qed.

Lemma update_media_exact base m d d' :
  media_unique d -> update_media_stmt m d = Some (tt, d') -> quota_exact base d -> quota_exact base d'.
Proof.
  intros Hu. unfold update_media_stmt. destruct (find_media (m_res m) d) as [old|] eqn:Hm.
  - destruct (charge _ _ _) as [qs|] eqn:E; [|done].
    intros [= <-] Hx q' Hq'. destruct (charge_row _ _ _ _ _ E Hq') as (q & Hq & -> & _ & ->).
    rewrite (Hx q Hq), (owned_size_split _ (m_res m) d old) by done.
    destruct (find_media_split (m_res m) d old Hu Hm) as (Hid & _ & Hone).
    set (d' := set_quota _ _). unfold owned_size. cbn [media d' set_quota set_media].
    rewrite (sum_ext (cost _ d') (cost (q_prin q) d)) by (intros; by apply cost_resources).
    clear d'. unfold other_size. revert Hone. generalize (media d) as l. intros l Hone.
    assert (Hgen : sum (map (cost (q_prin q) d)
        (map (fun x => if bool_decide (m_res x = m_res m) then m else x) l))
      = sum (map (fun _ => cost (q_prin q) d m)
               (List.filter (fun x => bool_decide (m_res x = m_res m)) l))
        + sum (map (cost (q_prin q) d)
               (List.filter (fun x => negb (bool_decide (m_res x = m_res m))) l))).
    { clear Hone. induction l as [|x l IH]; cbn; [done|].
      destruct (bool_decide (m_res x = m_res m)); cbn; lia. }
    rewrite Hgen, Hone. cbn. unfold cost at 1 3. rewrite Hid. case_decide; lia.
  - intros [= <-]. done.
Qed.

(** Changes of the table [resources] that keep numbers and owners. *)
Lemma find_resource_map f id d :
  (forall r, r_id (f r) = r_id r) ->
  find_resource id (set_resources (map f (resources d)) d) = f <$> find_resource id d.
Proof.
  intros Hid. unfold find_resource. cbn. induction (resources d) as [|r l IH]; cbn; [done|].
  rewrite Hid. by case_bool_decide.
Qed.

Lemma touch_exact base ids t d : quota_exact base d -> quota_exact base (touch_stmt ids t d).
Proof.
  intros Hx q Hq. rewrite (Hx q Hq). unfold owned_size. cbn. f_equal. apply sum_ext. intros m _.
  unfold cost, owner_of, touch_stmt. rewrite find_resource_map
    by (intros r; by case_bool_decide).
  destruct (find_resource (m_res m) d) as [r|]; [|done]. cbn.
  by case_bool_decide.
Qed.

Lemma notify_exact base r s :
  quota_exact base (c_db s) -> quota_exact base (c_db (dbms_notify_resource_updated r s).2).
Proof.
  intros Hx. unfold dbms_notify_resource_updated. rewrite bind_run. cbn [fst snd mret M_ret].
  destruct (update_cases (fun d => touch_stmt (ancestors_of (binds d) (serialno r))
    (dbr_updated_at r) d) s) as [[_ ->]|[_ ->]]; [done|]. by apply touch_exact.
Qed.

(** A statement followed by the notification. *)
Lemma execute_exact base (stmt : db -> option (unit * db)) s :
  (forall d', stmt (c_db s) = Some (tt, d') -> quota_exact base d') ->
  quota_exact base (c_db s) -> quota_exact base (c_db (execute stmt s).2).
Proof.
  intros Hs Hx. destruct (execute_cases stmt s) as [[_ ->]|([] & d & H1 & _ & ->)]; auto.
Qed.

(** C26. Whatever the server refuses, storing, replacing and copying a body leave
    every principal charged for exactly the bodies it owns. *)
Theorem media_operations_quota_exact base r src s :
  quota_exact base (c_db s) -> media_unique (c_db s) ->
  quota_exact base (c_db (dbms_insert_media r s).2)
  /\ quota_exact base (c_db (dbms_update_media_props r s).2)
  /\ quota_exact base (c_db (dbms_copy_media_props src r s).2).
Proof.
  intros Hx Hu. split_and!.
  - unfold dbms_insert_media. rewrite !bind_run. cbn [time_now_str fst snd].
    set (st := insert_media_of _ _).
    assert (H : quota_exact base (c_db (execute st s).2)).
    { apply execute_exact; [|done]. subst st. unfold insert_media_of. intros d'.
      destruct (sha1str _); [|done]. intros H. by apply (insert_media_exact base _ _ _ H). }
    destruct (execute _ s) as [[|] s1]; cbn in H |- *; [|done].
    rewrite bind_run. by apply notify_exact.
  - unfold dbms_update_media_props. rewrite !bind_run. cbn [time_now_str fst snd].
    set (st := update_media_of _ _).
    assert (H : quota_exact base (c_db (execute st s).2)).
    { apply execute_exact; [|done]. subst st. unfold update_media_of. intros d'.
      destruct (sha1str _); [intros H; by apply (update_media_exact base _ _ _ Hu H)|].
      destruct (find_media _ _); [done|]. by intros [= <-]. }
    destruct (execute _ s) as [[|] s1]; cbn in H |- *; [|done].
    rewrite bind_run. by apply notify_exact.
  - unfold dbms_copy_media_props. rewrite !bind_run. cbn [time_now_str fst snd].
    pose proof (execute_exact base (delete_media_stmt (serialno r)) s
      (fun d' H => delete_media_exact base _ _ d' Hu H Hx) Hx) as H1.
    destruct (execute _ s) as [o s1]; cbn [fst snd] in H1 |- *.
    rewrite ?bind_run. cbn [time_now_str fst snd]. rewrite ?bind_run.
    set (st := copy_media_stmt _ _ _).
    assert (H2 : quota_exact base (c_db (execute st s1).2)).
    { apply execute_exact; [|done]. subst st. unfold copy_media_stmt. intros d'.
      destruct (find_media _ _); [|by intros [= <-]].
      intros H. by apply (insert_media_exact base _ _ _ H). }
    destruct (execute st s1) as [[|] s2]; cbn in H2 |- *; [|done].
    rewrite bind_run. by apply notify_exact.
Qed.

(** ** Deletion *)

Lemma find_resource_cascade id x d :
  x <> id ->
  List.find (fun r => bool_decide (r_id r = x))
    (List.filter (fun r => negb (bool_decide (r_id r = id))) (resources d))
  = find_resource x d.
Proof.
  intros Hne. apply find_filter. intros r Hr%bool_decide_eq_true.
  apply negb_true_iff, bool_decide_eq_false. congruence.
Qed.

(** The sizes after the deletion of [id] are those of the other bodies. *)
Lemma owned_size_cascade p id d :
  owned_size p (cascade_resource id d) = other_size p id d.
Proof.
  unfold owned_size, other_size.
  rewrite cascade_media. apply sum_ext. intros m [Hne _]%elem_of_filter_bool.
  apply negb_true_iff, bool_decide_eq_false in Hne.
  assert (Ho : owner_of (m_res m) (cascade_resource id d) = owner_of (m_res m) d).
  { unfold owner_of. f_equal. rewrite <- (find_resource_cascade id _ d) by done.
    unfold find_resource. by rewrite cascade_resources. }
  unfold cost. by rewrite Ho.
Qed.

(** The quota statement of a deletion takes the size of the body from its owner. *)
Lemma release_row id d d' q' :
  media_unique d -> release_quota_stmt id d = Some (tt, d') -> q' ∈ quota d' ->
  exists q, q ∈ quota d /\ q_prin q' = q_prin q
    /\ q_used q' - other_size (q_prin q) id d' = q_used q - owned_size (q_prin q) d.
Proof.
  intros Hu Hd Hq'. unfold release_quota_stmt in Hd.
  destruct (find_media id d) as [m|] eqn:Hm.
  - destruct (find_media_split id d m Hu Hm) as (Hid & _ & Hone). rewrite Hone in Hd.
    destruct (charge _ _ _) as [qs|] eqn:E; [|done]. injection Hd as <-.
    destruct (charge_row _ _ _ _ _ E Hq') as (q & Hq & Hp & _ & Hused).
    exists q. split_and!; [done|done|].
    rewrite Hused, (owned_size_split _ id d m) by done.
    unfold other_size. cbn.
    rewrite (sum_ext (cost _ (set_quota _ _)) (cost (q_prin q) d))
      by (intros; by apply cost_resources).
    unfold cost at 2. rewrite Hid. case_decide; lia.
  - pose proof (find_media_none id d Hm) as Hall.
    assert (He : List.filter (fun m => bool_decide (m_res m = id)) (media d) = []).
    { apply filter_bool_none. intros y Hy. rewrite <- Hall in Hy.
      apply elem_of_filter_bool in Hy as [Hy _]. by apply negb_true_iff. }
    rewrite He in Hd. destruct (existsb _ _); [done|]. injection Hd as <-.
    exists q'. split_and!; [done|done|]. unfold other_size, owned_size. by rewrite Hall.
Qed.

(** C40. A deletion that is not refused releases what the body of the resource cost its owner,
    so the accounts stay exact for the bodies that are left, although the cascade fires no rule of the
    schema; what the properties of the resource cost stays charged. *)
Theorem delete_resource_quota_exact base r s :
  quota_exact base (c_db s) -> media_unique (c_db s) ->
  has_body (resourcetype r) = true \/ find_media (serialno r) (c_db s) = None ->
  c_errnum (dbms_delete_resource r s).2 = false ->
  quota_exact base (c_db (dbms_delete_resource r s).2).
Proof.
  intros Hx Hu Ht He. destruct (delete_resource_ok r s He) as (_ & d' & Hd & ->).
  intros q' Hq'. rewrite cascade_quota in Hq'. apply elem_of_filter_bool in Hq' as [_ Hq'].
  rewrite owned_size_cascade. destruct (has_body (resourcetype r)) eqn:Hb.
  - destruct (release_row _ _ _ _ Hu Hd Hq') as (q & Hq & Hp & Hrow).
    rewrite Hp. specialize (Hx q Hq). lia.
  - injection Hd as <-. rewrite (Hx q' Hq'). destruct Ht as [|Ht]; [done|].
    unfold owned_size, other_size. by rewrite (find_media_none _ _ Ht).
Qed.
