(* ===== verification/DbmsDeltav.v ===== *)
(** * Versioning tables ([limestone/dbms_deltav.c])

    The statements on [vcrs] (version-controlled resources), [versions] and
    [vhrs] (version histories).  [Crash] is a dereference of a NULL pointer. *)
From S2P Require Import Prelude Util Db Bind Resource.
From Stdlib Require Import Sorted.
Local Open Scope Z_scope.
Local Open Scope limestone_scope.

(** ** Outcomes of functions that may dereference NULL *)
Inductive outcome (A : Type) :=
| Crash
| Ret (a : A).
Arguments Crash {A}.
Arguments Ret {A} a.

(** ** Reading *)

(** Use of the destroyed query when there is no row: the name read is then NULL. *)
Definition dbms_get_creator_displayname (r : dav_repos_resource)
  : M (option dav_error * dav_repos_resource) :=
  q ← select (fun d => List.find (fun p => bool_decide (p_res p = creator_id r)) (principals d));
  mret (match q with
        | None => (Some (dav_new_error HTTP_INTERNAL_SERVER_ERROR), r)
        | Some p => (None, set_creator_displayname (p_name <$> p) r)
        end).

Definition dbms_get_version_number (r : dav_repos_resource)
  : M (option dav_error * dav_repos_resource) :=
  q ← select (fun d => List.find (fun v => bool_decide (ve_res v = checked_id r)) (versions d));
  mret (match q with
        | Some (Some v) => (None, set_vr_num (ve_number v) r)
        | _ => (Some (dav_new_error HTTP_INTERNAL_SERVER_ERROR), r)
        end).

(** [checked_state[0] == 'I'] *)
Definition state_of_column (s : string) : dav_resource_checked_state :=
  match s with
  | String c _ => if Ascii.eqb c "I"%char then DAV_RESOURCE_CHECKED_IN
                  else DAV_RESOURCE_CHECKED_OUT
  | EmptyString => DAV_RESOURCE_CHECKED_OUT
  end.

Definition find_vcr (id : Z) (d : db) : option vcr_row :=
  List.find (fun v => bool_decide (vc_res v = id)) (vcrs d).

(** The column [checkin_on_unlock] is selected and not stored. *)
Definition dbms_get_vcr_props (r : dav_repos_resource)
  : M (option dav_error * dav_repos_resource) :=
  q ← select (find_vcr (serialno r));
  match q with
  | None => mret (Some (dav_new_error HTTP_INTERNAL_SERVER_ERROR), r)
  | Some None => mret (None, set_checked_state DAV_RESOURCE_NOT_VERSIONED r)
  | Some (Some v) =>
      dbms_get_version_number
        (set_checked_state (state_of_column (vc_state v))
           (set_checked_id (vc_checked v)
              (set_vhr_id (vc_vhr v)
                 (set_autoversion_type (vc_version_type v) r))))
  end.

Definition dbms_get_version_id (r : dav_repos_resource) (version_num : Z)
  : M (dav_error + Z) :=
  q ← select (fun d => List.find
        (fun v => bool_decide (ve_number v = version_num /\ ve_vcr v = Some (serialno r)))
        (versions d));
  mret (match q with
        | Some (Some v) => inr (ve_res v)
        | _ => inl (dav_new_error HTTP_INTERNAL_SERVER_ERROR)
        end).

(** A NULL [vcr_id] reads as the empty string, hence 0.  Without a [resource]
    the record [vcr] is NULL and its assignment crashes. *)
Definition dbms_get_version_resource_props (vr : dav_repos_resource)
  : M (outcome (option dav_error * dav_repos_resource)) :=
  let vcr := sabridge_new_dbr_from_dbr vr in
  q ← select (fun d => List.find (fun v => bool_decide (ve_res v = serialno vr)) (versions d));
  match q with
  | None => mret (Ret (Some (dav_new_error HTTP_INTERNAL_SERVER_ERROR), vr))
  | Some None => mret (Ret (None, vr))
  | Some (Some v) =>
      let vr := set_version (ve_number v) (set_vcr_id (default 0 (ve_vcr v)) vr) in
      match vcr with
      | None => mret Crash
      | Some vcr =>
          e ← dbms_get_vcr_props (set_serialno (vcr_id vr) vcr);
          mret (Ret (e.1, if bool_decide (checked_id e.2 = serialno vr)
                          then set_lastversion true vr else vr))
      end
  end.

Definition dbms_get_vhr_root_version_id (vhr : dav_repos_resource)
  : M (option dav_error * dav_repos_resource) :=
  q ← select (fun d => List.find (fun h => bool_decide (h.1 = serialno vhr)) (vhrs d));
  mret (match q with
        | None => (Some (dav_new_error HTTP_INTERNAL_SERVER_ERROR), vhr)
        | Some None => (None, vhr)
        | Some (Some h) => (None, set_root_version_id h.2 vhr)
        end).

Definition dbms_get_vhr_props (vhr : dav_repos_resource)
  : M (option dav_error * dav_repos_resource) :=
  q ← select (fun d => List.find (fun v => bool_decide (vc_vhr v = serialno vhr)) (vcrs d));
  match q with
  | None => mret (Some (dav_new_error HTTP_INTERNAL_SERVER_ERROR), vhr)
  | Some None => mret (None, vhr)
  | Some (Some v) =>
      dbms_get_vhr_root_version_id
        (set_vcr_id (vc_res v)
           (set_checked_state (state_of_column (vc_state v))
              (set_checked_id (vc_checked v) vhr)))
  end.

(** The error of [dbms_get_version_resource_props] is overwritten. *)
Definition dbms_get_deltav_props (r : dav_repos_resource)
  : M (outcome (option dav_error * dav_repos_resource)) :=
  match resourcetype r with
  | Some dav_repos_VERSIONED | Some dav_repos_VERSIONED_COLLECTION =>
      e ← dbms_get_vcr_props r; mret (Ret e)
  | Some dav_repos_VERSION | Some dav_repos_COLLECTION_VERSION =>
      o ← dbms_get_version_resource_props r;
      match o with
      | Crash => mret Crash
      | Ret e => e ← dbms_get_creator_displayname e.2; mret (Ret e)
      end
  | Some dav_repos_VERSIONHISTORY => e ← dbms_get_vhr_props r; mret (Ret e)
  | _ => mret (Ret (None, r))
  end.

(** ** Changes *)

Definition column_of_state (s : dav_resource_checked_state) : string :=
  if decide (s = DAV_RESOURCE_CHECKED_IN) then "I" else "O".

Definition update_vcr_stmt (id : Z) (f : vcr_row -> vcr_row) (d : db) : db :=
  set_vcrs (map (fun v => if bool_decide (vc_res v = id) then f v else v) (vcrs d)) d.

Definition dbms_set_checkin_out (r : dav_repos_resource)
    (state : dav_resource_checked_state) (version_num : Z)
  : M (option dav_error * dav_repos_resource) :=
  id ← (if bool_decide (vr_num r = version_num) && negb (bool_decide (checked_id r = 0))
        then mret (inr (checked_id r))
        else dbms_get_version_id r version_num);
  match id with
  | inl e => mret (Some e, r)
  | inr id =>
      q ← update (update_vcr_stmt (serialno r) (fun v =>
            VcrRow (vc_res v) id (vc_vhr v) (column_of_state state) (vc_version_type v)
              (vc_checkin_on_unlock v)));
      mret (match q with
            | None => (Some (dav_new_error HTTP_INTERNAL_SERVER_ERROR), r)
            | Some _ => (None, set_checked_id id (set_checked_state state (set_vr_num version_num r)))
            end)
  end.

Definition dbms_insert_version (v : dav_repos_resource) : M (option dav_error) :=
  q ← execute (fun d =>
        if existsb (fun x => bool_decide (ve_res x = serialno v)) (versions d) then None
        else Some (tt, set_versions
               (versions d ++ [VersionRow (serialno v) (version v) (Some (vcr_id v)) (vhr_id v)])
               d));
  mret (err_of q).

Definition dbms_insert_vhr (vhr : dav_repos_resource) : M (option dav_error) :=
  q ← execute (fun d =>
        if existsb (fun h => bool_decide (h.1 = serialno vhr)) (vhrs d) then None
        else Some (tt, set_vhrs (vhrs d ++ [(serialno vhr, root_version_id vhr)]) d));
  mret (err_of q).

Definition dbms_update_vhr (vhr : dav_repos_resource) : M (option dav_error) :=
  q ← update (fun d => set_vhrs (map (fun h =>
        if bool_decide (h.1 = serialno vhr) then (h.1, root_version_id vhr) else h) (vhrs d)) d);
  mret (err_of q).

(** The row gets [checkin_on_unlock] 0, the record 1. *)
Definition dbms_insert_vcr (r : dav_repos_resource)
  : M (option dav_error * dav_repos_resource) :=
  q ← execute (fun d =>
        if existsb (fun v => bool_decide (vc_res v = serialno r)) (vcrs d) then None
        else Some (tt, set_vcrs
               (vcrs d ++ [VcrRow (serialno r) (checked_id r) (vhr_id r) "I"
                             (autoversion_type r) 0]) d));
  mret (err_of q, set_checkin_on_unlock 1 (set_checked_state DAV_RESOURCE_CHECKED_IN r)).

Definition dbms_set_autoversion_type (r : dav_repos_resource) (av_type : Z)
  : M (option dav_error * dav_repos_resource) :=
  q ← update (update_vcr_stmt (serialno r) (fun v =>
        VcrRow (vc_res v) (vc_checked v) (vc_vhr v) (vc_state v) av_type
          (vc_checkin_on_unlock v)));
  mret (match q with
        | None => (Some (dav_new_error HTTP_INTERNAL_SERVER_ERROR), r)
        | Some _ => (None, set_autoversion_type av_type r)
        end).

Definition dbms_set_checkin_on_unlock (r : dav_repos_resource)
  : M (option dav_error * dav_repos_resource) :=
  q ← update (update_vcr_stmt (serialno r) (fun v =>
        VcrRow (vc_res v) (vc_checked v) (vc_vhr v) (vc_state v) (vc_version_type v) 1));
  mret (err_of q, match q with Some _ => set_checkin_on_unlock 1 r | None => r end).

(** The binds of a collection to version-controlled resources, redirected to
    their histories. *)
Definition version_binds (src : Z) (d : db) : list (string * Z * Z) :=
  flat_map (fun b =>
    if bool_decide (b_coll b = src)
    then map (fun v => (b_name b, vc_vhr v, b_updated b))
           (List.filter (fun v => bool_decide (vc_res v = b_res b)) (vcrs d))
    else []) (binds d).

Fixpoint insert_version_binds (dst : Z) (l : list (string * Z * Z)) (d : db)
  : option (unit * db) :=
  match l with
  | [] => Some (tt, d)
  | (name, vhr, t) :: rest =>
      match insert_bind_stmt name dst vhr t d with
      | None => None
      | Some (_, d) => insert_version_binds dst rest d
      end
  end.

Definition dbms_copy_resource_collection_version (r_src r_dst : dav_repos_resource)
  : M (option dav_error) :=
  if is_collection (resourcetype r_src)
     && bool_decide (resourcetype r_dst = Some dav_repos_COLLECTION_VERSION)
  then
    q ← execute (fun d =>
          insert_version_binds (serialno r_dst) (version_binds (serialno r_src) d) d);
    mret (err_of q)
  else mret None.

(** The first statement says [INNER JOIN vcrs USING resource_id] without the
    parentheses SQL requires, so the server rejects it whatever the tables hold. *)
Definition rejected_by_parser (d : db) : option (unit * db) := None.

Definition dbms_restore_vcc (vcc cvr : dav_repos_resource) : M (option dav_error) :=
  q ← execute rejected_by_parser;
  match q with
  | None => mret (err_of q)
  | Some _ =>
      (* the second statement lacks its closing parenthesis *)
      q ← execute rejected_by_parser;
      match q with
      | None => mret (err_of q)
      | Some _ =>
          (* the third selects one row value for the columns of [binds] *)
          q ← execute rejected_by_parser;
          mret (err_of q)
      end
  end.

(** UPDATE resources SET type = new WHERE id IN (vcrs of the history) AND type = old *)
Definition unversion_stmt (vhr : Z) (old new : dav_repos_type) (d : db) : db :=
  let ids := map vc_res (List.filter (fun v => bool_decide (vc_vhr v = vhr)) (vcrs d)) in
  set_resources (map (fun r =>
    if bool_decide (r_id r ∈ ids /\ r_type r = old)
    then ResourceRow (r_id r) (r_uuid r) new (r_owner r) (r_creator r) (r_displayname r)
           (r_created r) (r_lastmodified r) (r_language r) (r_limebar r)
    else r) (resources d)) d.

Definition dbms_unversion_vhr_vcrs (vhr : dav_repos_resource) : M (option dav_error) :=
  q ← update (unversion_stmt (serialno vhr) dav_repos_VERSIONED dav_repos_RESOURCE);
  match q with
  | None => mret (err_of q)
  | Some _ =>
      q ← update (unversion_stmt (serialno vhr) dav_repos_VERSIONED_COLLECTION
                    dav_repos_COLLECTION);
      mret (err_of q)
  end.

(** The versions of a history in the order of their numbers. *)
Fixpoint insert_by_number (v : version_row) (l : list version_row) : list version_row :=
  match l with
  | [] => [v]
  | w :: rest => if bool_decide (ve_number v <= ve_number w) then v :: l
                 else w :: insert_by_number v rest
  end.

Definition sort_versions (l : list version_row) : list version_row :=
  foldr insert_by_number [] l.

Definition vhr_versions (vhr : Z) (d : db) : list (version_row * resource_row) :=
  flat_map (fun v =>
    map (fun r => (v, r))
      (List.filter (fun r => bool_decide (r_id r = ve_res v)) (resources d)))
    (sort_versions (List.filter (fun v => bool_decide (ve_vhr v = vhr)) (versions d))).

(** LEFT JOIN media and principals: absent columns are NULL. *)
Definition version_dbr (base : dav_repos_resource) (mk_uri : Z -> string) (d : db)
    (vr : version_row * resource_row) : dav_repos_resource :=
  let '(v, r) := vr in
  let creator := List.find (fun p => bool_decide (p_res p = r_creator r)) (principals d) in
  let base := set_serialno (r_id r)
    (set_resourcetype (Some (r_type r))
       (set_uuid (r_uuid r)
          (set_created_at (r_created r)
             (set_updated_at (from_option m_updated 0 (find_media (r_id r) d))
                (set_getcontentlanguage (Some (r_language r))
                   (set_version (ve_number v)
                      (set_uri (Some (mk_uri (ve_number v)))
                         (set_vcr_id (default 0 (ve_vcr v))
                            (set_creator_displayname (p_name <$> creator) base))))))))) in
  match r_type r with
  | dav_repos_VERSION =>
      set_getcontentlength (from_option m_size 0 (find_media (r_id r) d))
        (set_getcontenttype (find_media (r_id r) d ≫= m_mimetype)
           (set_sha1str (m_sha1 <$> find_media (r_id r) d) base))
  | _ => base
  end.

(** Without rows the uninitialised [new_link_item] is dereferenced; with rows
    and no [resource] the NULL one. *)
Definition dbms_get_vhr_versions (mk_uri : Z -> string) (vhr : dav_repos_resource)
  : M (outcome (dav_error + list dav_repos_resource)) :=
  q ← select (fun d => (vhr_versions (serialno vhr) d, d));
  mret (match q with
        | None => Ret (inl (dav_new_error HTTP_INTERNAL_SERVER_ERROR))
        | Some ([], _) => Crash
        | Some (rows, d) =>
            match sabridge_new_dbr_from_dbr vhr with
            | None => Crash
            | Some base =>
                let l := map (version_dbr base mk_uri d) rows in
                Ret (inr (match last l with
                          | Some r => take (length l - 1) l ++ [set_lastversion true r]
                          | None => l
                          end))
            end
        end).

(** ** Properties *)

(** The statements that redirect the binds of a collection version are all
    malformed: [dbms_restore_vcc] returns an error and changes nothing, whatever
    the tables hold and whatever the server does. *)
Theorem restore_vcc_fails vcc cvr s :
  (dbms_restore_vcc vcc cvr s).1 = Some (dav_new_error HTTP_INTERNAL_SERVER_ERROR)
  /\ c_db (dbms_restore_vcc vcc cvr s).2 = c_db s.
Proof.
  unfold dbms_restore_vcc. rewrite bind_run.
  pose proof (execute_cases rejected_by_parser s) as [[H1 H2]|(r & d & H & _)]; [|done].
  by rewrite H1.
Qed.

Lemma state_of_column_of_state st :
  st <> DAV_RESOURCE_NOT_VERSIONED -> state_of_column (column_of_state st) = st.
Proof. by destruct st. Qed.

Lemma find_update_vcr id f d v :
  (forall v, vc_res (f v) = vc_res v) -> find_vcr id d = Some v ->
  find_vcr id (update_vcr_stmt id f d) = Some (f v).
Proof.
  intros Hf. unfold find_vcr, update_vcr_stmt. cbn [vcrs set_vcrs].
  induction (vcrs d) as [|w l IH]; cbn; [done|].
  destruct (bool_decide (vc_res w = id)) eqn:E; cbn.
  - rewrite Hf, E. congruence.
  - by rewrite E.
Qed.

Lemma find_version_id l n vcr v :
  NoDup (map ve_res l) ->
  List.find (fun v => bool_decide (ve_number v = n /\ ve_vcr v = Some vcr)) l = Some v ->
  List.find (fun w => bool_decide (ve_res w = ve_res v)) l = Some v.
Proof.
  intros Hnd [Hin H]%find_some.
  destruct (List.find (fun w => bool_decide (ve_res w = ve_res v)) l) as [w|] eqn:E.
  - apply find_some in E as [Hw Hr]. apply bool_decide_eq_true in Hr.
    rewrite <- list_elem_of_In in *. f_equal. by apply (NoDup_map_eq ve_res l).
  - pose proof (find_none _ _ E v Hin) as Hn. cbn in Hn.
    by rewrite bool_decide_true in Hn.
Qed.

(** Checking in or out is read back: after a switch to version [n] the
    version-controlled resource reports the new state and that version. *)
Theorem set_checkin_out_readback r st n v w s :
  quiet s -> NoDup (map ve_res (versions (c_db s))) ->
  st <> DAV_RESOURCE_NOT_VERSIONED -> checked_id r = 0 ->
  find_vcr (serialno r) (c_db s) = Some w ->
  List.find (fun v => bool_decide (ve_number v = n /\ ve_vcr v = Some (serialno r)))
    (versions (c_db s)) = Some v ->
  exists r' s', dbms_set_checkin_out r st n s = (None, r', s')
    /\ checked_state r' = st /\ checked_id r' = ve_res v /\ vr_num r' = n
    /\ forall r0, serialno r0 = serialno r ->
         exists r1, (dbms_get_vcr_props r0 s').1 = (None, r1)
           /\ checked_state r1 = st /\ checked_id r1 = ve_res v /\ vr_num r1 = n.
Proof.
  intros Hq Hnd Hst Hid Hw Hv. destruct s as [d f t fl e]. unfold quiet in Hq. cbn in *. subst f.
  unfold dbms_set_checkin_out.
  rewrite Hid, (bool_decide_true (0 = 0)), andb_false_r by done.
  unfold dbms_get_version_id. rewrite !bind_run, select_quiet. cbn [fst snd]. rewrite Hv.
  cbn [mret M_ret fst snd]. rewrite bind_run, update_quiet. cbn [fst snd mret M_ret].
  eexists _, _. split; [reflexivity|]. split_and!; [done|done|done|].
  intros r0 Hr0. unfold dbms_get_vcr_props. rewrite bind_run, select_quiet, Hr0.
  erewrite find_update_vcr by done. cbn [fst snd vc_checked vc_state].
  unfold dbms_get_version_number. rewrite bind_run, select_quiet. cbn [fst snd].
  cbn [versions update_vcr_stmt set_vcrs].
  pose proof (find_version_id _ _ _ _ Hnd Hv) as Hfind.
  apply find_some in Hv as [_ Hn]. apply bool_decide_eq_true in Hn as [Hn _].
  cbn. rewrite Hfind. cbn. eexists. split; [reflexivity|]. cbn.
  by rewrite state_of_column_of_state.
Qed.

(** ** The versions of a history *)

Lemma insert_by_number_perm v l : Permutation (insert_by_number v l) (v :: l).
Proof.
  induction l as [|w l IH]; cbn; [done|]. case_bool_decide; [done|].
  rewrite IH. constructor.
Qed.

Lemma sort_versions_perm l : Permutation (sort_versions l) l.
Proof. induction l as [|v l IH]; cbn; [done|]. by rewrite insert_by_number_perm, IH. Qed.

Definition number_le (v w : version_row) : Prop := ve_number v <= ve_number w.

Lemma insert_by_number_sorted v l :
  StronglySorted number_le l -> StronglySorted number_le (insert_by_number v l).
Proof.
  unfold number_le.
  induction 1 as [|w l Hs IH Hw]; cbn; [by repeat constructor|].
  case_bool_decide as H.
  - constructor; [by constructor|]. constructor; [done|].
    eapply Forall_impl; [exact Hw|cbn; lia].
  - constructor; [done|]. rewrite insert_by_number_perm. constructor; [lia|done].
Qed.

Lemma sort_versions_sorted l : StronglySorted number_le (sort_versions l).
Proof. induction l as [|v l IH]; cbn; [constructor|]. by apply insert_by_number_sorted. Qed.

Lemma vhr_versions_numbers vhr d :
  StronglySorted Z.le (map (fun vr => ve_number vr.1) (vhr_versions vhr d)).
Proof.
  unfold vhr_versions. generalize (List.filter (fun v => bool_decide (ve_vhr v = vhr)) (versions d)).
  intros l. pose proof (sort_versions_sorted l) as Hs.
  induction Hs as [|v l' _ IH Hv]; cbn; [constructor|].
  rewrite map_app, map_map. cbn [fst].
  assert (Hall : Forall (Z.le (ve_number v))
    (map (fun vr : version_row * resource_row => ve_number vr.1)
       (flat_map (fun v => map (fun r => (v, r))
          (List.filter (fun r => bool_decide (r_id r = ve_res v)) (resources d))) l'))).
  { apply Forall_forall. intros n (vr & <- & Hin)%elem_of_map.
    rewrite list_elem_of_In, in_flat_map in Hin. destruct Hin as (x & Hx & Hin).
    rewrite in_map_iff in Hin. destruct Hin as (y & <- & _). cbn.
    rewrite Forall_forall in Hv. apply Hv. by rewrite list_elem_of_In. }
  induction (List.filter _ (resources d)) as [|r rs IHr]; cbn; [done|].
  constructor; [done|]. apply Forall_app. split; [|done].
  clear. induction rs as [|r rs IH]; cbn; constructor; [lia|done].
Qed.

Lemma version_dbr_fields base mk_uri d v r :
  serialno (version_dbr base mk_uri d (v, r)) = r_id r
  /\ version (version_dbr base mk_uri d (v, r)) = ve_number v
  /\ lastversion (version_dbr base mk_uri d (v, r)) = lastversion base.
Proof. unfold version_dbr. by destruct (r_type r). Qed.

(** The list of versions of a history has every version of the history that has
    a resource, once, in the order of the numbers, and its last element, no
    other, is marked as the last version. *)
Theorem get_vhr_versions_spec mk_uri vhr s l :
  (dbms_get_vhr_versions mk_uri vhr s).1 = Ret (inr l) ->
  let rows := vhr_versions (serialno vhr) (c_db s) in
  rows <> []
  /\ map (fun r => (serialno r, version r)) l
     = map (fun vr => (r_id vr.2, ve_number vr.1)) rows
  /\ StronglySorted Z.le (map version l)
  /\ forall i r, l !! i = Some r -> lastversion r = bool_decide (S i = length l).
Proof.
  unfold dbms_get_vhr_versions. rewrite bind_run.
  pose proof (fun r => select_result (fun d => (vhr_versions (serialno vhr) d, d)) s r) as Hsel.
  destruct (select _ s) as [[[rows d]|] s1]; cbn [fst snd mret M_ret] in *; [|done].
  specialize (Hsel _ eq_refl). injection Hsel as -> ->.
  pose proof (vhr_versions_numbers (serialno vhr) (c_db s)) as Hsort.
  destruct (vhr_versions (serialno vhr) (c_db s)) as [|row rows'] eqn:Hrows; [done|].
  rewrite <- Hrows in *. unfold sabridge_new_dbr_from_dbr.
  destruct (has_resource vhr); [|done].
  set (base := set_root_path _ _). assert (Hbase : lastversion base = false) by done.
  clearbody base. set (l0 := map (version_dbr base mk_uri (c_db s)) _).
  assert (Hmap : map (fun r => (serialno r, version r)) l0
     = map (fun vr => (r_id vr.2, ve_number vr.1)) (vhr_versions (serialno vhr) (c_db s))).
  { unfold l0. rewrite map_map. apply map_ext. intros [v r]. cbn [fst snd].
    by destruct (version_dbr_fields base mk_uri (c_db s) v r) as (-> & -> & _). }
  assert (Hlv : forall r, r ∈ l0 -> lastversion r = false).
  { intros x ([v r] & <- & _)%elem_of_map.
    by destruct (version_dbr_fields base mk_uri (c_db s) v r) as (_ & _ & ->). }
  destruct (last l0) as [x|] eqn:Hlast.
  2:{ apply last_None in Hlast. unfold l0 in Hlast. rewrite Hrows in Hlast. done. }
  apply last_Some in Hlast as [l1 Hl0]. clearbody l0. subst l0. intros [= <-].
  rewrite length_app, Nat.add_sub, take_app_length in *. cbn [length].
  rewrite !map_app in *. cbn [map] in *.
  split; [by rewrite Hrows|]. split; [exact Hmap|]. split.
  - apply (f_equal (map snd)) in Hmap. rewrite map_app, !map_map in Hmap. cbn [map snd] in Hmap.
    cbn [version set_lastversion].
    change (map version l1) with (map (fun x => version x) l1). by rewrite Hmap.
  - intros i r Hi. rewrite length_app. cbn [length].
    destruct (decide (i < length l1)%nat).
    + rewrite lookup_app_l in Hi by done. rewrite bool_decide_false by lia.
      apply Hlv. apply elem_of_app. left. by eapply list_elem_of_lookup_2.
    + rewrite lookup_app_r in Hi by lia. apply list_lookup_singleton_Some in Hi as [Hi <-].
      by rewrite bool_decide_true by lia.
Qed.
