(* ===== verification/Rows.v ===== *)
(** * Execution against the driver and the rows of a result ([dbms_dbd.c])

    [Dbd] models what text [dbms_execute] hands to the driver; here are the driver's
    answers: the results of a SELECT, the rows read from them one after the other
    ([dbms_next]) or by their number ([dbms_fetch_row_num]), and the columns of a row.
    The functions [apr_dbd_*] of the driver are a class, with their documentation as
    laws.  The other files read all rows of a SELECT at once; [rows_of_select] shows
    that the loops of the source do so. *)
From S2P Require Import Prelude Util Dbd Numbers DbmsDeltav.
From stdpp Require Import pretty.
Local Open Scope Z_scope.

(** ** The driver *)

(** [apr_dbd_select] and [apr_dbd_query] give an error number, 0 for success;
    [apr_dbd_get_row] an error number, the row pointer and the results afterwards, -1 for
    the row number asking for the next row. *)
Class DbdRows := {
  apr_dbd_results : Type;
  apr_dbd_row : Type;
  apr_dbd_select : string -> Z * option apr_dbd_results;
  apr_dbd_query : string -> Z * Z;
  apr_dbd_error : string -> string;
  apr_dbd_get_row : apr_dbd_results -> option apr_dbd_row -> Z
                    -> Z * option apr_dbd_row * apr_dbd_results;
  apr_dbd_get_entry : apr_dbd_row -> Z -> option string;
  apr_dbd_num_cols : apr_dbd_results -> Z;
  apr_dbd_num_tuples : apr_dbd_results -> Z
}.

(** The laws speak of the rows of a result, of the next row to be read and of the entries
    of a row; an entry is NULL where the column is, or when there is no such column. *)
Class DbdRowsLaws (D : DbdRows) := {
  result_rows : apr_dbd_results -> list (list (option string));
  next_row : apr_dbd_results -> option apr_dbd_row -> nat;
  row_entries : apr_dbd_row -> list (option string);
  select_first text (res : apr_dbd_results) : apr_dbd_select text = (0, Some res) -> next_row res None = 0%nat;
  select_results text : (apr_dbd_select text).1 = 0 -> is_Some (apr_dbd_select text).2;
  get_row_next (res : apr_dbd_results) w r : result_rows res !! next_row res w = Some r ->
    exists w' res', apr_dbd_get_row res w (-1) = (0, Some w', res')
      /\ row_entries w' = r /\ result_rows res' = result_rows res
      /\ next_row res' (Some w') = S (next_row res w);
  get_row_end (res : apr_dbd_results) w : result_rows res !! next_row res w = None ->
    (apr_dbd_get_row res w (-1)).1.1 = -1;
  get_row_number (res : apr_dbd_results) w n r : result_rows res !! n = Some r ->
    exists w' res', apr_dbd_get_row res w (Z.of_nat n + 1) = (0, Some w', res')
      /\ row_entries w' = r /\ result_rows res' = result_rows res;
  get_entry (w : apr_dbd_row) n : 0 <= n -> apr_dbd_get_entry w n = mjoin (row_entries w !! Z.to_nat n);
  num_cols (res : apr_dbd_results) r : r ∈ result_rows res -> apr_dbd_num_cols res = Z.of_nat (length r);
  num_tuples (res : apr_dbd_results) : apr_dbd_num_tuples res = Z.of_nat (length (result_rows res))
}.

(** ** Queries with their results *)

Record cursor {D : DbdRows} := Cursor {
  cu_query : dav_repos_query;
  cu_results : option apr_dbd_results;
  cu_row : option apr_dbd_row;
  cu_colcount : Z;
  cu_nrows : Z
}.
Arguments cursor : clear implicits.
Arguments cursor D.

Section rows.
Context {D : DbdRows}.

(** A prepared query, before its execution. *)
Definition new_cursor (q : dav_repos_query) : cursor D := Cursor D q None None 0 0.

Definition driver_answer (call : driver_call) : Z :=
  match call with
  | NoCall => 0
  | AprDbdSelect text => (apr_dbd_select text).1
  | AprDbdQuery text => (apr_dbd_query text).1
  end.

(** The note that the DAV module looks for to repeat a transaction. *)
Definition xaction_error (call : driver_call) : bool :=
  match call with
  | NoCall => false
  | AprDbdSelect text | AprDbdQuery text =>
      negb (bool_decide (driver_answer call = 0))
      && strstr (apr_dbd_error text) "could not serialize access"
  end.

(** The return value, the query and whether the request got the note. *)
Definition execute_rows (q : cursor D) : option (Z * cursor D * bool) :=
  match dbms_execute driver_answer (cu_query q) with
  | None => None
  | Some (error, query, call) =>
      let q := Cursor D query (cu_results q) (cu_row q) (cu_colcount q) (cu_nrows q) in
      let q :=
        match call with
        | NoCall => q
        | AprDbdSelect text =>
            let res := (apr_dbd_select text).2 in
            Cursor D query res (cu_row q)
              (match res with
               | Some r => if decide (error = 0) then apr_dbd_num_cols r else cu_colcount q
               | None => cu_colcount q
               end) (cu_nrows q)
        | AprDbdQuery text =>
            Cursor D query (cu_results q) (cu_row q) (cu_colcount q) (apr_dbd_query text).2
        end in
      Some (error, q, xaction_error call)
  end.

Definition dbms_nrows (q : cursor D) : Z := cu_nrows q.

(** 1 for a row, 0 at the end, -1 for an error. *)
Definition dbms_next (q : cursor D) : Z * cursor D :=
  match state (cu_query q), cu_results q with
  | DAV_REPOS_STATE_EXECUTED, Some res =>
      let '(errno, row, res) := apr_dbd_get_row res (cu_row q) (-1) in
      (if decide (errno = -1) then 0 else if decide (errno = 0) then 1 else -1,
       Cursor D (cu_query q) (Some res) row (cu_colcount q) (cu_nrows q))
  | _, _ => (-1, q)
  end.

(** The columns count from 1; the bound lets one more pass. *)
Definition column_of (q : cursor D) (column : Z) : option (option string) :=
  match cu_row q with
  | None => None
  | Some row =>
      if bool_decide (column < 1) || bool_decide (cu_colcount q + 1 < column) then None
      else Some (apr_dbd_get_entry row (column - 1))
  end.

Definition dbms_get_int (q : cursor D) (column : Z) : Z :=
  match column_of q column with
  | None => 0
  | Some (Some value) => atoll value
  | Some None => -1
  end.

(** [apr_pstrdup] of NULL is NULL. *)
Definition dbms_get_string (q : cursor D) (column : Z) : option string :=
  mjoin (column_of q column).

(** The array of all entries of the row that [apr_dbd_get_row] finds; the row pointer of
    the query stays as it was.  There are no results after a failure, and no row after
    another error than the end of the rows. *)
Definition fetch_entries (rownum : Z) (q : cursor D)
  : outcome (option (list (option string)) * cursor D) :=
  match cu_results q with
  | None => Crash
  | Some res =>
      let '(errno, row, res) := apr_dbd_get_row res (cu_row q) rownum in
      let q := Cursor D (cu_query q) (Some res) (cu_row q) (cu_colcount q) (cu_nrows q) in
      if decide (errno = -1) then Ret (None, q)
      else match row with
           | None => Crash
           | Some w =>
               Ret (Some (map (fun i => apr_dbd_get_entry w (Z.of_nat i))
                            (seq 0 (Z.to_nat (apr_dbd_num_cols res)))), q)
           end
  end.

Definition dbms_fetch_row (q : cursor D) : outcome (option (list (option string)) * cursor D) :=
  fetch_entries (-1) q.
Definition dbms_fetch_row_num (q : cursor D) (num : Z)
  : outcome (option (list (option string)) * cursor D) :=
  fetch_entries (num + 1) q.

Definition dbms_results_count (q : cursor D) : outcome Z :=
  match cu_results q with
  | None => Crash
  | Some res => Ret (apr_dbd_num_tuples res)
  end.

(** ** The two loops of the source over a result *)

(** [while ((ierrno = dbms_next(q)) == 1)], with [dbms_get_string] for each of [columns];
    [None] when the fuel runs out. *)
Fixpoint next_loop (fuel : nat) (columns : list Z) (q : cursor D)
  : option (list (list (option string)) * Z) :=
  match fuel with
  | O => None
  | S fuel =>
      let '(ierrno, q) := dbms_next q in
      if decide (ierrno = 1) then
        let row := map (dbms_get_string q) columns in
        match next_loop fuel columns q with
        | Some (rows, e) => Some (row :: rows, e)
        | None => None
        end
      else Some ([], ierrno)
  end.

(** [for (i = 0; i < n; i++) results[i] = dbms_fetch_row_num(db, q, pool, i)] *)
Fixpoint number_loop (n : nat) (i : Z) (q : cursor D)
  : outcome (list (option (list (option string)))) :=
  match n with
  | O => Ret []
  | S n =>
      match dbms_fetch_row_num q i with
      | Crash => Crash
      | Ret (row, q) =>
          match number_loop n (i + 1) q with
          | Crash => Crash
          | Ret rows => Ret (row :: rows)
          end
      end
  end.

Definition fetch_all (q : cursor D) : outcome (list (option (list (option string)))) :=
  match dbms_results_count q with
  | Crash => Crash
  | Ret n => number_loop (Z.to_nat n) 0 q
  end.

(** ** Lemmas *)

Context {L : DbdRowsLaws D}.

Lemma map_get_entry w : map (fun i => apr_dbd_get_entry w (Z.of_nat i)) (seq 0 (length (row_entries w)))
  = row_entries w.
Proof.
  apply list_eq. intros i. rewrite list_lookup_fmap.
  destruct (row_entries w !! i) as [x|] eqn:E.
  - rewrite lookup_seq_lt by (by eapply lookup_lt_Some). cbn.
    rewrite get_entry, Nat2Z.id, E by lia. done.
  - rewrite lookup_seq_ge; [done|]. by apply lookup_ge_None.
Qed.

(** The columns 1 to [length] of a row that has been read. *)
Lemma map_get_string q w :
  cu_row q = Some w -> cu_colcount q = Z.of_nat (length (row_entries w)) ->
  map (dbms_get_string q) (map (fun i => Z.of_nat i + 1) (seq 0 (length (row_entries w))))
  = row_entries w.
Proof.
  intros Hw Hc. rewrite map_map. rewrite <- (map_get_entry w) at 2.
  apply map_ext_in. intros i Hi%in_seq.
  unfold dbms_get_string, column_of. rewrite Hw, Hc.
  rewrite !bool_decide_eq_false_2 by lia. cbn. by rewrite Z.add_simpl_r.
Qed.

(** One call of [dbms_next]: at a row, and after the last. *)
Lemma dbms_next_row q res r :
  state (cu_query q) = DAV_REPOS_STATE_EXECUTED -> cu_results q = Some res ->
  result_rows res !! next_row res (cu_row q) = Some r ->
  exists w res', dbms_next q = (1, Cursor D (cu_query q) (Some res') (Some w) (cu_colcount q) (cu_nrows q))
    /\ row_entries w = r /\ result_rows res' = result_rows res
    /\ next_row res' (Some w) = S (next_row res (cu_row q)).
Proof.
  intros Hs Hr Hn. destruct (get_row_next _ _ _ Hn) as (w & res' & Hg & H).
  exists w, res'. split; [|done]. unfold dbms_next. by rewrite Hs, Hr, Hg.
Qed.

Lemma dbms_next_end q res :
  state (cu_query q) = DAV_REPOS_STATE_EXECUTED -> cu_results q = Some res ->
  result_rows res !! next_row res (cu_row q) = None -> (dbms_next q).1 = 0.
Proof.
  intros Hs Hr Hn%get_row_end. unfold dbms_next. rewrite Hs, Hr.
  destruct (apr_dbd_get_row _ _ _) as [[e w] res']. cbn in Hn. by subst e.
Qed.

Lemma drop_head {A} (n : nat) (l rest : list A) : drop n l = rest -> l !! n = head rest.
Proof. intros <-. by rewrite head_lookup, lookup_drop, Nat.add_0_r. Qed.

Lemma drop_next {A} (n : nat) (l rest : list A) x : drop n l = x :: rest -> drop (S n) l = rest.
Proof. intros H. by rewrite <- Nat.add_1_r, <- drop_drop, H. Qed.

Lemma next_loop_step fuel columns q :
  next_loop (S fuel) columns q
  = if decide ((dbms_next q).1 = 1) then
      match next_loop fuel columns (dbms_next q).2 with
      | Some (rows, e) => Some (map (dbms_get_string (dbms_next q).2) columns :: rows, e)
      | None => None
      end
    else Some ([], (dbms_next q).1).
Proof. cbn. by destruct (dbms_next q). Qed.

Lemma next_loop_rows columns rest q res n :
  columns = map (fun i => Z.of_nat i + 1) (seq 0 n) ->
  state (cu_query q) = DAV_REPOS_STATE_EXECUTED -> cu_results q = Some res ->
  (rest <> [] -> cu_colcount q = Z.of_nat n) -> (forall r, r ∈ result_rows res -> length r = n) ->
  drop (next_row res (cu_row q)) (result_rows res) = rest ->
  next_loop (S (length rest)) columns q = Some (rest, 0).
Proof.
  intros Hcols. revert q res. induction rest as [|r rest IH]; intros q res Hs Hr Hc Hw Hd;
    rewrite next_loop_step.
  - by rewrite (dbms_next_end q res Hs Hr (drop_head _ _ _ Hd)).
  - pose proof (drop_head _ _ _ Hd) as Hn.
    destruct (dbms_next_row q res r Hs Hr Hn) as (w & res' & Hg & He & Hrows & Hpos).
    assert (length r = n) as Hl by (apply Hw; by eapply list_elem_of_lookup_2).
    specialize (Hc ltac:(done)). rewrite Hg. rewrite decide_True by done.
    cbn [snd length]. rewrite (IH _ res');
      [|done|done|done|by rewrite Hrows|cbn; rewrite Hpos, Hrows; by eapply drop_next].
    rewrite Hcols, <- Hl, <- He, (map_get_string _ w); [done|done|cbn; by rewrite He, Hl].
Qed.

Lemma fetch_row_num_some q res i r :
  cu_results q = Some res -> result_rows res !! i = Some r ->
  exists res', dbms_fetch_row_num q (Z.of_nat i)
    = Ret (Some r, Cursor D (cu_query q) (Some res') (cu_row q) (cu_colcount q) (cu_nrows q))
    /\ result_rows res' = result_rows res.
Proof.
  intros Hr Hn. destruct (get_row_number _ (cu_row q) _ _ Hn) as (w & res' & Hg & He & Hrows).
  exists res'. split; [|done]. unfold dbms_fetch_row_num, fetch_entries.
  rewrite Hr, Hg, decide_False by done. rewrite (num_cols res' r), Nat2Z.id.
  - by rewrite <- He, map_get_entry.
  - rewrite Hrows. by eapply list_elem_of_lookup_2.
Qed.

Lemma number_loop_rows rest q res i :
  cu_results q = Some res -> drop i (result_rows res) = rest ->
  number_loop (length rest) (Z.of_nat i) q = Ret (map Some rest).
Proof.
  revert q res i. induction rest as [|r rest IH]; intros q res i Hr Hd; [done|].
  destruct (fetch_row_num_some q res i r Hr (drop_head _ _ _ Hd)) as (res' & Hf & Hrows).
  cbn [length number_loop]. rewrite Hf. replace (Z.of_nat i + 1) with (Z.of_nat (S i)) by lia.
  rewrite (IH _ res'); [done|done|]. rewrite Hrows. by eapply drop_next.
Qed.

(** What a successful SELECT leaves. *)
Lemma execute_rows_select q0 q note res :
  execute_rows (new_cursor q0) = Some (0, q, note) -> cu_results q = Some res ->
  state (cu_query q) = DAV_REPOS_STATE_EXECUTED /\ cu_row q = None
  /\ cu_colcount q = apr_dbd_num_cols res /\ next_row res None = 0%nat.
Proof.
  unfold execute_rows. cbn [new_cursor cu_query]. unfold dbms_execute.
  destruct (add_lengths _ _) as [len|]; [|by intros [= <- <-]].
  destruct (build_escquery _ _) as [text|]; [|done].
  destruct (is_select_text text); cbn [driver_answer].
  - intros [= He <- <-]. cbn. intros Hr. rewrite Hr, He. repeat split.
    eapply (select_first text). destruct (apr_dbd_select text). cbn in *. by subst.
  - by intros [= He <- <-].
Qed.

(** C16. Once a SELECT has succeeded, the loop over [dbms_next] that reads every column and the loop
    over the row numbers end, without an error, with the rows of the result in their
    order. *)
Theorem rows_of_select q0 q note res :
  execute_rows (new_cursor q0) = Some (0, q, note) -> cu_results q = Some res ->
  let columns := map (fun i => Z.of_nat i + 1) (seq 0 (Z.to_nat (cu_colcount q))) in
  next_loop (S (length (result_rows res))) columns q = Some (result_rows res, 0)
  /\ fetch_all q = Ret (map Some (result_rows res)).
Proof.
  intros He Hr columns. destruct (execute_rows_select _ _ _ _ He Hr) as (Hs & Hw & Hc & Hp).
  assert (forall r, r ∈ result_rows res -> length r = Z.to_nat (cu_colcount q)) as Hl.
  { intros r Hin. rewrite Hc, (num_cols res r Hin). lia. }
  split.
  - eapply (next_loop_rows _ _ _ res (Z.to_nat (cu_colcount q))); [done|done|done| |done|by rewrite Hw, Hp].
    intros Hne. destruct (result_rows res) as [|r0 rows0] eqn:E; [done|].
    rewrite Hc, (num_cols res r0); [lia|]. rewrite E. by left.
  - unfold fetch_all, dbms_results_count. rewrite Hr, num_tuples, Nat2Z.id.
    by apply (number_loop_rows _ _ res 0).
Qed.

(** A number that is written into a query is read back from a column that holds its text. *)
Lemma get_int_of_text q column n :
  - 2 ^ 63 <= n < 2 ^ 63 -> column_of q column = Some (Some (pretty n)) ->
  dbms_get_int q column = n.
Proof. intros Hn Hc. unfold dbms_get_int. rewrite Hc. by apply atoll_pretty. Qed.

(** The column after the last is not refused with 0 but read, as NULL. *)
Lemma get_int_past_last q w :
  cu_row q = Some w -> cu_colcount q = Z.of_nat (length (row_entries w)) ->
  dbms_get_int q (cu_colcount q + 1) = -1 /\ dbms_get_int q (cu_colcount q + 2) = 0.
Proof.
  intros Hw Hc. unfold dbms_get_int, column_of. rewrite Hw, Hc.
  rewrite !bool_decide_eq_false_2 by lia. rewrite !bool_decide_eq_true_2 by lia.
  rewrite Z.add_simpl_r, get_entry by lia. rewrite Nat2Z.id, lookup_ge_None_2 by lia. done.
Qed.

(** After a SELECT that failed the number of results is not asked for without harm. *)
Lemma results_count_after_failure q0 q e note :
  (forall text, (apr_dbd_select text).1 <> 0 -> (apr_dbd_select text).2 = None) ->
  execute_rows (new_cursor q0) = Some (e, q, note) -> e <> 0 -> fetch_all q = Crash.
Proof.
  intros Hf. unfold execute_rows. cbn [new_cursor cu_query]. unfold dbms_execute.
  destruct (add_lengths _ _) as [len|]; [|by intros [= <- <-]].
  destruct (build_escquery _ _) as [text|]; [|done].
  destruct (is_select_text text); cbn [driver_answer]; intros [= <- <- <-] He;
    unfold fetch_all, dbms_results_count; cbn; [|done].
  by rewrite Hf.
Qed.
End rows.

(** ** A driver whose SELECTs all give one table of two columns *)

Definition sample_table : list (list (option string)) :=
  [[Some "1"; None]; [Some "2"; Some "b"]]%string.

Definition table_get_row (res : unit) (w : option (nat * list (option string))) (rownum : Z)
  : Z * option (nat * list (option string)) * unit :=
  let n := if decide (rownum = -1) then match w with Some (i, _) => S i | None => 0%nat end
           else Z.to_nat (rownum - 1) in
  match sample_table !! n with
  | Some r => (0, Some (n, r), res)
  | None => (-1, None, res)
  end.

Definition table_driver : DbdRows := {|
  apr_dbd_results := unit;
  apr_dbd_row := nat * list (option string);
  apr_dbd_select _ := (0, Some tt);
  apr_dbd_query _ := (0, 1);
  apr_dbd_error _ := EmptyString;
  apr_dbd_get_row := table_get_row;
  apr_dbd_get_entry w n := if bool_decide (n < 0) then None else mjoin (w.2 !! Z.to_nat n);
  apr_dbd_num_cols _ := 2;
  apr_dbd_num_tuples _ := 2
|}.

#[export] Instance table_driver_laws : DbdRowsLaws table_driver.
Proof.
  refine {|
    result_rows := fun (_ : apr_dbd_results (DbdRows := table_driver)) => sample_table;
    next_row := fun _ (w : option (apr_dbd_row (DbdRows := table_driver))) =>
      match w with Some (i, _) => S i | None => 0%nat end;
    row_entries := fun (w : apr_dbd_row (DbdRows := table_driver)) => w.2
  |}.
  - done.
  - done.
  - intros res w r H. cbn. unfold table_get_row. rewrite decide_True by done.
    by destruct w as [[i e]|]; (rewrite H || (injection H as <-; cbn)); eexists _, _.
  - intros res w H. cbn. unfold table_get_row. rewrite decide_True by done.
    destruct w as [[i e]|]; by rewrite H.
  - intros res w n r H. cbn. unfold table_get_row. rewrite decide_False by lia.
    rewrite Z.add_simpl_r, Nat2Z.id. change (sample_table !! n = Some r) in H. rewrite H. by eexists _, _.
  - intros w n Hn. cbn. by rewrite bool_decide_eq_false_2 by lia.
  - intros res r. cbn. unfold sample_table. rewrite !elem_of_cons.
    intros [->|[->|H]]; [done|done|]. by apply elem_of_nil in H.
  - done.
Defined.

Lemma rows_of_select_witness :
  let q0 := dbms_prepare "SELECT a, b FROM t"%string in
  exists q, execute_rows (D := table_driver) (new_cursor (D := table_driver) q0) = Some (0, q, false)
    /\ next_loop 3 [1; 2] q = Some (sample_table, 0)
    /\ fetch_all q = Ret (map Some sample_table).
Proof.
  intros q0. destruct (execute_rows (D := table_driver) (new_cursor (D := table_driver) q0))
    as [[[e q] note]|] eqn:E; [|done].
  vm_compute in E. injection E as <- <- <-.
  eexists. split; [reflexivity|].
  exact (rows_of_select (D := table_driver) q0 _ false tt eq_refl eq_refl).
Defined.
