(* ===== verification/BodyFiles.v ===== *)
(** * The files of bodies ([util.c], [bridge.c], the stream of a PUT in [repos.c])

    A body is received in a file named by the UUID of its resource in one directory, and
    moved to a file named by the SHA-1 sum of its contents in another.  The file system is
    a class whose laws are what [apr] documents, the sum of no bytes among them, since the code
    has it as a constant.  The files of the store hold what their
    names say, as long as each close of a stream runs by itself; two requests for one
    resource share one file and may break it. *)
From S2P Require Import Prelude Util Mime DbmsDeltav.
From stdpp Require Import gmap.
Local Open Scope Z_scope.

(** ** The file system *)

(** Each function gives whether it succeeded and the files afterwards;
    [file_contents] is what opening and reading all of a file gives. *)
Class FileSystem := {
  files : Type;
  file_contents : files -> string -> option string;
  apr_file_truncate : string -> files -> bool * files;
  apr_file_open_create : string -> files -> bool * files;
  apr_file_write : string -> string -> files -> bool * files;
  apr_file_copy : string -> string -> files -> bool * files;
  apr_file_rename : string -> string -> files -> bool * files;
  apr_file_remove : string -> files -> bool * files;
  apr_dir_make_recursive : string -> files -> bool * files;
  apr_sha1 : string -> list Z
}.

Class FileSystemLaws (F : FileSystem) : Prop := {
  truncate_others p s q : q <> p ->
    file_contents (apr_file_truncate p s).2 q = file_contents s q;
  create_others p s q : q <> p ->
    file_contents (apr_file_open_create p s).2 q = file_contents s q;
  create_itself p s c : file_contents (apr_file_open_create p s).2 p = Some c ->
    file_contents s p = Some c \/ (file_contents s p = None /\ c = EmptyString);
  write_others p c s q : q <> p ->
    file_contents (apr_file_write p c s).2 q = file_contents s q;
  copy_others a b s q : q <> b -> file_contents (apr_file_copy a b s).2 q = file_contents s q;
  copy_done a b s : a <> b -> (apr_file_copy a b s).1 = true ->
    file_contents (apr_file_copy a b s).2 b = file_contents s a;
  rename_done a b s : a <> b -> (apr_file_rename a b s).1 = true ->
    file_contents (apr_file_rename a b s).2 b = file_contents s a;
  rename_refused a b s : (apr_file_rename a b s).1 = false ->
    file_contents (apr_file_rename a b s).2 = file_contents s;
  rename_others a b s q : q <> a -> q <> b ->
    file_contents (apr_file_rename a b s).2 q = file_contents s q;
  remove_others p s q : q <> p ->
    file_contents (apr_file_remove p s).2 q = file_contents s q;
  remove_itself p s c : file_contents (apr_file_remove p s).2 p = Some c ->
    file_contents s p = Some c;
  make_contents d s : file_contents (apr_dir_make_recursive d s).2 = file_contents s;
  sha1_length c : length (apr_sha1 c) = 20%nat;
  sha1_bytes c : Forall (fun b => 0 <= b < 256) (apr_sha1 c);
  sha1_empty : hex_string (apr_sha1 EmptyString) = sha1_of_empty
}.

Section body_files.
Context {F : FileSystem}.
(** The directives for the two directories; the function of httpd for slashes. *)
Variable tmp_dir file_dir : string.
Variable ap_no2slash : string -> string.

(** ** Operations *)

(** [generate_path] with the directories it makes; a path that is not set stays
    undefined in the callers. *)
Definition make_path (hash : string) (s : files)
  : outcome (option dav_error * option string * files) :=
  match hash_dirs 4 hash with
  | None => Crash
  | Some (dirs, file) =>
      let dirpath := ap_no2slash (file_dir +:+ dirs) in
      let '(made, s) := apr_dir_make_recursive dirpath s in
      if made then Ret (None, Some (dirpath +:+ "/" +:+ file), s)
      else Ret (Some (dav_new_error HTTP_INTERNAL_SERVER_ERROR), None, s)
  end.

Definition unlink_sha1_file (sha1str : string) (s : files) : outcome files :=
  match make_path sha1str s with
  | Ret (_, Some p, s) => Ret (apr_file_remove p s).2
  | _ => Crash
  end.

(** A file without a size has the size 0 of the record. *)
Definition get_file_length (filename : string) (s : files) : Z :=
  match file_contents s filename with
  | Some c => Z.of_nat (String.length c)
  | None => 0
  end.

(** A file that cannot be opened is read all the same. *)
Definition compute_file_sha1 (filename : string) (s : files) : outcome string :=
  match file_contents s filename with
  | Some c => Ret (hex_string (apr_sha1 c))
  | None => Crash
  end.

(** Without the library for magic numbers. *)
Definition guess_mime_type (file : string) : string := "application/octet-stream".

Definition tmp_path (uuid : string) : string := tmp_dir +:+ "/" +:+ uuid.

Definition sabridge_get_new_file (uuid : string) (s : files) : string * files :=
  (tmp_path uuid, (apr_file_truncate (tmp_path uuid) s).2).

(** The path, with a copy of the body in its file. *)
Definition sabridge_get_resource_file (uuid : string) (sha1str : option string) (s : files)
  : outcome (string * files) :=
  match sha1str with
  | None => Crash
  | Some h =>
      match make_path h s with
      | Ret (_, Some p, s) => Ret (tmp_path uuid, (apr_file_copy p (tmp_path uuid) s).2)
      | _ => Crash
      end
  end.

(** A move that is refused is written to the log. *)
Definition sabridge_put_resource_file (sha1str file : string) (s : files) : outcome files :=
  match make_path sha1str s with
  | Ret (_, Some p, s) => Ret (apr_file_rename file p s).2
  | _ => Crash
  end.

(** What [dav_repos_close_stream] does with the files of a PUT that is committed: the sum, the
    length, the move, and the removal of the file received. *)
Definition close_stream_files (uuid : string) (s : files) : outcome (string * Z * files) :=
  let path := tmp_path uuid in
  match compute_file_sha1 path s with
  | Crash => Crash
  | Ret sha1str =>
      let getcontentlength := get_file_length path s in
      match sabridge_put_resource_file sha1str path s with
      | Crash => Crash
      | Ret s => Ret (sha1str, getcontentlength, (apr_file_remove path s).2)
      end
  end.

(** The file of [sabridge_create_empty_body], whose name is fixed: it is made unless it is
    there, and not written. *)
Definition empty_body_file (s : files) : outcome (option dav_error * files) :=
  match make_path sha1_of_empty s with
  | Ret (_, Some p, s) =>
      let '(opened, s) := apr_file_open_create p s in
      Ret (if opened then None else Some (dav_new_error HTTP_INTERNAL_SERVER_ERROR), s)
  | _ => Crash
  end.

(** The requests on the files, each by itself.  A GET, a DELETE and a move of a body only ask
    for a path before they read or remove; the file of a user is removed after it was read. *)
Inductive file_step : files -> files -> Prop :=
| step_new uuid s : file_step s (sabridge_get_new_file uuid s).2
| step_get uuid h s p s' :
    sabridge_get_resource_file uuid (Some h) s = Ret (p, s') -> file_step s s'
| step_write uuid c s : file_step s (apr_file_write (tmp_path uuid) c s).2
| step_close uuid s sha1 len s' :
    close_stream_files uuid s = Ret (sha1, len, s') -> file_step s s'
| step_empty s e s' : empty_body_file s = Ret (e, s') -> file_step s s'
| step_path h s e p s' : make_path h s = Ret (e, Some p, s') -> file_step s s'
| step_discard uuid s : file_step s (apr_file_remove (tmp_path uuid) s).2
| step_remove h s s' : unlink_sha1_file h s = Ret s' -> file_step s s'.

(** ** The invariant of the store *)

Definition is_hex (c : ascii) : bool :=
  let n := N_of_ascii c in (N.leb 48 n && N.leb n 57) || (N.leb 97 n && N.leb n 102).

(** The text of a sum: forty digits. *)
Definition is_sum (h : string) : Prop := String.length h = 40%nat /\ string_forall is_hex h = true.

Definition body_path (h : string) : option string := generate_path file_dir ap_no2slash h.

(** What the file of a sum holds has this sum. *)
Definition store_named (s : files) : Prop :=
  forall h p c, is_sum h -> body_path h = Some p -> file_contents s p = Some c ->
    hex_string (apr_sha1 c) = h.

(** ** Lemmas *)

Lemma hex_digit_hex d : 0 <= d < 16 -> is_hex (hex_digit d) = true.
Proof.
  intros H. assert (d ∈ seqZ 0 16) as Hin by (apply elem_of_seqZ; lia).
  assert (Forall (fun d => is_hex (hex_digit d) = true) (seqZ 0 16)) as Hf by (repeat constructor).
  rewrite list.Forall_forall in Hf. by apply Hf.
Qed.

Lemma hex_string_digits bytes :
  Forall (fun b => 0 <= b < 256) bytes ->
  String.length (hex_string bytes) = (2 * length bytes)%nat /\ string_forall is_hex (hex_string bytes) = true.
Proof.
  induction 1 as [|b bytes Hb _ [IH1 IH2]]; [done|]. cbn [hex_string String.length string_forall length].
  rewrite IH1, IH2, !hex_digit_hex; [split; [lia|done]| |].
  - change 15 with (Z.ones 4). rewrite Z.land_ones by lia. apply Z.mod_pos_bound. lia.
  - rewrite Z.shiftr_div_pow2 by lia. split; [apply Z.div_pos; lia|apply Z.div_lt_upper_bound; lia].
Qed.

Context {L : FileSystemLaws F}.

Lemma sum_is_sum c : is_sum (hex_string (apr_sha1 c)).
Proof.
  destruct (hex_string_digits (apr_sha1 c) (sha1_bytes c)) as [H1 H2].
  split; [by rewrite H1, sha1_length|done].
Qed.

Lemma hash_dirs_sum h : is_sum h ->
  exists a b c d e f g i rest,
    h = String a (String b (String c (String d (String e (String f (String g (String i rest)))))))
    /\ hash_dirs 4 h
       = Some (String "/" (String a (String b (String "/" (String c (String d (String "/"
                (String e (String f (String "/" (String g (String i EmptyString))))))))))), rest).
Proof.
  intros [Hl _]. do 8 (destruct h as [|? h]; [done|]). by repeat eexists.
Qed.

Lemma make_path_body h s e p s' :
  make_path h s = Ret (e, Some p, s') ->
  body_path h = Some p /\ file_contents s' = file_contents s.
Proof.
  unfold make_path, body_path, generate_path. destruct (hash_dirs 4 h) as [[dirs file]|]; [|done].
  pose proof (make_contents (ap_no2slash (file_dir +:+ dirs)) s) as Hm.
  destruct (apr_dir_make_recursive _ s) as [[] s1]; [|done]. by intros [= <- <- <-].
Qed.

Lemma make_path_ok h s :
  (forall d s, (apr_dir_make_recursive d s).1 = true) -> is_sum h ->
  exists p s', make_path h s = Ret (None, Some p, s') /\ body_path h = Some p
    /\ file_contents s' = file_contents s.
Proof.
  intros Hmk Hh. destruct (hash_dirs_sum h Hh) as (?&?&?&?&?&?&?&?&rest&_&Hd).
  unfold make_path, body_path, generate_path. rewrite Hd.
  set (dir := ap_no2slash _). pose proof (Hmk dir s) as Hm. pose proof (make_contents dir s) as Hc.
  destruct (apr_dir_make_recursive dir s) as [ok s']. cbn in Hm, Hc. subst ok. by eexists _, _.
Qed.

(** The function for slashes changes no part of the path but the first, and the files
    received are not in the store. *)
Hypothesis slashes_before : exists d, forall h dirs file,
  is_sum h -> hash_dirs 4 h = Some (dirs, file) -> ap_no2slash (file_dir +:+ dirs) = d +:+ dirs.
Hypothesis tmp_apart : forall uuid h p,
  is_sum h -> body_path h = Some p -> tmp_path uuid <> p.

Lemma body_path_inj h1 h2 p : is_sum h1 -> is_sum h2 ->
  body_path h1 = Some p -> body_path h2 = Some p -> h1 = h2.
Proof.
  intros Hs1 Hs2. unfold body_path, generate_path. destruct slashes_before as (d & Hd).
  pose proof (Hd h1) as Hd1. pose proof (Hd h2) as Hd2.
  destruct (hash_dirs_sum h1 Hs1) as (a1 & b1 & c1 & d1 & e1 & f1 & g1 & i1 & r1 & E1 & P1).
  destruct (hash_dirs_sum h2 Hs2) as (a2 & b2 & c2 & d2 & e2 & f2 & g2 & i2 & r2 & E2 & P2).
  rewrite P1, P2. rewrite (Hd1 _ _ Hs1 P1), (Hd2 _ _ Hs2 P2).
  intros [= <-] [= H]. rewrite !string_app_assoc in H. apply string_app_inj_l in H.
  cbn in H. injection H as -> -> -> -> -> -> -> -> ->. by rewrite E1, E2.
Qed.

(** Whatever is received, and whatever is removed, the store keeps its names. *)
Lemma store_named_change s s' :
  (forall q c, file_contents s' q = Some c ->
     (exists uuid, q = tmp_path uuid) \/ file_contents s q = Some c) ->
  store_named s -> store_named s'.
Proof.
  intros Hc Hs h p c Hh Hp Hf. destruct (Hc p c Hf) as [[uuid ->]|Hf']; [|by eapply Hs].
  by destruct (tmp_apart uuid h _ Hh Hp).
Qed.

Lemma tmp_others s s' uuid :
  (forall q, q <> tmp_path uuid -> file_contents s' q = file_contents s q) ->
  store_named s -> store_named s'.
Proof.
  intros Ho. apply store_named_change. intros q c Hq.
  destruct (decide (q = tmp_path uuid)); [by left; eexists|right; by rewrite <- Ho].
Qed.

Lemma remove_keeps p s :
  store_named s -> store_named (apr_file_remove p s).2.
Proof.
  apply store_named_change. intros q c Hq. right.
  destruct (decide (q = p)) as [->|Hne]; [by apply remove_itself|]. by rewrite remove_others in Hq.
Qed.

Lemma same_contents s s' : file_contents s' = file_contents s ->
  store_named s -> store_named s'.
Proof. intros E H h p c. rewrite E. apply H. Qed.

(** The move of a file to the place its sum names. *)
Lemma put_keeps uuid c s s' :
  file_contents s (tmp_path uuid) = Some c ->
  sabridge_put_resource_file (hex_string (apr_sha1 c)) (tmp_path uuid) s = Ret s' ->
  store_named s -> store_named s'.
Proof.
  intros Hc. unfold sabridge_put_resource_file.
  destruct (make_path _ _) as [|[[e [p|]] s1]] eqn:Hm; [done| |done].
  apply make_path_body in Hm as [Hp Hs1]. intros [= <-] Hs.
  assert (tmp_path uuid <> p) as Hne by (by eapply tmp_apart; [apply sum_is_sum|]).
  destruct (apr_file_rename (tmp_path uuid) p s1).1 eqn:Er.
  - pose proof (rename_done _ _ _ Hne Er) as Hd. intros h q c' Hh Hq Hf.
    destruct (decide (q = p)) as [->|Hqp].
    + rewrite Hd, Hs1, Hc in Hf. injection Hf as <-.
      exact (body_path_inj _ _ _ (sum_is_sum c) Hh Hp Hq).
    + rewrite rename_others, Hs1 in Hf; [by eapply Hs| |done].
      intros Heq. exact (tmp_apart uuid h q Hh Hq (eq_sym Heq)).
  - apply rename_refused in Er. apply (same_contents s); [by rewrite Er|done].
Qed.

Lemma close_keeps uuid s x s' :
  close_stream_files uuid s = Ret (x, s') ->
  store_named s -> store_named s'.
Proof.
  unfold close_stream_files, compute_file_sha1.
  destruct (file_contents s (tmp_path uuid)) as [c|] eqn:Hc; [|done].
  destruct (sabridge_put_resource_file _ _ s) as [|s1] eqn:Hp; [done|].
  intros [= _ <-] Hs. apply remove_keeps. by eapply put_keeps.
Qed.

Lemma empty_is_sum : is_sum sha1_of_empty.
Proof. rewrite <- sha1_empty. apply sum_is_sum. Qed.

(** A file that was not there is empty, so it has the sum of its name. *)
Lemma empty_keeps s e s' :
  empty_body_file s = Ret (e, s') -> store_named s -> store_named s'.
Proof.
  unfold empty_body_file. destruct (make_path _ _) as [|[[e1 [p|]] s1]] eqn:Hm; [done| |done].
  apply make_path_body in Hm as [Hp Hs1]. intros H Hs h q c Hh Hq Hf.
  assert (s' = (apr_file_open_create p s1).2) as ->.
  { destruct (apr_file_open_create p s1). by injection H as <- <-. }
  destruct (decide (q = p)) as [->|Hqp].
  - apply create_itself in Hf as [Hf|[_ ->]]; [by eapply same_contents|].
    rewrite sha1_empty. exact (body_path_inj _ _ _ empty_is_sum Hh Hp Hq).
  - rewrite create_others in Hf by done. by eapply same_contents.
Qed.

(** C17. After any number of requests on the files, each by itself, every file of the store
    holds a body with the sum in its name. *)
Theorem body_files_named s s' :
  rtc (file_step) s s' ->
  store_named s -> store_named s'.
Proof.
  induction 1 as [|s s1 s2 Hstep _ IH]; [done|]. intros Hs. apply IH. clear IH.
  destruct Hstep as [uuid s|uuid h s p s' Hg|uuid c s|uuid s sha1 len s' Hc|s e s' He
    |h s e p s' Hm|uuid s|h s s' Hu].
  - eapply tmp_others; [|done]. intros q Hq. by apply truncate_others.
  - unfold sabridge_get_resource_file in Hg.
    destruct (make_path _ _) as [|[[e [b|]] s3]] eqn:Hm; [done| |done].
    injection Hg as <- <-. apply make_path_body in Hm as [_ E].
    eapply (tmp_others s3); [|by eapply same_contents]. intros q Hq. by apply copy_others.
  - eapply tmp_others; [|done]. intros q Hq. by apply write_others.
  - by eapply close_keeps.
  - by eapply empty_keeps.
  - apply make_path_body in Hm as [_ E]. by eapply same_contents.
  - by apply remove_keeps.
  - unfold unlink_sha1_file in Hu.
    destruct (make_path _ _) as [|[[e [b|]] s3]] eqn:Hm; [done| |done].
    injection Hu as <-. apply make_path_body in Hm as [_ E].
    apply remove_keeps. by eapply same_contents.
Qed.

(** When the file system refuses nothing, the body of a PUT is found under its sum, and the next
    request for its resource gets it back. *)
Theorem body_fetched uuid uuid' s c :
  (forall d s, (apr_dir_make_recursive d s).1 = true) ->
  (forall a b s, is_Some (file_contents s a) -> (apr_file_rename a b s).1 = true) ->
  (forall a b s, is_Some (file_contents s a) -> (apr_file_copy a b s).1 = true) ->
  file_contents s (tmp_path uuid) = Some c ->
  exists s1, close_stream_files uuid s
             = Ret (hex_string (apr_sha1 c), Z.of_nat (String.length c), s1)
    /\ exists s2, sabridge_get_resource_file uuid' (Some (hex_string (apr_sha1 c))) s1
                  = Ret (tmp_path uuid', s2)
       /\ file_contents s2 (tmp_path uuid') = Some c.
Proof.
  intros Hmk Hmv Hcp Hc. pose proof (sum_is_sum c) as Hsum.
  destruct (make_path_ok (hex_string (apr_sha1 c)) s Hmk Hsum) as (p & s0 & Hm & Hp & H0).
  pose proof (tmp_apart uuid _ _ Hsum Hp) as Hne. pose proof (tmp_apart uuid' _ _ Hsum Hp) as Hne'.
  eexists. split.
  - unfold close_stream_files, compute_file_sha1, get_file_length, sabridge_put_resource_file.
    by rewrite Hc, Hm.
  - set (s1 := (apr_file_remove _ _).2). assert (file_contents s1 p = Some c) as H1.
    { unfold s1. rewrite remove_others by done. rewrite rename_done; [by rewrite H0|done|].
      apply Hmv. rewrite H0, Hc. by eexists. }
    destruct (make_path_ok (hex_string (apr_sha1 c)) s1 Hmk Hsum) as (p' & s2 & Hm' & Hp' & H2).
    rewrite Hp in Hp'. injection Hp' as <-. eexists.
    unfold sabridge_get_resource_file. rewrite Hm'. split; [reflexivity|].
    rewrite copy_done; [by rewrite H2|done|]. apply Hcp. rewrite H2, H1. by eexists.
Qed.
End body_files.

(** ** A file system, and two requests for one resource *)

(** The sum of no bytes is the one of SHA-1; any other has as its bytes the length. *)
Definition map_sha1 (c : string) : list Z :=
  match c with
  | EmptyString => [218; 57; 163; 238; 94; 107; 75; 13; 50; 85; 191; 239; 149; 96; 24; 144; 175; 216; 7; 9]
  | _ => replicate 20 (Z.of_nat (String.length c) mod 256)
  end.

Definition map_files : FileSystem := {|
  files := gmap string string;
  file_contents s p := s !! p;
  apr_file_truncate p s := (true, <[p := EmptyString]> s);
  apr_file_open_create p s := (true, <[p := default EmptyString (s !! p)]> s);
  apr_file_write p c s := (true, <[p := c]> s);
  apr_file_copy a b s := match s !! a with Some c => (true, <[b := c]> s) | None => (false, s) end;
  apr_file_rename a b s :=
    match s !! a with
    | Some c => if decide (a = b) then (true, s) else (true, <[b := c]> (delete a s))
    | None => (false, s)
    end;
  apr_file_remove p s := (true, delete p s);
  apr_dir_make_recursive _ s := (true, s);
  apr_sha1 := map_sha1
|}.

#[export] Instance map_files_laws : FileSystemLaws map_files.
Proof.
  split; cbn.
  - intros p s q H. by rewrite lookup_insert_ne.
  - intros p s q H. by rewrite lookup_insert_ne.
  - intros p s c. rewrite lookup_insert_eq. destruct (s !! p); cbn; intros [= <-]; auto.
  - intros p c s q H. by rewrite lookup_insert_ne.
  - intros a b s q H. destruct (s !! a); [|done]. cbn. by rewrite lookup_insert_ne.
  - intros a b s Hne. destruct (s !! a) eqn:E; [|done]. intros _. cbn. by rewrite lookup_insert_eq.
  - intros a b s Hne. destruct (s !! a) eqn:E; [|done]. rewrite decide_False by done.
    intros _. cbn. by rewrite lookup_insert_eq.
  - intros a b s. destruct (s !! a); [|done]. by case_decide.
  - intros a b s q Ha Hb. destruct (s !! a); [|done]. case_decide; [done|]. cbn.
    by rewrite lookup_insert_ne, lookup_delete_ne.
  - intros p s q H. by rewrite lookup_delete_ne.
  - intros p s c. by rewrite lookup_delete_eq.
  - done.
  - by intros [].
  - intros [|a c]; [repeat constructor; lia|]. cbn [map_sha1]. generalize (String a c) as t. clear. intros c.
    apply list.Forall_forall. intros b Hb. assert (b = Z.of_nat (String.length c) mod 256) as ->.
    { by apply (elem_of_replicate_inv _ 20). }
    apply Z.mod_pos_bound. lia.
  - reflexivity.
Qed.

(** Two directories that are apart. *)
Definition map_store : gmap string string -> Prop :=
  store_named (F := map_files) "/files" (fun p => p).

Lemma map_slashes : exists d, forall h dirs file,
  is_sum h -> hash_dirs 4 h = Some (dirs, file) -> "/files" +:+ dirs = d +:+ dirs.
Proof. by exists "/files"%string. Qed.

Lemma map_apart uuid h p :
  is_sum h -> body_path "/files" (fun p => p) h = Some p -> tmp_path "/tmp" uuid <> p.
Proof.
  intros _. unfold body_path, generate_path. destruct (hash_dirs 4 h) as [[dirs file]|]; [|done].
  by intros [= <-].
Qed.

Definition received : gmap string string := {[ "/tmp/u1"%string := "body"%string ]}.

Lemma received_named : map_store received.
Proof.
  intros h p c Hh Hp Hf. cbn in Hf. unfold received in Hf. apply lookup_singleton_Some in Hf as [<- <-].
  by destruct (map_apart "u1" h _ Hh Hp).
Qed.

(** A PUT that is closed. *)
Definition map_close : outcome (string * Z * gmap string string) :=
  close_stream_files (F := map_files) "/tmp" "/files" (fun p => p) "u1" received.
Definition closed_files : gmap string string := match map_close with Ret (_, s) => s | Crash => ∅ end.

Lemma map_close_ends : match map_close with Ret _ => True | Crash => False end.
Proof. vm_compute. exact I. Qed.

Lemma body_files_named_witness : map_store closed_files.
Proof.
  unfold closed_files. destruct map_close as [|[[sum len] s']] eqn:E.
  - exfalso. pose proof map_close_ends as H. rewrite E in H. exact H.
  - apply (body_files_named (F := map_files) "/tmp" "/files" (fun p => p) map_slashes map_apart received).
    + eapply rtc_l; [|apply rtc_refl]. exact (step_close (F := map_files) "/tmp" "/files" (fun p => p) "u1" received sum len s' E).
    + exact received_named.
Defined.

(** Two requests for one resource: the second writes the file after the first has taken its sum
    and before it moves the file.  The store then holds a body under a sum that is not its
    own. *)
Definition map_move (sum : string) (c : string) : outcome (gmap string string) :=
  sabridge_put_resource_file (F := map_files) "/files" (fun p => p) sum (tmp_path "/tmp" "u1")
    (apr_file_write (FileSystem := map_files) (tmp_path "/tmp" "u1") c received).2.

Definition body_sum : string := hex_string (map_sha1 "body").
Definition body_file : string := default EmptyString (body_path "/files" (fun p => p) body_sum).

Lemma map_move_ends :
  match map_move body_sum "another" with
  | Ret s' => bool_decide (s' !! body_file = Some "another"%string) = true
  | Crash => False
  end.
Proof. vm_compute. reflexivity. Qed.

Lemma body_file_path : body_path "/files" (fun p => p) body_sum = Some body_file.
Proof. vm_compute. reflexivity. Qed.

Lemma other_sum : bool_decide (hex_string (map_sha1 "another") = body_sum) = false.
Proof. vm_compute. reflexivity. Qed.

Theorem shared_stream_file_race :
  compute_file_sha1 (F := map_files) (tmp_path "/tmp" "u1") received = Ret body_sum
  /\ map_store received
  /\ exists s', map_move body_sum "another" = Ret s' /\ ~ map_store s'.
Proof.
  split; [done|]. split; [exact received_named|].
  pose proof map_move_ends as Hm. destruct (map_move body_sum "another") as [|s']; [done|].
  apply bool_decide_eq_true in Hm. exists s'. split; [done|]. intros H.
  pose proof other_sum as Hd. apply bool_decide_eq_false in Hd. apply Hd.
  apply (H body_sum body_file); [|exact body_file_path|exact Hm].
  exact (sum_is_sum (F := map_files) "body").
Qed.
