(* ===== verification/Redirect.v ===== *)
(** * Redirect references ([limestone/dbms_redirect.c])

    The statements on the table [redirectrefs].  The UPDATE embeds the escaped
    target in the text of the query before [dbms_prepare] counts its question
    marks, so the text itself is modelled here, with the functions of [Dbd.v]. *)
From S2P Require Import Prelude Util Dbd Db Bind Resource.
Local Open Scope Z_scope.
Local Open Scope limestone_scope.

(** [dav_redirectref_lifetime] of the DAV module; any other value is [Other]. *)
Inductive dav_redirectref_lifetime :=
| DAV_REDIRECTREF_TEMPORARY
| DAV_REDIRECTREF_PERMANENT
| Other_lifetime.

Definition lifetime_to_s (t : dav_redirectref_lifetime) : option string :=
  match t with
  | DAV_REDIRECTREF_TEMPORARY => Some "t"
  | DAV_REDIRECTREF_PERMANENT => Some "p"
  | Other_lifetime => None
  end.

(** A NULL lifetime is stored as NULL, here the empty string: it reads back as
    temporary either way. *)
Definition insert_redirect_stmt (row : redirect_row) (d : db) : option (unit * db) :=
  if existsb (fun x => bool_decide (rd_res x = rd_res row)) (redirectrefs d) then None
  else Some (tt, set_redirectrefs (redirectrefs d ++ [row]) d).

Definition dbms_insert_redirectref (r : dav_repos_resource) (target : string)
    (t : dav_redirectref_lifetime) : M (option dav_error) :=
  q ← execute (insert_redirect_stmt
        (RedirectRow (serialno r) target (default EmptyString (lifetime_to_s t))));
  mret (err_of q).

Section update.
Variable apr_dbd_escape : string -> string.
Variable format_time : Z -> string.

(** The text of the UPDATE: [apr_pstrcat] ends at the first NULL. *)
Definition update_redirect_text (target : option string) (lifetime : option string)
  : string :=
  let query := "UPDATE redirectrefs SET " in
  let query :=
    match target with
    | Some t =>
        let query := query +:+ "reftarget = '" +:+ apr_dbd_escape t +:+ "'" in
        match lifetime with
        | Some l => query +:+ ", lifetime = '" +:+ l +:+ "'"
        | None => query
        end
    | None =>
        match lifetime with
        | Some l => query +:+ "lifetime = '" +:+ l +:+ "'"
        | None => query +:+ "lifetime = '"
        end
    end in
  query +:+ ", updated_at = ? WHERE resource_id = ?".

Definition update_redirect_query (id now : Z) (target lifetime : option string)
  : dav_repos_query :=
  let q := dbms_prepare (update_redirect_text target lifetime) in
  let q := (dbms_set_string apr_dbd_escape q 1 (Some (format_time now))).2 in
  (dbms_set_int q 2 id).2.

(** What the server makes of the text: an unterminated literal when there is
    neither a target nor a lifetime. *)
Definition update_redirect_stmt (id : Z) (target lifetime : option string) (d : db)
  : option (unit * db) :=
  match target, lifetime with
  | None, None => None
  | _, _ =>
      Some (tt, set_redirectrefs (map (fun x =>
        if bool_decide (rd_res x = id)
        then RedirectRow id (default (rd_target x) target) (default (rd_lifetime x) lifetime)
        else x) (redirectrefs d)) d)
  end.

(** [add_lengths] is [None] when a parameter was never set; [dbms_execute] then
    returns 0 without a statement. *)
Definition dbms_update_redirectref (r : dav_repos_resource) (target : option string)
    (t : dav_redirectref_lifetime) : M (option dav_error) :=
  now ← time_now_str;
  let q := update_redirect_query (serialno r) now target (lifetime_to_s t) in
  match add_lengths (strlen_int (query_string q)) (parameters q) with
  | None => mret None
  | Some _ =>
      x ← execute (update_redirect_stmt (serialno r) target (lifetime_to_s t));
      mret (err_of x)
  end.
End update.

(** Nothing is done when both properties are known. *)
Definition dbms_get_redirect_props (r : dav_repos_resource)
  : M (option dav_error * dav_repos_resource) :=
  match redirect_lifetime r, reftarget r with
  | Some _, Some _ => mret (None, r)
  | _, _ =>
      q ← select (fun d => List.find (fun x => bool_decide (rd_res x = serialno r))
                             (redirectrefs d));
      mret (match q with
            | Some (Some x) =>
                (None, set_redirect_lifetime
                         (Some (if String.eqb (rd_lifetime x) "p" then "p" else "t"))
                         (set_reftarget (Some (rd_target x)) r))
            | _ => (Some (dav_new_error HTTP_INTERNAL_SERVER_ERROR), r)
            end)
  end.

(** ** Lemmas *)

(** The question marks of the text: those of the escaped target and two more. *)
Lemma update_redirect_text_qmarks esc target lifetime :
  (forall l, lifetime = Some l -> count_char QMARK l = 0%nat) ->
  count_char QMARK (update_redirect_text esc target lifetime)
  = (from_option (fun t => count_char QMARK (esc t)) 0%nat target + 2)%nat.
Proof.
  intros Hl. unfold update_redirect_text.
  destruct target as [t|], lifetime as [l|]; autorewrite with lime;
    rewrite ?(Hl _ eq_refl); cbn -[String.append]; lia.
Qed.

Lemma lifetime_no_qmark t l : lifetime_to_s t = Some l -> count_char QMARK l = 0%nat.
Proof. by destruct t; intros [= <-]. Qed.

(** The parameters of the UPDATE: two set, and the others, if any, never. *)
Lemma update_redirect_parameters esc fmt id now target lifetime n :
  count_char QMARK (update_redirect_text esc target lifetime) = S (S n) ->
  exists a b, parameters (update_redirect_query esc fmt id now target lifetime)
              = Some a :: Some b :: replicate n None.
Proof.
  intros Hn. unfold update_redirect_query, dbms_set_int, dbms_set_string.
  rewrite (set_parameter_in_range (set_parameter _ _ _).2); rewrite set_parameter_in_range;
    cbn [dbms_prepare param_count parameters]; rewrite Hn; [|lia..].
  cbn. eauto.
Qed.

Lemma update_redirect_executes esc fmt id now target lifetime n :
  count_char QMARK (update_redirect_text esc target lifetime) = S (S n) ->
  add_lengths
    (strlen_int (query_string (update_redirect_query esc fmt id now target lifetime)))
    (parameters (update_redirect_query esc fmt id now target lifetime)) = None
  <-> n <> 0%nat.
Proof.
  intros Hn.
  destruct (update_redirect_parameters esc fmt id now target lifetime n Hn)
    as (a & b & ->).
  destruct n as [|n]; cbn; split; intros; done.
Qed.

(** ** Properties *)

(** A reference whose escaped target has no question mark is updated as asked,
    and the next read of its properties gives the target and lifetime back. *)
Theorem update_redirectref_readback esc fmt r t l (x : redirect_row) s :
  count_char QMARK (esc t) = 0%nat ->
  l = DAV_REDIRECTREF_TEMPORARY \/ l = DAV_REDIRECTREF_PERMANENT ->
  quiet s ->
  redirect_lifetime r = None ->
  List.find (fun x => bool_decide (rd_res x = serialno r)) (redirectrefs (c_db s)) = Some x ->
  let '(err, s') := dbms_update_redirectref esc fmt r (Some t) l s in
  err = None /\
  (dbms_get_redirect_props r s').1
  = (None, set_redirect_lifetime (lifetime_to_s l) (set_reftarget (Some t) r)).
Proof.
  intros Hq Hl Hs Hnone Hfind. destruct s as [d f n fl e]. unfold quiet in Hs.
  cbn in Hs, Hfind. subst f.
  unfold dbms_update_redirectref. rewrite bind_run. cbn [time_now_str fst snd].
  assert (Hc : count_char QMARK (update_redirect_text esc (Some t) (lifetime_to_s l)) = 2%nat).
  { rewrite update_redirect_text_qmarks by apply lifetime_no_qmark. cbn. lia. }
  pose proof (update_redirect_executes esc fmt (serialno r) (time_apr_to_str n) (Some t) (lifetime_to_s l) 0 Hc)
    as Hex.
  destruct (add_lengths _ _); [|exfalso; by apply Hex].
  rewrite bind_run, execute_quiet. cbn [update_redirect_stmt fst snd].
  split; [done|]. unfold dbms_get_redirect_props. rewrite Hnone, bind_run, select_quiet.
  cbn [fst snd redirectrefs set_redirectrefs].
  replace (List.find _ (map _ (redirectrefs d)))
    with (Some (RedirectRow (serialno r) t (default (rd_lifetime x) (lifetime_to_s l)))).
  { destruct Hl as [-> | ->]; done. }
  revert Hfind. induction (redirectrefs d) as [|y rows IH]; [done|]. cbn.
  destruct (bool_decide (rd_res y = serialno r)) eqn:Ey; cbn.
  - intros [= ->]. by rewrite bool_decide_true.
  - rewrite Ey. done.
Qed.

(** A reference whose escaped target has a question mark is not updated: success
    is returned, no statement is executed, and every table is as it was. *)
Theorem update_redirectref_question_mark esc fmt r t l s :
  (0 < count_char QMARK (esc t))%nat ->
  dbms_update_redirectref esc fmt r (Some t) l s = (None, s).
Proof.
  intros Hq. unfold dbms_update_redirectref. rewrite bind_run. cbn [time_now_str fst snd].
  destruct (count_char QMARK (esc t)) as [|k] eqn:Hk; [lia|].
  pose proof (update_redirect_executes esc fmt (serialno r) (time_apr_to_str (c_now s)) (Some t)
    (lifetime_to_s l) (S k)) as Hex.
  rewrite update_redirect_text_qmarks in Hex by apply lifetime_no_qmark.
  cbn [from_option] in Hex. rewrite Hk in Hex. specialize (Hex ltac:(lia)).
  by rewrite (proj2 Hex ltac:(lia)).
Qed.

(** ** Witnesses *)

Definition sample_redirect_db : db :=
  set_redirectrefs [RedirectRow 40 "/old" "t"] empty_db.

Definition sample_redirect_conn : conn := Conn sample_redirect_db [] 7 [] false.

Lemma update_redirectref_readback_witness :
  let r := set_serialno 40 zero_dbr in
  exists err s', dbms_update_redirectref id (fun _ => "2008-01-01"%string) r
      (Some "/new"%string) DAV_REDIRECTREF_PERMANENT sample_redirect_conn = (err, s')
    /\ err = None
    /\ (dbms_get_redirect_props r s').1
       = (None, set_redirect_lifetime (Some "p"%string) (set_reftarget (Some "/new"%string) r)).
Proof.
  pose proof (update_redirectref_readback id (fun _ => "2008-01-01"%string)
    (set_serialno 40 zero_dbr) "/new" DAV_REDIRECTREF_PERMANENT (RedirectRow 40 "/old" "t")
    sample_redirect_conn ltac:(reflexivity) ltac:(right; reflexivity) ltac:(reflexivity)
    ltac:(reflexivity) ltac:(reflexivity)) as H.
  cbv zeta.
  destruct (dbms_update_redirectref _ _ _ _ _ _) as [err s'].
  exists err, s'. split; [reflexivity|exact H].
Defined.

Lemma update_redirectref_question_mark_witness :
  dbms_update_redirectref id (fun _ => "2008-01-01"%string) (set_serialno 40 zero_dbr)
    (Some "/find?q=1"%string) DAV_REDIRECTREF_PERMANENT sample_redirect_conn
  = (None, sample_redirect_conn).
Proof.
  apply (update_redirectref_question_mark id (fun _ => "2008-01-01"%string)
    (set_serialno 40 zero_dbr) "/find?q=1"). vm_compute. lia.
Defined.
