(* ===== verification/Transaction.v ===== *)
(** * Transactions ([limestone/transaction.c], [dbms_transaction.c])

    The transaction functions of the database driver are a class: what
    [apr_dbd_transaction_end] makes of the tables is an operation of the driver,
    and the documented meaning of its three modes are the laws.  The file then
    models the checks made before a commit. *)
From S2P Require Import Prelude Util Db Bind Resource.
Local Open Scope Z_scope.
Local Open Scope limestone_scope.

(** ** The driver *)

Inductive transaction_mode :=
| DAV_TRANSACTION_COMMIT
| DAV_TRANSACTION_ROLLBACK
| DAV_TRANSACTION_IGNORE_ERRORS.

#[export] Instance transaction_mode_eq_dec : EqDecision transaction_mode.
Proof. solve_decision. Defined.

(** [apr_dbd_transaction_start] is the return code for a connection;
    [apr_dbd_transaction_end mode errnum before after] the return code and the tables
    afterwards, [errnum] telling that a statement of the transaction failed.  The server
    may refuse a COMMIT for the tables it is to make valid, by a deferred constraint, and then
    rolls back. *)
Class DbdDriver := {
  apr_dbd_transaction_start : conn -> Z;
  apr_dbd_transaction_end : transaction_mode -> bool -> db -> db -> Z * db
}.

Class DbdDriverLaws (D : DbdDriver) : Prop := {
  end_commit before after :
    let '(ierrno, d) := apr_dbd_transaction_end DAV_TRANSACTION_COMMIT false before after in
    d = if decide (ierrno = 0) then after else before;
  end_error before after :
    (apr_dbd_transaction_end DAV_TRANSACTION_COMMIT true before after).2 = before;
  end_rollback e before after :
    (apr_dbd_transaction_end DAV_TRANSACTION_ROLLBACK e before after).2 = before;
  end_ignore e before after :
    (apr_dbd_transaction_end DAV_TRANSACTION_IGNORE_ERRORS e before after).2 = after
}.

(** A driver that starts every transaction and refuses no COMMIT of its own. *)
Class DriverAccepts (D : DbdDriver) : Prop := {
  start_accepted s : apr_dbd_transaction_start s = 0;
  commit_accepted before after :
    (apr_dbd_transaction_end DAV_TRANSACTION_COMMIT false before after).1 = 0
}.

(** A driver that satisfies the laws, for the witnesses. *)
Definition sample_driver : DbdDriver := {|
  apr_dbd_transaction_start _ := 0;
  apr_dbd_transaction_end mode errnum before after :=
    match mode, errnum with
    | DAV_TRANSACTION_COMMIT, true => (1, before)
    | DAV_TRANSACTION_ROLLBACK, _ => (0, before)
    | _, _ => (0, after)
    end
|}.

#[export] Instance sample_driver_laws : DbdDriverLaws sample_driver.
Proof. split; intros; try done; by destruct e. Qed.

#[export] Instance sample_driver_accepts : DriverAccepts sample_driver.
Proof. by split. Qed.

(** ** Running a transaction *)

Definition set_db (d : db) (s : conn) : conn :=
  Conn d (c_faults s) (c_now s) (c_files s) (c_errnum s).
Definition set_errnum (e : bool) (s : conn) : conn :=
  Conn (c_db s) (c_faults s) (c_now s) (c_files s) e.

(** SET CONSTRAINTS ALL DEFERRED; its text is in [Session]. *)
Definition defer_all_constraints : M (option dav_error) :=
  q ← select (fun _ => tt);
  mret (err_of q).

Section driver.
Context {D : DbdDriver}.

(** In a transaction that was started no statement has failed yet.  The constraints are deferred in
    any case, and a refusal of that is dropped. *)
Definition apr_start : M Z := fun s =>
  let ierrno := apr_dbd_transaction_start s in
  (ierrno, if decide (ierrno = 0) then set_errnum false s else s).

(** The return code, and the tables of the start, to which a rollback goes back. *)
Definition dbms_transaction_start : M (Z * db) :=
  before ← get_db;
  ierrno ← apr_start;
  _ ← defer_all_constraints;
  mret (ierrno, before).

Definition dbms_transaction_end (mode : transaction_mode) (before : db) : M Z := fun s =>
  let '(ierrno, d) := apr_dbd_transaction_end mode (c_errnum s) before (c_db s) in
  (ierrno, set_db d s).

(** [dbms_transaction_mode_set] maps the modes of the DAV module to the driver's;
    an unknown mode commits. *)
Definition dbms_transaction_mode_set (mode : option transaction_mode) : transaction_mode :=
  match mode with
  | Some DAV_TRANSACTION_ROLLBACK => DAV_TRANSACTION_ROLLBACK
  | Some DAV_TRANSACTION_IGNORE_ERRORS => DAV_TRANSACTION_IGNORE_ERRORS
  | _ => DAV_TRANSACTION_COMMIT
  end.

(** ** The checks before a commit *)

Definition over_quota (q : quota_row) : Prop := q_total q < q_used q /\ 0 < q_total q.

#[export] Instance over_quota_dec q : Decision (over_quota q).
Proof. unfold over_quota. apply _. Defined.

Definition dbms_quota_pre_commit_checks : M (option dav_error) :=
  q ← select (fun d => List.filter (fun q => bool_decide (over_quota q)) (quota d));
  mret (match q with
        | None => Some (dav_new_error HTTP_INTERNAL_SERVER_ERROR)
        | Some [] => None
        | Some _ => Some (dav_new_error_tag HTTP_INSUFFICIENT_STORAGE "quota-not-exceeded")
        end).

(** [dav_transaction]: [t_mode] is the mode the hooks keep, [driver_mode] the one
    the driver was given, [fserrno] an error of the file system. *)
Record dav_transaction := Transaction {
  t_mode : transaction_mode;
  driver_mode : transaction_mode;
  fserrno : bool;
  t_before : db
}.

(** Without a transaction there is an error; the connection of the request is there. *)
Definition dav_repos_transaction_start : M (option dav_error * option dav_transaction) :=
  x ← dbms_transaction_start;
  mret (if decide (x.1 = 0)
        then (None, Some (Transaction DAV_TRANSACTION_COMMIT DAV_TRANSACTION_COMMIT false x.2))
        else (Some (dav_new_error HTTP_INTERNAL_SERVER_ERROR), None)).

Definition dav_repos_transaction_mode_set (t : dav_transaction) (mode : transaction_mode)
  : dav_transaction :=
  Transaction (t_mode t) (dbms_transaction_mode_set (Some mode)) (fserrno t) (t_before t).

Definition roll_back (t : dav_transaction) : dav_transaction :=
  let mode := dbms_transaction_mode_set (Some DAV_TRANSACTION_ROLLBACK) in
  Transaction mode mode (fserrno t) (t_before t).

Definition dav_repos_transaction_pre_commit_checks (t : dav_transaction)
  : M (option dav_error * dav_transaction) :=
  err ← dbms_quota_pre_commit_checks;
  mret (match err with
        | Some e =>
            if decide (t_mode t = DAV_TRANSACTION_IGNORE_ERRORS)
            then (None, t)
            else (Some e, roll_back t)
        | None =>
            (None, if decide (t_mode t = DAV_TRANSACTION_IGNORE_ERRORS) then t
                   else if fserrno t then roll_back t else t)
        end).

Definition dav_repos_transaction_end (t : dav_transaction) : M (option dav_error) :=
  e ← dav_repos_transaction_pre_commit_checks t;
  ierrno ← dbms_transaction_end (driver_mode e.2) (t_before e.2);
  mret (if bool_decide (ierrno = 0) then e.1
        else Some (dav_new_error HTTP_INTERNAL_SERVER_ERROR)).
End driver.

(** ** Properties *)

Definition quota_respected (d : db) : Prop := forall q, q ∈ quota d -> ~ over_quota q.

Lemma no_over_quota d :
  List.filter (fun q => bool_decide (over_quota q)) (quota d) = [] -> quota_respected d.
Proof.
  intros H q Hq Ho. apply list_elem_of_In in Hq.
  assert (Hin : In q (List.filter (fun q => bool_decide (over_quota q)) (quota d))).
  { apply filter_In. split; [done|]. by apply bool_decide_eq_true. }
  by rewrite H in Hin.
Qed.

(** The tables after any mode but IGNORE_ERRORS are those before or those after. *)
Lemma end_cases {D : DbdDriver} {L : DbdDriverLaws D} mode e before after :
  mode <> DAV_TRANSACTION_IGNORE_ERRORS ->
  (apr_dbd_transaction_end mode e before after).2 = before
  \/ (apr_dbd_transaction_end mode e before after).2 = after.
Proof.
  intros Hm. destruct mode, e; [rewrite end_error| |rewrite end_rollback..|done|done]; [by left| |by left..].
  pose proof (end_commit before after) as H.
  destruct (apr_dbd_transaction_end _ _ _ _) as [ierrno d]. cbn. case_decide; subst; auto.
Qed.

(** The checks read the tables only; they fail into a rollback, and when they
    pass the quota is respected. *)
Lemma pre_commit_spec t s :
  t_mode t <> DAV_TRANSACTION_IGNORE_ERRORS ->
  exists err t' s', dav_repos_transaction_pre_commit_checks t s = (err, t', s')
    /\ c_db s' = c_db s /\ t_before t' = t_before t
    /\ (driver_mode t' = driver_mode t \/ driver_mode t' = DAV_TRANSACTION_ROLLBACK)
    /\ match err with
       | Some _ => driver_mode t' = DAV_TRANSACTION_ROLLBACK
       | None => quota_respected (c_db s)
       end.
Proof.
  intros Hm. unfold dav_repos_transaction_pre_commit_checks, dbms_quota_pre_commit_checks.
  rewrite !bind_run.
  pose proof (select_db (fun d => List.filter (fun q => bool_decide (over_quota q)) (quota d)) s)
    as Hdb.
  pose proof (select_result (fun d => List.filter (fun q => bool_decide (over_quota q)) (quota d)) s)
    as Hres.
  destruct (select _ s) as [[[|q rows]|] s1]; cbn -[quota_respected] in *;
    rewrite ?decide_False by done; cbn -[quota_respected]; eexists _, _, s1;
    (split; [reflexivity|]); cbn -[quota_respected]; try by (split_and!; auto).
  split_and!; [done|by destruct (fserrno t)|destruct (fserrno t); auto|].
  apply no_over_quota. symmetry. by apply Hres.
Qed.

(** What a start leaves: the tables, and no failed statement but that of the constraints. *)
Lemma transaction_start_run {D : DbdDriver} s :
  exists s', dbms_transaction_start s = (apr_dbd_transaction_start s, c_db s, s')
    /\ c_db s' = c_db s /\ c_files s' = c_files s
    /\ (quiet s -> apr_dbd_transaction_start s = 0 -> quiet s' /\ c_errnum s' = false).
Proof.
  unfold dbms_transaction_start, apr_start, defer_all_constraints.
  do 4 (rewrite ?bind_run; cbn [get_db fst snd]). set (s1 := if decide _ then _ else s).
  assert (c_db s1 = c_db s /\ c_files s1 = c_files s /\ (quiet s -> quiet s1)) as (H1 & H2 & H3).
  { unfold s1. by case_decide. }
  pose proof (select_db (fun _ => tt) s1) as Hd. pose proof (execute_files (fun d => Some (tt, d)) s1) as Hf.
  eexists. split; [reflexivity|]. cbn [snd mret M_ret fst]. split_and!; [congruence| |].
  - unfold select. congruence.
  - intros Hq H0. unfold s1 in *. rewrite decide_True in * by done.
    destruct s as [d f n fl e]. unfold quiet in Hq. cbn in Hq. subst f. done.
Qed.

(** C27. When a transaction ends that may not ignore errors, whatever its statements did and
    whichever of them, or its COMMIT, were refused: either no principal is over its quota or
    the tables are those from before it; and when a principal was found over quota the
    request fails and the tables are those from before it. *)
Theorem transaction_end_quota (D : DbdDriver) (L : DbdDriverLaws D) t s :
  t_mode t <> DAV_TRANSACTION_IGNORE_ERRORS ->
  driver_mode t <> DAV_TRANSACTION_IGNORE_ERRORS ->
  let '(err, s') := dav_repos_transaction_end t s in
  (quota_respected (c_db s') \/ c_db s' = t_before t)
  /\ (~ quota_respected (c_db s) -> is_Some err /\ c_db s' = t_before t)
  /\ (err = None -> quota_respected (c_db s)).
Proof.
  intros Hm Hd. unfold dav_repos_transaction_end. rewrite bind_run.
  destruct (pre_commit_spec t s Hm) as (err & t' & s' & -> & Hdb & Hb & Hmode & Herr).
  cbn [fst snd]. rewrite bind_run. unfold dbms_transaction_end.
  pose proof (end_cases (driver_mode t') (c_errnum s') (t_before t') (c_db s')
    ltac:(by destruct Hmode as [-> | ->])) as Hc.
  pose proof (end_rollback (c_errnum s') (t_before t') (c_db s')) as Hr.
  destruct err as [e|].
  - rewrite Herr in *. destruct (apr_dbd_transaction_end _ _ _ _) as [rc d'].
    cbn in Hr |- *. subst d'. rewrite Hb. split_and!; [by right| |by case_bool_decide].
    intros _. split; [|done]. by case_bool_decide.
  - destruct (apr_dbd_transaction_end _ _ _ _) as [rc d']. cbn in Hc |- *.
    rewrite Hb, Hdb in Hc. split_and!; [destruct Hc as [-> | ->]; auto|done|done].
Qed.

(** ** Witness *)

Definition over_db : db := set_quota [QuotaRow 9 50 40] empty_db.
Definition under_db : db := set_quota [QuotaRow 9 30 40] empty_db.

Lemma transaction_end_quota_witness :
  exists err s', @dav_repos_transaction_end sample_driver
      (Transaction DAV_TRANSACTION_COMMIT DAV_TRANSACTION_COMMIT false under_db)
      (Conn over_db [] 0 [] false) = (err, s')
    /\ is_Some err /\ c_db s' = under_db.
Proof.
  pose proof (transaction_end_quota sample_driver sample_driver_laws
    (Transaction DAV_TRANSACTION_COMMIT DAV_TRANSACTION_COMMIT false under_db)
    (Conn over_db [] 0 [] false) ltac:(discriminate) ltac:(discriminate)) as H.
  destruct (dav_repos_transaction_end _ _) as [err s']. exists err, s'.
  split; [reflexivity|]. apply H. intros Hr. apply (Hr (QuotaRow 9 50 40)).
  - apply list_elem_of_singleton. reflexivity.
  - split; vm_compute; reflexivity.
Defined.
