(* ===== verification/Bridge.v ===== *)
(** * The storage bridge ([limestone/bridge.c], parts of [repos.c])

    The functions between the hooks of the DAV module and the statements: a
    resource's properties, its parent, its deletion with the body on disk, and
    the removal of a bind when the garbage collector is in use.

    [Crash] is a dereference of a NULL or uninitialised pointer. *)
From S2P Require Import Prelude Util Mime Times Db Bind Resource DbmsDeltav Redirect.
Local Open Scope Z_scope.
Local Open Scope limestone_scope.

(** ** The server's configuration and the libraries' string functions *)

Class ServerConfig := {
  use_gc : bool;        (** [db->use_gc], directive [DAVLimestoneUseGC] *)
  keep_files : bool;    (** [db->keep_files] *)
  default_quota : Z;    (** [db->quota] *)
  apr_strtok_slash : string -> list string;
  apr_dbd_escape : string -> string;
  ap_make_dirstr_parent : string -> string;
  basename : string -> string;
  apr_times : AprTime    (** the times of [apr] *)
}.
#[export] Existing Instance apr_times.

(** A configuration for the witnesses, with concrete string functions. *)
Definition flush (token : string) (l : list string) : list string :=
  match token with EmptyString => l | _ => token :: l end.
Fixpoint split_slash (token s : string) : list string :=
  match s with
  | EmptyString => flush token []
  | String c r => if Ascii.eqb c SLASH then flush token (split_slash EmptyString r)
                  else split_slash (token +:+ String c EmptyString) r
  end.
Fixpoint join_slash (l : list string) : string :=
  match l with [] => "/"%string | x :: r => String SLASH x +:+ join_slash r end.

Definition sample_config : ServerConfig := {|
  use_gc := true; keep_files := false; default_quota := 1000;
  apr_strtok_slash := split_slash EmptyString;
  apr_dbd_escape := fun s => s;
  ap_make_dirstr_parent := fun s =>
    let l := split_slash EmptyString s in join_slash (take (length l - 1) l);
  basename := fun s => List.last (split_slash EmptyString s) "/"%string;
  apr_times := gregorian
|}.

Definition DIR_MAGIC_TYPE : string := "httpd/unix-directory".

(** The outcome monad over the connection: a crash ends the run. *)
Definition obind {A B} (m : M (outcome A)) (f : A -> M (outcome B)) : M (outcome B) :=
  o ← m; match o with Crash => mret Crash | Ret a => f a end.
Notation "x <- m ;; k" := (obind m (fun x => k))
  (at level 100, m at next level, right associativity) : limestone_scope.
Definition oret {A} (a : A) : M (outcome A) := mret (Ret a).
(** A call that cannot crash. *)
Definition lift {A} (m : M A) : M (outcome A) := a ← m; oret a.

Fixpoint drop_string (n : nat) (s : string) : string :=
  match n, s with
  | O, _ => s
  | S n, String _ r => drop_string n r
  | S _, EmptyString => EmptyString
  end.

Section bridge.
Context {cfg : ServerConfig}.

(** ** [sabridge_get_property] *)

(** The record when only a prefix of the URI exists: its identity is cleared. *)
Definition clear_identity (r : dav_repos_resource) : dav_repos_resource :=
  set_uuid "" (set_getcontentlanguage None (set_displayname None (set_created_at 0
    (set_creator_id 0 (set_owner_id 0 (set_resourcetype None (set_serialno 0 r))))))).

(** The tail: collection, media and version properties.  The content type is set
    only after the test of the error. *)
Definition get_if_collection (r : dav_repos_resource)
  : M (option dav_error * dav_repos_resource) :=
  if is_collection (resourcetype r)
  then e ← dbms_get_collection_props r;
       mret (e.1, match e.1 with
                  | Some _ => e.2
                  | None => set_getcontenttype (Some DIR_MAGIC_TYPE) e.2
                  end)
  else mret (None, r).

Definition get_typed_props (r : dav_repos_resource)
  : M (outcome (option dav_error * dav_repos_resource)) :=
  c ← get_if_collection r;
  match c with
  | (Some e, r') => oret (Some e, r')
  | (None, r') =>
      m ← dbms_get_media_props r';
      match m with
      | (Some e, r') => oret (Some e, r')
      | (None, r') => dbms_get_deltav_props r'
      end
  end.

(** The target of a redirect reference on the way: what is left of the URI goes
    after it. *)
Definition extend_reftarget (bind : option dbms_bind_list) (r : dav_repos_resource)
  : dav_repos_resource :=
  match bind with
  | None => r
  | Some b =>
      let absent_uri :=
        match bind_uri b with
        | Some u => drop_string (String.length u) (default EmptyString (uri r))
        | None => EmptyString
        end in
      match reftarget r with
      | Some t => set_reftarget (Some (t +:+ absent_uri)) r
      | None => set_reftarget (Some EmptyString) r
      end
  end.

Definition get_if_redirect (bind : option dbms_bind_list) (r : dav_repos_resource)
  : M dav_repos_resource :=
  if bool_decide (resourcetype r = Some dav_repos_REDIRECT)
  then e ← dbms_get_redirect_props r; mret (extend_reftarget bind e.2)
  else mret r.

(** From the point where [serialno] is known; errors of [dbms_get_resource] and
    [dbms_get_redirect_props] are dropped. *)
Definition get_property_of (bind : option dbms_bind_list) (r : dav_repos_resource)
  : M (outcome (option dav_error * dav_repos_resource)) :=
  e ← dbms_get_resource r;
  let r := e.2 in
  let uri_not_found := from_option (fun b => bool_decide (resource_id b = -1)) false bind in
  if uri_not_found && negb (bool_decide (resourcetype r = Some dav_repos_REDIRECT))
  then oret (None, clear_identity r)
  else
    let r := match bind with
             | Some b => set_bind_id (bind_id b) (set_updated_at (updated_at b) r)
             | None => r
             end in
    r ← get_if_redirect bind r;
    get_typed_props r.

Fixpoint contains (s needle : string) : bool :=
  String.prefix needle s ||
  match s with
  | EmptyString => false
  | String _ r => contains r needle
  end.

Definition sabridge_get_property (r : dav_repos_resource)
  : M (outcome (option dav_error * dav_repos_resource)) :=
  if negb (bool_decide (serialno r = 0)) then get_property_of None r
  else
    match uri r with
    | Some u =>
        if contains u (root_path r) then
          l ← dbms_lookup_uri apr_strtok_slash apr_dbd_escape
                (drop_string (String.length (root_path r)) u);
          match l with
          | None => mret Crash
          | Some (inl e) => oret (Some e, r)
          | Some (inr None) => oret (None, r)
          | Some (inr (Some b)) =>
              let id := if bool_decide (resource_id b = -1) then parent_id b
                        else resource_id b in
              if bool_decide (id = 0) then oret (None, r)
              else get_property_of (Some b) (set_serialno id r)
          end
        else oret (None, r)
    | None => oret (None, r)
    end.

(** ** Parents ([dav_repos_get_parent_resource] of [repos.c]) *)

(** [resource_uri] is the URI of the record or of its [dav_resource], [pathname]
    that of the private context.  The parent is [None] for the root; the second
    component is the record with its [parent_id]. *)
Definition dav_repos_get_parent_resource (db_r : dav_repos_resource)
    (resource_uri pathname : option string)
  : M (outcome (dav_error + (option dav_repos_resource * dav_repos_resource))) :=
  match resource_uri with
  | None => oret (inl (dav_new_error HTTP_INTERNAL_SERVER_ERROR))
  | Some u =>
      if bool_decide (u = "/"%string) || bool_decide (pathname = Some "/"%string)
      then oret (inr (None, db_r))
      else
        let puri := dav_repos_chomp_trailing_slash (ap_make_dirstr_parent u) in
        p <- sabridge_get_property
               (set_has_resource true (set_root_path (root_path db_r)
                  (set_uri (Some puri) zero_dbr))) ;;
        oret (match p with
              | (Some e, _) => inl e
              | (None, p) =>
                  inr (Some p, if bool_decide (serialno p = 0) then db_r
                               else set_parent_id (serialno p) db_r)
              end)
  end.

(** The error is returned only after [parent_resource->info] was read, which is
    NULL after an error, for the root, and for a record without a [resource]. *)
Definition sabridge_retrieve_parent (db_r : dav_repos_resource) (pathname : option string)
  : M (outcome (dav_repos_resource * dav_repos_resource)) :=
  if has_resource db_r then
    p <- dav_repos_get_parent_resource db_r (uri db_r) pathname ;;
    match p with
    | inl _ => mret Crash
    | inr (None, _) => mret Crash
    | inr (Some parent, db_r) => oret (parent, db_r)
    end
  else mret Crash.

(** ** Bodies on disk *)

(** [apr_file_open] with [APR_CREATE]; a failure of the file system is not
    modelled. *)
Definition sabridge_create_empty_body (r : dav_repos_resource)
  : M (option dav_error * dav_repos_resource) :=
  e ← dbms_insert_media (set_sha1str (Some sha1_of_empty) r);
  match e with
  | (Some err, r) => mret (Some err, r)
  | (None, r) =>
      fs ← get_files;
      _ ← set_files (if bool_decide (sha1_of_empty ∈ fs) then fs else sha1_of_empty :: fs);
      mret (None, r)
  end.

Definition remove_sha1_file (sha1 : string) : M unit :=
  fs ← get_files;
  set_files (List.filter (fun f => negb (String.eqb f sha1)) fs).

(** [generate_path] reads through a NULL [sha1str]; the count is then 0, so it is
    not reached. *)
Definition sabridge_remove_body_from_disk (db_r : dav_repos_resource) : M unit :=
  if keep_files then mret tt
  else
    n ← dbms_num_sha1_resources (sha1str db_r);
    if bool_decide (n = 1)
    then match sha1str db_r with
         | Some h => remove_sha1_file h
         | None => mret tt
         end
    else mret tt.

(** ** Deletion *)

(** Clearing a collection version calls back into the removal of binds, so it is
    an argument here. *)
Section delete.
Variable sabridge_coll_clear_children : dav_repos_resource -> M (outcome (option dav_error)).
Variable mk_uri : Z -> string.

(** The loop of [sabridge_remove_vhr_vrs]; the error of clearing a collection
    version is dropped. *)
Fixpoint remove_versions (vrs : list dav_repos_resource) : M (outcome (option dav_error)) :=
  match vrs with
  | [] => oret None
  | v :: rest =>
      _ <- (if bool_decide (resourcetype v = Some dav_repos_VERSION)
            then lift (sabridge_remove_body_from_disk v)
            else if bool_decide (resourcetype v = Some dav_repos_COLLECTION_VERSION)
                 then _ <- sabridge_coll_clear_children v ;; oret tt
                 else oret tt) ;;
      err <- lift (dbms_delete_resource v) ;;
      match err with
      | Some e => oret (Some e)
      | None => remove_versions rest
      end
  end.

(** The error of [dbms_get_vhr_versions] is dropped, and the list it then leaves
    is uninitialised. *)
Definition sabridge_remove_vhr_vrs (vhr : dav_repos_resource) : M (outcome (option dav_error)) :=
  l <- dbms_get_vhr_versions mk_uri vhr ;;
  match l with
  | inl _ => mret Crash
  | inr vrs => remove_versions vrs
  end.

Definition sabridge_remove_vhr (vhr : dav_repos_resource) : M (outcome (option dav_error)) :=
  err <- lift (dbms_unversion_vhr_vcrs vhr) ;;
  match err with
  | Some e => oret (Some e)
  | None => sabridge_remove_vhr_vrs vhr
  end.

(** The [switch] of [sabridge_delete_resource]. *)
Definition delete_dependents (db_r : dav_repos_resource) : M (outcome (option dav_error)) :=
  match resourcetype db_r with
  | Some dav_repos_VERSIONHISTORY => sabridge_remove_vhr db_r
  | Some dav_repos_RESOURCE | Some dav_repos_VERSIONED | Some dav_repos_VERSION =>
      _ <- lift (sabridge_remove_body_from_disk db_r) ;; oret None
  | _ => oret None
  end.

Definition sabridge_delete_resource (db_r : dav_repos_resource)
  : M (outcome (option dav_error)) :=
  err <- delete_dependents db_r ;;
  match err with
  | Some e => oret (Some e)
  | None => lift (dbms_delete_resource db_r)
  end.

(** The error, or whether the resource was deleted. *)
Definition sabridge_delete_if_orphaned (db_r : dav_repos_resource)
  : M (outcome (dav_error + bool)) :=
  p ← dbms_find_shortest_path ROOT_COLLECTION_ID (serialno db_r);
  match p with
  | (Some e, _) => oret (inl e)
  | (None, Some _) => oret (inr false)
  | (None, None) =>
      err <- sabridge_delete_resource db_r ;;
      oret (match err with Some e => inl e | None => inr true end)
  end.
End delete.

(** [sabridge_reverse_lookup]: an unreachable resource has a NULL path, which
    [strcmp] reads. *)
Definition sabridge_reverse_lookup (db_r : dav_repos_resource)
  : M (outcome (option dav_error * dav_repos_resource)) :=
  p ← dbms_find_shortest_path ROOT_COLLECTION_ID (serialno db_r);
  match p with
  | (Some e, _) => oret (Some e, db_r)
  | (None, None) => mret Crash
  | (None, Some path) =>
      let path := if bool_decide (path = EmptyString) then "/"%string else path in
      oret (None, set_uri (Some (root_path db_r +:+ path)) db_r)
  end.

(** ** Removing a bind: [sabridge_unbind_resource] with [use_gc]

    With the record, whose [parent_id] is set with the parent. *)

Definition unbind_with_gc (db_r : dav_repos_resource) (pathname : option string)
  : M (outcome (option dav_error * dav_repos_resource)) :=
  x <- (match uri db_r with
        | Some u =>
            p <- sabridge_retrieve_parent db_r pathname ;;
            e <- lift (dbms_delete_bind (serialno p.1) (serialno db_r) (basename u)) ;;
            oret (e, p.2)
        | None => oret (None, db_r)
        end) ;;
  match x with
  | (Some e, r) => oret (Some e, r)
  | (None, r) =>
      e <- lift (dbms_insert_cleanup_reqs [BindItem 0 0 (serialno db_r) "" 0 None]) ;;
      oret (e, r)
  end.
End bridge.

(** ** Reading functions leave the tables alone *)

Lemma reads_get_resource r : Reads (dbms_get_resource r).
Proof. unfold dbms_get_resource. reads. Qed.
Lemma reads_get_redirect_props r : Reads (dbms_get_redirect_props r).
Proof. unfold dbms_get_redirect_props. reads. Qed.
Lemma reads_get_collection_props r : Reads (dbms_get_collection_props r).
Proof. unfold dbms_get_collection_props. reads. Qed.
Lemma reads_get_media_props r : Reads (dbms_get_media_props r).
Proof. unfold dbms_get_media_props. reads. Qed.
Lemma reads_get_version_number r : Reads (dbms_get_version_number r).
Proof. unfold dbms_get_version_number. reads. Qed.
#[export] Hint Resolve reads_get_resource reads_get_redirect_props
  reads_get_collection_props reads_get_media_props reads_get_version_number : lime.
Lemma reads_get_vcr_props r : Reads (dbms_get_vcr_props r).
Proof. unfold dbms_get_vcr_props. reads. Qed.
#[export] Hint Resolve reads_get_vcr_props : lime.
Lemma reads_get_version_resource_props r : Reads (dbms_get_version_resource_props r).
Proof. unfold dbms_get_version_resource_props. reads. Qed.
Lemma reads_get_creator_displayname r : Reads (dbms_get_creator_displayname r).
Proof. unfold dbms_get_creator_displayname. reads. Qed.
Lemma reads_get_vhr_root_version_id r : Reads (dbms_get_vhr_root_version_id r).
Proof. unfold dbms_get_vhr_root_version_id. reads. Qed.
#[export] Hint Resolve reads_get_version_resource_props reads_get_creator_displayname
  reads_get_vhr_root_version_id : lime.
Lemma reads_get_vhr_props r : Reads (dbms_get_vhr_props r).
Proof. unfold dbms_get_vhr_props. reads. Qed.
#[export] Hint Resolve reads_get_vhr_props : lime.
Lemma reads_get_deltav_props r : Reads (dbms_get_deltav_props r).
Proof. unfold dbms_get_deltav_props. reads. Qed.
#[export] Hint Resolve reads_get_deltav_props : lime.
Lemma reads_get_if_collection r : Reads (get_if_collection r).
Proof. unfold get_if_collection. reads. Qed.
#[export] Hint Resolve reads_get_if_collection : lime.
Lemma reads_get_typed_props r : Reads (get_typed_props r).
Proof. unfold get_typed_props, oret. reads. Qed.
#[export] Hint Resolve reads_get_typed_props : lime.
Lemma reads_get_if_redirect b r : Reads (get_if_redirect b r).
Proof. unfold get_if_redirect. reads. Qed.
#[export] Hint Resolve reads_get_if_redirect : lime.
Lemma reads_get_property_of b r : Reads (get_property_of b r).
Proof. unfold get_property_of, oret. reads. Qed.
#[export] Hint Resolve reads_get_property_of : lime.

Lemma reads_lookup_uri tok esc u : Reads (dbms_lookup_uri tok esc u).
Proof. unfold dbms_lookup_uri. reads. Qed.
#[export] Hint Resolve reads_lookup_uri : lime.
Lemma reads_get_property {cfg : ServerConfig} r : Reads (sabridge_get_property r).
Proof. unfold sabridge_get_property, oret. reads. Qed.

Lemma reads_path_loop fuel from excl fore hash : Reads (path_loop fuel from excl fore hash).
Proof.
  revert excl fore hash. induction fuel as [|n IH]; intros; cbn [path_loop]; [auto with lime|].
  apply reads_bind; [auto with lime|]. intros [rows|]; [|auto with lime].
  destruct (scan_rows from rows hash []) as [|[h [|x l]]]; auto with lime.
Qed.
Lemma reads_find_shortest_path from to : Reads (dbms_find_shortest_path from to).
Proof.
  unfold dbms_find_shortest_path, dbms_find_shortest_path_excl_binds.
  pose proof reads_path_loop. reads.
Qed.
Lemma reads_get_child_binds id b : Reads (dbms_get_child_binds id b).
Proof. unfold dbms_get_child_binds. reads. Qed.
Lemma reads_num_sha1_resources h : Reads (dbms_num_sha1_resources h).
Proof. unfold dbms_num_sha1_resources. reads. Qed.
#[export] Hint Resolve reads_get_property reads_find_shortest_path reads_get_child_binds
  reads_num_sha1_resources : lime.

Lemma reads_get_parent {cfg : ServerConfig} r u p :
  Reads (dav_repos_get_parent_resource r u p).
Proof.
  unfold dav_repos_get_parent_resource, obind, oret.
  destruct u; [|apply reads_ret]. destruct (_ || _); [apply reads_ret|].
  apply reads_bind; [apply reads_get_property|]. intros [|]; [apply reads_ret|apply reads_ret].
Qed.

Lemma reads_retrieve_parent {cfg : ServerConfig} r p : Reads (sabridge_retrieve_parent r p).
Proof.
  unfold sabridge_retrieve_parent, obind, oret. destruct (has_resource r); [|apply reads_ret].
  apply reads_bind; [apply reads_get_parent|].
  intros [|[|[[|] ?]]]; apply reads_ret.
Qed.
#[export] Hint Resolve reads_get_parent reads_retrieve_parent : lime.

(** ** What the version properties do not touch *)

Definition same_core (r r' : dav_repos_resource) : Prop :=
  serialno r' = serialno r /\ resourcetype r' = resourcetype r /\ sha1str r' = sha1str r
  /\ has_resource r' = has_resource r.

Ltac run_reads :=
  repeat first
    [ progress cbn [fst snd mret M_ret from_option]
    | rewrite bind_run
    | match goal with
      | |- context [select ?f ?s] => destruct (select f s) as [? ?]
      | |- context [match ?x with _ => _ end] => destruct x
      end ].

Lemma vcr_props_core r s : same_core r (dbms_get_vcr_props r s).1.2.
Proof. unfold dbms_get_vcr_props, dbms_get_version_number. run_reads; by split_and!. Qed.

Lemma version_props_core r s p :
  (dbms_get_version_resource_props r s).1 = Ret p -> same_core r p.2.
Proof.
  unfold dbms_get_version_resource_props. rewrite bind_run.
  destruct (select _ s) as [q s']. cbn [fst snd].
  destruct q as [[v|]|]; cbn; [|by intros [= <-]..].
  destruct (sabridge_new_dbr_from_dbr r); cbn; [|done]. rewrite bind_run. cbn.
  intros [= <-]. cbn. by case_bool_decide.
Qed.

Lemma deltav_props_core r s p :
  (dbms_get_deltav_props r s).1 = Ret p -> same_core r p.2.
Proof.
  unfold dbms_get_deltav_props.
  destruct (resourcetype r) as [[]|]; cbn; try (by intros [= <-]);
    rewrite bind_run; cbn.
  - destruct (dbms_get_version_resource_props r s) as [[|q] s'] eqn:E; cbn; [done|].
    rewrite bind_run. cbn. intros [= <-].
    assert (H : same_core r q.2) by (apply (version_props_core r s); by rewrite E).
    revert H. unfold dbms_get_creator_displayname, same_core. run_reads; done.
  - intros [= <-]. apply vcr_props_core.
  - intros [= <-]. unfold dbms_get_vhr_props, dbms_get_vhr_root_version_id.
    run_reads; by split_and!.
  - intros [= <-]. apply vcr_props_core.
  - destruct (dbms_get_version_resource_props r s) as [[|q] s'] eqn:E; cbn; [done|].
    rewrite bind_run. cbn. intros [= <-].
    assert (H : same_core r q.2) by (apply (version_props_core r s); by rewrite E).
    revert H. unfold dbms_get_creator_displayname, same_core. run_reads; done.
Qed.

(** The body's name a record has once its media properties are read. *)
Definition sha1_after (r : dav_repos_resource) (d : db) : option string :=
  if has_body (resourcetype r)
  then from_option (fun m => Some (m_sha1 m)) (sha1str r) (find_media (serialno r) d)
  else sha1str r.

Definition same_identity (r r' : dav_repos_resource) : Prop :=
  serialno r' = serialno r /\ resourcetype r' = resourcetype r
  /\ has_resource r' = has_resource r.

Lemma media_props_core r s :
  same_identity r (dbms_get_media_props r s).1.2
  /\ (c_errnum (dbms_get_media_props r s).2 = false ->
      (dbms_get_media_props r s).1.1 = None
      /\ sha1str (dbms_get_media_props r s).1.2 = sha1_after r (c_db s)).
Proof.
  unfold dbms_get_media_props, sha1_after.
  destruct (has_body (resourcetype r)); [|by split_and!].
  rewrite bind_run. cbn [fst snd mret M_ret].
  pose proof (select_ok (find_media (serialno r)) s) as Hok.
  destruct (select _ s) as [q s']. cbn [fst snd] in *. split.
  - by destruct q as [[m|]|].
  - intros He. rewrite (Hok He). by destruct (find_media _ _).
Qed.

Lemma if_collection_core r s :
  same_identity r (get_if_collection r s).1.2
  /\ sha1str (get_if_collection r s).1.2 = sha1str r
  /\ (c_errnum (get_if_collection r s).2 = false -> (get_if_collection r s).1.1 = None).
Proof.
  unfold get_if_collection. destruct (is_collection (resourcetype r)); [|by split_and!].
  rewrite bind_run. cbn [fst snd mret M_ret].
  unfold dbms_get_collection_props. rewrite bind_run. cbn [fst snd mret M_ret].
  pose proof (select_ok (fun d => List.find (fun c => bool_decide (c.1 = serialno r))
                                    (collections d)) s) as Hok.
  destruct (select _ s) as [q s1]. cbn [fst snd] in *.
  split_and!; [by destruct q as [[]|]|by destruct q as [[]|]|].
  intros He. rewrite (Hok He). by destruct (List.find _ _).
Qed.

Lemma typed_props_core r s p s' :
  get_typed_props r s = (Ret p, s') ->
  same_identity r p.2 /\ (c_errnum s' = false -> sha1str p.2 = sha1_after r (c_db s)).
Proof.
  intros E. unfold get_typed_props in E. rewrite bind_run in E.
  pose proof (if_collection_core r s) as (Hid & Hsha & Hce).
  pose proof (reads_get_if_collection r s) as (Hdb & _ & _).
  destruct (get_if_collection r s) as [[ce r1] s1]. cbn [fst snd] in *.
  assert (Hlift : forall x d, same_identity r x -> sha1str x = sha1str r ->
            sha1_after x d = sha1_after r d).
  { intros x d (H1 & H2 & H3) H4. unfold sha1_after. by rewrite H1, H2, H4. }
  destruct ce as [e|]; cbn in E.
  { injection E as <- <-. split; [done|]. intros He. by specialize (Hce He). }
  rewrite bind_run in E. pose proof (media_props_core r1 s1) as [Hm1 Hm2].
  pose proof (reads_get_media_props r1 s1) as (_ & Hmono & _).
  destruct (dbms_get_media_props r1 s1) as [[me r2] s2]. cbn [fst snd] in *.
  assert (Hid2 : same_identity r r2).
  { destruct Hid as (?&?&?), Hm1 as (?&?&?). split_and!; congruence. }
  destruct me as [e|]; cbn in E.
  { injection E as <- <-. split; [done|]. intros He. destruct (Hm2 He). done. }
  pose proof (reads_get_deltav_props r2 s2) as (_ & Hmono2 & _).
  pose proof (deltav_props_core r2 s2 p) as Hd. rewrite E in Hd, Hmono2.
  destruct (Hd eq_refl) as (K1 & K2 & K3 & K4). cbn in Hmono2. split.
  - destruct Hid2 as (?&?&?). split_and!; congruence.
  - intros He. rewrite K3. destruct (Hm2 (Hmono2 He)) as [_ ->]. rewrite Hdb.
    by apply Hlift.
Qed.

Lemma if_redirect_core r s :
  same_identity r (get_if_redirect None r s).1
  /\ sha1str (get_if_redirect None r s).1 = sha1str r.
Proof.
  unfold get_if_redirect. case_bool_decide; [|by split_and!].
  rewrite bind_run. cbn [fst snd mret M_ret extend_reftarget].
  assert (same_core r (dbms_get_redirect_props r s).1.2) as (?&?&?&?).
  { unfold dbms_get_redirect_props. run_reads; by split_and!. }
  by split_and!.
Qed.

Lemma drop_string_app s t : drop_string (String.length s) (s +:+ t) = t.
Proof. induction s as [|c s IH]; [by destruct t|]. exact IH. Qed.

Lemma string_prefix_app s t : String.prefix s (s +:+ t) = true.
Proof. induction s as [|c s IH]; cbn; [by destruct t|]. destruct (ascii_dec c c); [exact IH|done]. Qed.

Lemma find_resource_id id d row : find_resource id d = Some row -> r_id row = id.
Proof. intros [_ H]%List.find_some. by apply bool_decide_eq_true in H. Qed.

Lemma get_resource_core r s :
  let r' := (dbms_get_resource r s).1.2 in
  serialno r' = serialno r /\ has_resource r' = has_resource r /\ sha1str r' = sha1str r
  /\ (c_errnum (dbms_get_resource r s).2 = false ->
      resourcetype r' = from_option (fun row => Some (r_type row)) (resourcetype r)
                          (find_resource (serialno r) (c_db s))).
Proof.
  unfold dbms_get_resource. rewrite bind_run. cbn [fst snd mret M_ret].
  pose proof (select_ok (find_resource (serialno r)) s) as Hok.
  destruct (select _ s) as [q s1]. cbn [fst snd] in *.
  split_and!; [by destruct q as [[]|]..|].
  intros He. rewrite (Hok He). by destruct (find_resource _ _).
Qed.

(** The properties of a record that has only a number. *)
Lemma get_property_by_id {cfg : ServerConfig} id s p s' :
  id <> 0 ->
  sabridge_get_property (set_serialno id zero_dbr) s = (Ret p, s') ->
  serialno p.2 = id /\ has_resource p.2 = false
  /\ (c_errnum s' = false ->
      resourcetype p.2 = r_type <$> find_resource id (c_db s)
      /\ sha1str p.2 = if has_body (r_type <$> find_resource id (c_db s))
                       then m_sha1 <$> find_media id (c_db s) else None).
Proof.
  intros Hid E. unfold sabridge_get_property in E. cbn [serialno set_serialno] in E.
  rewrite bool_decide_false in E by done. cbn [negb] in E.
  unfold get_property_of in E. rewrite bind_run in E. cbn [from_option andb] in E.
  pose proof (get_resource_core (set_serialno id zero_dbr) s) as (R1 & R2 & R3 & R4).
  pose proof (reads_get_resource (set_serialno id zero_dbr) s) as (Hdb & _ & _).
  destruct (dbms_get_resource _ s) as [[e1 r1] s1]. cbn [fst snd] in *.
  cbn in R1, R2, R3, R4.
  rewrite bind_run in E.
  pose proof (if_redirect_core r1 s1) as ((I1 & I2 & I3) & S2).
  pose proof (reads_get_if_redirect None r1 s1) as (D2 & E2 & _).
  destruct (get_if_redirect None r1 s1) as [r2 s2]. cbn [fst snd] in *.
  pose proof (typed_props_core r2 s2 p s' E) as ((J1 & J2 & J3) & Js).
  pose proof (reads_get_typed_props r2 s2) as (_ & Hmono & _). rewrite E in Hmono.
  cbn in Hmono. split_and!; [congruence..|]. intros He. split.
  - rewrite J2, I2, (R4 (E2 (Hmono He))). by destruct (find_resource id _).
  - rewrite (Js He). unfold sha1_after. rewrite I1, R1, I2, S2, R3, D2, Hdb.
    rewrite (R4 (E2 (Hmono He))).
    replace (from_option _ None (find_resource id (c_db s)))
      with (r_type <$> find_resource id (c_db s)) by (by destruct (find_resource id _)).
    destruct (has_body _); [|done]. by destruct (find_media id (c_db s)).
Qed.

(** ** Where reading the properties may crash *)

Definition is_version (t : option dav_repos_type) : bool :=
  bool_decide (t = Some dav_repos_VERSION \/ t = Some dav_repos_COLLECTION_VERSION).

Lemma deltav_no_crash r s :
  is_version (resourcetype r) = false -> (dbms_get_deltav_props r s).1 <> Crash.
Proof.
  unfold dbms_get_deltav_props. destruct (resourcetype r) as [[]|]; cbn; try done;
    intros _; rewrite bind_run; done.
Qed.

Lemma typed_props_no_crash r s :
  is_version (resourcetype r) = false -> (get_typed_props r s).1 <> Crash.
Proof.
  intros Ht. unfold get_typed_props. rewrite bind_run.
  pose proof (if_collection_core r s) as ((_ & H1 & _) & _).
  destruct (get_if_collection r s) as [[[e|] r1] s1]; cbn in *; [done|].
  rewrite bind_run. pose proof (media_props_core r1 s1) as [(_ & H2 & _) _].
  destruct (dbms_get_media_props r1 s1) as [[[e|] r2] s2]; cbn in *; [done|].
  apply deltav_no_crash. congruence.
Qed.

Lemma get_property_no_crash {cfg : ServerConfig} id s :
  id <> 0 -> c_faults s = [] ->
  is_version (r_type <$> find_resource id (c_db s)) = false ->
  exists p, (sabridge_get_property (set_serialno id zero_dbr) s).1 = Ret p.
Proof.
  intros Hid Hs Ht. unfold sabridge_get_property. cbn [serialno set_serialno].
  rewrite bool_decide_false by done. cbn [negb].
  unfold get_property_of. rewrite bind_run. cbn [from_option andb].
  assert (Htype : is_version (resourcetype (dbms_get_resource (set_serialno id zero_dbr) s).1.2)
                  = false).
  { unfold dbms_get_resource. rewrite bind_run. cbn [fst snd mret M_ret].
    destruct s as [d f n fl e]. cbn in Hs, Ht. subst f. rewrite select_quiet. cbn.
    destruct (find_resource id d); [exact Ht|done]. }
  destruct (dbms_get_resource _ s) as [[e1 r1] s1]. cbn [fst snd] in *.
  rewrite bind_run. pose proof (if_redirect_core r1 s1) as ((_ & I2 & _) & _).
  destruct (get_if_redirect None r1 s1) as [r2 s2]. cbn [fst snd] in *.
  pose proof (typed_props_no_crash r2 s2) as Hc.
  destruct (get_typed_props r2 s2).1 as [|p]; [|by exists p].
  exfalso. apply Hc; [congruence|done].
Qed.
