(* ===== verification/Groups.v ===== *)
(** * Group membership ([limestone/dbms_principal.c], [principal.c], [acl_liveprops.c])

    The table [group_members] holds the direct members of the groups, and
    [transitive_group_members] a row for every member at any depth with the number
    of ways it is one.  The file models the changes of both, the check for loops,
    and the computation of what a new list of members changes. *)
From S2P Require Import Prelude Util Dbd Db Bind Resource DbmsDeltav Bridge.
From stdpp Require Import relations.
Local Open Scope Z_scope.
Local Open Scope limestone_scope.

(** ** Direct members *)

Definition dbms_add_prin_to_group (group_id principal_id : Z) : M (option dav_error) :=
  q ← execute (fun d =>
        if bool_decide ((group_id, principal_id) ∈ group_members d) then None
        else Some (tt, set_group_members (group_members d ++ [(group_id, principal_id)]) d));
  mret (err_of q).

(** -1 for an error, otherwise a truth value. *)
Definition answer (q : option bool) : Z :=
  match q with None => -1 | Some true => 1 | Some false => 0 end.

Definition dbms_is_prin_in_grp (prin_id grp_id : Z) : M Z :=
  q ← select (fun d => bool_decide ((grp_id, prin_id) ∈ group_members d));
  mret (answer q).

Definition dbms_rem_prin_frm_grp (grp_id prin_id : Z) : M (option dav_error) :=
  q ← update (fun d => set_group_members
        (List.filter (fun x => negb (bool_decide (x = (grp_id, prin_id)))) (group_members d)) d);
  mret (err_of q).

(** ** Members at any depth *)

Definition groups_of (id : Z) (d : db) : list tgm_row :=
  List.filter (fun t => bool_decide (t_member t = id)) (transitive_group_members d).
Definition members_of (id : Z) (d : db) : list tgm_row :=
  List.filter (fun t => bool_decide (t_group t = id)) (transitive_group_members d).

(** [g]: the group and those it is in; [m]: the principal and its members. *)
Definition group_and_parents (grp_id : Z) (d : db) : list Z :=
  map t_group (groups_of grp_id d) ++ [grp_id].
Definition prin_and_members (prin_id : Z) (d : db) : list Z :=
  map t_member (members_of prin_id d) ++ [prin_id].

Definition dbms_will_loop_prin_add_grp (grp_id prin_id : Z) : M Z :=
  q ← select (fun d =>
        let positive := List.filter (fun t => bool_decide (0 < t_count t)) in
        let g := map t_group (positive (groups_of grp_id d)) ++ [grp_id] in
        let m := map t_member (positive (members_of prin_id d)) ++ [prin_id] in
        existsb (fun x => bool_decide (x ∈ m)) g);
  mret (answer q).

(** COALESCE((SELECT ...), 1): a subquery with two rows is an error. *)
Definition scalar_or_1 (l : list Z) : option Z :=
  match l with
  | [] => Some 1
  | [c] => Some c
  | _ => None
  end.

Definition joined (grp_id prin_id : Z) (d : db) (t : tgm_row) : bool :=
  bool_decide (t_group t ∈ group_and_parents grp_id d
               /\ t_member t ∈ prin_and_members prin_id d).

(** The UPDATE of both functions.  In its subqueries on [... AS t] the unqualified
    columns are those of [t], so the conditions that should refer to the updated row
    hold of every row: the first subquery has every row whose member is the group,
    the second every row whose group is the principal.  They are evaluated when
    there is a row to update. *)
Definition change_counts_stmt (op : Z -> Z -> Z) (grp_id prin_id : Z) (d : db)
  : option (unit * db) :=
  let hit := joined grp_id prin_id d in
  if existsb hit (transitive_group_members d) then
    match scalar_or_1 (map t_count (groups_of grp_id d)),
          scalar_or_1 (map t_count (members_of prin_id d)) with
    | Some a, Some b =>
        Some (tt, set_transitive_group_members (map (fun t =>
          if hit t then TgmRow (t_group t) (t_member t) (op (t_count t) (a * b)) else t)
          (transitive_group_members d)) d)
    | _, _ => None
    end
  else Some (tt, d).

Definition pair_of (t : tgm_row) : Z * Z := (t_group t, t_member t).

(** UNION drops the duplicates; the pairs are UNIQUE. *)
Definition insert_pairs_stmt (grp_id prin_id : Z) (d : db) : option (unit * db) :=
  let old := transitive_group_members d in
  let g := remove_dups (map (fun t => (t_group t, t_count t)) (groups_of grp_id d)
                        ++ [(grp_id, 1)]) in
  let m := remove_dups (map (fun t => (t_member t, t_count t)) (members_of prin_id d)
                        ++ [(prin_id, 1)]) in
  let rows := List.filter (fun t => negb (bool_decide (pair_of t ∈ map pair_of old)))
    (flat_map (fun x => map (fun y => TgmRow x.1 y.1 (x.2 * y.2)) m) g) in
  if bool_decide (NoDup (map pair_of (old ++ rows)))
  then Some (tt, set_transitive_group_members (old ++ rows) d)
  else None.

Definition dbms_add_prin_to_grp_xitively (grp_id prin_id : Z) : M (option dav_error) :=
  q ← execute (change_counts_stmt Z.add grp_id prin_id);
  match q with
  | None => mret (err_of q)
  | Some _ => q ← execute (insert_pairs_stmt grp_id prin_id); mret (err_of q)
  end.

Definition delete_zeros_stmt (grp_id prin_id : Z) (d : db) : db :=
  set_transitive_group_members
    (List.filter (fun t => negb (joined grp_id prin_id d t && bool_decide (t_count t = 0)))
       (transitive_group_members d)) d.

Definition dbms_rem_prin_frm_grp_xitively (grp_id prin_id : Z) : M (option dav_error) :=
  q ← execute (change_counts_stmt Z.sub grp_id prin_id);
  match q with
  | None => mret (err_of q)
  | Some _ => q ← update (delete_zeros_stmt grp_id prin_id); mret (err_of q)
  end.

(** ** [principal.c] *)

(** The check passes its arguments in the wrong order: it asks whether the group is
    a member of the principal. *)
Definition sabridge_add_prin_to_grp (grp_id prin_id : Z) : M (option dav_error) :=
  i ← dbms_is_prin_in_grp grp_id prin_id;
  if negb (bool_decide (i = 0)) then mret (Some (dav_new_error HTTP_CONFLICT))
  else
    l ← dbms_will_loop_prin_add_grp grp_id prin_id;
    if negb (bool_decide (l = 0)) then mret (Some (dav_new_error HTTP_CONFLICT))
    else
      TRY dbms_add_prin_to_group grp_id prin_id ;;
      dbms_add_prin_to_grp_xitively grp_id prin_id.

Definition sabridge_rem_prin_frm_grp (grp_id prin_id : Z) : M (option dav_error) :=
  TRY dbms_rem_prin_frm_grp grp_id prin_id ;;
  dbms_rem_prin_frm_grp_xitively grp_id prin_id.

(** ** A new list of members *)

(** [dbms_get_group_members]: the identifiers of the direct members that have a
    principal and a resource. *)
Definition group_member_ids (group_id : Z) (d : db) : list Z :=
  flat_map (fun p =>
    flat_map (fun gm =>
      if bool_decide (gm = (group_id, p_res p))
      then map r_id (List.filter (fun r => bool_decide (r_id r = p_res p)) (resources d))
      else []) (group_members d)) (principals d).

Definition dbms_get_group_members (group_id : Z) : M (option dav_error * list Z) :=
  q ← select (group_member_ids group_id);
  mret (match q with
        | None => (Some (dav_new_error HTTP_INTERNAL_SERVER_ERROR), [])
        | Some l => (None, l)
        end).

(** principals RIGHT OUTER JOIN new_members ON the name *)
Definition named_rows (names : list string) (d : db) : list (string * option Z) :=
  flat_map (fun n =>
    match List.filter (fun p => bool_decide (p_name p = n)) (principals d) with
    | [] => [(n, None)]
    | ps => map (fun p => (n, Some (p_res p))) ps
    end) names.

(** ... FULL OUTER JOIN cur_members ON the identifier: the name, the principal and
    the current member. *)
Definition full_join (l : list (string * option Z)) (cur : list Z)
  : list (option string * option Z * option Z) :=
  flat_map (fun x =>
    match List.filter (fun m => bool_decide (x.2 = Some m)) cur with
    | [] => [(Some x.1, x.2, None)]
    | ms => map (fun m => (Some x.1, x.2, Some m)) ms
    end) l
  ++ map (fun m => (None, None, Some m))
       (List.filter (fun m => negb (bool_decide (Some m ∈ map snd l))) cur).

(** ... LEFT OUTER JOIN resources: the name, the identifier, and whether it is
    already a member.  A NULL name reads as the empty string, a NULL number as 0. *)
Definition with_resource (d : db) (x : option string * option Z * option Z)
  : list (string * Z * bool) :=
  let '(name, prin, member) := x in
  let already := bool_decide (is_Some prin /\ prin = member) in
  match List.filter (fun r => bool_decide (prin = Some (r_id r) \/ member = Some (r_id r)))
          (resources d) with
  | [] => [(default EmptyString name, 0, already)]
  | rs => map (fun r => (default EmptyString name, r_id r, already)) rs
  end.

Definition current_members (group_id : Z) (d : db) : list Z :=
  map snd (List.filter (fun x => bool_decide (x.1 = group_id)) (group_members d)).

Definition group_change_rows (names : list string) (group_id : Z) (d : db)
  : list (string * Z * bool) :=
  flat_map (with_resource d) (full_join (named_rows names d) (current_members group_id d)).

(** The loop over the rows: the hash of the new members, with [None] for a value
    not set yet, and the members to remove. *)
Fixpoint change_loop (rows : list (string * Z * bool)) (new_members : gmap string (option Z))
    (to_remove : list Z) : option dav_error * gmap string (option Z) * list Z :=
  match rows with
  | [] => (None, new_members, to_remove)
  | (name, member_id, already) :: rest =>
      if bool_decide (member_id = 0)
      then (Some (dav_new_error HTTP_CONFLICT), new_members, to_remove)
      else if already then change_loop rest (delete name new_members) to_remove
      else if bool_decide (name = EmptyString)
      then change_loop rest new_members (to_remove ++ [member_id])
      else change_loop rest (<[name := Some member_id]> new_members) to_remove
  end.

Section escape.
Variable apr_dbd_escape : string -> string.

(** The names in the order of the hash's iteration are embedded in the query text.
    A question mark in one counts as a parameter that is never set, and then the
    query is not executed and has no rows. *)
Definition unset_parameters (names : list string) : bool :=
  existsb (fun n => negb (bool_decide (count_char QMARK (apr_dbd_escape n) = 0%nat))) names.

Definition dbms_calculate_group_changes (group_id : Z) (new_members : gmap string (option Z))
  : M (option dav_error * gmap string (option Z) * list Z) :=
  let names := map fst (map_to_list new_members) in
  if unset_parameters names then mret (None, new_members, [])
  else
    q ← select (group_change_rows names group_id);
    mret (match q with
          | None => (Some (dav_new_error HTTP_INTERNAL_SERVER_ERROR), new_members, [])
          | Some rows => change_loop rows new_members []
          end).

(** The hash of the names; a value that is not set yet is the empty string. *)
Definition new_members_hash (names : list string) : gmap string (option Z) :=
  list_to_map (map (fun n => (n, None)) names).

(** [dav_acl_patch_validate] for the property group-member-set, from the names of
    its principal URLs. *)
Definition dav_acl_patch_validate (group_id : Z) (names : list string)
  : M (option dav_error * gmap string (option Z) * list Z) :=
  let new_members := new_members_hash names in
  if bool_decide (new_members = ∅)
  then e ← dbms_get_group_members group_id; mret (e.1, new_members, e.2)
  else dbms_calculate_group_changes group_id new_members.

Fixpoint remove_members (group_id : Z) (to_remove : list Z) : M (option dav_error) :=
  match to_remove with
  | [] => mret None
  | prin :: rest => TRY sabridge_rem_prin_frm_grp group_id prin ;; remove_members group_id rest
  end.

(** A value never set is the empty string, read as if it were a resource. *)
Fixpoint add_members (group_id : Z) (to_add : list (string * option Z))
  : M (outcome (option dav_error)) :=
  match to_add with
  | [] => oret None
  | (_, None) :: _ => mret Crash
  | (_, Some prin) :: rest =>
      e ← sabridge_add_prin_to_grp group_id prin;
      match e with
      | Some e => oret (Some e)
      | None => add_members group_id rest
      end
  end.

Definition dav_acl_patch_exec (group_id : Z) (new_members : gmap string (option Z))
    (to_remove : list Z) : M (outcome (option dav_error)) :=
  e ← remove_members group_id to_remove;
  match e with
  | Some e => oret (Some e)
  | None => add_members group_id (map_to_list new_members)
  end.

(** The key under which the hash carries the members to remove. *)
Definition to_remove_key : string := "-to-remove-".

(** The PROPPATCH of the property: validation, then execution. *)
Definition set_group_members_property (group_id : Z) (names : list string)
  : M (outcome (option dav_error)) :=
  v ← dav_acl_patch_validate group_id names;
  let '(err, new_members, to_remove) := v in
  match err with
  | Some e => oret (Some e)
  | None => dav_acl_patch_exec group_id (delete to_remove_key new_members) to_remove
  end.
End escape.
