(* ===== verification/GroupCounts.v ===== *)
(** * Group membership: the counts are the numbers of paths

    The specification of [transitive_group_members] is the number of paths from a
    group to a member in the graph of direct members, which has no cycle.  Adding
    and removing a member keep the table exact whenever they succeed; the file also
    shows when they cannot succeed, and what setting the members of a group does. *)
From S2P Require Import Prelude Util Db Bind Resource DbmsDeltav Bridge Groups.
From stdpp Require Import relations.
Local Open Scope Z_scope.
Local Open Scope limestone_scope.

(** ** Specification *)

(** [direct l g m]: [m] is a direct member of [g]. *)
Definition direct (l : list (Z * Z)) (g m : Z) : Prop := (g, m) ∈ l.

(** The direct members of a group. *)
Definition edges_from (l : list (Z * Z)) (x : Z) : list Z :=
  map snd (List.filter (fun e => bool_decide (e.1 = x)) l).

(** [N x y] is the number of paths from [x] to [y]: the empty one, and those that
    begin with an edge. *)
Definition counts_paths (l : list (Z * Z)) (N : Z -> Z -> Z) : Prop :=
  forall x y, N x y = (if decide (x = y) then 1 else 0)
                      + sum (map (fun z => N z y) (edges_from l x)).

Definition acyclic (l : list (Z * Z)) : Prop := forall g, ~ tc (direct l) g g.

Record groups_exact (d : db) : Prop := {
  ge_direct : NoDup (group_members d);
  ge_acyclic : acyclic (group_members d);
  ge_unique : NoDup (map pair_of (transitive_group_members d));
  ge_counts : exists N, counts_paths (group_members d) N
    /\ forall g m c, TgmRow g m c ∈ transitive_group_members d
                     <-> g <> m /\ c = N g m /\ 0 < c
}.

(** ** Paths *)

Lemma direct_mono l l' g m :
  (forall x, x ∈ l -> x ∈ l') -> tc (direct l) g m -> tc (direct l') g m.
Proof.
  intros H. induction 1 as [g m Hgm|g x m Hgx _ IH]; [by apply tc_once, H|].
  by apply (tc_l _ _ x); [apply H|].
Qed.

(** The closure of the relation with one more edge. *)
Lemma tc_add_edge l a b x y :
  tc (direct (l ++ [(a, b)])) x y
  <-> tc (direct l) x y \/ (rtc (direct l) x a /\ rtc (direct l) b y).
Proof.
  assert (Hedge : forall u v, direct (l ++ [(a, b)]) u v <-> direct l u v \/ (u = a /\ v = b)).
  { intros u v. unfold direct. rewrite elem_of_app, list_elem_of_singleton. naive_solver. }
  assert (Hmono : forall u v, tc (direct l) u v -> tc (direct (l ++ [(a, b)])) u v).
  { intros u v. apply direct_mono. intros z. rewrite elem_of_app. by left. }
  split.
  - induction 1 as [x y Hxy|x z y Hxz _ IH].
    + apply Hedge in Hxy as [Hxy|[-> ->]]; [left; by apply tc_once|right; by split].
    + apply Hedge in Hxz as [Hxz|[-> ->]].
      * destruct IH as [IH|[IH1 IH2]]; [left; by apply (tc_l _ _ z)|right].
        split; [by apply (rtc_l _ _ z)|done].
      * destruct IH as [IH|[_ IH]]; right; (split; [done|]); [by apply tc_rtc|done].
  - intros [H|[H1 H2]]; [by apply Hmono|].
    assert (Hab : tc (direct (l ++ [(a, b)])) a b) by (apply tc_once, Hedge; by right).
    assert (Hby : tc (direct (l ++ [(a, b)])) a y).
    { apply rtc_tc in H2 as [<-|H2]; [done|]. eapply tc_transitive; [done|]. by apply Hmono. }
    apply rtc_tc in H1 as [->|H1]; [done|]. eapply tc_transitive; [by apply Hmono|done].
Qed.

Lemma elem_of_edges_from l x z : z ∈ edges_from l x <-> direct l x z.
Proof.
  unfold edges_from, direct. rewrite elem_of_map. setoid_rewrite elem_of_filter_bool.
  setoid_rewrite bool_decide_eq_true. split.
  - intros ([a b] & <- & <- & H). done.
  - intros H. by exists (x, z).
Qed.

Lemma NoDup_edges_from l x : NoDup l -> NoDup (edges_from l x).
Proof.
  unfold edges_from. induction l as [|[a b] l IH]; [by constructor|].
  intros [Hn Hnd]%NoDup_cons. cbn. case_bool_decide as Ha; [|by apply IH].
  cbn. apply NoDup_cons. split; [|by apply IH].
  intros ([a' b'] & Hb & [Ha'%bool_decide_eq_true Hin]%elem_of_filter_bool)%elem_of_map.
  cbn in *. subst. done.
Qed.

Lemma direct_sn l x : acyclic l -> sn (direct l) x.
Proof.
  intros H. apply tc_finite_sn; [intros y; apply H|].
  exists (map snd l). intros y Hy. apply elem_of_map.
  induction Hy as [x y Hxy|x z y _ _ IH]; [by exists (x, y)|done].
Qed.

Section paths.
Context (l : list (Z * Z)) (N : Z -> Z -> Z).
Context (Hacyc : acyclic l) (HN : counts_paths l N).

Lemma paths_nonneg x y : 0 <= N x y.
Proof.
  induction (direct_sn l x Hacyc) as [x _ IH]. rewrite HN.
  assert (0 <= sum (map (fun z => N z y) (edges_from l x))); [|destruct (decide (x = y)); lia].
  apply sum_nonneg. intros v (z & <- & Hz%elem_of_edges_from)%elem_of_map. by apply IH.
Qed.

Lemma paths_step x z y : direct l x z -> N z y <= N x y.
Proof.
  intros Hz%elem_of_edges_from. rewrite (HN x y).
  pose proof (sum_ge (fun z => N z y) (edges_from l x) z (fun w _ => paths_nonneg w y) Hz).
  cbn in *. destruct (decide (x = y)); lia.
Qed.

(** There is a path exactly when the member is reached. *)
Lemma paths_pos x y : 0 < N x y <-> rtc (direct l) x y.
Proof.
  split.
  - induction (direct_sn l x Hacyc) as [x _ IH]. rewrite HN.
    destruct (decide (x = y)) as [->|Hne]; [done|]. intros H.
    destruct (sum_positive (fun z => N z y) (edges_from l x)) as (z & Hz & Hpos); [lia|].
    apply elem_of_edges_from in Hz. eapply rtc_l; [done|]. by apply IH.
  - induction 1 as [x|x z y Hxz _ IH].
    + rewrite HN. rewrite decide_True by done.
      assert (0 <= sum (map (fun z => N z x) (edges_from l x))); [|lia].
      apply sum_nonneg. intros v (z & <- & _)%elem_of_map. apply paths_nonneg.
    + pose proof (paths_step x z y Hxz). lia.
Qed.

Lemma paths_none x y : ~ rtc (direct l) x y -> N x y = 0.
Proof.
  intros H. pose proof (paths_nonneg x y). destruct (decide (N x y = 0)); [done|].
  destruct H. apply paths_pos. lia.
Qed.

Lemma no_return x z : direct l x z -> ~ rtc (direct l) z x.
Proof. intros H1 H2. apply (Hacyc x). by eapply tc_rtc_r; [apply tc_once|]. Qed.

Lemma paths_self x : N x x = 1.
Proof.
  rewrite HN, decide_True by done.
  rewrite (sum_ext _ (fun _ => 0)); [by induction (edges_from l x); cbn in *; lia|].
  intros z Hz%elem_of_edges_from. by apply paths_none, no_return.
Qed.
End paths.

(** The number of paths is determined. *)
Lemma counts_paths_unique l N N' x y :
  acyclic l -> counts_paths l N -> counts_paths l N' -> N x y = N' x y.
Proof.
  intros Hacyc HN HN'. induction (direct_sn l x Hacyc) as [x _ IH].
  rewrite HN, HN'. f_equal. apply sum_ext. intros z Hz%elem_of_edges_from. by apply IH.
Qed.

(** One more edge. *)
Lemma counts_paths_add l N a b :
  acyclic l -> counts_paths l N -> ~ rtc (direct l) b a ->
  counts_paths (l ++ [(a, b)]) (fun x y => N x y + N x a * N b y).
Proof.
  intros Hacyc HN Hno x y. cbn beta.
  rewrite (HN x y), (HN x a). unfold edges_from. rewrite List.filter_app, map_app, map_app, sum_app.
  rewrite sum_add. cbn. pose proof (paths_none l N Hacyc HN b a Hno) as Hba.
  destruct (decide (x = a)) as [->|Hne].
  - rewrite bool_decide_true by done. cbn. rewrite Hba. lia.
  - rewrite bool_decide_false by done. cbn. lia.
Qed.

Lemma edges_from_remove l a b x :
  NoDup l -> (a, b) ∈ l -> forall f : Z -> Z,
  sum (map f (edges_from l x))
  = sum (map f (edges_from (List.filter (fun e => negb (bool_decide (e = (a, b)))) l) x))
    + (if decide (x = a) then f b else 0).
Proof.
  intros Hnd Hin f. induction l as [|e l IH]; [by apply elem_of_nil in Hin|].
  apply NoDup_cons in Hnd as [He Hnd].
  unfold edges_from in *. cbn. apply elem_of_cons in Hin as [<-|Hin].
  - rewrite (bool_decide_true ((a, b) = (a, b))) by done. cbn [negb].
    rewrite (filter_bool_all (fun e => negb (bool_decide (e = (a, b)))) l).
    + cbn. destruct (decide (x = a)) as [->|Hne].
      * rewrite bool_decide_true by done. cbn. lia.
      * rewrite bool_decide_false by done. lia.
    + intros e' He'. apply negb_true_iff, bool_decide_eq_false. by intros ->.
  - rewrite (bool_decide_false (e = (a, b))) by (by intros ->). cbn.
    specialize (IH Hnd Hin). destruct (bool_decide (e.1 = x)); cbn; lia.
Qed.

(** One edge less. *)
Lemma counts_paths_remove l N a b :
  acyclic l -> NoDup l -> counts_paths l N -> (a, b) ∈ l ->
  counts_paths (List.filter (fun e => negb (bool_decide (e = (a, b)))) l)
    (fun x y => N x y - N x a * N b y).
Proof.
  intros Hacyc Hnd HN Hin x y. cbn beta. rewrite (HN x y), (HN x a), sum_sub.
  rewrite !(edges_from_remove l a b x Hnd Hin).
  rewrite (paths_none l N Hacyc HN b a) by (by apply no_return).
  destruct (decide (x = a)); lia.
Qed.

(** ** The statements on an exact table *)

Definition table_counts (N : Z -> Z -> Z) (rows : list tgm_row) : Prop :=
  forall g m c, TgmRow g m c ∈ rows <-> g <> m /\ c = N g m /\ 0 < c.

Section table.
Context (l : list (Z * Z)) (N : Z -> Z -> Z) (d : db).
Context (Hacyc : acyclic l) (HN : counts_paths l N) (Hnd : NoDup l).
Context (Htab : table_counts N (transitive_group_members d)).

Lemma row_of g m : g <> m -> rtc (direct l) g m ->
  TgmRow g m (N g m) ∈ transitive_group_members d.
Proof.
  intros Hne Hr. apply Htab. split; [done|]. split; [done|].
  by apply (paths_pos l N Hacyc HN).
Qed.

Lemma row_path t : t ∈ transitive_group_members d ->
  t_group t <> t_member t /\ rtc (direct l) (t_group t) (t_member t)
  /\ t_count t = N (t_group t) (t_member t).
Proof.
  destruct t as [g m c]. intros (Hne & -> & Hpos)%Htab. cbn.
  by rewrite (paths_pos l N Hacyc HN) in Hpos.
Qed.

Lemma elem_of_groups_of grp t :
  t ∈ groups_of grp d <-> t_member t = grp /\ t ∈ transitive_group_members d.
Proof. unfold groups_of. by rewrite elem_of_filter_bool, bool_decide_eq_true. Qed.

Lemma elem_of_members_of prin t :
  t ∈ members_of prin d <-> t_group t = prin /\ t ∈ transitive_group_members d.
Proof. unfold members_of. by rewrite elem_of_filter_bool, bool_decide_eq_true. Qed.

Lemma group_and_parents_spec grp x :
  x ∈ group_and_parents grp d <-> rtc (direct l) x grp.
Proof.
  unfold group_and_parents. rewrite elem_of_app, list_elem_of_singleton, elem_of_map. split.
  - intros [(t & <- & [<- Ht]%elem_of_groups_of)| ->]; [by apply row_path|done].
  - intros Hr. destruct (decide (x = grp)) as [->|Hne]; [by right|left].
    exists (TgmRow x grp (N x grp)). split; [done|]. apply elem_of_groups_of.
    split; [done|]. by apply row_of.
Qed.

Lemma prin_and_members_spec prin x :
  x ∈ prin_and_members prin d <-> rtc (direct l) prin x.
Proof.
  unfold prin_and_members. rewrite elem_of_app, list_elem_of_singleton, elem_of_map. split.
  - intros [(t & <- & [<- Ht]%elem_of_members_of)| ->]; [by apply row_path|done].
  - intros Hr. destruct (decide (x = prin)) as [->|Hne]; [by right|left].
    exists (TgmRow prin x (N prin x)). split; [done|]. apply elem_of_members_of.
    split; [done|]. by apply row_of.
Qed.

Lemma row_in_groups grp x : x <> grp -> rtc (direct l) x grp ->
  TgmRow x grp (N x grp) ∈ groups_of grp d.
Proof. intros. apply elem_of_groups_of. split; [done|]. by apply row_of. Qed.

Lemma row_in_members prin y : prin <> y -> rtc (direct l) prin y ->
  TgmRow prin y (N prin y) ∈ members_of prin d.
Proof. intros. apply elem_of_members_of. split; [done|]. by apply row_of. Qed.

(** When all paths go through one direct member there is one path. *)
Lemma one_path x y w :
  x <> y -> rtc (direct l) x y ->
  (forall z, direct l x z -> N z y = if decide (z = w) then 1 else 0) -> N x y = 1.
Proof.
  intros Hne Hpos%(paths_pos l N Hacyc HN) Hz. rewrite HN, decide_False in Hpos |- * by done.
  assert (Hsum : sum (map (fun z => N z y) (edges_from l x))
                 = if decide (w ∈ edges_from l x) then 1 else 0).
  { apply sum_indicator; [by apply NoDup_edges_from|].
    intros z H%elem_of_edges_from. by apply Hz. }
  rewrite Hsum in *. destruct (decide _); lia.
Qed.

(** A subquery that has one row at most has the count 1, and then there is one path
    at most through the groups, or to the members. *)
Lemma scalar_groups grp c :
  scalar_or_1 (map t_count (groups_of grp d)) = Some c ->
  c = 1 /\ forall x, rtc (direct l) x grp -> N x grp = 1.
Proof.
  pose proof (row_in_groups grp) as Hrow.
  pose proof (fun t Ht => proj1 (elem_of_groups_of grp t) Ht) as Hof.
  destruct (groups_of grp d) as [|t [|]]; cbn; [| |done]; intros [= <-].
  { split; [done|]. intros x Hx. destruct (decide (x = grp)) as [->|Hne];
      [by apply (paths_self l N)|]. by apply Hrow, elem_of_nil in Hx. }
  destruct (Hof t ltac:(by left)) as [Hm (Hne & Hr & Hc)%row_path]. rewrite Hm in *.
  assert (H1 : N (t_group t) grp = 1).
  { apply (one_path _ _ grp); [done..|]. intros z Hz.
    destruct (decide (z = grp)) as [->|Hz']; [by apply (paths_self l N)|].
    apply (paths_none l N); [done..|]. intros H. apply Hrow, list_elem_of_singleton in H; [|done].
    subst t. by apply (no_return l Hacyc _ _ Hz). }
  split; [congruence|]. intros x Hx. destruct (decide (x = grp)) as [->|Hx'];
    [by apply (paths_self l N)|]. apply Hrow, list_elem_of_singleton in Hx; [|done]. by subst t.
Qed.

Lemma scalar_members prin c :
  scalar_or_1 (map t_count (members_of prin d)) = Some c ->
  c = 1 /\ forall y, rtc (direct l) prin y -> N prin y = 1.
Proof.
  pose proof (row_in_members prin) as Hrow.
  pose proof (fun t Ht => proj1 (elem_of_members_of prin t) Ht) as Hof.
  destruct (members_of prin d) as [|t [|]]; cbn; [| |done]; intros [= <-].
  { split; [done|]. intros y Hy. destruct (decide (prin = y)) as [->|Hne];
      [by apply (paths_self l N)|]. by apply Hrow, elem_of_nil in Hy. }
  destruct (Hof t ltac:(by left)) as [Hm (Hne & Hr & Hc)%row_path]. rewrite Hm in *.
  assert (H1 : N prin (t_member t) = 1).
  { apply (one_path _ _ (t_member t)); [done..|]. intros z Hz.
    assert (z = t_member t) as ->; [|rewrite decide_True by done; by apply (paths_self l N)].
    destruct (decide (prin = z)) as [->|Hz']; [by destruct (no_return l Hacyc _ _ Hz)|].
    apply rtc_once, Hrow, list_elem_of_singleton in Hz; [by subst t|done]. }
  split; [congruence|]. intros y Hy. destruct (decide (prin = y)) as [->|Hy'];
    [by apply (paths_self l N)|]. apply Hrow, list_elem_of_singleton in Hy; [|done]. by subst t.
Qed.

Lemma joined_spec grp prin t :
  joined grp prin d t = true
  <-> rtc (direct l) (t_group t) grp /\ rtc (direct l) prin (t_member t).
Proof.
  unfold joined. by rewrite bool_decide_eq_true, group_and_parents_spec, prin_and_members_spec.
Qed.

Lemma unjoined_zero grp prin g m c :
  joined grp prin d (TgmRow g m c) = false -> N g grp * N prin m = 0.
Proof.
  intros Hj. assert (H : ~ (rtc (direct l) g grp /\ rtc (direct l) prin m)).
  { rewrite <- (joined_spec grp prin (TgmRow g m c)). congruence. }
  destruct (decide (N g grp = 0)) as [->|]; [lia|].
  rewrite (paths_none l N Hacyc HN prin); [lia|]. intros H2. apply H. split; [|done].
  apply (paths_pos l N Hacyc HN). pose proof (paths_nonneg l N Hacyc HN g grp). lia.
Qed.

(** The UPDATE, when it is accepted: every count changes by the number of paths
    through the edge. *)
Lemma change_counts_spec op grp prin r d' :
  (forall c, op c 0 = c) ->
  change_counts_stmt op grp prin d = Some (r, d') ->
  group_members d' = group_members d
  /\ map pair_of (transitive_group_members d') = map pair_of (transitive_group_members d)
  /\ forall g m c, TgmRow g m c ∈ transitive_group_members d'
       <-> g <> m /\ 0 < N g m /\ c = op (N g m) (N g grp * N prin m).
Proof.
  intros Hop. unfold change_counts_stmt.
  destruct (existsb (joined grp prin d) _) eqn:Hex.
  - destruct (scalar_or_1 _) as [a|] eqn:Ha; [|done].
    destruct (scalar_or_1 (map t_count (members_of _ _))) as [b|] eqn:Hb; [|done].
    intros [= _ <-]. cbn. apply scalar_groups in Ha as [-> Ha].
    apply scalar_members in Hb as [-> Hb]. split; [done|]. split.
    { rewrite map_map. apply map_ext. intros t. by destruct (joined grp prin d t). }
    intros g m c. rewrite elem_of_map. split.
    + intros (t & Ht & Hin). pose proof (row_path t Hin) as (Hne & Hr & Hc).
      apply (paths_pos l N Hacyc HN) in Hr. destruct (joined grp prin d t) eqn:Hj.
      * injection Ht as <- <- <-. apply joined_spec in Hj as [H1 H2].
        by rewrite Hc, (Ha _ H1), (Hb _ H2).
      * subst t. cbn in *. by rewrite (unjoined_zero _ _ _ _ _ Hj), Hop.
    + intros (Hne & Hpos & ->). exists (TgmRow g m (N g m)). cbn. split.
      * destruct (joined _ _ _ _) eqn:Hj.
        -- apply joined_spec in Hj as [H1 H2]. cbn in *. by rewrite (Ha _ H1), (Hb _ H2).
        -- by rewrite (unjoined_zero _ _ _ _ _ Hj), Hop.
      * by apply Htab.
  - intros [= _ <-]. split; [done|]. split; [done|]. intros g m c. rewrite (Htab g m c).
    assert (H : 0 < N g m -> g <> m -> N g grp * N prin m = 0).
    { intros Hpos Hne. apply (unjoined_zero _ _ _ _ (N g m)).
      assert (Hin : TgmRow g m (N g m) ∈ transitive_group_members d) by (by apply Htab).
      apply list_elem_of_In in Hin. apply not_true_iff_false. intros Hj.
      apply not_true_iff_false in Hex. apply Hex, existsb_exists. eauto. }
    split; [intros (? & -> & ?)|intros (? & ? & ->)]; rewrite H, Hop by done; done.
Qed.
End table.

Lemma pair_in_table d g m :
  (g, m) ∈ map pair_of (transitive_group_members d)
  <-> exists c, TgmRow g m c ∈ transitive_group_members d.
Proof.
  rewrite elem_of_map. unfold pair_of. split.
  - intros ([g' m' c] & [= <- <-] & Ht). by exists c.
  - intros (c & Ht). by exists (TgmRow g m c).
Qed.

(** The rows the INSERT adds. *)
Lemma insert_pairs_spec grp prin d r d' :
  insert_pairs_stmt grp prin d = Some (r, d') ->
  group_members d' = group_members d
  /\ NoDup (map pair_of (transitive_group_members d'))
  /\ forall x y c, TgmRow x y c ∈ transitive_group_members d'
       <-> TgmRow x y c ∈ transitive_group_members d
           \/ ((x, y) ∉ map pair_of (transitive_group_members d)
               /\ exists a b, c = a * b
                  /\ (TgmRow x grp a ∈ transitive_group_members d \/ x = grp /\ a = 1)
                  /\ (TgmRow prin y b ∈ transitive_group_members d \/ y = prin /\ b = 1)).
Proof.
  unfold insert_pairs_stmt.
  set (g := remove_dups (map (fun t => (t_group t, t_count t)) _ ++ _)).
  set (m := remove_dups (map (fun t => (t_member t, t_count t)) _ ++ _)).
  case_bool_decide as Hnd; [|done]. intros [= _ <-]. cbn. split; [done|]. split; [done|].
  assert (Hg : forall x a, (x, a) ∈ g
    <-> TgmRow x grp a ∈ transitive_group_members d \/ x = grp /\ a = 1).
  { intros x a. unfold g. rewrite elem_of_remove_dups, elem_of_app, elem_of_map,
      list_elem_of_singleton. setoid_rewrite elem_of_groups_of. split.
    - intros [([u v w] & [= <- <-] & <- & Ht)|[= <- <-]]; auto.
    - intros [Ht|[-> ->]]; [left; by exists (TgmRow x grp a)|auto]. }
  assert (Hm : forall y b, (y, b) ∈ m
    <-> TgmRow prin y b ∈ transitive_group_members d \/ y = prin /\ b = 1).
  { intros y b. unfold m. rewrite elem_of_remove_dups, elem_of_app, elem_of_map,
      list_elem_of_singleton. setoid_rewrite elem_of_members_of. split.
    - intros [([u v w] & [= <- <-] & <- & Ht)|[= <- <-]]; auto.
    - intros [Ht|[-> ->]]; [left; by exists (TgmRow prin y b)|auto]. }
  intros x y c. rewrite elem_of_app, elem_of_filter_bool, negb_true_iff, bool_decide_eq_false,
    elem_of_flat_map. setoid_rewrite elem_of_map. setoid_rewrite <- Hg.
  setoid_rewrite <- Hm. split.
  - intros [H|(Hout & [x' a] & Ha & [y' b] & [= <- <- <-] & Hb)]; [by left|right]; eauto 6.
  - intros [H|(Hout & a & b & -> & Ha & Hb)]; [by left|right]. split; [done|].
    exists (x, a). split; [done|]. by exists (y, b).
Qed.

(** ** Adding and removing keep the table exact *)

Lemma acyclic_add l a b :
  acyclic l -> ~ rtc (direct l) b a -> acyclic (l ++ [(a, b)]).
Proof.
  intros Hacyc Hno g. rewrite tc_add_edge. intros [H|[Ha Hb]]; [by apply (Hacyc g)|].
  apply Hno. by etrans.
Qed.

Lemma acyclic_filter f l : acyclic l -> acyclic (List.filter f l).
Proof.
  intros H g Hg. apply (H g). revert Hg. apply direct_mono.
  by intros x [_ Hx]%elem_of_filter_bool.
Qed.

Lemma table_add l N grp prin d d1 d2 r1 r2 :
  acyclic l -> NoDup l -> counts_paths l N -> table_counts N (transitive_group_members d) ->
  ~ rtc (direct l) prin grp ->
  change_counts_stmt Z.add grp prin d = Some (r1, d1) ->
  insert_pairs_stmt grp prin d1 = Some (r2, d2) ->
  group_members d2 = group_members d
  /\ NoDup (map pair_of (transitive_group_members d2))
  /\ table_counts (fun x y => N x y + N x grp * N prin y) (transitive_group_members d2).
Proof.
  intros Hacyc Hnd HN Htab Hno H1 H2.
  destruct (change_counts_spec l N d Hacyc HN Hnd Htab _ _ _ _ _ Z.add_0_r H1) as (Hg1 & _ & Hr1).
  destruct (insert_pairs_spec _ _ _ _ _ H2) as (Hg2 & Hu2 & Hr2).
  split; [congruence|]. split; [done|].
  assert (Hback : N prin grp = 0) by (by apply (paths_none l N)).
  pose proof (paths_nonneg l N Hacyc HN) as Hpos.
  assert (Hup : forall x a, TgmRow x grp a ∈ transitive_group_members d1 \/ x = grp /\ a = 1
                <-> a = N x grp /\ 0 < a).
  { intros x a. rewrite Hr1, Hback. destruct (decide (x = grp)) as [->|Hne].
    - rewrite (paths_self l N) by done. naive_solver lia.
    - split; [intros [(_ & ? & ->)|[? _]]; [lia|done]|intros [-> ?]; left; lia]. }
  assert (Hdown : forall y b, TgmRow prin y b ∈ transitive_group_members d1 \/ y = prin /\ b = 1
                  <-> b = N prin y /\ 0 < b).
  { intros y b. rewrite Hr1, Hback. destruct (decide (y = prin)) as [->|Hne].
    - rewrite (paths_self l N) by done. naive_solver lia.
    - split; [intros [(_ & ? & ->)|[? _]]; [lia|done]|intros [-> ?]; left; lia]. }
  intros x y c. rewrite Hr2, pair_in_table. setoid_rewrite Hup. setoid_rewrite Hdown.
  setoid_rewrite Hr1. specialize (Hpos x y) as Hxy.
  pose proof (Hpos x grp). pose proof (Hpos prin y). split.
  - intros [(Hne & Hc & ->)|(Hout & a & b & -> & [-> Ha] & [-> Hb])]; [split; [done|]; lia|].
    assert (Hne : x <> y).
    { intros ->. apply Hno. etrans; [by apply (paths_pos l N)|by apply (paths_pos l N)]. }
    assert (N x y = 0); [|nia].
    destruct (decide (N x y = 0)); [done|]. destruct Hout. eexists. split; [done|].
    split; [lia|done].
  - intros (Hne & -> & H3). destruct (decide (0 < N x y)) as [H4|H4]; [by left|right].
    split; [by intros (? & _ & ? & _)|].
    exists (N x grp), (N prin y). assert (N x y = 0) by lia. nia.
Qed.

(** The join depends on the pairs only. *)
Lemma joined_pairs grp prin d d' t :
  map pair_of (transitive_group_members d') = map pair_of (transitive_group_members d) ->
  joined grp prin d' t = joined grp prin d t.
Proof.
  assert (Hg : forall d, map t_group (groups_of grp d)
    = map fst (List.filter (fun p => bool_decide (p.2 = grp))
                 (map pair_of (transitive_group_members d)))).
  { intros d1. unfold groups_of. induction (transitive_group_members d1) as [|u l IH]; [done|].
    cbn. case_bool_decide; cbn; by rewrite IH. }
  assert (Hm : forall d, map t_member (members_of prin d)
    = map snd (List.filter (fun p => bool_decide (p.1 = prin))
                 (map pair_of (transitive_group_members d)))).
  { intros d1. unfold members_of. induction (transitive_group_members d1) as [|u l IH]; [done|].
    cbn. case_bool_decide; cbn; by rewrite IH. }
  intros H. unfold joined, group_and_parents, prin_and_members. by rewrite !Hg, !Hm, H.
Qed.

Lemma table_remove l N grp prin d d1 r1 :
  acyclic l -> NoDup l -> counts_paths l N -> table_counts N (transitive_group_members d) ->
  NoDup (map pair_of (transitive_group_members d)) ->
  (grp, prin) ∈ l ->
  change_counts_stmt Z.sub grp prin d = Some (r1, d1) ->
  let d2 := delete_zeros_stmt grp prin d1 in
  group_members d2 = group_members d
  /\ NoDup (map pair_of (transitive_group_members d2))
  /\ table_counts (fun x y => N x y - N x grp * N prin y) (transitive_group_members d2).
Proof.
  intros Hacyc Hnd HN Htab Hu Hin H1 d2.
  destruct (change_counts_spec l N d Hacyc HN Hnd Htab _ _ _ _ _ Z.sub_0_r H1) as (Hg1 & Hp1 & Hr1).
  split; [done|]. split; [apply NoDup_map_filter; by rewrite Hp1|].
  pose proof (counts_paths_remove l N grp prin Hacyc Hnd HN Hin) as HN'.
  pose proof (paths_nonneg _ _ (acyclic_filter _ _ Hacyc) HN') as Hpos'. cbn beta in Hpos'.
  pose proof (paths_nonneg l N Hacyc HN) as Hpos.
  assert (Hj : forall x y c, 0 < N x grp -> 0 < N prin y ->
            joined grp prin d1 (TgmRow x y c) = true).
  { intros x y c Hx%(paths_pos l N Hacyc HN) Hy%(paths_pos l N Hacyc HN).
    rewrite (joined_pairs grp prin d d1) by done. by apply (joined_spec l N). }
  intros x y c. cbn. rewrite elem_of_filter_bool, Hr1, negb_true_iff, andb_false_iff.
  rewrite bool_decide_eq_false. cbn. specialize (Hpos' x y).
  pose proof (Hpos x grp). pose proof (Hpos prin y). split.
  - intros [Hz (Hne & H3 & ->)]. split; [done|]. split; [done|].
    destruct (decide (N x grp * N prin y = 0)); [lia|].
    destruct Hz as [Hz|Hz]; [|lia]. rewrite Hj in Hz; [done|nia|nia].
  - intros (Hne & -> & H3). split; [right; lia|]. split; [done|]. split; [nia|done].
Qed.

(** ** The operations *)

Lemma will_loop_query d grp prin :
  groups_exact d ->
  (let positive := List.filter (fun t => bool_decide (0 < t_count t)) in
   let g := map t_group (positive (groups_of grp d)) ++ [grp] in
   let m := map t_member (positive (members_of prin d)) ++ [prin] in
   existsb (fun x => bool_decide (x ∈ m)) g) = true
  <-> rtc (direct (group_members d)) prin grp.
Proof.
  intros [Hnd Hacyc _ (N & HN & Htab)]. cbn zeta.
  rewrite !filter_bool_all; cycle 1.
  1, 2: intros [g m c] [_ (_ & _ & Hc)%Htab]%elem_of_filter_bool; by apply bool_decide_eq_true.
  fold (group_and_parents grp d). fold (prin_and_members prin d).
  rewrite existsb_exists. setoid_rewrite <- list_elem_of_In.
  setoid_rewrite bool_decide_eq_true.
  setoid_rewrite (group_and_parents_spec _ N d Hacyc HN Htab).
  setoid_rewrite (prin_and_members_spec _ N d Hacyc HN Htab). split.
  - intros (x & H1 & H2). by etrans.
  - intros H. by exists grp.
Qed.

Lemma answer_zero q : answer q = 0 -> q = Some false.
Proof. by destruct q as [[]|]. Qed.

(** The two checks: a conflict without effect, or no loop to come. *)
Lemma add_prin_run grp prin s :
  groups_exact (c_db s) ->
  ((sabridge_add_prin_to_grp grp prin s).1 = Some (dav_new_error HTTP_CONFLICT)
   /\ c_db (sabridge_add_prin_to_grp grp prin s).2 = c_db s)
  \/ (~ rtc (direct (group_members (c_db s))) prin grp
      /\ exists s1, c_db s1 = c_db s
           /\ sabridge_add_prin_to_grp grp prin s
              = (TRY dbms_add_prin_to_group grp prin ;;
                 dbms_add_prin_to_grp_xitively grp prin)%lime s1).
Proof.
  intros Hge. unfold sabridge_add_prin_to_grp, dbms_is_prin_in_grp. rewrite !bind_run.
  set (f1 := fun d => bool_decide ((prin, grp) ∈ group_members d)).
  pose proof (select_db f1 s) as Hd1. destruct (select f1 s) as [q1 s1]. cbn [fst snd] in *.
  rewrite ret_run. cbn [fst snd].
  case_bool_decide as H1; cbn [negb]; [|left; by rewrite ret_run].
  unfold dbms_will_loop_prin_add_grp. rewrite !bind_run.
  match goal with |- context [select ?f s1] => set (f2 := f) end.
  pose proof (select_db f2 s1) as Hd2. pose proof (select_result f2 s1) as Hr2.
  destruct (select f2 s1) as [q2 s2]. cbn [fst snd] in *. rewrite ret_run. cbn [fst snd].
  case_bool_decide as H2; cbn [negb]; [|left; rewrite ret_run; cbn; by rewrite Hd2].
  right. split; [|exists s2; by rewrite Hd2].
  apply answer_zero in H2. subst q2. specialize (Hr2 _ eq_refl).
  rewrite Hd1 in Hr2. intros H. apply (will_loop_query _ _ _ Hge) in H.
  unfold f2 in Hr2. cbn zeta in *. congruence.
Qed.

(** C28. Adding a principal to a group either succeeds, and then the group has the one
    new member, the graph no loop, and every count is again the number of paths; or
    it is an error, without effect when the status is a conflict.  A principal from
    which the group is reached, or the group itself, is refused. *)
Theorem add_prin_to_grp_spec grp prin s :
  groups_exact (c_db s) ->
  match sabridge_add_prin_to_grp grp prin s with
  | (None, s') =>
      groups_exact (c_db s')
      /\ group_members (c_db s') = group_members (c_db s) ++ [(grp, prin)]
      /\ ~ rtc (direct (group_members (c_db s))) prin grp
  | (Some e, s') => err_status e = HTTP_CONFLICT -> c_db s' = c_db s
  end.
Proof.
  intros Hge. destruct (add_prin_run grp prin s Hge) as [[H1 H2]|(Hno & s1 & Hd1 & ->)].
  { destruct (sabridge_add_prin_to_grp grp prin s) as [o s']. cbn in *. by subst o. }
  destruct Hge as [Hnd Hacyc _ (N & HN & Htab)].
  unfold dbms_add_prin_to_group. rewrite !bind_run.
  match goal with |- context [execute ?f s1] => set (stmt := f) end.
  destruct (execute_cases stmt s1) as [[He Hd]|(r & d & Hs & He & Hd)]; rewrite He, ret_run;
    cbn [fst snd err_of]; [by rewrite ret_run|].
  unfold stmt in Hs. cbn in Hs. rewrite Hd1 in Hs. case_bool_decide as Hnew; [done|].
  assert (d = set_group_members (group_members (c_db s) ++ [(grp, prin)]) (c_db s)) as ->
    by congruence. clear Hs.
  destruct (execute stmt s1) as [o2 s2]. cbn [fst snd] in *.
  unfold dbms_add_prin_to_grp_xitively. rewrite bind_run.
  destruct (execute_cases (change_counts_stmt Z.add grp prin) s2)
    as [[He2 Hd2]|(r2 & d2 & Hs2 & He2 & Hd2)]; rewrite He2.
  { by rewrite ret_run. }
  destruct (execute (change_counts_stmt Z.add grp prin) s2) as [o3 s3]. cbn [fst snd] in *.
  rewrite bind_run.
  destruct (execute_cases (insert_pairs_stmt grp prin) s3)
    as [[He3 Hd3]|(r3 & d3 & Hs3 & He3 & Hd3)]; rewrite He3, ret_run; cbn; [done|].
  rewrite Hd3. rewrite Hd in Hs2. rewrite Hd2 in Hs3.
  destruct (table_add (group_members (c_db s)) N grp prin
              (set_group_members (group_members (c_db s) ++ [(grp, prin)]) (c_db s))
              d2 d3 r2 r3 Hacyc Hnd HN Htab Hno Hs2 Hs3)
    as (Hg & Hu & Ht). cbn in Hg.
  split; [|done]. split; [|by rewrite Hg; apply acyclic_add|done|].
  - rewrite Hg. apply NoDup_app. repeat split; [done|set_solver|apply NoDup_singleton].
  - rewrite Hg. eexists. split; [by apply counts_paths_add|done].
Qed.

(** Removing a member either succeeds, and then the group has one member less and
    every count is again the number of paths; or it is an internal error. *)
Theorem rem_prin_frm_grp_spec grp prin s :
  groups_exact (c_db s) -> (grp, prin) ∈ group_members (c_db s) ->
  match sabridge_rem_prin_frm_grp grp prin s with
  | (None, s') =>
      groups_exact (c_db s')
      /\ group_members (c_db s')
         = List.filter (fun x => negb (bool_decide (x = (grp, prin)))) (group_members (c_db s))
  | (Some e, _) => err_status e = HTTP_INTERNAL_SERVER_ERROR
  end.
Proof.
  intros [Hnd Hacyc Hu (N & HN & Htab)] Hin.
  unfold sabridge_rem_prin_frm_grp, dbms_rem_prin_frm_grp. rewrite !bind_run.
  match goal with |- context [update ?f s] => set (f1 := f) end.
  destruct (update_cases f1 s) as [[He Hd]|[He Hd]]; rewrite He, ret_run;
    cbn [fst snd err_of]; [by rewrite ret_run|].
  destruct (update f1 s) as [o1 s1]. cbn [fst snd] in *.
  unfold dbms_rem_prin_frm_grp_xitively. rewrite bind_run.
  destruct (execute_cases (change_counts_stmt Z.sub grp prin) s1)
    as [[He2 Hd2]|(r2 & d2 & Hs2 & He2 & Hd2)]; rewrite He2; [by rewrite ret_run|].
  destruct (execute (change_counts_stmt Z.sub grp prin) s1) as [o2 s2]. cbn [fst snd] in *.
  rewrite bind_run.
  destruct (update_cases (delete_zeros_stmt grp prin) s2) as [[He3 Hd3]|[He3 Hd3]];
    rewrite He3, ret_run; cbn [err_of]; [done|].
  rewrite Hd3, Hd2. rewrite Hd in Hs2.
  destruct (table_remove (group_members (c_db s)) N grp prin (f1 (c_db s)) d2 r2
              Hacyc Hnd HN Htab Hu Hin Hs2) as (Hg & Hu2 & Ht2).
  split; [|done].
  split; [|by rewrite Hg; apply acyclic_filter|done|].
  - rewrite Hg. cbn. by apply NoDup_filter_bool.
  - rewrite Hg. eexists. split; [by apply counts_paths_remove|done].
Qed.

(** The subqueries of the UPDATE are not restricted to the updated row, so when the
    group is in two groups, or the member has two members, removal always fails. *)
Theorem nested_removal_fails grp prin s :
  groups_exact (c_db s) -> (grp, prin) ∈ group_members (c_db s) ->
  (2 <= length (groups_of grp (c_db s)) \/ 2 <= length (members_of prin (c_db s)))%nat ->
  (sabridge_rem_prin_frm_grp grp prin s).1 = Some (dav_new_error HTTP_INTERNAL_SERVER_ERROR).
Proof.
  intros [Hnd Hacyc _ (N & HN & Htab)] Hin Hlen.
  assert (Hnone : forall l : list tgm_row, (2 <= length l)%nat -> scalar_or_1 (map t_count l) = None).
  { intros [|? [|]]; cbn; [lia..|done]. }
  unfold sabridge_rem_prin_frm_grp, dbms_rem_prin_frm_grp. rewrite !bind_run.
  match goal with |- context [update ?f s] => set (f1 := f) end.
  destruct (update_cases f1 s) as [[He Hd]|[He Hd]]; rewrite He, ret_run;
    cbn [fst snd err_of]; [by rewrite ret_run|].
  destruct (update f1 s) as [o1 s1]. cbn [fst snd] in *.
  unfold dbms_rem_prin_frm_grp_xitively. rewrite bind_run.
  assert (Hstmt : change_counts_stmt Z.sub grp prin (c_db s1) = None).
  { rewrite Hd. unfold change_counts_stmt.
    change (transitive_group_members (f1 (c_db s))) with (transitive_group_members (c_db s)).
    change (joined grp prin (f1 (c_db s))) with (joined grp prin (c_db s)).
    change (groups_of grp (f1 (c_db s))) with (groups_of grp (c_db s)).
    change (members_of prin (f1 (c_db s))) with (members_of prin (c_db s)).
    replace (existsb _ _) with true.
    - destruct Hlen as [Hl|Hl]; rewrite (Hnone _ Hl); [done|by destruct (scalar_or_1 _)].
    - symmetry. apply existsb_exists. exists (TgmRow grp prin (N grp prin)).
      rewrite <- list_elem_of_In. split.
      + apply (row_of _ N _ Hacyc HN Htab); [|by apply rtc_once].
        intros ->. by apply (Hacyc prin), tc_once.
      + by apply (joined_spec _ N _ Hacyc HN Htab). }
  destruct (execute_cases (change_counts_stmt Z.sub grp prin) s1)
    as [[He2 Hd2]|(r2 & d2 & Hs2 & He2 & Hd2)]; [|congruence].
  rewrite He2. by rewrite ret_run.
Qed.
