(* ===== verification/GroupMembers.v ===== *)
(** * Setting the members of a group ([acl_liveprops.c], [dbms_principal.c])

    The outer joins of [dbms_calculate_group_changes] and the loop over their rows
    find what to add and what to remove, and after the changes the members of the
    group are exactly the principals named. *)
From S2P Require Import Prelude Util Db Bind Resource DbmsDeltav Bridge Groups GroupCounts.
Local Open Scope Z_scope.
Local Open Scope limestone_scope.

(** The rows of the schema: names of principals are unique and not empty, every
    principal has one resource, a positive number, and every member is a
    principal. *)
Record principals_ok (d : db) : Prop := {
  po_names : NoDup (map p_name (principals d));
  po_ids : NoDup (map p_res (principals d));
  po_nonempty p : p ∈ principals d -> p_name p <> EmptyString;
  po_resources : NoDup (map r_id (resources d));
  po_resource p : p ∈ principals d -> exists r, r ∈ resources d /\ r_id r = p_res p;
  po_positive r : r ∈ resources d -> 0 < r_id r;
  po_members g m : (g, m) ∈ group_members d -> exists p, p ∈ principals d /\ p_res p = m
}.

Definition id_of (d : db) (n : string) : option Z :=
  option_map p_res (List.find (fun p => bool_decide (p_name p = n)) (principals d)).

Section rows.
Context (d : db) (Hok : principals_ok d).

Lemma id_of_some n i : id_of d n = Some i <-> exists p, p ∈ principals d /\ p_name p = n /\ p_res p = i.
Proof.
  unfold id_of. split.
  - destruct (List.find _ _) as [p|] eqn:Hp; [|done]. intros [= <-].
    apply find_some in Hp as [Hin Hn%bool_decide_eq_true]. apply list_elem_of_In in Hin. eauto.
  - intros (p & Hin & <- & <-). destruct (List.find _ _) as [q|] eqn:Hq.
    + apply find_some in Hq as [Hq Hn%bool_decide_eq_true]. apply list_elem_of_In in Hq. cbn.
      by rewrite (NoDup_map_eq p_name (principals d) q p (po_names d Hok) Hq Hin Hn).
    + apply find_none with (x := p) in Hq; [|by apply list_elem_of_In].
      by apply bool_decide_eq_false in Hq.
Qed.

(** A filter on a key gives the one row that has it. *)
Lemma filter_key {A B} `{EqDecision B} (f : A -> B) (l : list A) k :
  NoDup (map f l) ->
  List.filter (fun x => bool_decide (f x = k)) l
  = match List.find (fun x => bool_decide (f x = k)) l with Some x => [x] | None => [] end.
Proof.
  induction l as [|x l IH]; [done|]. cbn. intros [Hx Hnd]%NoDup_cons.
  case_bool_decide as Hk; [|by apply IH]. f_equal. apply filter_bool_none.
  intros y Hy. apply bool_decide_eq_false. intros Hk'. apply Hx, elem_of_map.
  exists y. split; [congruence|done].
Qed.

Lemma named_rows_eq names : named_rows names d = map (fun n => (n, id_of d n)) names.
Proof.
  unfold named_rows, id_of. induction names as [|n names IH]; [done|].
  cbn [flat_map]. rewrite IH, (filter_key p_name) by apply (po_names d Hok).
  cbn [map]. by destruct (List.find _ _).
Qed.

(** The row of a name: 0 when it names no principal. *)
Definition row_of_name (cur : list Z) (n : string) : string * Z * bool :=
  match id_of d n with
  | Some i => (n, i, bool_decide (i ∈ cur))
  | None => (n, 0, false)
  end.

Lemma resource_filter i f :
  (exists r, r ∈ resources d /\ r_id r = i) ->
  (forall r, f r = bool_decide (r_id r = i)) ->
  exists r, List.filter f (resources d) = [r] /\ r_id r = i.
Proof.
  intros (r & Hr & Hi) Hf.
  rewrite (filter_ext f (fun r => bool_decide (r_id r = i)) Hf).
  rewrite (filter_key r_id) by apply (po_resources d Hok).
  destruct (List.find _ _) as [q|] eqn:Hq.
  - apply find_some in Hq as [_ Hq%bool_decide_eq_true]. eauto.
  - apply find_none with (x := r) in Hq; [|by apply list_elem_of_In].
    by apply bool_decide_eq_false in Hq.
Qed.

Lemma with_resource_one name prin member i :
  (exists r, r ∈ resources d /\ r_id r = i) ->
  (forall k, prin = Some k \/ member = Some k <-> k = i) ->
  with_resource d (name, prin, member)
  = [(default EmptyString name, i, bool_decide (is_Some prin /\ prin = member))].
Proof.
  intros Hres Hk. unfold with_resource.
  destruct (resource_filter i
    (fun r => bool_decide (prin = Some (r_id r) \/ member = Some (r_id r))) Hres)
    as (r & Hr & Hri); [intros r; by apply bool_decide_ext|].
  rewrite Hr. cbn. by rewrite Hri.
Qed.

Lemma with_resource_name n cur :
  NoDup cur ->
  flat_map (with_resource d)
    (match List.filter (fun m => bool_decide (id_of d n = Some m)) cur with
     | [] => [(Some n, id_of d n, None)]
     | ms => map (fun m => (Some n, id_of d n, Some m)) ms
     end) = [row_of_name cur n].
Proof.
  intros Hcur. unfold row_of_name. destruct (id_of d n) as [i|] eqn:Hi.
  - assert (Hres : exists r, r ∈ resources d /\ r_id r = i).
    { apply id_of_some in Hi as (p & Hp & _ & <-). by apply (po_resource d Hok). }
    rewrite (filter_ext _ (fun m => bool_decide (Datatypes.id m = i))); cycle 1.
    { intros m. apply bool_decide_ext. unfold Datatypes.id. split; congruence. }
    rewrite (filter_key Datatypes.id) by (by rewrite map_id).
    destruct (List.find _ cur) as [m|] eqn:Hm; cbn [map flat_map].
    + apply find_some in Hm as [Hin Hm%bool_decide_eq_true]. unfold Datatypes.id in Hm. subst m.
      rewrite (bool_decide_true (i ∈ cur)) by by apply list_elem_of_In.
      rewrite (with_resource_one _ _ _ i); [|done|intros k; naive_solver].
      by rewrite bool_decide_true by (split; [by eexists|done]).
    + rewrite (bool_decide_false (i ∈ cur)); cycle 1.
      { intros Hin. apply find_none with (x := i) in Hm; [|by apply list_elem_of_In].
        by apply bool_decide_eq_false in Hm. }
      rewrite (with_resource_one _ _ _ i); [|done|intros k; naive_solver].
      by rewrite bool_decide_false by (by intros [_ ?]).
  - rewrite filter_bool_none by (intros m _; by apply bool_decide_eq_false). cbn.
    rewrite filter_bool_none; [|intros r _; apply bool_decide_eq_false; by intros [|]].
    done.
Qed.

(** All the rows: one for each name, and one for each member that is not named. *)
Definition unnamed (names : list string) (cur : list Z) : list Z :=
  List.filter (fun m => negb (bool_decide (Some m ∈ map (id_of d) names))) cur.

Lemma group_change_rows_eq names group :
  NoDup (current_members group d) ->
  group_change_rows names group d
  = map (row_of_name (current_members group d)) names
    ++ map (fun m => (EmptyString, m, false)) (unnamed names (current_members group d)).
Proof.
  intros Hcur. unfold group_change_rows, full_join. rewrite flat_map_app. f_equal.
  - rewrite named_rows_eq. match goal with |- context [flat_map ?g (map _ _)] => set (f := g) end.
    induction names as [|n names IH]; [done|].
    cbn [map flat_map]. rewrite flat_map_app, IH.
    replace (flat_map (with_resource d) (f (n, id_of d n)))
      with [row_of_name (current_members group d) n]; [done|].
    symmetry. by apply with_resource_name.
  - rewrite named_rows_eq, map_map.
    change (List.filter _ (current_members group d)) with (unnamed names (current_members group d)).
    assert (Hm : forall m, m ∈ unnamed names (current_members group d) ->
      exists r, r ∈ resources d /\ r_id r = m).
    { intros m [_ Hm]%elem_of_filter_bool. apply elem_of_map in Hm as ([g m'] & <- & Hm).
      apply elem_of_filter_bool in Hm as [_ Hm].
      apply (po_members d Hok) in Hm as (p & Hp & <-). by apply (po_resource d Hok). }
    induction (unnamed names (current_members group d)) as [|m l IH]; [done|].
    cbn [map flat_map]. rewrite IH by set_solver.
    rewrite (with_resource_one _ _ _ m); [|set_solver|intros k; naive_solver].
    by rewrite bool_decide_false by (intros [[? ?] _]; done).
Qed.
End rows.

(** ** The loop over the rows *)

Lemma change_loop_unnamed l H R H' R' :
  change_loop (map (fun m => (EmptyString, m, false)) l) H R = (None, H', R') ->
  H' = H /\ R' = R ++ l.
Proof.
  revert R. induction l as [|m l IH]; intros R; cbn.
  - intros [= <- <-]. by rewrite app_nil_r.
  - case_bool_decide; [done|]. intros [-> ->]%IH. by rewrite <- app_assoc.
Qed.

(** What the hash holds for a name in the end. *)
Definition to_add (d : db) (cur : list Z) (n : string) : option (option Z) :=
  match id_of d n with
  | Some i => if bool_decide (i ∈ cur) then None else Some (Some i)
  | None => None
  end.

Lemma change_loop_spec d names cur l H R H' R' :
  principals_ok d ->
  change_loop (map (row_of_name d cur) names ++ map (fun m => (EmptyString, m, false)) l) H R
  = (None, H', R') ->
  R' = R ++ l
  /\ forall n, H' !! n = if decide (n ∈ names) then to_add d cur n else H !! n.
Proof.
  intros Hok. revert H. induction names as [|n names IH]; intros H; cbn [map app].
  { intros [-> ->]%change_loop_unnamed. split; [done|]. intros n.
    by rewrite decide_False by apply not_elem_of_nil. }
  unfold row_of_name at 1. destruct (id_of d n) as [i|] eqn:Hi; cbn [change_loop]; [|done].
  assert (Hn : n <> EmptyString).
  { apply id_of_some in Hi as (p & Hp & <- & _); [|done]. by apply (po_nonempty d Hok). }
  case_bool_decide; [done|]. rewrite (bool_decide_false (n = EmptyString)) by done.
  assert (Hta : to_add d cur n = if bool_decide (i ∈ cur) then None else Some (Some i))
    by (unfold to_add; by rewrite Hi).
  destruct (bool_decide (i ∈ cur)); intros [-> HH]%IH; (split; [done|]); intros n'; rewrite HH;
    (destruct (decide (n' ∈ names)); [by rewrite decide_True by set_solver|]);
    (destruct (decide (n = n')) as [<-|Hne];
      [rewrite decide_True by set_solver|rewrite decide_False by set_solver]).
  - by rewrite Hta, lookup_delete_eq.
  - by rewrite lookup_delete_ne.
  - by rewrite Hta, lookup_insert_eq.
  - by rewrite lookup_insert_ne.
Qed.

(** ** The changes *)

Lemma remove_members_spec group l s s' :
  groups_exact (c_db s) -> NoDup l ->
  (forall m, m ∈ l -> (group, m) ∈ group_members (c_db s)) ->
  remove_members group l s = (None, s') ->
  groups_exact (c_db s')
  /\ forall g m, (g, m) ∈ group_members (c_db s')
       <-> (g, m) ∈ group_members (c_db s) /\ ~ (g = group /\ m ∈ l).
Proof.
  revert s. induction l as [|x l IH]; intros s Hge Hnd Hin; cbn.
  { intros [= <-]. split; [done|]. set_solver. }
  apply NoDup_cons in Hnd as [Hx Hnd]. rewrite bind_run.
  pose proof (rem_prin_frm_grp_spec group x s Hge (Hin x ltac:(by left))) as H1.
  destruct (sabridge_rem_prin_frm_grp group x s) as [[e|] s1]; cbn; [by rewrite ret_run|].
  destruct H1 as [Hge1 Hgm]. intros Hr.
  assert (Hgm' : forall g m, (g, m) ∈ group_members (c_db s1)
            <-> (g, m) ∈ group_members (c_db s) /\ ~ (g = group /\ m = x)).
  { intros g m. rewrite Hgm, elem_of_filter_bool, negb_true_iff, bool_decide_eq_false.
    naive_solver. }
  apply (IH s1) in Hr as [Hge' Hgm2]; [|done..|].
  - split; [done|]. intros g m. rewrite Hgm2, Hgm'. set_solver.
  - intros m Hm. apply Hgm'. split; [apply Hin; by right|]. by intros [_ ->].
Qed.

Lemma add_members_spec group l s s' :
  groups_exact (c_db s) -> add_members group l s = (Ret None, s') ->
  groups_exact (c_db s')
  /\ forall g m, (g, m) ∈ group_members (c_db s')
       <-> (g, m) ∈ group_members (c_db s)
           \/ g = group /\ exists n, (n, Some m) ∈ l.
Proof.
  revert s. induction l as [|[n [x|]] l IH]; intros s Hge; cbn; [intros [= <-]| |done].
  { split; [done|]. set_solver. }
  rewrite bind_run. pose proof (add_prin_to_grp_spec group x s Hge) as H1.
  destruct (sabridge_add_prin_to_grp group x s) as [[e|] s1]; cbn; [done|].
  destruct H1 as (Hge1 & Hgm & _). intros [Hge' Hgm2]%IH; [|done].
  split; [done|]. intros g m. rewrite Hgm2, Hgm, elem_of_app, list_elem_of_singleton.
  setoid_rewrite elem_of_cons. naive_solver.
Qed.

Lemma current_members_spec group d m :
  m ∈ current_members group d <-> (group, m) ∈ group_members d.
Proof.
  unfold current_members. rewrite elem_of_map. setoid_rewrite elem_of_filter_bool.
  setoid_rewrite bool_decide_eq_true. split.
  - intros ([g m'] & <- & <- & H). done.
  - intros H. by exists (group, m).
Qed.

Lemma flat_map_pick {A B} `{EqDecision A} (k : A) (v : list B) (l : list A) :
  NoDup l ->
  flat_map (fun x => if bool_decide (x = k) then v else []) l
  = if decide (k ∈ l) then v else [].
Proof.
  induction l as [|x l IH]; [done|]. intros [Hx Hnd]%NoDup_cons. cbn [flat_map].
  rewrite IH by done. case_bool_decide as Hk; [subst x|].
  - rewrite decide_False by done. rewrite decide_True by set_solver. apply app_nil_r.
  - destruct (decide (k ∈ l)); [by rewrite decide_True by set_solver|].
    by rewrite decide_False by set_solver.
Qed.

(** The identifiers listed for an empty set of names are those of all members. *)
Lemma group_member_ids_spec group d :
  principals_ok d ->
  NoDup (group_members d) ->
  NoDup (group_member_ids group d)
  /\ forall m, m ∈ group_member_ids group d <-> (group, m) ∈ group_members d.
Proof.
  intros Hok Hnd.
  assert (Heq : group_member_ids group d
    = map p_res (List.filter (fun p => bool_decide ((group, p_res p) ∈ group_members d))
                   (principals d))).
  { unfold group_member_ids. pose proof (po_resource d Hok) as Hres.
    induction (principals d) as [|p l IH]; [done|]. cbn [flat_map List.filter map].
    rewrite IH by (intros q Hq; apply Hres; by right). clear IH.
    assert (Hone : map r_id (List.filter (fun r => bool_decide (r_id r = p_res p)) (resources d))
                   = [p_res p]).
    { destruct (resource_filter d Hok (p_res p) (fun r => bool_decide (r_id r = p_res p)))
        as (r & -> & Hr); [apply Hres; by left|done|]. cbn. by rewrite Hr. }
    rewrite Hone, flat_map_pick by done. 
    case_bool_decide; [by rewrite decide_True|by rewrite decide_False]. }
  rewrite Heq. split; [apply NoDup_map_filter, (po_ids d Hok)|].
  intros m. rewrite elem_of_map. setoid_rewrite elem_of_filter_bool.
  setoid_rewrite bool_decide_eq_true. split.
  - by intros (p & <- & Hp & _).
  - intros Hm. destruct (po_members d Hok _ _ Hm) as (p & Hp & <-). eauto.
Qed.

(** The names, without repetition, and in the order of the hash. *)
Lemma elem_of_keys names n :
  n ∈ map fst (map_to_list (new_members_hash names)) <-> n ∈ names.
Proof.
  rewrite elem_of_map. unfold new_members_hash.
  induction names as [|n' names IH]; cbn.
  - rewrite map_to_list_empty. set_solver.
  - rewrite elem_of_cons, <- IH. split.
    + intros ([k o] & <- & Hk%elem_of_map_to_list). cbn.
      destruct (decide (n' = k)) as [->|Hne]; [by left|right].
      rewrite lookup_insert_ne in Hk by done. exists (k, o). split; [done|].
      by apply elem_of_map_to_list.
    + intros [->|([k o] & <- & Hk%elem_of_map_to_list)].
      * exists (n', None). split; [done|]. apply elem_of_map_to_list, lookup_insert_eq.
      * cbn. destruct (decide (n' = k)) as [->|Hne].
        -- exists (k, None). split; [done|]. apply elem_of_map_to_list, lookup_insert_eq.
        -- exists (k, o). split; [done|]. apply elem_of_map_to_list.
           by rewrite lookup_insert_ne.
Qed.

(** What validation finds: the members to remove, and the hash of those to add. *)
Definition found (d : db) (group : Z) (names : list string)
    (new_members : gmap string (option Z)) (to_remove : list Z) : Prop :=
  let named m := exists n, n ∈ names /\ id_of d n = Some m in
  NoDup to_remove
  /\ (forall m, m ∈ to_remove <-> (group, m) ∈ group_members d /\ ~ named m)
  /\ forall n m, new_members !! n = Some (Some m)
               <-> n ∈ names /\ id_of d n = Some m /\ (group, m) ∉ group_members d.

Lemma changes_found d group names new_members to_remove :
  principals_ok d -> NoDup (group_members d) ->
  let h := new_members_hash names in
  change_loop (group_change_rows (map fst (map_to_list h)) group d) h []
  = (None, new_members, to_remove) ->
  found d group names new_members to_remove.
Proof.
  intros Hok Hnd h. subst h. set (cur := current_members group d).
  assert (Hcur : NoDup cur) by (by apply NoDup_edges_from).
  assert (Hcm : forall m, m ∈ cur <-> (group, m) ∈ group_members d)
    by (intros m; apply current_members_spec).
  rewrite (group_change_rows_eq d Hok _ _ Hcur). fold cur.
  intros [-> HH]%(change_loop_spec d); [|done]. cbn. split.
  { by apply NoDup_filter_bool. }
  assert (Hkey : forall n o, new_members !! n = Some o
            <-> n ∈ names /\ exists i, id_of d n = Some i /\ i ∉ cur /\ o = Some i).
  { intros n o. rewrite HH. destruct (decide _) as [Hn|Hn]; rewrite (elem_of_keys names) in Hn.
    - unfold to_add. destruct (id_of d n) as [i|]; [|naive_solver].
      case_bool_decide; naive_solver.
    - split; [|naive_solver]. intros Ho. destruct Hn. apply (elem_of_keys names), elem_of_map.
      exists (n, o). split; [done|]. by apply elem_of_map_to_list. }
  split; intros m.
  - unfold unnamed. rewrite elem_of_filter_bool, negb_true_iff, bool_decide_eq_false.
    rewrite elem_of_map, (Hcm m). setoid_rewrite (elem_of_keys names).
    naive_solver.
  - intros m'. rewrite Hkey, <- Hcm. naive_solver.
Qed.

(** The query is executed, or no value of the hash is set. *)
Lemma validate_spec esc group names s new_members to_remove s' :
  principals_ok (c_db s) -> NoDup (group_members (c_db s)) ->
  dav_acl_patch_validate esc group names s = ((None, new_members, to_remove), s') ->
  c_db s' = c_db s
  /\ (found (c_db s) group names new_members to_remove
      \/ to_remove = [] /\ names <> [] /\ new_members = new_members_hash names).
Proof.
  intros Hok Hnd. unfold dav_acl_patch_validate.
  set (h := new_members_hash names).
  assert (Hnames : h = ∅ <-> names = []).
  { unfold h. destruct names as [|n' names]; [done|]. split; [|done].
    intros He. unfold new_members_hash in He. cbn in He. by apply insert_non_empty in He. }
  case_bool_decide as Hempty.
  - destruct (group_member_ids_spec group (c_db s) Hok Hnd) as [Hnd2 Hids].
    unfold dbms_get_group_members. rewrite !bind_run.
    pose proof (select_db (group_member_ids group) s) as Hd.
    pose proof (select_result (group_member_ids group) s) as Hr.
    destruct (select (group_member_ids group) s) as [[r|] s1]; cbn [fst snd] in *; [|done].
    rewrite (Hr r eq_refl). intros [= <- <- <-]. split; [done|left]. unfold found.
    rewrite Hempty. rewrite Hnames in Hempty. subst names.
    setoid_rewrite lookup_empty. split; [done|]. split; [|set_solver].
    intros m. rewrite Hids. set_solver.
  - rewrite Hnames in Hempty. unfold dbms_calculate_group_changes.
    destruct (unset_parameters _ _); [rewrite ret_run; intros [= <- <- <-]; auto|].
    pose proof (select_db (group_change_rows (map fst (map_to_list h)) group) s) as Hd.
    pose proof (select_result (group_change_rows (map fst (map_to_list h)) group) s) as Hr.
    rewrite bind_run. destruct (select _ s) as [[r|] s1]; cbn [fst snd] in *; [|done].
    rewrite (Hr r eq_refl). rewrite ret_run. intros [= Hc <-]. split; [done|left].
    by apply changes_found.
Qed.

Lemma add_members_unset group (h : gmap string (option Z)) s :
  h <> ∅ -> (forall n o, h !! n = Some o -> o = None) ->
  (add_members group (map_to_list h) s).1 = Crash.
Proof.
  intros Hne Hnone. destruct (map_to_list h) as [|[n o] l] eqn:Hl.
  - by apply map_to_list_empty_iff in Hl.
  - assert (Hin : h !! n = Some o) by (apply elem_of_map_to_list; rewrite Hl; by left).
    by rewrite (Hnone _ _ Hin).
Qed.

(** The hash before the query, without the key of the members to remove. *)
Lemma new_members_unset names :
  names <> [] -> to_remove_key ∉ names ->
  delete to_remove_key (new_members_hash names) <> ∅
  /\ forall n o, delete to_remove_key (new_members_hash names) !! n = Some o -> o = None.
Proof.
  intros Hne Hkey.
  assert (Hnone : forall n o, new_members_hash names !! n = Some o -> o = None).
  { intros n o Ho. apply elem_of_list_to_map_2, elem_of_map in Ho as (k & [= _ <-] & _). done. }
  split.
  - destruct names as [|n names]; [done|]. intros He.
    assert (Hn : delete to_remove_key (new_members_hash (n :: names)) !! n = None)
      by (by rewrite He, lookup_empty).
    rewrite lookup_delete_ne in Hn by (intros <-; set_solver).
    unfold new_members_hash in Hn. cbn in Hn. by rewrite lookup_insert_eq in Hn.
  - intros n o [_ Ho]%lookup_delete_Some. by apply (Hnone n).
Qed.

(** C29. Setting the members of a group: when it succeeds, the members are exactly the
    principals named, no other group has changed, and the table of all members is
    exact. *)
Theorem set_group_members_property_spec esc group names s s' :
  groups_exact (c_db s) -> principals_ok (c_db s) -> to_remove_key ∉ names ->
  set_group_members_property esc group names s = (Ret None, s') ->
  groups_exact (c_db s')
  /\ forall g m, (g, m) ∈ group_members (c_db s')
       <-> if decide (g = group)
           then exists p, p ∈ principals (c_db s) /\ p_res p = m /\ p_name p ∈ names
           else (g, m) ∈ group_members (c_db s).
Proof.
  intros Hge Hok Hkey. unfold set_group_members_property. rewrite bind_run.
  destruct (dav_acl_patch_validate esc group names s) as [[[[e|] new] rem] s1] eqn:Hv;
    cbn [fst snd]; [done|].
  apply validate_spec in Hv as [Hd [(Hnd & Hrem & Hnew)|(-> & Hne & ->)]];
    [| |done|apply (ge_direct _ Hge)]; unfold dav_acl_patch_exec; rewrite bind_run; cycle 1.
  { cbn. intros Hr. destruct (new_members_unset names Hne Hkey) as [H1 H2].
    pose proof (add_members_unset group _ s1 H1 H2) as Hc. by rewrite Hr in Hc. }
  destruct (remove_members group rem s1) as [[e|] s2] eqn:Hr; cbn [fst snd]; [done|].
  apply remove_members_spec in Hr as [Hge2 Hgm2]; cycle 1.
  1: by rewrite Hd. 1: done. 1: intros m Hm; rewrite Hd; by apply Hrem.
  intros [Hge3 Hgm3]%add_members_spec; [|done]. split; [done|].
  intros g m. rewrite Hgm3, Hgm2, Hd, Hrem. setoid_rewrite elem_of_map_to_list.
  destruct (decide (g = group)) as [->|Hg]; [|naive_solver].
  assert (Hn : (exists p, p ∈ principals (c_db s) /\ p_res p = m /\ p_name p ∈ names)
               <-> exists n, n ∈ names /\ id_of (c_db s) n = Some m).
  { setoid_rewrite (id_of_some _ Hok). naive_solver. }
  assert (Hadd : (exists n, delete to_remove_key new !! n = Some (Some m))
                 <-> (exists n, n ∈ names /\ id_of (c_db s) n = Some m)
                     /\ (group, m) ∉ group_members (c_db s)).
  { setoid_rewrite lookup_delete_Some. setoid_rewrite Hnew. naive_solver. }
  rewrite Hn, Hadd. pose proof (elem_of_map (id_of (c_db s)) names (Some m)) as Hmap.
  assert (Hcomm : (exists n, id_of (c_db s) n = Some m /\ n ∈ names)
                  <-> exists n, n ∈ names /\ id_of (c_db s) n = Some m) by naive_solver.
  rewrite Hcomm in Hmap. rewrite <- Hmap.
  destruct (decide ((group, m) ∈ group_members (c_db s))),
    (decide (Some m ∈ map (id_of (c_db s)) names)); tauto.
Qed.
