(* ===== verification/GroupExamples.v ===== *)
(** * A small graph of groups for the witnesses

    Group 1 holds group 2, which holds the users 3 and 4; user 5 is in no group. *)
From S2P Require Import Prelude Util Db Bind Resource Groups GroupCounts GroupMembers.
From stdpp Require Import relations.
Local Open Scope Z_scope.

Definition staff_db : db :=
  set_resources (map (fun i => ResourceRow i "" dav_repos_PRINCIPAL i i "" 0 0 "en-US" None) [1; 2; 3; 4; 5])
  (set_principals [PrincipalRow 1 "all"; PrincipalRow 2 "team"; PrincipalRow 3 "ann";
                   PrincipalRow 4 "bob"; PrincipalRow 5 "eve"]
  (set_group_members [(1, 2); (2, 3); (2, 4)]
  (set_transitive_group_members [TgmRow 1 2 1; TgmRow 2 3 1; TgmRow 2 4 1; TgmRow 1 3 1;
                                 TgmRow 1 4 1]
   empty_db))).

Definition staff : conn := Conn staff_db [] 0 [] false.

Definition staff_paths (x y : Z) : Z :=
  if (x =? y) || ((x =? 1) && ((y =? 2) || (y =? 3) || (y =? 4)))
     || ((x =? 2) && ((y =? 3) || (y =? 4))) then 1 else 0.

Lemma acyclic_increasing l : (forall a b, (a, b) ∈ l -> a < b) -> acyclic l.
Proof.
  intros H g Hg.
  assert (Hlt : forall x y, tc (direct l) x y -> x < y); [|specialize (Hlt g g Hg); lia].
  intros x y. induction 1 as [x y Hxy|x z y Hxz _ IH]; [by apply H|]. specialize (H _ _ Hxz). lia.
Qed.

Lemma staff_counts : counts_paths (group_members staff_db) staff_paths.
Proof.
  intros x y. unfold staff_paths, edges_from. cbn -[Z.eqb].
  destruct (decide (x = 1)) as [->|H1]; [|destruct (decide (x = 2)) as [->|H2]];
    repeat ((rewrite bool_decide_true by lia) || (rewrite bool_decide_false by lia)); cbn -[Z.eqb];
    repeat match goal with |- context [?a =? ?b] => destruct (Z.eqb_spec a b); subst; try lia end;
    destruct (decide _); cbn; lia.
Qed.

Lemma staff_exact : groups_exact staff_db.
Proof.
  split.
  - apply (bool_decide_unpack _). vm_compute. exact I.
  - apply acyclic_increasing. cbn. intros a b. rewrite !elem_of_cons, elem_of_nil.
    intros [[= -> ->]|[[= -> ->]|[[= -> ->]|[]]]]; lia.
  - apply (bool_decide_unpack _). vm_compute. exact I.
  - exists staff_paths. split; [apply staff_counts|]. intros g m c. cbn.
    rewrite !elem_of_cons, elem_of_nil. unfold staff_paths. split.
    + intros [[= -> -> ->]|[[= -> -> ->]|[[= -> -> ->]|[[= -> -> ->]|[[= -> -> ->]|[]]]]]];
        cbn; lia.
    + intros (Hne & -> & Hpos).
      repeat match goal with |- context [?a =? ?b] => destruct (Z.eqb_spec a b); subst end;
        cbn in *; try lia; tauto.
Qed.

Lemma staff_principals : principals_ok staff_db.
Proof.
  split; try (apply (bool_decide_unpack _); vm_compute; exact I).
  - intros p. cbn. rewrite !elem_of_cons, elem_of_nil. naive_solver.
  - intros p Hp. exists (ResourceRow (p_res p) "" dav_repos_PRINCIPAL (p_res p) (p_res p) "" 0 0 "en-US" None).
    split; [|done]. revert Hp. cbn. rewrite !elem_of_cons, elem_of_nil.
    intros [->|[->|[->|[->|[->|[]]]]]]; cbn; tauto.
  - intros r. cbn. rewrite !elem_of_cons, elem_of_nil. naive_solver lia.
  - intros g m. cbn. rewrite !elem_of_cons, elem_of_nil.
    intros [[= -> ->]|[[= -> ->]|[[= -> ->]|[]]]];
      [exists (PrincipalRow 2 "team")|exists (PrincipalRow 3 "ann")|exists (PrincipalRow 4 "bob")];
      rewrite !elem_of_cons; tauto.
Qed.

(** ** Witnesses *)

(** Eve joins the team. *)
Lemma add_prin_to_grp_spec_witness :
  let s' := (sabridge_add_prin_to_grp 2 5 staff).2 in
  groups_exact (c_db s')
  /\ group_members (c_db s') = [(1, 2); (2, 3); (2, 4); (2, 5)]
  /\ ~ rtc (direct (group_members staff_db)) 5 2.
Proof.
  assert (H := add_prin_to_grp_spec 2 5 staff staff_exact).
  destruct (sabridge_add_prin_to_grp 2 5 staff) as [o s'] eqn:E.
  assert (Ho : o = None) by (replace o with (o, s').1 by done; rewrite <- E; reflexivity).
  subst o. exact H.
Defined.

(** Ann leaves it. *)
Lemma rem_prin_frm_grp_spec_witness :
  let s' := (sabridge_rem_prin_frm_grp 2 3 staff).2 in
  groups_exact (c_db s') /\ group_members (c_db s') = [(1, 2); (2, 4)].
Proof.
  assert (Hin : (2, 3) ∈ group_members (c_db staff))
    by (apply (bool_decide_unpack _); vm_compute; exact I).
  assert (H := rem_prin_frm_grp_spec 2 3 staff staff_exact Hin).
  destruct (sabridge_rem_prin_frm_grp 2 3 staff) as [o s'] eqn:E.
  assert (Ho : o = None) by (replace o with (o, s').1 by done; rewrite <- E; reflexivity).
  subst o. exact H.
Defined.

(** The team cannot leave. *)
Lemma nested_removal_fails_witness :
  (sabridge_rem_prin_frm_grp 1 2 staff).1 = Some (dav_new_error HTTP_INTERNAL_SERVER_ERROR).
Proof.
  apply (nested_removal_fails 1 2 staff staff_exact).
  - apply (bool_decide_unpack _). vm_compute. exact I.
  - right. vm_compute. lia.
Defined.

(** The team becomes Bob and Eve. *)
Lemma set_group_members_property_spec_witness :
  let s' := (set_group_members_property Datatypes.id 2 ["bob"; "eve"]%string staff).2 in
  groups_exact (c_db s')
  /\ forall m, (2, m) ∈ group_members (c_db s')
       <-> exists p, p ∈ principals staff_db /\ p_res p = m /\ p_name p ∈ ["bob"; "eve"]%string.
Proof.
  intros s'. destruct (set_group_members_property_spec Datatypes.id 2 ["bob"; "eve"]%string
    staff s' staff_exact staff_principals) as [H1 H2].
  - apply (bool_decide_unpack _). vm_compute. exact I.
  - vm_compute. reflexivity.
  - split; [exact H1|]. intros m. exact (H2 2 m).
Defined.
