(* ===== verification/Users.v ===== *)
(** * User accounts ([limestone/dbms_principal.c], [bridge.c])

    The tables [users], [principals] and [user_domains]: names, e-mail addresses,
    password hashes and the domains that are mapped to the home of a user. *)
From S2P Require Import Prelude Util Dbd Db Bind Resource DbmsDeltav Bridge.
Local Open Scope Z_scope.
Local Open Scope limestone_scope.

Definition LIMEBITS_NS_email_available : string := "email-available".
Definition LIMEBITS_NS_email_valid : string := "email-valid".

Definition QUOT : string := String (Ascii.ascii_of_nat 34) EmptyString.
Definition NEWLINE : string := String (Ascii.ascii_of_nat 10) EmptyString.
Definition DB_INSERT_USERS_INVALID_EMAIL : string :=
  "ERROR:  new row for relation " +:+ QUOT +:+ "users" +:+ QUOT +:+ " violates check constraint "
  +:+ QUOT +:+ "users_email_valid_check" +:+ QUOT +:+ NEWLINE.

(** ** Names *)

Definition find_user (id : Z) (d : db) : option user_row :=
  List.find (fun u => bool_decide (u_prin u = id)) (users d).

Fixpoint has_at (s : string) : bool :=
  match s with
  | EmptyString => false
  | String c r => Ascii.eqb c "@"%char || has_at r
  end.

(** A name with an at sign is an address; the name is then that of the first
    principal with the address. *)
Definition dbms_get_canonical_username (username : option string) : M (option string) :=
  match username with
  | None => mret None
  | Some n =>
      if has_at n then
        q ← select (fun d => head (flat_map (fun p =>
              map (fun _ => p_name p)
                (List.filter (fun u => bool_decide (u_prin u = p_res p /\ u_email u = Some n))
                   (users d))) (principals d)));
        mret (match q with Some (Some c) => Some c | _ => None end)
      else mret (Some n)
  end.

Definition dbms_get_principal_id_from_name (name : string) : M (dav_error + Z) :=
  q ← select (fun d => List.find (fun p => bool_decide (p_name p = name)) (principals d));
  mret (match q with
        | None => inl (dav_new_error HTTP_INTERNAL_SERVER_ERROR)
        | Some None => inr 0
        | Some (Some p) => inr (p_res p)
        end).

(** The type of the principal; [None] is the index 0, for an error too. *)
Definition dbms_get_principal_type_from_name (name : string) : M (option dav_repos_type) :=
  q ← select (fun d => head (flat_map (fun p =>
        map r_type (List.filter (fun r => bool_decide (r_id r = p_res p)) (resources d)))
        (List.filter (fun p => bool_decide (p_name p = name)) (principals d))));
  mret (match q with Some (Some t) => Some t | _ => None end).

(** The primary key; the row refers to a resource. *)
Definition insert_principal_stmt (id : Z) (name : string) (d : db) : option (unit * db) :=
  if existsb (fun p => bool_decide (p_res p = id)) (principals d)
     || negb (bool_decide (id ∈ map r_id (resources d)))
     || bool_decide (1024 < String.length name)%nat
  then None
  else Some (tt, set_principals (principals d ++ [PrincipalRow id name]) d).

Definition dbms_insert_principal (r : dav_repos_resource) (name : string)
  : M (option dav_error) :=
  q ← execute (insert_principal_stmt (serialno r) name);
  mret (err_of q).

(** ** Accounts *)

Fixpoint lower_string (s : string) : string :=
  match s with
  | EmptyString => EmptyString
  | String c r => String (lower c) (lower_string r)
  end.

Section users.
(** The regular expression of the check constraint, and the last message of the
    server. *)
Variable email_valid : string -> bool.
Variable dbms_error : conn -> string.

(** The unique index is on lower(email). *)
Definition email_taken (id : Z) (email : string) (d : db) : bool :=
  existsb (fun u => negb (bool_decide (u_prin u = id))
    && match u_email u with
       | Some e => String.eqb (lower_string e) (lower_string email)
       | None => false
       end) (users d).

Definition insert_user_stmt (id : Z) (pwhash email : string) (d : db) : option (unit * db) :=
  if bool_decide (32 < String.length pwhash)%nat || negb (email_valid email)
     || bool_decide (id ∈ map u_prin (users d)) || email_taken id email d
     || negb (bool_decide (id ∈ map p_res (principals d)))
  then None
  else Some (tt, set_users (users d ++ [UserRow id pwhash (Some email) "Email" true]) d).

Definition dbms_check_for_email_errors (db_err email : string) : option dav_error :=
  if String.eqb DB_INSERT_USERS_INVALID_EMAIL db_err
  then Some (dav_new_error_tag HTTP_CONFLICT LIMEBITS_NS_email_valid)
  else None.

Definition email_result (q : option unit) (email : string) : M (option dav_error) :=
  match q with
  | Some _ => mret None
  | None =>
      msg ← (fun s => (dbms_error s, s) : string * conn);
      mret (match dbms_check_for_email_errors msg email with
            | Some e => Some e
            | None => Some (dav_new_error HTTP_INTERNAL_SERVER_ERROR)
            end)
  end.

Definition dbms_insert_user (r : dav_repos_resource) (pwhash email : string)
  : M (option dav_error) :=
  q ← execute (insert_user_stmt (serialno r) pwhash email);
  email_result q email.

Definition map_user (id : Z) (f : user_row -> user_row) (d : db) : db :=
  set_users (map (fun u => if bool_decide (u_prin u = id) then f u else u) (users d)) d.

(** Without a row for the user nothing is checked and nothing changes. *)
Definition set_email_stmt (id : Z) (email : string) (d : db) : option (unit * db) :=
  if bool_decide (id ∈ map u_prin (users d)) && (negb (email_valid email) || email_taken id email d)
  then None
  else Some (tt, map_user id (fun u =>
         UserRow (u_prin u) (u_pwhash u) (Some email) (u_pwhash_type u) (u_login_all u)) d).

Definition dbms_set_user_email (principal_id : Z) (email : string) : M (option dav_error) :=
  q ← execute (set_email_stmt principal_id email);
  email_result q email.

(** A query that failed has no first row: the address counts as free. *)
Definition dbms_is_email_available (email : string) : M bool :=
  q ← select (fun d => existsb (fun u => bool_decide (u_email u = Some email)) (users d));
  mret (match q with Some taken => negb taken | None => true end).

Definition sabridge_verify_user_email_unique (email : string) : M (option dav_error) :=
  a ← dbms_is_email_available email;
  mret (if a : bool then None
        else Some (dav_new_error_tag HTTP_CONFLICT LIMEBITS_NS_email_available)).

Definition sabridge_set_user_email (principal_id : Z) (email : string) : M (option dav_error) :=
  TRY sabridge_verify_user_email_unique email ;;
  dbms_set_user_email principal_id email.
End users.

Definition dbms_get_user_email (principal_id : Z) : M (option string) :=
  q ← select (find_user principal_id);
  mret (match q with Some (Some u) => u_email u | _ => None end).

(** After a failure the query is destroyed twice, and its pool with it. *)
Definition dbms_set_user_pwhash (r : dav_repos_resource) (pwhash : string)
  : M (outcome (option dav_error)) :=
  q ← execute (fun d =>
        if bool_decide (serialno r ∈ map u_prin (users d))
           && bool_decide (32 < String.length pwhash)%nat
        then None
        else Some (tt, map_user (serialno r) (fun u =>
               UserRow (u_prin u) pwhash (u_email u) "Email" (u_login_all u)) d));
  match q with
  | None => mret Crash
  | Some _ => oret None
  end.

(** The hash and its type; both pointers are as they were without a row. *)
Definition dbms_get_user_pwhash (principal_id : Z) (pwhash pwhash_type : option string)
  : M (option string * option string) :=
  q ← select (find_user principal_id);
  mret (match q with
        | Some (Some u) => (Some (u_pwhash u), Some (u_pwhash_type u))
        | _ => (pwhash, pwhash_type)
        end).

Definition dbms_get_user_login_to_all_domains (principal_id : Z) : M bool :=
  q ← select (find_user principal_id);
  mret (match q with Some (Some u) => u_login_all u | _ => false end).

Definition dbms_set_user_login_to_all_domains (principal_id : Z) (login_to_all_domains : bool)
  : M (outcome (option dav_error)) :=
  q ← update (map_user principal_id (fun u =>
        UserRow (u_prin u) (u_pwhash u) (u_email u) (u_pwhash_type u) login_to_all_domains));
  match q with
  | None => mret Crash
  | Some _ => oret None
  end.

(** ** Domains *)

(** The rows of [user_domains] are in the order of their identifiers; the map is in
    the order the hash is read. *)
Definition dbms_get_domain_map (principal_id : Z) : M (option (list (string * string))) :=
  q ← select (fun d => map (fun x => (do_domain x, do_path x))
        (List.filter (fun x => bool_decide (do_prin x = principal_id)) (user_domains d)));
  mret (match q with Some (x :: l) => Some (x :: l) | _ => None end).

Definition domains_of (principal_id : Z) (map_ : list (string * string)) : list domain_row :=
  map (fun x => DomainRow principal_id x.1 x.2) map_.

(** One INSERT: the unique key (principal_id, domain), the reference to the principal
    and the lengths. *)
Definition insert_domains_stmt (principal_id : Z) (map_ : list (string * string)) (d : db)
  : option (unit * db) :=
  if bool_decide (NoDup (map (fun x => (do_prin x, do_domain x))
                           (user_domains d ++ domains_of principal_id map_)))
     && bool_decide (principal_id ∈ map p_res (principals d))
     && forallb (fun x => bool_decide (String.length x.1 <= 255)%nat
                          && bool_decide (String.length x.2 <= 255)%nat) map_
  then Some (tt, set_user_domains (user_domains d ++ domains_of principal_id map_) d)
  else None.

(** The pairs are in the text of the statement: an empty map gives VALUES (null), which
    is refused, and a question mark a statement that is not executed. *)
Definition dbms_set_domain_map (principal_id : Z) (domain_map : option (list (string * string)))
  : M (option dav_error) :=
  TRY (q ← update (fun d => set_user_domains
         (List.filter (fun x => negb (bool_decide (do_prin x = principal_id))) (user_domains d)) d);
       mret (err_of q)) ;;
  match domain_map with
  | None => mret None
  | Some [] => q ← execute (fun _ => None : option (unit * db)); mret (err_of q)
  | Some l =>
      if forallb (fun x => bool_decide (count_char QMARK x.1 = 0%nat)
                           && bool_decide (count_char QMARK x.2 = 0%nat)) l
      then q ← execute (insert_domains_stmt principal_id l); mret (err_of q)
      else mret None
  end.

(** The user and the path of the first row for the domain. *)
Definition domain_row_of (host : string) (d : db) : option (string * string) :=
  head (flat_map (fun x =>
    map (fun p => (p_name p, do_path x))
      (List.filter (fun p => bool_decide (p_res p = do_prin x)) (principals d)))
    (List.filter (fun x => bool_decide (do_domain x = host)) (user_domains d))).

(** A host that begins with [www.] is looked for again without it. *)
Fixpoint dbms_get_domain_path (host : string) : M (option string) :=
  q ← select (domain_row_of host);
  match q with
  | Some (Some (user, path)) => mret (Some ("/home/" +:+ user +:+ path))
  | _ =>
      match host with
      | String _ (String _ (String _ (String _ rest))) =>
          if String.prefix "www." host then dbms_get_domain_path rest else mret None
      | _ => mret None
      end
  end.
