(* ===== verification/Properties.v ===== *)
(** * Dead properties and namespaces ([limestone/dbms.c], [props.c])

    The tables [properties] and [namespaces], the caches of namespace
    identifiers, and the property database of the DAV module.  The rules of the
    schema charge the owner for the values; a statement on several rows charges one
    of them, here the first.  The two texts [apr_xml_to_text] makes of an element
    and the first token of [apr_strtok] are arguments. *)
From S2P Require Import Prelude Util Db Bind Resource Bridge.
Local Open Scope Z_scope.
Local Open Scope limestone_scope.

(** ** Data *)

(** [dav_repos_property] *)
Record dav_repos_property := Property {
  prop_ns_id : Z;
  prop_name : string;
  prop_xmlinfo : string;
  prop_value : string;
  prop_namespace_name : string
}.

(** [dav_repos_cache]: shared by the whole request. *)
Record dav_repos_cache := Cache {
  cache_principal_type : gmap string (option dav_repos_type);
  cache_namespaces : gmap string Z;
  cache_privileges : gmap (Z * string) Z
}.

Definition empty_cache : dav_repos_cache := Cache ∅ ∅ ∅.

(** ** The table [properties] *)

Definition value_length (p : property_row) : Z := Z.of_nat (String.length (pr_value p)).

Definition is_prop (res : Z) (name : string) (ns : Z) (p : property_row) : bool :=
  bool_decide (pr_res p = res /\ pr_name p = name /\ pr_ns p = ns).

Definition insert_property_stmt (p : property_row) (d : db) : option (unit * db) :=
  match charge (owner_of (pr_res p) d) (value_length p) (quota d) with
  | None => None
  | Some qs => Some (tt, set_quota qs (set_properties (properties d ++ [p]) d))
  end.

Definition db_insert_property (r : dav_repos_resource) (pr : dav_repos_property)
  : M (option dav_error) :=
  q ← execute (insert_property_stmt
        (PropertyRow (prop_ns_id pr) (prop_name pr) (serialno r) (prop_xmlinfo pr)
           (prop_value pr)));
  mret (err_of q).

Definition update_property_stmt (res : Z) (pr : dav_repos_property) (d : db)
  : option (unit * db) :=
  let hit := is_prop res (prop_name pr) (prop_ns_id pr) in
  match List.find hit (properties d) with
  | None => Some (tt, d)
  | Some old =>
      match charge (owner_of res d)
              (Z.of_nat (String.length (prop_value pr)) - value_length old) (quota d) with
      | None => None
      | Some qs => Some (tt, set_quota qs (set_properties (map (fun p =>
          if hit p then PropertyRow (pr_ns p) (pr_name p) (pr_res p) (prop_xmlinfo pr)
                          (prop_value pr) else p) (properties d)) d))
      end
  end.

Definition dbms_set_dead_property (r : dav_repos_resource) (pr : dav_repos_property)
  : M (option dav_error) :=
  q ← select (fun d => existsb (is_prop (serialno r) (prop_name pr) (prop_ns_id pr))
                         (properties d));
  match q with
  | None => mret (err_of q)
  | Some false => db_insert_property r pr
  | Some true => u ← execute (update_property_stmt (serialno r) pr); mret (err_of u)
  end.

(** ORDER BY properties.name, stable on the order of the rows. *)
Fixpoint insert_by_name (p : dav_repos_property) (l : list dav_repos_property)
  : list dav_repos_property :=
  match l with
  | [] => [p]
  | x :: rest => if String.leb (prop_name p) (prop_name x) then p :: l
                 else x :: insert_by_name p rest
  end.

Definition property_of_row (d : db) (p : property_row) : option dav_repos_property :=
  (fun ns => Property (pr_ns p) (pr_name p) (pr_xmlinfo p) (pr_value p) ns.2)
  <$> List.find (fun ns => bool_decide (ns.1 = pr_ns p)) (namespaces d).

Definition dead_properties (res : Z) (d : db) : list dav_repos_property :=
  foldr insert_by_name []
    (omap (property_of_row d)
       (List.filter (fun p => bool_decide (pr_res p = res)) (properties d))).

(** [dbms_fill_dead_property]: [db_r->pr], unchanged when it is already filled. *)
Definition dbms_fill_dead_property (r : dav_repos_resource) (pr : list dav_repos_property)
  : M (option dav_error * list dav_repos_property) :=
  match pr with
  | _ :: _ => mret (None, pr)
  | [] =>
      q ← select (dead_properties (serialno r));
      mret (match q with
            | None => (Some (dav_new_error HTTP_INTERNAL_SERVER_ERROR), [])
            | Some l => (None, l)
            end)
  end.

(** A DELETE charges back the value of one of the rows it deletes. *)
Definition delete_properties_stmt (hit : property_row -> bool) (res : Z) (d : db)
  : option (unit * db) :=
  match List.find hit (properties d) with
  | None => Some (tt, d)
  | Some old =>
      match charge (owner_of res d) (- value_length old) (quota d) with
      | None => None
      | Some qs => Some (tt, set_quota qs
          (set_properties (List.filter (fun p => negb (hit p)) (properties d)) d))
      end
  end.

Definition dbms_delete_dead_props (res_id : Z) : M (option dav_error) :=
  q ← execute (delete_properties_stmt (fun p => bool_decide (pr_res p = res_id)) res_id);
  mret (err_of q).

Definition copy_properties_stmt (src dest : Z) (d : db) : option (unit * db) :=
  let copies := map (fun p => PropertyRow (pr_ns p) (pr_name p) dest (pr_xmlinfo p) (pr_value p))
    (List.filter (fun p => bool_decide (pr_res p = src)) (properties d)) in
  match copies with
  | [] => Some (tt, d)
  | p :: _ =>
      match charge (owner_of dest d) (value_length p) (quota d) with
      | None => None
      | Some qs => Some (tt, set_quota qs (set_properties (properties d ++ copies) d))
      end
  end.

Definition dbms_copy_dead_props (src_id dest_id : Z) : M (option dav_error) :=
  q ← execute (copy_properties_stmt src_id dest_id);
  mret (err_of q).

Definition dbms_del_dead_property (r : dav_repos_resource) (pr : dav_repos_property)
  : M (option dav_error) :=
  q ← execute (delete_properties_stmt
        (is_prop (serialno r) (prop_name pr) (prop_ns_id pr)) (serialno r));
  mret (err_of q).

(** [sabridge_copy_dead_props] of [bridge.c] *)
Definition sabridge_copy_dead_props (src_id dest_id : Z) : M (option dav_error) :=
  TRY dbms_delete_dead_props dest_id ;;
  dbms_copy_dead_props src_id dest_id.

(** ** The table [namespaces] *)

(** 0 when the server refuses. *)
Definition dbms_insert_ns (namespace : string) : M Z :=
  q ← execute (fun d =>
        let id := namespaces_id_seq (sequences d) in
        Some (id, bump_namespaces_id_seq
                    (set_namespaces (namespaces d ++ [(id, namespace)]) d)));
  mret (default 0 q).

Definition dbms_get_ns_name (ns_id : Z) : M (option string) :=
  if bool_decide (ns_id < 1) then mret None
  else
    q ← select (fun d => List.find (fun ns => bool_decide (ns.1 = ns_id)) (namespaces d));
    mret (match q with Some (Some ns) => Some ns.2 | _ => None end).

Definition find_ns (namespace : string) (d : db) : option (Z * string) :=
  List.find (fun ns => bool_decide (ns.2 = namespace)) (namespaces d).

(** The error, or the identifier, 0 when there is none. *)
Definition dbms_get_namespace_id (namespace : string) : M (dav_error + Z) :=
  q ← select (find_ns namespace);
  mret (match q with
        | None => inl (dav_new_error HTTP_INTERNAL_SERVER_ERROR)
        | Some None => inr 0
        | Some (Some ns) => inr ns.1
        end).

(** [sabridge_get_namespace_id] of [bridge.c]: found identifiers are kept. *)
Definition sabridge_get_namespace_id (cache : dav_repos_cache) (namespace : string)
  : M ((dav_error + Z) * dav_repos_cache) :=
  match cache_namespaces cache !! namespace with
  | Some id => mret (inr id, cache)
  | None =>
      e ← dbms_get_namespace_id namespace;
      mret (match e with
            | inl err => (inl err, cache)
            | inr id =>
                if bool_decide (id = 0) then (inr 0, cache)
                else (inr id, Cache (cache_principal_type cache) (<[namespace := id]> (cache_namespaces cache))
                                (cache_privileges cache))
            end)
  end.

(** [dbms_get_ns_id]: the hash of the resource first, then the cache, then the
    table, and a new row at last. *)
Definition dbms_get_ns_id (ns_id_hash : gmap string Z) (cache : dav_repos_cache)
    (namespace : string)
  : M ((dav_error + Z) * gmap string Z * dav_repos_cache) :=
  match ns_id_hash !! namespace with
  | Some id => mret (inr id, ns_id_hash, cache)
  | None =>
      e ← sabridge_get_namespace_id cache namespace;
      let '(r, cache) := e in
      match r with
      | inl err => mret (inl err, ns_id_hash, cache)
      | inr id =>
          id ← (if bool_decide (id = 0) then dbms_insert_ns namespace else mret id);
          mret (if bool_decide (0 < id)
                then (inr id, <[namespace := id]> ns_id_hash, cache)
                else (inl (dav_new_error HTTP_INTERNAL_SERVER_ERROR), ns_id_hash, cache))
      end
  end.

(** ** The property database ([props.c]) *)

(** [dav_repos_build_pr_hash]: of two properties with one key the last stays. *)
Definition pr_hash_of (l : list dav_repos_property) : gmap string dav_repos_property :=
  fold_left (fun h p =>
    match dav_repos_build_ns_name_key (Some (prop_namespace_name p)) (Some (prop_name p)) with
    | Some key => <[key := p]> h
    | None => h
    end) l ∅.

Definition dav_repos_build_pr_hash (r : dav_repos_resource) (pr : list dav_repos_property)
  : M (gmap string dav_repos_property * list dav_repos_property) :=
  e ← dbms_fill_dead_property r pr;
  mret (pr_hash_of e.2, e.2).

Definition GT : ascii := ">"%char.

(** The position of the first ">", and the character before it. *)
Fixpoint find_gt (n : nat) (prev : option ascii) (s : string) : option (nat * option ascii) :=
  match s with
  | EmptyString => None
  | String c r => if Ascii.eqb c GT then Some (n, prev) else find_gt (S n) (Some c) r
  end.

(** The start tag of [fullxml]: an empty element loses its "/".  [None] is a read
    outside the text. *)
Definition start_tag_of (fullxml : string) : option string :=
  match find_gt 0 None fullxml with
  | Some (size, Some prev) =>
      let size := if Ascii.eqb prev "/"%char then (size - 1)%nat else size in
      Some (String.substring 0 size fullxml +:+ ">")
  | _ => None
  end.

Definition dav_repos_db_store (is_version : bool) (ns_id_hash : gmap string Z)
    (cache : dav_repos_cache) (r : dav_repos_resource) (ns name : string)
    (fullxml value : string)
  : M (option (option dav_error * gmap string Z * dav_repos_cache)) :=
  if is_version then mret (Some (Some (dav_new_error HTTP_CONFLICT), ns_id_hash, cache))
  else
    match start_tag_of fullxml with
    | None => mret None
    | Some xmlinfo =>
        e ← dbms_get_ns_id ns_id_hash cache ns;
        let '(id, ns_id_hash, cache) := e in
        match id with
        | inl err => mret (Some (Some err, ns_id_hash, cache))
        | inr id =>
            err ← dbms_set_dead_property r (Property id name xmlinfo value ns);
            mret (Some (err, ns_id_hash, cache))
        end
    end.

Definition dav_repos_db_remove (ns_id_hash : gmap string Z) (cache : dav_repos_cache)
    (r : dav_repos_resource) (ns name : string)
  : M (option dav_error * gmap string Z * dav_repos_cache) :=
  e ← dbms_get_ns_id ns_id_hash cache ns;
  let '(id, ns_id_hash, cache) := e in
  match id with
  | inl err => mret (Some err, ns_id_hash, cache)
  | inr id =>
      err ← dbms_del_dead_property r (Property id name "" "" ns);
      mret (err, ns_id_hash, cache)
  end.

(** [dav_repos_db_exists] on the hash of the resource. *)
Definition dav_repos_db_exists (pr_hash : gmap string dav_repos_property) (ns name : string)
  : bool :=
  match dav_repos_build_ns_name_key (Some ns) (Some name) with
  | Some key => bool_decide (is_Some (pr_hash !! key))
  | None => false
  end.

(** [get_dead_prop_elem]: [first_token] is [apr_strtok (xmlinfo, " >")], whose
    first character is skipped. *)
Definition get_dead_prop_elem (first_token : string -> string) (pr : dav_repos_property)
  : string :=
  prop_xmlinfo pr +:+ prop_value pr +:+ "</" +:+ drop_string 1 (first_token (prop_xmlinfo pr))
  +:+ ">".

Definition dav_repos_db_output_value (first_token : string -> string)
    (pr_hash : gmap string dav_repos_property) (ns name : string) : option string :=
  match dav_repos_build_ns_name_key (Some ns) (Some name) with
  | Some key => get_dead_prop_elem first_token <$> pr_hash !! key
  | None => None
  end.

(** ** Properties of the table operations *)

Lemma is_prop_true res name ns p :
  is_prop res name ns p = true <-> pr_res p = res /\ pr_name p = name /\ pr_ns p = ns.
Proof. unfold is_prop. by rewrite bool_decide_eq_true. Qed.

(** The rows of a property [hit] hold the value set, there is one, and the other
    rows are as they were. *)
Definition property_set (hit : property_row -> bool) (xmlinfo value : string)
    (before after : list property_row) : Prop :=
  (exists p, p ∈ after /\ hit p = true)
  /\ (forall p, p ∈ after -> hit p = true -> pr_xmlinfo p = xmlinfo /\ pr_value p = value)
  /\ (forall p, hit p = false -> p ∈ after <-> p ∈ before).

(** Setting a dead property gives it the value asked for, whether it existed or
    not, and changes no other property of any resource. *)
Theorem set_dead_property_spec r pr s :
  c_errnum (dbms_set_dead_property r pr s).2 = false ->
  (dbms_set_dead_property r pr s).1 = None
  /\ property_set (is_prop (serialno r) (prop_name pr) (prop_ns_id pr))
       (prop_xmlinfo pr) (prop_value pr)
       (properties (c_db s)) (properties (c_db (dbms_set_dead_property r pr s).2)).
Proof.
  set (hit := is_prop _ _ _). unfold dbms_set_dead_property. rewrite bind_run.
  pose proof (select_ok (fun d => existsb hit (properties d)) s) as Hok.
  pose proof (select_db (fun d => existsb hit (properties d)) s) as Hdb.
  fold hit. destruct (select _ s) as [q s1]. cbn [fst snd] in *.
  destruct q as [[]|]; cbn [fst snd].
  - (* the property is there *)
    rewrite bind_run. cbn [fst snd mret M_ret]. intros He.
    destruct (execute_ok _ _ He) as ([] & d & Hd & -> & ->). split; [done|].
    specialize (Hok (mono_execute _ _ He)). injection Hok as Hex. symmetry in Hex.
    unfold update_property_stmt in Hd. fold hit in Hd. rewrite Hdb in Hd.
    apply existsb_exists in Hex as (x & Hx & Hhit). apply list_elem_of_In in Hx.
    destruct (List.find hit (properties (c_db s))) as [old|] eqn:Hf.
    2:{ apply list_elem_of_In in Hx. pose proof (List.find_none _ _ Hf _ Hx). congruence. }
    destruct (charge _ _ _) as [qs|]; [|done]. injection Hd as <-. cbn.
    set (f := fun p => if hit p then _ else p).
    assert (Hsame : forall p, hit (f p) = hit p).
    { intros p. unfold f. destruct (hit p) eqn:E; [|done].
      apply is_prop_true in E. by apply is_prop_true. }
    split_and!.
    + exists (f x). split; [apply elem_of_map; eauto|by rewrite Hsame].
    + intros p (y & <- & Hy)%elem_of_map. rewrite Hsame. unfold f. by intros ->.
    + intros p Hp. split.
      * intros (y & <- & Hy)%elem_of_map. rewrite Hsame in Hp. unfold f. by rewrite Hp.
      * intros Hy. apply elem_of_map. exists p. split; [|done]. unfold f. by rewrite Hp.
  - (* it is not *)
    unfold db_insert_property. rewrite bind_run. cbn [fst snd mret M_ret]. intros He.
    destruct (execute_ok _ _ He) as ([] & d & Hd & -> & ->). split; [done|].
    specialize (Hok (mono_execute _ _ He)). injection Hok as Hex. symmetry in Hex.
    unfold insert_property_stmt in Hd. rewrite Hdb in Hd.
    destruct (charge _ _ _) as [qs|]; [|done]. injection Hd as <-. cbn.
    assert (Hnone : forall p, p ∈ properties (c_db s) -> hit p = false).
    { intros p Hp. destruct (hit p) eqn:E; [|done].
      apply list_elem_of_In in Hp. rewrite <- Hex. symmetry. apply existsb_exists. eauto. }
    split_and!.
    + eexists. split; [apply elem_of_app; right; by left|]. by apply is_prop_true.
    + intros p [Hp| ->%list_elem_of_singleton]%elem_of_app Hhit; [|done].
      rewrite (Hnone p Hp) in Hhit. done.
    + intros p Hp. rewrite elem_of_app, list_elem_of_singleton.
      split; [intros [?| ->]; [done|]|by left].
      exfalso. revert Hp. unfold hit, is_prop. cbn. by rewrite bool_decide_true.
  - intros He. specialize (Hok He). done.
Qed.

(** The rows of a resource, without the resource they belong to. *)
Definition props_of (res : Z) (l : list property_row) : list (Z * string * string * string) :=
  map (fun p => (pr_ns p, pr_name p, pr_xmlinfo p, pr_value p))
    (List.filter (fun p => bool_decide (pr_res p = res)) l).

Lemma props_of_app res l k : props_of res (l ++ k) = props_of res l ++ props_of res k.
Proof. unfold props_of. by rewrite List.filter_app, map_app. Qed.

Lemma props_of_retarget src dest l :
  props_of dest (map (fun p => PropertyRow (pr_ns p) (pr_name p) dest (pr_xmlinfo p) (pr_value p))
                   (List.filter (fun p => bool_decide (pr_res p = src)) l))
  = props_of src l.
Proof.
  unfold props_of. induction l as [|p l IH]; cbn; [done|].
  destruct (bool_decide (pr_res p = src)); cbn; [|done].
  rewrite bool_decide_true by done. cbn. by rewrite IH.
Qed.

Lemma props_of_other src dest res l :
  res <> dest ->
  props_of res (map (fun p => PropertyRow (pr_ns p) (pr_name p) dest (pr_xmlinfo p) (pr_value p))
                   (List.filter (fun p => bool_decide (pr_res p = src)) l)) = [].
Proof.
  intros Hne. unfold props_of. induction l as [|p l IH]; cbn; [done|].
  destruct (bool_decide (pr_res p = src)); cbn; [|done].
  by rewrite bool_decide_false by congruence.
Qed.

Lemma delete_props_of dest res l :
  props_of res (List.filter (fun p => negb (bool_decide (pr_res p = dest))) l)
  = if bool_decide (res = dest) then [] else props_of res l.
Proof.
  unfold props_of. case_bool_decide as Hc.
  - subst. induction l as [|p l IH]; cbn; [done|].
    destruct (bool_decide (pr_res p = dest)) eqn:E; cbn; [done|]. by rewrite E.
  - f_equal. induction l as [|p l IH]; cbn; [done|].
    destruct (decide (pr_res p = dest)) as [He|He].
    + rewrite (bool_decide_true _ He), (bool_decide_false (pr_res p = res)) by congruence. done.
    + rewrite (bool_decide_false _ He). cbn. by rewrite IH.
Qed.

Lemma delete_properties_table hit res d d' :
  delete_properties_stmt hit res d = Some (tt, d') ->
  properties d' = List.filter (fun p => negb (hit p)) (properties d).
Proof.
  unfold delete_properties_stmt. destruct (List.find hit (properties d)) eqn:Hf.
  - destruct (charge _ _ _); [|done]. by intros [= <-].
  - intros [= <-]. symmetry. apply filter_bool_all. intros p Hp.
    apply list_elem_of_In in Hp. by rewrite (List.find_none _ _ Hf p Hp).
Qed.

Lemma copy_properties_table src dest d d' :
  copy_properties_stmt src dest d = Some (tt, d') ->
  properties d' = properties d
    ++ map (fun p => PropertyRow (pr_ns p) (pr_name p) dest (pr_xmlinfo p) (pr_value p))
         (List.filter (fun p => bool_decide (pr_res p = src)) (properties d)).
Proof.
  unfold copy_properties_stmt. set (copies := map _ _). destruct copies as [|p l] eqn:E.
  - intros [= <-]. by rewrite app_nil_r.
  - destruct (charge _ _ _); [|done]. by intros [= <-].
Qed.

(** Copying the dead properties replaces those of the destination by those of the
    source, in their order, and touches no other resource. *)
Lemma copy_dead_props_run src dest s :
  src <> dest ->
  c_errnum (sabridge_copy_dead_props src dest s).2 = false ->
  let after := properties (c_db (sabridge_copy_dead_props src dest s).2) in
  (sabridge_copy_dead_props src dest s).1 = None
  /\ props_of dest after = props_of src (properties (c_db s))
  /\ forall res, res <> dest -> props_of res after = props_of res (properties (c_db s)).
Proof.
  intros Hne. unfold sabridge_copy_dead_props, dbms_delete_dead_props. rewrite !bind_run.
  set (del := delete_properties_stmt _ _).
  pose proof (execute_spec del s) as Hdel.
  destruct (execute del s) as [[[]|] s1]; cbn [fst snd mret M_ret err_of] in *.
  2:{ intros He. destruct Hdel. congruence. }
  destruct Hdel as (d1 & Hd1 & Hdb1 & _).
  unfold dbms_copy_dead_props. rewrite bind_run. cbn [fst snd mret M_ret]. intros He.
  destruct (execute_ok _ _ He) as ([] & d2 & Hd2 & -> & ->). split; [done|].
  apply copy_properties_table in Hd2. apply delete_properties_table in Hd1.
  rewrite Hd2, Hdb1, Hd1. split.
  - rewrite props_of_app, props_of_retarget, !delete_props_of.
    by rewrite bool_decide_true, bool_decide_false by done.
  - intros res Hres. rewrite props_of_app, props_of_other, app_nil_r, delete_props_of by done.
    by rewrite bool_decide_false by done.
Qed.

(** ** Namespace identifiers *)

(** Distinct names, positive identifiers below the sequence. *)
Definition ns_wf (d : db) : Prop :=
  NoDup (map snd (namespaces d))
  /\ forall id n, (id, n) ∈ namespaces d -> 0 < id < namespaces_id_seq (sequences d).

(** What a hash remembers is in the table. *)
Definition ns_coherent (h : gmap string Z) (d : db) : Prop :=
  forall n id, h !! n = Some id -> (id, n) ∈ namespaces d.

Lemma find_ns_some n d x : find_ns n d = Some x -> x ∈ namespaces d /\ x.2 = n.
Proof.
  intros [H1 H2%bool_decide_eq_true]%List.find_some. split; [by apply list_elem_of_In|done].
Qed.

Lemma find_ns_none n d : find_ns n d = None -> forall id, (id, n) ∉ namespaces d.
Proof.
  intros H id Hin%list_elem_of_In. pose proof (List.find_none _ _ H _ Hin) as Hn. cbn in Hn.
  by rewrite bool_decide_true in Hn.
Qed.

Lemma insert_ns_wf n d :
  ns_wf d -> 0 < namespaces_id_seq (sequences d) -> find_ns n d = None ->
  ns_wf (bump_namespaces_id_seq
           (set_namespaces (namespaces d ++ [(namespaces_id_seq (sequences d), n)]) d)).
Proof.
  intros [H1 H2] Hp Hn. split; cbn.
  - rewrite map_app. apply NoDup_app. split_and!; [done| |apply NoDup_singleton].
    intros x ([id m] & <- & Hin)%elem_of_map Heq%list_elem_of_singleton. cbn in Heq. subst.
    by apply (find_ns_none _ _ Hn id).
  - intros id m [Hin|Heq%list_elem_of_singleton]%elem_of_app.
    + specialize (H2 _ _ Hin). lia.
    + injection Heq as -> ->. lia.
Qed.

Lemma ns_coherent_insert h n id d :
  ns_coherent h d -> (id, n) ∈ namespaces d -> ns_coherent (<[n := id]> h) d.
Proof. intros Hh Hin m j [[<- <-]|[_ Hj]]%lookup_insert_Some; eauto. Qed.

Lemma ns_coherent_mono h d d' :
  (forall x, x ∈ namespaces d -> x ∈ namespaces d') -> ns_coherent h d -> ns_coherent h d'.
Proof. intros Hs Hh n id Hn. eauto. Qed.

(** What the cache and the table know of a namespace. *)
Lemma namespace_id_ok cache n s :
  ns_coherent (cache_namespaces cache) (c_db s) ->
  exists r cache' s', sabridge_get_namespace_id cache n s = (r, cache', s')
    /\ c_db s' = c_db s /\ ns_coherent (cache_namespaces cache') (c_db s)
    /\ (c_errnum s' = false ->
        (r = inr 0 /\ forall id, (id, n) ∉ namespaces (c_db s))
        \/ exists id, r = inr id /\ (id, n) ∈ namespaces (c_db s)).
Proof.
  intros Hc. unfold sabridge_get_namespace_id.
  destruct (cache_namespaces cache !! n) as [id|] eqn:Hcn.
  { eexists _, _, _. split; [reflexivity|]. split_and!; eauto. }
  rewrite bind_run. unfold dbms_get_namespace_id. rewrite bind_run.
  pose proof (select_ok (find_ns n) s) as Hok. pose proof (select_db (find_ns n) s) as Hdb.
  pose proof (select_result (find_ns n) s) as Hres.
  destruct (select (find_ns n) s) as [q s1]. cbn [fst snd mret M_ret] in *.
  destruct q as [[[id m]|]|]; cbn.
  - specialize (Hres _ eq_refl). symmetry in Hres. apply find_ns_some in Hres as [Hin Hm].
    cbn in Hm. subst m.
    case_bool_decide as Hz; eexists _, _, _; (split; [reflexivity|]); split_and!; try done.
    + intros _. right. exists id. by subst.
    + by apply ns_coherent_insert.
    + intros _. right. eauto.
  - specialize (Hres _ eq_refl). eexists _, _, _. split; [reflexivity|]. split_and!; try done.
    intros _. left. split; [done|]. by apply find_ns_none.
  - eexists _, _, _. split; [reflexivity|]. split_and!; try done.
    intros He. by specialize (Hok He).
Qed.

(** The insertion of a namespace that is not there. *)
Lemma insert_ns_ok n s :
  c_errnum (dbms_insert_ns n s).2 = false ->
  ns_wf (c_db s) -> 0 < namespaces_id_seq (sequences (c_db s)) ->
  (forall id, (id, n) ∉ namespaces (c_db s)) ->
  let d := c_db (dbms_insert_ns n s).2 in
  0 < (dbms_insert_ns n s).1 /\ ((dbms_insert_ns n s).1, n) ∈ namespaces d /\ ns_wf d
  /\ (forall x, x ∈ namespaces (c_db s) -> x ∈ namespaces d) /\ c_errnum s = false.
Proof.
  unfold dbms_insert_ns. rewrite bind_run. cbn [fst snd mret M_ret]. intros He Hwf Hp Hn.
  destruct (execute_ok _ _ He) as (id & d & Hd & -> & ->). injection Hd as <- <-.
  cbn [default from_option]. split_and!.
  - done.
  - cbn. apply elem_of_app. right. by left.
  - apply insert_ns_wf; [done|done|]. destruct (find_ns n (c_db s)) as [[i m]|] eqn:Hf; [|done].
    apply find_ns_some in Hf as [Hin Hm]. cbn in Hm. subst m. by destruct (Hn i).
  - intros x Hx. cbn. apply elem_of_app. by left.
  - by apply mono_execute in He.
Qed.

(** The identifier of a namespace is that of its one row, which is inserted when
    there is none; the hashes stay true to the table, and the next request finds
    the identifier in the hash. *)
Theorem get_ns_id_spec h cache n s r h' cache' s' :
  ns_wf (c_db s) -> 0 < namespaces_id_seq (sequences (c_db s)) ->
  ns_coherent h (c_db s) -> ns_coherent (cache_namespaces cache) (c_db s) ->
  dbms_get_ns_id h cache n s = (r, h', cache', s') -> c_errnum s' = false ->
  exists id, r = inr id /\ h' !! n = Some id /\ (id, n) ∈ namespaces (c_db s')
    /\ ns_wf (c_db s') /\ ns_coherent h' (c_db s')
    /\ ns_coherent (cache_namespaces cache') (c_db s')
    /\ (forall x, x ∈ namespaces (c_db s) -> x ∈ namespaces (c_db s')).
Proof.
  intros Hwf Hseq Hh Hc E He. unfold dbms_get_ns_id in E.
  destruct (h !! n) as [id|] eqn:Hn.
  { injection E as <- <- <- <-. exists id. split_and!; eauto. }
  rewrite bind_run in E.
  destruct (namespace_id_ok cache n s Hc) as (r1 & c1 & s1 & E1 & Hdb & Hc1 & Hr1).
  rewrite E1 in E. cbn [fst snd] in E.
  assert (Hkeep : forall id, (id, n) ∈ namespaces (c_db s) ->
            (inr id, <[n := id]> h, c1, s1) = (r, h', cache', s') ->
            exists id, r = inr id /\ h' !! n = Some id /\ (id, n) ∈ namespaces (c_db s')
              /\ ns_wf (c_db s') /\ ns_coherent h' (c_db s')
              /\ ns_coherent (cache_namespaces cache') (c_db s')
              /\ (forall x, x ∈ namespaces (c_db s) -> x ∈ namespaces (c_db s'))).
  { intros id Hin [= <- <- <- <-]. exists id. rewrite Hdb, lookup_insert_eq.
    split_and!; eauto. by apply ns_coherent_insert. }
  destruct r1 as [err|id]; cbn in E.
  { apply (f_equal snd) in E. cbn in E. subst s1. by destruct (Hr1 He) as [[? _]|(? & ? & _)]. }
  destruct (bool_decide (id = 0)) eqn:Hz; cbn in E; rewrite bind_run in E; cbn in E.
  - apply bool_decide_eq_true in Hz. subst id.
    assert (He2 : c_errnum (dbms_insert_ns n s1).2 = false).
    { destruct (bool_decide _); apply (f_equal snd) in E; cbn in E; congruence. }
    assert (He1 : c_errnum s1 = false).
    { revert He2. unfold dbms_insert_ns. rewrite bind_run. apply mono_execute. }
    destruct (Hr1 He1) as [[_ Hnone]|(id & [= <-] & Hin)].
    + destruct (insert_ns_ok n s1) as (K1 & K2 & K3 & K4 & _); rewrite ?Hdb; try done.
      rewrite bool_decide_true in E by done. injection E as <- <- <- <-.
      rewrite Hdb in K4. eexists. rewrite lookup_insert_eq. split_and!; eauto.
      * apply ns_coherent_insert; [|done]. by apply (ns_coherent_mono _ (c_db s)).
      * by apply (ns_coherent_mono _ (c_db s)).
    + pose proof (proj2 Hwf _ _ Hin). lia.
  - apply bool_decide_eq_false in Hz.
    assert (He1 : c_errnum s1 = false).
    { destruct (bool_decide (0 < id)); apply (f_equal snd) in E; cbn in E; congruence. }
    destruct (Hr1 He1) as [[[= ->] _]|(i & [= <-] & Hin)]; [done|].
    pose proof (proj2 Hwf _ _ Hin). rewrite bool_decide_true in E by lia.
    by apply (Hkeep id).
Qed.
