(* ===== verification/PropertyQuota.v ===== *)
(** * Copied properties and the quota ([dbms.c], the rules of the schema)

    The rules of the schema charge the owner of a resource for the values of its properties:
    an INSERT of several rows fires the update of the quota once, for one of them.  COPY
    inserts all properties with one statement; PROPPATCH removes them one by one and gives
    each back.  A copy whose properties are then removed leaves the owner charged less than
    before, with the tables of bodies and properties as they were. *)
From S2P Require Import Prelude Util Db Bind Resource Quota Properties.
Local Open Scope Z_scope.
Local Open Scope limestone_scope.

(** PROPPATCH of every property in the list. *)
Fixpoint remove_each (r : dav_repos_resource) (l : list dav_repos_property) : M (option dav_error) :=
  match l with
  | [] => mret None
  | p :: rest => TRY dbms_del_dead_property r p ;; remove_each r rest
  end.

(** A row of [properties] as it is for another resource, and as the name to be removed. *)
Definition copy_to (dest : Z) (p : property_row) : property_row :=
  PropertyRow (pr_ns p) (pr_name p) dest (pr_xmlinfo p) (pr_value p).
Definition named (p : property_row) : dav_repos_property :=
  Property (pr_ns p) (pr_name p) (pr_xmlinfo p) (pr_value p) "".

Definition own_rows (id : Z) (d : db) : list property_row :=
  List.filter (fun p => bool_decide (pr_res p = id)) (properties d).

Definition total_value (l : list property_row) : Z := sum (map value_length l).

(** What [o] is charged. *)
Definition used_of (o : Z) (d : db) : option Z := q_used <$> List.find (fun q => bool_decide (q_prin q = o)) (quota d).

(** ** Lemmas *)

(** A charge that is accepted changes the account of the owner and no other. *)
Lemma charge_used o delta l u :
  NoDup (map q_prin l) ->
  q_used <$> List.find (fun q => bool_decide (q_prin q = o)) l = Some u -> 0 <= u + delta ->
  exists l', charge (Some o) delta l = Some l'
    /\ NoDup (map q_prin l')
    /\ q_used <$> List.find (fun q => bool_decide (q_prin q = o)) l' = Some (u + delta).
Proof.
  intros Hnd Hu Hpos. destruct (charge_accepted (Some o) delta l) as [l' Hl].
  - intros q Hq [= ->]. destruct (List.find _ l) as [q'|] eqn:E; [|done]. injection Hu as <-.
    apply find_some in E as [Hin Ho%bool_decide_eq_true]. apply list_elem_of_In in Hin.
    by rewrite (NoDup_map_eq q_prin l q q') by congruence.
  - exists l'. split; [done|]. unfold charge in Hl. destruct (existsb _ _); [done|]. injection Hl as <-.
    split.
    + rewrite map_map. erewrite map_ext; [exact Hnd|]. intros q. by case_bool_decide.
    + clear Hnd Hpos. induction l as [|q l IH]; [done|]. cbn in *.
      destruct (decide (q_prin q = o)) as [<-|Hne].
      * rewrite (bool_decide_true (Some (q_prin q) = Some (q_prin q))) by done. cbn.
        rewrite !bool_decide_true in * by done. cbn in *. congruence.
      * rewrite (bool_decide_false (Some (q_prin q) = Some o)) by congruence.
        rewrite !bool_decide_false in * by done. by apply IH.
Qed.

(** The rows the removals work on: those of the other resources, then the copies. *)
Lemma remove_each_refunds r dest o base rows d n fl e u :
  serialno r = dest -> owner_of dest d = Some o -> NoDup (map q_prin (quota d)) ->
  (forall p, p ∈ base -> pr_res p <> dest) ->
  NoDup (map (fun p => (pr_ns p, pr_name p)) rows) ->
  properties d = base ++ map (copy_to dest) rows ->
  used_of o d = Some u -> total_value rows <= u ->
  let s' := (remove_each r (map named rows) (Conn d [] n fl e)).2 in
  properties (c_db s') = base /\ media (c_db s') = media d /\ resources (c_db s') = resources d
  /\ used_of o (c_db s') = Some (u - total_value rows).
Proof.
  intros <-. revert d u. induction rows as [|p rows IH]; intros d u Ho Hq Hbase Hnd Hp Hu Hle.
  { cbn. unfold total_value. cbn. rewrite Hp, app_nil_r, Z.sub_0_r. done. }
  assert (0 <= value_length p) by (unfold value_length; lia).
  assert (0 <= total_value rows).
  { apply sum_nonneg. intros v (w & <- & _)%elem_of_map. unfold value_length. lia. }
  unfold total_value in Hle. cbn in Hle. fold (total_value rows) in Hle.
  set (hit := is_prop (serialno r) (pr_name p) (pr_ns p)).
  assert (forall x, x ∈ base -> hit x = false) as Hmiss.
  { intros x Hx. apply bool_decide_eq_false. intros (Hr & _). by apply (Hbase x). }
  assert (forall x, x ∈ rows -> hit (copy_to (serialno r) x) = false) as Hmiss'.
  { intros x Hx. apply bool_decide_eq_false. intros (_ & Hn & Hns). cbn in *.
    apply NoDup_cons in Hnd as [Hnot _]. apply Hnot, elem_of_map. exists x. split; [congruence|done]. }
  assert (List.find hit (properties d) = Some (copy_to (serialno r) p)) as Hfind.
  { rewrite Hp. clear - Hmiss. induction base as [|x base IHb]; cbn.
    - unfold hit, is_prop. cbn. by rewrite bool_decide_true.
    - rewrite (Hmiss x) by (by left). apply IHb. intros y Hy. apply Hmiss. by right. }
  assert (List.filter (fun x => negb (hit x)) (properties d) = base ++ map (copy_to (serialno r)) rows) as Hrest.
  { rewrite Hp, List.filter_app, filter_bool_all by (intros x Hx; by rewrite Hmiss).
    f_equal. cbn. unfold hit at 1, is_prop at 1. cbn. rewrite bool_decide_true by done. cbn.
    apply filter_bool_all. intros x (y & <- & Hy)%elem_of_map. by rewrite Hmiss'. }
  destruct (charge_used o (- value_length p) (quota d) u) as (l' & Hc & Hnd' & Hu'); [done|done|lia|].
  cbn [map remove_each]. rewrite bind_run. unfold dbms_del_dead_property. cbn [named prop_name prop_ns_id].
  rewrite bind_run, execute_quiet. unfold delete_properties_stmt. fold hit. rewrite Hfind, Ho.
  change (value_length (copy_to (serialno r) p)) with (value_length p). rewrite Hc. cbn.
  set (d1 := set_quota l' (set_properties (List.filter (fun x => negb (hit x)) (properties d)) d)).
  assert (used_of o d1 = Some (u - value_length p)) as Hu1.
  { unfold used_of. cbn. by rewrite Hu'. }
  apply NoDup_cons in Hnd as [_ Hnd].
  destruct (IH d1 (u - value_length p) Ho Hnd' Hbase Hnd Hrest Hu1 ltac:(lia)) as (H1 & H2 & H3 & H4).
  split_and!; [done..|]. rewrite H4. unfold total_value. cbn. f_equal. lia.
Qed.

(** The copy of the properties of a resource charges its owner for one of them. *)
Lemma copy_props_charged src dest o p rest d n fl e u :
  own_rows src d = p :: rest -> own_rows dest d = [] -> owner_of dest d = Some o ->
  NoDup (map q_prin (quota d)) -> used_of o d = Some u -> 0 <= u ->
  exists l, sabridge_copy_dead_props src dest (Conn d [] n fl e)
    = (None, Conn (set_quota l (set_properties (properties d ++ map (copy_to dest) (p :: rest)) d)) [] n fl e)
    /\ NoDup (map q_prin l)
    /\ q_used <$> List.find (fun q => bool_decide (q_prin q = o)) l = Some (u + value_length p).
Proof.
  intros Hsrc Hdest Ho Hq Hu Hpos. unfold sabridge_copy_dead_props, dbms_delete_dead_props, dbms_copy_dead_props.
  assert (List.find (fun p => bool_decide (pr_res p = dest)) (properties d) = None) as Hnone.
  { destruct (List.find _ _) as [x|] eqn:E; [|done]. apply find_some in E as [Hin Hx].
    assert (x ∈ own_rows dest d) as H by (by apply elem_of_filter_bool; rewrite list_elem_of_In).
    rewrite Hdest in H. by apply elem_of_nil in H. }
  rewrite !bind_run, execute_quiet. unfold delete_properties_stmt. rewrite Hnone. cbn [fst snd err_of mret M_ret].
  destruct (charge_used o (value_length p) (quota d) u) as (l & Hl & Hnd & Hused);
    [done..|unfold value_length; lia|].
  exists l. split; [|done]. rewrite bind_run, execute_quiet. unfold copy_properties_stmt.
  change (List.filter (fun p => bool_decide (pr_res p = src)) (properties d)) with (own_rows src d).
  rewrite Hsrc. change (fun p0 => PropertyRow (pr_ns p0) (pr_name p0) dest (pr_xmlinfo p0) (pr_value p0))
    with (copy_to dest). cbn [map]. rewrite Ho.
  change (value_length (copy_to dest p)) with (value_length p). by rewrite Hl.
Qed.

(** C37. Copying the properties of a resource to one without properties and removing the copies one by
    one changes no body and no property, but the owner of the copy is charged less than
    before: by the values of all properties but the first. *)
Theorem copied_properties_refunded src r o p rest s u :
  quiet s -> own_rows src (c_db s) = p :: rest -> own_rows (serialno r) (c_db s) = [] ->
  NoDup (map (fun p => (pr_ns p, pr_name p)) (p :: rest)) -> NoDup (map q_prin (quota (c_db s))) ->
  owner_of (serialno r) (c_db s) = Some o -> used_of o (c_db s) = Some u -> total_value rest <= u ->
  let s' := (remove_each r (map named (p :: rest)) (sabridge_copy_dead_props src (serialno r) s).2).2 in
  properties (c_db s') = properties (c_db s) /\ media (c_db s') = media (c_db s)
  /\ resources (c_db s') = resources (c_db s)
  /\ used_of o (c_db s') = Some (u - total_value rest).
Proof.
  destruct s as [d fs n fl e]. unfold quiet. cbn [c_faults c_db]. intros -> Hsrc Hdest Hnd Hq Ho Hu Hle.
  assert (0 <= total_value rest) as Hpos.
  { apply sum_nonneg. intros v (w & <- & _)%elem_of_map. unfold value_length. lia. }
  destruct (copy_props_charged src (serialno r) o p rest d n fl e u) as (l & -> & Hnd' & Hused); [done..|lia|].
  cbn [snd]. set (d1 := set_quota l _).
  destruct (remove_each_refunds r (serialno r) o (properties d) (p :: rest) d1 n fl e (u + value_length p))
    as (H1 & H2 & H3 & H4); try done.
  - intros x Hx Hr. assert (x ∈ own_rows (serialno r) d) as H
      by (by apply elem_of_filter_bool; rewrite bool_decide_eq_true).
    rewrite Hdest in H. by apply elem_of_nil in H.
  - unfold total_value in *. cbn. lia.
  - split_and!; [done..|]. rewrite H4. unfold total_value. cbn. f_equal. lia.
Qed.

(** ** A user who keeps more than it is charged for *)

Definition keeper_db : db :=
  set_resources [ResourceRow 20 "" dav_repos_RESOURCE 5 5 "a" 0 0 "en-US" None;
                 ResourceRow 21 "" dav_repos_RESOURCE 5 5 "b" 0 0 "en-US" None]
  (set_media [MediaRow 20 10 (Some "text/plain"%string) "x" 0]
  (set_quota [QuotaRow 5 10 10]
  (set_properties [PropertyRow 1 "color" 20 "<c" "red"; PropertyRow 1 "notes" 20 "<n" "eight   "]
   empty_db))).
Definition keeper : conn := Conn keeper_db [] 0 [] false.

Lemma copied_properties_refunded_witness :
  let r := set_serialno 21 zero_dbr in
  let l := [PropertyRow 1 "color" 20 "<c" "red"; PropertyRow 1 "notes" 20 "<n" "eight   "] in
  let s' := (remove_each r (map named l) (sabridge_copy_dead_props 20 21 keeper).2).2 in
  media (c_db s') = media keeper_db /\ used_of 5 (c_db s') = Some 2 /\ owned_size 5 (c_db s') = 10.
Proof.
  intros r l s'.
  destruct (copied_properties_refunded 20 r 5 (PropertyRow 1 "color" 20 "<c" "red")
    [PropertyRow 1 "notes" 20 "<n" "eight   "] keeper 10) as (_ & Hm & _ & Hu);
    try reflexivity; try (apply (bool_decide_unpack _); vm_compute; exact I).
  split; [exact Hm|]. split; [exact Hu|]. vm_compute. reflexivity.
Defined.
