(* ===== verification/Acl.v ===== *)
(** * Access control ([limestone/dbms_acl.c], [acl.c], parts of [bridge.c])

    Access control entries, their evaluation, and the materialized paths of the
    table [acl_inheritance].  A principal of the DAV module is a chain: the
    principal itself and those it may also act as, in order. *)
From S2P Require Import Prelude Util Db Bind Resource Bridge Properties.
From stdpp Require Import pretty.
Local Open Scope Z_scope.
Local Open Scope limestone_scope.

(** ** Data *)

Inductive principal_type :=
| PRINCIPAL_ALL | PRINCIPAL_AUTHENTICATED | PRINCIPAL_UNAUTHENTICATED | PRINCIPAL_HREF
| PRINCIPAL_OTHER.

(** [principal_serialno] is [principal->resource->info->db_r->serialno]. *)
Record dav_principal := Principal {
  pr_type : principal_type;
  principal_serialno : Z;
  principal_uri : string
}.

Definition PRINCIPAL_ALL_ID : Z := 3.
Definition PRINCIPAL_AUTHENTICATED_ID : Z := 4.
Definition PRINCIPAL_UNAUTHENTICATED_ID : Z := 5.
Definition SUPER_USER_ID : Z := 1.
Definition ACL_GRANT : string := "G".
Definition ACL_DENY : string := "D".
Definition DB_TRUE : string := "t".
Definition DB_FALSE : string := "f".

Definition dav_repos_get_principal_id (p : dav_principal) : Z :=
  match pr_type p with
  | PRINCIPAL_ALL => PRINCIPAL_ALL_ID
  | PRINCIPAL_AUTHENTICATED => PRINCIPAL_AUTHENTICATED_ID
  | PRINCIPAL_UNAUTHENTICATED => PRINCIPAL_UNAUTHENTICATED_ID
  | PRINCIPAL_HREF => principal_serialno p
  | PRINCIPAL_OTHER => 0
  end.

(** [prefix] is [principal_href_prefix(r)]. *)
Definition dav_repos_principal_to_s (prefix : string) (p : dav_principal) : option string :=
  match pr_type p with
  | PRINCIPAL_ALL => Some "all"
  | PRINCIPAL_AUTHENTICATED => Some "authenticated"
  | PRINCIPAL_UNAUTHENTICATED => Some "unauthenticated"
  | PRINCIPAL_HREF => Some (prefix +:+ principal_uri p)
  | PRINCIPAL_OTHER => None
  end%string.

(** A privilege is its namespace and name; an entry as the DAV module hands it
    over. *)
Record dav_ace := Ace {
  ace_principal : dav_principal;
  ace_property : option (option string * string);
  ace_privileges : list (string * string);
  is_deny : bool;
  is_protected : bool
}.

(** [ace_cache_t] *)
Record ace_cache_t := AceCache {
  cache_principal_id : Z;
  cache_priv_ns_id : Z;
  cache_privilege : string;
  cache_is_allow : bool
}.

(** ** Materialized paths: identifiers separated by commas *)

Definition COMMA : ascii := ",".

(** [string_to_array(path, ',')].  Paths are written from integers, so comparing
    their cast elements with an integer is comparing texts. *)
Fixpoint split_comma (token path : string) : list string :=
  match path with
  | EmptyString => [token]
  | String c r => if Ascii.eqb c COMMA then token :: split_comma EmptyString r
                  else split_comma (token +:+ String c EmptyString) r
  end.

Definition id_in_path (id : Z) (path : string) : bool :=
  bool_decide (pretty id ∈ split_comma EmptyString path).

(** The resources whose entries a resource has: itself and those on its path. *)
Definition inherited_res (id : Z) (d : db) : list (Z * string) :=
  match List.filter (fun chi => bool_decide (chi.1 = id)) (acl_inheritance d) with
  | [] => []
  | chis => List.filter (fun par => existsb (fun chi => id_in_path par.1 chi.2) chis)
              (acl_inheritance d)
  end.

(** ** [dbms_is_allow] *)

(** [make_member_query]: the principal and the groups it is in, directly or not. *)
Definition membership (p_id : Z) (d : db) : list Z :=
  p_id :: map t_group (List.filter (fun t => bool_decide (t_member t = p_id))
                         (transitive_group_members d)).

(** The privileges that contain the one asked for, by their nested intervals. *)
Definition aggregate_privileges (ns : Z) (privilege : string) (d : db) : list Z :=
  let chis := List.filter (fun v => bool_decide (v_name v = privilege /\ v_ns v = ns))
                (acl_privileges d) in
  map v_id (List.filter (fun par =>
    existsb (fun chi => bool_decide (v_lft par <= v_lft chi /\ v_rgt chi <= v_rgt par)) chis)
    (acl_privileges d)).

(** The entries that bear on the question, each with the length of the path of
    the resource it is set on. *)
Definition relevant_aces (p_id : Z) (privs : list Z) (id : Z) (d : db)
  : list (ace_row * nat) :=
  let members := membership p_id d in
  flat_map (fun a =>
    if bool_decide (a_prin a ∈ members)
       && existsb (fun ap => bool_decide (ap.1 = a_id a /\ ap.2 ∈ privs)) (dav_aces_privileges d)
    then map (fun par => (a, String.length par.2))
           (List.filter (fun par => bool_decide (par.1 = a_res a)) (inherited_res id d))
    else []) (aces d).

(** ORDER BY protected DESC, CHAR_LENGTH(path) DESC, id *)
Definition before_ace (x y : ace_row * nat) : bool :=
  let px := String.eqb (a_protected x.1) DB_TRUE in
  let py := String.eqb (a_protected y.1) DB_TRUE in
  if Bool.eqb px py
  then bool_decide (y.2 < x.2)%nat
       || (bool_decide (x.2 = y.2) && bool_decide (a_id x.1 < a_id y.1))
  else px.

Fixpoint first_ace (l : list (ace_row * nat)) : option (ace_row * nat) :=
  match l with
  | [] => None
  | x :: rest =>
      match first_ace rest with
      | Some y => if before_ace y x then Some y else Some x
      | None => Some x
      end
  end.

(** The rows: DISTINCT ON (p_id), in the order of the chain. *)
Fixpoint is_allow_rows (order : Z) (chain : list dav_principal) (ns : Z) (privilege : string)
    (id : Z) (d : db) : list (string * Z) :=
  match chain with
  | [] => []
  | p :: rest =>
      match first_ace (relevant_aces (dav_repos_get_principal_id p)
                         (aggregate_privileges ns privilege d) id d) with
      | Some a => [(a_grantdeny a.1, order)]
      | None => []
      end ++ is_allow_rows (order + 1) rest ns privilege id d
  end.

(** [dbms_next], when the row held is behind: the row's order, its answer, the
    rows left and the value to return. *)
Definition fetch_row (order next_order max_order : Z) (next_is_allow : bool)
    (rows : list (string * Z)) (retVal : bool) : Z * bool * list (string * Z) * bool :=
  if bool_decide (next_order < order) then
    match rows with
    | (grantdeny, o) :: rows =>
        let allow := String.eqb grantdeny ACL_GRANT in
        (o, allow, rows, if bool_decide (o = 1) then allow else retVal)
    | [] => (max_order + 1, next_is_allow, [], retVal)
    end
  else (next_order, next_is_allow, rows, retVal).

(** The loop over the chain: the answer for its head, and a cache entry for each
    principal, the last of which stays. *)
Fixpoint allow_loop (order next_order max_order : Z) (next_is_allow : bool)
    (rows : list (string * Z)) (chain : list dav_principal) (ns : Z) (privilege : string)
    (retVal : bool) (cache : option ace_cache_t) : bool * option ace_cache_t :=
  match chain with
  | [] => (retVal, cache)
  | p :: rest =>
      let '(next_order, next_is_allow, rows, retVal) :=
        fetch_row order next_order max_order next_is_allow rows retVal in
      let allow := bool_decide (next_order = order) && next_is_allow in
      allow_loop (order + 1) next_order max_order next_is_allow rows rest ns privilege retVal
        (Some (AceCache (dav_repos_get_principal_id p) ns privilege allow))
  end.

Definition cache_hit (cache : option ace_cache_t) (p_id ns : Z) (privilege : string)
  : option bool :=
  match cache with
  | Some c => if bool_decide (cache_principal_id c = p_id) && bool_decide (cache_priv_ns_id c = ns)
                 && String.eqb (cache_privilege c) privilege
              then Some (cache_is_allow c) else None
  | None => None
  end.

Definition int_of_bool (b : bool) : Z := if b then 1 else 0.

(** The returned [int], tested against 0 by every caller, and [r->ace_cache]. *)
Definition dbms_is_allow (ns : Z) (privilege : string) (principal : dav_principal)
    (also : list dav_principal) (r : dav_repos_resource) (cache : option ace_cache_t)
  : M (Z * option ace_cache_t) :=
  let p_id := dav_repos_get_principal_id principal in
  if bool_decide (p_id = SUPER_USER_ID) then mret (1, cache)
  else
    match cache_hit cache p_id ns privilege with
    | Some allow => mret (int_of_bool allow, cache)
    | None =>
        let chain := principal :: also in
        q ← select (is_allow_rows 1 chain ns privilege (serialno r));
        mret (match q with
              | None => (HTTP_INTERNAL_SERVER_ERROR, cache)
              | Some rows =>
                  let '(ret, cache) := allow_loop 1 0 (Z.of_nat (length chain)) false rows chain
                                         ns privilege false cache in
                  (int_of_bool ret, cache)
              end)
    end.

(** [dav_repos_is_allow] for a resource of this provider: the error of the lookup
    of the namespace is dropped; a refusal sets [resource->err] to the status. *)
Definition dav_repos_is_allow (privilege_ns privilege : string) (principal : dav_principal)
    (also : list dav_principal) (r : dav_repos_resource) (cache : option ace_cache_t)
    (ns_cache : dav_repos_cache) (denied_status : Z)
  : M (Z * option Z) :=
  n ← sabridge_get_namespace_id ns_cache privilege_ns;
  let ns := match n.1 with inr id => id | inl _ => 0 end in
  a ← dbms_is_allow ns privilege principal also r cache;
  mret (a.1, if bool_decide (a.1 = 0) then Some denied_status else None).

(** [dbms_get_privileges]: the privileges granted to a principal on a resource,
    by namespace and name. *)
Definition containing_privileges (v : privilege_row) (d : db) : list Z :=
  map v_id (List.filter (fun par => bool_decide (v_lft par <= v_lft v /\ v_rgt v <= v_rgt par))
    (acl_privileges d)).

Definition granted_privileges (p_id id : Z) (d : db) : list (string * string) :=
  flat_map (fun v =>
    match first_ace (relevant_aces p_id (containing_privileges v d) id d) with
    | Some a =>
        if String.eqb (a_grantdeny a.1) ACL_GRANT
        then map (fun ns => (ns.2, v_name v))
               (List.filter (fun ns => bool_decide (ns.1 = v_ns v)) (namespaces d))
        else []
    | None => []
    end) (acl_privileges d).

Definition dbms_get_privileges (principal_id resource_id : Z) : M (list (string * string)) :=
  q ← select (granted_privileges principal_id resource_id);
  mret (default [] q).

(** ** Setting an ACL *)

Section set_acl.
Context {cfg : ServerConfig}.
(** [dav_repos_get_prin_by_name] resolves a name in the request, and
    [dav_privilege_new_by_type] is the DAV module's. *)
Variable dav_repos_get_prin_by_name : string -> dav_principal.
Variable dav_privilege_new_by_type : Z -> string * string.
Variable principal_href_prefix : string.

Definition delete_own_stmt (id : Z) (d : db) : db :=
  let own a := bool_decide (a_res a = id) && String.eqb (a_protected a) DB_FALSE in
  set_dav_aces_privileges
    (List.filter (fun ap => negb (bool_decide (ap.1 ∈ map a_id (List.filter own (aces d)))))
       (dav_aces_privileges d))
    (set_aces (List.filter (fun a => negb (own a)) (aces d)) d).

Definition dbms_delete_own_aces (r : dav_repos_resource) : M Z :=
  q ← update (delete_own_stmt (serialno r));
  mret (match q with None => HTTP_INTERNAL_SERVER_ERROR | Some _ => OK end).

(** One row, and one entry, per privilege of each protected entry. *)
Definition protected_rows (id : Z) (d : db)
  : list (string * string * Z * option string * option string) :=
  flat_map (fun a =>
    if bool_decide (a_res a = id) && String.eqb (a_protected a) DB_TRUE then
      flat_map (fun p =>
        if bool_decide (p_res p = a_prin a) then
          map (fun ap => (p_name p, a_grantdeny a, ap.2,
                 snd <$> List.find (fun ns => bool_decide (ns.1 = a_prop_ns a)) (namespaces d),
                 a_prop_name a))
            (List.filter (fun ap => bool_decide (ap.1 = a_id a)) (dav_aces_privileges d))
        else []) (principals d)
    else []) (aces d).

Definition ace_of_row (x : string * string * Z * option string * option string) : dav_ace :=
  let '(name, grantdeny, privilege, ns, property) := x in
  Ace (dav_repos_get_prin_by_name name)
      (match property with
       | Some n => if bool_decide (n = EmptyString) then None else Some (ns, n)
       | None => None
       end)
      [dav_privilege_new_by_type privilege]
      (negb (String.eqb grantdeny ACL_GRANT)) true.

(** The status and the entries; the query for the owner's name is not tested. *)
Definition dbms_get_protected_aces (r : dav_repos_resource) : M (Z * list dav_ace) :=
  _ ← select (fun d => List.find (fun p => bool_decide (p_res p = owner_id r)) (principals d));
  q ← select (protected_rows (serialno r));
  mret (match q with
        | None => (HTTP_INTERNAL_SERVER_ERROR, [])
        | Some rows => (OK, map ace_of_row rows)
        end).

(** Names are compared, not namespaces. *)
Definition sabridge_check_privileges_overlap (p q : list (string * string)) : bool :=
  existsb (fun x => existsb (fun y => String.eqb x.2 y.2) q) p.

Definition principal_name (p : dav_principal) : string :=
  basename (default EmptyString (dav_repos_principal_to_s principal_href_prefix p)).

Definition conflicting (i j : dav_ace) : bool :=
  xorb (is_deny i) (is_deny j)
  && String.eqb (principal_name (ace_principal i)) (principal_name (ace_principal j))
  && sabridge_check_privileges_overlap (ace_privileges i) (ace_privileges j).

Definition sabridge_acl_check_preconditions (acl acldest : list dav_ace) : Z :=
  fold_left (fun ret i => fold_left (fun ret j => if conflicting i j then HTTP_CONFLICT else ret)
                            acldest ret) acl OK.

(** 0 when the privilege is unknown; the answer is kept in the cache. *)
Definition dbms_get_privilege_id (cache : dav_repos_cache) (privilege : string * string)
  : M (Z * dav_repos_cache) :=
  n ← sabridge_get_namespace_id cache privilege.1;
  let ns := match n.1 with inr id => id | inl _ => 0 end in
  let cache := n.2 in
  match cache_privileges cache !! (ns, privilege.2) with
  | Some id => mret (id, cache)
  | None =>
      q ← select (fun d => List.find
            (fun v => bool_decide (v_name v = privilege.2 /\ v_ns v = ns)) (acl_privileges d));
      let id := match q with Some (Some v) => v_id v | _ => 0 end in
      mret (id, Cache (cache_principal_type cache) (cache_namespaces cache) (<[(ns, privilege.2) := id]> (cache_privileges cache)))
  end.

(** The result of the INSERT is not tested. *)
Definition dbms_add_ace_privilege (cache : dav_repos_cache) (privilege : string * string)
    (ace_id : Z) : M (Z * dav_repos_cache) :=
  p ← dbms_get_privilege_id cache privilege;
  if bool_decide (p.1 < 1) then mret (HTTP_FORBIDDEN, p.2)
  else
    _ ← update (fun d => set_dav_aces_privileges (dav_aces_privileges d ++ [(ace_id, p.1)]) d);
    mret (OK, p.2).

Fixpoint add_privileges (cache : dav_repos_cache) (l : list (string * string)) (ace_id : Z)
  : M (option dav_error * dav_repos_cache) :=
  match l with
  | [] => mret (None, cache)
  | p :: rest =>
      s ← dbms_add_ace_privilege cache p ace_id;
      if bool_decide (s.1 = OK) then add_privileges s.2 rest ace_id
      else mret (Some (dav_new_error_tag s.1 "not-supported-privilege"), s.2)
  end.

Definition insert_ace_stmt (row : Z -> ace_row) (d : db) : option (Z * db) :=
  let id := aces_id_seq (sequences d) in
  Some (id, bump_aces_id_seq (set_aces (aces d ++ [row id]) d)).

(** The errors of the namespace are dropped: [ns_id] is then 0.  A refused INSERT
    gives the identifier 0. *)
Definition dbms_add_ace (hash : gmap string Z) (cache : dav_repos_cache)
    (r : dav_repos_resource) (ace : dav_ace)
  : M (option dav_error * gmap string Z * dav_repos_cache) :=
  n ← (match ace_property ace with
       | Some (Some ns, _) => dbms_get_ns_id hash cache ns
       | _ => mret (inr 0, hash, cache)
       end);
  let '(ns, hash, cache) := n in
  let ns_id := match ns with inr id => id | inl _ => 0 end in
  q ← execute (insert_ace_stmt (fun id =>
        AceRow id (if is_deny ace then ACL_DENY else ACL_GRANT)
          (if is_protected ace then DB_TRUE else DB_FALSE) (serialno r)
          (dav_repos_get_principal_id (ace_principal ace)) ns_id (snd <$> ace_property ace)));
  match q with
  | None | Some 0 => mret (Some (dav_new_error HTTP_INTERNAL_SERVER_ERROR), hash, cache)
  | Some id =>
      e ← add_privileges cache (ace_privileges ace) id;
      mret (e.1, hash, e.2)
  end.

Fixpoint add_aces (hash : gmap string Z) (cache : dav_repos_cache) (r : dav_repos_resource)
    (acl : list dav_ace) : M (option dav_error * gmap string Z * dav_repos_cache) :=
  match acl with
  | [] => mret (None, hash, cache)
  | ace :: rest =>
      e ← dbms_add_ace hash cache r ace;
      let '(err, hash, cache) := e in
      match err with
      | Some e => mret (Some e, hash, cache)
      | None => add_aces hash cache r rest
      end
  end.

Definition dav_repos_set_acl (hash : gmap string Z) (cache : dav_repos_cache)
    (r : dav_repos_resource) (acl : list dav_ace)
  : M (option dav_error * gmap string Z * dav_repos_cache) :=
  st ← dbms_delete_own_aces r;
  if negb (bool_decide (st = OK)) then mret (Some (dav_new_error st), hash, cache)
  else
    p ← dbms_get_protected_aces r;
    if negb (bool_decide (p.1 = OK)) then mret (Some (dav_new_error p.1), hash, cache)
    else if negb (bool_decide (sabridge_acl_check_preconditions acl acl = OK))
    then mret (Some (dav_new_error_tag (sabridge_acl_check_preconditions acl acl)
                       "no-ace-conflict"), hash, cache)
    else if negb (bool_decide (sabridge_acl_check_preconditions acl p.2 = OK))
    then mret (Some (dav_new_error_tag HTTP_FORBIDDEN "no-protected-ace-conflict"), hash, cache)
    else add_aces hash cache r acl.

(** [acl_create_initial_acl]: the owner gets everything, protected. *)
Definition acl_create_initial_acl (all : string * string) (hash : gmap string Z)
    (cache : dav_repos_cache) (r : dav_repos_resource) (owner : dav_principal)
  : M (option dav_error * gmap string Z * dav_repos_cache) :=
  dbms_add_ace hash cache r
    (Ace owner (Some (Some "DAV:"%string, "owner"%string)) [all] false true).
End set_acl.

(** ** Inheritance *)

(** The column is a varchar(255); without a row for the parent nothing is
    inserted. *)
Definition inherit_stmt (id parent : Z) (d : db) : option (unit * db) :=
  let rows := map (fun a => (id, a.2 +:+ "," +:+ pretty id))
    (List.filter (fun a => bool_decide (a.1 = parent)) (acl_inheritance d)) in
  if existsb (fun x => bool_decide (255 < String.length x.2)%nat) rows then None
  else Some (tt, set_acl_inheritance (acl_inheritance d ++ rows) d).

Definition path_of (id : Z) (d : db) : option string :=
  snd <$> List.find (fun a => bool_decide (a.1 = id)) (acl_inheritance d).

Definition dbms_inherit_parent_aces (id parent : Z) : M (option dav_error) :=
  q ← select (path_of id);
  match q with
  | None => mret (Some (dav_new_error HTTP_INTERNAL_SERVER_ERROR))
  | Some (Some _) => mret None
  | Some None => u ← execute (inherit_stmt id parent); mret (err_of u)
  end.

(** [replace(text, from, to)]: every occurrence, from the left; an empty [from]
    replaces nothing. *)
Fixpoint replace_all (fuel : nat) (text from to : string) : string :=
  match fuel with
  | O => text
  | S n =>
      match text with
      | EmptyString => EmptyString
      | String c r =>
          if String.prefix from text && negb (bool_decide (from = EmptyString))
          then to +:+ replace_all n (drop_string (String.length from) text) from to
          else String c (replace_all n r from to)
      end
  end.

Definition sql_replace (text from to : string) : string :=
  replace_all (S (String.length text)) text from to.

(** WHERE path LIKE 'orig,%' OR path = orig: a path has no wild cards. *)
Definition moved (orig path : string) : bool :=
  String.prefix (orig +:+ ",") path || String.eqb path orig.

Definition change_parent_stmt (orig new : string) (d : db) : option (unit * db) :=
  let rows := map (fun a => if moved orig a.2 then (a.1, sql_replace a.2 orig new) else a)
                (acl_inheritance d) in
  if existsb (fun x => bool_decide (255 < String.length x.2)%nat) rows then None
  else Some (tt, set_acl_inheritance rows d).

(** A refused query reads as no row. *)
Definition dbms_change_acl_parent (id new_parent_id : Z) : M (option dav_error) :=
  q ← select (path_of id);
  match q with
  | Some (Some orig_path) =>
      p ← select (path_of new_parent_id);
      match p with
      | Some (Some new_parent_path) =>
          u ← execute (change_parent_stmt orig_path
                (new_parent_path +:+ "," +:+ pretty id));
          mret (err_of u)
      | _ => mret (Some (dav_new_error HTTP_INTERNAL_SERVER_ERROR))
      end
  | _ => dbms_inherit_parent_aces id new_parent_id
  end.

Definition dbms_update_principal_property_aces (id prop_ns_id : Z) (prop_name : string)
    (principal_id : Z) : M (option dav_error) :=
  q ← update (fun d => set_aces (map (fun a =>
        if bool_decide (a_res a = id /\ a_prop_ns a = prop_ns_id
                        /\ a_prop_name a = Some prop_name)
        then AceRow (a_id a) (a_grantdeny a) (a_protected a) (a_res a) principal_id
               (a_prop_ns a) (a_prop_name a)
        else a) (aces d)) d);
  mret (err_of q).

(** ** Evaluation: the first entry in the order decides *)

Lemma before_ace_irrefl x : before_ace x x = false.
Proof.
  unfold before_ace. rewrite Bool.eqb_reflx.
  rewrite (bool_decide_false (x.2 < x.2)%nat) by lia.
  rewrite (bool_decide_false (a_id x.1 < a_id x.1)) by lia. by rewrite andb_false_r.
Qed.

Lemma before_ace_trans x y z :
  before_ace x y = true -> before_ace y z = true -> before_ace x z = true.
Proof.
  unfold before_ace.
  destruct (String.eqb (a_protected x.1) DB_TRUE), (String.eqb (a_protected y.1) DB_TRUE),
    (String.eqb (a_protected z.1) DB_TRUE); cbn; try done;
    rewrite !orb_true_iff, !andb_true_iff, !bool_decide_eq_true; lia.
Qed.

Lemma before_ace_false_trans x y z :
  before_ace y x = false -> before_ace z y = false -> before_ace z x = false.
Proof.
  unfold before_ace.
  destruct (String.eqb (a_protected x.1) DB_TRUE), (String.eqb (a_protected y.1) DB_TRUE),
    (String.eqb (a_protected z.1) DB_TRUE); cbn; try done;
    rewrite !orb_false_iff, !andb_false_iff, !bool_decide_eq_false; lia.
Qed.

Lemma before_ace_asym x y : before_ace x y = true -> before_ace y x = false.
Proof.
  intros H. destruct (before_ace y x) eqn:E; [|done].
  pose proof (before_ace_trans _ _ _ H E) as Hx. by rewrite before_ace_irrefl in Hx.
Qed.

(** The entry found is relevant, and none comes before it. *)
Lemma first_ace_spec l :
  match first_ace l with
  | None => l = []
  | Some x => x ∈ l /\ forall y, y ∈ l -> before_ace y x = false
  end.
Proof.
  induction l as [|x l IH]; cbn; [done|].
  destruct (first_ace l) as [y|].
  - destruct IH as [Hy Hmin]. destruct (before_ace y x) eqn:E; cbn.
    + split; [by right|]. intros z [->|Hz]%elem_of_cons; [by apply before_ace_asym|auto].
    + split; [by left|]. intros z [->|Hz]%elem_of_cons; [by apply before_ace_irrefl|].
      by apply (before_ace_false_trans _ y); [|apply Hmin].
  - subst l. split; [by left|]. intros z ->%list_elem_of_singleton. by apply before_ace_irrefl.
Qed.

(** ** Specification: what the entries grant to one principal *)

Definition decision (l : list (ace_row * nat)) : bool :=
  match first_ace l with
  | Some a => String.eqb (a_grantdeny a.1) ACL_GRANT
  | None => false
  end.

Definition granted (p : dav_principal) (ns : Z) (privilege : string) (id : Z) (d : db) : bool :=
  decision (relevant_aces (dav_repos_get_principal_id p) (aggregate_privileges ns privilege d)
              id d).

Lemma is_allow_rows_order order chain ns privilege id d gd o :
  (gd, o) ∈ is_allow_rows order chain ns privilege id d -> order <= o.
Proof.
  revert order. induction chain as [|p rest IH]; intros order; cbn; [set_solver|].
  intros [Hin|Hin]%elem_of_app; [|specialize (IH _ Hin); lia].
  destruct (first_ace _); [|set_solver].
  apply list_elem_of_singleton in Hin. injection Hin as _ ->. lia.
Qed.

(** Where the loop stands in the rows that are left for the rest of the chain. *)
Definition loop_state (order next_order max_order : Z) (next_is_allow : bool)
    (rows all : list (string * Z)) : Prop :=
  (next_order < order /\ rows = all)
  \/ (order <= next_order /\ exists gd, all = (gd, next_order) :: rows
        /\ next_is_allow = String.eqb gd ACL_GRANT)
  \/ (next_order = max_order + 1 /\ rows = [] /\ all = []).

Lemma fetch_row_ok p rest ns privilege id d order next_order max_order nia rows ret :
  loop_state order next_order max_order nia rows
    (is_allow_rows order (p :: rest) ns privilege id d) ->
  (order = 1 -> next_order = 0 /\ ret = false) -> 1 <= order -> order <= max_order ->
  exists next' nia' rows' ret',
    fetch_row order next_order max_order nia rows ret = (next', nia', rows', ret')
    /\ loop_state (order + 1) next' max_order nia' rows'
         (is_allow_rows (order + 1) rest ns privilege id d)
    /\ bool_decide (next' = order) && nia' = granted p ns privilege id d
    /\ ret' = (if bool_decide (order = 1) then granted p ns privilege id d else ret).
Proof.
  intros Hst H1 Hpos Hmax. unfold fetch_row.
  pose proof (is_allow_rows_order (order + 1) rest ns privilege id d) as Hord.
  unfold granted, decision. cbn [is_allow_rows] in Hst.
  set (R := is_allow_rows (order + 1) rest ns privilege id d) in *.
  destruct (first_ace _) as [a|]; cbn [app] in Hst.
  - (* the principal has a row *)
    set (g := String.eqb (a_grantdeny a.1) ACL_GRANT).
    destruct Hst as [[Hlt ->]|[(Hle & gd & Heq & ->)|(_ & _ & ?)]]; [| |done].
    + rewrite bool_decide_true by done. eexists _, _, _, _. split; [reflexivity|].
      split_and!; [left; split; [lia|done]|by rewrite bool_decide_true|].
      case_bool_decide; [done|]. done.
    + injection Heq as <- <- ->. rewrite bool_decide_false by lia.
      eexists _, _, _, _. split; [reflexivity|].
      split_and!; [left; split; [lia|done]|by rewrite bool_decide_true|].
      case_bool_decide as Ho; [|done]. destruct (H1 Ho). lia.
  - (* it has none *)
    destruct Hst as [[Hlt ->]|[(Hle & gd & Heq & ->)|(-> & -> & Hnil)]].
    + rewrite bool_decide_true by done. destruct R as [|[gd o] R'] eqn:ER.
      * eexists _, _, _, _. split; [reflexivity|].
        split_and!; [by right; right|by rewrite bool_decide_false by lia|].
        case_bool_decide as Ho; [by destruct (H1 Ho)|done].
      * specialize (Hord gd o ltac:(by left)).
        eexists _, _, _, _. split; [reflexivity|]. split_and!.
        -- right. left. split; [lia|]. by exists gd.
        -- by rewrite bool_decide_false by lia.
        -- rewrite bool_decide_false by lia. case_bool_decide as Ho; [by destruct (H1 Ho)|done].
    + rewrite Heq in Hord. specialize (Hord gd next_order ltac:(by left)).
      rewrite bool_decide_false by lia. eexists _, _, _, _. split; [reflexivity|]. split_and!.
      * right. left. split; [lia|]. by exists gd.
      * by rewrite bool_decide_false by lia.
      * case_bool_decide as Ho; [destruct (H1 Ho); lia|done].
    + rewrite bool_decide_false by lia. eexists _, _, _, _. split; [reflexivity|]. split_and!.
      * by right; right.
      * by rewrite bool_decide_false by lia.
      * case_bool_decide as Ho; [destruct (H1 Ho); lia|done].
Qed.

Lemma allow_loop_ok chain ns privilege id d order next_order max_order nia rows ret cache :
  loop_state order next_order max_order nia rows (is_allow_rows order chain ns privilege id d) ->
  (order = 1 -> next_order = 0 /\ ret = false) -> 1 <= order ->
  order + Z.of_nat (length chain) = max_order + 1 ->
  allow_loop order next_order max_order nia rows chain ns privilege ret cache
  = (match chain with
     | p :: _ => if bool_decide (order = 1) then granted p ns privilege id d else ret
     | [] => ret
     end,
     match last chain with
     | Some p => Some (AceCache (dav_repos_get_principal_id p) ns privilege
                         (granted p ns privilege id d))
     | None => cache
     end).
Proof.
  revert order next_order nia rows ret cache.
  induction chain as [|p rest IH]; intros order next_order nia rows ret cache Hst H1 Hpos Hmax;
    [done|].
  cbn [length] in Hmax.
  destruct (fetch_row_ok _ _ _ _ _ _ _ _ _ _ _ _ Hst H1 Hpos ltac:(lia))
    as (next' & nia' & rows' & ret' & Hf & Hst' & Hallow & Hret).
  cbn [allow_loop]. rewrite Hf, Hallow.
  rewrite (IH (order + 1) next' nia' rows' ret' _ Hst') by lia.
  subst ret'. f_equal.
  - destruct rest as [|q rest']; [done|]. by rewrite (bool_decide_false (order + 1 = 1)) by lia.
  - destruct rest as [|q rest']; [done|]. rewrite last_cons_cons.
    destruct (last (q :: rest')) eqn:El; [done|]. by apply last_None in El.
Qed.

(** With the query answered, from the loop. *)
Lemma is_allow_result ns privilege principal also r cache s :
  dav_repos_get_principal_id principal <> SUPER_USER_ID ->
  cache_hit cache (dav_repos_get_principal_id principal) ns privilege = None ->
  c_errnum (dbms_is_allow ns privilege principal also r cache s).2 = false ->
  let decides p := granted p ns privilege (serialno r) (c_db s) in
  let asked_last := default principal (last also) in
  (dbms_is_allow ns privilege principal also r cache s).1
  = (int_of_bool (decides principal),
     Some (AceCache (dav_repos_get_principal_id asked_last) ns privilege (decides asked_last))).
Proof.
  intros Hsu Hhit He. unfold dbms_is_allow in *.
  rewrite bool_decide_false in * by done. rewrite Hhit in *. rewrite bind_run in *.
  cbn [fst snd mret M_ret] in *. rewrite (select_ok _ _ He).
  rewrite (allow_loop_ok _ _ _ (serialno r) (c_db s)); [|by left|done|lia|cbn; lia].
  rewrite (bool_decide_true (1 = 1)) by done.
  assert (Hl : last (principal :: also) = Some (default principal (last also))).
  { destruct also as [|q also]; [done|]. rewrite last_cons_cons.
    destruct (last (q :: also)) eqn:El; [done|]. by apply last_None in El. }
  by rewrite Hl.
Qed.

(** C1. The query answered: the first entry in the order protected, nearest resource,
    oldest, of those that bear on the question, decides for the head of the chain;
    without one the answer is no.  The cache then holds the answer for the last
    principal of the chain. *)
Theorem is_allow_spec ns privilege principal also r cache s :
  dav_repos_get_principal_id principal <> SUPER_USER_ID ->
  cache_hit cache (dav_repos_get_principal_id principal) ns privilege = None ->
  c_errnum (dbms_is_allow ns privilege principal also r cache s).2 = false ->
  let decides p := granted p ns privilege (serialno r) (c_db s) in
  let asked_last := default principal (last also) in
  (dbms_is_allow ns privilege principal also r cache s).1
  = (int_of_bool (decides principal),
     Some (AceCache (dav_repos_get_principal_id asked_last) ns privilege (decides asked_last))).
Proof. intros; by apply is_allow_result. Qed.

(** With distinct entries, a privilege is granted exactly when an entry that bears
    on it grants it and none that comes before it exists. *)
Lemma granted_iff p ns privilege id d :
  NoDup (map a_id (aces d)) ->
  let l := relevant_aces (dav_repos_get_principal_id p) (aggregate_privileges ns privilege d)
             id d in
  granted p ns privilege id d = true
  <-> exists a, a ∈ l /\ a_grantdeny a.1 = ACL_GRANT
        /\ forall b, b ∈ l -> before_ace b a = false.
Proof.
  intros Hnd l. unfold granted, decision. fold l. pose proof (first_ace_spec l) as Hf.
  destruct (first_ace l) as [a|].
  - destruct Hf as [Ha Hmin]. rewrite String.eqb_eq. split; [by exists a|].
    intros (b & Hb & Hg & Hbmin). rewrite <- Hg.
    assert (Hin : forall x, x ∈ l -> x.1 ∈ aces d).
    { intros x Hx. unfold l, relevant_aces in Hx.
      apply list_elem_of_In, in_flat_map in Hx as (c & Hc & Hx).
      destruct (_ && _); [|done]. apply in_map_iff in Hx as (par & <- & _).
      by apply list_elem_of_In. }
    f_equal. apply (NoDup_map_eq a_id (aces d)); auto.
    specialize (Hmin b Hb). specialize (Hbmin a Ha). unfold before_ace in *.
    destruct (String.eqb (a_protected a.1) DB_TRUE), (String.eqb (a_protected b.1) DB_TRUE);
      cbn in *; try done;
      rewrite !orb_false_iff, !andb_false_iff, !bool_decide_eq_false in *; lia.
  - split; [done|]. rewrite Hf. intros (a & Ha & _). set_solver.
Qed.

(** ** Failures *)

(** A server that refuses the query for the entries opens the resource: the
    status 500 is returned, which every caller takes for a yes, and no error is set. *)
Theorem is_allow_refused_allows ns privilege_ns privilege principal also r cache ns_cache
    status fs d t files e :
  dav_repos_get_principal_id principal <> SUPER_USER_ID ->
  cache_hit cache (dav_repos_get_principal_id principal) ns privilege = None ->
  cache_namespaces ns_cache !! privilege_ns = Some ns ->
  (dav_repos_is_allow privilege_ns privilege principal also r cache ns_cache status
     (Conn d (true :: fs) t files e)).1
  = (HTTP_INTERNAL_SERVER_ERROR, None).
Proof.
  intros Hsu Hhit Hns. unfold dav_repos_is_allow, sabridge_get_namespace_id.
  rewrite Hns. rewrite bind_run. cbn [fst snd mret M_ret]. rewrite bind_run.
  unfold dbms_is_allow. rewrite bool_decide_false by done. rewrite Hhit. done.
Qed.

(** ** Conflicts *)

Lemma fold_conflict {A} (f : A -> bool) (l : list A) ret :
  fold_left (fun ret j => if f j then HTTP_CONFLICT else ret) l ret
  = if existsb f l then HTTP_CONFLICT else ret.
Proof.
  revert ret. induction l as [|x l IH]; intros ret; cbn; [done|]. rewrite IH.
  by destruct (f x), (existsb f l).
Qed.

Lemma check_preconditions_existsb {cfg : ServerConfig} prefix acl acldest :
  sabridge_acl_check_preconditions prefix acl acldest
  = if existsb (fun i => existsb (conflicting prefix i) acldest) acl
    then HTTP_CONFLICT else OK.
Proof.
  unfold sabridge_acl_check_preconditions. generalize OK as ret.
  induction acl as [|i acl IH]; intros ret; cbn; [done|]. rewrite IH, fold_conflict.
  by destruct (existsb (conflicting prefix i) acldest), (existsb _ acl).
Qed.

(** ** Setting an ACL *)

(** A row is what an entry of the request becomes. *)
Definition row_of_ace (r : dav_repos_resource) (ace : dav_ace) (row : ace_row) : Prop :=
  a_grantdeny row = (if is_deny ace then ACL_DENY else ACL_GRANT)
  /\ a_protected row = (if is_protected ace then DB_TRUE else DB_FALSE)
  /\ a_res row = serialno r
  /\ a_prin row = dav_repos_get_principal_id (ace_principal ace)
  /\ a_prop_name row = (snd <$> ace_property ace).

Definition aces_wf (d : db) : Prop :=
  0 < aces_id_seq (sequences d)
  /\ forall a, a ∈ aces d -> a_id a < aces_id_seq (sequences d).

(** A computation that changes neither the entries nor their sequence. *)
Definition keeps_aces {A} (m : M A) : Prop :=
  forall s, aces (c_db (m s).2) = aces (c_db s)
    /\ aces_id_seq (sequences (c_db (m s).2)) = aces_id_seq (sequences (c_db s)).

Lemma keeps_reads {A} (m : M A) : Reads m -> keeps_aces m.
Proof. intros H s. by destruct (H s) as (-> & _). Qed.

Lemma keeps_bind {A B} (m : M A) (f : A -> M B) :
  keeps_aces m -> (forall a, keeps_aces (f a)) -> keeps_aces (m ≫= f).
Proof.
  intros Hm Hf s. rewrite bind_run. destruct (Hm s), (Hf (m s).1 (m s).2). split; congruence.
Qed.

Lemma keeps_execute {R} (stmt : db -> option (R * db)) :
  (forall d r d', stmt d = Some (r, d') ->
     aces d' = aces d /\ aces_id_seq (sequences d') = aces_id_seq (sequences d)) ->
  keeps_aces (execute stmt).
Proof.
  intros H s. destruct (execute_cases stmt s) as [[_ ->]|(r & d & Hd & _ & ->)]; [done|].
  by apply (H _ r).
Qed.

Lemma reads_sabridge_get_namespace_id cache n : Reads (sabridge_get_namespace_id cache n).
Proof. unfold sabridge_get_namespace_id, dbms_get_namespace_id. reads. Qed.
#[export] Hint Resolve reads_sabridge_get_namespace_id : lime.

Lemma keeps_get_ns_id h cache n : keeps_aces (dbms_get_ns_id h cache n).
Proof.
  unfold dbms_get_ns_id. destruct (h !! n); [by apply keeps_reads, reads_ret|].
  apply keeps_bind; [by apply keeps_reads, reads_sabridge_get_namespace_id|].
  intros [[e|id] c]; [by apply keeps_reads, reads_ret|].
  apply keeps_bind; [|intros id'; by apply keeps_reads, reads_ret].
  destruct (bool_decide (id = 0)); [|by apply keeps_reads, reads_ret].
  unfold dbms_insert_ns. apply keeps_bind; [|intros; by apply keeps_reads, reads_ret].
  apply keeps_execute. intros d r d' [= <- <-]. done.
Qed.

Lemma keeps_add_privileges cache l id : keeps_aces (add_privileges cache l id).
Proof.
  revert cache. induction l as [|p l IH]; intros cache; cbn [add_privileges];
    [by apply keeps_reads, reads_ret|].
  apply keeps_bind; [|intros [st c]; destruct (bool_decide _); [apply IH|by apply keeps_reads, reads_ret]].
  unfold dbms_add_ace_privilege. apply keeps_bind.
  - apply keeps_reads. unfold dbms_get_privilege_id. reads.
  - intros [pid c]. destruct (bool_decide _); [by apply keeps_reads, reads_ret|].
    apply keeps_bind; [|intros; by apply keeps_reads, reads_ret].
    apply keeps_execute. intros d r d' [= <- <-]. done.
Qed.

(** One entry added: one row, with the next identifier. *)
Lemma add_ace_ok h cache r ace s h' cache' s' :
  dbms_add_ace h cache r ace s = (None, h', cache', s') ->
  exists row, aces (c_db s') = aces (c_db s) ++ [row]
    /\ a_id row = aces_id_seq (sequences (c_db s))
    /\ aces_id_seq (sequences (c_db s')) = 1 + aces_id_seq (sequences (c_db s))
    /\ row_of_ace r ace row.
Proof.
  intros E. unfold dbms_add_ace in E. rewrite bind_run in E.
  assert (Hns : exists n s1, (match ace_property ace with
       | Some (Some ns, _) => dbms_get_ns_id h cache ns
       | _ => mret (inr 0, h, cache)
       end) s = (n, s1) /\ aces (c_db s1) = aces (c_db s)
       /\ aces_id_seq (sequences (c_db s1)) = aces_id_seq (sequences (c_db s))).
  { destruct (ace_property ace) as [[[ns|] x]|]; try (by eexists _, _).
    destruct (keeps_get_ns_id h cache ns s). destruct (dbms_get_ns_id h cache ns s) as [n s1].
    by exists n, s1. }
  destruct Hns as ([[ns h1] c1] & s1 & Hns & H1 & H2). rewrite Hns in E. cbn [fst snd] in E.
  rewrite bind_run in E.
  set (row := fun id : Z => _) in E.
  pose proof (execute_spec (insert_ace_stmt row) s1) as Hex.
  destruct (execute _ s1) as [[id|] s2]; cbn [fst snd] in E, Hex; [|done].
  destruct Hex as (d & [= <- <-] & Hd & _). rewrite H1, H2 in Hd. rewrite H2 in E.
  destruct (aces_id_seq (sequences (c_db s))) as [|pz|pz] eqn:Hseq; [done|..];
    rewrite bind_run in E; cbn [fst snd] in E;
    pose proof (keeps_add_privileges c1 (ace_privileges ace) (aces_id_seq (sequences (c_db s)))
      s2) as [K1 K2]; rewrite Hseq in K1, K2;
    apply (f_equal snd) in E; cbn [snd mret M_ret] in E; subst s';
    rewrite K1, K2, Hd; (exists (row (aces_id_seq (sequences (c_db s)))));
    cbn; rewrite ?Hseq, ?H2; by split_and!.
Qed.

Lemma add_aces_ok acl h cache r s h' cache' s' :
  add_aces h cache r acl s = (None, h', cache', s') ->
  exists rows, aces (c_db s') = aces (c_db s) ++ rows
    /\ map a_id rows = seqZ (aces_id_seq (sequences (c_db s))) (Z.of_nat (length acl))
    /\ Forall2 (row_of_ace r) acl rows.
Proof.
  revert h cache s. induction acl as [|ace acl IH]; intros h cache s; cbn [add_aces].
  { intros [= _ _ <-]. exists []. rewrite app_nil_r. split_and!; [done|done|constructor]. }
  rewrite bind_run. destruct (dbms_add_ace h cache r ace s) as [[[[e|] h1] c1] s1] eqn:E1;
    cbn [fst snd]; [done|]. intros E.
  destruct (add_ace_ok _ _ _ _ _ _ _ _ E1) as (row & Ha & Hid & Hseq & Hrow).
  destruct (IH _ _ _ E) as (rows & Hr & Hids & Hf). exists (row :: rows).
  rewrite Hr, Ha, <- app_assoc. split_and!; [done| |by constructor].
  cbn [map length]. rewrite Hid, Hids, Hseq. rewrite (seqZ_cons _ (Z.of_nat (S _))) by lia.
  f_equal. f_equal; lia.
Qed.


(** What the removal keeps. *)
Definition kept_aces (id : Z) (l : list ace_row) : list ace_row :=
  List.filter (fun a => negb (bool_decide (a_res a = id)
                              && String.eqb (a_protected a) DB_FALSE)) l.

(** The refusals the protocol asks for. *)
Definition conflict_between {cfg : ServerConfig} prefix (l1 l2 : list dav_ace) : Prop :=
  exists i j, i ∈ l1 /\ j ∈ l2 /\ conflicting prefix i j = true.

Lemma check_preconditions_ok {cfg : ServerConfig} prefix l1 l2 :
  sabridge_acl_check_preconditions prefix l1 l2 = OK <-> ~ conflict_between prefix l1 l2.
Proof.
  rewrite check_preconditions_existsb. unfold conflict_between.
  destruct (existsb _ l1) eqn:E; split; intros H; try done.
  - destruct H. apply existsb_exists in E as (i & Hi & E).
    apply existsb_exists in E as (j & Hj & E). exists i, j.
    by rewrite !list_elem_of_In.
  - intros (i & j & Hi & Hj & Hc). rewrite <- not_true_iff_false in E. apply E.
    apply existsb_exists. exists i. rewrite <- list_elem_of_In. split; [done|].
    apply existsb_exists. exists j. by rewrite <- list_elem_of_In.
Qed.

(** C2. A successful ACL request replaces the unprotected entries of the resource by
    the entries asked for, numbered in their order, so that the first of two that
    match is the one evaluated; it leaves the protected entries and those of other
    resources; and the new entries conflict neither with each other nor with the
    protected ones. *)
Theorem set_acl_spec (cfg : ServerConfig) by_name by_type prefix h cache r acl s h' cache' s' :
  dav_repos_set_acl by_name by_type prefix h cache r acl s = (None, h', cache', s') ->
  (exists rows,
    aces (c_db s') = kept_aces (serialno r) (aces (c_db s)) ++ rows
    /\ map a_id rows = seqZ (aces_id_seq (sequences (c_db s))) (Z.of_nat (length acl))
    /\ Forall2 (row_of_ace r) acl rows)
  /\ ~ conflict_between prefix acl acl
  /\ ~ conflict_between prefix acl
         (map (ace_of_row by_name by_type)
            (protected_rows (serialno r) (delete_own_stmt (serialno r) (c_db s)))).
Proof.
  unfold dav_repos_set_acl, dbms_delete_own_aces, dbms_get_protected_aces.
  rewrite !bind_run.
  pose proof (update_cases (delete_own_stmt (serialno r)) s) as Hu.
  destruct (update _ s) as [[[]|] s1]; cbn [fst snd mret M_ret] in *; [|done].
  destruct Hu as [[? _]|[_ Hd]]; [done|].
  rewrite (bool_decide_true (OK = OK)) by done. cbn [negb]. rewrite !bind_run.
  pose proof (reads_select (fun d => List.find (fun p => bool_decide (p_res p = owner_id r))
    (principals d)) s1) as (Hd2 & _). destruct (select _ s1) as [? s2].
  cbn [fst snd] in *.
  pose proof (reads_select (protected_rows (serialno r)) s2) as (Hd3 & _).
  pose proof (fun x => select_result (protected_rows (serialno r)) s2 x) as Hsel.
  destruct (select (protected_rows (serialno r)) s2) as [[rows|] s3];
    cbn [fst snd mret M_ret] in *; [|done].
  rewrite (bool_decide_true (OK = OK)) by done. cbn [negb].
  specialize (Hsel rows eq_refl).
  case_bool_decide as Hc1; cbn [negb]; [|done].
  case_bool_decide as Hc2; cbn [negb]; [|done]. intros E.
  apply check_preconditions_ok in Hc1. apply check_preconditions_ok in Hc2.
  rewrite Hsel, Hd2, Hd in Hc2.
  split; [|done]. apply add_aces_ok in E. by rewrite Hd3, Hd2, Hd in E.
Qed.

(** ** The privileges reported *)

(** No two privileges with the same namespace and name. *)
Definition privileges_unique (d : db) : Prop :=
  NoDup (map (fun v => (v_ns v, v_name v)) (acl_privileges d)).

Lemma aggregate_containing d v :
  privileges_unique d -> v ∈ acl_privileges d ->
  aggregate_privileges (v_ns v) (v_name v) d = containing_privileges v d.
Proof.
  intros Hu Hv. unfold aggregate_privileges, containing_privileges. f_equal.
  apply filter_ext_in. intros par _.
  assert (Hch : forall x,
    x ∈ List.filter (fun w => bool_decide (v_name w = v_name v /\ v_ns w = v_ns v))
          (acl_privileges d) <-> x = v).
  { intros x. rewrite elem_of_filter_bool, bool_decide_eq_true. split.
    - intros [[H1 H2] Hx]. apply (NoDup_map_eq (fun v => (v_ns v, v_name v)) (acl_privileges d));
        [done|done|done|congruence].
    - by intros ->. }
  apply eq_iff_eq_true. rewrite existsb_exists. setoid_rewrite <- list_elem_of_In.
  setoid_rewrite Hch. naive_solver.
Qed.

(** The privileges reported for a principal on a resource are those an access
    check grants. *)
Theorem get_privileges_are_allowed principal id v name s :
  privileges_unique (c_db s) -> ns_wf (c_db s) ->
  v ∈ acl_privileges (c_db s) -> (v_ns v, name) ∈ namespaces (c_db s) ->
  c_errnum (dbms_get_privileges (dav_repos_get_principal_id principal) id s).2 = false ->
  (name, v_name v) ∈ (dbms_get_privileges (dav_repos_get_principal_id principal) id s).1
  <-> granted principal (v_ns v) (v_name v) id (c_db s) = true.
Proof.
  intros Hu [Hns _] Hv Hname. unfold dbms_get_privileges. rewrite bind_run.
  cbn [fst snd mret M_ret]. intros He. rewrite (select_ok _ _ He). cbn [from_option Datatypes.id].
  unfold granted_privileges, granted, decision. rewrite list_elem_of_In. rewrite in_flat_map. split.
  - intros (w & Hw & Hin). rewrite <- list_elem_of_In in Hw.
    destruct (first_ace _) as [a|] eqn:Ha; [|done].
    destruct (String.eqb (a_grantdeny a.1) ACL_GRANT) eqn:Hg; [|done].
    apply in_map_iff in Hin as ([i n] & [= -> Hn] & Hin).
    apply list_elem_of_In, elem_of_filter_bool in Hin as [Hi Hin].
    apply bool_decide_eq_true in Hi. cbn in Hi. subst i.
    pose proof (NoDup_map_eq snd _ _ _ Hns Hin Hname eq_refl) as [= Heq].
    assert (w = v) as ->.
    { apply (NoDup_map_eq (fun v => (v_ns v, v_name v)) (acl_privileges (c_db s)));
        [done|done|done|congruence]. }
    by rewrite aggregate_containing, Ha.
  - rewrite aggregate_containing by done. destruct (first_ace _) as [a|] eqn:Ha; [|done].
    intros Hg. exists v. rewrite <- list_elem_of_In. split; [done|]. rewrite Ha, Hg.
    apply in_map_iff. exists (v_ns v, name). split; [done|].
    rewrite <- list_elem_of_In, elem_of_filter_bool. by rewrite bool_decide_true.
Qed.
