(* ===== verification/GroupDeletion.v ===== *)
(** * Deleting a principal ([dbms.c], the cascades of the schema)

    A principal is deleted with its resource, through the cascades, which know nothing of
    paths: the table of all members stays exact only when the principal is not between a
    group and a member.  After the deletion of such a group its members stay in the
    groups above, and the access that was granted to those stays theirs. *)
From S2P Require Import Prelude Util Db Bind Resource DbmsDeltav Bridge Groups GroupCounts GroupMembers GroupExamples Acl.
From stdpp Require Import relations.
Local Open Scope Z_scope.
Local Open Scope limestone_scope.

(** ** What the cascade leaves of the graph *)

Definition apart_edge (id : Z) (e : Z * Z) : bool := negb (bool_decide (e.1 = id \/ e.2 = id)).
Definition without (id : Z) (l : list (Z * Z)) : list (Z * Z) := List.filter (apart_edge id) l.

Lemma cascade_group_members id d :
  group_members (cascade_resource id d) = without id (group_members d).
Proof. unfold cascade_resource. by destruct (doomed_versions _ _ _ _ _). Qed.

Lemma cascade_transitive id d :
  transitive_group_members (cascade_resource id d)
  = List.filter (fun t => apart_edge id (pair_of t)) (transitive_group_members d).
Proof. unfold cascade_resource. by destruct (doomed_versions _ _ _ _ _). Qed.

Lemma apart_edge_true id a b : apart_edge id (a, b) = true <-> a <> id /\ b <> id.
Proof. unfold apart_edge. rewrite negb_true_iff, bool_decide_eq_false. cbn. tauto. Qed.

Lemma elem_of_without id l a b : (a, b) ∈ without id l <-> (a <> id /\ b <> id) /\ (a, b) ∈ l.
Proof. unfold without. by rewrite elem_of_filter_bool, apart_edge_true. Qed.

Lemma without_acyclic id l : acyclic l -> acyclic (without id l).
Proof.
  intros H g Hg. apply (H g). eapply direct_mono; [|exact Hg].
  intros [a b]. by intros [_ ?]%elem_of_without.
Qed.

Definition not_id (id z : Z) : bool := negb (bool_decide (z = id)).

Lemma edges_from_without id l x :
  edges_from (without id l) x = if decide (x = id) then [] else List.filter (not_id id) (edges_from l x).
Proof.
  unfold edges_from, without, apart_edge, not_id. induction l as [|[a b] l IH]; cbn; [by case_decide|].
  destruct (decide (x = id)) as [->|Hx]; repeat (case_bool_decide; cbn); rewrite ?IH;
    try done; try (by f_equal); naive_solver.
Qed.

Lemma sum_zero {A} (f : A -> Z) (l : list A) : (forall x, x ∈ l -> f x = 0) -> sum (map f l) = 0.
Proof.
  induction l as [|x l IH]; intros H; [done|]. cbn. rewrite (H x), IH; [done| |by left].
  intros y Hy. apply H. by right.
Qed.

Lemma elem_of_not_id id (l : list Z) z : z ∈ List.filter (not_id id) l <-> z <> id /\ z ∈ l.
Proof. rewrite elem_of_filter_bool. unfold not_id. by rewrite negb_true_iff, bool_decide_eq_false. Qed.

Section without.
Context (l : list (Z * Z)) (N : Z -> Z -> Z) (id : Z).
Context (Hacyc : acyclic l) (HN : counts_paths l N).

(** The paths that are left, when none leads through [id]. *)
Definition kept_paths (x y : Z) : Z :=
  if decide (x = id \/ y = id) then if decide (x = y) then 1 else 0 else N x y.

Lemma kept_paths_apart x y : x <> id -> y <> id -> kept_paths x y = N x y.
Proof. intros Hx Hy. unfold kept_paths. by rewrite decide_False by tauto. Qed.

Lemma paths_through x y :
  ~ (exists g m, (g, id) ∈ l /\ (id, m) ∈ l) -> y <> id -> id ∈ edges_from l x -> N id y = 0.
Proof.
  intros Hno Hy Hin%elem_of_edges_from. rewrite HN. rewrite decide_False by done.
  rewrite sum_zero; [done|]. intros z Hz%elem_of_edges_from. destruct Hno. by exists x, z.
Qed.

Lemma counts_paths_without :
  ~ (exists g m, (g, id) ∈ l /\ (id, m) ∈ l) -> counts_paths (without id l) kept_paths.
Proof.
  intros Hno x y. rewrite edges_from_without. destruct (decide (x = id)) as [->|Hx].
  { unfold kept_paths. rewrite decide_True by (by left). cbn. lia. }
  destruct (decide (y = id)) as [->|Hy].
  { unfold kept_paths at 1. rewrite decide_True by (by right). rewrite sum_zero; [lia|].
    intros z [Hz _]%elem_of_not_id. unfold kept_paths. rewrite decide_True by (by right).
    by rewrite decide_False. }
  rewrite kept_paths_apart, HN by done. f_equal.
  rewrite (sum_split _ (not_id id)), (sum_zero (fun z => N z y) (List.filter (fun z => negb _) _)).
  - rewrite Z.add_0_r. apply sum_ext. intros z [Hz _]%elem_of_not_id. by rewrite kept_paths_apart.
  - intros z [Hz Hin]%elem_of_filter_bool. unfold not_id in Hz.
    rewrite negb_involutive in Hz. apply bool_decide_eq_true in Hz as ->. by eapply paths_through.
Qed.

(** Without a vertex there are not more paths, and fewer when one led through it. *)
Lemma paths_without_le N' x y : counts_paths (without id l) N' -> N' x y <= N x y.
Proof.
  intros HN'. induction (direct_sn l x Hacyc) as [x _ IH]. rewrite HN', (HN x y), edges_from_without.
  assert (forall zs, (forall z, z ∈ zs -> z ∈ edges_from l x) ->
            sum (map (fun z => N' z y) zs) <= sum (map (fun z => N z y) zs)) as Hsum.
  { induction zs as [|z zs IHz]; intros Hzs; cbn; [done|].
    pose proof (IH z ltac:(apply elem_of_edges_from, Hzs; by left)).
    specialize (IHz ltac:(intros w Hw; apply Hzs; by right)). lia. }
  rewrite (sum_split (fun z => N z y) (not_id id)).
  assert (0 <= sum (map (fun z => N z y) (List.filter (fun z => negb (not_id id z)) (edges_from l x)))).
  { apply sum_nonneg. intros v (z & <- & _)%elem_of_map. by apply (paths_nonneg l). }
  destruct (decide (x = id)) as [->|Hx]; cbn [map sum].
  - assert (0 <= sum (map (fun z => N z y) (List.filter (not_id id) (edges_from l id)))); [|lia].
    apply sum_nonneg. intros v (z & <- & _)%elem_of_map. by apply (paths_nonneg l).
  - specialize (Hsum (List.filter (not_id id) (edges_from l x))).
    assert (sum (map (fun z => N' z y) (List.filter (not_id id) (edges_from l x)))
            <= sum (map (fun z => N z y) (List.filter (not_id id) (edges_from l x)))); [|lia].
    apply Hsum. by intros z [_ ?]%elem_of_not_id.
Qed.

Lemma sum_le {A} (f g : A -> Z) (zs : list A) :
  (forall z, f z <= g z) -> sum (map f zs) <= sum (map g zs).
Proof. intros H. induction zs as [|z zs IH]; cbn; [done|]. specialize (H z). lia. Qed.

Lemma paths_without_lt N' g m :
  counts_paths (without id l) N' -> (g, id) ∈ l -> (id, m) ∈ l -> N' g m < N g m.
Proof.
  intros HN' Hg Hm. assert (g <> id) as Hgid.
  { intros ->. apply (Hacyc id). by apply tc_once. }
  rewrite HN', (HN g m), edges_from_without, (decide_False (P := g = id)) by done.
  rewrite (sum_split (fun z => N z m) (not_id id)).
  pose proof (sum_le (fun z => N' z m) (fun z => N z m) (List.filter (not_id id) (edges_from l g))
    (fun z => paths_without_le N' z m HN')) as Hle.
  set (rest := List.filter (fun z => negb (not_id id z)) (edges_from l g)).
  assert (N id m <= sum (map (fun z => N z m) rest)) as Hge.
  { apply (sum_ge (fun z => N z m)); [intros y _; by apply (paths_nonneg l)|]. unfold rest.
    rewrite elem_of_filter_bool. unfold not_id. rewrite negb_involutive, bool_decide_eq_true.
    split; [done|]. by apply elem_of_edges_from. }
  assert (0 < N id m) by (apply (paths_pos l); [done..|]; by apply rtc_once).
  lia.
Qed.
End without.

(** ** The deletion *)

Lemma release_quota_groups id d x d' :
  release_quota_stmt id d = Some (x, d') ->
  group_members d' = group_members d /\ transitive_group_members d' = transitive_group_members d.
Proof. unfold release_quota_stmt. intros H. repeat case_match; by simplify_eq. Qed.

(** A deletion that succeeds is the cascade, as far as the groups go. *)
Lemma delete_resource_groups r s :
  c_errnum (dbms_delete_resource r s).2 = false ->
  let d := c_db s in let d' := c_db (dbms_delete_resource r s).2 in
  group_members d' = without (serialno r) (group_members d)
  /\ transitive_group_members d'
     = List.filter (fun t => apart_edge (serialno r) (pair_of t)) (transitive_group_members d).
Proof.
  intros (_ & d1 & Hd & ->)%delete_resource_ok. cbn zeta.
  rewrite cascade_group_members, cascade_transitive.
  destruct (has_body (resourcetype r)); [|by injection Hd as <-].
  by apply release_quota_groups in Hd as [-> ->].
Qed.

(** The rows of the table after the deletion. *)
Lemma elem_of_apart id (rows : list tgm_row) g m c :
  TgmRow g m c ∈ List.filter (fun t => apart_edge id (pair_of t)) rows
  <-> (g <> id /\ m <> id) /\ TgmRow g m c ∈ rows.
Proof. rewrite elem_of_filter_bool. unfold pair_of. cbn. by rewrite apart_edge_true. Qed.

(** C35. After the deletion of a principal the membership graph has no loop and the table of all
    members the number of paths, as before, exactly when the principal was not a member of a
    group with a member of its own. *)
Theorem delete_principal_groups r s :
  groups_exact (c_db s) -> c_errnum (dbms_delete_resource r s).2 = false ->
  groups_exact (c_db (dbms_delete_resource r s).2)
  <-> ~ exists g m, (g, serialno r) ∈ group_members (c_db s) /\ (serialno r, m) ∈ group_members (c_db s).
Proof.
  intros [Hnd Hac Hu (N & HN & Htab)] He. destruct (delete_resource_groups r s He) as [Hg Ht].
  set (id := serialno r) in *. split.
  - intros [_ _ _ (N' & HN' & Htab')] (g & m & Hin1 & Hin2). rewrite Hg, Ht in *.
    pose proof (paths_without_lt _ N id Hac HN N' g m HN' Hin1 Hin2) as Hlt.
    assert (forall a b, direct (group_members (c_db s)) a b -> a <> b) as Hne.
    { intros a b Hab ->. apply (Hac b). by apply tc_once. }
    assert (g <> m) as Hgm.
    { intros ->. apply (Hac m). eapply tc_l; [exact Hin1|]. by apply tc_once. }
    assert (0 < N g m) as Hpos.
    { apply (paths_pos (group_members (c_db s))); [done..|]. eapply rtc_l; [exact Hin1|].
      by apply rtc_once. }
    assert (TgmRow g m (N g m) ∈ transitive_group_members (c_db s)) as Hrow by (by apply Htab).
    assert (N g m = N' g m) as Heq; [|lia].
    apply (Htab' g m (N g m)). apply elem_of_apart. split; [|done].
    split; [by apply Hne|]. intros ->. by apply (Hne _ _ Hin2).
  - intros Hno. split; rewrite ?Hg, ?Ht.
    + by apply NoDup_filter_bool.
    + by apply without_acyclic.
    + by apply NoDup_map_filter.
    + exists (kept_paths N id). split; [by apply counts_paths_without|].
      intros a b c. rewrite elem_of_apart, Htab. split.
      * intros ((Ha & Hb) & Hab & -> & Hc). by rewrite kept_paths_apart.
      * intros (Hab & Hc & Hpos). unfold kept_paths in Hc.
        destruct (decide (a = id \/ b = id)) as [Hid|Hid].
        { rewrite decide_False in Hc by done. lia. }
        split; [tauto|done].
Qed.

(** ** Access after the deletion of a group *)


Lemma cascade_aces g d :
  aces (cascade_resource g d) = List.filter (fun a => negb (bool_decide (a_res a = g))) (aces d).
Proof. unfold cascade_resource. by destruct (doomed_versions _ _ _ _ _). Qed.

Lemma cascade_ace_privileges g d :
  dav_aces_privileges (cascade_resource g d)
  = List.filter (fun ap => negb (bool_decide
      (ap.1 ∈ map a_id (List.filter (fun a => bool_decide (a_res a = g)) (aces d)))))
      (dav_aces_privileges d).
Proof. unfold cascade_resource. by destruct (doomed_versions _ _ _ _ _). Qed.

Lemma cascade_acl_inheritance g d :
  acl_inheritance (cascade_resource g d)
  = List.filter (fun i => negb (bool_decide (i.1 = g))) (acl_inheritance d).
Proof. unfold cascade_resource. by destruct (doomed_versions _ _ _ _ _). Qed.

Lemma cascade_privileges g d : acl_privileges (cascade_resource g d) = acl_privileges d.
Proof. unfold cascade_resource. by destruct (doomed_versions _ _ _ _ _). Qed.

(** The principal stays in the groups it was in, the one that is gone apart. *)
Lemma membership_cascade g p d x :
  p <> g -> x ∈ membership p (cascade_resource g d) <-> x ∈ membership p d /\ x <> g.
Proof.
  intros Hp. unfold membership. rewrite cascade_transitive, !elem_of_cons, !elem_of_map.
  split.
  - intros [->|([a b c] & <- & [Hb [Hap Hin]%elem_of_filter_bool]%elem_of_filter_bool)].
    + by split; [left|].
    + apply apart_edge_true in Hap as [Ha _]. split; [right|done].
      exists (TgmRow a b c). by rewrite elem_of_filter_bool.
  - intros [[->|([a b c] & <- & [Hb Hin]%elem_of_filter_bool)] Hx]; [by left|right].
    exists (TgmRow a b c). rewrite !elem_of_filter_bool. unfold pair_of. cbn in *.
    rewrite apart_edge_true. apply bool_decide_eq_true in Hb as Hb'. subst b. done.
Qed.

Lemma filter_not_key {B} (f : Z * B -> bool) g (l : list (Z * B)) :
  g ∉ map fst (List.filter f l) ->
  List.filter f (List.filter (fun i => negb (bool_decide (i.1 = g))) l) = List.filter f l.
Proof.
  induction l as [|i l IH]; intros Hg; [done|]. cbn in *. destruct (f i) eqn:Hf.
  - cbn in Hg. apply not_elem_of_cons in Hg as [Hi Hg].
    rewrite bool_decide_false by congruence. cbn. rewrite Hf. f_equal. by apply IH.
  - destruct (negb _); cbn; rewrite ?Hf; by apply IH.
Qed.

Lemma inherited_res_cascade g id d :
  id <> g -> g ∉ map fst (inherited_res id d) ->
  inherited_res id (cascade_resource g d) = inherited_res id d.
Proof.
  intros Hid. unfold inherited_res. rewrite cascade_acl_inheritance.
  rewrite (filter_not_key (fun chi => bool_decide (chi.1 = id))).
  - destruct (List.filter _ (acl_inheritance d)); [done|]. apply filter_not_key.
  - intros (i & Hi & [Hc%bool_decide_eq_true _]%elem_of_filter_bool)%elem_of_map. congruence.
Qed.

(** The privileges of an entry on another resource stay. *)
Lemma ace_privileges_cascade g (privs : list Z) d a :
  NoDup (map a_id (aces d)) -> a ∈ aces d -> a_res a <> g ->
  existsb (fun ap => bool_decide (ap.1 = a_id a /\ ap.2 ∈ privs)) (dav_aces_privileges (cascade_resource g d))
  = existsb (fun ap => bool_decide (ap.1 = a_id a /\ ap.2 ∈ privs)) (dav_aces_privileges d).
Proof.
  intros Hnd Ha Hres. rewrite cascade_ace_privileges. apply eq_iff_eq_true.
  rewrite !existsb_exists. setoid_rewrite filter_In. setoid_rewrite bool_decide_eq_true. split.
  - intros (ap & [Hin _] & H). by exists ap.
  - intros (ap & Hin & Hid & Hp). exists ap. split; [|done]. split; [done|].
    apply negb_true_iff, bool_decide_eq_false. intros (b & Hb & [Hr Hbin]%elem_of_filter_bool)%elem_of_map.
    apply bool_decide_eq_true in Hr. apply Hres. rewrite <- Hr.
    f_equal. apply (NoDup_map_eq a_id (aces d)); congruence.
Qed.

(** The entries that bear on a question are those from before, but for those of the group. *)
Lemma relevant_aces_cascade g p (privs : list Z) id d :
  p <> g -> id <> g -> g ∉ map fst (inherited_res id d) -> NoDup (map a_id (aces d)) ->
  forall x, x ∈ relevant_aces p privs id (cascade_resource g d)
            <-> x ∈ relevant_aces p privs id d /\ a_prin x.1 <> g.
Proof.
  intros Hp Hid Hinh Hnd [a n]. unfold relevant_aces. rewrite inherited_res_cascade by done.
  rewrite cascade_aces, !list_elem_of_In, !in_flat_map. setoid_rewrite filter_In.
  assert (forall b, b ∈ aces d -> a_res b <> g ->
    (bool_decide (a_prin b ∈ membership p (cascade_resource g d))
     && existsb (fun ap => bool_decide (ap.1 = a_id b /\ ap.2 ∈ privs)) (dav_aces_privileges (cascade_resource g d)) = true
     <-> (bool_decide (a_prin b ∈ membership p d)
          && existsb (fun ap => bool_decide (ap.1 = a_id b /\ ap.2 ∈ privs)) (dav_aces_privileges d) = true)
         /\ a_prin b <> g)) as Hb.
  { intros b Hb Hr. rewrite ace_privileges_cascade by done.
    rewrite !andb_true_iff, !bool_decide_eq_true, membership_cascade by done. tauto. }
  assert (forall b par, par ∈ List.filter (fun par => bool_decide (par.1 = a_res b)) (inherited_res id d) ->
            a_res b <> g) as Hres.
  { intros b par [Hpar%bool_decide_eq_true Hin]%elem_of_filter_bool Hg. apply Hinh.
    apply elem_of_map. exists par. split; [congruence|done]. }
  split.
  - intros (b & [Hin Hr%negb_true_iff%bool_decide_eq_false] & Hx). apply list_elem_of_In in Hin as Hin'.
    specialize (Hb b Hin' Hr). destruct (_ && _) eqn:E; [|done]. destruct Hb as [Hb _].
    destruct (Hb eq_refl) as [Hb' Hg]. split; [exists b; split; [done|]; by rewrite Hb'|].
    apply in_map_iff in Hx as (par & [= <- _] & _). done.
  - intros [(b & Hin & Hx) Hg]. apply list_elem_of_In in Hin as Hin'.
    destruct (_ && _) eqn:E in Hx; [|done].
    apply in_map_iff in Hx as (par & [= <- <-] & Hpar).
    assert (a_res b <> g) as Hr by (eapply Hres; by apply list_elem_of_In). exists b.
    split; [split; [done|by apply negb_true_iff, bool_decide_eq_false]|].
    rewrite (proj2 (Hb b Hin' Hr) (conj E Hg)). apply in_map_iff. by exists par.
Qed.

(** Two entries neither of which comes before the other have the same number. *)
Lemma before_ace_same x y :
  before_ace x y = false -> before_ace y x = false -> a_id x.1 = a_id y.1.
Proof.
  unfold before_ace. destruct (String.eqb (a_protected x.1) _), (String.eqb (a_protected y.1) _); cbn; try done;
    rewrite !orb_false_iff, !andb_false_iff, !bool_decide_eq_false; lia.
Qed.

Lemma relevant_aces_rows p privs id d x : x ∈ relevant_aces p privs id d -> x.1 ∈ aces d.
Proof.
  unfold relevant_aces. rewrite list_elem_of_In, in_flat_map. intros (a & Ha & Hx).
  destruct (_ && _); [|done]. apply in_map_iff in Hx as (par & <- & _). by apply list_elem_of_In.
Qed.

Lemma granted_cascade g p ns privilege id d a :
  dav_repos_get_principal_id p <> g -> id <> g -> g ∉ map fst (inherited_res id d) ->
  NoDup (map a_id (aces d)) ->
  first_ace (relevant_aces (dav_repos_get_principal_id p) (aggregate_privileges ns privilege d) id d) = Some a ->
  a_prin a.1 <> g ->
  granted p ns privilege id (cascade_resource g d) = granted p ns privilege id d.
Proof.
  intros Hp Hid Hinh Hnd Ha Hg. unfold granted, decision. rewrite Ha.
  assert (aggregate_privileges ns privilege (cascade_resource g d) = aggregate_privileges ns privilege d) as ->.
  { unfold aggregate_privileges. by rewrite cascade_privileges. }
  set (privs := aggregate_privileges ns privilege d) in *.
  pose proof (relevant_aces_cascade g _ privs id d Hp Hid Hinh Hnd) as Hrel.
  pose proof (first_ace_spec (relevant_aces (dav_repos_get_principal_id p) privs id d)) as H1.
  rewrite Ha in H1. destruct H1 as [Hin Hmin].
  pose proof (first_ace_spec (relevant_aces (dav_repos_get_principal_id p) privs id (cascade_resource g d))) as H2.
  destruct (first_ace (relevant_aces _ privs id (cascade_resource g d))) as [b|].
  - destruct H2 as [Hb Hbmin]. apply Hrel in Hb as [Hb _].
    pose proof (before_ace_same a b (Hbmin a (proj2 (Hrel a) (conj Hin Hg))) (Hmin b Hb)) as Heq.
    f_equal. f_equal. symmetry. apply (NoDup_map_eq a_id (aces d)); [done| | |done];
      by eapply relevant_aces_rows.
  - pose proof (proj2 (Hrel a) (conj Hin Hg)) as H. rewrite H2 in H. by apply elem_of_nil in H.
Qed.

(** C36. The deletion of a group takes back no grant that its members have through a group above:
    when the entry that decides for a principal is not one for the group itself, the check
    of access gives the same answer after the deletion as before. *)
Theorem deleted_group_keeps_access ns privilege p r grp s a :
  let g := serialno grp in
  let asked := dav_repos_get_principal_id p in
  resourcetype grp = Some dav_repos_GROUP ->
  asked <> SUPER_USER_ID -> asked <> g -> serialno r <> g ->
  g ∉ map fst (inherited_res (serialno r) (c_db s)) -> NoDup (map a_id (aces (c_db s))) ->
  first_ace (relevant_aces asked (aggregate_privileges ns privilege (c_db s)) (serialno r) (c_db s)) = Some a ->
  a_prin a.1 <> g ->
  let s' := (dbms_delete_resource grp s).2 in
  c_errnum (dbms_is_allow ns privilege p [] r None s').2 = false -> c_errnum s' = false ->
  (dbms_is_allow ns privilege p [] r None s').1.1 = int_of_bool (granted p ns privilege (serialno r) (c_db s)).
Proof.
  intros g asked Ht Hsu Hp Hr Hinh Hnd Ha Hg s' He Hs.
  rewrite is_allow_result; [|done|done|done]. cbn [fst].
  destruct (delete_resource_ok grp s Hs) as (_ & d & Hd & Hc). rewrite Ht in Hd. injection Hd as <-.
  unfold s'. rewrite Hc. f_equal. by eapply granted_cascade.
Qed.

(** ** The team is deleted

    Group 1 may read the resource 20; Ann (3) is in it through the team (2) only. *)
Definition team_db : db :=
  set_acl_privileges [PrivilegeRow 1 1 "read" 1 2]
  (set_acl_inheritance [(20, "20"%string)]
  (set_aces [AceRow 40 "G" "f" 20 1 0 None]
  (set_dav_aces_privileges [(40, 1)] staff_db))).

Definition team_site : conn := Conn team_db [] 0 [] false.
Definition team : dav_repos_resource := set_serialno 2 (set_resourcetype (Some dav_repos_GROUP) zero_dbr).
Definition ann : dav_principal := Principal PRINCIPAL_HREF 3 "users/ann".
Definition paper : dav_repos_resource := set_serialno 20 (set_has_resource true zero_dbr).

Lemma team_exact : groups_exact (c_db team_site).
Proof. destruct staff_exact as [H1 H2 H3 H4]. by split. Qed.

Lemma delete_principal_groups_witness :
  ~ groups_exact (c_db (dbms_delete_resource team team_site).2).
Proof.
  intros H. apply (delete_principal_groups team team_site team_exact) in H; [|reflexivity].
  apply H. exists 1, 3. cbn. split; [by left|]. right. by left.
Defined.

(** Ann is in no group any more, and reads on. *)
Lemma deleted_group_keeps_access_witness :
  let s' := (dbms_delete_resource team team_site).2 in
  group_members (c_db s') = [] /\ (dbms_is_allow 1 "read" ann [] paper None s').1.1 = 1.
Proof.
  intros s'. split; [reflexivity|].
  apply (deleted_group_keeps_access 1 "read" ann paper team team_site (AceRow 40 "G" "f" 20 1 0 None, 2%nat));
    try discriminate; try (vm_compute; reflexivity).
  - apply (bool_decide_unpack _). vm_compute. exact I.
  - apply (bool_decide_unpack _). vm_compute. exact I.
Defined.
