(* ===== verification/Listing.v ===== *)
(** * Listing collections ([dbms.c], [bridge.c])

    One query gives the children of all the collections of a level;
    [sabridge_get_collection_children] repeats it level by level and marks the
    resources already retrieved, so that a cycle of binds is not followed twice. *)
From S2P Require Import Prelude Util Db Bind Resource DbmsDeltav Bridge Acl.
Local Open Scope Z_scope.
Local Open Scope limestone_scope.

(** ** The query *)

(** A row of the query; [None] for what an outer join does not find. *)
Record listing_row := ListingRow {
  lr_bind : bind_row;
  lr_resource : option resource_row;
  lr_media : option media_row;
  lr_creator : option principal_row;
  lr_vcr : option vcr_row;
  lr_checked_version : option version_row;
  lr_version : option version_row;
  lr_vr_vcr : option vcr_row
}.

Definition left_join {A} (l : list A) : list (option A) :=
  match l with [] => [None] | _ => map Some l end.

(** The rows of a table with [key] in the column [f]; a NULL key has none. *)
Definition matching {A} (f : A -> Z) (key : option Z) (l : list A) : list A :=
  List.filter (fun x => bool_decide (Some (f x) = key)) l.

(** The joins; with [acl] the table [resources] is joined on the left too. *)
Definition join_listing_row (acl : bool) (d : db) (b : bind_row) : list listing_row :=
  let found := matching r_id (Some (b_res b)) (resources d) in
  flat_map (fun r =>
    flat_map (fun m =>
      flat_map (fun p =>
        flat_map (fun v =>
          flat_map (fun c =>
            flat_map (fun w =>
              map (fun u => ListingRow b r m p v c w u)
                (left_join (matching vc_checked (ve_res <$> w) (vcrs d))))
              (left_join (matching ve_res (r_id <$> r) (versions d))))
            (left_join (matching ve_res (vc_checked <$> v) (versions d))))
          (left_join (matching vc_res (r_id <$> r) (vcrs d))))
        (left_join (matching p_res (r_creator <$> r) (principals d))))
      (left_join (matching m_res (Some (b_res b)) (media d))))
    (if acl then left_join found else map Some found).

Definition listing_rows (acl : bool) (ids : list Z) (d : db) : list listing_row :=
  flat_map (join_listing_row acl d) (List.filter (fun b => bool_decide (b_coll b ∈ ids)) (binds d)).

(** The column [grantdeny]: ORDER BY CHAR_LENGTH(path) DESC, protected DESC, id.
    The privilege is looked for by its name in every namespace. *)
Definition privileges_named (priv : string) (d : db) : list Z :=
  map v_id (List.filter (fun par =>
    existsb (fun chi => bool_decide (v_name chi = priv /\ v_lft par <= v_lft chi
                                     /\ v_rgt chi <= v_rgt par)) (acl_privileges d))
    (acl_privileges d)).

Definition before_in_listing (x y : ace_row * nat) : bool :=
  let px := String.eqb (a_protected x.1) DB_TRUE in
  let py := String.eqb (a_protected y.1) DB_TRUE in
  bool_decide (y.2 < x.2)%nat
  || (bool_decide (x.2 = y.2)
      && (if Bool.eqb px py then bool_decide (a_id x.1 < a_id y.1) else px)).

Fixpoint first_in_listing (l : list (ace_row * nat)) : option (ace_row * nat) :=
  match l with
  | [] => None
  | x :: rest =>
      match first_in_listing rest with
      | Some y => if before_in_listing y x then Some y else Some x
      | None => Some x
      end
  end.

Definition grantdeny (principal_id : Z) (priv : string) (id : Z) (d : db) : string :=
  match first_in_listing (relevant_aces principal_id (privileges_named priv d) id d) with
  | Some a => a_grantdeny a.1
  | None => EmptyString
  end.

(** [dbrow[26][0] == 'G'] *)
Definition visible (acl : option (Z * string)) (d : db) (b : bind_row) : bool :=
  match acl with
  | None => true
  | Some (principal_id, priv) =>
      match grantdeny principal_id priv (b_res b) d with
      | String c _ => Ascii.eqb c "G"%char
      | EmptyString => false
      end
  end.

(** ** From rows to records *)

(** The URI of a child: [uris] has those of the collections asked for. *)
Definition child_uri (uris : gmap Z string) (b : bind_row) : string :=
  match uris !! b_coll b with
  | Some u => if bool_decide (u = "/"%string) then String SLASH (b_name b)
              else u +:+ String SLASH (b_name b)
  | None => String SLASH (b_name b)
  end.

(** greatest(lastmodified, 'updated_at', child_binds.updated_at) *)
Definition listing_updated_at (after : Z) (row : listing_row) : Z :=
  foldr Z.max after [default 0 (r_lastmodified <$> lr_resource row); b_updated (lr_bind row)].

Definition with_media (row : listing_row) (r : dav_repos_resource) : dav_repos_resource :=
  if has_body (resourcetype r) then
    set_getcontentlength (from_option (fun m => wrap32 (m_size m)) 0 (lr_media row))
      (set_getcontenttype (lr_media row ≫= m_mimetype)
         (set_sha1str (m_sha1 <$> lr_media row) r))
  else r.

Definition with_checked (row : listing_row) (r : dav_repos_resource) : dav_repos_resource :=
  if bool_decide (resourcetype r = Some dav_repos_VERSIONED
                  \/ resourcetype r = Some dav_repos_VERSIONED_COLLECTION)
  then
    let number := from_option (fun v => wrap32 (ve_number v)) 0 (lr_checked_version row) in
    let r :=
      match from_option vc_state EmptyString (lr_vcr row) with
      | String c _ =>
          if Ascii.eqb c "I"%char
          then set_vr_num number (set_checked_state DAV_RESOURCE_CHECKED_IN r)
          else if Ascii.eqb c "O"%char
          then set_vr_num number (set_checked_state DAV_RESOURCE_CHECKED_OUT r)
          else r
      | EmptyString => r
      end in
    set_vhr_id (from_option (fun v => wrap32 (vc_vhr v)) 0 (lr_vcr row))
      (set_autoversion_type (from_option (fun v => wrap32 (vc_version_type v)) 0 (lr_vcr row))
         (set_checkin_on_unlock
            (from_option (fun v => wrap32 (vc_checkin_on_unlock v)) 0 (lr_vcr row)) r))
  else r.

Definition with_version (row : listing_row) (r : dav_repos_resource) : dav_repos_resource :=
  if bool_decide (resourcetype r = Some dav_repos_VERSION
                  \/ resourcetype r = Some dav_repos_COLLECTION_VERSION)
  then
    let checked := from_option (fun v => wrap32 (vc_checked v)) 0 (lr_vr_vcr row) in
    set_vcr_id (from_option (fun v => wrap32 (default 0 (ve_vcr v))) 0 (lr_version row))
      (set_version (from_option ve_number 0 (lr_version row))
         (if bool_decide (serialno r = checked) then set_lastversion true r else r))
  else r.

Definition item_of_row (db_r : dav_repos_resource) (uris : gmap Z string)
    (row : listing_row) : dav_repos_resource :=
  let b := lr_bind row in
  let res := lr_resource row in
  let r :=
    set_parent_id (b_coll b)
      (set_uri (Some (child_uri uris b))
         (set_bind_id (wrap32 (b_id b))
            (set_serialno (from_option r_id 0 res)
               (set_created_at (from_option r_created 0 res)
                  (set_displayname (Some (from_option r_displayname EmptyString res))
                     (set_updated_at (listing_updated_at (dbr_updated_at db_r) row)
                        (set_getcontentlanguage (r_language <$> res)
                           (set_owner_id (from_option (fun r => wrap32 (r_owner r)) 0 res)
                              (set_creator_id (from_option (fun r => wrap32 (r_creator r)) 0 res)
                                 (set_resourcetype (r_type <$> res)
                                    (set_root_path (root_path db_r)
                                       (set_has_resource true zero_dbr)))))))))))) in
  let r := if is_collection (resourcetype r) then set_getcontenttype (Some DIR_MAGIC_TYPE) r
           else r in
  set_limebar_state (res ≫= r_limebar)
    (set_creator_displayname (Some (from_option p_name EmptyString (lr_creator row)))
       (set_uuid (from_option r_uuid EmptyString res)
          (with_version row (with_checked row (with_media row r))))).

(** The collections of the chain that are asked for. *)
Definition requested (chain : list dav_repos_resource) : list dav_repos_resource :=
  List.filter (fun r => negb (dbr_bind r) && is_collection (resourcetype r)) chain.

(** A NULL URI removes the key. *)
Definition id_uri_hash (chain : list dav_repos_resource) : gmap Z string :=
  fold_left (fun h r => match uri r with
                        | Some u => <[serialno r := u]> h
                        | None => delete (serialno r) h
                        end) (requested chain) ∅.

(** [dbms_get_collection_resource]: the records of the rows, and the number of all
    rows.  No collection asked for is the condition IN (NULL), which no row
    satisfies. *)
Definition dbms_get_collection_resource (acl : option (Z * string))
    (chain : list dav_repos_resource)
  : M (outcome (dav_error + (list dav_repos_resource * Z))) :=
  match chain with
  | [] => mret Crash
  | db_r :: _ =>
      if has_resource db_r then
        q ← select (fun d =>
              let rows := listing_rows (bool_decide (is_Some acl))
                            (map serialno (requested chain)) d in
              (List.filter (fun row => visible acl d (lr_bind row)) rows, Z.of_nat (length rows)));
        oret (match q with
              | None => inl (dav_new_error HTTP_INTERNAL_SERVER_ERROR)
              | Some (rows, n) => inr (map (item_of_row db_r (id_uri_hash chain)) rows, n)
              end)
      else mret Crash
  end.

(** ** Level by level *)

Definition DAV_INFINITY : Z := 2147483647.

(** A resource retrieved before has its [bind] set; the hash [retr_rs] is the list
    of the identifiers retrieved. *)
Fixpoint mark_level (retrieved : list Z) (level : list dav_repos_resource)
  : list Z * list dav_repos_resource :=
  match level with
  | [] => (retrieved, [])
  | r :: rest =>
      let seen := bool_decide (serialno r ∈ retrieved) in
      let '(retrieved, rest) := mark_level (serialno r :: retrieved) rest in
      (retrieved, set_bind seen r :: rest)
  end.

(** The [while] loop; [None] is an exhausted fuel.  [next_level_tail] is not set at
    the first turn, and is read as different from the records of the chain. *)
Fixpoint children_loop (fuel : nat) (depth : Z) (acl : option (Z * string))
    (retrieved : list Z) (next_level : list dav_repos_resource) (total : Z)
  : M (option (outcome (dav_error + (list dav_repos_resource * Z)))) :=
  match fuel with
  | O => mret None
  | S n =>
      match next_level with
      | [] => mret (Some (Ret (inr ([], total))))
      | _ =>
          let '(retrieved, level) := mark_level retrieved next_level in
          if bool_decide (depth = DAV_INFINITY) then
            q ← dbms_get_collection_resource acl level;
            match q with
            | Crash => mret (Some Crash)
            | Ret (inl e) => mret (Some (Ret (inl e)))
            | Ret (inr (next, k)) =>
                rest ← children_loop n depth acl retrieved next
                         (match next with [] => total | _ => total + k end);
                mret (match rest with
                      | Some (Ret (inr (l, t))) => Some (Ret (inr (level ++ l, t)))
                      | other => other
                      end)
            end
          else mret (Some (Ret (inr (level, total))))
      end
  end.

(** Every level but the last retrieves a resource for the first time. *)
Definition children_fuel (d : db) : nat := S (S (length (binds d))).

(** The children and the number of items; depth 0 leaves the number as it was. *)
Definition sabridge_get_collection_children (db_r : dav_repos_resource) (depth : Z)
    (acl : option (Z * string))
  : M (outcome (dav_error + (list dav_repos_resource * option Z))) :=
  if bool_decide (depth = 0) then oret (inr ([], None))
  else
    q <- dbms_get_collection_resource acl [db_r] ;;
    match q with
    | inl e => oret (inl e)
    | inr (head, n) =>
        d ← get_db;
        r ← children_loop (children_fuel d) depth acl [serialno db_r] head n;
        mret (match r with
              | Some (Ret (inr (l, t))) => Ret (inr (l, Some t))
              | Some (Ret (inl e)) => Ret (inl e)
              | Some Crash | None => Crash
              end)
    end.
