(* ===== verification/ListingSpec.v ===== *)
(** * The listing of a collection: what it holds

    [sabridge_get_collection_children] with an infinite depth ends, and lists every
    bind below the collection exactly once, whatever cycles the binds make. *)
From S2P Require Import Prelude Util Db Bind Resource DbmsDeltav Bridge Acl Listing.
Local Open Scope Z_scope.
Local Open Scope limestone_scope.

(** ** What a record keeps of its row *)

(** The bind an item came through. *)
Definition item_key (r : dav_repos_resource) : Z * Z * Z :=
  (dbr_parent_id r, serialno r, dbr_bind_id r).
Definition bind_key (b : bind_row) : Z * Z * Z := (b_coll b, b_res b, wrap32 (b_id b)).

(** The parts of a record that the search needs. *)
Definition shape (r : dav_repos_resource)
  : Z * Z * Z * option dav_repos_type * bool * bool :=
  (dbr_parent_id r, serialno r, dbr_bind_id r, resourcetype r, has_resource r, dbr_bind r).

Lemma shape_media row r : shape (with_media row r) = shape r.
Proof. unfold with_media. by destruct (has_body _). Qed.

Lemma shape_checked row r : shape (with_checked row r) = shape r.
Proof.
  unfold with_checked. case_bool_decide; [|done].
  destruct (from_option vc_state _ _) as [|c ?]; [done|].
  by destruct (Ascii.eqb c "I"); [|destruct (Ascii.eqb c "O")].
Qed.

Lemma shape_version row r : shape (with_version row r) = shape r.
Proof.
  unfold with_version. case_bool_decide; [|done]. by destruct (bool_decide (serialno r = _)).
Qed.

Lemma shape_set_limebar_state x r : shape (set_limebar_state x r) = shape r.
Proof. done. Qed.
Lemma shape_set_creator_displayname x r : shape (set_creator_displayname x r) = shape r.
Proof. done. Qed.
Lemma shape_set_uuid x r : shape (set_uuid x r) = shape r.
Proof. done. Qed.
Lemma shape_set_getcontenttype x r : shape (set_getcontenttype x r) = shape r.
Proof. done. Qed.

Lemma shape_item db_r uris row :
  shape (item_of_row db_r uris row)
  = (b_coll (lr_bind row), from_option r_id 0 (lr_resource row), wrap32 (b_id (lr_bind row)),
     r_type <$> lr_resource row, true, false).
Proof.
  unfold item_of_row. cbv zeta.
  rewrite shape_set_limebar_state, shape_set_creator_displayname, shape_set_uuid, shape_version, shape_checked, shape_media.
  destruct (is_collection _); [rewrite shape_set_getcontenttype|]; reflexivity.
Qed.

(** ** The query under the keys of the schema *)

(** The keys that make every join find one row at most, and the reference of a bind
    to its resource. *)
Record joins_ok (d : db) : Prop := {
  jo_resources : NoDup (map r_id (resources d));
  jo_media : NoDup (map m_res (media d));
  jo_principals : NoDup (map p_res (principals d));
  jo_vcrs : NoDup (map vc_res (vcrs d));
  jo_versions : NoDup (map ve_res (versions d));
  jo_checked b v : b ∈ binds d -> v ∈ versions d -> ve_res v = b_res b ->
    (length (matching vc_checked (Some (ve_res v)) (vcrs d)) <= 1)%nat;
  jo_binds b : b ∈ binds d -> exists r, r ∈ resources d /\ r_id r = b_res b
}.

Lemma matching_none {A} (f : A -> Z) l : matching f None l = [].
Proof. unfold matching. apply filter_bool_none. intros x _. by apply bool_decide_eq_false. Qed.

Lemma elem_of_matching {A} (f : A -> Z) k l x : x ∈ matching f (Some k) l <-> f x = k /\ x ∈ l.
Proof.
  unfold matching. rewrite elem_of_filter_bool, bool_decide_eq_true.
  split; intros [H Hin]; (split; [congruence|done]).
Qed.

Lemma matching_key {A} (f : A -> Z) k l :
  NoDup (map f l) -> (length (matching f k l) <= 1)%nat.
Proof.
  destruct k as [k|]; [|rewrite matching_none; cbn; lia]. intros Hnd.
  destruct (matching f (Some k) l) as [|x [|y rest]] eqn:E; cbn; [lia..|].
  assert (Hx : x ∈ matching f (Some k) l) by (rewrite E; set_solver).
  assert (Hy : y ∈ matching f (Some k) l) by (rewrite E; set_solver).
  apply elem_of_matching in Hx as [Hkx Hx], Hy as [Hky Hy].
  assert (x = y) as -> by (apply (NoDup_map_eq f l); congruence).
  assert (Hd : NoDup (map f (matching f (Some k) l))) by (by apply NoDup_map_filter).
  rewrite E in Hd. cbn in Hd. apply NoDup_cons in Hd as [Hd _]. set_solver.
Qed.

Lemma left_join_one {A} (l : list A) : (length l <= 1)%nat -> exists o, left_join l = [o] /\ o = head l.
Proof. destruct l as [|x [|]]; cbn; [eauto..|lia]. Qed.

Lemma find_resource_spec d i r :
  NoDup (map r_id (resources d)) -> r ∈ resources d -> r_id r = i -> find_resource i d = Some r.
Proof.
  intros Hnd Hr Hi. unfold find_resource. destruct (List.find _ _) as [q|] eqn:Hq.
  - apply find_some in Hq as [Hq Hqi%bool_decide_eq_true]. apply list_elem_of_In in Hq.
    f_equal. apply (NoDup_map_eq r_id (resources d)); congruence.
  - apply find_none with (x := r) in Hq; [|by apply list_elem_of_In].
    by apply bool_decide_eq_false in Hq.
Qed.

Lemma join_listing_row_one acl d b :
  joins_ok d -> b ∈ binds d ->
  exists row r, join_listing_row acl d b = [row] /\ lr_bind row = b /\ lr_resource row = Some r
    /\ find_resource (b_res b) d = Some r /\ r_id r = b_res b.
Proof.
  intros Hj Hb. destruct (jo_binds d Hj b Hb) as (r & Hr & Hri).
  assert (Hfound : matching r_id (Some (b_res b)) (resources d) = [r]).
  { pose proof (matching_key r_id (Some (b_res b)) _ (jo_resources d Hj)) as Hlen.
    assert (Hin : r ∈ matching r_id (Some (b_res b)) (resources d)) by (by apply elem_of_matching).
    destruct (matching r_id _ _) as [|x [|]]; cbn in Hlen; [set_solver| |lia].
    apply list_elem_of_singleton in Hin. by subst. }
  unfold join_listing_row. rewrite Hfound.
  replace (if acl then left_join [r] else map Some [r]) with [Some r] by (by destruct acl).
  cbn [flat_map]. rewrite app_nil_r.
  destruct (left_join_one _ (matching_key m_res (Some (b_res b)) _ (jo_media d Hj))) as (m & -> & _).
  destruct (left_join_one _ (matching_key p_res (r_creator <$> Some r) _ (jo_principals d Hj)))
    as (p & -> & _).
  destruct (left_join_one _ (matching_key vc_res (r_id <$> Some r) _ (jo_vcrs d Hj))) as (v & -> & _).
  cbn [flat_map].
  destruct (left_join_one _ (matching_key ve_res (vc_checked <$> v) _ (jo_versions d Hj)))
    as (c & -> & _).
  destruct (left_join_one _ (matching_key ve_res (r_id <$> Some r) _ (jo_versions d Hj)))
    as (w & -> & Hw). cbn [flat_map].
  assert (Hu : (length (matching vc_checked (ve_res <$> w) (vcrs d)) <= 1)%nat).
  { destruct w as [w|]; [|cbn; rewrite matching_none; cbn; lia]. cbn.
    assert (Hin : w ∈ matching ve_res (Some (r_id r)) (versions d)).
    { cbn in Hw. destruct (matching ve_res _ _) as [|x]; [done|]. injection Hw as ->. by left. }
    apply elem_of_matching in Hin as [He Hin]. apply (jo_checked d Hj b w Hb Hin). congruence. }
  destruct (left_join_one _ Hu) as (u & -> & _). cbn [map app].
  exists (ListingRow b (Some r) m p v c w u), r. repeat split; try done.
  apply find_resource_spec; [apply (jo_resources d Hj)|done..].
Qed.

(** ** One level *)

(** A record as the query makes it. *)
Definition fresh (d : db) (r : dav_repos_resource) : Prop :=
  has_resource r = true /\ dbr_bind r = false
  /\ resourcetype r = r_type <$> find_resource (serialno r) d
  /\ serialno r ∈ map b_res (binds d).

Definition below (acl : option (Z * string)) (d : db) (ids : list Z) : list bind_row :=
  List.filter (fun b => bool_decide (b_coll b ∈ ids) && visible acl d b) (binds d).

Lemma rows_items acl d db_r uris l :
  joins_ok d -> (forall b, b ∈ l -> b ∈ binds d) ->
  let rows := List.filter (fun row => visible acl d (lr_bind row))
                (flat_map (join_listing_row (bool_decide (is_Some acl)) d) l) in
  map item_key (map (item_of_row db_r uris) rows)
  = map bind_key (List.filter (fun b => visible acl d b) l)
  /\ Forall (fresh d) (map (item_of_row db_r uris) rows).
Proof.
  intros Hj. induction l as [|b l IH]; intros Hl; cbn zeta; [split; [done|constructor]|].
  destruct IH as [IH1 IH2]; [intros; apply Hl; by right|]. cbn zeta in *.
  destruct (join_listing_row_one (bool_decide (is_Some acl)) d b Hj (Hl b ltac:(by left)))
    as (row & r & Hrow & Hb & Hr & Hf & Hi).
  cbn [flat_map]. rewrite Hrow. cbn [app List.filter]. rewrite Hb.
  destruct (visible acl d b); [|done]. cbn [map].
  pose proof (shape_item db_r uris row) as Hshape. rewrite Hb, Hr in Hshape.
  cbn [from_option fmap option_fmap option_map] in Hshape.
  generalize dependent (item_of_row db_r uris row). unfold shape. intros it Hshape.
  split.
  - rewrite IH1. f_equal. injection Hshape as Hp Hsn Hid _ _ _. unfold item_key, bind_key.
    by rewrite Hp, Hsn, Hid, Hi.
  - constructor; [|done]. injection Hshape as _ Hsn _ Ht Hh Hbind.
    unfold fresh. rewrite Hsn, Hi, Hf, Ht, Hh, Hbind. repeat split; [done..|].
    apply elem_of_map. exists b. split; [done|]. apply Hl. by left.
Qed.

Lemma level_spec acl chain s next k s' :
  joins_ok (c_db s) ->
  dbms_get_collection_resource acl chain s = (Ret (inr (next, k)), s') ->
  c_db s' = c_db s /\ Forall (fresh (c_db s)) next
  /\ map item_key next = map bind_key (below acl (c_db s) (map serialno (requested chain))).
Proof.
  intros Hj. destruct chain as [|db_r chain]; [done|]. unfold dbms_get_collection_resource.
  destruct (has_resource db_r); [|done]. rewrite bind_run.
  match goal with |- context [select ?f s] => set (q := f) end.
  pose proof (select_db q s) as Hd. pose proof (select_result q s) as Hr.
  destruct (select q s) as [[[rows n]|] s1]; cbn in Hd, Hr |- *; [|done].
  specialize (Hr _ eq_refl). unfold q in Hr. injection Hr as -> ->.
  intros [= <- <- <-]. split; [done|].
  unfold listing_rows, below.
  pose proof (rows_items acl (c_db s) db_r (id_uri_hash (db_r :: chain))
    (List.filter (fun b => bool_decide (b_coll b ∈ map serialno (requested (db_r :: chain))))
       (binds (c_db s))) Hj) as H.
  cbn zeta in H. rewrite filter_filter_bool in H. destruct H as [H1 H2]; [|done].
  by intros b [_ Hb]%elem_of_filter_bool.
Qed.

Lemma level_no_crash acl db_r chain s :
  has_resource db_r = true -> (dbms_get_collection_resource acl (db_r :: chain) s).1 <> Crash.
Proof.
  intros H. unfold dbms_get_collection_resource. rewrite H, bind_run.
  by destruct (select _ s) as [[[]|] ?].
Qed.

(** ** Marking *)

Lemma mark_level_key R l : map item_key (mark_level R l).2 = map item_key l.
Proof.
  revert R. induction l as [|r l IH]; intros R; [done|]. cbn.
  destruct (mark_level (serialno r :: R) l) as [R' l'] eqn:E. cbn. f_equal.
  specialize (IH (serialno r :: R)). by rewrite E in IH.
Qed.

Lemma mark_level_retrieved R l x :
  x ∈ (mark_level R l).1 <-> x ∈ R \/ x ∈ map serialno l.
Proof.
  revert R. induction l as [|r l IH]; intros R; cbn; [set_solver|].
  specialize (IH (serialno r :: R)). destruct (mark_level (serialno r :: R) l) as [R' l'].
  cbn in *. rewrite IH. set_solver.
Qed.

Definition coll_id (d : db) (i : Z) : bool := is_collection (r_type <$> find_resource i d).

(** Asked for: the collections of the level not retrieved before. *)
Lemma mark_level_requested d R l :
  Forall (fresh d) l ->
  forall x, x ∈ map serialno (requested (mark_level R l).2)
            <-> x ∈ map serialno l /\ x ∉ R /\ coll_id d x = true.
Proof.
  intros Hl. revert R. induction Hl as [|r l (Hh & Hb & Ht & Hs) Hl IH]; intros R x; cbn;
    [set_solver|].
  specialize (IH (serialno r :: R) x).
  destruct (mark_level (serialno r :: R) l) as [R' l']. cbn in *.
  unfold requested in *. cbn. unfold coll_id in *.
  change (resourcetype (set_bind _ r)) with (resourcetype r).
  change (dbr_bind (set_bind ?b r)) with b. rewrite Ht.
  case_bool_decide as Hin; cbn.
  - rewrite IH. set_solver.
  - destruct (is_collection (r_type <$> find_resource (serialno r) d)) eqn:Hc; cbn.
    + rewrite elem_of_cons, IH. change (serialno (set_bind _ r)) with (serialno r).
      split; [intros [->|?]; set_solver|]. intros ([->|?]%elem_of_cons & ? & ?); [by left|].
      destruct (decide (x = serialno r)) as [->|]; [by left|right]. set_solver.
    + rewrite IH. split; [set_solver|]. intros ([->|?]%elem_of_cons & ? & ?); [congruence|].
      destruct (decide (x = serialno r)) as [->|]; [congruence|]. set_solver.
Qed.

Lemma mark_level_head d R l :
  Forall (fresh d) l -> l <> [] ->
  exists r rest, (mark_level R l).2 = r :: rest /\ has_resource r = true.
Proof.
  intros [|r l' (Hh & _) Hl] Hne; [done|]. cbn.
  destruct (mark_level (serialno r :: R) l') as [R' l'']. eauto.
Qed.

(** ** All levels *)

(** The collections whose children are listed. *)
Inductive expanded (acl : option (Z * string)) (d : db) (root : Z) : Z -> Prop :=
| expanded_root : expanded acl d root root
| expanded_step b : expanded acl d root (b_coll b) -> b ∈ binds d ->
    visible acl d b = true -> coll_id d (b_res b) = true -> expanded acl d root (b_res b).

(** What the loop adds below the level it is at, when [E] has been expanded: the
    binds of the collections [F] that were not. *)
Record adds (acl : option (Z * string)) (d : db) (E F : list Z)
    (next l : list dav_repos_resource) : Prop := {
  adds_more x : x ∈ E -> x ∈ F;
  adds_keys : map item_key l ≡ₚ map item_key next
    ++ map bind_key (List.filter (fun b => bool_decide (b_coll b ∈ F)
         && negb (bool_decide (b_coll b ∈ E)) && visible acl d b) (binds d));
  adds_next r : r ∈ next -> coll_id d (serialno r) = true -> serialno r ∈ F;
  adds_closed b : b ∈ binds d -> b_coll b ∈ F -> b_coll b ∉ E -> visible acl d b = true ->
    coll_id d (b_res b) = true -> b_res b ∈ F;
  adds_least (P : Z -> Prop) :
    (forall x, x ∈ E -> P x) ->
    (forall r, r ∈ next -> coll_id d (serialno r) = true -> P (serialno r)) ->
    (forall b, b ∈ binds d -> P (b_coll b) -> visible acl d b = true ->
       coll_id d (b_res b) = true -> P (b_res b)) ->
    forall x, x ∈ F -> P x
}.

Lemma adds_nothing acl d E : adds acl d E E [] [].
Proof.
  split; try set_solver. cbn. rewrite filter_bool_none; [done|].
  intros b _. by case_bool_decide.
Qed.

(** The items of a level come from binds, and the binds have items. *)
Lemma item_of_bind l bs b :
  map item_key l = map bind_key bs -> b ∈ bs -> exists r, r ∈ l /\ serialno r = b_res b.
Proof.
  intros H Hb. assert (Hk : bind_key b ∈ map item_key l) by (rewrite H; apply elem_of_map; eauto).
  apply elem_of_map in Hk as (r & Hk & Hr). injection Hk as _ Hs _. eauto.
Qed.

Lemma bind_of_item l bs r :
  map item_key l = map bind_key bs -> r ∈ l -> exists b, b ∈ bs /\ serialno r = b_res b.
Proof.
  intros H Hr. assert (Hk : item_key r ∈ map bind_key bs) by (rewrite <- H; apply elem_of_map; eauto).
  apply elem_of_map in Hk as (b & Hk & Hb). injection Hk as _ Hs _. eauto.
Qed.

Lemma elem_of_below acl d ids b :
  b ∈ below acl d ids <-> b ∈ binds d /\ b_coll b ∈ ids /\ visible acl d b = true.
Proof.
  unfold below. rewrite elem_of_filter_bool, andb_true_iff, bool_decide_eq_true. tauto.
Qed.

(** One more level in front. *)
Lemma adds_level acl d (R E F Q : list Z) level next next' l :
  (forall x, x ∈ R -> coll_id d x = true -> x ∈ E) -> (forall x, x ∈ E -> x ∈ R) ->
  (forall x, x ∈ Q <-> x ∈ map serialno next /\ x ∉ R /\ coll_id d x = true) ->
  map item_key level = map item_key next ->
  map item_key next' = map bind_key (below acl d Q) ->
  adds acl d (E ++ Q) F next' l ->
  adds acl d E F next (level ++ l).
Proof.
  intros HR HE HQ Hlevel Hnext [Hmore Hkeys Hn Hclosed Hleast].
  assert (HQE : forall x, x ∈ Q -> x ∉ E).
  { intros x (_ & Hx & _)%HQ HxE. by apply Hx, HE. }
  assert (Happ : forall x, bool_decide (x ∈ E ++ Q) = bool_decide (x ∈ E) || bool_decide (x ∈ Q)).
  { intros x. rewrite (bool_decide_ext (x ∈ E ++ Q) (x ∈ E \/ x ∈ Q)) by apply elem_of_app.
    apply bool_decide_or. }
  split.
  - intros x Hx. apply Hmore. set_solver.
  - rewrite map_app, Hlevel, Hkeys, Hnext. apply Permutation_app_head.
    rewrite <- map_app. apply Permutation_map, filter_union_perm.
    + intros b _. rewrite <- andb_orb_distrib_l. f_equal. rewrite (Happ (b_coll b)).
      destruct (decide (b_coll b ∈ Q)) as [Hq|Hq].
      * rewrite (bool_decide_true (b_coll b ∈ Q)), (bool_decide_true (b_coll b ∈ F)),
          (bool_decide_false (b_coll b ∈ E)) by (try apply HQE; try apply Hmore; set_solver).
        done.
      * rewrite (bool_decide_false (b_coll b ∈ Q)) by done. by rewrite orb_false_r.
    + intros b _. rewrite (Happ (b_coll b)).
      destruct (bool_decide (b_coll b ∈ Q)); [|done]. rewrite orb_true_r. cbn.
      by rewrite !andb_false_r.
  - intros r Hr Hc. destruct (decide (serialno r ∈ R)) as [Hin|Hout]; [apply Hmore; set_solver|].
    apply Hmore, elem_of_app. right. apply HQ. split; [|done]. apply elem_of_map. eauto.
  - intros b Hb HF HnE Hv Hc. destruct (decide (b_coll b ∈ Q)) as [HbQ|HbQ].
    + destruct (item_of_bind next' (below acl d Q) b Hnext) as (r & Hr & Hs);
        [apply elem_of_below; auto|]. rewrite <- Hs in Hc |- *. by apply Hn.
    + apply Hclosed; try done. set_solver.
  - intros P HPE HPn Hstep. apply Hleast; [|clear Hleast|done].
    + intros x [Hx|Hx]%elem_of_app; [by apply HPE|].
      apply HQ in Hx as (Hx & _ & Hc). apply elem_of_map in Hx as (r & <- & Hr). by apply HPn.
    + intros r Hr Hc. destruct (bind_of_item next' _ r Hnext Hr) as (b & Hb & Hs).
      apply elem_of_below in Hb as (Hb & HbQ & Hv). rewrite Hs in Hc |- *.
      apply Hstep; [done| |done|done].
      apply HQ in HbQ as (Hx & _ & Hc'). apply elem_of_map in Hx as (r' & Hr1 & Hr').
      rewrite <- Hr1 in Hc' |- *. by apply HPn.
Qed.

Lemma children_loop_spec n acl R next total s l t s' E :
  joins_ok (c_db s) -> Forall (fresh (c_db s)) next ->
  (forall x, x ∈ R -> coll_id (c_db s) x = true -> x ∈ E) -> (forall x, x ∈ E -> x ∈ R) ->
  children_loop n DAV_INFINITY acl R next total s = (Some (Ret (inr (l, t))), s') ->
  exists F, adds acl (c_db s) E F next l.
Proof.
  intros Hj. revert R next total s l t s' E Hj.
  induction n as [|n IH]; intros R next total s l t s' E Hj Hf HR HE; [done|].
  cbn [children_loop]. destruct next as [|r0 next0] eqn:Enext.
  { intros [= <- _ _]. exists E. apply adds_nothing. }
  rewrite <- Enext in *. clear Enext r0 next0.
  pose proof (mark_level_key R next) as Hkey.
  pose proof (mark_level_retrieved R next) as Hret.
  pose proof (mark_level_requested (c_db s) R next Hf) as Hreq.
  destruct (mark_level R next) as [R' level] eqn:Em. cbn [fst snd] in *.
  rewrite bool_decide_true by done. rewrite bind_run.
  destruct (dbms_get_collection_resource acl level s) as [[|[e|[next' k]]] s1] eqn:El;
    cbn; [done..|].
  destruct (level_spec _ _ _ _ _ _ Hj El) as (Hd & Hf' & Hkey').
  rewrite bind_run.
  destruct (children_loop n DAV_INFINITY acl R' next' _ s1) as [[[|[e|[l' t']]]|] s2] eqn:Er;
    cbn; try done.
  intros [= <- _ _].
  assert (HF : exists F, adds acl (c_db s) (E ++ map serialno (requested level)) F next' l').
  { rewrite <- Hd. eapply (IH R' next' _ s1); [..|exact Er]; rewrite ?Hd; try done.
    - intros x [Hx|Hx]%Hret Hc; [apply elem_of_app; left; by apply HR|].
      destruct (decide (x ∈ R)); [apply elem_of_app; left; by apply HR|].
      apply elem_of_app. right. by apply Hreq.
    - intros x [Hx|Hx]%elem_of_app; apply Hret; [left; by apply HE|right; by apply Hreq]. }
  destruct HF as [F HF]. exists F. by eapply adds_level.
Qed.

(** ** Termination *)

(** The resources below some collection not retrieved yet. *)
Definition unseen (d : db) (R : list Z) : list Z :=
  List.filter (fun x => negb (bool_decide (x ∈ R))) (remove_dups (map b_res (binds d))).

Lemma unseen_bound d R : (length (unseen d R) <= length (binds d))%nat.
Proof.
  unfold unseen. etrans; [apply filter_length_le|].
  etrans; [|apply Nat.eq_le_incl, (length_map b_res)].
  apply submseteq_length, NoDup_submseteq; [apply NoDup_remove_dups|].
  intros x. by rewrite elem_of_remove_dups.
Qed.

(** A resource retrieved for the first time makes fewer of them. *)
Lemma unseen_less d (R R' : list Z) x :
  (forall y, y ∈ R -> y ∈ R') -> x ∈ map b_res (binds d) -> x ∉ R -> x ∈ R' ->
  (length (unseen d R') < length (unseen d R))%nat.
Proof.
  intros Hsub Hx HR HR'. unfold unseen.
  assert (Hin : x ∈ remove_dups (map b_res (binds d))) by (by apply elem_of_remove_dups).
  revert Hin. induction (remove_dups (map b_res (binds d))) as [|y l IH]; [set_solver|].
  assert (Hle : forall l, (length (List.filter (fun x => negb (bool_decide (x ∈ R'))) l)
                  <= length (List.filter (fun x => negb (bool_decide (x ∈ R))) l))%nat).
  { clear - Hsub. induction l as [|y l IH]; [done|]. cbn.
    destruct (decide (y ∈ R)) as [Hy|Hy].
    - rewrite (bool_decide_true (y ∈ R')), (bool_decide_true (y ∈ R)) by auto. done.
    - rewrite (bool_decide_false (y ∈ R)) by done. cbn.
      destruct (negb (bool_decide (y ∈ R'))); cbn; lia. }
  intros [->|Hin]%elem_of_cons; cbn.
  - rewrite (bool_decide_true (y ∈ R')), (bool_decide_false (y ∈ R)) by done. cbn.
    specialize (Hle l). lia.
  - specialize (IH Hin). destruct (decide (y ∈ R)) as [Hy|Hy].
    + by rewrite (bool_decide_true (y ∈ R')), (bool_decide_true (y ∈ R)) by auto.
    + rewrite (bool_decide_false (y ∈ R)) by done. cbn.
      destruct (negb (bool_decide (y ∈ R'))); cbn; lia.
Qed.

Lemma children_loop_total n acl R next total s :
  joins_ok (c_db s) -> Forall (fresh (c_db s)) next ->
  (S (length (unseen (c_db s) R)) < n)%nat ->
  exists x s', children_loop n DAV_INFINITY acl R next total s = (Some (Ret x), s').
Proof.
  intros Hj. revert R next total s Hj.
  induction n as [|n IH]; intros R next total s Hj Hf Hn; [lia|].
  cbn [children_loop]. destruct next as [|r0 next0] eqn:Enext; [by eexists _, _|].
  rewrite <- Enext in *. assert (Hne : next <> []) by (by rewrite Enext). clear Enext r0 next0.
  pose proof (mark_level_retrieved R next) as Hret.
  pose proof (mark_level_requested (c_db s) R next Hf) as Hreq.
  destruct (mark_level_head _ R next Hf Hne) as (r & rest & Hhead & Hres).
  destruct (mark_level R next) as [R' level] eqn:Em. cbn [fst snd] in *.
  rewrite bool_decide_true by done. rewrite bind_run.
  pose proof (level_no_crash acl r rest s Hres) as Hnc. rewrite <- Hhead in Hnc.
  destruct (dbms_get_collection_resource acl level s) as [[|[e|[next' k]]] s1] eqn:El;
    cbn in Hnc |- *; [done|by eexists _, _|].
  destruct (level_spec _ _ _ _ _ _ Hj El) as (Hd & Hf' & Hkey'). rewrite bind_run.
  assert (H : exists x s', children_loop n DAV_INFINITY acl R' next'
                (match next' with [] => total | _ => total + k end) s1 = (Some (Ret x), s')).
  { destruct next' as [|r' next1] eqn:En'; [destruct n; [lia|by eexists _, _]|].
    rewrite <- En' in *. apply IH; rewrite ?Hd; [done..|].
    destruct (bind_of_item next' _ r' Hkey') as (b & Hb & _); [rewrite En'; by left|].
    apply elem_of_below in Hb as (_ & Hb & _). apply Hreq in Hb as (Hx & HxR & _).
    assert (Hlt : (length (unseen (c_db s) R') < length (unseen (c_db s) R))%nat); [|lia].
    apply (unseen_less _ _ _ (b_coll b)); [intros; apply Hret; by left| |done|apply Hret; by right].
    apply elem_of_map in Hx as (r2 & <- & Hr2). rewrite Forall_forall in Hf.
    by destruct (Hf r2 Hr2) as (_ & _ & _ & ?). }
  destruct H as ([e|[l t]] & s' & ->); cbn; by eexists _, _.
Qed.

Lemma reads_level acl chain : Reads (dbms_get_collection_resource acl chain).
Proof.
  unfold dbms_get_collection_resource, oret. destruct chain as [|r chain]; [apply reads_ret|].
  destruct (has_resource r); reads.
Qed.
#[export] Hint Resolve reads_level : lime.

Lemma reads_children_loop n depth acl R next total : Reads (children_loop n depth acl R next total).
Proof.
  revert R next total. induction n as [|n IH]; intros R next total; cbn; [apply reads_ret|].
  destruct next as [|r next]; [apply reads_ret|].
  destruct (mark_level R (r :: next)) as [R' level]. reads.
Qed.
#[export] Hint Resolve reads_children_loop : lime.

Lemma reads_children r depth acl : Reads (sabridge_get_collection_children r depth acl).
Proof. unfold sabridge_get_collection_children, obind, oret. reads. Qed.
#[export] Hint Resolve reads_children : lime.

Lemma children_initial acl r s head n s1 :
  joins_ok (c_db s) -> dbr_bind r = false -> is_collection (resourcetype r) = true ->
  dbms_get_collection_resource acl [r] s = (Ret (inr (head, n)), s1) ->
  c_db s1 = c_db s /\ Forall (fresh (c_db s)) head
  /\ map item_key head = map bind_key (below acl (c_db s) [serialno r]).
Proof.
  intros Hj Hb Hc H. destruct (level_spec _ _ _ _ _ _ Hj H) as (H1 & H2 & H3).
  split; [done|]. split; [done|]. rewrite H3. unfold requested. cbn. by rewrite Hb, Hc.
Qed.

#[local] Arguments children_loop : simpl never.

(** C31. Listing a collection to an infinite depth ends with an error or with a list, and
    changes nothing.  The list has exactly the visible binds of the collections that
    are reached through visible binds, each of them once, in spite of cycles and of
    resources with several binds. *)
Theorem get_collection_children_spec acl r s :
  joins_ok (c_db s) -> has_resource r = true -> dbr_bind r = false ->
  is_collection (resourcetype r) = true ->
  match sabridge_get_collection_children r DAV_INFINITY acl s with
  | (Crash, _) => False
  | (Ret (inl _), s') => c_db s' = c_db s
  | (Ret (inr (l, _)), s') =>
      c_db s' = c_db s
      /\ exists F, (forall x, x ∈ F <-> expanded acl (c_db s) (serialno r) x)
           /\ map item_key l ≡ₚ map bind_key (below acl (c_db s) F)
  end.
Proof.
  intros Hj Hr Hb Hc. pose proof (reads_children r DAV_INFINITY acl s) as [Hdb _].
  revert Hdb. unfold sabridge_get_collection_children, obind.
  rewrite bool_decide_false by done. rewrite bind_run.
  pose proof (level_no_crash acl r [] s Hr) as Hnc.
  destruct (dbms_get_collection_resource acl [r] s) as [[|[e|[head n]]] s1] eqn:El; cbn in Hnc |- *;
    [done|done|].
  destruct (children_initial _ _ _ _ _ _ Hj Hb Hc El) as (Hd & Hf & Hkey).
  rewrite !bind_run. cbn [get_db fst snd].
  assert (Htotal : exists x s', children_loop (children_fuel (c_db s1)) DAV_INFINITY acl
                     [serialno r] head n s1 = (Some (Ret x), s')).
  { apply children_loop_total; rewrite ?Hd; [done..|]. unfold children_fuel.
    pose proof (unseen_bound (c_db s) [serialno r]). lia. }
  destruct Htotal as ([e|[l t]] & s' & Hl); rewrite Hl; cbn; [done|].
  intros Hdb. split; [done|].
  apply (children_loop_spec _ _ _ _ _ _ _ _ _ [serialno r]) in Hl as [F [Hm Hk Hn Hcl Hle]];
    rewrite ?Hd; [|done|done|set_solver|done].
  rewrite Hd in *.
  assert (Hroot : serialno r ∈ F) by (apply Hm; set_solver). exists F. split.
  - intros x. split.
    + apply Hle; [intros y ->%list_elem_of_singleton; constructor| |].
      * intros y Hy Hcy. destruct (bind_of_item head _ y Hkey Hy) as (b & Hb' & Hs).
        apply elem_of_below in Hb' as (Hb1 & Hb2%list_elem_of_singleton & Hv).
        rewrite Hs in Hcy |- *. apply expanded_step; [rewrite Hb2; constructor|done..].
      * intros b Hb1 HP Hv Hcb. by apply expanded_step.
    + induction 1 as [|b _ IH Hb1 Hv Hcb]; [done|].
      destruct (decide (b_coll b = serialno r)) as [He|He].
      * destruct (item_of_bind head _ b Hkey) as (y & Hy & Hs);
          [apply elem_of_below; set_solver|]. rewrite <- Hs in Hcb |- *. by apply Hn.
      * apply Hcl; try done. by intros ?%list_elem_of_singleton.
  - rewrite Hk, Hkey, <- map_app. apply Permutation_map, filter_union_perm.
    + intros b _. rewrite <- andb_orb_distrib_l. f_equal.
      destruct (decide (b_coll b ∈ [serialno r])) as [He|He].
      * rewrite (bool_decide_true (b_coll b ∈ F)) by (by apply Hm). by rewrite bool_decide_true.
      * rewrite (bool_decide_false (b_coll b ∈ [serialno r])) by done. by rewrite andb_true_r.
    + intros b _. destruct (bool_decide (b_coll b ∈ [serialno r])); [|done]. cbn.
      by rewrite !andb_false_r.
Qed.

(** Proves [joins_ok] of concrete tables without versions. *)
Ltac joins_evaluated d :=
  split; try (by_evaluation || by apply NoDup_nil);
  [intros b v _ Hv; by apply elem_of_nil in Hv|];
  intros b Hb;
  assert (H : Forall (fun b => b_res b ∈ map r_id (resources d)) (binds d)) by by_evaluation;
  rewrite Forall_forall in H; apply H, elem_of_map in Hb as (r & Hb & Hr); by exists r.
