(* ===== verification/Request.v ===== *)
(** * Requests

    What a request gives to the functions above the tables, the monad they are written
    in, and the rules to prove what they do. *)
From S2P Require Import Prelude Util Dbd Db Bind Resource DbmsDeltav Bridge Users Properties Acl.
Local Open Scope Z_scope.
Local Open Scope limestone_scope.

(** What the request and the libraries give: the principal, the name of the user,
    whether there are hooks for access control, the UUID that is drawn, in its text
    form, and the namespace and name of the privilege [DAV_PERMISSION_ALL]. *)
Class Request := {
  rec_principal : dav_principal;
  rec_user : option string;
  acl_hooks : bool;
  apr_uuid : db -> string;
  permission_all : string * string
}.

(** Code that reads the caches of the request. *)
Definition R (A : Type) : Type := dav_repos_cache -> M (outcome (A * dav_repos_cache)).

#[export] Instance R_ret : MRet R := fun A x cache => oret (x, cache).
#[export] Instance R_bind : MBind R := fun A B f m cache =>
  x <- m cache ;; f x.1 x.2.

Definition crash {A} : R A := fun _ => mret Crash.
Definition run_out {A} (m : M (outcome A)) : R A := fun cache => x <- m ;; oret (x, cache).
Definition run {A} (m : M A) : R A := run_out (lift m).

(** [err = f(x); if (err) return err;] where [f] changes [x]. *)
Definition unless_error {A} (m : R (option dav_error * A)) (k : A -> R (option dav_error * A))
  : R (option dav_error * A) :=
  r ← m;
  match r with
  | (Some e, x) => mret (Some e, x)
  | (None, x) => k x
  end.
Notation "x <! m ;; k" := (unless_error m (fun x => k))
  (at level 100, m at level 99, k at level 200, right associativity) : limestone_scope.

(** A function that changes no record, and one that is called without a test of its
    error. *)
Definition keep {A} (x : A) (m : R (option dav_error)) : R (option dav_error * A) :=
  e ← m; mret (e, x).
Definition ignore {A} (m : R (option dav_error * A)) : R A := r ← m; mret r.2.

(** ** Where the cache is kept

    In the notes of a request, or of the request it is a part of when it has no notes; the
    notes are a table that may hold the cache. *)
Inductive request_rec := RequestRec (notes : option (option dav_repos_cache)) (main : option request_rec).

Definition rec_notes (r : request_rec) : option (option dav_repos_cache) :=
  match r with RequestRec notes _ => notes end.

Definition cache_of (notes : option dav_repos_cache) : dav_repos_cache := default empty_cache notes.

(** The cache, and the request with the cache in its notes. *)
Fixpoint sabridge_get_cache (r : request_rec) : outcome (dav_repos_cache * request_rec) :=
  match r with
  | RequestRec (Some notes) main => Ret (cache_of notes, RequestRec (Some (Some (cache_of notes))) main)
  | RequestRec None (Some main) =>
      match sabridge_get_cache main with
      | Ret (cache, main) => Ret (cache, RequestRec None (Some main))
      | Crash => Crash
      end
  | RequestRec None None => Crash
  end.

(** The cache stays: asked again, the request gives the same. *)
Lemma get_cache_again r cache r' :
  sabridge_get_cache r = Ret (cache, r') -> sabridge_get_cache r' = Ret (cache, r').
Proof.
  revert r cache r'. fix IH 1. intros [[notes|] [main|]] cache r'; cbn; [by intros [= <- <-]..| |done].
  destruct (sabridge_get_cache main) as [|[c m]] eqn:E; [done|]. intros [= <- <-]. cbn.
  by rewrite (IH _ _ _ E).
Qed.

(** ** What a computation leaves

    [Moves Q m]: whatever the server refuses, the tables before and after [m] are related
    by the preorder [Q], and [m] does not forget that a statement failed. *)

Section moves.
Context (Q : db -> db -> Prop) `{HQ : !PreOrder Q}.

Definition Moves {A} (m : M A) : Prop :=
  forall s, Q (c_db s) (c_db (m s).2) /\ (c_errnum (m s).2 = false -> c_errnum s = false).

Definition MovesR {A} (m : R A) : Prop := forall cache, Moves (m cache).

Lemma moves_reads {A} (m : M A) : Reads m -> Moves m.
Proof. intros H s. destruct (H s) as (-> & He & _). split; [reflexivity|done]. Qed.

Lemma moves_ret {A} (x : A) : Moves (mret x).
Proof. apply moves_reads, reads_ret. Qed.

Lemma moves_bind {A B} (m : M A) (f : A -> M B) :
  Moves m -> (forall a, Moves (f a)) -> Moves (m ≫= f).
Proof.
  intros Hm Hf s. rewrite bind_run. destruct (Hm s) as [H1 H2], (Hf (m s).1 (m s).2) as [H3 H4].
  split; [by etransitivity|auto].
Qed.

Lemma moves_obind {A B} (m : M (outcome A)) (f : A -> M (outcome B)) :
  Moves m -> (forall a, Moves (f a)) -> Moves (obind m f).
Proof. intros Hm Hf. apply moves_bind; [done|]. intros [|x]; [apply moves_ret|apply Hf]. Qed.

Lemma moves_execute {B} (stmt : db -> option (B * db)) :
  (forall d r d', stmt d = Some (r, d') -> Q d d') -> Moves (execute stmt).
Proof.
  intros H s. split; [|apply mono_execute].
  destruct (execute_cases stmt s) as [[_ ->]|(r & d & Hd & _ & ->)]; [reflexivity|by eapply H].
Qed.

Lemma moves_update (f : db -> db) : (forall d, Q d (f d)) -> Moves (update f).
Proof. intros H. apply moves_execute. intros d r d' [= <- <-]. apply H. Qed.

Lemma moves_set_files l : Moves (set_files l).
Proof. intros s. cbn. split; [reflexivity|done]. Qed.

Lemma movesR_ret {A} (x : A) : MovesR (mret x).
Proof. intros c. apply moves_ret. Qed.

Lemma movesR_bind {A B} (m : R A) (f : A -> R B) :
  MovesR m -> (forall a, MovesR (f a)) -> MovesR (m ≫= f).
Proof. intros Hm Hf c. apply moves_obind; [apply Hm|]. intros [a c']. apply Hf. Qed.

Lemma movesR_crash {A} : MovesR (crash : R A).
Proof. intros c. apply moves_ret. Qed.

Lemma movesR_run_out {A} (m : M (outcome A)) : Moves m -> MovesR (run_out m).
Proof. intros H c. apply moves_obind; [done|]. intros a. apply moves_ret. Qed.

Lemma movesR_run {A} (m : M A) : Moves m -> MovesR (run m).
Proof. intros H. apply movesR_run_out, moves_bind; [done|]. intros a. apply moves_ret. Qed.

Lemma movesR_unless_error {A} (m : R (option dav_error * A)) k :
  MovesR m -> (forall a, MovesR (k a)) -> MovesR (unless_error m k).
Proof. intros Hm Hk. apply movesR_bind; [done|]. intros [[e|] x]; [apply movesR_ret|apply Hk]. Qed.

Lemma movesR_keep {A} (x : A) m : MovesR m -> MovesR (keep x m).
Proof. intros H. apply movesR_bind; [done|]. intros e. apply movesR_ret. Qed.

Lemma movesR_ignore {A} (m : R (option dav_error * A)) : MovesR m -> MovesR (ignore m).
Proof. intros H. apply movesR_bind; [done|]. intros e. apply movesR_ret. Qed.
End moves.

(** Proves [Moves] and [MovesR] along the structure of the computation; what is left are
    the statements. *)
Ltac moves_step :=
  match goal with
  | |- PreOrder _ => apply _
  | |- True => exact I
  | |- forall _, _ => intro
  | |- Moves _ (mret _) => apply moves_ret
  | |- Moves _ (obind _ _) => apply moves_obind
  | |- Moves _ (_ ≫= _) => apply moves_bind
  | |- Moves _ (lift _) => apply moves_bind
  | |- MovesR _ (mret _) => apply movesR_ret
  | |- MovesR _ (_ ≫= _) => apply movesR_bind
  | |- MovesR _ (unless_error _ _) => apply movesR_unless_error
  | |- MovesR _ (keep _ _) => apply movesR_keep
  | |- MovesR _ (ignore _) => apply movesR_ignore
  | |- MovesR _ (run_out _) => apply movesR_run_out
  | |- MovesR _ (run _) => apply movesR_run
  | |- MovesR _ crash => apply movesR_crash
  | |- Moves _ (set_files _) => apply moves_set_files
  | |- Moves _ (let _ := _ in _) => cbv zeta
  | |- MovesR _ (let _ := _ in _) => cbv zeta
  | |- Moves _ (match ?x with _ => _ end) => destruct x
  | |- MovesR _ (match ?x with _ => _ end) => destruct x
  | |- Moves _ _ => solve [eauto with moves]
  | |- MovesR _ _ => solve [eauto with moves]
  | |- Moves _ (execute _) => apply moves_execute
  | |- Moves _ (update _) => apply moves_update
  | |- Moves _ _ => solve [apply moves_reads; [|reads]; auto with lime typeclass_instances]
  end.
Create HintDb moves.
Ltac moves := repeat moves_step.

(** ** What a successful computation does

    [wp m cache s P]: if [m] ends without a refused statement, [P] holds of the result. *)
Definition wp {A} (m : R A) (cache : dav_repos_cache) (s : conn)
    (P : A -> dav_repos_cache -> conn -> Prop) : Prop :=
  match m cache s with
  | (Ret (x, cache'), s') => c_errnum s' = false -> P x cache' s'
  | _ => True
  end.

#[export] Instance preorder_true : PreOrder (fun _ _ : db => True).
Proof. by split. Qed.

(** [wpm m s P]: the same of a computation that reads no cache. *)
Definition wpm {A} (m : M A) (s : conn) (P : A -> conn -> Prop) : Prop :=
  c_errnum (m s).2 = false -> P (m s).1 (m s).2.

Lemma wpm_ret {A} (x : A) s P : P x s -> wpm (mret x) s P.
Proof. by intros H _. Qed.

Lemma wpm_bind {A B} (m : M A) (f : A -> M B) s P :
  (forall x, Moves (fun _ _ => True) (f x)) ->
  wpm m s (fun x s1 => wpm (f x) s1 P) -> wpm (m ≫= f) s P.
Proof.
  unfold wpm. rewrite bind_run. intros Hf Hm He. apply Hm; [|done].
  by apply (Hf (m s).1) in He.
Qed.

Lemma wpm_execute {B} (stmt : db -> option (B * db)) s (P : option B -> conn -> Prop) :
  (forall r d, stmt (c_db s) = Some (r, d) -> c_db (execute stmt s).2 = d ->
     P (Some r) (execute stmt s).2) ->
  wpm (execute stmt) s P.
Proof. intros H He. destruct (execute_ok _ _ He) as (r & d & Hs & -> & Hd). by eapply H. Qed.

Lemma wpm_moves {A} Q (m : M A) s (P : A -> conn -> Prop) :
  Moves Q m -> (forall x s', Q (c_db s) (c_db s') -> P x s') -> wpm m s P.
Proof. intros Hm HP _. apply HP, Hm. Qed.

Lemma wpm_mono {A} (m : M A) s (P P' : A -> conn -> Prop) :
  wpm m s P -> (forall x s', P x s' -> P' x s') -> wpm m s P'.
Proof. unfold wpm. auto. Qed.

(** Failures are not forgotten. *)
Notation MonoR m := (MovesR (fun _ _ => True) m).

Lemma movesR_mono {A} Q (m : R A) : MovesR Q m -> MonoR m.
Proof. intros H c s. split; [done|apply H]. Qed.

Lemma wp_ret {A} (x : A) c s P : P x c s -> wp (mret x) c s P.
Proof. intros H _. done. Qed.

Lemma wp_bind {A B} (m : R A) (f : A -> R B) c s P :
  (forall x, MonoR (f x)) -> wp m c s (fun x c1 s1 => wp (f x) c1 s1 P) -> wp (m ≫= f) c s P.
Proof.
  intros Hf Hm. unfold wp in *. unfold mbind, R_bind, obind. rewrite bind_run.
  destruct (m c s) as [[|[x c1]] s1]; [done|]. cbn in *.
  pose proof (Hf x c1 s1) as [_ He]. destruct (f x c1 s1) as [[|[y c2]] s2]; [done|].
  cbn in He. auto.
Qed.

Lemma wp_run_out {A} (m : M (outcome A)) c s P :
  (forall x, (m s).1 = Ret x -> c_errnum (m s).2 = false -> P x c (m s).2) -> wp (run_out m) c s P.
Proof.
  intros H. unfold wp, run_out, obind. rewrite bind_run. destruct (m s) as [[|x] s']; [done|].
  cbn in *. auto.
Qed.

Lemma wp_run {A} (m : M A) c s P :
  (c_errnum (m s).2 = false -> P (m s).1 c (m s).2) -> wp (run m) c s P.
Proof.
  intros H. apply wp_run_out. unfold lift. rewrite bind_run. intros x [= <-]. done.
Qed.

Lemma wp_moves {A} Q (m : R A) c s (P : A -> dav_repos_cache -> conn -> Prop) :
  MovesR Q m -> (forall x c' s', Q (c_db s) (c_db s') -> P x c' s') -> wp m c s P.
Proof.
  intros Hm HP. unfold wp. destruct (Hm c s) as [HQ _].
  destruct (m c s) as [[|[x c']] s']; [done|]. intros _. by apply HP.
Qed.

Lemma wp_mono {A} (m : R A) c s (P P' : A -> dav_repos_cache -> conn -> Prop) :
  wp m c s P -> (forall x c' s', P x c' s' -> P' x c' s') -> wp m c s P'.
Proof. unfold wp. intros H HP. destruct (m c s) as [[|[x c']] s']; [done|]. auto. Qed.

(** An error ends the computation. *)
Lemma wp_unless_error {A} (m : R (option dav_error * A)) k c s P :
  (forall x, MonoR (k x)) ->
  wp m c s (fun x c1 s1 => match x with
                           | (Some e, x) => P (Some e, x) c1 s1
                           | (None, x) => wp (k x) c1 s1 P
                           end) ->
  wp (unless_error m k) c s P.
Proof.
  intros Hk Hm. apply wp_bind.
  - intros [[e|] x]; [apply movesR_ret; apply _|apply Hk].
  - eapply wp_mono; [exact Hm|]. intros [[e|] x] c1 s1 H; [by apply wp_ret|done].
Qed.

Lemma wp_keep {A} (x : A) m c s P :
  wp m c s (fun e c1 s1 => P (e, x) c1 s1) -> wp (keep x m) c s P.
Proof.
  intros H. apply wp_bind; [intros e; apply movesR_ret; apply _|].
  eapply wp_mono; [exact H|]. intros e c1 s1 HP. by apply wp_ret.
Qed.

Lemma wp_ignore {A} (m : R (option dav_error * A)) c s (P : A -> dav_repos_cache -> conn -> Prop) :
  wp m c s (fun x c1 s1 => P x.2 c1 s1) -> wp (ignore m) c s P.
Proof.
  intros H. apply wp_bind; [intros e; apply movesR_ret; apply _|].
  eapply wp_mono; [exact H|]. intros e c1 s1 HP. by apply wp_ret.
Qed.

Lemma wp_use {A} (m : R A) c s x c' s' P :
  wp m c s P -> m c s = (Ret (x, c'), s') -> c_errnum s' = false -> P x c' s'.
Proof. unfold wp. intros H Hm He. rewrite Hm in H. auto. Qed.
