(* ===== verification/Create.v ===== *)
(** * Creation of resources ([bridge.c], [repos.c], [acl.c], [dbms.c])

    [sabridge_insert_resource] and what is built on it. *)
From S2P Require Import Prelude Util Dbd Db Bind Resource DbmsDeltav Bridge Users Properties Acl Request.
Local Open Scope Z_scope.
Local Open Scope limestone_scope.

(** ** [dav_resource] *)

Inductive dav_resource_type :=
| DAV_RESOURCE_TYPE_UNKNOWN | DAV_RESOURCE_TYPE_REGULAR | DAV_RESOURCE_TYPE_VERSION
| DAV_RESOURCE_TYPE_HISTORY | DAV_RESOURCE_TYPE_PRINCIPAL | DAV_RESOURCE_TYPE_REDIRECTREF.

#[export] Instance dav_resource_type_eq_dec : EqDecision dav_resource_type.
Proof. solve_decision. Defined.

(** With the record [db_r], its pointer [parent] and the path name of [info]. *)
Record dav_resource := DavResource {
  res_dbr : dav_repos_resource;
  res_parent : option dav_repos_resource;
  res_pathname : option string;
  exists_ : bool;
  collection : bool;
  versioned : bool;
  working : bool;
  res_type : dav_resource_type
}.

Definition set_dbr (r : dav_repos_resource) (res : dav_resource) : dav_resource :=
  DavResource r (res_parent res) (res_pathname res) (exists_ res) (collection res)
    (versioned res) (working res) (res_type res).
Definition set_parent (p : option dav_repos_resource) (res : dav_resource) : dav_resource :=
  DavResource (res_dbr res) p (res_pathname res) (exists_ res) (collection res)
    (versioned res) (working res) (res_type res).
Definition set_pathname (p : option string) (res : dav_resource) : dav_resource :=
  DavResource (res_dbr res) (res_parent res) p (exists_ res) (collection res)
    (versioned res) (working res) (res_type res).
Definition set_exists (b : bool) (res : dav_resource) : dav_resource :=
  DavResource (res_dbr res) (res_parent res) (res_pathname res) b (collection res)
    (versioned res) (working res) (res_type res).
Definition set_collection (b : bool) (res : dav_resource) : dav_resource :=
  DavResource (res_dbr res) (res_parent res) (res_pathname res) (exists_ res) b
    (versioned res) (working res) (res_type res).
Definition set_versioned (b : bool) (res : dav_resource) : dav_resource :=
  DavResource (res_dbr res) (res_parent res) (res_pathname res) (exists_ res) (collection res)
    b (working res) (res_type res).
Definition set_working (b : bool) (res : dav_resource) : dav_resource :=
  DavResource (res_dbr res) (res_parent res) (res_pathname res) (exists_ res) (collection res)
    (versioned res) b (res_type res).
Definition set_res_type (t : dav_resource_type) (res : dav_resource) : dav_resource :=
  DavResource (res_dbr res) (res_parent res) (res_pathname res) (exists_ res) (collection res)
    (versioned res) (working res) t.

(** [sabridge_new_dbr_from_dbr], with the [dav_resource] of the new record; the NULL
    pointer, that the callers read, for a source without one. *)
Definition new_resource_from (r : dav_repos_resource) : R dav_resource :=
  match sabridge_new_dbr_from_dbr r with
  | None => crash
  | Some n => mret (DavResource n None None false false false false DAV_RESOURCE_TYPE_UNKNOWN)
  end.

Definition dav_repos_update_dbr_resource (res : dav_resource) : dav_resource :=
  let r := res_dbr res in
  let res := set_pathname (uri r) res in
  let res := if bool_decide (resourcetype r = Some dav_repos_LOCKNULL) then res
             else set_exists true res in
  let out := set_working (bool_decide (checked_state r = DAV_RESOURCE_CHECKED_OUT))
               (set_versioned true res) in
  match resourcetype r with
  | Some dav_repos_RESOURCE => set_res_type DAV_RESOURCE_TYPE_REGULAR res
  | Some dav_repos_COLLECTION => set_collection true (set_res_type DAV_RESOURCE_TYPE_REGULAR res)
  | Some dav_repos_VERSIONED_COLLECTION =>
      set_collection true (set_res_type DAV_RESOURCE_TYPE_REGULAR out)
  | Some dav_repos_COLLECTION_VERSION =>
      set_collection true (set_res_type DAV_RESOURCE_TYPE_VERSION res)
  | Some dav_repos_VERSIONED => set_res_type DAV_RESOURCE_TYPE_REGULAR out
  | Some dav_repos_VERSION => set_res_type DAV_RESOURCE_TYPE_VERSION res
  | Some dav_repos_VERSIONHISTORY => set_res_type DAV_RESOURCE_TYPE_HISTORY res
  | Some dav_repos_USER | Some dav_repos_GROUP | Some dav_repos_PRINCIPAL =>
      set_res_type DAV_RESOURCE_TYPE_PRINCIPAL res
  | Some dav_repos_LOCKNULL => set_exists false (set_res_type DAV_RESOURCE_TYPE_REGULAR res)
  | Some dav_repos_REDIRECT => set_res_type DAV_RESOURCE_TYPE_REDIRECTREF res
  | _ => res
  end.

Section create.
Context {cfg : ServerConfig} {req : Request}.

(** ** Initial access control *)

(** 0 without a URI: a record without one has a [dav_resource] without one. *)
Definition sabridge_get_parent_id (res : dav_resource) : R (Z * dav_resource) :=
  let r := res_dbr res in
  if negb (bool_decide (dbr_parent_id r = 0)) then mret (dbr_parent_id r, res)
  else
    match uri r with
    | Some _ =>
        p ← run_out (sabridge_retrieve_parent r (res_pathname res));
        mret (serialno p.1, set_dbr p.2 res)
    | None => mret (0, res)
    end.

Definition dav_repos_inherit_aces (res : dav_resource) : R (option dav_error * dav_resource) :=
  p ← sabridge_get_parent_id res;
  if bool_decide (p.1 = 0) then mret (Some (dav_new_error HTTP_INTERNAL_SERVER_ERROR), p.2)
  else keep p.2 (run (dbms_inherit_parent_aces (serialno (res_dbr p.2)) p.1)).

(** A new record has no hash of namespaces. *)
Definition dav_repos_create_initial_acl (owner : dav_principal) (res : dav_resource)
  : R (option dav_error * dav_resource) :=
  e ← (fun cache =>
         e ← acl_create_initial_acl permission_all ∅ cache (res_dbr res) owner;
         oret (e.1.1, e.2)) : R (option dav_error);
  match e with
  | Some e => mret (Some e, res)
  | None => dav_repos_inherit_aces res
  end.

(** ** [sabridge_insert_resource] *)

(** [r->parent]: by its identifier, or by the URI. *)
Definition find_parent (res : dav_resource) : R (option dav_error * dav_resource) :=
  let r := res_dbr res in
  match res_parent res with
  | Some _ => mret (None, res)
  | None =>
      if bool_decide (0 < dbr_parent_id r) then
        match sabridge_new_dbr_from_dbr r with
        | None => crash
        | Some p =>
            g ← run (dbms_get_resource (set_serialno (dbr_parent_id r) p));
            c ← run (dbms_get_collection_props g.2);
            mret (c.1, set_parent (Some c.2) res)
        end
      else
        match uri r with
        | Some _ =>
            p ← run_out (sabridge_retrieve_parent r (res_pathname res));
            mret (None, set_parent (Some p.1) (set_dbr p.2 res))
        | None => mret (None, res)
        end
  end.

(** The fields that are filled in before the row is inserted. *)
Definition fill_record (new_uuid : string) (now : Z) (parent : option dav_repos_resource)
    (r : dav_repos_resource) : dav_repos_resource :=
  let me := dav_repos_get_principal_id rec_principal in
  let name := match displayname r, uri r with
              | Some n, _ => n
              | None, Some u => basename u
              | None, None => EmptyString
              end in
  set_limebar_state (match parent with Some p => limebar_state p | None => limebar_state r end)
    (set_getcontenttype (Some (default "application/octet-stream"%string (getcontenttype r)))
      (set_displayname (Some name)
        (set_owner_id (if bool_decide (owner_id r = 0) then me else owner_id r)
          (set_creator_id me
            (set_updated_at now (set_created_at now (set_uuid new_uuid r))))))).

(** An action of the record in its [dav_resource]. *)
Definition on_dbr (res : dav_resource) (m : M (option dav_error * dav_repos_resource))
  : R (option dav_error * dav_resource) :=
  x ← run m; mret (x.1, set_dbr x.2 res).

Definition insert_body (res : dav_resource) : R (option dav_error * dav_resource) :=
  if has_body (resourcetype (res_dbr res))
  then on_dbr res (sabridge_create_empty_body (res_dbr res))
  else mret (None, res).

Definition insert_as_collection (res : dav_resource) : R (option dav_error * dav_resource) :=
  let r := res_dbr res in
  if is_collection (resourcetype r) then
    match res_parent res with
    | None => crash
    | Some p =>
        let r := set_av_new_children (av_new_children p) r in
        keep (set_dbr r res) (run (dbms_insert_collection r))
    end
  else mret (None, res).

Definition insert_as_principal (res : dav_resource) : R (option dav_error * dav_resource) :=
  let r := res_dbr res in
  let user := bool_decide (resourcetype r = Some dav_repos_USER) in
  if user || bool_decide (resourcetype r = Some dav_repos_GROUP) then
    match uri r with
    | None => crash
    | Some u =>
        res <! keep res (run (dbms_insert_principal r (basename u))) ;;
        if user then
          res <! keep res (run (dbms_insert_quota (serialno r) default_quota)) ;;
          let r := set_owner_id (serialno r) r in
          keep (set_dbr r res) (run (dbms_set_property r))
        else mret (None, res)
    end
  else mret (None, res).

Definition insert_bind (delay_bind : bool) (res : dav_resource)
  : R (option dav_error * dav_resource) :=
  let r := res_dbr res in
  match uri r with
  | Some u =>
      if delay_bind then mret (None, res)
      else match res_parent res with
           | None => crash
           | Some p =>
               keep res (run (dbms_insert_bind (serialno r) (serialno p) (Some (basename u))))
           end
  | None => mret (None, res)
  end.

(** [params] as its two flags. *)
Definition sabridge_insert_resource (res : dav_resource) (delay_bind delay_acl : bool)
  : R (option dav_error * dav_resource) :=
  res <! find_parent res ;;
  now ← run time_now_str;
  d ← run get_db;
  match get_new_plain_uuid (apr_uuid d) with
  | None => crash
  | Some u =>
      res <! on_dbr res (dbms_insert_resource (fill_record u now (res_parent res) (res_dbr res))) ;;
      res <! insert_body res ;;
      res <! insert_as_collection res ;;
      res <! insert_as_principal res ;;
      res <! insert_bind delay_bind res ;;
      if acl_hooks && negb delay_acl then dav_repos_create_initial_acl rec_principal res
      else mret (None, res)
  end.

(** ** What is built on it *)

Definition dav_repos_create_resource (res : dav_resource) (delay_bind delay_acl : bool)
  : R (option dav_error * dav_resource) :=
  let r := res_dbr res in
  let r :=
    if collection res
    then set_getcontenttype (Some DIR_MAGIC_TYPE) (set_resourcetype (Some dav_repos_COLLECTION) r)
    else match resourcetype r with
         | None => set_resourcetype (Some dav_repos_RESOURCE) r
         | Some _ => r
         end in
  res <! sabridge_insert_resource (set_dbr r res) delay_bind delay_acl ;;
  mret (None, dav_repos_update_dbr_resource res).
(** The loop of [sabridge_mkcol_w_parents] over the components of the path.  [search] is
    [search_if_coll_exists], and [new_coll_id] is [None] before it is set: to read it
    then is undefined.  The record of the new collections is used again and again. *)
Fixpoint mkcol_loop (tokens : list string) (search : bool) (curr_base : Z)
    (new_coll_id : option Z) (col : dav_resource)
  : R (option dav_error * option Z) :=
  match tokens with
  | [] => mret (None, new_coll_id)
  | next_dir :: rest =>
      found ← (if search then
                 b ← run (dbms_get_bind_resource_id curr_base next_dir);
                 match b, new_coll_id with
                 | inr id, _ => mret id
                 | inl _, Some id => mret id
                 | inl _, None => crash
                 end
               else mret 0);
      if negb (bool_decide (found = 0)) then mkcol_loop rest true found (Some found) col
      else
        c ← dav_repos_create_resource
              (set_dbr (set_parent_id curr_base (set_serialno 0 (res_dbr col))) col) true false;
        match c with
        | (Some e, col) => mret (Some e, Some 0)
        | (None, col) =>
            let id := serialno (res_dbr col) in
            e ← run (dbms_insert_bind id curr_base (Some next_dir));
            match e with
            | Some e => mret (Some e, Some id)
            | None => mkcol_loop rest false id (Some id) col
            end
        end
  end.

(** The record, with the identifier of the last collection. *)
Definition sabridge_mkcol_w_parents (r : dav_repos_resource)
  : R (option dav_error * dav_repos_resource) :=
  col ← new_resource_from r;
  match uri r with
  | None => crash
  | Some u =>
      let col := set_dbr (set_resourcetype (Some dav_repos_COLLECTION) (res_dbr col)) col in
      m ← mkcol_loop (apr_strtok_slash (drop_string (String.length (root_path r)) u))
            true ROOT_COLLECTION_ID None col;
      match m with
      | (Some e, _) => mret (Some e, r)
      | (None, None) => crash
      | (None, Some id) => mret (None, set_serialno id r)
      end
  end.
End create.
