(* ===== verification/Principal.v ===== *)
(** * Principals ([principal.c], [acl.c])

    Names resolved to principals, and the creation of users and groups. *)
From S2P Require Import Prelude Util Dbd Mime Db Bind Resource DbmsDeltav Bridge Groups Users Properties Acl Request Create.
From stdpp Require Import pretty.
Local Open Scope Z_scope.
Local Open Scope limestone_scope.

Definition PRINCIPAL_USER_PREFIX : string := "/users/".
Definition PRINCIPAL_GROUP_PREFIX : string := "/groups/".

(** The port 0 is no port. *)
Definition principal_href_prefix (server_hostname : string) (port : Z) : string :=
  "http://" +:+ server_hostname
  +:+ (if negb (bool_decide (port = 0)) && negb (bool_decide (port = 80))
       then ":" +:+ pretty port else EmptyString).

Section principal.
Context {cfg : ServerConfig} {req : Request}.

(** [dav_principal_make_from_url] of the DAV module, on the tables of the moment. *)
Variable make_from_url : string -> db -> dav_principal.
Variable href_prefix : string.

Definition principal_from_url (url : string) : R dav_principal :=
  d ← run get_db; mret (make_from_url url d).

(** The type of a principal, from the cache of the request or the table. *)
Definition cached_principal_type (name : string) : R (option dav_repos_type) := fun cache =>
  match cache_principal_type cache !! name with
  | Some t => oret (t, cache)
  | None =>
      t ← dbms_get_principal_type_from_name name;
      oret (t, Cache (<[name := t]> (cache_principal_type cache)) (cache_namespaces cache)
                 (cache_privileges cache))
  end.

Definition dav_repos_get_prin_by_name (name : option string) : R dav_principal :=
  match name with
  | None => mret (Principal PRINCIPAL_UNAUTHENTICATED 0 EmptyString)
  | Some n =>
      if String.eqb n "all" then mret (Principal PRINCIPAL_ALL 0 EmptyString)
      else if String.eqb n "authenticated" then mret (Principal PRINCIPAL_AUTHENTICATED 0 EmptyString)
      else if String.eqb n "unauthenticated"
      then mret (Principal PRINCIPAL_UNAUTHENTICATED 0 EmptyString)
      else
        t ← cached_principal_type n;
        principal_from_url (href_prefix
          +:+ (if bool_decide (t = Some dav_repos_GROUP) then PRINCIPAL_GROUP_PREFIX
               else PRINCIPAL_USER_PREFIX) +:+ n)
  end.

(** A call through the hooks, which may not be there. *)
Definition create_initial_acl_hook (owner : dav_principal) (res : dav_resource)
  : R (option dav_error * dav_resource) :=
  if acl_hooks then dav_repos_create_initial_acl owner res else crash.

(** The error of the creation is dropped. *)
Definition sabridge_create_home_folder (r : dav_repos_resource)
  : R (option dav_error * dav_resource) :=
  match uri r with
  | None => crash
  | Some u =>
      hf ← new_resource_from r;
      hf ← ignore (sabridge_insert_resource
             (set_dbr (set_resourcetype (Some dav_repos_COLLECTION)
                (set_owner_id (serialno r)
                   (set_uri (Some (root_path r +:+ "/home/" +:+ basename u)) (res_dbr hf)))) hf)
             false true);
      owner ← principal_from_url u;
      create_initial_acl_hook owner hf
  end.

Section users.
(** The check of the table [users], and the last message of the server. *)
Variable email_valid : string -> bool.
Variable dbms_error : conn -> string.

(** The error of the access control is overwritten. *)
Definition dav_repos_create_user (res : dav_resource) (passwd_hash email : string)
  : R (option dav_error * dav_resource) :=
  match uri (res_dbr res) with
  | None => crash
  | Some u =>
      res <! keep res (run (dbms_insert_user email_valid dbms_error (res_dbr res) passwd_hash email)) ;;
      owner ← dav_repos_get_prin_by_name (Some (basename u));
      res ← ignore (create_initial_acl_hook owner res);
      g ← run (dbms_get_principal_id_from_name "authenticated");
      match g with
      | inl e => mret (Some e, res)
      | inr group_id =>
          res <! keep res (run (sabridge_add_prin_to_grp group_id (serialno (res_dbr res)))) ;;
          h ← sabridge_create_home_folder (res_dbr res);
          mret (h.1, res)
      end
  end.
End users.

Definition dav_repos_update_password (res : dav_resource) (passwd_hash : string)
  : R (option dav_error) :=
  run_out (dbms_set_user_pwhash (res_dbr res) passwd_hash).

Definition dav_repos_create_group (res : dav_resource) : R (option dav_error * dav_resource) :=
  sabridge_insert_resource
    (set_dbr (set_resourcetype (Some dav_repos_GROUP) (res_dbr res)) res) false false.
End principal.
