(* ===== verification/Versions.v ===== *)
(** * Version control ([version.c], [deltav_bridge.c], [deltav_util.c])

    A resource under version control has a row in [vcrs], a version history (a resource
    with a row in [vhrs]) and a row in [versions] for each version; the versions are
    resources below [/history/<history>/].  The server is PostgreSQL: the statements for
    MySQL, which has no deferred constraints, are left out. *)
From S2P Require Import Prelude Util Dbd Db Bind Resource DbmsDeltav Bridge Users Properties Acl Listing Request Create.
From stdpp Require Import pretty.
Local Open Scope Z_scope.
Local Open Scope limestone_scope.

Definition DAV_AV_CHECKOUT_CHECKIN : Z := 1.
Definition DAV_AV_CHECKOUT_UNLOCKED_CHECKIN : Z := 2.
Definition DAV_AV_CHECKOUT : Z := 3.
Definition DAV_AV_LOCKED_CHECKOUT : Z := 4.
Definition DAV_AV_NONE : Z := 5.
Definition DAV_AV_VERSION_CONTROL : Z := 6.

Inductive dav_auto_version :=
| DAV_AUTO_VERSION_NEVER | DAV_AUTO_VERSION_ALWAYS | DAV_AUTO_VERSION_LOCKED.

(** ** URIs of versions *)

Definition sabridge_mk_version_uri (vhr : dav_repos_resource) (vnum : Z) : string :=
  root_path vhr +:+ "/history/" +:+ pretty (serialno vhr) +:+ "/" +:+ pretty vnum.
Definition sabridge_mk_vhr_uri (vhr : dav_repos_resource) : string :=
  root_path vhr +:+ "/history/" +:+ pretty (serialno vhr) +:+ "/vhr".

Section versions.
Context {cfg : ServerConfig} {req : Request}.

(** ** Copying a body ([bridge.c]) *)

(** The errors of the removal and of the new name are dropped; a NULL name is read. *)
Definition sabridge_copy_medium (r_src r_dest : dav_repos_resource)
  : M (outcome (option dav_error * dav_repos_resource)) :=
  match displayname r_src, displayname r_dest with
  | Some src_name, Some dest_name =>
      _ ← (match sha1str r_dest with
           | Some _ => sabridge_remove_body_from_disk r_dest
           | None => mret tt
           end);
      r_dest ← (if String.eqb src_name dest_name then mret r_dest
                else let r_dest := set_displayname (Some src_name) r_dest in
                     _ ← dbms_update_displayname r_dest; mret r_dest);
      e ← dbms_copy_media_props r_src r_dest;
      match e with
      | (Some err, r_dest) => oret (Some err, r_dest)
      | (None, r_dest) =>
          err ← sabridge_copy_dead_props (serialno r_src) (serialno r_dest);
          oret (err, r_dest)
      end
  | _, _ => mret Crash
  end.

(** ** Histories and versions ([deltav_bridge.c]) *)

Definition sabridge_mk_versions_collection (vhr : dav_repos_resource)
  : R (option dav_error) :=
  coll ← new_resource_from vhr;
  m ← sabridge_mkcol_w_parents
        (set_uri (Some (ap_make_dirstr_parent (sabridge_mk_version_uri vhr 0))) (res_dbr coll));
  mret m.1.

(** The error of the bind is overwritten when there are hooks for access control. *)
Definition sabridge_mk_vhr (vcr : dav_repos_resource)
  : R (option dav_error * option dav_resource) :=
  vhr ← new_resource_from vcr;
  let vhr := set_dbr (set_uri None (set_resourcetype (Some dav_repos_VERSIONHISTORY)
                                      (res_dbr vhr))) vhr in
  c ← dav_repos_create_resource vhr true true;
  match c with
  | (Some e, _) => mret (Some e, None)
  | (None, vhr) =>
      let u := sabridge_mk_vhr_uri (res_dbr vhr) in
      let r := set_uri (Some u) (res_dbr vhr) in
      p ← new_resource_from r;
      p ← ignore (sabridge_mkcol_w_parents
                    (set_uri (Some (ap_make_dirstr_parent u)) (res_dbr p)));
      e ← run (dbms_insert_bind (serialno r) (serialno p) (Some (basename u)));
      let vhr := set_dbr (set_parent_id (serialno p) r) vhr in
      if acl_hooks then
        a ← dav_repos_create_initial_acl rec_principal vhr;
        mret (a.1, Some a.2)
      else mret (e, Some vhr)
  end.

(** The error of the creation is dropped. *)
Definition sabridge_mk_new_version (vcr vhr : dav_repos_resource) (vr_num : Z)
  : R (option dav_error * dav_repos_resource) :=
  v ← new_resource_from vcr;
  let fresh t :=
    set_dbr (set_creator_displayname rec_user (set_creator_id 0
      (set_getcontenttype (getcontenttype vcr) (set_serialno 0
        (set_uri (Some (sabridge_mk_version_uri vhr vr_num))
          (match t with Some t => set_resourcetype (Some t) (res_dbr v)
                      | None => res_dbr v end)))))) v in
  let finish x :=
    set_vhr_id (vhr_id vcr) (set_version vr_num (set_vcr_id (serialno vcr) x)) in
  match resourcetype vcr with
  | Some dav_repos_VERSIONED_COLLECTION =>
      v ← ignore (dav_repos_create_resource (fresh (Some dav_repos_COLLECTION_VERSION)) false false);
      e ← run (dbms_copy_resource_collection_version vcr (res_dbr v));
      mret (e, finish (res_dbr v))
  | Some dav_repos_VERSIONED =>
      v ← ignore (dav_repos_create_resource (fresh (Some dav_repos_VERSION)) false false);
      e ← run_out (sabridge_copy_medium vcr (res_dbr v));
      mret (e.1, finish e.2)
  | _ => mret (None, finish (res_dbr (fresh None)))
  end.

(** [dbms_update_resource_type] with the type 0, whose name is NULL. *)
Definition update_to_no_type (r : dav_repos_resource) : M (option dav_error * dav_repos_resource) :=
  q ← execute (fun d => if bool_decide (serialno r ∈ map r_id (resources d)) then None
                        else Some (tt, d));
  mret (match q with
        | None => (Some (dav_new_error HTTP_INTERNAL_SERVER_ERROR), r)
        | Some _ => (None, set_resourcetype None r)
        end).

Definition start_versioning (r : dav_repos_resource) : M (option dav_error * dav_repos_resource) :=
  match resourcetype r with
  | Some dav_repos_RESOURCE => dbms_update_resource_type r dav_repos_VERSIONED
  | Some dav_repos_COLLECTION => dbms_update_resource_type r dav_repos_VERSIONED_COLLECTION
  | _ => update_to_no_type r
  end.

(** The [switch] on the collection's property; an unknown value leaves the field. *)
Definition autoversion_of_parent (av : Z) (r : dav_repos_resource) : dav_repos_resource :=
  if bool_decide (DAV_AV_CHECKOUT_CHECKIN <= av <= DAV_AV_NONE) then set_autoversion_type av r
  else if bool_decide (av = DAV_AV_VERSION_CONTROL) then set_autoversion_type DAV_AV_NONE r
  else r.

(** Every error but that of the last statement is overwritten; a history that could not
    be made is NULL and read. *)
Definition sabridge_vsn_control (db_r : dav_repos_resource) (auto_version : bool)
  : R (option dav_error * dav_repos_resource) :=
  t ← run (start_versioning db_r);
  let db_r := t.2 in
  h ← sabridge_mk_vhr db_r;
  match h.2 with
  | None => crash
  | Some vhr =>
      let vhr := res_dbr vhr in
      _ ← sabridge_mk_versions_collection vhr;
      v ← (if auto_version then
             v ← new_resource_from db_r;
             mret (set_version 0 (set_serialno (serialno db_r) (res_dbr v)))
           else ignore (sabridge_mk_new_version db_r vhr 1));
      let vhr := set_root_version_id (serialno v) vhr in
      _ ← run (dbms_insert_vhr vhr);
      let v := set_vhr_id (serialno vhr) v in
      _ ← run (if auto_version then mret None else dbms_insert_version v);
      let db_r := set_checked_id (serialno v)
                    (set_vr_num (version v) (set_vhr_id (serialno vhr) db_r)) in
      p ← new_resource_from db_r;
      c ← run (dbms_get_collection_props (set_serialno (dbr_parent_id db_r) (res_dbr p)));
      run (dbms_insert_vcr (autoversion_of_parent (av_new_children c.2) db_r))
  end.

(** ** The hooks of [version.c] *)

Definition dav_repos_vsn_control (res : dav_resource) : R (option dav_error * dav_resource) :=
  c ← (if exists_ res then mret (None, res) else dav_repos_create_resource res false false);
  match c with
  | (Some e, res) => mret (Some e, res)
  | (None, res') =>
      if negb (bool_decide (res_type res' = DAV_RESOURCE_TYPE_REGULAR))
      then mret (Some (dav_new_error HTTP_CONFLICT), res')
      else if versioned res' then mret (None, res')
      else
        v ← ignore (sabridge_vsn_control (res_dbr res') (negb (exists_ res)));
        mret (None, set_working false (set_versioned true (set_dbr v res')))
  end.

(** The history of a resource, with its properties. *)
Definition get_vhr (db_r : dav_repos_resource) : R (option dav_error * dav_repos_resource) :=
  vhr ← new_resource_from db_r;
  run_out (sabridge_get_property (set_serialno (vhr_id db_r) (res_dbr vhr))).

(** With the URI of the working resource. *)
Definition dav_repos_checkout (res : dav_resource) (auto_checkout : bool)
  : R (option dav_error * (dav_resource * option string)) :=
  let db_r := res_dbr res in
  vhr ← get_vhr db_r;
  match vhr with
  | (Some e, _) => mret (Some e, (res, None))
  | (None, vhr) =>
      if negb (bool_decide (checked_state db_r = DAV_RESOURCE_CHECKED_IN))
      then mret (Some (dav_new_error HTTP_CONFLICT), (res, None))
      else
        let u := if auto_checkout then None
                 else Some (sabridge_mk_version_uri vhr (vr_num db_r)) in
        c ← run (dbms_set_checkin_out db_r DAV_RESOURCE_CHECKED_OUT (vr_num db_r));
        match c with
        | (Some e, db_r) => mret (Some e, (set_dbr db_r res, u))
        | (None, db_r) => mret (None, (set_working true (set_dbr db_r res), u))
        end
  end.

Definition dav_repos_uncheckout (res : dav_resource) : R (option dav_error * dav_resource) :=
  let db_r := res_dbr res in
  if negb (bool_decide (checked_state db_r = DAV_RESOURCE_CHECKED_OUT))
  then mret (Some (dav_new_error HTTP_CONFLICT), res)
  else
    vhr ← get_vhr db_r;
    match vhr with
    | (Some e, _) => mret (Some e, res)
    | (None, vhr) =>
        v ← new_resource_from db_r;
        v ← run_out (sabridge_get_property
              (set_uri (Some (sabridge_mk_version_uri vhr (vr_num db_r))) (res_dbr v)));
        match v with
        | (Some e, _) => mret (Some e, res)
        | (None, v) =>
            res <! (match resourcetype db_r with
                    | Some dav_repos_VERSIONED_COLLECTION =>
                        keep res (run (dbms_restore_vcc db_r v))
                    | Some dav_repos_VERSIONED =>
                        c ← run_out (sabridge_copy_medium v db_r); mret (c.1, set_dbr c.2 res)
                    | _ => mret (None, res)
                    end) ;;
            res <! on_dbr res (dbms_set_checkin_out (res_dbr res) DAV_RESOURCE_CHECKED_IN
                                 (vr_num (res_dbr res))) ;;
            mret (None, set_working false (set_res_type DAV_RESOURCE_TYPE_REGULAR res))
        end
    end.

(** The statements after the creation of the version. *)
Definition record_version (res : dav_resource) (vhr new_version : dav_repos_resource)
  : R (option dav_error * dav_resource) :=
  let db_r := res_dbr res in
  res <! (if bool_decide (vr_num db_r = 0)
          then keep res (run (dbms_update_vhr (set_root_version_id (serialno new_version) vhr)))
          else mret (None, res)) ;;
  res <! keep res (run (dbms_insert_version new_version)) ;;
  on_dbr res (dbms_set_checkin_out db_r DAV_RESOURCE_CHECKED_IN (vr_num db_r + 1)).

(** With the URI of the new version. *)
Definition dav_repos_checkin (res : dav_resource)
  : R (option dav_error * (dav_resource * option string)) :=
  let db_r := res_dbr res in
  if negb (bool_decide (resourcetype db_r = Some dav_repos_VERSIONED
                        \/ resourcetype db_r = Some dav_repos_VERSIONED_COLLECTION))
     || negb (bool_decide (checked_state db_r = DAV_RESOURCE_CHECKED_OUT))
  then mret (Some (dav_new_error HTTP_CONFLICT), (res, None))
  else
    vhr ← get_vhr db_r;
    match vhr with
    | (Some e, _) => mret (Some e, (res, None))
    | (None, vhr) =>
        v ← sabridge_mk_new_version db_r vhr (vr_num db_r + 1);
        match v with
        | (Some e, _) => mret (Some e, (res, None))
        | (None, new_version) =>
            x ← record_version res vhr new_version;
            match x with
            | (Some e, res) =>
                _ ← run (dbms_delete_resource new_version);
                mret (Some e, (res, None))
            | (None, res) =>
                mret (None, (set_working false (set_res_type DAV_RESOURCE_TYPE_REGULAR res),
                             Some (sabridge_mk_version_uri vhr (vr_num (res_dbr res)))))
            end
        end
    end.
(** ** Automatic versioning *)

Definition dav_repos_auto_versionable (res : dav_resource) : R dav_auto_version :=
  let db_r := res_dbr res in
  let av := autoversion_type db_r in
  if negb (bool_decide (res_type res = DAV_RESOURCE_TYPE_REGULAR))
  then mret DAV_AUTO_VERSION_NEVER
  else if negb (exists_ res) && collection res then mret DAV_AUTO_VERSION_NEVER
  else if negb (exists_ res) then
    p ← new_resource_from db_r;
    c ← run (dbms_get_collection_props (set_serialno (dbr_parent_id db_r) (res_dbr p)));
    mret (if bool_decide (av_new_children c.2 = DAV_AV_NONE)
          then DAV_AUTO_VERSION_NEVER else DAV_AUTO_VERSION_ALWAYS)
  else if negb (versioned res) then mret DAV_AUTO_VERSION_NEVER
  else if negb (working res) then
    mret (if bool_decide (av = DAV_AV_CHECKOUT_UNLOCKED_CHECKIN \/ av = DAV_AV_CHECKOUT_CHECKIN
                          \/ av = DAV_AV_CHECKOUT)
          then DAV_AUTO_VERSION_ALWAYS
          else if bool_decide (av = DAV_AV_LOCKED_CHECKOUT) then DAV_AUTO_VERSION_LOCKED
          else DAV_AUTO_VERSION_NEVER)
  else
    mret (if bool_decide (av = DAV_AV_CHECKOUT_CHECKIN \/ av = DAV_AV_CHECKOUT_UNLOCKED_CHECKIN)
          then DAV_AUTO_VERSION_ALWAYS
          else if bool_decide (av = DAV_AV_LOCKED_CHECKOUT) then DAV_AUTO_VERSION_LOCKED
          else DAV_AUTO_VERSION_NEVER).

(** The two inequalities are joined by an or. *)
Definition dav_repos_set_checkin_on_unlock (res : dav_resource)
  : R (option dav_error * dav_resource) :=
  let t := resourcetype (res_dbr res) in
  if negb (bool_decide (t = Some dav_repos_VERSIONED))
     || negb (bool_decide (t = Some dav_repos_VERSIONED_COLLECTION))
  then mret (Some (dav_new_error HTTP_INTERNAL_SERVER_ERROR), res)
  else on_dbr res (dbms_set_checkin_on_unlock (res_dbr res)).

Definition dav_repos_is_checkin_on_unlock (res : dav_resource) : Z :=
  checkin_on_unlock (res_dbr res).

(** ** The version properties ([vpr_hash])

    The comment of a version is a column that the model leaves out. *)

Section hashes.
Variable apr_xml_quote_string : string -> string.
Variable apr_rfc822_date : Z -> string.

Definition href (uri : string) : string :=
  default EmptyString (dav_repos_mk_href apr_xml_quote_string (Some uri)).

(** [apr_hash_set]: a NULL value removes the key. *)
Definition apr_hash_set (k : string) (v : option string) (h : gmap string string)
  : gmap string string :=
  match v with Some v => <[k := v]> h | None => delete k h end.

Definition autoversion_element (av : Z) : option string :=
  if bool_decide (av = DAV_AV_CHECKOUT_CHECKIN) then Some "<D:checkout-checkin/>"%string
  else if bool_decide (av = DAV_AV_CHECKOUT_UNLOCKED_CHECKIN)
  then Some "<D:checkout-unlocked-checkin/>"%string
  else if bool_decide (av = DAV_AV_CHECKOUT) then Some "<D:checkout/>"%string
  else if bool_decide (av = DAV_AV_LOCKED_CHECKOUT) then Some "<D:locked-checkout/>"%string
  else None.

Definition forks (h : gmap string string) : gmap string string :=
  <["checkin-fork" := "DAV:forbidden"]> (<["checkout-fork" := "DAV:forbidden"]> h).

Definition state_properties (vr : string) (state : dav_resource_checked_state)
    (h : gmap string string) : gmap string string :=
  match state with
  | DAV_RESOURCE_CHECKED_IN => <["checked-in" := vr]> h
  | DAV_RESOURCE_CHECKED_OUT => forks (<["predecessor-set" := vr]> (<["checked-out" := vr]> h))
  | _ => h
  end.

Definition sabridge_build_vcr_pr_hash (db_r : dav_repos_resource) (h : gmap string string)
  : R (gmap string string) :=
  if bool_decide (resourcetype db_r = Some dav_repos_VERSIONED
                  \/ resourcetype db_r = Some dav_repos_VERSIONED_COLLECTION)
  then
    vhr ← ignore (get_vhr db_r);
    let h := state_properties (href (sabridge_mk_version_uri vhr (vr_num db_r)))
               (checked_state db_r) h in
    let h := <["version-history" := href (sabridge_mk_vhr_uri vhr)]> h in
    let h := match autoversion_element (autoversion_type db_r) with
             | Some e => <["auto-version" := e]> h
             | None => h
             end in
    mret (if bool_decide (resourcetype db_r = Some dav_repos_VERSIONED_COLLECTION)
          then <["eclipsed-set" := EmptyString]> h else h)
  else mret h.

(** [buff] is the URI of the versions, with its last slash. *)
Definition predecessor_set (buff : string) (v : Z) : string :=
  if bool_decide (v = 1) then EmptyString else href (buff +:+ pretty (v - 1)).
Definition successor_set (buff : string) (last_version : bool) (v : Z) : string :=
  if last_version then EmptyString else href (buff +:+ "/" +:+ pretty (v + 1)).

Fixpoint binding_set (l : list dav_repos_resource) : string :=
  match l with
  | [] => EmptyString
  | c :: rest =>
      "<D:version-controlled-binding>" +:+ "<D:binding-name>"
      +:+ default EmptyString (displayname c) +:+ "</D:binding-name>"
      +:+ "<D:version-history>" +:+ href (sabridge_mk_vhr_uri c) +:+ "</D:version-history>"
      +:+ "</D:version-controlled-binding>" +:+ binding_set rest
  end.

Definition sabridge_build_vr_pr_hash (db_r : dav_repos_resource) (h : gmap string string)
  : R (gmap string string) :=
  let is_coll := bool_decide (resourcetype db_r = Some dav_repos_COLLECTION_VERSION) in
  if negb (is_coll || bool_decide (resourcetype db_r = Some dav_repos_VERSION)) then mret h
  else
    match uri db_r with
    | None => crash
    | Some u =>
        let buff := ap_make_dirstr_parent u in
        let h := <["successor-set" := successor_set buff (lastversion db_r) (version db_r)]>
                   (<["predecessor-set" := predecessor_set buff (version db_r)]> h) in
        vcr ← new_resource_from db_r;
        let vcr := set_resourcetype (Some (if is_coll then dav_repos_VERSIONED_COLLECTION
                                           else dav_repos_VERSIONED))
                     (set_serialno (vcr_id db_r) (res_dbr vcr)) in
        vcr ← ignore (run_out (sabridge_reverse_lookup vcr));
        vcr ← ignore (run (dbms_get_vcr_props vcr));
        let h := if bool_decide (checked_state vcr = DAV_RESOURCE_CHECKED_OUT
                                 /\ checked_id vcr = serialno db_r)
                 then apr_hash_set "checkout-set" (href <$> uri vcr) h else h in
        let h := <["version-name" := "V" +:+ pretty (version db_r)]> h in
        let h := match creator_displayname db_r with
                 | Some n => <["creator-displayname" := n]> h
                 | None => h
                 end in
        let h := <["getcontentlength" := pretty (getcontentlength db_r)]> h in
        let h := if is_coll then h
                 else <["getlastmodified" := apr_rfc822_date (dbr_updated_at db_r)]> h in
        vhr ← ignore (get_vhr vcr);
        let h := <["version-history" := href (sabridge_mk_vhr_uri vhr)]> (forks h) in
        if is_coll then
          c ← run_out (sabridge_get_collection_children db_r 1 None);
          mret (<["version-controlled-binding-set" :=
                    binding_set (match c with inl _ => [] | inr (l, _) => l end)]> h)
        else mret h
    end.

Fixpoint version_set (l : list dav_repos_resource) : string :=
  match l with
  | [] => EmptyString
  | v :: rest => default EmptyString (href <$> uri v) +:+ version_set rest
  end.

Definition sabridge_build_vhr_pr_hash (vhr : dav_repos_resource) (h : gmap string string)
  : R (gmap string string) :=
  if negb (bool_decide (resourcetype vhr = Some dav_repos_VERSIONHISTORY)) then mret h
  else
    vhr ← (if bool_decide (root_version_id vhr = 0)
           then ignore (run (dbms_get_vhr_root_version_id vhr)) else mret vhr);
    l ← run_out (dbms_get_vhr_versions (sabridge_mk_version_uri vhr) vhr);
    let l := match l with inl _ => [] | inr l => l end in
    let root := List.find (fun v => bool_decide (serialno v = root_version_id vhr)) l in
    mret (<["version-set" := version_set l]>
            (apr_hash_set "root-version" (href <$> (root ≫= uri)) h)).

(** [None] for a resource without version properties. *)
Definition sabridge_build_vpr_hash (db_r : dav_repos_resource)
  : R (option (gmap string string)) :=
  match resourcetype db_r with
  | Some dav_repos_VERSIONED | Some dav_repos_VERSIONED_COLLECTION =>
      h ← sabridge_build_vcr_pr_hash db_r ∅; mret (Some h)
  | Some dav_repos_VERSION | Some dav_repos_COLLECTION_VERSION =>
      h ← sabridge_build_vr_pr_hash db_r ∅; mret (Some h)
  | Some dav_repos_VERSIONHISTORY =>
      h ← sabridge_build_vhr_pr_hash db_r ∅; mret (Some h)
  | _ => mret None
  end.
End hashes.
End versions.
