(* ===== verification/CreateSpec.v ===== *)
(** * What a creation does

    The effect of [sabridge_insert_resource] and [sabridge_copy_medium] on the tables. *)
From S2P Require Import Prelude Util Mime Dbd Db Bind Resource Quota DbmsDeltav Bridge Users Properties Acl Listing Request Create Versions.
Local Open Scope Z_scope.
Local Open Scope limestone_scope.

(** ** The tables that matter here *)

(** The identifiers and types of the resources. *)
Definition idents (d : db) : list (Z * dav_repos_type) :=
  map (fun r => (r_id r, r_type r)) (resources d).

(** The rows that are added, and nothing else that matters. *)
Record adds_rows (i : list (Z * dav_repos_type)) (b : list bind_row) (m : list media_row)
    (d d' : db) : Prop := {
  ad_properties : properties d' = properties d;
  ad_versions : versions d' = versions d;
  ad_vcrs : vcrs d' = vcrs d;
  ad_vhrs : vhrs d' = vhrs d;
  ad_media : media d' = media d ++ m;
  ad_idents : idents d' = idents d ++ i;
  ad_binds : binds d' = binds d ++ b
}.

Notation same_tables := (adds_rows [] [] []).

Lemma adds_trans i1 i2 b1 b2 m1 m2 d d1 d2 :
  adds_rows i1 b1 m1 d d1 -> adds_rows i2 b2 m2 d1 d2 ->
  adds_rows (i1 ++ i2) (b1 ++ b2) (m1 ++ m2) d d2.
Proof. intros [] []. split; rewrite ?app_assoc; congruence. Qed.

#[export] Instance same_tables_preorder : PreOrder same_tables.
Proof.
  split; [by intros d; split; rewrite ?app_nil_r|]. intros x y z H1 H2.
  exact (adds_trans [] [] [] [] [] [] x y z H1 H2).
Qed.

Lemma same_tables_intro d d' :
  properties d' = properties d -> versions d' = versions d -> vcrs d' = vcrs d ->
  vhrs d' = vhrs d -> media d' = media d -> idents d' = idents d -> binds d' = binds d ->
  same_tables d d'.
Proof. intros. split; by rewrite ?app_nil_r. Qed.

(** Proves [same_tables] of a statement. *)
Ltac same_stmt :=
  intros; cbn in *;
  repeat match goal with
         | H : (if ?b then _ else _) = Some _ |- _ => destruct b; try discriminate H
         | H : match ?x with _ => _ end = Some _ |- _ => destruct x; try discriminate H
         end;
  simplify_eq; by apply same_tables_intro.

(** ** The steps that leave them *)

Lemma touch_tables ids t d : same_tables d (touch_stmt ids t d).
Proof.
  apply same_tables_intro; try done. unfold idents, touch_stmt. cbn. rewrite map_map.
  apply map_ext. intros r. by case_match.
Qed.

Lemma moves_notify r : Moves same_tables (dbms_notify_resource_updated r).
Proof.
  unfold dbms_notify_resource_updated. moves. apply touch_tables.
Qed.

Lemma update_resource_tables id f d :
  (forall r, r_id r = id -> (r_id (f r), r_type (f r)) = (r_id r, r_type r)) ->
  same_tables d (update_resource_stmt id f d).
Proof.
  intros Hf. apply same_tables_intro; try done. unfold idents, update_resource_stmt. cbn.
  rewrite map_map. apply map_ext. intros r. case_bool_decide; [by apply Hf|done].
Qed.

Lemma moves_update_displayname r : Moves same_tables (dbms_update_displayname r).
Proof. unfold dbms_update_displayname. moves. by apply update_resource_tables. Qed.

Lemma moves_insert_collection r : Moves same_tables (dbms_insert_collection r).
Proof. unfold dbms_insert_collection. moves. same_stmt. Qed.

Lemma moves_insert_principal r n : Moves same_tables (dbms_insert_principal r n).
Proof. unfold dbms_insert_principal. moves. unfold insert_principal_stmt in *. same_stmt. Qed.

Lemma moves_insert_quota p q : Moves same_tables (dbms_insert_quota p q).
Proof. unfold dbms_insert_quota. moves. same_stmt. Qed.

Lemma moves_get_ns_id h cache n : Moves same_tables (dbms_get_ns_id h cache n).
Proof. unfold dbms_get_ns_id, dbms_insert_ns. moves. same_stmt. Qed.
#[export] Hint Resolve moves_notify moves_update_displayname moves_insert_collection
  moves_insert_principal moves_insert_quota moves_get_ns_id : moves.

Lemma reads_get_privilege_id cache p : Reads (dbms_get_privilege_id cache p).
Proof. unfold dbms_get_privilege_id. reads. Qed.
#[export] Hint Resolve reads_get_privilege_id : lime.

Lemma moves_add_privileges cache l id : Moves same_tables (add_privileges cache l id).
Proof.
  revert cache. induction l as [|p l IH]; intros cache; cbn [add_privileges]; [moves|].
  unfold dbms_add_ace_privilege. moves. by apply same_tables_intro.
Qed.

Lemma moves_add_ace {cfg : ServerConfig} h cache r a :
  Moves same_tables (dbms_add_ace h cache r a).
Proof.
  pose proof moves_add_privileges. unfold dbms_add_ace, insert_ace_stmt. moves. same_stmt.
Qed.
#[export] Hint Resolve moves_add_ace : moves.

Lemma moves_inherit_parent id p : Moves same_tables (dbms_inherit_parent_aces id p).
Proof. unfold dbms_inherit_parent_aces. moves. unfold inherit_stmt in *. same_stmt. Qed.
#[export] Hint Resolve moves_inherit_parent : moves.

(** ** The record *)

Record same_record (r r' : dav_repos_resource) : Prop := {
  sr_serialno : serialno r' = serialno r;
  sr_uri : uri r' = uri r;
  sr_type : resourcetype r' = resourcetype r;
  sr_displayname : displayname r' = displayname r;
  sr_sha1 : sha1str r' = sha1str r;
  sr_resource : has_resource r' = has_resource r;
  sr_root : root_path r' = root_path r
}.

#[export] Instance same_record_preorder : PreOrder same_record.
Proof. split; [by constructor|]. intros x y z [] []. split; congruence. Qed.

Section create.
Context {cfg : ServerConfig} {req : Request}.

Lemma retrieve_parent_record r pn s p r' s' :
  sabridge_retrieve_parent r pn s = (Ret (p, r'), s') -> same_record r r'.
Proof.
  unfold sabridge_retrieve_parent, dav_repos_get_parent_resource, obind.
  destruct (has_resource r); [|done]. rewrite bind_run.
  destruct (uri r) as [u|] eqn:Hu; [|done].
  destruct (_ || _); [done|]. rewrite bind_run.
  match goal with |- context [sabridge_get_property ?x s] =>
    destruct (sabridge_get_property x s) as [[|[[e|] q]] s1] end; cbn; try done.
  intros [= _ <- _]. case_bool_decide; [done|]. by constructor.
Qed.

(** A step of a creation that keeps the record and the tables. *)
Definition same_res (res res' : dav_resource) : Prop :=
  same_record (res_dbr res) (res_dbr res') /\ res_parent res' = res_parent res.

#[local] Instance same_res_preorder : PreOrder same_res.
Proof.
  split; [by intros x; split|]. intros x y z [H1 H2] [H3 H4]. split; [by etransitivity|congruence].
Qed.

Definition Steps (res : dav_resource) (m : R (option dav_error * dav_resource)) : Prop :=
  forall c s, wp m c s (fun x _ s1 => same_res res x.2 /\ same_tables (c_db s) (c_db s1)).

Lemma steps_ret res e : Steps res (mret (e, res)).
Proof. intros c s. apply wp_ret. split; reflexivity. Qed.

Lemma steps_ret_as res res' e :
  same_res res res' -> Steps res (mret (e, res')).
Proof. intros H c s. apply wp_ret. by split. Qed.

Lemma steps_crash res : Steps res crash.
Proof. done. Qed.

Lemma steps_keep res res' (m : M (option dav_error)) :
  same_res res res' -> Moves same_tables m ->
  Steps res (keep res' (run m)).
Proof.
  intros Hr Hm c s. apply wp_keep. apply (wp_moves same_tables).
  - by apply movesR_run; [apply _|].
  - intros x c' s' H. by split.
Qed.

Lemma steps_trans res res' m :
  same_res res res' -> Steps res' m -> Steps res m.
Proof.
  intros Hr Hm c s. eapply wp_mono; [apply Hm|]. intros x c1 s1 [H1 H2].
  split; [by etransitivity|done].
Qed.

Lemma steps_unless_error res m k :
  (forall x, MonoR (k x)) -> Steps res m -> (forall res', Steps res' (k res')) ->
  Steps res (unless_error m k).
Proof.
  intros Hmono Hm Hk c s. apply wp_unless_error; [done|]. eapply wp_mono; [apply Hm|].
  intros [[e|] x] c1 s1 [H1 H2]; cbn in *; [done|]. eapply wp_mono; [apply Hk|].
  intros y c2 s2 [H3 H4]. split; by etransitivity.
Qed.

Lemma moves_mono {A} (m : M A) : Mono m -> Moves (fun _ _ => True) m.
Proof. intros H s. split; [done|apply H]. Qed.

Lemma mono_moves {A} Q (m : M A) : Moves Q m -> Moves (fun _ _ => True) m.
Proof. intros H. apply moves_mono. intros s. apply H. Qed.

Lemma get_parent_id_record res c s :
  wp (sabridge_get_parent_id res) c s (fun p _ s1 =>
    same_res res p.2 /\ c_db s1 = c_db s).
Proof.
  unfold sabridge_get_parent_id. destruct (negb _); [by apply wp_ret|].
  destruct (uri (res_dbr res)); [|by apply wp_ret].
  apply wp_bind; [intros; apply movesR_ret; apply _|].
  apply wp_run_out. intros [p r'] Hp _. apply wp_ret. cbn.
  split; [|by destruct (reads_retrieve_parent (res_dbr res) (res_pathname res) s) as [-> _]].
  destruct (sabridge_retrieve_parent _ _ s) as [o s'] eqn:E. cbn in Hp. subst o.
  split; [by eapply retrieve_parent_record|done].
Qed.

Lemma moves_inherit_aces res : MovesR same_tables (dav_repos_inherit_aces res).
Proof. unfold dav_repos_inherit_aces, sabridge_get_parent_id. moves. Qed.

Hint Extern 3 (Moves (fun _ _ => True) _) =>
  apply (mono_moves same_tables); solve [eauto with moves] : moves.

Lemma create_initial_acl_steps owner res : Steps res (dav_repos_create_initial_acl owner res).
Proof.
  intros c s. unfold dav_repos_create_initial_acl. apply wp_bind.
  { intros [e|]; [apply movesR_ret; apply _|]. eapply movesR_mono, moves_inherit_aces. }
  apply (wp_moves same_tables).
  { intros cache. unfold acl_create_initial_acl, oret. moves. }
  intros [e|] c1 s1 H1; [by apply wp_ret|].
  unfold dav_repos_inherit_aces. apply wp_bind.
  { intros p. apply (movesR_mono same_tables). moves. }
  eapply wp_mono; [apply get_parent_id_record|]. intros [p r'] c2 s2 [Hr Hd]. cbn in *.
  case_bool_decide; [apply wp_ret; by rewrite Hd|].
  eapply wp_mono; [apply (steps_keep r' r'); [done|apply moves_inherit_parent]|].
  intros x c3 s3 [H2 H3]. rewrite Hd in H3. split; by etransitivity.
Qed.

(** ** The steps of [sabridge_insert_resource] *)

Lemma find_parent_reads res : MonoR (find_parent res).
Proof. unfold find_parent. apply (movesR_mono same_tables). moves. Qed.

Lemma collection_props_ok r s :
  c_errnum (dbms_get_collection_props r s).2 = false ->
  (dbms_get_collection_props r s).1.1 = None.
Proof.
  unfold dbms_get_collection_props. rewrite bind_run. cbn [fst snd mret M_ret]. intros He.
  rewrite (select_ok _ _ He). by destruct (List.find _ _).
Qed.

Lemma notify_ok r s :
  c_errnum (dbms_notify_resource_updated r s).2 = false ->
  (dbms_notify_resource_updated r s).1 = None.
Proof.
  unfold dbms_notify_resource_updated. rewrite bind_run. cbn [fst snd mret M_ret]. intros He.
  by destruct (update_ok _ _ He) as [-> _].
Qed.

Lemma find_parent_run res c s :
  wp (find_parent res) c s (fun x _ s1 =>
    x.1 = None /\ same_record (res_dbr res) (res_dbr x.2)
    /\ c_db s1 = c_db s /\ c_now s1 = c_now s /\ c_files s1 = c_files s).
Proof.
  unfold find_parent. destruct (res_parent res); [by apply wp_ret|].
  case_bool_decide.
  - destruct (sabridge_new_dbr_from_dbr _) as [p|]; [|done].
    apply wp_bind; [intros g; apply (movesR_mono same_tables); moves|]. apply wp_run. intros _.
    match goal with |- context [dbms_get_resource ?x s] =>
      destruct (reads_get_resource x s) as (D1 & _ & [F1 N1] & _);
      destruct (dbms_get_resource x s) as [g s1] end. cbn in *.
    apply wp_bind; [intros; apply movesR_ret; apply _|]. apply wp_run. intros He. apply wp_ret.
    destruct (reads_get_collection_props g.2 s1) as (D2 & _ & [F2 N2] & _). cbn.
    split; [by apply collection_props_ok|]. split; [done|]. split_and!; congruence.
  - destruct (uri (res_dbr res)); [|by apply wp_ret].
    apply wp_bind; [intros; apply movesR_ret; apply _|]. apply wp_run_out.
    intros [p r'] Hp _. apply wp_ret. cbn.
    destruct (reads_retrieve_parent (res_dbr res) (res_pathname res) s) as (-> & _ & [-> ->] & _).
    split; [done|]. split; [|done].
    destruct (sabridge_retrieve_parent _ _ s) as [o s'] eqn:E. cbn in Hp. subst o.
    by eapply retrieve_parent_record.
Qed.

(** The row. *)
Lemma insert_resource_run r s t :
  resourcetype r = Some t -> c_errnum (dbms_insert_resource r s).2 = false ->
  let n := resources_id_seq (sequences (c_db s)) in
  let d' := c_db (dbms_insert_resource r s).2 in
  (dbms_insert_resource r s).1 = (None, set_serialno n r)
  /\ adds_rows [(n, t)] [] [] (c_db s) d'.
Proof.
  intros Ht. unfold dbms_insert_resource. rewrite bind_run. cbn [time_now_str fst snd].
  rewrite Ht, bind_run.
  match goal with |- context [execute ?f ?x] => set (stmt := f); pose proof (execute_ok stmt x) as Hok;
    destruct (execute stmt x) as [q s1] end. cbn in *. intros He.
  destruct (Hok He) as (id & d & Hs & -> & ->). unfold stmt, insert_resource_stmt in Hs.
  destruct (existsb _ _); [done|]. injection Hs as <- <-. cbn. split; [done|].
  split; cbn; rewrite ?app_nil_r; try done. unfold idents. cbn. by rewrite map_app.
Qed.

Lemma mono_insert_resource r : Moves (fun _ _ => True) (dbms_insert_resource r).
Proof. unfold dbms_insert_resource. moves. Qed.

Lemma mono_create_empty_body r : Moves (fun _ _ => True) (sabridge_create_empty_body r).
Proof.
  pose proof (fun r => mono_moves _ _ (moves_notify r)).
  unfold sabridge_create_empty_body, dbms_insert_media. moves.
Qed.

Lemma mono_insert_bind_ a b n : Moves (fun _ _ => True) (dbms_insert_bind a b n).
Proof. unfold dbms_insert_bind. moves. Qed.

(** The empty body. *)
Lemma create_empty_body_run r s :
  c_errnum (sabridge_create_empty_body r s).2 = false ->
  let d := c_db s in let d' := c_db (sabridge_create_empty_body r s).2 in
  exists r' m, (sabridge_create_empty_body r s).1 = (None, r')
    /\ same_record (set_sha1str (Some sha1_of_empty) r) r'
    /\ m_res m = serialno r /\ m_size m = getcontentlength r /\ m_sha1 m = sha1_of_empty
    /\ adds_rows [] [] [m] d d'.
Proof.
  unfold sabridge_create_empty_body, dbms_insert_media. rewrite !bind_run.
  cbn [time_now_str fst snd].
  match goal with |- context [execute ?f ?x] => set (stmt := f); pose proof (execute_spec stmt x) as Hok;
    destruct (execute stmt x) as [[[]|] s1] end; cbn [fst snd mret M_ret] in *.
  2: { cbn. intros He. destruct Hok as [Hok _]. congruence. }
  destruct Hok as (d & Hs & Hd & He1). rewrite bind_run.
  match goal with |- context [dbms_notify_resource_updated ?x s1] =>
    destruct (moves_notify x s1) as [Hn Hm]; pose proof (notify_ok x s1) as Hr;
    destruct (dbms_notify_resource_updated x s1) as [e s2] end. cbn [fst snd mret M_ret] in *.
  intros He. assert (Hnone : e = None) by (apply Hr; by destruct e). subst e. cbn in *.
  eexists _, _. split; [done|]. split; [by constructor|].
  unfold stmt, insert_media_stmt in Hs. destruct (charge _ _ _) as [qs|]; [|done].
  injection Hs as <-. rewrite Hd in Hn. split; [|split; [|split]]; cycle -1.
  - apply (adds_trans [] [] [] [] [_] [] _ _ _) with (2 := Hn).
    split; cbn; by rewrite ?app_nil_r.
  - done.
  - done.
  - done.
Qed.

Hint Resolve mono_insert_resource mono_create_empty_body mono_insert_bind_ : moves.

Lemma moves_set_property r : Moves (fun _ _ => True) (dbms_set_property r).
Proof. unfold dbms_set_property. moves. Qed.
Hint Resolve moves_set_property : moves.

Lemma mono_initial_acl owner res : MonoR (dav_repos_create_initial_acl owner res).
Proof.
  unfold dav_repos_create_initial_acl. apply movesR_bind; [apply _| |].
  - intros c. unfold acl_create_initial_acl, oret. moves.
  - intros [e|]; [moves|]. eapply movesR_mono, moves_inherit_aces.
Qed.
Hint Resolve find_parent_reads mono_initial_acl : moves.

Lemma mono_sabridge_insert_resource res db da : MonoR (sabridge_insert_resource res db da).
Proof.
  unfold sabridge_insert_resource, on_dbr, insert_body, insert_as_collection, insert_as_principal,
    insert_bind, on_dbr. moves.
Qed.

(** The bind of a resource, or none. *)
Definition bind_rows (res : dav_resource) (delay_bind : bool) (bs : list bind_row) : Prop :=
  match uri (res_dbr res) with
  | Some u =>
      if delay_bind then bs = []
      else exists id coll tm, res_parent res = Some coll
             /\ bs = [BindRow id (basename u) (serialno coll) (serialno (res_dbr res)) tm]
  | None => bs = []
  end.

Lemma bind_rows_same res res' db bs : same_res res res' -> bind_rows res' db bs <-> bind_rows res db bs.
Proof. unfold bind_rows. by intros [[-> -> _ _ _ _ _] ->]. Qed.

Lemma insert_bind_run db res c s :
  wp (insert_bind db res) c s (fun x _ s1 => exists bs,
    x.1 = None /\ same_res res x.2 /\ bind_rows res db bs
    /\ adds_rows [] bs [] (c_db s) (c_db s1)).
Proof.
  unfold insert_bind, bind_rows. destruct (uri (res_dbr res)) as [u|].
  2: { apply wp_ret. exists []. by split_and!. }
  destruct db; [apply wp_ret; exists []; by split_and!|].
  destruct (res_parent res) as [p|]; [|done].
  apply wp_keep, wp_run. unfold dbms_insert_bind. rewrite !bind_run. cbn [time_now_str fst snd mret M_ret].
  intros He. destruct (execute_ok _ _ He) as (i & d & Hs & -> & ->).
  unfold insert_bind_stmt in Hs. destruct (bind_taken _ _ _); [done|]. injection Hs as <- <-.
  eexists. split; [done|]. split; [done|]. split; [eauto 6|].
  split; cbn; by rewrite ?app_nil_r.
Qed.

(** A statement that was not refused is not an error. *)
Definition Sound (m : M (option dav_error)) : Prop :=
  forall s, c_errnum (m s).2 = false -> (m s).1 = None.

Lemma sound_execute {B} (stmt : db -> option (B * db)) :
  Sound (q ← execute stmt; mret (err_of q)).
Proof.
  intros s. rewrite bind_run. cbn [fst snd mret M_ret]. intros He.
  by destruct (execute_ok _ _ He) as (r & d & _ & -> & _).
Qed.

Definition StepsOk (res : dav_resource) (m : R (option dav_error * dav_resource)) : Prop :=
  forall c s, wp m c s (fun x _ s1 =>
    x.1 = None /\ same_res res x.2 /\ same_tables (c_db s) (c_db s1)).

Lemma stepsok_ret res : StepsOk res (mret (None, res)).
Proof. intros c s. apply wp_ret. split_and!; try done; reflexivity. Qed.

Lemma stepsok_keep res res' (m : M (option dav_error)) :
  same_res res res' -> Moves same_tables m -> Sound m -> StepsOk res (keep res' (run m)).
Proof.
  intros Hr Hm Hs c s. apply wp_keep, wp_run. intros He. cbn.
  split; [by apply Hs|]. split; [done|]. apply Hm.
Qed.

Lemma insert_as_collection_steps res : StepsOk res (insert_as_collection res).
Proof.
  unfold insert_as_collection. destruct (is_collection _); [|apply stepsok_ret].
  destruct (res_parent res) as [p|]; [|done].
  apply stepsok_keep; [by repeat split|apply moves_insert_collection|apply sound_execute].
Qed.

Lemma insert_as_principal_steps res :
  resourcetype (res_dbr res) <> Some dav_repos_USER -> StepsOk res (insert_as_principal res).
Proof.
  intros Ht. unfold insert_as_principal. rewrite (bool_decide_false _ Ht). cbn [orb].
  case_bool_decide; [|apply stepsok_ret]. destruct (uri (res_dbr res)) as [u|]; [|done].
  intros c s. apply wp_unless_error; [intros; moves|].
  eapply wp_mono; [apply (stepsok_keep res res); [reflexivity|apply moves_insert_principal|
    apply sound_execute]|].
  intros [e x] c1 s1 (He & H1 & H2). cbn in He. subst e. by apply wp_ret.
Qed.

Lemma insert_body_run res c s :
  wp (insert_body res) c s (fun x _ s1 => exists ms,
    x.1 = None /\ res_parent x.2 = res_parent res
    /\ adds_rows [] [] ms (c_db s) (c_db s1)
    /\ if has_body (resourcetype (res_dbr res))
       then same_record (set_sha1str (Some sha1_of_empty) (res_dbr res)) (res_dbr x.2)
            /\ exists m, ms = [m] /\ m_res m = serialno (res_dbr res)
                 /\ m_size m = getcontentlength (res_dbr res) /\ m_sha1 m = sha1_of_empty
       else same_record (res_dbr res) (res_dbr x.2) /\ ms = []).
Proof.
  unfold insert_body. destruct (has_body _).
  - unfold on_dbr. apply wp_bind; [intros; moves|]. apply wp_run. intros He. apply wp_ret.
    destruct (create_empty_body_run _ _ He) as (r' & m & -> & Hr & H1 & H2 & H3 & Ha).
    exists [m]. cbn. split_and!; try done. eauto.
  - apply wp_ret. exists []. split_and!; try done; reflexivity.
Qed.

Ltac creation :=
  intros; unfold on_dbr, insert_body, insert_as_collection, insert_as_principal, insert_bind,
    on_dbr; moves.

(** From the tables of its kind to its access control. *)
Lemma insert_tail_wp res db (da : bool) c s :
  resourcetype (res_dbr res) <> Some dav_repos_USER ->
  wp (res <! insert_as_collection res ;;
      res <! insert_as_principal res ;;
      res <! insert_bind db res ;;
      if acl_hooks && negb da then dav_repos_create_initial_acl rec_principal res
      else mret (None, res)) c s (fun x _ s1 => exists bs,
    same_res res x.2 /\ bind_rows res db bs /\ adds_rows [] bs [] (c_db s) (c_db s1)).
Proof.
  intros Hu. apply wp_unless_error; [creation|].
  eapply wp_mono; [apply insert_as_collection_steps|]. intros [e res1] c1 s1 (He & Hr1 & Ha1).
  cbn in He, Hr1. subst e. apply wp_unless_error; [creation|].
  eapply wp_mono; [apply insert_as_principal_steps; by rewrite (sr_type _ _ (proj1 Hr1))|].
  intros [e res2] c2 s2 (He & Hr2 & Ha2). cbn in He. subst e. cbn in Hr2.
  assert (Hr : same_res res res2) by (by transitivity res1).
  assert (Ha : same_tables (c_db s) (c_db s2)) by (by etransitivity).
  apply wp_unless_error; [creation|]. eapply wp_mono; [apply insert_bind_run|].
  intros [e res3] c3 s3 (bs & He & Hr3 & Hb & Ha3). cbn in He, Hr3. subst e.
  assert (Hrows : bind_rows res db bs) by (by apply (bind_rows_same res res2)).
  assert (Hadds : adds_rows [] bs [] (c_db s) (c_db s3)).
  { apply (adds_trans [] [] [] bs [] [] _ _ _ Ha Ha3). }
  assert (Hres : same_res res res3) by (by transitivity res2).
  destruct (acl_hooks && negb da); [|apply wp_ret; eauto].
  eapply wp_mono; [apply create_initial_acl_steps|]. intros x c4 s4 [Hr4 Ha4].
  exists bs. split; [by transitivity res3|]. split; [done|].
  rewrite <- (app_nil_r bs). apply (adds_trans [] [] bs [] [] [] _ _ _ Hadds Ha4).
Qed.

(** What a resource of type [t] adds to the tables [d]. *)
Record created (t : dav_repos_type) (delay_bind : bool) (res : dav_resource) (d : db)
    (bs : list bind_row) (ms : list media_row) (res' : dav_resource) (d' : db) : Prop := {
  cr_serialno : serialno (res_dbr res') = resources_id_seq (sequences d);
  cr_uri : uri (res_dbr res') = uri (res_dbr res);
  cr_type : resourcetype (res_dbr res') = Some t;
  cr_name : is_Some (displayname (res_dbr res'));
  cr_sha1 : sha1str (res_dbr res')
            = if has_body (Some t) then Some sha1_of_empty else sha1str (res_dbr res);
  cr_bind : bind_rows res' delay_bind bs;
  cr_body : if has_body (Some t)
            then exists m, ms = [m] /\ m_res m = resources_id_seq (sequences d)
                   /\ m_sha1 m = sha1_of_empty
            else ms = [];
  cr_rows : adds_rows [(resources_id_seq (sequences d), t)] bs ms d d'
}.

(** The digest of a new resource. *)
Definition new_sha1 (t : dav_repos_type) (r : dav_repos_resource) : option string :=
  if has_body (Some t) then Some sha1_of_empty else sha1str r.

Lemma after_row_wp t res db da c s :
  resourcetype (res_dbr res) = Some t -> t <> dav_repos_USER ->
  wp (res <! insert_body res ;;
      res <! insert_as_collection res ;;
      res <! insert_as_principal res ;;
      res <! insert_bind db res ;;
      if acl_hooks && negb da then dav_repos_create_initial_acl rec_principal res
      else mret (None, res)) c s (fun x _ s1 => exists bs ms,
    same_record (set_sha1str (new_sha1 t (res_dbr res)) (res_dbr res)) (res_dbr x.2)
    /\ bind_rows x.2 db bs
    /\ (if has_body (Some t)
        then exists m, ms = [m] /\ m_res m = serialno (res_dbr res) /\ m_sha1 m = sha1_of_empty
        else ms = [])
    /\ adds_rows [] bs ms (c_db s) (c_db s1)).
Proof.
  intros Ht Hu. apply wp_unless_error; [creation|].
  eapply wp_mono; [apply insert_body_run|]. intros [e res1] c1 s1 (ms & He & Hp & Ha & Hb).
  cbn in He. subst e. cbn [snd] in *. rewrite Ht in Hb.
  assert (Hr : same_record (set_sha1str (new_sha1 t (res_dbr res)) (res_dbr res)) (res_dbr res1)).
  { unfold new_sha1. destruct (has_body _); [apply Hb|].
    etransitivity; [|apply Hb]. by constructor. }
  eapply wp_mono; [apply insert_tail_wp; rewrite (sr_type _ _ Hr); cbn; congruence|].
  intros x c2 s2 (bs & Hr2 & Hbs & Ha2). exists bs, ms.
  split; [etransitivity; [exact Hr|apply Hr2]|].
  split; [by apply (bind_rows_same res1 x.2)|]. split.
  - destruct (has_body _); [|apply Hb]. destruct Hb as (_ & m & -> & ? & _ & ?). eauto.
  - rewrite <- (app_nil_r ms). exact (adds_trans [] [] [] bs ms [] _ _ _ Ha Ha2).
Qed.

Lemma fill_record_spec u now p r :
  let r' := fill_record u now p r in
  resourcetype r' = resourcetype r /\ uri r' = uri r /\ sha1str r' = sha1str r
  /\ is_Some (displayname r').
Proof. unfold fill_record. cbn. eauto. Qed.

#[local] Arguments fill_record : simpl never.
#[local] Opaque fill_record.

Lemma insert_resource_wp t res db da c s :
  resourcetype (res_dbr res) = Some t -> t <> dav_repos_USER ->
  wp (sabridge_insert_resource res db da) c s (fun x _ s1 => exists bs ms,
    created t db res (c_db s) bs ms x.2 (c_db s1)).
Proof.
  intros Ht Hu. unfold sabridge_insert_resource. apply wp_unless_error; [creation|].
  eapply wp_mono; [apply find_parent_run|]. intros [e res1] c1 s1 (He & Hr1 & Hd1 & _).
  cbn in He, Hr1. subst e. apply wp_bind; [creation|]. apply wp_run. intros _. cbn.
  apply wp_bind; [creation|]. apply wp_run. intros _. cbn.
  destruct (get_new_plain_uuid _) as [u|]; [|done]. apply wp_unless_error; [creation|].
  match goal with |- context [fill_record ?a ?b ?p ?x] =>
    destruct (fill_record_spec a b p x) as (Htr & Hru & Hrs & Hrd);
    generalize dependent (fill_record a b p x) end.
  intros r Htr Hru Hrs Hrd. rewrite (sr_type _ _ Hr1), Ht in Htr.
  apply wp_bind; [creation|]. apply wp_run. intros He.
  destruct (insert_resource_run r s1 t Htr He) as [-> Ha2]. apply wp_ret. cbn [fst snd].
  eapply wp_mono; [by apply (after_row_wp t)|]. intros x c4 s4 (bs & ms & Hr & Hb & Hm & Ha).
  exists bs, ms. rewrite Hd1 in *. constructor.
  - apply (sr_serialno _ _ Hr).
  - rewrite (sr_uri _ _ Hr). cbn. rewrite Hru. apply (sr_uri _ _ Hr1).
  - rewrite (sr_type _ _ Hr). exact Htr.
  - rewrite (sr_displayname _ _ Hr). exact Hrd.
  - rewrite (sr_sha1 _ _ Hr). cbn. unfold new_sha1. destruct (has_body _); [done|].
    etransitivity; [exact Hrs|]. apply (sr_sha1 _ _ Hr1).
  - done.
  - done.
  - apply (adds_trans _ [] [] bs [] ms _ _ _ Ha2 Ha).
Qed.
End create.

(** Creating a resource that is no user: as long as no statement is refused, exactly one
    resource appears, under the next identifier and of the type of the record, with its
    empty body when its type has one and, unless the bind is delayed, with exactly one
    bind, from the parent collection under the last component of the URI.  Versions,
    histories and dead properties stay. *)
Theorem insert_resource_spec {cfg : ServerConfig} {req : Request} t res delay_bind delay_acl
    cache s x cache' s' :
  resourcetype (res_dbr res) = Some t -> t <> dav_repos_USER ->
  sabridge_insert_resource res delay_bind delay_acl cache s = (Ret (x, cache'), s') ->
  c_errnum s' = false ->
  exists bs ms, created t delay_bind res (c_db s) bs ms x.2 (c_db s').
Proof.
  intros Ht Hu E He.
  exact (wp_use _ _ _ _ _ _ _ (insert_resource_wp t res delay_bind delay_acl cache s Ht Hu) E He).
Qed.
