(* ===== verification/VersionsSpec.v ===== *)
(** * What copying, checking in and version control do

    The effect of [sabridge_copy_medium] and of the hooks of [version.c] on the tables. *)
From S2P Require Import Prelude Util Dbd Db Bind Resource DbmsDeltav Bridge Users Properties Acl Listing Request Create Versions CreateSpec.
From stdpp Require Import pretty.
Local Open Scope Z_scope.
Local Open Scope limestone_scope.

(** ** Contents *)

(** The body of a resource: its length, its type and its digest. *)
Definition content (id : Z) (d : db) : option (Z * option string * string) :=
  (fun m => (m_size m, m_mimetype m, m_sha1 m)) <$> find_media id d.

Lemma find_media_app id d d' m :
  media d' = media d ++ [m] ->
  find_media id d' = match find_media id d with
                     | Some x => Some x
                     | None => if bool_decide (m_res m = id) then Some m else None
                     end.
Proof. intros H. unfold find_media. by rewrite H, find_app. Qed.

Lemma find_media_delete id dest d d' :
  media d' = List.filter (fun m => negb (bool_decide (m_res m = dest))) (media d) ->
  find_media id d' = if bool_decide (id = dest) then None else find_media id d.
Proof.
  intros H. unfold find_media. rewrite H. clear. induction (media d) as [|x l IH]; cbn.
  { by case_bool_decide. }
  destruct (decide (m_res x = dest)) as [E|E].
  - rewrite (bool_decide_true _ E). cbn. rewrite IH. case_bool_decide; [done|].
    by rewrite (bool_decide_false (m_res x = id)) by congruence.
  - rewrite (bool_decide_false _ E). cbn. destruct (decide (m_res x = id)) as [E'|E'].
    + rewrite (bool_decide_true _ E'). by rewrite (bool_decide_false (id = dest)) by congruence.
    + rewrite (bool_decide_false _ E'). apply IH.
Qed.

(** Nothing but bodies and dead properties. *)
Record keeps_rows (d d' : db) : Prop := {
  kr_versions : versions d' = versions d;
  kr_vcrs : vcrs d' = vcrs d;
  kr_vhrs : vhrs d' = vhrs d;
  kr_idents : idents d' = idents d;
  kr_binds : binds d' = binds d
}.

#[export] Instance keeps_rows_preorder : PreOrder keeps_rows.
Proof. split; [by intros d|]. intros x y z [] []. split; congruence. Qed.

Lemma same_keeps d d' : same_tables d d' -> keeps_rows d d'.
Proof. intros [????? Hi Hb]. rewrite app_nil_r in Hi, Hb. by split. Qed.

(** The bodies before and after a copy. *)
Definition body_copied (src dest : Z) (d d' : db) : Prop :=
  content dest d' = content src d
  /\ forall id, id <> dest -> content id d' = content id d.

Definition props_copied (src dest : Z) (d d' : db) : Prop :=
  props_of dest (properties d') = props_of src (properties d)
  /\ forall id, id <> dest -> props_of id (properties d') = props_of id (properties d).

Lemma delete_media_table id d d' :
  delete_media_stmt id d = Some (tt, d') ->
  media d' = List.filter (fun m => negb (bool_decide (m_res m = id))) (media d)
  /\ properties d' = properties d /\ keeps_rows d d'.
Proof.
  unfold delete_media_stmt. destruct (find_media id d) eqn:Hf.
  - destruct (charge _ _ _); [|done]. intros [= <-]. by repeat split.
  - intros [= <-]. split; [|done]. symmetry. apply filter_bool_all. intros m Hm.
    apply list_elem_of_In in Hm. by rewrite (List.find_none _ _ Hf m Hm).
Qed.

Lemma insert_media_table m d d' :
  insert_media_stmt m d = Some (tt, d') ->
  media d' = media d ++ [m] /\ properties d' = properties d /\ keeps_rows d d'.
Proof.
  unfold insert_media_stmt. destruct (charge _ _ _); [|done]. intros [= <-]. by repeat split.
Qed.

Lemma copy_media_content src dest t d d1 d2 :
  src <> dest -> delete_media_stmt dest d = Some (tt, d1) ->
  copy_media_stmt dest src t d1 = Some (tt, d2) ->
  body_copied src dest d d2 /\ properties d2 = properties d /\ keeps_rows d d2.
Proof.
  intros Hne (Hm1 & Hp1 & Hk1)%delete_media_table.
  assert (Hf : forall id, find_media id d1 = if bool_decide (id = dest) then None else find_media id d)
    by (intros; by apply find_media_delete).
  unfold copy_media_stmt, body_copied, content. rewrite (Hf src), (bool_decide_false _ Hne).
  destruct (find_media src d) as [m|] eqn:Hsrc; cbn.
  - intros (Hm2 & Hp2 & Hk2)%insert_media_table.
    split; [|split; [congruence|by etransitivity]].
    split; [|intros id Hid]; rewrite (find_media_app _ _ _ _ Hm2), Hf.
    + rewrite bool_decide_true by done. cbn. by rewrite bool_decide_true.
    + rewrite (bool_decide_false _ Hid). destruct (find_media id d); [done|]. cbn.
      by rewrite bool_decide_false by congruence.
  - intros [= <-]. split; [|done]. split; [|intros id Hid]; rewrite Hf.
    + by rewrite bool_decide_true.
    + by rewrite (bool_decide_false _ Hid).
Qed.

Lemma content_media id d d' : media d' = media d -> content id d' = content id d.
Proof. unfold content, find_media. by intros ->. Qed.

Lemma body_copied_frame src dest d0 d d' d1 :
  media d = media d0 -> media d1 = media d' -> body_copied src dest d d' ->
  body_copied src dest d0 d1.
Proof.
  intros H0 H1 [H2 H3]. pose proof (fun id => content_media id _ _ H0) as K0.
  pose proof (fun id => content_media id _ _ H1) as K1.
  split; [|intros id Hid]; rewrite K1, <- K0; auto.
Qed.

(** ** [sabridge_copy_medium] *)

Lemma copy_media_run src dest s :
  serialno src <> serialno dest ->
  wpm (dbms_copy_media_props src dest) s (fun x s1 =>
    x.1 = None /\ serialno x.2 = serialno dest /\ uri x.2 = uri dest
    /\ body_copied (serialno src) (serialno dest) (c_db s) (c_db s1)
    /\ properties (c_db s1) = properties (c_db s) /\ keeps_rows (c_db s) (c_db s1)).
Proof.
  intros Hne. pose proof (fun r => mono_moves _ _ (moves_notify r)).
  unfold dbms_copy_media_props. apply wpm_bind; [moves|].
  apply wpm_execute. intros [] d1 Hd1 Hs1. apply wpm_bind; [moves|]. intros _. cbn [time_now_str fst snd].
  apply wpm_bind; [moves|]. apply wpm_execute. intros [] d2 Hd2 Hs2.
  apply wpm_bind; [moves|]. intros He. rewrite (notify_ok _ _ He). clear He. apply wpm_ret.
  match goal with |- context [dbms_notify_resource_updated ?r ?s] =>
    destruct (moves_notify r s) as [Ht _] end.
  rewrite Hs1 in Hd2. rewrite Hs2 in Ht.
  destruct (copy_media_content _ _ _ _ _ _ Hne Hd1 Hd2) as (Hb & Hp & Hk).
  split; [done|]. split; [done|]. split; [done|]. split; [|split].
  - eapply body_copied_frame; [reflexivity| |exact Hb]. destruct Ht. by rewrite app_nil_r in *.
  - rewrite <- Hp. apply (ad_properties _ _ _ _ _ Ht).
  - etransitivity; [exact Hk|]. by apply same_keeps.
Qed.

(** The statements on dead properties leave the bodies and the other rows. *)
Definition bodies_kept (d d' : db) : Prop := media d' = media d /\ keeps_rows d d'.

#[export] Instance bodies_kept_preorder : PreOrder bodies_kept.
Proof.
  split; [by intros d|]. intros x y z [H1 H2] [H3 H4]. split; [congruence|by etransitivity].
Qed.

Lemma moves_copy_dead_props src dest : Moves bodies_kept (sabridge_copy_dead_props src dest).
Proof.
  unfold sabridge_copy_dead_props, dbms_delete_dead_props, dbms_copy_dead_props,
    delete_properties_stmt, copy_properties_stmt.
  moves; intros; repeat case_match; simplify_eq; done.
Qed.

Lemma moves_remove_body {cfg : ServerConfig} r : Moves eq (sabridge_remove_body_from_disk r).
Proof. unfold sabridge_remove_body_from_disk, remove_sha1_file. moves. Qed.
#[export] Hint Resolve moves_copy_dead_props moves_remove_body : moves.

Lemma mono_copy_media src dest : Moves (fun _ _ => True) (dbms_copy_media_props src dest).
Proof.
  pose proof (fun r => mono_moves _ _ (moves_notify r)). unfold dbms_copy_media_props. moves.
Qed.
#[export] Hint Resolve mono_copy_media : moves.
#[export] Hint Extern 3 (Moves (fun _ _ => True) _) =>
  first [apply (mono_moves same_tables); solve [eauto with moves]
        |apply (mono_moves eq); solve [eauto with moves]
        |apply (mono_moves bodies_kept); solve [eauto with moves]] : moves.

Section copy.
Context {cfg : ServerConfig} {req : Request}.

Lemma mono_copy_medium src dest : Moves (fun _ _ => True) (sabridge_copy_medium src dest).
Proof. unfold sabridge_copy_medium, oret. moves. Qed.

(** What a copy of a body and its dead properties leaves. *)
Record medium_copied (src dest : Z) (d d' : db) : Prop := {
  mc_body : body_copied src dest d d';
  mc_props : props_copied src dest d d';
  mc_rows : keeps_rows d d'
}.

Lemma copy_medium_wpm src dest s :
  serialno src <> serialno dest ->
  wpm (sabridge_copy_medium src dest) s (fun o s1 =>
    forall x, o = Ret x ->
      x.1 = None /\ serialno x.2 = serialno dest /\ uri x.2 = uri dest
      /\ medium_copied (serialno src) (serialno dest) (c_db s) (c_db s1)).
Proof.
  intros Hne. unfold sabridge_copy_medium.
  destruct (displayname src) as [sn|], (displayname dest) as [dn|]; try done.
  apply wpm_bind; [unfold oret; moves|]. apply (wpm_moves eq); [moves; auto with moves|].
  intros _ s1 Hd1. rewrite Hd1. apply wpm_bind; [unfold oret; moves|].
  apply (wpm_mono _ _ (fun r s2 => (serialno r = serialno dest /\ uri r = uri dest)
    /\ same_tables (c_db s1) (c_db s2))).
  { destruct (String.eqb sn dn); [by apply wpm_ret|].
    apply wpm_bind; [moves|]. apply (wpm_moves same_tables); [moves|]. intros. by apply wpm_ret. }
  intros r s2 [[Hid Hu] Hd2]. apply wpm_bind; [unfold oret; moves|].
  eapply wpm_mono; [apply copy_media_run; congruence|].
  intros [e r2] s3 (He & Hid3 & Hu3 & Hb & Hp & Hk). cbn in He, Hid3, Hu3. subst e.
  apply wpm_bind; [unfold oret; moves|]. intros He.
  pose proof (copy_dead_props_run (serialno src) (serialno r2) s3) as Hdead.
  destruct Hdead as (-> & Hpd & Hpo); [congruence|done|]. apply wpm_ret. intros x [= <-]. cbn.
  destruct (moves_copy_dead_props (serialno src) (serialno r2) s3) as [[Hm Hk4] _].
  rewrite Hid3, Hid, Hp, (ad_properties _ _ _ _ _ Hd2) in *.
  split; [done|]. split; [congruence|]. split; [congruence|]. split.
  - eapply body_copied_frame; [|exact Hm|exact Hb]. destruct Hd2. by rewrite app_nil_r in *.
  - split; [done|]. intros id Hne'. by rewrite Hpo.
  - etransitivity; [by apply same_keeps|]. by etransitivity.
Qed.

(** ** A new version *)

Lemma update_dbr_resource_dbr res : res_dbr (dav_repos_update_dbr_resource res) = res_dbr res.
Proof.
  unfold dav_repos_update_dbr_resource. destruct res as [r ????? ? ?]. cbn.
  by destruct (resourcetype r) as [[]|]; cbn; repeat case_bool_decide.
Qed.

Lemma update_dbr_resource_parent res :
  res_parent (dav_repos_update_dbr_resource res) = res_parent res.
Proof.
  unfold dav_repos_update_dbr_resource. destruct res as [r ????? ? ?]. cbn.
  by destruct (resourcetype r) as [[]|]; cbn; repeat case_bool_decide.
Qed.

Lemma mono_create_resource res db da : MonoR (dav_repos_create_resource res db da).
Proof.
  pose proof mono_sabridge_insert_resource. unfold dav_repos_create_resource. moves.
Qed.

Lemma created_ext t db res res0 d bs ms res1 res2 d' :
  uri (res_dbr res) = uri (res_dbr res0) -> sha1str (res_dbr res) = sha1str (res_dbr res0) ->
  res_dbr res2 = res_dbr res1 -> res_parent res2 = res_parent res1 ->
  created t db res d bs ms res1 d' -> created t db res0 d bs ms res2 d'.
Proof.
  intros Hu Hs Hr Hp []. constructor; rewrite ?Hr, <- ?Hu, <- ?Hs; try done.
  unfold bind_rows in *. by rewrite Hr, Hp.
Qed.

Lemma create_resource_wp t res db da c s :
  collection res = false -> resourcetype (res_dbr res) = Some t -> t <> dav_repos_USER ->
  wp (dav_repos_create_resource res db da) c s (fun x _ s1 => exists bs ms,
    created t db res (c_db s) bs ms x.2 (c_db s1)).
Proof.
  intros Hc Ht Hu. unfold dav_repos_create_resource. rewrite Hc, Ht.
  apply wp_unless_error; [moves|]. eapply wp_mono; [by apply (insert_resource_wp t)|].
  intros [[e|] x] c1 s1 (bs & ms & H); [|apply wp_ret]; exists bs, ms; cbn [snd];
    eapply created_ext; try exact H; try done.
  - apply update_dbr_resource_dbr.
  - apply update_dbr_resource_parent.
Qed.

(** The tables after a version [n] was made of the resource [vcr]. *)
Record version_made (vcr new : Z) (bs : list bind_row) (d d' : db) : Prop := {
  vm_idents : idents d' = idents d ++ [(new, dav_repos_VERSION)];
  vm_binds : binds d' = binds d ++ bs;
  vm_body : body_copied vcr new d d';
  vm_props : props_copied vcr new d d';
  vm_vhrs : vhrs d' = vhrs d
}.

Lemma content_added n vcr d d' i b m :
  n <> vcr -> m_res m = n -> adds_rows i b [m] d d' ->
  forall id, id <> n -> content id d' = content id d.
Proof.
  intros Hn Hm Ha id Hid. unfold content.
  rewrite (find_media_app id d d' m) by apply (ad_media _ _ _ _ _ Ha).
  destruct (find_media id d); [done|]. by rewrite bool_decide_false by congruence.
Qed.

Lemma version_made_intro vcr new bs m d d1 d2 :
  vcr <> new -> m_res m = new ->
  adds_rows [(new, dav_repos_VERSION)] bs [m] d d1 -> medium_copied vcr new d1 d2 ->
  version_made vcr new bs d d2 /\ versions d2 = versions d /\ vcrs d2 = vcrs d.
Proof.
  intros Hne Hm Ha [[Hb1 Hb2] [Hp1 Hp2] Hk].
  pose proof (content_added _ vcr _ _ _ _ _ (not_eq_sym Hne) Hm Ha) as Hc.
  destruct Ha as [Hpr Hv1 Hc1 Hh1 Hmd Hi1 Hbi], Hk as [Hv2 Hc2 Hh2 Hi2 Hbi2]. split; [split|split].
  - congruence.
  - congruence.
  - split; [rewrite Hb1; by apply Hc|]. intros id Hid. rewrite Hb2 by done. by apply Hc.
  - split; [by rewrite Hp1, Hpr|]. intros id Hid.
    rewrite Hp2 by done. by rewrite Hpr.
  - congruence.
  - congruence.
  - congruence.
Qed.

Lemma mk_new_version_wp vcr vhr n c s :
  resourcetype vcr = Some dav_repos_VERSIONED ->
  serialno vcr <> resources_id_seq (sequences (c_db s)) ->
  wp (sabridge_mk_new_version vcr vhr n) c s (fun x _ s1 => exists bs,
    let new := resources_id_seq (sequences (c_db s)) in
    x.1 = None /\ serialno x.2 = new /\ version x.2 = n /\ vcr_id x.2 = serialno vcr
    /\ vhr_id x.2 = vhr_id vcr
    /\ (exists id coll t, bs = [BindRow id (basename (sabridge_mk_version_uri vhr n)) coll new t])
    /\ version_made (serialno vcr) new bs (c_db s) (c_db s1)
    /\ versions (c_db s1) = versions (c_db s) /\ vcrs (c_db s1) = vcrs (c_db s)).
Proof.
  intros Ht Hne. pose proof mono_create_resource. pose proof mono_copy_medium.
  unfold sabridge_mk_new_version. rewrite Ht. unfold new_resource_from.
  destruct (sabridge_new_dbr_from_dbr vcr) as [v|]; [|done].
  apply wp_bind; [moves|]. apply wp_ret. apply wp_bind; [moves|]. apply wp_ignore.
  eapply wp_mono; [apply (create_resource_wp dav_repos_VERSION); done|].
  intros [e x] c1 s1 (bs & ms & Hcr). cbn [snd] in *. apply wp_bind; [moves|].
  set (new := resources_id_seq _) in *.
  pose proof (cr_serialno _ _ _ _ _ _ _ _ Hcr) as Hn. fold new in Hn.
  apply wp_run_out. intros y Hy He.
  destruct (copy_medium_wpm vcr (res_dbr x) s1 ltac:(congruence) He y Hy) as (He' & Hs & Hu & Hmc).
  apply wp_ret. exists bs. cbn. split; [done|]. split; [congruence|]. do 3 (split; [done|]).
  split.
  { pose proof (cr_bind _ _ _ _ _ _ _ _ Hcr) as Hb. unfold bind_rows in Hb.
    rewrite (cr_uri _ _ _ _ _ _ _ _ Hcr) in Hb. cbn in Hb.
    destruct Hb as (id & coll & t & _ & ->). rewrite Hn. eauto. }
  destruct (cr_body _ _ _ _ _ _ _ _ Hcr) as (m & -> & Hm & _). fold new in Hm.
  rewrite Hn in Hmc. eapply version_made_intro; [done|exact Hm| |exact Hmc].
  apply (cr_rows _ _ _ _ _ _ _ _ Hcr).
Qed.

(** ** [dav_repos_checkin] *)

Lemma get_property_serialno r s p s' :
  serialno r <> 0 -> sabridge_get_property r s = (Ret p, s') -> serialno p.2 = serialno r.
Proof.
  intros Hid E. unfold sabridge_get_property in E.
  rewrite bool_decide_false in E by done. cbn [negb] in E.
  unfold get_property_of in E. rewrite bind_run in E. cbn [from_option andb] in E.
  pose proof (get_resource_core r s) as (R1 & _). rewrite bind_run in E.
  destruct (dbms_get_resource _ s) as [[e1 r1] s1]. cbn [fst snd] in *.
  pose proof (if_redirect_core r1 s1) as ((I1 & _) & _).
  destruct (get_if_redirect None r1 s1) as [r2 s2]. cbn [fst snd] in *.
  pose proof (typed_props_core r2 s2 p s' E) as ((J1 & _) & _). congruence.
Qed.

Lemma get_vhr_wp db_r c s :
  wp (get_vhr db_r) c s (fun x _ s1 => serialno x.2 = vhr_id db_r /\ c_db s1 = c_db s).
Proof.
  unfold get_vhr, new_resource_from, sabridge_new_dbr_from_dbr.
  destruct (has_resource db_r); [|done].
  apply wp_bind; [intros; apply (movesR_mono eq), movesR_run_out, moves_reads, reads_get_property; apply _|].
  apply wp_ret, wp_run_out. intros p Hp _. split.
  - destruct (decide (vhr_id db_r = 0)) as [Hz|Hz].
    + cbn in Hp. rewrite Hz in Hp. cbn in Hp. by injection Hp as <-.
    + match type of Hp with (?m ?s0).1 = _ => destruct (m s0) as [o s1] eqn:E end.
      cbn in Hp. subst o. by apply get_property_serialno in E.
  - apply reads_get_property.
Qed.

(** The row of the version-controlled resource after a check-in. *)
Definition checked_in (vcr new : Z) (v : vcr_row) : vcr_row :=
  if bool_decide (vc_res v = vcr)
  then VcrRow (vc_res v) new (vc_vhr v) "I" (vc_version_type v) (vc_checkin_on_unlock v) else v.

Lemma check_in_new_version r n d0 s :
  vr_num r <> n ->
  (forall v, v ∈ versions d0 -> ve_number v = n -> ve_vcr v <> Some (serialno r)) ->
  forall new vhr, versions (c_db s) = versions d0 ++ [VersionRow new n (Some (serialno r)) vhr] ->
  wpm (dbms_set_checkin_out r DAV_RESOURCE_CHECKED_IN n) s (fun x s1 =>
    x = (None, set_checked_id new (set_checked_state DAV_RESOURCE_CHECKED_IN (set_vr_num n r)))
    /\ c_db s1 = set_vcrs (map (checked_in (serialno r) new) (vcrs (c_db s))) (c_db s)).
Proof.
  intros Hn Hfresh new vhr Hv. unfold dbms_set_checkin_out.
  rewrite (bool_decide_false _ Hn). cbn [andb].
  apply wpm_bind; [moves|]. unfold dbms_get_version_id.
  apply wpm_bind; [moves|]. intros He. rewrite (select_ok _ _ He). apply wpm_ret.
  match goal with |- context [select ?f s] => destruct (reads_select f s) as (Hd & _) end.
  rewrite Hv.
  rewrite find_app, find_fresh.
  2: { intros v Hin. apply bool_decide_eq_false. intros [H1 H2]. by apply (Hfresh v). }
  cbn. rewrite bool_decide_true by done. cbn [ve_res].
  apply wpm_bind; [moves|]. apply wpm_execute. intros [] d1 [= <-] Hd1. apply wpm_ret.
  split; [done|]. rewrite Hd1, Hd. done.
Qed.

(** [d'] is [d] after the check-in of [r] as the new resource [new]. *)
Record checked_in_as (r : dav_repos_resource) (new : Z) (bs : list bind_row) (d d' : db)
    : Prop := {
  ci_version : versions d'
    = versions d ++ [VersionRow new (vr_num r + 1) (Some (serialno r)) (vhr_id r)];
  ci_vcrs : vcrs d' = map (checked_in (serialno r) new) (vcrs d);
  ci_vhrs : vhrs d' = if bool_decide (vr_num r = 0)
            then map (fun h => if bool_decide (h.1 = vhr_id r) then (h.1, new) else h) (vhrs d)
            else vhrs d;
  ci_idents : idents d' = idents d ++ [(new, dav_repos_VERSION)];
  ci_binds : binds d' = binds d ++ bs;
  ci_body : body_copied (serialno r) new d d';
  ci_props : props_copied (serialno r) new d d'
}.

Lemma insert_version_wpm v s :
  wpm (dbms_insert_version v) s (fun e s1 => e = None /\
    c_db s1 = set_versions (versions (c_db s)
      ++ [VersionRow (serialno v) (version v) (Some (vcr_id v)) (vhr_id v)]) (c_db s)).
Proof.
  unfold dbms_insert_version. apply wpm_bind; [moves|]. apply wpm_execute. intros [] d Hd Hs.
  apply wpm_ret. split; [done|]. rewrite Hs. destruct (existsb _ _); [done|]. by injection Hd as <-.
Qed.

Lemma update_vhr_wpm vhr s :
  wpm (dbms_update_vhr vhr) s (fun e s1 => e = None /\
    c_db s1 = set_vhrs (map (fun h => if bool_decide (h.1 = serialno vhr)
                                      then (h.1, root_version_id vhr) else h) (vhrs (c_db s))) (c_db s)).
Proof.
  unfold dbms_update_vhr. apply wpm_bind; [moves|]. apply wpm_execute. intros [] d Hd Hs.
  apply wpm_ret. split; [done|]. rewrite Hs. by injection Hd as <-.
Qed.

Lemma mono_set_checkin_out r st n : Moves (fun _ _ => True) (dbms_set_checkin_out r st n).
Proof. unfold dbms_set_checkin_out, dbms_get_version_id. moves. Qed.

Lemma mono_insert_version v : Moves (fun _ _ => True) (dbms_insert_version v).
Proof. unfold dbms_insert_version. moves. Qed.

Lemma mono_update_vhr v : Moves (fun _ _ => True) (dbms_update_vhr v).
Proof. unfold dbms_update_vhr. moves. Qed.
Hint Resolve mono_set_checkin_out mono_insert_version mono_update_vhr : moves.

Lemma record_version_wp res vhr v new d0 bs c s :
  let r := res_dbr res in
  serialno v = new -> version v = vr_num r + 1 -> vcr_id v = serialno r -> vhr_id v = vhr_id r ->
  serialno vhr = vhr_id r ->
  (forall w, w ∈ versions d0 -> ve_number w = vr_num r + 1 -> ve_vcr w <> Some (serialno r)) ->
  version_made (serialno r) new bs d0 (c_db s) ->
  versions (c_db s) = versions d0 -> vcrs (c_db s) = vcrs d0 ->
  wp (record_version res vhr v) c s (fun x _ s1 =>
    x = (None, set_dbr (set_checked_id new (set_checked_state DAV_RESOURCE_CHECKED_IN
                          (set_vr_num (vr_num r + 1) r))) res)
    /\ checked_in_as r new bs d0 (c_db s1)).
Proof.
  intros r Hv1 Hv2 Hv3 Hv4 Hh Hfresh [Hi Hbi Hbo Hpr Hvh] Hvs Hvc. unfold record_version. fold r.
  apply wp_unless_error; [intros; unfold on_dbr; moves|].
  apply (wp_mono _ _ _ (fun x _ s1 => x = (None, res) /\ exists h, c_db s1 = set_vhrs h (c_db s)
    /\ h = if bool_decide (vr_num r = 0)
           then map (fun h => if bool_decide (h.1 = vhr_id r) then (h.1, new) else h) (vhrs d0)
           else vhrs d0)).
  { rewrite <- Hvh. case_bool_decide.
    - apply wp_keep, wp_run. intros He. destruct (update_vhr_wpm _ _ He) as [-> Hd].
      split; [done|]. eexists. split; [exact Hd|]. by rewrite <- Hh, <- Hv1.
    - apply wp_ret. split; [done|]. exists (vhrs (c_db s)). split; [by destruct (c_db s)|done]. }
  intros x c1 s1 [-> (h & Hd1 & Hh1)]. apply wp_unless_error; [intros; unfold on_dbr; moves|].
  apply wp_keep, wp_run. intros He. destruct (insert_version_wpm v s1 He) as [-> Hd2].
  set (s2 := (dbms_insert_version v s1).2) in *. apply wp_bind; [moves|].
  apply wp_run. intros He3.
  assert (Hvers : versions (c_db s2)
    = versions d0 ++ [VersionRow new (vr_num r + 1) (Some (serialno r)) (vhr_id r)]).
  { rewrite Hd2, Hd1. cbn. by rewrite Hvs, Hv1, Hv2, Hv3, Hv4. }
  destruct (check_in_new_version r (vr_num r + 1) d0 s2 ltac:(lia) Hfresh new _ Hvers He3)
    as [-> Hd3].
  apply wp_ret. split; [done|]. rewrite Hd3, Hd2, Hd1.
  split; cbn; rewrite ?Hvs, ?Hvc, ?Hv1, ?Hv2, ?Hv3, ?Hv4; try done.
Qed.

Lemma mono_mk_new_version vcr vhr n : MonoR (sabridge_mk_new_version vcr vhr n).
Proof.
  pose proof mono_create_resource. pose proof mono_copy_medium.
  unfold sabridge_mk_new_version, new_resource_from, dbms_copy_resource_collection_version. moves.
Qed.

Lemma mono_record_version res vhr v : MonoR (record_version res vhr v).
Proof. unfold record_version, on_dbr. moves. Qed.

Lemma mono_delete_version r : Moves (fun _ _ => True) (dbms_delete_resource r).
Proof. unfold dbms_delete_resource. moves. Qed.

(** What a check-in of the resource [res] that succeeds leaves. *)
Definition checkin_post (res : dav_resource) (d : db)
    (x : option dav_error * (dav_resource * option string)) (d' : db) : Prop :=
  let r := res_dbr res in
  let new := resources_id_seq (sequences d) in
  exists root bs id coll t,
    let u := root +:+ "/history/" +:+ pretty (vhr_id r) +:+ "/" +:+ pretty (vr_num r + 1) in
    checked_state r = DAV_RESOURCE_CHECKED_OUT
    /\ x = (None, (set_working false (set_res_type DAV_RESOURCE_TYPE_REGULAR
             (set_dbr (set_checked_id new (set_checked_state DAV_RESOURCE_CHECKED_IN
                (set_vr_num (vr_num r + 1) r))) res)), Some u))
    /\ bs = [BindRow id (basename u) coll new t]
    /\ checked_in_as r new bs d d'.

Lemma checkin_wp res c s :
  let r := res_dbr res in
  resourcetype r = Some dav_repos_VERSIONED ->
  serialno r <> resources_id_seq (sequences (c_db s)) ->
  (forall w, w ∈ versions (c_db s) -> ve_number w = vr_num r + 1 -> ve_vcr w <> Some (serialno r)) ->
  wp (dav_repos_checkin res) c s (fun x _ s1 =>
    x.1 = None -> checkin_post res (c_db s) x (c_db s1)).
Proof.
  intros r Ht Hne Hfresh. unfold dav_repos_checkin. fold r.
  rewrite (bool_decide_true (resourcetype r = _ \/ _)) by auto. cbn [negb orb].
  case_bool_decide as Hout; cbn [negb]; [|by apply wp_ret].
  assert (M1 : forall vhr n, MonoR (sabridge_mk_new_version r vhr n)) by apply mono_mk_new_version.
  assert (M2 : forall vhr v, MonoR (record_version res vhr v)) by apply mono_record_version.
  pose proof mono_delete_version.
  apply wp_bind; [moves|]. eapply wp_mono; [apply get_vhr_wp|].
  intros [[e|] vhr] c1 s1 [Hvhr Hd1]; [by apply wp_ret|]. cbn [snd] in Hvhr.
  apply wp_bind; [moves|].
  eapply wp_mono; [apply mk_new_version_wp; [done|by rewrite Hd1]|]. rewrite Hd1.
  intros [e v] c2 s2 (bs & He & Hv1 & Hv2 & Hv3 & Hv4 & (id & coll & t & Hbs) & Hmade & Hvs & Hvc).
  cbn [fst snd] in *. subst e. apply wp_bind; [moves|].
  eapply wp_mono; [by eapply record_version_wp|]. intros x c3 s3 [-> Hin]. apply wp_ret.
  intros _. exists (root_path vhr), bs, id, coll, t. 
    unfold sabridge_mk_version_uri in *. rewrite Hvhr in *. by split_and!.
Qed.
End copy.

(** Copying a body gives the destination the body and the dead properties of the source;
    no other resource changes its own, and no bind and no version is touched.  A copy
    onto itself would lose the body. *)
Theorem copy_medium_spec {cfg : ServerConfig} src dest s e dest' s' :
  serialno src <> serialno dest ->
  sabridge_copy_medium src dest s = (Ret (e, dest'), s') -> c_errnum s' = false ->
  e = None /\ serialno dest' = serialno dest
  /\ medium_copied (serialno src) (serialno dest) (c_db s) (c_db s').
Proof.
  intros Hne E He. pose proof (copy_medium_wpm src dest s Hne) as H. unfold wpm in H.
  rewrite E in H. destruct (H He _ eq_refl) as (H1 & H2 & _ & H4). done.
Qed.

(** C34. A check-in that succeeds makes one new resource, the version with the next number, whose
    body and dead properties are those of the resource, appends it to the versions of the
    history, binds it under its number, and leaves the resource checked in at it; the body
    and the properties of every other resource stay.  The URI returned is that of the
    version. *)
Theorem checkin_spec {cfg : ServerConfig} {req : Request} res cache s x cache' s' :
  let r := res_dbr res in
  resourcetype r = Some dav_repos_VERSIONED ->
  serialno r <> resources_id_seq (sequences (c_db s)) ->
  (forall w, w ∈ versions (c_db s) -> ve_number w = vr_num r + 1 -> ve_vcr w <> Some (serialno r)) ->
  dav_repos_checkin res cache s = (Ret (x, cache'), s') -> c_errnum s' = false ->
  x.1 = None -> checkin_post res (c_db s) x (c_db s').
Proof.
  intros r Ht Hne Hfresh E He. exact (wp_use _ _ _ _ _ _ _ (checkin_wp res cache s Ht Hne Hfresh) E He).
Qed.

(** The two tests of the type are joined by an or, so that every call fails without a
    statement. *)
Theorem set_checkin_on_unlock_fails {cfg : ServerConfig} {req : Request} res cache s :
  dav_repos_set_checkin_on_unlock res cache s
  = (Ret ((Some (dav_new_error HTTP_INTERNAL_SERVER_ERROR), res), cache), s).
Proof.
  unfold dav_repos_set_checkin_on_unlock. by destruct (resourcetype (res_dbr res)) as [[]|].
Qed.

(** Putting an existing resource under version control never reports an error, whatever the
    server refuses: the record says versioned, with a row of [vcrs] or without. *)
Theorem vsn_control_never_fails {cfg : ServerConfig} {req : Request} res cache s x cache' s' :
  exists_ res = true -> res_type res = DAV_RESOURCE_TYPE_REGULAR ->
  dav_repos_vsn_control res cache s = (Ret (x, cache'), s') ->
  x.1 = None /\ versioned x.2 = true.
Proof.
  intros Hex Ht. unfold dav_repos_vsn_control. rewrite Hex. cbn [negb].
  unfold mbind, R_bind, obind. rewrite bind_run. cbn [fst snd mret R_ret oret M_ret].
  rewrite (bool_decide_true _ Ht). cbn [negb]. destruct (versioned res) eqn:Hv.
  { by intros [= <- _ _]. }
  unfold ignore, mbind, R_bind, obind. rewrite !bind_run.
  destruct (sabridge_vsn_control _ _ _ _) as [[|[[e r] c]] s1]; cbn; [done|].
  by intros [= <- _ _].
Qed.
