(* ===== verification/VersionExamples.v ===== *)
(** * A small site for the witnesses of creation and version control

    A document of user 5 that is checked out from the only version of its history, with
    its body and a dead property. *)
From S2P Require Import Prelude Util Dbd Db Bind Resource DbmsDeltav Bridge Users Properties Acl Request Create Versions CreateSpec VersionsSpec.
From stdpp Require Import pretty.
Local Open Scope Z_scope.
Local Open Scope limestone_scope.

Definition draft_db : db :=
  set_sequences (Sequences 100 100 100 50 50 10)
  (set_resources [ResourceRow 2 "" dav_repos_COLLECTION 5 5 "" 0 0 "en-US" None;
                  ResourceRow 10 "" dav_repos_VERSIONED 5 5 "doc" 0 0 "en-US" None;
                  ResourceRow 20 "" dav_repos_COLLECTION 5 5 "history" 0 0 "en-US" None;
                  ResourceRow 21 "" dav_repos_COLLECTION 5 5 "25" 0 0 "en-US" None;
                  ResourceRow 25 "" dav_repos_VERSIONHISTORY 5 5 "vhr" 0 0 "en-US" None;
                  ResourceRow 30 "" dav_repos_VERSION 5 5 "doc" 0 0 "en-US" None;
                  ResourceRow 40 "" dav_repos_RESOURCE 5 5 "old" 0 0 "en-US" None]
  (set_binds [BindRow 1 "doc" 2 10 0; BindRow 2 "history" 2 20 0; BindRow 3 "25" 20 21 0;
              BindRow 4 "vhr" 21 25 0; BindRow 5 "1" 21 30 0; BindRow 6 "old" 2 40 0]
  (set_media [MediaRow 10 12 (Some "text/plain"%string) "new" 0; MediaRow 30 9 (Some "text/plain"%string) "old" 0]
  (set_collections [(2, 5); (20, 5); (21, 5)]
  (set_quota [QuotaRow 5 100 1000]
  (set_properties [PropertyRow 1 "color" 10 "<c" "red"]
  (set_namespaces [(1, "DAV:"%string)]
  (set_vcrs [VcrRow 10 30 25 "O" 3 0]
  (set_versions [VersionRow 30 1 (Some 10) 25]
  (set_vhrs [(25, 30)] empty_db)))))))))).

Definition draft : conn := Conn draft_db [] 60000000 [] false.

Definition draft_request : Request := {|
  rec_principal := Principal PRINCIPAL_HREF 5 "users/ann";
  rec_user := Some "ann"%string;
  acl_hooks := false;
  apr_uuid := fun _ => "01234567-89ab-cdef-0123-456789abcdef"%string;
  permission_all := ("DAV:"%string, "all"%string)
|}.

Definition draft_doc : dav_repos_resource :=
  set_uri (Some "/doc"%string) (set_resourcetype (Some dav_repos_VERSIONED)
    (set_checked_state DAV_RESOURCE_CHECKED_OUT (set_vr_num 1 (set_checked_id 30
      (set_vhr_id 25 (set_displayname (Some "doc"%string) (set_sha1str (Some "new"%string)
        (set_serialno 10 (set_has_resource true zero_dbr))))))))).

(** A record as a [dav_resource] that exists. *)
Definition resource_of (r : dav_repos_resource) : dav_resource :=
  dav_repos_update_dbr_resource
    (DavResource r None None true false false false DAV_RESOURCE_TYPE_UNKNOWN).

#[local] Existing Instances sample_config draft_request.

Definition new_file : dav_resource :=
  resource_of (set_uri (Some "/notes.txt"%string) (set_resourcetype (Some dav_repos_RESOURCE)
    (set_has_resource true zero_dbr))).

Definition existing_file : dav_resource :=
  resource_of (set_uri (Some "/old"%string) (set_displayname (Some "old"%string) (set_resourcetype (Some dav_repos_RESOURCE)
    (set_serialno 40 (set_has_resource true zero_dbr))))).

Lemma run_out_run {A} (m : M (outcome A)) cache s x c s' :
  run_out m cache s = (Ret (x, c), s') -> m s = (Ret x, s').
Proof.
  unfold run_out, obind. rewrite bind_run. destruct (m s) as [[|y] s1]; [done|].
  by intros [= -> _ ->].
Qed.

(** A computation that ends without a refused statement, in a result with [P]. *)
Definition ends {A} (m : R A) (s : conn) (P : A -> bool) : bool :=
  match m empty_cache s with
  | (Ret (x, _), s') => negb (c_errnum s') && P x
  | _ => false
  end.

Lemma ends_run {A} (m : R A) s P :
  ends m s P = true ->
  exists x c s', m empty_cache s = (Ret (x, c), s') /\ c_errnum s' = false /\ P x = true.
Proof.
  unfold ends. destruct (m empty_cache s) as [[|[x c]] s']; [done|].
  intros [He Hx]%andb_prop. apply negb_true_iff in He. eauto 6.
Qed.

Lemma insert_resource_spec_witness :
  exists x c s' bs ms, sabridge_insert_resource new_file false false empty_cache draft
      = (Ret (x, c), s')
    /\ created dav_repos_RESOURCE false new_file draft_db bs ms x.2 (c_db s').
Proof.
  destruct (ends_run (sabridge_insert_resource new_file false false) draft
    (fun x => bool_decide (x.1 = None))) as (x & c & s' & Hc & He & _); [vm_compute; reflexivity|].
  destruct (insert_resource_spec dav_repos_RESOURCE new_file _ _ _ _ _ _ _ eq_refl ltac:(discriminate) Hc He)
    as (bs & ms & H).
  exists x, c, s', bs, ms. split; [exact Hc|exact H].
Defined.

Lemma copy_medium_spec_witness :
  exists dest' s', sabridge_copy_medium draft_doc (set_serialno 30 draft_doc) draft
      = (Ret (None, dest'), s')
    /\ medium_copied 10 30 draft_db (c_db s').
Proof.
  destruct (ends_run (run_out (sabridge_copy_medium draft_doc (set_serialno 30 draft_doc))) draft
    (fun x => bool_decide (x.1 = None))) as ([e dest'] & c & s' & Hc & He & _);
    [vm_compute; reflexivity|].
  pose proof (run_out_run _ _ _ _ _ _ Hc) as Hm.
  destruct (copy_medium_spec draft_doc (set_serialno 30 draft_doc) draft e dest' s') as (-> & _ & H);
    [discriminate|exact Hm|exact He|].
  exists dest', s'. split; [exact Hm|exact H].
Defined.

Lemma checkin_spec_witness :
  exists x c s', dav_repos_checkin (resource_of draft_doc) empty_cache draft = (Ret (x, c), s')
    /\ x.2.2 = Some "/history/25/2"%string
    /\ checkin_post (resource_of draft_doc) draft_db x (c_db s').
Proof.
  destruct (ends_run (dav_repos_checkin (resource_of draft_doc)) draft
    (fun x => bool_decide (x.1 = None) && bool_decide (x.2.2 = Some "/history/25/2"%string)))
    as (x & c & s' & Hc & He & [Hx Hu]%andb_prop); [vm_compute; reflexivity|].
  apply bool_decide_eq_true in Hx, Hu. exists x, c, s'. split; [exact Hc|]. split; [exact Hu|].
  apply (checkin_spec (resource_of draft_doc) empty_cache draft x c s');
    [reflexivity|discriminate| |exact Hc|exact He|exact Hx].
  intros w ->%list_elem_of_singleton. discriminate.
Defined.

Lemma vsn_control_never_fails_witness :
  exists x c s', dav_repos_vsn_control existing_file empty_cache draft = (Ret (x, c), s')
    /\ x.1 = None /\ versioned x.2 = true.
Proof.
  destruct (ends_run (dav_repos_vsn_control existing_file) draft (fun _ => true))
    as (x & c & s' & Hc & He & _); [vm_compute; reflexivity|].
  exists x, c, s'. split; [exact Hc|].
  exact (vsn_control_never_fails existing_file empty_cache draft x c s' eq_refl eq_refl Hc).
Defined.
