(* ===== verification/UncheckoutSpec.v ===== *)
(** * What an UNCHECKOUT restores

    The version that the resource was checked out from is found by its URI in its
    history, and its body and dead properties replace those of the resource. *)
From S2P Require Import Prelude Util Dbd Db Bind Paths Lookup Resource Quota DbmsDeltav Redirect Bridge Users Properties Acl Listing Request Create Principal Versions CreateSpec VersionsSpec VersionExamples.
From stdpp Require Import pretty.
Local Open Scope Z_scope.
Local Open Scope limestone_scope.

Section read.
Context {cfg : ServerConfig} {req : Request}.

(** ** Reading keeps the path of the root *)

Definition kept (r r' : dav_repos_resource) : Prop :=
  root_path r' = root_path r /\ serialno r' = serialno r.

#[local] Instance kept_preorder : PreOrder kept.
Proof. split; [done|]. intros x y z [] []. split; congruence. Qed.

Lemma get_resource_kept r s : kept r (dbms_get_resource r s).1.2.
Proof. unfold dbms_get_resource. run_reads; done. Qed.

Lemma if_redirect_kept b r s : kept r (get_if_redirect b r s).1.
Proof.
  unfold get_if_redirect, dbms_get_redirect_props, extend_reftarget. run_reads; done.
Qed.

Lemma if_collection_kept r s : kept r (get_if_collection r s).1.2.
Proof. unfold get_if_collection, dbms_get_collection_props. run_reads; done. Qed.

Lemma media_props_kept r s : kept r (dbms_get_media_props r s).1.2.
Proof. unfold dbms_get_media_props. destruct (has_body _); run_reads; done. Qed.

Lemma vcr_props_kept r s : kept r (dbms_get_vcr_props r s).1.2.
Proof. unfold dbms_get_vcr_props, dbms_get_version_number. run_reads; done. Qed.

Lemma creator_kept r s : kept r (dbms_get_creator_displayname r s).1.2.
Proof. unfold dbms_get_creator_displayname. run_reads; done. Qed.

Lemma version_props_kept r s p :
  (dbms_get_version_resource_props r s).1 = Ret p -> kept r p.2.
Proof.
  unfold dbms_get_version_resource_props. rewrite bind_run.
  destruct (select _ s) as [q s']. cbn [fst snd].
  destruct q as [[v|]|]; cbn; [|by intros [= <-]..].
  destruct (sabridge_new_dbr_from_dbr r); cbn; [|done]. rewrite bind_run. cbn.
  intros [= <-]. cbn. by case_bool_decide.
Qed.

Lemma deltav_props_kept r s p : (dbms_get_deltav_props r s).1 = Ret p -> kept r p.2.
Proof.
  unfold dbms_get_deltav_props.
  destruct (resourcetype r) as [[]|]; cbn; try (by intros [= <-]);
    rewrite bind_run; cbn; try (intros [= <-]; apply vcr_props_kept);
    try (intros [= <-]; unfold dbms_get_vhr_props, dbms_get_vhr_root_version_id; run_reads; done);
    (destruct (dbms_get_version_resource_props r s) as [[|q] s'] eqn:E; cbn; [done|];
     rewrite bind_run; cbn; intros [= <-];
     etransitivity; [apply (version_props_kept r s); by rewrite E|apply creator_kept]).
Qed.

Lemma typed_props_kept r s p : (get_typed_props r s).1 = Ret p -> kept r p.2.
Proof.
  unfold get_typed_props. rewrite bind_run. pose proof (if_collection_kept r s) as H1.
  destruct (get_if_collection r s) as [[[e|] r1] s1]; cbn in *; [by intros [= <-]|].
  rewrite bind_run. pose proof (media_props_kept r1 s1) as H2.
  destruct (dbms_get_media_props r1 s1) as [[[e|] r2] s2]; cbn in *.
  - intros [= <-]. by etransitivity.
  - intros H3%deltav_props_kept. etransitivity; [exact H1|]. by etransitivity.
Qed.

(** A record whose bind was found whole. *)
Lemma get_property_of_kept b r s p :
  from_option (fun b => bool_decide (resource_id b = -1)) false b = false ->
  (get_property_of b r s).1 = Ret p -> kept r p.2.
Proof.
  intros Hb. unfold get_property_of. rewrite bind_run, Hb. cbn [andb].
  pose proof (get_resource_kept r s) as H1. destruct (dbms_get_resource r s) as [[e r1] s1].
  cbn [fst snd] in *. set (r2 := match b with Some _ => _ | None => r1 end).
  assert (H2 : kept r1 r2) by (by destruct b).
  rewrite bind_run. pose proof (if_redirect_kept b r2 s1) as H3.
  destruct (get_if_redirect b r2 s1) as [r3 s2]. cbn [fst snd] in *.
  intros H4%typed_props_kept. etransitivity; [exact H1|]. etransitivity; [exact H2|].
  by etransitivity.
Qed.
End read.

(** ** A resource by its URI *)

Lemma contains_app (s t : string) : Bridge.contains (s +:+ t) s = true.
Proof.
  pose proof (string_prefix_app s t) as H. destruct (s +:+ t); cbn [Bridge.contains]; by rewrite H.
Qed.

Section undo.
Context {cfg : ServerConfig} {req : Request}.

Lemma get_property_by_uri r names b s p :
  serialno r = 0 -> uri r = Some (root_path r +:+ path_string names) ->
  quiet s -> binds_unique (binds (c_db s)) -> Forall (fun n => name_ok n = true) names -> names <> [] ->
  apr_strtok_slash (path_string names) = names -> qmarks apr_dbd_escape names = 0%nat ->
  lookup_answer names (c_db s) = Some b -> resource_id b <> -1 -> resource_id b <> 0 ->
  (sabridge_get_property r s).1 = Ret p -> serialno p.2 = resource_id b.
Proof.
  intros H0 Hu Hq Hb Hn Hne Ht Hm Hl H1 H2. unfold sabridge_get_property.
  rewrite H0, Hu, bool_decide_true by done. cbn [negb]. rewrite contains_app, drop_string_app, bind_run.
  rewrite lookup_uri_run, Hl by done. cbn [fst snd].
  rewrite (bool_decide_false (resource_id b = -1)) by done. cbv zeta. rewrite bool_decide_false by done.
  intros Hp.
  apply get_property_of_kept in Hp as [_ Hs]; [done|]. cbn. by apply bool_decide_eq_false.
Qed.

Lemma version_path (root : string) (h n : Z) :
  root +:+ "/history/" +:+ pretty h +:+ "/" +:+ pretty n
  = root +:+ path_string ["history"; pretty h; pretty n]%string.
Proof. cbn. by rewrite string_app_nil_r. Qed.

(** ** The statements *)

Lemma get_vhr_kept db_r c s :
  quiet s ->
  wp (get_vhr db_r) c s (fun x _ s1 =>
    root_path x.2 = root_path db_r /\ serialno x.2 = vhr_id db_r /\ c_db s1 = c_db s /\ quiet s1).
Proof.
  intros Hq. unfold get_vhr, new_resource_from, sabridge_new_dbr_from_dbr.
  destruct (has_resource db_r); [|done].
  apply wp_bind; [intros; apply (movesR_mono eq), movesR_run_out, moves_reads, reads_get_property; apply _|].
  apply wp_ret, wp_run_out. cbn [res_dbr]. intros p Hp _.
  match type of Hp with (sabridge_get_property ?x s).1 = _ =>
    destruct (reads_get_property x s) as (Hd & _ & _ & Hf) end.
  destruct (Hf Hq) as [Hq' _]. cut (root_path p.2 = root_path db_r /\ serialno p.2 = vhr_id db_r); [tauto|].
  unfold sabridge_get_property in Hp. cbn [serialno set_serialno] in Hp.
  destruct (decide (vhr_id db_r = 0)) as [Hz|Hz].
  - rewrite bool_decide_true in Hp by done. cbn in Hp. by injection Hp as <-.
  - rewrite bool_decide_false in Hp by done. cbn [negb] in Hp.
    by apply get_property_of_kept in Hp.
Qed.

Lemma copy_medium_checked src dest s x :
  (sabridge_copy_medium src dest s).1 = Ret x ->
  vr_num x.2 = vr_num dest /\ checked_id x.2 = checked_id dest.
Proof.
  assert (Hmedia : forall d s', let y := (dbms_copy_media_props src d s').1 in
    vr_num y.2 = vr_num d /\ checked_id y.2 = checked_id d).
  { intros d s'. unfold dbms_copy_media_props. rewrite !bind_run.
    destruct (execute _ (time_now_str _).2) as [[q|] s2]; cbn [fst snd]; [by rewrite bind_run|done]. }
  unfold sabridge_copy_medium, oret. destruct (displayname src) as [n|], (displayname dest) as [m|]; try done.
  rewrite !bind_run. destruct (n =? m)%string; rewrite ?bind_run;
    match goal with |- context [dbms_copy_media_props src ?d ?s'] =>
      pose proof (Hmedia d s') as H; destruct (dbms_copy_media_props src d s') as [[[e|] r] s3] end;
    cbn [fst snd] in *; rewrite ?bind_run; intros [= <-]; exact H.
Qed.

Lemma check_in_again r s :
  checked_id r <> 0 ->
  wpm (dbms_set_checkin_out r DAV_RESOURCE_CHECKED_IN (vr_num r)) s (fun x s1 =>
    x = (None, set_checked_id (checked_id r) (set_checked_state DAV_RESOURCE_CHECKED_IN
           (set_vr_num (vr_num r) r)))
    /\ c_db s1 = set_vcrs (map (checked_in (serialno r) (checked_id r)) (vcrs (c_db s))) (c_db s)).
Proof.
  intros Hc. unfold dbms_set_checkin_out. rewrite bool_decide_true, bool_decide_false by done.
  cbn [andb negb]. apply wpm_bind; [moves|]. apply wpm_ret.
  apply wpm_bind; [moves|]. apply wpm_execute. intros [] d1 [= <-] Hd1. apply wpm_ret. by split.
Qed.

(** What an UNCHECKOUT to the version [v] leaves. *)
Record restored (r : dav_repos_resource) (v : Z) (d d' : db) : Prop := {
  rs_body : body_copied v (serialno r) d d';
  rs_props : props_copied v (serialno r) d d';
  rs_vcrs : vcrs d' = map (checked_in (serialno r) (checked_id r)) (vcrs d);
  rs_versions : versions d' = versions d;
  rs_vhrs : vhrs d' = vhrs d;
  rs_idents : idents d' = idents d;
  rs_binds : binds d' = binds d
}.

(** The names of the path of the version, and what the two functions of libraries do to them. *)
Definition version_names (r : dav_repos_resource) : list string :=
  ["history"; pretty (vhr_id r); pretty (vr_num r)]%string.

Definition version_named (r : dav_repos_resource) (b : dbms_bind_list) (d : db) : Prop :=
  let names := version_names r in
  Forall (fun n => name_ok n = true) names /\ apr_strtok_slash (path_string names) = names
  /\ qmarks apr_dbd_escape names = 0%nat /\ lookup_answer names d = Some b
  /\ resource_id b <> -1 /\ resource_id b <> 0 /\ resource_id b <> serialno r.

Lemma uncheckout_wp res b c s :
  let r := res_dbr res in
  quiet s -> binds_unique (binds (c_db s)) -> version_named r b (c_db s) ->
  resourcetype r = Some dav_repos_VERSIONED -> checked_id r <> 0 ->
  wp (dav_repos_uncheckout res) c s (fun x _ s1 => x.1 = None ->
    restored r (resource_id b) (c_db s) (c_db s1)
    /\ serialno (res_dbr x.2) = serialno r /\ checked_state (res_dbr x.2) = DAV_RESOURCE_CHECKED_IN
    /\ working x.2 = false).
Proof.
  intros r Hq Hb (Hn & Ht & Hm & Hl & H1 & H2 & Hne) Hty Hc. unfold dav_repos_uncheckout. fold r.
  case_bool_decide as Hout; cbn [negb]; [|by apply wp_ret].
  pose proof mono_copy_medium. pose proof mono_set_checkin_out. rewrite Hty.
  apply wp_bind; [unfold new_resource_from, on_dbr; moves|]. eapply wp_mono; [by apply get_vhr_kept|].
  intros [[e|] vhr] c1 s1 (Hroot & Hid & Hd1 & Hq1); [by apply wp_ret|]. cbn [snd] in *.
  unfold new_resource_from, sabridge_new_dbr_from_dbr. destruct (has_resource r); [|done].
  apply wp_bind; [unfold on_dbr; moves|]. apply wp_ret. cbn [res_dbr].
  apply wp_bind; [unfold on_dbr; moves|]. apply wp_run_out. intros [ev v] Hv _.
  match type of Hv with (sabridge_get_property ?x s1).1 = _ =>
    pose proof (reads_get_property x s1) as (Hd2 & _);
    assert (Hvid : serialno v = resource_id b) end.
  { change v with (ev, v).2. eapply (get_property_by_uri _ (version_names r) b s1); [..|exact Hv]; try done.
    - cbn. f_equal. unfold sabridge_mk_version_uri. rewrite Hroot, Hid. apply version_path.
    - by rewrite Hd1.
    - by rewrite Hd1. }
  destruct ev as [ev|]; [by apply wp_ret|].
  apply wp_unless_error; [intros; unfold on_dbr; moves|].
  apply wp_bind; [intros; moves|]. apply wp_run_out. intros [ec rc] Hcp He.
  pose proof (copy_medium_wpm v r _ ltac:(congruence) He _ Hcp) as (Hce & Hcs & _ & Hmc).
  pose proof (copy_medium_checked v r _ _ Hcp) as [Hvn Hci]. cbn [fst snd] in *. subst ec.
  apply wp_ret. apply wp_unless_error; [intros; moves|]. unfold on_dbr.
  apply wp_bind; [intros; moves|]. apply wp_run. cbn [res_dbr set_dbr]. intros He2.
  destruct (check_in_again rc _ ltac:(congruence) He2) as [-> Hd3]. repeat apply wp_ret. cbn [fst snd].
  intros _. rewrite Hd3. rewrite Hvid, Hd2, Hd1 in Hmc. destruct Hmc as [Hb' Hp' Hk].
  split; [|by rewrite <- Hcs].
  destruct Hk as [Hk1 Hk2 Hk3 Hk4 Hk5].
  match type of Hk1 with versions ?d = _ => set (d2 := d) in *; clearbody d2 end.
  split; [exact Hb'|exact Hp'| |done..]. cbn. by rewrite Hk2, Hcs, Hci.
Qed.
End undo.

(** What a resource that is checked in should satisfy: it shows the version it is checked in
    at. *)
Definition shows_version (r : dav_repos_resource) (d : db) : Prop :=
  content (serialno r) d = content (checked_id r) d
  /\ props_of (serialno r) (properties d) = props_of (checked_id r) (properties d).

Lemma restored_shows r d d' :
  checked_id r <> serialno r -> restored r (checked_id r) d d' -> shows_version r d'.
Proof.
  intros Hne [[Hb Hb'] [Hp Hp'] _ _ _ _ _]. split.
  - by rewrite Hb, Hb'.
  - by rewrite Hp, Hp'.
Qed.

(** C18. An UNCHECKOUT that succeeds gives the resource the body and the dead properties of the
    version that has its number in its history, and checks it in again at the version
    of its record; when this is the version found, the resource then shows the version it is
    checked in at.  It changes the body and the dead properties of no other resource, no identifier and no
    type of a resource, no bind, no version and no history. *)
Theorem uncheckout_restores {cfg : ServerConfig} {req : Request} res b cache s x cache' s' :
  let r := res_dbr res in
  quiet s -> binds_unique (binds (c_db s)) -> version_named r b (c_db s) ->
  resourcetype r = Some dav_repos_VERSIONED -> checked_id r <> 0 ->
  dav_repos_uncheckout res cache s = (Ret ((None, x), cache'), s') -> c_errnum s' = false ->
  restored r (resource_id b) (c_db s) (c_db s')
  /\ (resource_id b = checked_id r -> shows_version r (c_db s'))
  /\ serialno (res_dbr x) = serialno r /\ checked_state (res_dbr x) = DAV_RESOURCE_CHECKED_IN
  /\ working x = false.
Proof.
  intros r Hq Hb Hn Ht Hc E He.
  destruct (wp_use _ _ _ _ _ _ _ (uncheckout_wp res b cache s Hq Hb Hn Ht Hc) E He eq_refl)
    as [Hr H]. split; [exact Hr|]. split; [|exact H]. intros Hid.
  apply (restored_shows r (c_db s)); rewrite <- Hid; [apply Hn|exact Hr].
Qed.

(** ** The checked-out document *)

Section example.
#[local] Existing Instances sample_config draft_request.

(** The bind of the version 1. *)
Definition first_version : dbms_bind_list := BindItem 5 0 30 "" 0 None.

Definition draft_res : dav_resource :=
  DavResource draft_doc None None true false true true DAV_RESOURCE_TYPE_REGULAR.

Lemma draft_version_named : version_named draft_doc first_version draft_db.
Proof.
  repeat split; try (by vm_compute); [|discriminate..].
  repeat constructor; vm_compute; reflexivity.
Qed.

Lemma draft_binds_unique : binds_unique (binds draft_db).
Proof. unfold binds_unique. by_evaluation. Qed.

Lemma uncheckout_restores_witness :
  exists x c s', dav_repos_uncheckout draft_res empty_cache draft = (Ret ((None, x), c), s')
    /\ restored (res_dbr draft_res) (resource_id first_version) (c_db draft) (c_db s')
    /\ shows_version (res_dbr draft_res) (c_db s')
    /\ serialno (res_dbr x) = serialno (res_dbr draft_res)
    /\ checked_state (res_dbr x) = DAV_RESOURCE_CHECKED_IN
    /\ working x = false.
Proof.
  destruct (ends_run (dav_repos_uncheckout draft_res) draft (fun x => bool_decide (x.1 = None)))
    as ([e x] & c & s' & Hc & He & Hx); [vm_compute; reflexivity|].
  cbn in Hx. apply bool_decide_eq_true in Hx. subst e.
  exists x, c, s'. split; [exact Hc|].
  destruct (uncheckout_restores draft_res first_version empty_cache draft x c s' eq_refl
           draft_binds_unique draft_version_named eq_refl ltac:(discriminate) Hc He)
    as (Hr & Hs & H). split; [exact Hr|]. split; [exact (Hs eq_refl)|exact H].
Defined.
End example.
