(* ===== verification/Locks.v ===== *)
(** * Locks ([limestone/dbms_locks.c], [lock.c], [lock_bridge.c])

    A lock is a row of [locks]; [locks_resources] has a row for every resource it
    locks, the root of the lock and what is below it, and [binds_locks] one for every
    bind on the path of its root.  [Crash] also stands for a loop that does not
    end: [dbms_next] is -1 for a query that failed, and [while (dbms_next(q))] then
    goes on for ever. *)
From S2P Require Import Prelude Util Times Dbd Db Bind Resource DbmsDeltav Bridge Acl Listing.
Local Open Scope Z_scope.
Local Open Scope limestone_scope.

(** ** Data *)

Inductive dav_lock_scope :=
| DAV_LOCKSCOPE_UNKNOWN | DAV_LOCKSCOPE_EXCLUSIVE | DAV_LOCKSCOPE_SHARED.
Inductive dav_lock_rectype := DAV_LOCKREC_DIRECT | DAV_LOCKREC_INDIRECT.

#[export] Instance dav_lock_scope_eq_dec : EqDecision dav_lock_scope.
Proof. solve_decision. Defined.

(** [dav_lock] with its [dav_lock_private]; a chain is a list.  [timeout] is in
    seconds, 0 for infinity. *)
Record dav_lock := Lock {
  lock_uuid : string;
  lock_scope : dav_lock_scope;
  lock_rec : dav_lock_rectype;
  lock_depth : Z;
  lock_timeout : Z;
  lock_owner : option string;
  lock_auth_user : string;
  lock_lockroot : string;
  lock_res_id : Z;
  lock_lock_id : Z;
  post_bind_uri : option string
}.

(** [dav_repos_alloc_lock] for a given token. *)
Definition dav_repos_alloc_lock (char_uuid : string) : dav_lock :=
  Lock char_uuid DAV_LOCKSCOPE_UNKNOWN DAV_LOCKREC_DIRECT 0 0 None "" "" 0 0 None.

Definition set_lock_id (id : Z) (l : dav_lock) : dav_lock :=
  Lock (lock_uuid l) (lock_scope l) (lock_rec l) (lock_depth l) (lock_timeout l)
    (lock_owner l) (lock_auth_user l) (lock_lockroot l) (lock_res_id l) id (post_bind_uri l).
Definition set_timeout (t : Z) (l : dav_lock) : dav_lock :=
  Lock (lock_uuid l) (lock_scope l) (lock_rec l) (lock_depth l) t
    (lock_owner l) (lock_auth_user l) (lock_lockroot l) (lock_res_id l) (lock_lock_id l)
    (post_bind_uri l).
Definition set_post_bind_uri (u : string) (l : dav_lock) : dav_lock :=
  Lock (lock_uuid l) (lock_scope l) (lock_rec l) (lock_depth l) (lock_timeout l)
    (lock_owner l) (lock_auth_user l) (lock_lockroot l) (lock_res_id l) (lock_lock_id l) (Some u).

(** ** Deleting locks, with the cascades *)

Definition delete_locks (hit : lock_row -> bool) (d : db) : db :=
  let gone := map l_id (List.filter hit (locks d)) in
  set_binds_locks (List.filter (fun x => negb (bool_decide (x.1 ∈ gone))) (binds_locks d))
    (set_locks_resources
       (List.filter (fun x => negb (bool_decide (x.1 ∈ gone))) (locks_resources d))
       (set_locks (List.filter (fun l => negb (hit l)) (locks d)) d)).

(** The lock-null resources of expired locks. *)
Definition expired_locknull (ids : list Z) (d : db) : list Z :=
  map r_id (List.filter (fun r =>
    bool_decide (r_id r ∈ map l_res (List.filter (fun l => bool_decide (l_id l ∈ ids)) (locks d)))
    && bool_decide (r_type r = dav_repos_LOCKNULL)) (resources d)).

(** DELETE FROM resources WHERE id = x AND no lock has the root x *)
Definition delete_locknull (x : Z) (d : db) : db :=
  if bool_decide (x ∈ map l_res (locks d)) then d else cascade_resource x d.

(** Of several lock-null resources the text keeps only a comma and the last one,
    which is not an SQL list. *)
Definition dbms_delete_exp_locks (exp_lock_ids : list Z) : M (outcome (option dav_error)) :=
  q ← select (expired_locknull exp_lock_ids);
  match q with
  | None => mret Crash
  | Some locknull =>
      q ← update (delete_locks (fun l => bool_decide (l_id l ∈ exp_lock_ids)));
      match q with
      | None => oret (err_of q)
      | Some _ =>
          match locknull with
          | [] => oret None
          | [x] => q ← update (delete_locknull x); oret (err_of q)
          | _ => q ← execute (fun _ => None : option (unit * db)); oret (err_of q)
          end
      end
  end.

(** ** Reading locks *)

(** SELECT ... FROM locks_resources JOIN locks JOIN principals WHERE ...: the lock
    and the name of its owner. *)
Definition lock_rows (where_ : db -> Z * Z -> lock_row -> bool) (d : db)
  : list (lock_row * string) :=
  flat_map (fun lr =>
    flat_map (fun l =>
      if bool_decide (l_id l = lr.1) && where_ d lr l
      then map (fun p => (l, p_name p))
             (List.filter (fun p => bool_decide (p_res p = l_owner l)) (principals d))
      else []) (locks d)) (locks_resources d).

Definition scope_of_form (form : string) : dav_lock_scope :=
  match form with
  | String c _ => if Ascii.eqb c "S"%char then DAV_LOCKSCOPE_SHARED
                  else if Ascii.eqb c "X"%char then DAV_LOCKSCOPE_EXCLUSIVE
                  else DAV_LOCKSCOPE_UNKNOWN
  | EmptyString => DAV_LOCKSCOPE_UNKNOWN
  end.

Section times.
Context {A : AprTime}.

Definition lock_of_row (db_r : dav_repos_resource) (indirect resolve_indirect : bool)
    (row : lock_row * string) : dav_lock :=
  let l := row.1 in
  let unresolved := indirect && negb resolve_indirect in
  Lock (l_uuid l) (scope_of_form (l_form l))
    (if unresolved then DAV_LOCKREC_INDIRECT else DAV_LOCKREC_DIRECT)
    (if unresolved then 0 else if bool_decide (l_depth l = 0) then 0 else DAV_INFINITY)
    (time_datetime_to_ansi (l_expires l)) (Some (l_owner_info l)) row.2
    (root_path db_r +:+ l_lockroot l)
    (if unresolved then serialno db_r else l_res l) (l_id l) None.

Definition expired (curr_time : Z) (l : dav_lock) : bool :=
  negb (bool_decide (lock_timeout l = 0)) && bool_decide (lock_timeout l <= curr_time).

(** The loop: [indirect] is set by the first lock with another root and never
    cleared.  The locks, and the identifiers of those that have expired. *)
Fixpoint lock_loop (db_r : dav_repos_resource) (resolve_indirect : bool) (curr_time : Z)
    (indirect : bool) (rows : list (lock_row * string)) : list dav_lock * list Z :=
  match rows with
  | [] => ([], [])
  | row :: rest =>
      let indirect := indirect || negb (bool_decide (l_res row.1 = serialno db_r)) in
      let l := lock_of_row db_r indirect resolve_indirect row in
      let '(ls, exp) := lock_loop db_r resolve_indirect curr_time indirect rest in
      if expired curr_time l then (ls, lock_lock_id l :: exp) else (l :: ls, exp)
  end.

(** [time(NULL)] *)
Definition time_null : M Z := fun s => (Z.quot (c_now s) 1000000, s).

(** [token] is a token embedded in the text of the condition, without escaping: the
    model is that of a token without quotes.  With a question mark the query is
    not executed, and the loop dereferences the NULL columns of its first row.
    [*locks] is as it was after an error; the result of the deletion of expired
    locks is dropped. *)
Definition dbms_get_locks_by_where_str (db_r : dav_repos_resource) (resolve_indirect : bool)
    (locks0 : list dav_lock) (token : string) (where_ : db -> Z * Z -> lock_row -> bool)
  : M (outcome (option dav_error * list dav_lock)) :=
  curr_time ← time_null;
  if bool_decide (count_char QMARK token = 0%nat) then
    q ← select (lock_rows where_);
    match q with
    | None => oret (Some (dav_new_error HTTP_INTERNAL_SERVER_ERROR), locks0)
    | Some rows =>
        let '(ls, exp) := lock_loop db_r resolve_indirect curr_time false rows in
        match exp with
        | [] => oret (None, ls)
        | _ => _ <- dbms_delete_exp_locks exp ;; oret (None, ls)
        end
    end
  else mret Crash.

Definition dbms_get_locks (db_r : dav_repos_resource) (resolve_indirect : bool)
    (locks0 : list dav_lock) : M (outcome (option dav_error * list dav_lock)) :=
  dbms_get_locks_by_where_str db_r resolve_indirect locks0 EmptyString
    (fun _ lr _ => bool_decide (lr.2 = serialno db_r)).

(** A NULL token is printed as "(null)". *)
Definition token_text (locktoken : option string) : string := default "(null)"%string locktoken.

(** The result is the chain; the callers use its head. *)
Definition dbms_find_lock_by_token (db_r : dav_repos_resource) (locktoken : option string)
    (lock0 : list dav_lock) : M (outcome (option dav_error * list dav_lock)) :=
  let token := token_text locktoken in
  dbms_get_locks_by_where_str db_r false lock0 token
    (fun _ lr l => bool_decide (lr.2 = serialno db_r /\ l_uuid l = token)).

Definition dbms_resource_has_locks (db_r : dav_repos_resource) (locks_present : Z)
  : M (option dav_error * Z) :=
  q ← select (fun d => Z.of_nat (length (List.filter
        (fun lr => bool_decide (lr.2 = serialno db_r)) (locks_resources d))));
  mret (match q with
        | None => (Some (dav_new_error HTTP_INTERNAL_SERVER_ERROR), locks_present)
        | Some n => (None, n)
        end).

(** ** Inserting *)

(** INSERT INTO locks_resources: the primary key and the two references. *)
Definition insert_locks_resources (rows : list (Z * Z)) (d : db) : option (unit * db) :=
  if bool_decide (NoDup (locks_resources d ++ rows))
     && forallb (fun x => bool_decide (x.1 ∈ map l_id (locks d))
                          && bool_decide (x.2 ∈ map r_id (resources d))) rows
  then Some (tt, set_locks_resources (locks_resources d ++ rows) d)
  else None.

Definition dbms_add_indirect_locks (db_r : dav_repos_resource) (lock : list dav_lock)
  : M (option dav_error) :=
  match lock with
  | [] => mret None
  | _ =>
      q ← execute (insert_locks_resources (map (fun l => (lock_lock_id l, serialno db_r)) lock));
      mret (err_of q)
  end.

(** [children] is a chain: the resource itself first. *)
Definition dbms_add_indirect_locked_children (children : list dav_repos_resource)
    (lock : dav_lock) : M (option dav_error) :=
  q ← execute (insert_locks_resources (map (fun r => (lock_lock_id lock, serialno r)) children));
  mret (err_of q).

(** The owner is a subquery: no row is a NULL, two are an error; the references are
    to [resources] and [users]. *)
Definition insert_lock_stmt (row : Z -> Z -> lock_row) (auth_user : string) (d : db)
  : option (Z * db) :=
  match List.filter (fun p => bool_decide (p_name p = auth_user)) (principals d) with
  | [p] =>
      let l := row (locks_id_seq (sequences d)) (p_res p) in
      if bool_decide (l_res l ∈ map r_id (resources d))
         && bool_decide (p_res p ∈ map u_prin (users d))
      then Some (l_id l, bump_locks_id_seq (set_locks (locks d ++ [l]) d))
      else None
  | _ => None
  end.

Definition root_relative (db_r : dav_repos_resource) (path : string) : string :=
  drop_string (String.length (root_path db_r)) path.

(** The lock with its new identifier; after an error it is as it was. *)
Definition dbms_insert_lock (db_r : dav_repos_resource) (lock : dav_lock)
  : M (option dav_error * dav_lock) :=
  let row id owner :=
    LockRow id (lock_uuid lock) (serialno db_r) owner
      (if decide (lock_scope lock = DAV_LOCKSCOPE_EXCLUSIVE) then "X" else "S")
      (lock_depth lock) (time_ansi_to_datetime (lock_timeout lock))
      (default EmptyString (lock_owner lock)) (root_relative db_r (lock_lockroot lock)) in
  q ← execute (insert_lock_stmt row (lock_auth_user lock));
  mret (match q with
        | None => (Some (dav_new_error HTTP_INTERNAL_SERVER_ERROR), lock)
        | Some id => (None, set_lock_id id lock)
        end).

Definition insert_binds_locks (rows : list (Z * Z)) (d : db) : option (unit * db) :=
  if forallb (fun x => bool_decide (x.1 ∈ map l_id (locks d))
                       && bool_decide (x.2 ∈ map b_id (binds d))) rows
  then Some (tt, set_binds_locks (binds_locks d ++ rows) d)
  else None.

Definition dbms_insert_binds_locks (lock : dav_lock) (bind_list : list dbms_bind_list)
  : M (option dav_error) :=
  match bind_list with
  | [] => mret None
  | _ =>
      q ← execute (insert_binds_locks (map (fun b => (lock_lock_id lock, bind_id b)) bind_list));
      mret (err_of q)
  end.

(** ** Removing *)

(** A NULL token is the SQL NULL, which equals nothing. *)
Definition dbms_remove_lock (locktoken : option string) : M (option dav_error) :=
  q ← update (delete_locks (fun l => bool_decide (Some (l_uuid l) = locktoken)));
  mret (err_of q).

(** [text LIKE pattern]: % stands for any text, _ for one character, and \ escapes. *)
Fixpoint like (pattern : string) : string -> bool :=
  match pattern with
  | EmptyString => fun s => bool_decide (s = EmptyString)
  | String c p =>
      if Ascii.eqb c "%"%char then
        (fix any (s : string) : bool :=
           like p s || match s with EmptyString => false | String _ r => any r end)
      else if Ascii.eqb c "_"%char then
        fun s => match s with String _ r => like p r | EmptyString => false end
      else if Ascii.eqb c "\"%char then
        match p with
        | String e p' =>
            fun s => match s with String x r => Ascii.eqb x e && like p' r | EmptyString => false end
        | EmptyString => fun _ => false
        end
      else fun s => match s with String x r => Ascii.eqb x c && like p r | EmptyString => false end
  end.

Definition dbms_remove_direct_locks_w_prefix (lockroot_prefix : string) : M (option dav_error) :=
  q ← update (delete_locks (fun l => like (lockroot_prefix +:+ "%") (l_lockroot l)));
  mret (err_of q).

Definition dbms_remove_indirect_lock (lock : dav_lock) (db_r : dav_repos_resource)
  : M (option dav_error) :=
  q ← update (fun d => set_locks_resources
        (List.filter (fun x => negb (bool_decide (x = (lock_lock_id lock, serialno db_r))))
           (locks_resources d)) d);
  mret (err_of q).

(** ** Refreshing *)

Definition set_expiry (id : Z) (t : string) (d : db) : db :=
  set_locks (map (fun l =>
    if bool_decide (l_id l = id)
    then LockRow (l_id l) (l_uuid l) (l_res l) (l_owner l) (l_form l) (l_depth l) t
           (l_owner_info l) (l_lockroot l)
    else l) (locks d)) d.

(** The chain that replaces the caller's lock, [memcpy] of the first lock found
    with the rest behind it. *)
Definition dbms_refresh_lock (db_r : dav_repos_resource) (lock : list dav_lock) (uuid : string)
    (new_time : Z) : M (outcome (option dav_error * list dav_lock)) :=
  r <- dbms_get_locks_by_where_str db_r true [] uuid
         (fun d lr l => bool_decide ((l_id l, serialno db_r) ∈ locks_resources d)
                        && bool_decide (l_uuid l = uuid) && bool_decide (l_res l = lr.2)) ;;
  match r with
  | (Some e, _) => oret (Some e, lock)
  | (None, []) => oret (Some (dav_new_error HTTP_PRECONDITION_FAILED), lock)
  | (None, plock :: rest) =>
      q ← update (set_expiry (lock_lock_id plock) (time_ansi_to_datetime new_time));
      oret (match q with
            | None => (err_of q, plock :: rest)
            | Some _ => (None, set_timeout new_time plock :: rest)
            end)
  end.

End times.

(** ** Locks and binds *)

Section config.
Context {cfg : ServerConfig}.

Fixpoint detect_binds (coll : dav_repos_resource) (bind : dbms_bind_list) (ls : list dav_lock)
  : M (list dav_lock) :=
  match ls with
  | [] => mret []
  | l :: rest =>
      let lockroot := root_relative coll (lock_lockroot l) in
      prefix ← dbms_detect_bind apr_strtok_slash bind lockroot;
      rest ← detect_binds coll bind rest;
      mret (set_post_bind_uri (drop_string (String.length prefix) lockroot) l :: rest)
  end.

Definition dbms_get_locks_through_bind (coll : dav_repos_resource) (bind : dbms_bind_list)
    (locks0 : list dav_lock) : M (outcome (option dav_error * list dav_lock)) :=
  r <- dbms_get_locks_by_where_str coll true locks0 EmptyString
         (fun d lr l => bool_decide ((l_id l, bind_id bind) ∈ binds_locks d)
                        && bool_decide (l_res l = lr.2)) ;;
  match r with
  | (Some e, ls) => oret (Some e, ls)
  | (None, ls) => ls ← detect_binds coll bind ls; oret (None, ls)
  end.

Definition dbms_get_locks_not_directly_through_binds (db_r : dav_repos_resource)
    (bind_list : list dbms_bind_list) (locks0 : list dav_lock)
  : M (outcome (option dav_error * list dav_lock)) :=
  dbms_get_locks_by_where_str db_r true locks0 EmptyString
    (fun d lr l => bool_decide (lr.2 = serialno db_r)
       && negb (existsb (fun i => bool_decide ((l_id l, i) ∈ binds_locks d))
                  (excluded_ids bind_list))).

(** ** The hooks of [lock.c] *)

Definition DAV_ERR_LOCK_UNK_STATE_TOKEN : dav_error := dav_new_error HTTP_BAD_REQUEST.

(** [ap_strstr_c(s, prefix) == s] *)
Definition starts_with (pre s : string) : bool := String.prefix pre s.

(** A token; [None] inside [Some] is the NULL identifier of "DAV:no-lock".  The
    outer [None] is the overflow of the buffer of [remove_hyphens_from_uuid]. *)
Definition dav_repos_parse_locktoken (char_token : string) : option (dav_error + option string) :=
  if starts_with "DAV:no-lock" char_token then Some (inr None)
  else if starts_with "opaquelocktoken:" char_token then
    match remove_hyphens_from_uuid (drop_string 16 char_token) with
    | Some u => Some (inr (Some u))
    | None => None
    end
  else Some (inl DAV_ERR_LOCK_UNK_STATE_TOKEN).

Definition dav_repos_format_locktoken (uuid : string) : option string :=
  match add_hyphens_to_uuid uuid with
  | Some f => Some ("opaquelocktoken:" +:+ f)
  | None => None
  end.

(** [strcmp] of the identifiers: 0 for equal; a NULL compares as different. *)
Definition dav_repos_compare_locktoken (lt1 lt2 : option string) : bool :=
  match lt1, lt2 with
  | Some u1, Some u2 => negb (String.eqb u1 u2)
  | _, _ => true
  end.

Definition dav_repos_get_locks (db_r : dav_repos_resource) (resolved : bool)
  : M (outcome (option dav_error * list dav_lock)) :=
  dbms_get_locks db_r resolved [].

Definition dav_repos_find_lock (db_r : dav_repos_resource) (locktoken : option string)
  : M (outcome (option dav_error * list dav_lock)) :=
  dbms_find_lock_by_token db_r locktoken [].

Definition dav_repos_has_locks (db_r : dav_repos_resource) (locks_present : Z)
  : M (option dav_error * Z) := dbms_resource_has_locks db_r locks_present.

Fixpoint remove_indirects (db_r : dav_repos_resource) (lock : list dav_lock)
  : M (option dav_error) :=
  match lock with
  | [] => mret None
  | l :: rest => TRY dbms_remove_indirect_lock l db_r ;; remove_indirects db_r rest
  end.

(** The chain comes back with the identifier the head was given. *)
Definition dav_repos_append_locks (db_r : dav_repos_resource) (make_indirect : bool)
    (lock : list dav_lock) : M (outcome (option dav_error * list dav_lock)) :=
  match make_indirect, lock with
  | false, [] => mret Crash
  | false, l :: rest =>
      i ← dbms_insert_lock db_r l;
      bind_list ← dbms_get_path_binds apr_strtok_slash (root_relative db_r (lock_lockroot l));
      let lock := i.2 :: rest in
      e ← match i.1 with
          | Some e => mret (Some e)
          | None => dbms_insert_binds_locks i.2 bind_list
          end;
      match e with
      | Some e => oret (Some e, lock)
      | None =>
          e ← remove_indirects db_r lock;
          match e with
          | Some e => oret (Some e, lock)
          | None => e ← dbms_add_indirect_locks db_r lock; oret (e, lock)
          end
      end
  | true, _ =>
      e ← remove_indirects db_r lock;
      match e with
      | Some e => oret (Some e, lock)
      | None => e ← dbms_add_indirect_locks db_r lock; oret (e, lock)
      end
  end.

(** ** [lock_bridge.c] *)

Fixpoint remove_unreachable (db_r : dav_repos_resource) (ls : list dav_lock) (removed : bool)
  : M bool :=
  match ls with
  | [] => mret removed
  | l :: rest =>
      p ← dbms_find_shortest_path (lock_res_id l) (serialno db_r);
      match p.2 with
      | None => _ ← dbms_remove_indirect_lock l db_r; remove_unreachable db_r rest true
      | Some _ => remove_unreachable db_r rest removed
      end
  end.

(** The value of [*removed]; the error of the query is dropped. *)
Definition sabridge_remove_all_indirect (db_r : dav_repos_resource) : M (outcome bool) :=
  r <- dbms_get_locks db_r false [] ;;
  lift (remove_unreachable db_r r.2 false).

(** The chain from [link_item]; the children listed are those of [db_r], and
    [link_tail] is NULL after a listing without children.  The fuel bounds the
    chain: [indirect_loop_one] shows that it never grows. *)
Fixpoint indirect_loop (fuel : nat) (db_r : dav_repos_resource)
    (chain : list dav_repos_resource) (tail_null : bool) : M (outcome unit) :=
  match fuel, chain with
  | _, [] => oret tt
  | O, _ => mret Crash
  | S n, item :: rest =>
      removed <- sabridge_remove_all_indirect item ;;
      if removed && is_collection (resourcetype item) then
        c <- sabridge_get_collection_children db_r 1 None ;;
        match c with
        | inl _ => indirect_loop n db_r rest tail_null
        | inr (children, _) =>
            if tail_null then mret Crash
            else indirect_loop n db_r (rest ++ children)
                   (bool_decide (children = []))
        end
      else indirect_loop n db_r rest tail_null
  end.

Definition sabridge_remove_indirect_locks_d_inf (db_r : dav_repos_resource)
    (pathname : option string) : M (outcome (option dav_error)) :=
  p <- sabridge_retrieve_parent db_r pathname ;;
  let '(parent, db_r) := p in
  b ← dbms_get_bind (BindItem 0 (serialno parent) 0
        (basename (default EmptyString (uri db_r))) 0 None);
  let bind := b.2 in
  _ ← dbms_delete_bind (parent_id bind) (resource_id bind) (bind_name bind);
  _ <- indirect_loop 1 db_r [db_r] false ;;
  lift (dbms_insert_bind (resource_id bind) (parent_id bind) (Some (bind_name bind))).

(** Clients whose name has "litmus" in it are not given lock-null resources. *)
Definition use_locknull (user_agent : option string) : bool :=
  match user_agent with
  | None => true
  | Some ua => negb (strstr ua "litmus")
  end.

(** ** Removal and refresh ([lock.c]) *)

Definition dav_repos_remove_lock (db_r : dav_repos_resource) (pathname : option string)
    (locktoken : option (option string)) : M (outcome (option dav_error)) :=
  match locktoken with
  | Some token => lift (dbms_remove_lock token)
  | None =>
      e ← dbms_remove_direct_locks_w_prefix
            (root_relative db_r (default EmptyString (uri db_r)));
      match e with
      | Some e => oret (Some e)
      | None => sabridge_remove_indirect_locks_d_inf db_r pathname
      end
  end.

(** One lock given a new root: the errors before the last call are dropped, except
    that of the properties of the root. *)
Definition relock (db_r : dav_repos_resource) (lock : dav_lock)
  : M (outcome (bool * option dav_error)) :=
  match sabridge_new_dbr_from_dbr db_r with
  | None => mret Crash
  | Some lockroot_dbr =>
      p <- sabridge_get_property (set_uri (Some (lock_lockroot lock)) lockroot_dbr) ;;
      match p with
      | (Some e, _) => oret (true, Some e)
      | (None, lockroot_dbr) =>
          i ← dbms_insert_lock lockroot_dbr lock;
          let lock := i.2 in
          bind_list ← dbms_get_path_binds apr_strtok_slash
                        (root_relative db_r (lock_lockroot lock));
          _ ← dbms_insert_binds_locks lock bind_list;
          children <- (if bool_decide (lock_depth lock = 0) then oret []
                       else c <- sabridge_get_collection_children lockroot_dbr DAV_INFINITY None ;;
                            oret (match c with inl _ => [] | inr (l, _) => l end)) ;;
          e ← dbms_add_indirect_locked_children (lockroot_dbr :: children) lock;
          oret (false, e)
      end
  end.

Fixpoint relock_all (db_r : dav_repos_resource) (ls : list dav_lock) (err : option dav_error)
  : M (outcome (option dav_error)) :=
  match ls with
  | [] => oret err
  | l :: rest =>
      r <- relock db_r l ;;
      if r.1 then oret r.2 else relock_all db_r rest r.2
  end.

(** The time 1 stands for a move of the locks with their resource. *)
Definition dav_repos_refresh_locks (db_r : dav_repos_resource) (locks : list dav_lock)
    (new_time : Z) : M (outcome (option dav_error)) :=
  if bool_decide (new_time = 1) then relock_all db_r locks None
  else
    match locks with
    | [] => mret Crash
    | l :: _ => r <- dbms_refresh_lock db_r locks (lock_uuid l) new_time ;; oret r.1
    end.

(** [bind->info] is set when it was NULL and the bind could be read. *)
Definition dav_repos_get_bind_locks (coll : dav_repos_resource) (name : string)
    (info : option dbms_bind_list) (locks0 : list dav_lock)
  : M (outcome (option dav_error * list dav_lock)) :=
  match info with
  | Some b => dbms_get_locks_through_bind coll b locks0
  | None =>
      b ← dbms_get_bind (BindItem 0 (serialno coll) 0 name 0 None);
      match b with
      | (Some e, _) => oret (Some e, locks0)
      | (None, b) => dbms_get_locks_through_bind coll b locks0
      end
  end.

(** The locks whose root still reaches the resource when the binds are left out. *)
Fixpoint still_reaching (db_r : dav_repos_resource) (excl : list dbms_bind_list)
    (ls : list dav_lock) : M (list dav_lock) :=
  match ls with
  | [] => mret []
  | l :: rest =>
      if bool_decide (lock_res_id l = serialno db_r)
      then rest ← still_reaching db_r excl rest; mret (l :: rest)
      else
        p ← dbms_find_shortest_path_excl_binds (lock_res_id l) (serialno db_r) excl;
        rest ← still_reaching db_r excl rest;
        mret (match p.2 with None => rest | Some _ => l :: rest end)
  end.

(** A bind is its collection and name. *)
Definition dav_repos_get_locks_not_through_binds (db_r : dav_repos_resource)
    (bind1 bind2 : option (Z * string)) (locks0 : list dav_lock)
  : M (outcome (option dav_error * list dav_lock)) :=
  let filtered binds :=
    r <- dbms_get_locks_not_directly_through_binds db_r binds locks0 ;;
    ls ← still_reaching db_r binds r.2;
    oret (r.1, ls) in
  match bind1, bind2 with
  | None, None => dbms_get_locks db_r true locks0
  | None, Some _ => mret Crash
  | Some (c1, n1), _ =>
      b1 ← dbms_get_bind (BindItem 0 c1 0 n1 0 None);
      match b1, bind2 with
      | (Some e, _), _ => oret (Some e, locks0)
      | (None, b1), None => filtered [b1]
      | (None, b1), Some (c2, n2) =>
          b2 ← dbms_get_bind (BindItem 0 c2 0 n2 0 None);
          match b2 with
          | (Some e, _) => oret (Some e, locks0)
          | (None, b2) => filtered [b1; b2]
          end
      end
  end.
End config.
