(* ===== verification/LocksSpec.v ===== *)
(** * Locks: discovery, expiry, removal

    What [dav_repos_get_locks] returns and deletes, that a lock that was appended is
    discovered again, and what the removal of the locks below a resource does. *)
From S2P Require Import Prelude Util Times Dbd Db Bind Resource DbmsDeltav Bridge Acl Listing ListingSpec Locks.
Local Open Scope Z_scope.
Local Open Scope limestone_scope.

Section locks.
Context {cfg : ServerConfig}.

(** ** The loop *)

Lemma lock_of_row_resolved db_r ind row :
  lock_of_row db_r ind true row = lock_of_row db_r false true row.
Proof. unfold lock_of_row. by rewrite andb_false_r. Qed.

(** With the indirect locks resolved the loop is a filter. *)
Lemma elem_of_lock_loop db_r t ind rows m :
  m ∈ (lock_loop db_r true t ind rows).1
  <-> exists row, row ∈ rows /\ m = lock_of_row db_r false true row /\ expired t m = false.
Proof.
  revert ind. induction rows as [|row rows IH]; intros ind; cbn [lock_loop].
  { split; [by intros ?%elem_of_nil|]. intros (? & ?%elem_of_nil & _). done. }
  specialize (IH (ind || negb (bool_decide (l_res row.1 = serialno db_r)))).
  rewrite lock_of_row_resolved.
  destruct (lock_loop db_r true t _ rows) as [ls exp]. cbn [fst] in IH.
  assert (H : m ∈ (if expired t (lock_of_row db_r false true row)
                   then (ls, lock_lock_id (lock_of_row db_r false true row) :: exp)
                   else (lock_of_row db_r false true row :: ls, exp)).1
              <-> m ∈ ls \/ (m = lock_of_row db_r false true row
                             /\ expired t (lock_of_row db_r false true row) = false)).
  { destruct (expired t (lock_of_row db_r false true row)) eqn:He; cbn [fst].
    - split; [by left|]. by intros [?|[_ ?]].
    - rewrite elem_of_cons. split; [intros [->|?]; auto|intros [?|[-> _]]; auto]. }
  rewrite H, IH. setoid_rewrite elem_of_cons. split.
  - intros [(r & Hr & Hm & He)|[Hm He]]; [exists r; auto|exists row; subst m; auto].
  - intros (r & [->|Hr] & -> & He); [by right|left; eauto].
Qed.

Lemma expired_row db_r t ind res row :
  expired t (lock_of_row db_r ind res row) = expired t (lock_of_row db_r false true row).
Proof. done. Qed.

(** The identifiers of the expired locks. *)
Lemma elem_of_lock_loop_expired db_r res t ind rows i :
  i ∈ (lock_loop db_r res t ind rows).2
  <-> exists row, row ∈ rows /\ i = l_id row.1
        /\ expired t (lock_of_row db_r false true row) = true.
Proof.
  revert ind. induction rows as [|row rows IH]; intros ind; cbn [lock_loop].
  { split; [by intros ?%elem_of_nil|]. intros (? & ?%elem_of_nil & _). done. }
  specialize (IH (ind || negb (bool_decide (l_res row.1 = serialno db_r)))).
  destruct (lock_loop db_r res t _ rows) as [ls exp]. cbn [snd] in IH.
  rewrite expired_row. setoid_rewrite elem_of_cons.
  destruct (expired t (lock_of_row db_r false true row)) eqn:He; cbn [snd].
  - rewrite elem_of_cons, IH. split.
    + intros [->|(r & ? & ? & ?)]; [exists row; auto|eauto].
    + intros (r & [->|?] & ? & ?); [by left|right; eauto].
  - rewrite IH. split; [intros (r & ? & ? & ?); exists r; auto|].
    intros (r & [->|?] & ? & ?); [congruence|eauto].
Qed.

(** Without resolution every lock is reported with the resource itself. *)
Lemma lock_loop_unresolved db_r t ind rows m :
  m ∈ (lock_loop db_r false t ind rows).1 -> lock_res_id m = serialno db_r.
Proof.
  revert ind. induction rows as [|row rows IH]; intros ind; cbn [lock_loop];
    [by intros ?%elem_of_nil|].
  specialize (IH (ind || negb (bool_decide (l_res row.1 = serialno db_r)))).
  destruct (lock_loop db_r false t _ rows) as [ls exp]. cbn [fst] in IH.
  destruct (expired _ _); cbn [fst]; [done|]. intros [->|Hm]%elem_of_cons; [|auto].
  unfold lock_of_row. cbn. rewrite andb_true_r.
  destruct ind; [done|]. cbn. by case_bool_decide.
Qed.

(** ** Deletion of the expired locks *)

Lemma elem_of_delete_locks hit d l :
  l ∈ locks (delete_locks hit d) <-> l ∈ locks d /\ hit l = false.
Proof. unfold delete_locks. cbn. rewrite elem_of_filter_bool, negb_true_iff. tauto. Qed.

Lemma elem_of_delete_locks_resources hit d x :
  x ∈ locks_resources (delete_locks hit d)
  <-> x ∈ locks_resources d /\ forall l, l ∈ locks d -> hit l = true -> l_id l <> x.1.
Proof.
  unfold delete_locks. cbn. rewrite elem_of_filter_bool, negb_true_iff, bool_decide_eq_false.
  rewrite elem_of_map. setoid_rewrite elem_of_filter_bool. naive_solver.
Qed.

Lemma cascade_locks id d :
  locks (cascade_resource id d)
  = List.filter (fun l => negb (bool_decide (l_res l = id \/ l_owner l = id))) (locks d).
Proof. unfold cascade_resource. by destruct (doomed_versions _ _ _ _ _). Qed.

(** Whatever happens, no lock appears, and only the expired ones go, as long as no
    lock-null resource owns a lock. *)
Definition owners_ok (d : db) : Prop :=
  forall l r, l ∈ locks d -> r ∈ resources d -> r_type r = dav_repos_LOCKNULL -> l_owner l <> r_id r.

Lemma delete_exp_locks_locks ids s :
  owners_ok (c_db s) ->
  let d' := c_db (dbms_delete_exp_locks ids s).2 in
  (forall l, l ∈ locks d' -> l ∈ locks (c_db s))
  /\ (forall l, l ∈ locks (c_db s) -> l_id l ∉ ids -> l ∈ locks d')
  /\ ((dbms_delete_exp_locks ids s).1 <> Crash ->
      c_errnum (dbms_delete_exp_locks ids s).2 = false ->
      forall l, l ∈ locks d' -> l_id l ∉ ids).
Proof.
  intros Hown. unfold dbms_delete_exp_locks. cbn zeta. rewrite bind_run.
  pose proof (select_db (expired_locknull ids) s) as Hd.
  pose proof (select_result (expired_locknull ids) s) as Hr.
  destruct (select (expired_locknull ids) s) as [[ln|] s1]; cbn [fst snd] in *; cycle 1.
  { cbn. rewrite Hd. split_and!; [done..|]. by intros ?. }
  specialize (Hr ln eq_refl).
  set (hit := fun l => bool_decide (l_id l ∈ ids)). rewrite bind_run.
  pose proof (update_cases (delete_locks hit) s1) as Hu.
  pose proof (update_ok (delete_locks hit) s1) as Hok.
  assert (Hdel : forall l, l ∈ locks (delete_locks hit (c_db s)) <-> l ∈ locks (c_db s) /\ l_id l ∉ ids).
  { intros l. rewrite elem_of_delete_locks. unfold hit. by rewrite bool_decide_eq_false. }
  destruct (update (delete_locks hit) s1) as [[[]|] s2]; cbn [fst snd] in *; cycle 1.
  { cbn. destruct Hu as [[_ Hu]|[? _]]; [|done]. rewrite Hu, Hd. split_and!; [done..|].
    intros _ He. by destruct (Hok He). }
  destruct Hu as [[? _]|[_ Hu]]; [done|]. rewrite Hd in Hu.
  assert (Hbase : (forall l, l ∈ locks (c_db s2) -> l ∈ locks (c_db s))
    /\ (forall l, l ∈ locks (c_db s) -> l_id l ∉ ids -> l ∈ locks (c_db s2))
    /\ (forall l, l ∈ locks (c_db s2) -> l_id l ∉ ids)).
  { rewrite Hu. setoid_rewrite Hdel. naive_solver. }
  destruct Hbase as (B1 & B2 & B3).
  destruct ln as [|x [|y ln]].
  - cbn. split_and!; auto.
  - rewrite bind_run. destruct (update_cases (delete_locknull x) s2) as [[He Hd2]|[He Hd2]];
      rewrite He; cbn; rewrite Hd2; [split_and!; auto|].
    assert (Hx : exists r, r ∈ resources (c_db s) /\ r_id r = x /\ r_type r = dav_repos_LOCKNULL).
    { assert (Hin : x ∈ expired_locknull ids (c_db s)) by (rewrite <- Hr; by left).
      unfold expired_locknull in Hin. apply elem_of_map in Hin as (r & Hx & Hin).
      apply elem_of_filter_bool in Hin as [[_ Ht%bool_decide_eq_true]%andb_true_iff Hin]. eauto. }
    destruct Hx as (r & Hr1 & <- & Ht).
    assert (Hsame : forall l, l ∈ locks (delete_locknull (r_id r) (c_db s2)) <-> l ∈ locks (c_db s2)).
    { intros l. unfold delete_locknull. case_bool_decide as Hroot; [done|].
      rewrite cascade_locks, elem_of_filter_bool, negb_true_iff, bool_decide_eq_false.
      split; [tauto|]. intros Hl. split; [|done]. intros [H|H].
      - apply Hroot, elem_of_map. eauto.
      - by apply (Hown l r (B1 l Hl) Hr1 Ht). }
    setoid_rewrite Hsame. split_and!; auto.
  - rewrite bind_run. destruct (execute_cases (fun _ => None : option (unit * db)) s2)
      as [[He Hd2]|(? & ? & ? & _)]; [|done]. rewrite He. cbn. rewrite Hd2. split_and!; auto.
Qed.

(** ** Discovery *)

Lemma elem_of_lock_rows where_ d l n :
  (l, n) ∈ lock_rows where_ d
  <-> exists lr p, lr ∈ locks_resources d /\ l ∈ locks d /\ l_id l = lr.1
        /\ where_ d lr l = true /\ p ∈ principals d /\ p_res p = l_owner l /\ n = p_name p.
Proof.
  unfold lock_rows. rewrite elem_of_flat_map. setoid_rewrite elem_of_flat_map. split.
  - intros (lr & Hlr & k & Hk & Hin).
    destruct (bool_decide (l_id k = lr.1) && where_ d lr k) eqn:E; [|by apply elem_of_nil in Hin].
    apply andb_true_iff in E as [E1%bool_decide_eq_true E2].
    apply elem_of_map in Hin as (p & [= <- <-] & Hp).
    apply elem_of_filter_bool in Hp as [Hp1%bool_decide_eq_true Hp2].
    exists lr, p. auto 10.
  - intros (lr & p & Hlr & Hl & Hid & Hw & Hp & Hown & ->). exists lr. split; [done|].
    exists l. split; [done|]. rewrite bool_decide_true, Hw by done. cbn.
    apply elem_of_map. exists p. split; [done|]. apply elem_of_filter_bool.
    by rewrite bool_decide_eq_true.
Qed.

(** The rows of the locks on a resource. *)
Definition locking_rows (db_r : dav_repos_resource) (d : db) : list (lock_row * string) :=
  lock_rows (fun _ lr _ => bool_decide (lr.2 = serialno db_r)) d.

Definition lock_view (db_r : dav_repos_resource) (row : lock_row * string) : dav_lock :=
  lock_of_row db_r false true row.

Definition seconds (s : conn) : Z := Z.quot (c_now s) 1000000.

(** The run of a query for locks: an error without effect, a crash, or the loop and
    then the deletion of the expired locks. *)
Lemma get_locks_run db_r res locks0 where_ s ls s' :
  dbms_get_locks_by_where_str db_r res locks0 EmptyString where_ s = (Ret (None, ls), s') ->
  exists s1, c_db s1 = c_db s /\ c_now s1 = c_now s
    /\ let '(found, exp) := lock_loop db_r res (seconds s) false (lock_rows where_ (c_db s)) in
       ls = found
       /\ match exp with
          | [] => s' = s1
          | _ => (dbms_delete_exp_locks exp s1).1 <> Crash /\ s' = (dbms_delete_exp_locks exp s1).2
          end.
Proof.
  unfold dbms_get_locks_by_where_str. rewrite bind_run.
  change ((time_null s).2) with s. change ((time_null s).1) with (seconds s).
  rewrite bool_decide_true by done. rewrite bind_run.
  pose proof (select_db (lock_rows where_) s) as Hd.
  pose proof (select_now (lock_rows where_) s) as Hn.
  pose proof (select_result (lock_rows where_) s) as Hr.
  destruct (select (lock_rows where_) s) as [[rows|] s1]; cbn [fst snd] in *; [|done].
  specialize (Hr rows eq_refl). rewrite <- Hr. intros Hrun. exists s1. split; [done|].
  split; [done|]. destruct (lock_loop db_r res (seconds s) false rows) as [found exp].
  destruct exp as [|i exp]; [by injection Hrun as <- <-|].
  unfold obind in Hrun. rewrite bind_run in Hrun.
  destruct (dbms_delete_exp_locks (i :: exp) s1) as [[|o] s2]; cbn in Hrun |- *; [done|].
  by injection Hrun as <- <-.
Qed.

(** C32. The locks discovered on a resource are those that have not expired.  No lock
    appears in the table and no lock goes before its time, and when no statement was
    refused those of the resource that have expired are gone. *)
Theorem get_locks_spec db_r s ls s' :
  owners_ok (c_db s) -> NoDup (map l_id (locks (c_db s))) ->
  dav_repos_get_locks db_r true s = (Ret (None, ls), s') ->
  let late row := expired (seconds s) (lock_view db_r row) in
  (forall m, m ∈ ls <-> exists row, row ∈ locking_rows db_r (c_db s)
                          /\ m = lock_view db_r row /\ late row = false)
  /\ (forall l, l ∈ locks (c_db s') -> l ∈ locks (c_db s))
  /\ (forall l, l ∈ locks (c_db s) -> l ∉ locks (c_db s') ->
        exists n, (l, n) ∈ locking_rows db_r (c_db s) /\ late (l, n) = true)
  /\ (c_errnum s' = false ->
      forall row, row ∈ locking_rows db_r (c_db s) -> late row = true -> row.1 ∉ locks (c_db s')).
Proof.
  intros Hown Hnd Hrun late. apply get_locks_run in Hrun as (s1 & Hd & Hn & Hloop).
  fold (locking_rows db_r (c_db s)) in Hloop.
  pose proof (elem_of_lock_loop db_r (seconds s) false (locking_rows db_r (c_db s))) as Hels.
  pose proof (elem_of_lock_loop_expired db_r true (seconds s) false (locking_rows db_r (c_db s)))
    as Hexp.
  destruct (lock_loop db_r true (seconds s) false _) as [found exp]. cbn [fst snd] in *.
  destruct Hloop as [-> Hs']. split.
  { intros m. rewrite Hels. split; intros (row & Hrow & -> & He); eauto. }
  assert (Hlocks : (forall l, l ∈ locks (c_db s') -> l ∈ locks (c_db s))
    /\ (forall l, l ∈ locks (c_db s) -> l_id l ∉ exp -> l ∈ locks (c_db s'))
    /\ (c_errnum s' = false -> forall l, l ∈ locks (c_db s') -> l_id l ∉ exp)).
  { destruct exp as [|i exp].
    - subst s'. rewrite Hd. split_and!; [done|done|]. set_solver.
    - destruct Hs' as [Hnc ->]. rewrite <- Hd in Hown |- *.
      destruct (delete_exp_locks_locks (i :: exp) s1 Hown) as (H1 & H2 & H3). auto. }
  destruct Hlocks as (H1 & H2 & H3). split; [done|]. split.
  - intros l Hl Hout. destruct (decide (l_id l ∈ exp)) as [Hin|Hin]; [|by destruct Hout; apply H2].
    apply Hexp in Hin as ([k n] & Hrow & Hid & He). cbn in Hid.
    assert (l = k) as <-; [|eauto].
    apply elem_of_lock_rows in Hrow as (lr & p & _ & Hk & _).
    by apply (NoDup_map_eq l_id (locks (c_db s))).
  - intros He [k n] Hrow Hlate Hk. apply (H3 He k Hk), Hexp. exists (k, n). auto.
Qed.

End locks.

(** ** A lock that was appended is discovered *)

Lemma reads_path_binds_loop tokens parent : Reads (path_binds_loop parent tokens).
Proof.
  revert parent. induction tokens as [|t tokens IH]; intros parent; cbn; [apply reads_ret|].
  unfold dbms_get_bind. reads.
Qed.

Lemma reads_get_path_binds tok path : Reads (dbms_get_path_binds tok path).
Proof. apply reads_path_binds_loop. Qed.
#[export] Hint Resolve reads_path_binds_loop reads_get_path_binds : lime.

Section appended.
Context {cfg : ServerConfig}.

(** What stays when only [locks_resources] or [binds_locks] change. *)
Definition same_locks (d d' : db) : Prop :=
  locks d' = locks d /\ principals d' = principals d.

Lemma insert_lock_run db_r l s :
  match dbms_insert_lock db_r l s with
  | ((Some _, l'), _) => l' = l
  | ((None, l'), s') => exists p row,
      l' = set_lock_id (l_id row) l /\ row ∈ locks (c_db s')
      /\ p ∈ principals (c_db s') /\ p_name p = lock_auth_user l
      /\ row = LockRow (l_id row) (lock_uuid l) (serialno db_r) (p_res p)
           (if decide (lock_scope l = DAV_LOCKSCOPE_EXCLUSIVE) then "X" else "S")
           (lock_depth l) (time_ansi_to_datetime (lock_timeout l))
           (default EmptyString (lock_owner l)) (root_relative db_r (lock_lockroot l))
  end.
Proof.
  unfold dbms_insert_lock. rewrite bind_run.
  match goal with |- context [execute ?f s] => set (stmt := f) end.
  destruct (execute_cases stmt s) as [[He Hd]|(id & d & Hs & He & Hd)]; rewrite He; cbn; [done|].
  unfold stmt, insert_lock_stmt in Hs.
  destruct (List.filter _ (principals (c_db s))) as [|p [|]] eqn:Hp; [done| |done].
  cbn in Hs. destruct (_ && _); [|done]. injection Hs as <- <-. rewrite Hd. cbn.
  assert (Hin : p ∈ [p]) by (by left). rewrite <- Hp in Hin.
  apply elem_of_filter_bool in Hin as [Hname%bool_decide_eq_true Hin].
  eexists p, _. split; [|split; [apply elem_of_app; right; by left|]]; [done|].
  cbn. auto.
Qed.

Lemma insert_binds_locks_run lock bl s :
  (dbms_insert_binds_locks lock bl s).1 = None ->
  same_locks (c_db s) (c_db (dbms_insert_binds_locks lock bl s).2).
Proof.
  unfold dbms_insert_binds_locks. destruct bl as [|b bl]; [done|]. rewrite bind_run.
  match goal with |- context [execute ?f s] => set (stmt := f) end.
  destruct (execute_cases stmt s) as [[He Hd]|([] & d & Hs & He & Hd)]; rewrite He; cbn; [done|].
  intros _. rewrite Hd. unfold stmt, insert_binds_locks in Hs. destruct (forallb _ _); [|done].
  by injection Hs as <-.
Qed.

Lemma remove_indirects_run db_r ls s :
  same_locks (c_db s) (c_db (remove_indirects db_r ls s).2).
Proof.
  revert s. induction ls as [|l ls IH]; intros s; [done|]. cbn [remove_indirects].
  unfold dbms_remove_indirect_lock. rewrite !bind_run.
  match goal with |- context [update ?f s] => set (stmt := f) end.
  destruct (update_cases stmt s) as [[He Hd]|[He Hd]]; rewrite He; cbn.
  - by rewrite Hd.
  - specialize (IH (update stmt s).2). unfold same_locks in *. rewrite Hd in IH. done.
Qed.

Lemma add_indirect_locks_run db_r ls s :
  (dbms_add_indirect_locks db_r ls s).1 = None ->
  same_locks (c_db s) (c_db (dbms_add_indirect_locks db_r ls s).2)
  /\ forall l, l ∈ ls -> (lock_lock_id l, serialno db_r)
                         ∈ locks_resources (c_db (dbms_add_indirect_locks db_r ls s).2).
Proof.
  unfold dbms_add_indirect_locks. destruct ls as [|l0 ls]; [by split; [|intros ? ?%elem_of_nil]|].
  rewrite bind_run. match goal with |- context [execute ?f s] => set (stmt := f) end.
  destruct (execute_cases stmt s) as [[He Hd]|([] & d & Hs & He & Hd)]; rewrite He; [done|].
  intros _. cbn [fst snd mret M_ret]. rewrite Hd.
  unfold stmt, insert_locks_resources in Hs. destruct (_ && _); [|done].
  injection Hs as <-. split; [done|]. intros l Hl. cbn [locks_resources set_locks_resources].
  apply elem_of_app. right.
  apply (elem_of_map (fun l => (lock_lock_id l, serialno db_r)) (l0 :: ls)). eauto.
Qed.

(** A successful LOCK of one lock: the row, its owner and the row that locks the
    resource are there. *)
Lemma append_locks_run db_r l s ls s' :
  dav_repos_append_locks db_r false [l] s = (Ret (None, ls), s') ->
  exists p row, ls = [set_lock_id (l_id row) l] /\ row ∈ locks (c_db s')
    /\ p ∈ principals (c_db s') /\ p_name p = lock_auth_user l
    /\ (l_id row, serialno db_r) ∈ locks_resources (c_db s')
    /\ row = LockRow (l_id row) (lock_uuid l) (serialno db_r) (p_res p)
         (if decide (lock_scope l = DAV_LOCKSCOPE_EXCLUSIVE) then "X" else "S")
         (lock_depth l) (time_ansi_to_datetime (lock_timeout l))
         (default EmptyString (lock_owner l)) (root_relative db_r (lock_lockroot l)).
Proof.
  unfold dav_repos_append_locks. rewrite bind_run.
  pose proof (insert_lock_run db_r l s) as Hi.
  destruct (dbms_insert_lock db_r l s) as [[[e|] l'] s1]; cbn [fst snd].
  { rewrite !bind_run. cbn. done. }
  destruct Hi as (p & row & -> & Hrow & Hp & Hname & Heq). rewrite bind_run.
  destruct (reads_get_path_binds apr_strtok_slash (root_relative db_r (lock_lockroot l)) s1)
    as [Hd2 _].
  destruct (dbms_get_path_binds _ _ s1) as [bl s2]. cbn [fst snd] in *. rewrite bind_run.
  pose proof (insert_binds_locks_run (set_lock_id (l_id row) l) bl s2) as H3.
  destruct (dbms_insert_binds_locks _ bl s2) as [[e|] s3]; cbn [fst snd] in *; [done|].
  specialize (H3 eq_refl). rewrite bind_run.
  pose proof (remove_indirects_run db_r [set_lock_id (l_id row) l] s3) as H4.
  destruct (remove_indirects db_r _ s3) as [[e|] s4]; cbn [fst snd] in *; [done|]. rewrite bind_run.
  pose proof (add_indirect_locks_run db_r [set_lock_id (l_id row) l] s4) as H5.
  destruct (dbms_add_indirect_locks db_r _ s4) as [[e|] s5]; cbn [fst snd] in *; [done|].
  destruct (H5 eq_refl) as [H5' H6]. intros [= <- <-].
  destruct H3 as [L3 P3], H4 as [L4 P4], H5' as [L5 P5].
  exists p, row. rewrite L5, L4, L3, P5, P4, P3, Hd2. split_and!; try done.
  apply (H6 (set_lock_id (l_id row) l)). by left.
Qed.

(** The time that is read back: the second that stands for infinity is 0. *)
Definition time_kept (t : Z) : Z := if decide (t = INF_SECONDS) then 0 else t.

(** C33. A lock that a LOCK request added is discovered on the resource, with the same
    token, scope, depth, time and owner, as long as it has not expired.  Its time is 0, for a lock
    that does not expire, or any time from 1970 on that is an [apr_time_t]; a lock until
    9999-12-31 00:00:00 is discovered as one that does not expire. *)
Theorem append_locks_discovered (L : AprTimeLaws apr_times) db_r l s appended s' s1 ls s2 :
  lock_scope l <> DAV_LOCKSCOPE_UNKNOWN -> 0 <= lock_timeout l <= 9223372036854 ->
  dav_repos_append_locks db_r false [l] s = (Ret (None, appended), s') ->
  c_db s1 = c_db s' -> expired (seconds s1) l = false ->
  dav_repos_get_locks db_r true s1 = (Ret (None, ls), s2) ->
  exists m, m ∈ ls /\ map lock_lock_id appended = [lock_lock_id m]
    /\ lock_uuid m = lock_uuid l /\ lock_scope m = lock_scope l
    /\ lock_rec m = DAV_LOCKREC_DIRECT /\ lock_res_id m = serialno db_r
    /\ lock_depth m = (if decide (lock_depth l = 0) then 0 else DAV_INFINITY)
    /\ lock_timeout m = time_kept (lock_timeout l) /\ lock_auth_user m = lock_auth_user l
    /\ lock_owner m = Some (default EmptyString (lock_owner l))
    /\ lock_lockroot m = root_path db_r +:+ root_relative db_r (lock_lockroot l).
Proof.
  intros Hscope Ht Happ Hd1 Hexp Hget.
  apply append_locks_run in Happ as (p & row & -> & Hrow & Hp & Hname & Hlr & Heq).
  apply get_locks_run in Hget as (s3 & _ & _ & Hloop). rewrite Hd1 in Hloop.
  fold (locking_rows db_r (c_db s')) in Hloop.
  pose proof (elem_of_lock_loop db_r (seconds s1) false (locking_rows db_r (c_db s'))
    (lock_view db_r (row, p_name p))) as Hel.
  destruct (lock_loop db_r true (seconds s1) false _) as [found exp]. cbn [fst] in Hel.
  destruct Hloop as [-> _].
  assert (Htime : time_datetime_to_ansi (time_ansi_to_datetime (lock_timeout l)) = time_kept (lock_timeout l))
    by (by apply ansi_time_roundtrip).
  exists (lock_view db_r (row, p_name p)). split.
  - apply Hel. exists (row, p_name p). split; [|split; [done|]].
    + apply elem_of_lock_rows. exists (l_id row, serialno db_r), p.
      split_and!; try done; [by apply bool_decide_eq_true|]. by rewrite Heq.
    + unfold expired, lock_view, lock_of_row in *. cbn. rewrite Heq. cbn. rewrite Htime.
      unfold time_kept. by destruct (decide (lock_timeout l = INF_SECONDS)).
  - unfold lock_view, lock_of_row. cbn. split_and!; try done; rewrite Heq; cbn; try done.
    + destruct (lock_scope l); [done|by rewrite decide_True by done|by rewrite decide_False by done].
    + destruct (decide (lock_depth l = 0)) as [->|?]; [done|by rewrite bool_decide_false].
Qed.
End appended.
