(* ===== verification/LockRemoval.v ===== *)
(** * Locks: removal, tokens

    The locks that go with a deleted resource, what becomes of the locks that came
    from above it, and the text form of the tokens. *)
From S2P Require Import Prelude Util Times Dbd Db Bind Resource DbmsDeltav Bridge Acl Listing ListingSpec Locks LocksSpec.
Local Open Scope Z_scope.
Local Open Scope limestone_scope.

(** ** Tokens *)

(** A token that was formatted is parsed to the same identifier. *)
Theorem locktoken_roundtrip u :
  String.length u = 32%nat -> string_forall (fun c => not_nul c && not_hyphen c) u = true ->
  exists t, dav_repos_format_locktoken u = Some t
    /\ dav_repos_parse_locktoken t = Some (inr (Some u))
    /\ dav_repos_compare_locktoken (Some u) (Some u) = false.
Proof.
  intros Hl Hu. destruct (uuid_hyphens_roundtrip u Hl Hu) as (f & Hf & Hr).
  exists ("opaquelocktoken:" +:+ f). unfold dav_repos_format_locktoken. rewrite Hf.
  split; [done|]. unfold dav_repos_parse_locktoken, starts_with, dav_repos_compare_locktoken.
  assert (Hp : String.prefix "opaquelocktoken:" ("opaquelocktoken:" +:+ f) = true) by by destruct f.
  rewrite Hp. change (drop_string 16 ("opaquelocktoken:" +:+ f)) with f.
  by rewrite Hr, String.eqb_refl.
Qed.

Lemma locktoken_roundtrip_witness :
  String.length "0123456789abcdef0123456789abcdef" = 32%nat
  /\ exists t, dav_repos_format_locktoken "0123456789abcdef0123456789abcdef" = Some t
       /\ dav_repos_parse_locktoken t = Some (inr (Some "0123456789abcdef0123456789abcdef"))
       /\ dav_repos_compare_locktoken (Some "0123456789abcdef0123456789abcdef")
            (Some "0123456789abcdef0123456789abcdef") = false.
Proof. split; [done|]. by apply locktoken_roundtrip. Defined.

(** ** Removal by prefix *)

(** A string that LIKE takes literally. *)
Definition like_plain (c : ascii) : bool :=
  negb (Ascii.eqb c "%"%char) && negb (Ascii.eqb c "_"%char) && negb (Ascii.eqb c "\"%char).

Lemma like_percent s : like "%" s = true.
Proof. induction s as [|c s IH]; cbn in *; [done|]. by rewrite IH, orb_true_r. Qed.

Lemma like_prefix p s :
  string_forall like_plain p = true -> like (p +:+ "%") s = String.prefix p s.
Proof.
  revert s. induction p as [|c p IH]; intros s Hp.
  { change (like "%" s = String.prefix EmptyString s). rewrite like_percent. by destruct s. }
  cbn in Hp. apply andb_true_iff in Hp as [Hc Hp]. unfold like_plain in Hc.
  apply andb_true_iff in Hc as [[H1 H2]%andb_true_iff H3].
  apply negb_true_iff in H1, H2, H3.
  change (String c p +:+ "%") with (String c (p +:+ "%")). cbn [like]. rewrite H1, H2, H3.
  destruct s as [|x s]; [done|]. rewrite IH by done. cbn.
  destruct (ascii_dec c x) as [->|Hne]; [by rewrite Ascii.eqb_refl|].
  destruct (Ascii.eqb_spec x c); [congruence|done].
Qed.

(** The direct locks that are removed with a resource are those whose root begins
    with the characters of its path: those of the resource, of what is below it, and
    of every sibling whose name its own name begins. *)
Theorem remove_direct_locks_spec p s :
  string_forall like_plain p = true ->
  let s' := (dbms_remove_direct_locks_w_prefix p s).2 in
  match (dbms_remove_direct_locks_w_prefix p s).1 with
  | Some _ => c_db s' = c_db s
  | None =>
      (forall l, l ∈ locks (c_db s')
         <-> l ∈ locks (c_db s) /\ String.prefix p (l_lockroot l) = false)
      /\ (forall x, x ∈ locks_resources (c_db s') <-> x ∈ locks_resources (c_db s)
            /\ forall l, l ∈ locks (c_db s) -> String.prefix p (l_lockroot l) = true -> l_id l <> x.1)
      /\ binds (c_db s') = binds (c_db s) /\ resources (c_db s') = resources (c_db s)
  end.
Proof.
  intros Hp. unfold dbms_remove_direct_locks_w_prefix. cbn zeta. rewrite bind_run.
  match goal with |- context [update ?f s] => set (stmt := f) end.
  destruct (update_cases stmt s) as [[He Hd]|[He Hd]]; rewrite He; cbn; rewrite Hd; [done|].
  unfold stmt. split_and!; [| |done|done].
  - intros l. by rewrite elem_of_delete_locks, like_prefix.
  - intros x. rewrite elem_of_delete_locks_resources. by setoid_rewrite like_prefix.
Qed.

Section config.
Context {cfg : ServerConfig}.

(** ** The indirect locks *)

Lemma remove_unreachable_self db_r ls b s :
  (forall l, l ∈ ls -> lock_res_id l = serialno db_r) ->
  remove_unreachable db_r ls b s = (b, s).
Proof.
  revert s b. induction ls as [|l ls IH]; intros s b Hls; [done|]. cbn [remove_unreachable].
  rewrite bind_run. unfold dbms_find_shortest_path, dbms_find_shortest_path_excl_binds.
  rewrite bool_decide_true by (apply Hls; by left). cbn [fst snd mret M_ret].
  apply IH. intros k Hk. apply Hls. by right.
Qed.

(** Nothing is ever found unreachable: each lock is reported with the resource it
    is asked for, and the path from a resource to itself is empty. *)
Lemma remove_all_indirect_run db_r s :
  (exists s', sabridge_remove_all_indirect db_r s = (Crash, s'))
  \/ exists r, dbms_get_locks db_r false [] s = (Ret r, (sabridge_remove_all_indirect db_r s).2)
       /\ (sabridge_remove_all_indirect db_r s).1 = Ret false.
Proof.
  unfold sabridge_remove_all_indirect, obind. rewrite bind_run.
  destruct (dbms_get_locks db_r false [] s) as [[|[e ls]] s1] eqn:Hg; [left; eauto|right].
  exists (e, ls). cbn [fst snd]. unfold lift. rewrite bind_run.
  rewrite remove_unreachable_self; [done|]. intros l Hl.
  destruct e as [e|].
  - unfold dbms_get_locks, dbms_get_locks_by_where_str in Hg. rewrite bind_run in Hg.
    cbn [time_null fst snd] in Hg. rewrite bool_decide_true in Hg by done. rewrite bind_run in Hg.
    destruct (select _ s) as [[rows|] s2]; cbn [fst snd] in Hg.
    + destruct (lock_loop _ _ _ _ rows) as [found [|i exp]]; [done|].
      unfold obind in Hg. rewrite bind_run in Hg.
      destruct (dbms_delete_exp_locks _ _) as [[|?] ?]; discriminate Hg.
    + injection Hg as <- <- _. by apply elem_of_nil in Hl.
  - apply get_locks_run in Hg as (s2 & _ & _ & Hloop).
    destruct (lock_loop _ _ _ _ _) as [found exp] eqn:E.
    destruct Hloop as [-> _]. apply (lock_loop_unresolved db_r (seconds s) false
      (lock_rows (fun _ lr _ => bool_decide (lr.2 = serialno db_r)) (c_db s))). by rewrite E.
Qed.

(** The chain has the resource alone, so a fuel of one is enough. *)
Lemma indirect_loop_one n db_r s :
  indirect_loop (S n) db_r [db_r] false s = indirect_loop 1 db_r [db_r] false s.
Proof.
  cbn [indirect_loop]. unfold obind. rewrite !bind_run.
  destruct (remove_all_indirect_run db_r s) as [[s' ->]|(r & Hr & Hb)]; [done|].
  destruct (sabridge_remove_all_indirect db_r s) as [o s1]. cbn [fst snd] in *. subst o. cbn.
  by destruct n.
Qed.

Definition unexpired (s : conn) : Prop :=
  forall db_r l n, l ∈ locks (c_db s) -> expired (seconds s) (lock_view db_r (l, n)) = false.

(** Discovery without expired locks changes no table. *)
Lemma get_locks_unexpired db_r res s r s' :
  unexpired s -> dbms_get_locks db_r res [] s = (Ret r, s') -> c_db s' = c_db s.
Proof.
  intros Hun Hg. unfold dbms_get_locks, dbms_get_locks_by_where_str in Hg.
  rewrite bind_run in Hg. change (time_null s) with (seconds s, s) in Hg. cbn [fst snd] in Hg.
  rewrite bool_decide_true, bind_run in Hg by done.
  set (rows := lock_rows _) in Hg.
  pose proof (select_db rows s) as Hd. pose proof (select_result rows s) as Hr.
  destruct (select rows s) as [[rs|] s1]; cbn [fst snd] in *; [|by injection Hg as <- <-].
  specialize (Hr rs eq_refl). subst rs.
  pose proof (elem_of_lock_loop_expired db_r res (seconds s) false (rows (c_db s))) as Hexp.
  destruct (lock_loop db_r res (seconds s) false _) as [found [|i exp]]; cbn [snd] in *;
    [by injection Hg as <- <-|].
  destruct (proj1 (Hexp i)) as ([l n] & Hin & _ & Hlate); [by left|].
  apply elem_of_lock_rows in Hin as (_ & _ & _ & Hl & _).
  fold (lock_view db_r (l, n)) in Hlate. by rewrite Hun in Hlate.
Qed.

Lemma remove_all_indirect_unexpired db_r s b s' :
  unexpired s -> sabridge_remove_all_indirect db_r s = (Ret b, s') -> b = false /\ c_db s' = c_db s.
Proof.
  intros Hun Hrun. destruct (remove_all_indirect_run db_r s) as [[? Hc]|(r & Hg & Hb)].
  { by rewrite Hc in Hrun. }
  rewrite Hrun in Hg, Hb. cbn in *. split; [congruence|].
  by apply (get_locks_unexpired db_r false s r).
Qed.

(** Whatever the binds, the call that is to remove the indirect locks of a subtree
    whose path from the lock root is gone removes none. *)
Theorem remove_indirect_keeps r path s e s' :
  unexpired s -> sabridge_remove_indirect_locks_d_inf r path s = (Ret e, s') ->
  locks (c_db s') = locks (c_db s) /\ locks_resources (c_db s') = locks_resources (c_db s).
Proof.
  intros Hun. unfold sabridge_remove_indirect_locks_d_inf, obind. rewrite bind_run.
  destruct (reads_retrieve_parent r path s) as (Hd1 & _ & [_ Hn1] & _).
  destruct (sabridge_retrieve_parent r path s) as [[|[parent r1]] s1]; cbn [fst snd] in *; [done|].
  rewrite bind_run.
  assert (Hrb : forall b, Reads (dbms_get_bind b)) by (intros b; unfold dbms_get_bind; reads).
  match goal with |- context [dbms_get_bind ?b s1] => destruct (Hrb b s1) as (Hd2 & _ & [_ Hn2] & _);
    destruct (dbms_get_bind b s1) as [[eb b2] s2] end.
  cbn [fst snd] in *. rewrite bind_run. unfold dbms_delete_bind. rewrite !bind_run.
  match goal with |- context [update ?f s2] => set (del := f) end.
  assert (H3 : locks (c_db (update del s2).2) = locks (c_db s)
    /\ locks_resources (c_db (update del s2).2) = locks_resources (c_db s)
    /\ c_now (update del s2).2 = c_now s).
  { assert (Hn : c_now (update del s2).2 = c_now s2)
      by (unfold update, execute; by destruct (c_faults s2) as [|[] ?]).
    rewrite Hn, Hn2, Hn1.
    destruct (update_cases del s2) as [[_ ->]|[_ ->]]; rewrite Hd2, Hd1; done. }
  destruct (update del s2) as [o s3]. cbn [fst snd mret M_ret] in *. destruct H3 as (L3 & R3 & N3).
  cbn [indirect_loop]. unfold obind. rewrite !bind_run.
  assert (Hun3 : unexpired s3).
  { intros x l n Hl. unfold seconds. rewrite N3. apply Hun. by rewrite <- L3. }
  pose proof (remove_all_indirect_unexpired r1 s3) as Hra.
  destruct (sabridge_remove_all_indirect r1 s3) as [[|b] s4]; cbn [fst snd]; [done|].
  destruct (Hra b s4 Hun3 eq_refl) as [-> Hd4]. cbn. unfold lift. rewrite bind_run.
  intros [= _ <-]. rewrite <- L3, <- R3, <- Hd4. unfold dbms_insert_bind. rewrite !bind_run.
  cbn [time_now_str fst snd].
  match goal with |- context [execute ?f s4] => set (stmt := f) end.
  destruct (execute_cases stmt s4) as [[_ Hd]|(i & d & Hs & _ & Hd)]; cbn [fst snd mret M_ret];
    rewrite Hd; [done|].
  unfold stmt, insert_bind_stmt in Hs. cbn in Hs. destruct (bind_taken _ _ _); [done|]. by injection Hs as <- <-.
Qed.
End config.
