(* ===== verification/Gc.v ===== *)
(** * The garbage collector ([limestone/gc.c])

    One turn of the loop of [gc_main] as a computation, an abstract step relation
    of what a turn may do to the tables, the proof that each turn, whatever the
    server refuses, makes such a step or none, and the properties of the
    collector: it never deletes what is reachable from the root, it never loses
    track of garbage, and when its queue is empty there is no garbage. *)
From S2P Require Import Prelude Util Db Bind Paths Resource Quota DbmsDeltav Transaction Bridge.
Local Open Scope Z_scope.
Local Open Scope limestone_scope.

(** ** One turn *)

Section gc.
Context {cfg : ServerConfig} {D : DbdDriver}.
Variable sabridge_coll_clear_children : dav_repos_resource -> M (outcome (option dav_error)).
Variable mk_uri : Z -> string.

(** The statements of a turn: whether the queue gave nothing to do.  The errors
    are logged or dropped.  The record has no [resource] and no URI. *)
Definition gc_body : M (outcome bool) :=
  req ← dbms_next_cleanup_req;
  let resource_id := req.2 in
  if bool_decide (resource_id = 0) then oret true
  else
    p <- sabridge_get_property (set_serialno resource_id zero_dbr) ;;
    let db_r := p.2 in
    c ← dbms_get_child_binds (serialno db_r) true;
    let child_binds := match c with inl _ => [] | inr l => l end in
    deleted <- sabridge_delete_if_orphaned sabridge_coll_clear_children mk_uri db_r ;;
    match deleted with
    | inr true => _ ← dbms_insert_cleanup_reqs child_binds; oret false
    | _ => oret false
    end.

Definition abandon (before : db) : M unit := fun s => (tt, set_db before s).

(** The turn in its transaction; a crash of the process leaves the tables of the
    last commit.  The result of the start is not tested: without a transaction the
    variable for it is not set, and its mode is set all the same. *)
Definition gc_turn : M (outcome bool) :=
  x ← dbms_transaction_start;
  let before := x.2 in
  if decide (x.1 = 0) then
    o ← gc_body;
    match o with
    | Crash => _ ← abandon before; mret Crash
    | Ret idle => _ ← dbms_transaction_end (dbms_transaction_mode_set
                                              (Some DAV_TRANSACTION_COMMIT)) before;
                  mret (Ret idle)
    end
  else mret Crash.

(** [gc_main] for [n] turns. *)
Fixpoint gc_main (n : nat) : M unit :=
  match n with
  | O => mret tt
  | S n => _ ← gc_turn; gc_main n
  end.
End gc.

(** ** The abstract step *)

(** The queue without the entry that was taken. *)
Definition pop (c : cleanup_row) (d : db) : db :=
  if bool_decide (0 < c_id c) then delete_cleanup_stmt (c_id c) d else d.

(** The resources a collection leads to, itself excepted, in the order and with
    the duplicates of [dbms_get_child_binds]. *)
Definition children (id : Z) (d : db) : list Z :=
  rev (map b_res (List.filter (fun b => bool_decide (b_coll b = id)
         && negb (true && bool_decide (b_res b = b_coll b))) (binds d))).

Definition type_of (id : Z) (d : db) : option dav_repos_type := r_type <$> find_resource id d.

(** The quota statement of [dbms_delete_resource]. *)
Definition release (id : Z) (d : db) : option (unit * db) :=
  if has_body (type_of id d) then release_quota_stmt id d else Some (tt, d).

Inductive gc_step (d : db) : db -> Prop :=
| gc_skip c :
    first_cleanup (cleanup d) = Some c ->
    c_res c = 0 \/ reaches (binds d) ROOT_COLLECTION_ID (c_res c) ->
    gc_step d (pop c d)
| gc_collect c d' :
    first_cleanup (cleanup d) = Some c -> c_res c <> 0 ->
    ~ reaches (binds d) ROOT_COLLECTION_ID (c_res c) ->
    type_of (c_res c) d <> Some dav_repos_VERSIONHISTORY ->
    release (c_res c) (pop c d) = Some (tt, d') ->
    gc_step d (add_cleanup (remove_dups (children (c_res c) d))
                 (cascade_resource (c_res c) d')).

(** ** What the statements do *)

Lemma pop_binds c d : binds (pop c d) = binds d.
Proof. unfold pop. by case_bool_decide. Qed.
Lemma pop_resources c d : resources (pop c d) = resources d.
Proof. unfold pop. by case_bool_decide. Qed.
Lemma pop_media c d : media (pop c d) = media d.
Proof. unfold pop. by case_bool_decide. Qed.
Lemma pop_quota c d : quota (pop c d) = quota d.
Proof. unfold pop. by case_bool_decide. Qed.

Lemma add_cleanup_binds l d : binds (add_cleanup l d) = binds d.
Proof. revert d. induction l as [|i l IH]; intros d; [done|]. cbn. by rewrite IH. Qed.
Lemma add_cleanup_resources l d : resources (add_cleanup l d) = resources d.
Proof. revert d. induction l as [|i l IH]; intros d; [done|]. cbn. by rewrite IH. Qed.
Lemma add_cleanup_media l d : media (add_cleanup l d) = media d.
Proof. revert d. induction l as [|i l IH]; intros d; [done|]. cbn. by rewrite IH. Qed.
Lemma add_cleanup_quota l d : quota (add_cleanup l d) = quota d.
Proof. revert d. induction l as [|i l IH]; intros d; [done|]. cbn. by rewrite IH. Qed.

Lemma add_cleanup_queue l d :
  map c_res (cleanup (add_cleanup l d)) = map c_res (cleanup d) ++ l.
Proof.
  revert d. induction l as [|i l IH]; intros d; cbn; [by rewrite app_nil_r|].
  rewrite IH. cbn. by rewrite map_app, <- app_assoc.
Qed.

(** A release changes no table but [quota]. *)
Lemma release_only_quota id d d' :
  release id d = Some (tt, d') ->
  binds d' = binds d /\ resources d' = resources d /\ cleanup d' = cleanup d
  /\ media d' = media d.
Proof.
  unfold release, release_quota_stmt. intros H.
  repeat case_match; simplify_eq; done.
Qed.

Lemma first_cleanup_in l c : first_cleanup l = Some c -> c ∈ l.
Proof.
  revert c. induction l as [|x l IH]; intros c; [done|]. cbn.
  destruct (first_cleanup l) as [y|]; [|intros [= ->]; left].
  case_bool_decide; intros [= <-]; [right; by apply IH|left].
Qed.

Lemma children_in id d x :
  x ∈ children id d <->
  exists b, b ∈ binds d /\ b_coll b = id /\ b_res b = x /\ b_res b <> id.
Proof.
  unfold children. rewrite elem_of_rev, elem_of_map. split.
  - intros (b & <- & H). apply elem_of_filter_bool in H as [H Hb].
    apply andb_prop in H as [H1%bool_decide_eq_true H2].
    apply negb_true_iff, bool_decide_eq_false in H2. exists b. split_and!; congruence.
  - intros (b & Hb & H1 & H2 & H3). exists b. split; [done|].
    apply elem_of_filter_bool. split; [|done].
    rewrite bool_decide_true, bool_decide_false by congruence. done.
Qed.

(** ** The statements of a turn none of which failed *)

Lemma next_cleanup_ok s :
  let '(req, s') := dbms_next_cleanup_req s in
  c_errnum s' = false ->
  (req.2 = 0 /\ c_db s' = c_db s /\ first_cleanup (cleanup (c_db s)) = None)
  \/ exists c, first_cleanup (cleanup (c_db s)) = Some c /\ req.2 = c_res c
       /\ c_db s' = pop c (c_db s).
Proof.
  unfold dbms_next_cleanup_req. rewrite bind_run.
  pose proof (select_ok (fun d => first_cleanup (cleanup d)) s) as Hok.
  pose proof (select_db (fun d => first_cleanup (cleanup d)) s) as Hdb.
  destruct (select _ s) as [q s1]. cbn [fst snd] in *.
  destruct q as [[c|]|]; cbn.
  - unfold pop. case_bool_decide.
    + rewrite bind_run. cbn. intros He. right. exists c.
      destruct (update_ok (delete_cleanup_stmt (c_id c)) s1 He) as [_ H2].
      rewrite Hdb in H2. apply mono_update in He. specialize (Hok He).
      rewrite bool_decide_true by done. split_and!; cbn; congruence.
    + intros He. right. exists c. specialize (Hok He). rewrite bool_decide_false by done.
      split_and!; cbn; congruence.
  - intros He. left. specialize (Hok He). split_and!; cbn; congruence.
  - intros He. specialize (Hok He). done.
Qed.

Lemma obind_run {A B} (m : M (outcome A)) (f : A -> M (outcome B)) s :
  obind m f s = match (m s).1 with Crash => (Crash, (m s).2) | Ret a => f a (m s).2 end.
Proof. unfold obind. rewrite bind_run. by destruct (m s).1. Qed.

Lemma lift_run {A} (m : M A) s : lift m s = (Ret (m s).1, (m s).2).
Proof. unfold lift. by rewrite bind_run. Qed.

Lemma unversion_err r s e :
  (dbms_unversion_vhr_vcrs r s).1 = Some e ->
  c_errnum (dbms_unversion_vhr_vcrs r s).2 = true.
Proof.
  unfold dbms_unversion_vhr_vcrs. rewrite bind_run.
  destruct (update _ s) as [[[]|] s1] eqn:E; cbn.
  - rewrite bind_run. cbn.
    pose proof (execute_spec (fun d => Some (tt, unversion_stmt (serialno r)
      dav_repos_VERSIONED_COLLECTION dav_repos_COLLECTION d)) s1) as H.
    unfold update. destruct (execute _ s1) as [[|] s2]; cbn in *; [done|]. by destruct H.
  - intros _. pose proof (execute_spec (fun d => Some (tt, unversion_stmt (serialno r)
      dav_repos_VERSIONED dav_repos_RESOURCE d)) s) as H.
    unfold update in E. rewrite E in H. by destruct H.
Qed.

(** Without a [resource] the removal of a version history does not get past the
    list of its versions. *)
Lemma remove_vhr_no_resource {cfg : ServerConfig} ccc mk r s o s' :
  has_resource r = false ->
  sabridge_remove_vhr ccc mk r s = (Ret o, s') -> is_Some o /\ c_errnum s' = true.
Proof.
  intros Hr. unfold sabridge_remove_vhr. rewrite obind_run, lift_run. cbn [fst snd].
  pose proof (unversion_err r s) as Hu.
  destruct (dbms_unversion_vhr_vcrs r s) as [[e|] s1]; cbn [fst snd] in *.
  { intros [= <- <-]. eauto. }
  unfold sabridge_remove_vhr_vrs. rewrite obind_run. unfold dbms_get_vhr_versions.
  rewrite bind_run. cbn [fst snd mret M_ret].
  assert (Hn : sabridge_new_dbr_from_dbr r = None).
  { unfold sabridge_new_dbr_from_dbr. by rewrite Hr. }
  rewrite Hn. destruct (select _ s1) as [[[[|] d]|] s2]; done.
Qed.

Lemma remove_body_run {cfg : ServerConfig} r :
  Mono (sabridge_remove_body_from_disk r)
  /\ (forall s, c_db (sabridge_remove_body_from_disk r s).2 = c_db s).
Proof.
  unfold sabridge_remove_body_from_disk. destruct keep_files; [split; [apply mono_ret|done]|].
  pose proof (reads_num_sha1_resources (sha1str r)) as Hr. split.
  - intros s. rewrite bind_run. destruct (Hr s) as (H1 & H2 & H3).
    case_bool_decide; [|done]. by destruct (sha1str r).
  - intros s. rewrite bind_run. destruct (Hr s) as (H1 & H2 & H3).
    case_bool_decide; [|done]. by destruct (sha1str r).
Qed.

Lemma mono_delete_resource r : Mono (dbms_delete_resource r).
Proof. unfold dbms_delete_resource. mono. Qed.

(** The deletion of a record without a [resource], none of its statements
    failing. *)
Lemma delete_resource_no_resource {cfg : ServerConfig} ccc mk r s o s' :
  has_resource r = false ->
  sabridge_delete_resource ccc mk r s = (Ret o, s') -> c_errnum s' = false ->
  c_errnum s = false /\ o = None /\ resourcetype r <> Some dav_repos_VERSIONHISTORY
  /\ exists d', (if has_body (resourcetype r) then release_quota_stmt (serialno r) (c_db s)
                 else Some (tt, c_db s)) = Some (tt, d')
       /\ c_db s' = cascade_resource (serialno r) d'.
Proof.
  intros Hr E He. unfold sabridge_delete_resource in E.
  rewrite obind_run in E.
  destruct (decide (resourcetype r = Some dav_repos_VERSIONHISTORY)) as [Ht|Ht].
  { exfalso. unfold delete_dependents in E. rewrite Ht in E.
    destruct (sabridge_remove_vhr ccc mk r s) as [[|o1] s1] eqn:E1; [done|].
    destruct (remove_vhr_no_resource _ _ _ _ _ _ Hr E1) as [[e ->] H1].
    cbn in E. injection E as <- <-. congruence. }
  assert (Hb : exists s1, delete_dependents ccc mk r s = (Ret None, s1) /\ c_db s1 = c_db s
             /\ (c_errnum s1 = false -> c_errnum s = false)).
  { unfold delete_dependents. destruct (remove_body_run r) as [H1 H2].
    destruct (resourcetype r) as [[]|]; try done; try (by exists s);
      rewrite obind_run, lift_run; cbn; eexists; split_and!; auto. }
  destruct Hb as (s1 & Hb & Hdb & Hmono). rewrite Hb in E. cbn [fst snd] in E.
  rewrite lift_run in E. injection E as <- <-.
  destruct (delete_resource_ok r s1 He) as (-> & d' & H1 & H2). rewrite Hdb in H1.
  split_and!; [|done|done|by exists d'].
  apply Hmono. by eapply mono_delete_resource.
Qed.

Lemma child_binds_ok id s :
  c_errnum (dbms_get_child_binds id true s).2 = false ->
  exists l, (dbms_get_child_binds id true s).1 = inr l
    /\ map resource_id l = children id (c_db s).
Proof.
  unfold dbms_get_child_binds. rewrite bind_run. cbn [fst snd mret M_ret]. intros He.
  rewrite (select_ok _ _ He). eexists. split; [reflexivity|].
  unfold children. by rewrite map_rev, map_map.
Qed.

Lemma insert_cleanup_reqs_ok l s :
  c_errnum (dbms_insert_cleanup_reqs l s).2 = false ->
  c_errnum s = false
  /\ c_db (dbms_insert_cleanup_reqs l s).2
     = add_cleanup (remove_dups (map resource_id l)) (c_db s).
Proof.
  unfold dbms_insert_cleanup_reqs. destruct l as [|b l]; [done|]. rewrite bind_run.
  cbn [fst snd mret M_ret]. intros He. split; [by eapply mono_update|].
  by apply update_ok.
Qed.

Lemma delete_if_orphaned_gc {cfg : ServerConfig} ccc mk r s o s' :
  has_resource r = false ->
  sabridge_delete_if_orphaned ccc mk r s = (Ret o, s') -> c_errnum s' = false ->
  c_errnum s = false /\
  ((o = inr false /\ c_db s' = c_db s /\ reaches (binds (c_db s)) ROOT_COLLECTION_ID (serialno r))
   \/ (o = inr true /\ ~ reaches (binds (c_db s)) ROOT_COLLECTION_ID (serialno r)
       /\ resourcetype r <> Some dav_repos_VERSIONHISTORY
       /\ exists d', (if has_body (resourcetype r) then release_quota_stmt (serialno r) (c_db s)
                 else Some (tt, c_db s)) = Some (tt, d')
            /\ c_db s' = cascade_resource (serialno r) d')).
Proof.
  intros Hr E He. unfold sabridge_delete_if_orphaned in E. rewrite bind_run in E.
  destruct (shortest_path_spec ROOT_COLLECTION_ID (serialno r) s) as (p & Hp & Hdb & Hres).
  pose proof (reads_find_shortest_path ROOT_COLLECTION_ID (serialno r) s) as (_ & Hm & _).
  pose proof (shortest_path_error ROOT_COLLECTION_ID (serialno r) s) as Herr.
  destruct (dbms_find_shortest_path _ _ s) as [p' s1]. cbn [fst snd] in *.
  injection Hp as ->. destruct p as [[e|] [path|]]; cbn in E.
  - injection E as <- <-. rewrite (Herr e _ eq_refl) in He. done.
  - injection E as <- <-. rewrite (Herr e _ eq_refl) in He. done.
  - injection E as <- <-. split; [auto|]. left. destruct Hres as (ns & _ & Hns & _).
    split_and!; [done|done|by exists ns].
  - rewrite obind_run in E.
    destruct (sabridge_delete_resource ccc mk r s1) as [[|o1] s2] eqn:E1; [done|].
    cbn in E. injection E as <- <-.
    destruct (delete_resource_no_resource _ _ _ _ _ _ Hr E1 He) as (H1 & -> & H2 & H3).
    rewrite Hdb in H3. split; [auto|]. right. split_and!; done.
Qed.

(** What a turn does when no statement fails and the process does not crash:
    nothing with an empty queue, or an abstract step. *)
Lemma gc_body_step {cfg : ServerConfig} ccc mk s idle s' :
  gc_body ccc mk s = (Ret idle, s') -> c_errnum s' = false ->
  (c_db s' = c_db s /\ first_cleanup (cleanup (c_db s)) = None)
  \/ gc_step (c_db s) (c_db s').
Proof.
  intros E He. unfold gc_body in E. rewrite bind_run in E.
  pose proof (next_cleanup_ok s) as Hn.
  destruct (dbms_next_cleanup_req s) as [req s1]. cbn [fst snd] in *.
  case_bool_decide as Hreq.
  { injection E as <- <-. destruct (Hn He) as [(_ & H1 & H2)|(c & H1 & H2 & H3)].
    - left. by split.
    - right. rewrite H3. apply gc_skip; [done|]. left. congruence. }
  rewrite obind_run in E.
  destruct (sabridge_get_property _ s1) as [[|p] s2] eqn:E2; [done|]. cbn [fst snd] in E.
  pose proof (reads_get_property (set_serialno req.2 zero_dbr) s1) as (D2 & M2 & _).
  rewrite E2 in D2, M2. cbn [fst snd] in D2, M2.
  destruct (get_property_by_id _ _ _ _ Hreq E2) as (P1 & P2 & P3).
  rewrite bind_run in E.
  pose proof (reads_get_child_binds (serialno p.2) true s2) as (D3 & M3 & _).
  pose proof (child_binds_ok (serialno p.2) s2) as C3.
  destruct (dbms_get_child_binds (serialno p.2) true s2) as [ch s3]. cbn [fst snd] in *.
  rewrite obind_run in E.
  destruct (sabridge_delete_if_orphaned ccc mk p.2 s3) as [[|del] s4] eqn:E4; [done|].
  cbn [fst snd] in E.
  assert (He4 : c_errnum s4 = false).
  { destruct del as [|[]]; cbn in E; try (by injection E as <- <-).
    rewrite bind_run in E. cbn in E. injection E as <- <-.
    exact (proj1 (insert_cleanup_reqs_ok _ _ He)). }
  destruct (delete_if_orphaned_gc _ _ _ _ _ _ P2 E4 He4) as (He3 & Hdel).
  specialize (M3 He3). specialize (M2 M3). specialize (P3 M3) as [T1 T2].
  destruct (Hn M2) as [(Hz & _)|(c & H1 & H2 & H3)]; [done|]. right.
  assert (Hdb : c_db s3 = pop c (c_db s)) by congruence.
  rewrite Hdb, P1, pop_binds in Hdel.
  destruct Hdel as [(-> & Hs & Hreach)|(-> & Hreach & Ht & d' & Hd' & Hs)].
  - cbn in E. injection E as <- <-. rewrite Hs. apply gc_skip; [done|].
    right. by rewrite <- H2.
  - rewrite bind_run in E. cbn in E. injection E as <- <-.
    destruct (C3 He3) as (l & -> & Hl).
    destruct (insert_cleanup_reqs_ok _ _ He) as [_ ->].
    rewrite Hl, Hs, P1, D2, H3, H2.
    assert (Hch : children (c_res c) (pop c (c_db s)) = children (c_res c) (c_db s)).
    { unfold children. by rewrite pop_binds. }
    assert (Hty : resourcetype p.2 = type_of (c_res c) (pop c (c_db s))).
    { rewrite T1, H3, H2. done. }
    rewrite Hch. apply gc_collect; [done|congruence|by rewrite <- H2| |].
    + rewrite Hty in Ht. unfold type_of, find_resource in *. by rewrite pop_resources in Ht.
    + unfold release. rewrite Hty, H2 in Hd'. done.
Qed.

(** The refinement: whatever the server refuses, a turn leaves the tables as they
    were or makes one abstract step. *)
Lemma gc_turn_refines {cfg : ServerConfig} {D : DbdDriver} {L : DbdDriverLaws D} ccc mk s :
  c_db (gc_turn ccc mk s).2 = c_db s \/ gc_step (c_db s) (c_db (gc_turn ccc mk s).2).
Proof.
  unfold gc_turn. rewrite bind_run.
  destruct (transaction_start_run s) as (s0 & -> & Hdb & _). cbn [fst snd].
  destruct (decide _); [|cbn; rewrite Hdb; by left].
  rewrite bind_run. pose proof (gc_body_step ccc mk s0) as H. rewrite Hdb in H.
  destruct (gc_body ccc mk s0) as [[|idle] s1]; cbn [fst snd].
  { by left. }
  rewrite bind_run. cbn [fst snd mret M_ret dbms_transaction_mode_set].
  unfold dbms_transaction_end. specialize (H idle s1 eq_refl).
  destruct (c_errnum s1) eqn:He.
  - pose proof (end_error (c_db s) (c_db s1)) as Hend.
    destruct (apr_dbd_transaction_end _ _ _ _) as [rc d']. cbn in *. by left.
  - pose proof (end_commit (c_db s) (c_db s1)) as Hend.
    destruct (apr_dbd_transaction_end _ _ _ _) as [rc d']. cbn. case_decide; subst d'; [|by left].
    destruct (H eq_refl) as [[? _]|?]; [by left|by right].
Qed.

(** ** Properties of the abstract step *)

Definition present (d : db) (x : Z) : Prop := x ∈ map r_id (resources d).
Definition queued (d : db) (x : Z) : Prop := x ∈ map c_res (cleanup d).
Definition live (d : db) (x : Z) : Prop := reaches (binds d) ROOT_COLLECTION_ID x.

(** Every resource that is out of reach can be reached from a request of the
    queue: the collector has not lost track of it. *)
Definition scheduled (d : db) : Prop :=
  forall x, present d x -> ~ live d x -> exists q, queued d q /\ reaches (binds d) q x.

(** No longer there, and nothing left below it. *)
Definition gone (d : db) (x : Z) : Prop :=
  ~ present d x /\ forall b, b ∈ binds d -> b_coll b <> x.

(** A change that queues the target of every bind it removes, and keeps every
    request that still matters, loses track of nothing. *)
Lemma scheduled_change d d' :
  (forall x, present d' x -> present d x) ->
  (forall b, b ∈ binds d -> b ∈ binds d' \/ queued d' (b_res b) \/ gone d' (b_res b)) ->
  (forall q, queued d q -> queued d' q \/ gone d' q \/ live d' q) ->
  scheduled d -> scheduled d'.
Proof.
  intros Hp Hb Hq Hs x Hx Hlive.
  assert (Hgone : forall y, gone d' y -> ~ reaches (binds d') y x).
  { intros y [Hny Hout] Hr. by rewrite (reaches_no_out _ _ _ Hout Hr) in Hx. }
  assert (Hsuffix : forall y, reaches (binds d) y x ->
            reaches (binds d') y x \/ exists q, queued d' q /\ reaches (binds d') q x).
  { intros y Hy. destruct (reaches_suffix (binds d) (binds d') y x Hy)
      as [?|(b & Hin & Hnin & Hr)]; [by left|right].
    destruct (Hb b Hin) as [?|[?|Hg]]; [done|by exists (b_res b)|].
    by destruct (Hgone _ Hg). }
  destruct (decide (live d x)) as [Hl|Hl].
  - destruct (Hsuffix _ Hl) as [?|?]; done.
  - destruct (Hs x (Hp x Hx) Hl) as (q & Hqd & Hr).
    destruct (Hsuffix _ Hr) as [Hr'|?]; [|done].
    destruct (Hq q Hqd) as [?|[Hg|Hlq]]; [by exists q|by destruct (Hgone _ Hg)|].
    exfalso. apply Hlive. by apply (reaches_trans _ _ q).
Qed.

(** The tables after the collection of [id], as far as the graph goes. *)
Lemma collected_graph c d d' id l :
  release id (pop c d) = Some (tt, d') ->
  binds (add_cleanup l (cascade_resource id d'))
  = List.filter (fun b => negb (bool_decide (b_coll b = id \/ b_res b = id))) (binds d)
  /\ resources (add_cleanup l (cascade_resource id d'))
     = List.filter (fun r => negb (bool_decide (r_id r = id))) (resources d).
Proof.
  intros H. destruct (release_only_quota _ _ _ H) as (H1 & H2 & _ & _).
  rewrite add_cleanup_binds, add_cleanup_resources, cascade_binds, cascade_resources.
  by rewrite H1, H2, pop_binds, pop_resources.
Qed.

Lemma present_filter id (rs : list resource_row) x :
  x ∈ map r_id (List.filter (fun r => negb (bool_decide (r_id r = id))) rs)
  <-> x ∈ map r_id rs /\ x <> id.
Proof.
  rewrite !elem_of_map. setoid_rewrite elem_of_filter_bool.
  setoid_rewrite negb_true_iff. setoid_rewrite bool_decide_eq_false. split.
  - intros (r & <- & H & Hr). eauto.
  - intros [(r & <- & Hr) H]. eauto.
Qed.

Lemma gc_step_shrinks d d' x : gc_step d d' -> present d' x -> present d x.
Proof.
  unfold present. intros [c H1 H2|c e H1 H2 H3 H4 H5].
  - by rewrite pop_resources.
  - destruct (collected_graph c d e (c_res c) (remove_dups (children (c_res c) d)) H5) as [_ ->].
    rewrite present_filter. tauto.
Qed.

(** A step keeps what is live, and live. *)
Lemma gc_step_safe d d' x :
  gc_step d d' -> live d x -> live d' x /\ (present d x -> present d' x).
Proof.
  unfold live, present. intros [c H1 H2|c e H1 H2 H3 H4 H5] Hl.
  - by rewrite pop_binds, pop_resources.
  - destruct (collected_graph c d e (c_res c) (remove_dups (children (c_res c) d)) H5) as [-> ->].
    split; [by apply reaches_avoid|]. intros Hx. apply present_filter. split; [done|].
    by intros ->.
Qed.

Lemma queued_pop c d q :
  first_cleanup (cleanup d) = Some c -> NoDup (map c_id (cleanup d)) ->
  queued d q -> queued (pop c d) q \/ q = c_res c.
Proof.
  intros Hf Hnd Hq. unfold queued, pop in *. case_bool_decide; [|by left].
  apply elem_of_map in Hq as (x & <- & Hx).
  destruct (decide (c_id x = c_id c)) as [He|He].
  - right. apply first_cleanup_in in Hf. f_equal.
    by apply (NoDup_map_eq c_id (cleanup d)).
  - left. cbn. apply elem_of_map. exists x. split; [done|].
    apply elem_of_filter_bool. by rewrite bool_decide_false by done.
Qed.

(** ** The queue is well formed: distinct positive identifiers below the sequence *)

Definition queue_wf (d : db) : Prop :=
  NoDup (map c_id (cleanup d))
  /\ forall c, c ∈ cleanup d -> 0 < c_id c < cleanup_id_seq (sequences d).

Lemma add_cleanup_wf l d :
  queue_wf d -> 0 < cleanup_id_seq (sequences d) -> queue_wf (add_cleanup l d).
Proof.
  revert d. induction l as [|i l IH]; intros d [Hnd Hb] Hp; cbn; [done|].
  apply IH; [|cbn; lia]. unfold queue_wf. cbn. split.
  - rewrite map_app. apply NoDup_app. split_and!; [done| |apply NoDup_singleton].
    intros x (c & <- & Hc)%elem_of_map. cbn. intros Heq%list_elem_of_singleton.
    specialize (Hb c Hc). lia.
  - intros c [Hc| ->%list_elem_of_singleton]%elem_of_app; [specialize (Hb c Hc); lia|cbn; lia].
Qed.

Lemma release_sequences id d d' : release id d = Some (tt, d') -> sequences d' = sequences d.
Proof. unfold release, release_quota_stmt. intros H. repeat case_match; simplify_eq; done. Qed.

Lemma filter_wf f d d' :
  queue_wf d -> cleanup d' = List.filter f (cleanup d) -> sequences d' = sequences d ->
  queue_wf d'.
Proof.
  intros [Hnd Hb] Hc Hs. split; rewrite Hc.
  - by apply NoDup_map_filter.
  - intros c [_ Hin]%elem_of_filter_bool. rewrite Hs. by apply Hb.
Qed.

Lemma pop_wf c d : queue_wf d -> queue_wf (pop c d).
Proof.
  intros H. unfold pop. case_bool_decide; [|done].
  by apply (filter_wf (fun x => negb (bool_decide (c_id x = c_id c))) d).
Qed.

Lemma pop_sequences c d : sequences (pop c d) = sequences d.
Proof. unfold pop. by case_bool_decide. Qed.

Lemma gc_step_wf d d' : gc_step d d' -> queue_wf d -> queue_wf d'.
Proof.
  intros [c H1 H2|c e H1 H2 H3 H4 H5] Hwf; [by apply pop_wf|].
  destruct (release_only_quota _ _ _ H5) as (_ & _ & Hc & _).
  pose proof (release_sequences _ _ _ H5) as Hs.
  apply add_cleanup_wf.
  - apply (filter_wf (fun x => negb (bool_decide (c_res x = c_res c))) (pop c d)).
    + by apply pop_wf.
    + by rewrite cascade_cleanup, Hc.
    + by rewrite cascade_sequences.
  - rewrite cascade_sequences, Hs, pop_sequences. destruct Hwf as [_ Hwf].
    specialize (Hwf c (first_cleanup_in _ _ H1)). lia.
Qed.

(** A step loses track of nothing. *)
Lemma gc_step_scheduled d d' :
  gc_step d d' -> queue_wf d -> ~ queued d 0 -> scheduled d -> scheduled d'.
Proof.
  intros Hstep [Hnd _] H0. inversion Hstep as [c H1 H2|c e H1 H2 H3 H4 H5]; subst.
  - apply scheduled_change.
    + intros x. unfold present. by rewrite pop_resources.
    + intros b Hb. left. by rewrite pop_binds.
    + intros q Hq. destruct (queued_pop c d q H1 Hnd Hq) as [?| ->]; [by left|].
      right. right. unfold live. rewrite pop_binds. destruct H2 as [Hz|?]; [|done].
      rewrite Hz in Hq. done.
  - destruct (collected_graph c d e (c_res c) (remove_dups (children (c_res c) d)) H5)
      as [Hb Hr].
    destruct (release_only_quota _ _ _ H5) as (_ & _ & Hc & _).
    assert (Hgone : gone (add_cleanup (remove_dups (children (c_res c) d))
                            (cascade_resource (c_res c) e)) (c_res c)).
    { split.
      - unfold present. rewrite Hr, present_filter. tauto.
      - intros b. rewrite Hb, elem_of_filter_bool, negb_true_iff, bool_decide_eq_false. tauto. }
    apply scheduled_change.
    + intros x. unfold present. rewrite Hr, present_filter. tauto.
    + intros b Hin. rewrite Hb, elem_of_filter_bool, negb_true_iff, bool_decide_eq_false.
      destruct (decide (b_res b = c_res c)) as [He|He]; [by rewrite He; right; right|].
      destruct (decide (b_coll b = c_res c)) as [Hc'|Hc'].
      * right. left. unfold queued. rewrite add_cleanup_queue. apply elem_of_app. right.
        apply elem_of_remove_dups, children_in. exists b. split_and!; congruence.
      * left. tauto.
    + intros q Hq. destruct (decide (q = c_res c)) as [-> |Hne]; [by right; left|].
      destruct (queued_pop c d q H1 Hnd Hq) as [Hq'|?]; [|done]. left.
      unfold queued in *. rewrite add_cleanup_queue. apply elem_of_app. left.
      rewrite cascade_cleanup, Hc. apply elem_of_map in Hq' as (x & <- & Hx).
      apply elem_of_map. exists x. split; [done|]. apply elem_of_filter_bool.
      by rewrite bool_decide_false by done.
Qed.

(** ** The invariant of the collector, and its properties over many turns *)

Record gc_inv (d : db) : Prop := {
  inv_queue : queue_wf d;
  inv_no_zero : ~ queued d 0;
  inv_binds : forall b, b ∈ binds d -> b_res b <> 0;
  inv_scheduled : scheduled d
}.

Lemma gc_step_inv d d' : gc_step d d' -> gc_inv d -> gc_inv d'.
Proof.
  intros Hstep [H1 H2 H3 H4]. split.
  - by apply (gc_step_wf d).
  - unfold queued. destruct Hstep as [c F1 F2|c e F1 F2 F3 F4 F5].
    + intros (x & Hx & Hin)%elem_of_map. apply H2, elem_of_map. exists x. split; [done|].
      unfold pop in Hin. case_bool_decide; [|done]. cbn in Hin. by apply elem_of_filter_bool in Hin as [_ Hin].
    + rewrite add_cleanup_queue. intros [Hin|Hin]%elem_of_app.
      * destruct (release_only_quota _ _ _ F5) as (_ & _ & Hc & _).
        rewrite cascade_cleanup, Hc in Hin. apply H2.
        apply elem_of_map in Hin as (x & Hx & [_ Hin]%elem_of_filter_bool).
        apply elem_of_map. exists x. split; [done|].
        unfold pop in Hin. case_bool_decide; [|done]. cbn in Hin. by apply elem_of_filter_bool in Hin as [_ Hin].
      * apply elem_of_remove_dups, children_in in Hin as (b & Hb & _ & Hz & _).
        by destruct (H3 b Hb).
  - intros b Hb. apply H3. destruct Hstep as [c F1 F2|c e F1 F2 F3 F4 F5].
    + by rewrite pop_binds in Hb.
    + destruct (collected_graph c d e (c_res c) (remove_dups (children (c_res c) d)) F5)
        as [HB _]. rewrite HB in Hb. by apply elem_of_filter_bool in Hb as [_ Hb].
  - by apply (gc_step_scheduled d).
Qed.

Section turns.
Context {cfg : ServerConfig} {D : DbdDriver} {L : DbdDriverLaws D}.
Variable ccc : dav_repos_resource -> M (outcome (option dav_error)).
Variable mk : Z -> string.

(** What holds of the tables after every step holds after any number of turns. *)
Lemma gc_main_keeps (P : db -> Prop) n s :
  (forall d d', gc_step d d' -> P d -> P d') ->
  P (c_db s) -> P (c_db (gc_main ccc mk n s).2).
Proof.
  intros Hstep. revert s. induction n as [|n IH]; intros s Hs; [done|].
  cbn [gc_main]. rewrite bind_run. apply IH.
  destruct (gc_turn_refines ccc mk s) as [->|H]; [done|]. by apply (Hstep _ _ H).
Qed.
End turns.

(** C3. However many turns it makes and whatever the server refuses, the collector
    never deletes a resource that a path of binds leads to from the root, and
    never takes that path away. *)
Theorem gc_main_safe (cfg : ServerConfig) (D : DbdDriver) (L : DbdDriverLaws D) ccc mk n s x :
  live (c_db s) x -> present (c_db s) x ->
  live (c_db (gc_main ccc mk n s).2) x /\ present (c_db (gc_main ccc mk n s).2) x.
Proof.
  intros Hl Hp.
  apply (gc_main_keeps ccc mk (fun d => live d x /\ present d x)); [|done].
  intros d d' Hstep [Hl' Hp']. destruct (gc_step_safe _ _ _ Hstep Hl'). auto.
Qed.

(** However many turns it makes and whatever the server refuses, the collector
    loses track of no garbage: a resource out of reach stays reachable from a
    request of the queue, so with an empty queue there is no garbage. *)
Theorem gc_main_scheduled (cfg : ServerConfig) (D : DbdDriver) (L : DbdDriverLaws D)
    ccc mk n s :
  gc_inv (c_db s) ->
  let d := c_db (gc_main ccc mk n s).2 in
  gc_inv d /\ (cleanup d = [] -> forall x, present d x -> live d x).
Proof.
  intros Hinv d. assert (Hd : gc_inv d).
  { apply (gc_main_keeps ccc mk gc_inv); [exact gc_step_inv|exact Hinv]. }
  split; [done|]. intros He x Hx.
  destruct (decide (live d x)) as [|Hn]; [done|].
  destruct (inv_scheduled d Hd x Hx Hn) as (q & Hq & _).
  unfold queued in Hq. rewrite He in Hq. set_solver.
Qed.

(** ** Removing a bind in the service of the collector *)

(** Removing the binds of one name to [id] and queueing [id]. *)
Lemma unbind_scheduled coll id name d :
  scheduled d -> scheduled (add_cleanup [id] (delete_bind_stmt coll id name d)).
Proof.
  apply scheduled_change.
  - done.
  - intros b Hb. cbn. rewrite elem_of_filter_bool, negb_true_iff, bool_decide_eq_false.
    destruct (decide (b_coll b = coll /\ b_res b = id /\ b_name b = name)) as [(_ & <- & _)|];
      [|by left].
    right. left. unfold queued. cbn. rewrite map_app. apply elem_of_app. right. by left.
  - intros q Hq. left. unfold queued in *. cbn. rewrite map_app. apply elem_of_app. by left.
Qed.

Lemma queue_scheduled id d : scheduled d -> scheduled (add_cleanup [id] d).
Proof.
  apply scheduled_change; [done|by left|].
  intros q Hq. left. unfold queued in *. cbn. rewrite map_app. apply elem_of_app. by left.
Qed.

(** C5. After [sabridge_unbind_resource] no garbage is lost: the target of the bind it
    removed is in the queue. *)
Theorem unbind_with_gc_scheduled (cfg : ServerConfig) r path s o s' :
  unbind_with_gc r path s = (Ret o, s') -> c_errnum s' = false ->
  scheduled (c_db s) -> scheduled (c_db s').
Proof.
  intros E He Hs. unfold unbind_with_gc in E.
  rewrite obind_run in E. destruct (uri r) as [u|]; cbn [fst snd] in E.
  - rewrite obind_run in E. pose proof (reads_retrieve_parent r path s) as (Hdb & _).
    destruct (sabridge_retrieve_parent r path s) as [[|p] s1]; [done|].
    cbn [fst snd] in *. rewrite obind_run, lift_run in E. cbn [fst snd] in E.
    set (f := delete_bind_stmt (serialno p.1) (serialno r) (basename u)).
    pose proof (update_ok f s1) as Hd.
    unfold dbms_delete_bind in E. rewrite bind_run in E. cbn [fst snd mret M_ret] in E.
    fold f in E. destruct (update f s1) as [[[]|] s2]; cbn [err_of fst snd oret mret M_ret] in E, Hd.
    + rewrite obind_run, lift_run in E. apply (f_equal snd) in E. cbn [snd fst] in E. subst s'.
      destruct (insert_cleanup_reqs_ok [BindItem 0 0 (serialno r) "" 0 None] s2 He) as [He2 Hq].
      cbn [oret mret M_ret snd fst]. rewrite Hq. destruct (Hd He2) as [_ ->]. rewrite Hdb.
      by apply unbind_scheduled.
    + injection E as _ <-. by destruct (Hd He).
  - cbn [oret mret M_ret fst snd] in E. rewrite obind_run, lift_run in E.
    apply (f_equal snd) in E. cbn [snd fst oret mret M_ret] in E. subst s'.
    destruct (insert_cleanup_reqs_ok [BindItem 0 0 (serialno r) "" 0 None] s He) as [_ ->].
    by apply queue_scheduled.
Qed.

(** ** A request the collector cannot serve *)

(** C39. A request at the head of the queue for a garbage version history, or for a
    garbage body whose quota cannot be released, stops the collector for good: no
    later turn changes a table, whatever else the queue holds. *)
Theorem gc_blocked (cfg : ServerConfig) (D : DbdDriver) (L : DbdDriverLaws D) ccc mk n s c :
  first_cleanup (cleanup (c_db s)) = Some c -> c_res c <> 0 ->
  ~ live (c_db s) (c_res c) ->
  type_of (c_res c) (c_db s) = Some dav_repos_VERSIONHISTORY
  \/ release (c_res c) (pop c (c_db s)) = None ->
  c_db (gc_main ccc mk n s).2 = c_db s.
Proof.
  intros Hf Hz Hl Hbad.
  apply (gc_main_keeps ccc mk (fun d => d = c_db s)); [|done].
  intros d d' Hstep ->. exfalso.
  destruct Hstep as [c' F1 F2|c' e F1 F2 F3 F4 F5]; rewrite Hf in F1; injection F1 as <-.
  - by destruct F2.
  - destruct Hbad as [Hb|Hb]; [done|]. congruence.
Qed.
