(* ===== verification/GcLive.v ===== *)
(** * The garbage collector drains its queue

    With a server that refuses nothing and a repository without version control
    whose accounts cover the bodies it holds, every turn of [gc_main] makes a step
    while the queue is not empty, and a measure on the tables decreases: after
    finitely many turns the queue is empty and what is left is what was reachable. *)
From S2P Require Import Prelude Util Db Bind Paths Resource Quota DbmsDeltav Transaction Bridge Gc.
Local Open Scope Z_scope.
Local Open Scope limestone_scope.

(** ** What the deletions need *)

Record collectable (d : db) : Prop := {
  col_plain : forall r, r ∈ resources d ->
    is_version (Some (r_type r)) = false /\ r_type r <> dav_repos_VERSIONHISTORY;
  col_unique : media_unique d;
  col_bodies : forall r, r ∈ resources d -> has_body (Some (r_type r)) = true ->
    is_Some (find_media (r_id r) d);
  col_sizes : forall m, m ∈ media d -> 0 <= m_size m;
  col_covers : quota_covers d
}.

Lemma find_resource_in id d r : find_resource id d = Some r -> r ∈ resources d /\ r_id r = id.
Proof.
  intros H. split; [|by apply (find_resource_id id d)].
  apply List.find_some in H as [H _]. by apply list_elem_of_In.
Qed.

Lemma other_size_nonneg p id d :
  (forall m, m ∈ media d -> 0 <= m_size m) -> 0 <= other_size p id d.
Proof.
  intros H. apply sum_nonneg. intros x (m & <- & [_ Hm]%elem_of_filter_bool)%elem_of_map.
  unfold cost. case_decide; [by apply H|lia].
Qed.

(** The quota statement of a deletion is accepted. *)
Lemma release_accepted id d :
  collectable d -> exists d', release id d = Some (tt, d').
Proof.
  intros [H1 H2 H3 H4 H5]. unfold release.
  destruct (has_body (type_of id d)) eqn:Hb; [|by exists d].
  unfold type_of in Hb. destruct (find_resource id d) as [r|] eqn:Hr; [|done].
  destruct (find_resource_in _ _ _ Hr) as [Hin <-].
  destruct (H3 r Hin Hb) as [m Hm].
  destruct (find_media_split _ _ _ H2 Hm) as (Hid & Hmin & Hone).
  unfold release_quota_stmt. rewrite Hone.
  destruct (charge_accepted (owner_of (r_id r) d) (- m_size m) (quota d)) as [qs ->]; [|by eexists].
  intros q Hq Ho. specialize (H5 q Hq).
  rewrite (owned_size_split _ (r_id r) d m) in H5 by done.
  pose proof (other_size_nonneg (q_prin q) (r_id r) d H4) as Hn.
  unfold cost in H5. rewrite Hid, decide_True in H5 by done. lia.
Qed.

(** A statement that leaves these tables alone. *)
Lemma collectable_same d d' :
  resources d' = resources d -> media d' = media d -> quota d' = quota d ->
  collectable d -> collectable d'.
Proof.
  intros Hr Hm Hq [H1 H2 H3 H4 H5]. split; unfold media_unique, find_media in *;
    rewrite ?Hr, ?Hm; try done.
  intros q. rewrite Hq. intros Hin. specialize (H5 q Hin).
  unfold owned_size in *. rewrite Hm.
  rewrite (sum_ext _ (cost (q_prin q) d)); [done|]. intros. by apply cost_resources.
Qed.

Lemma collectable_cascade id d d' :
  release id d = Some (tt, d') -> collectable d -> collectable (cascade_resource id d').
Proof.
  intros Hrel [H1 H2 H3 H4 H5].
  destruct (release_only_quota _ _ _ Hrel) as (_ & Hr & _ & Hm). split.
  - intros r. rewrite cascade_resources, Hr. intros [_ Hin]%elem_of_filter_bool. auto.
  - unfold media_unique. rewrite cascade_media, Hm. by apply NoDup_map_filter.
  - intros r. rewrite cascade_resources, Hr. intros [Hne Hin]%elem_of_filter_bool Hb.
    destruct (H3 r Hin Hb) as [m Hf]. exists m.
    apply negb_true_iff, bool_decide_eq_false in Hne.
    unfold find_media in *. rewrite cascade_media, Hm, find_filter; [done|].
    intros x Hx%bool_decide_eq_true. apply negb_true_iff, bool_decide_eq_false. congruence.
  - intros m. rewrite cascade_media, Hm. intros [_ Hin]%elem_of_filter_bool. auto.
  - intros q'. rewrite cascade_quota. intros [_ Hq']%elem_of_filter_bool.
    rewrite owned_size_cascade. unfold release in Hrel.
    destruct (has_body (type_of id d)).
    + destruct (release_row _ _ _ _ H2 Hrel Hq') as (q & Hq & Hp & Hrow).
      rewrite Hp. specialize (H5 q Hq). lia.
    + injection Hrel as <-. specialize (H5 q' Hq').
      assert (Hs : owned_size (q_prin q') d
        = sum (map (cost (q_prin q') d)
                (List.filter (fun m => bool_decide (m_res m = id)) (media d)))
          + other_size (q_prin q') id d) by apply sum_split.
      assert (0 <= sum (map (cost (q_prin q') d)
        (List.filter (fun m => bool_decide (m_res m = id)) (media d)))); [|lia].
      apply sum_nonneg. intros x (m & <- & [_ Hin]%elem_of_filter_bool)%elem_of_map.
      unfold cost. case_decide; [by apply H4|lia].
Qed.

Lemma gc_step_collectable d d' : gc_step d d' -> collectable d -> collectable d'.
Proof.
  intros [c F1 F2|c e F1 F2 F3 F4 F5] Hc.
  - apply (collectable_same d); auto using pop_resources, pop_media, pop_quota.
  - apply (collectable_same (cascade_resource (c_res c) e));
      auto using add_cleanup_resources, add_cleanup_media, add_cleanup_quota.
    apply (collectable_cascade _ (pop c d)); [done|].
    apply (collectable_same d); auto using pop_resources, pop_media, pop_quota.
Qed.

(** ** A turn with no refusal to come *)

Definition clean (s : conn) : Prop := c_faults s = [] /\ c_errnum s = false.

Lemma reads_clean {A} (m : M A) s : Reads m -> clean s -> clean (m s).2.
Proof. intros Hm [H1 H2]. destruct (Hm s) as (_ & _ & _ & H). destruct (H H1). by split; congruence. Qed.

Lemma execute_clean {R} (stmt : db -> option (R * db)) s r d :
  clean s -> stmt (c_db s) = Some (r, d) ->
  (execute stmt s).1 = Some r /\ clean (execute stmt s).2 /\ c_db (execute stmt s).2 = d.
Proof. intros [H1 H2] Hd. by rewrite (execute_accepted stmt s r d). Qed.

Lemma update_clean f s :
  clean s -> (update f s).1 = Some tt /\ clean (update f s).2 /\ c_db (update f s).2 = f (c_db s).
Proof. intros H. by apply execute_clean. Qed.

Lemma next_cleanup_clean s : clean s -> clean (dbms_next_cleanup_req s).2.
Proof.
  intros H. unfold dbms_next_cleanup_req. rewrite bind_run.
  pose proof (reads_clean _ s (reads_select (fun d => first_cleanup (cleanup d))) H) as H1.
  destruct (select _ s) as [[[c|]|] s1]; cbn [fst snd] in *; try done.
  case_bool_decide; [|done]. rewrite bind_run. cbn [fst snd mret M_ret]. by apply update_clean.
Qed.

Lemma insert_cleanup_clean l s : clean s -> clean (dbms_insert_cleanup_reqs l s).2.
Proof.
  intros H. unfold dbms_insert_cleanup_reqs. destruct l as [|b l]; [done|].
  rewrite bind_run. cbn [fst snd mret M_ret]. by apply update_clean.
Qed.

Lemma remove_body_clean {cfg : ServerConfig} r s :
  clean s -> clean (sabridge_remove_body_from_disk r s).2
             /\ c_db (sabridge_remove_body_from_disk r s).2 = c_db s.
Proof.
  intros H. split; [|by apply remove_body_run].
  unfold sabridge_remove_body_from_disk. destruct keep_files; [done|]. rewrite bind_run.
  pose proof (reads_clean _ s (reads_num_sha1_resources (sha1str r)) H) as H1.
  case_bool_decide; [|done]. by destruct (sha1str r).
Qed.

Lemma delete_resource_clean r s d' :
  clean s ->
  (if has_body (resourcetype r) then release_quota_stmt (serialno r) (c_db s)
   else Some (tt, c_db s)) = Some (tt, d') ->
  clean (dbms_delete_resource r s).2 /\ (dbms_delete_resource r s).1 = None.
Proof.
  intros Hs Hrel. unfold dbms_delete_resource. rewrite bind_run.
  destruct (has_body (resourcetype r)).
  - destruct (execute_clean _ s _ _ Hs Hrel) as (-> & H2 & _). rewrite bind_run.
    cbn [fst snd mret M_ret]. by destruct (update_clean (cascade_resource (serialno r)) _ H2)
      as (-> & ? & _).
  - cbn [fst snd mret M_ret]. rewrite bind_run. cbn [fst snd mret M_ret].
    by destruct (update_clean (cascade_resource (serialno r)) _ Hs) as (-> & ? & _).
Qed.

Section turn.
Context {cfg : ServerConfig} {D : DbdDriver} {L : DbdDriverLaws D} {K : DriverAccepts D}.
Variable ccc : dav_repos_resource -> M (outcome (option dav_error)).
Variable mk : Z -> string.

(** A deletion goes through. *)
Lemma delete_clean r s d' :
  clean s -> resourcetype r <> Some dav_repos_VERSIONHISTORY ->
  (if has_body (resourcetype r) then release_quota_stmt (serialno r) (c_db s)
   else Some (tt, c_db s)) = Some (tt, d') ->
  (sabridge_delete_resource ccc mk r s).1 = Ret None
  /\ clean (sabridge_delete_resource ccc mk r s).2.
Proof.
  intros Hs Ht Hrel. unfold sabridge_delete_resource. rewrite obind_run.
  assert (Hb : exists s1, delete_dependents ccc mk r s = (Ret None, s1) /\ clean s1
                 /\ c_db s1 = c_db s).
  { unfold delete_dependents. destruct (remove_body_clean r s Hs) as [H1 H2].
    destruct (resourcetype r) as [[]|]; try done; try (by exists s);
      rewrite obind_run, lift_run; cbn; eexists; split_and!; eauto; apply H1. }
  destruct Hb as (s1 & -> & H1 & H2). cbn [fst snd]. rewrite lift_run. cbn [fst snd].
  rewrite <- H2 in Hrel. by destruct (delete_resource_clean r s1 d' H1 Hrel) as [? ->].
Qed.

Lemma gc_body_clean s :
  clean s -> collectable (c_db s) ->
  exists idle s', gc_body ccc mk s = (Ret idle, s') /\ clean s'.
Proof.
  intros Hs Hc. unfold gc_body. rewrite bind_run.
  pose proof (next_cleanup_clean s Hs) as H1. pose proof (next_cleanup_ok s) as Hn.
  destruct (dbms_next_cleanup_req s) as [req s1]. cbn [fst snd] in *.
  assert (Hc1 : collectable (c_db s1)).
  { destruct (Hn (proj2 H1)) as [(_ & -> & _)|(c & _ & _ & ->)]; [done|].
    apply (collectable_same (c_db s)); auto using pop_resources, pop_media, pop_quota. }
  case_bool_decide as Hreq; [by exists true, s1|].
  rewrite obind_run.
  assert (Hty : is_version (r_type <$> find_resource req.2 (c_db s1)) = false
                /\ (r_type <$> find_resource req.2 (c_db s1)) <> Some dav_repos_VERSIONHISTORY).
  { destruct (find_resource req.2 (c_db s1)) as [r|] eqn:Hr; [|done].
    destruct (find_resource_in _ _ _ Hr) as [Hin _].
    destruct (col_plain _ Hc1 r Hin). split; cbn; congruence. }
  destruct Hty as [Hty1 Hty2].
  destruct (get_property_no_crash req.2 s1 Hreq (proj1 H1) Hty1) as [p Hp].
  pose proof (reads_clean _ s1 (reads_get_property (set_serialno req.2 zero_dbr)) H1) as H2.
  pose proof (reads_get_property (set_serialno req.2 zero_dbr) s1) as (D2 & _).
  destruct (sabridge_get_property _ s1) as [o2 s2] eqn:E2. cbn [fst snd] in Hp, H2, D2 |- *.
  subst o2. destruct (get_property_by_id _ _ _ _ Hreq E2) as (P1 & P2 & P3).
  destruct (P3 (proj2 H2)) as [P4 _]. rewrite bind_run.
  pose proof (reads_clean _ s2 (reads_get_child_binds (serialno p.2) true) H2) as H3.
  pose proof (reads_get_child_binds (serialno p.2) true s2) as (D3 & _).
  destruct (dbms_get_child_binds _ _ s2) as [ch s3]. cbn [fst snd] in *.
  rewrite obind_run. unfold sabridge_delete_if_orphaned. rewrite bind_run.
  pose proof (reads_clean _ s3 (reads_find_shortest_path ROOT_COLLECTION_ID (serialno p.2)) H3)
    as H4.
  pose proof (shortest_path_quiet ROOT_COLLECTION_ID (serialno p.2) s3) as Hq.
  pose proof (reads_find_shortest_path ROOT_COLLECTION_ID (serialno p.2) s3) as (D4 & _).
  destruct (dbms_find_shortest_path _ _ s3) as [[[e|] [path|]] s4]; cbn [fst snd] in *;
    [by destruct (Hq e (Some path) (proj1 H3))|by destruct (Hq e None (proj1 H3))
    |by exists false, s4|].
  rewrite obind_run.
  destruct (release_accepted req.2 (c_db s1) Hc1) as [d' Hrel].
  destruct (delete_clean p.2 s4 d' H4) as [K1 K2].
  { by rewrite P4. }
  { rewrite P4, P1, D4, D3, D2. exact Hrel. }
  destruct (sabridge_delete_resource ccc mk p.2 s4) as [o5 s5]. cbn [fst snd] in *. subst o5.
  cbn. rewrite bind_run. cbn. eexists _, _. split; [reflexivity|].
  by apply insert_cleanup_clean.
Qed.

(** One turn: nothing with an empty queue, a step otherwise. *)
Lemma gc_turn_progress s :
  quiet s -> collectable (c_db s) ->
  quiet (gc_turn ccc mk s).2 /\
  ((c_db (gc_turn ccc mk s).2 = c_db s /\ first_cleanup (cleanup (c_db s)) = None)
   \/ gc_step (c_db s) (c_db (gc_turn ccc mk s).2)).
Proof.
  intros Hs Hc. unfold gc_turn. rewrite bind_run.
  destruct (transaction_start_run s) as (s0 & -> & Hdb & _ & Hq). cbn [fst snd].
  destruct (Hq Hs (start_accepted s)) as [Hq0 He0]. rewrite decide_True by apply start_accepted.
  rewrite bind_run. rewrite <- Hdb in Hc |- *.
  destruct (gc_body_clean s0) as (idle & s1 & E & H1 & H2); [by split|done|].
  pose proof (gc_body_step ccc mk s0 idle s1 E H2) as Hstep.
  rewrite E. cbn [fst snd]. rewrite bind_run. cbn [fst snd mret M_ret dbms_transaction_mode_set].
  unfold dbms_transaction_end. rewrite H2.
  pose proof (end_commit (c_db s0) (c_db s1)) as Hend. pose proof (commit_accepted (c_db s0) (c_db s1)) as Hrc.
  destruct (apr_dbd_transaction_end _ _ _ _) as [rc d']. cbn in Hrc |- *. rewrite Hrc in Hend. subst d'.
  rewrite decide_True by done. by split.
Qed.
End turn.

(** ** The measure *)

Lemma length_filter_le {A} (f : A -> bool) (l : list A) :
  (length (List.filter f l) <= length l)%nat.
Proof. induction l as [|x l IH]; cbn; [done|]. destruct (f x); cbn; lia. Qed.

Lemma length_filter_lt {A} (f : A -> bool) (l : list A) x :
  x ∈ l -> f x = false -> (length (List.filter f l) < length l)%nat.
Proof.
  induction l as [|y l IH]; cbn; [set_solver|]. pose proof (length_filter_le f l).
  intros [<-|Hx]%elem_of_cons Hf; [rewrite Hf; lia|].
  specialize (IH Hx Hf). destruct (f y); cbn; lia.
Qed.

(** Resources and binds first, then the requests of the queue. *)
Definition graph_size (d : db) : nat := (length (resources d) + length (binds d))%nat.

Lemma pop_shorter c d :
  queue_wf d -> first_cleanup (cleanup d) = Some c ->
  (length (cleanup (pop c d)) < length (cleanup d))%nat.
Proof.
  intros [_ Hb] Hf. pose proof (first_cleanup_in _ _ Hf) as Hin.
  unfold pop. rewrite bool_decide_true by (destruct (Hb c Hin); lia). cbn.
  apply (length_filter_lt _ _ c Hin). by rewrite bool_decide_true.
Qed.

Lemma gc_step_decreases d d' :
  gc_step d d' -> queue_wf d ->
  (graph_size d' < graph_size d)%nat
  \/ (graph_size d' = graph_size d /\ length (cleanup d') < length (cleanup d))%nat.
Proof.
  intros Hstep Hwf. destruct Hstep as [c F1 F2|c e F1 F2 F3 F4 F5].
  - right. unfold graph_size. rewrite pop_resources, pop_binds. split; [done|].
    by apply pop_shorter.
  - destruct (collected_graph c d e (c_res c) (remove_dups (children (c_res c) d)) F5)
      as [HB HR].
    destruct (release_only_quota _ _ _ F5) as (_ & _ & Hc & _).
    unfold graph_size. rewrite HB, HR.
    pose proof (length_filter_le (fun r => negb (bool_decide (r_id r = c_res c))) (resources d)).
    set (f := fun b => negb (bool_decide (b_coll b = c_res c \/ b_res b = c_res c))).
    pose proof (length_filter_le f (binds d)).
    destruct (children (c_res c) d) as [|x l] eqn:Hch.
    + cbn [remove_dups add_cleanup]. rewrite cascade_cleanup, Hc.
      pose proof (length_filter_le (fun x => negb (bool_decide (c_res x = c_res c)))
        (cleanup (pop c d))).
      pose proof (pop_shorter c d Hwf F1). lia.
    + left. assert (Hx : x ∈ children (c_res c) d) by (rewrite Hch; left).
      apply children_in in Hx as (b & Hb & Hcoll & _ & _).
      pose proof (length_filter_lt f (binds d) b Hb ltac:(unfold f;
        by rewrite bool_decide_true by (by left))). lia.
Qed.

(** Steps take binds away and add none. *)
Lemma gc_step_live_back d d' x : gc_step d d' -> live d' x -> live d x.
Proof.
  unfold live. intros [c F1 F2|c e F1 F2 F3 F4 F5].
  - by rewrite pop_binds.
  - destruct (collected_graph c d e (c_res c) (remove_dups (children (c_res c) d)) F5)
      as [-> _]. apply reaches_mono. intros b Hb. by apply elem_of_filter_bool in Hb as [_ Hb].
Qed.

Lemma gc_drains (cfg : ServerConfig) (D : DbdDriver) (L : DbdDriverLaws D) (K : DriverAccepts D) ccc mk s :
  quiet s -> gc_inv (c_db s) -> collectable (c_db s) ->
  exists n, let d := c_db (gc_main ccc mk n s).2 in
    cleanup d = []
    /\ (forall x, present d x -> present (c_db s) x)
    /\ (forall x, live d x -> live (c_db s) x).
Proof.
  remember (graph_size (c_db s)) as g eqn:Hg.
  remember (length (cleanup (c_db s))) as k eqn:Hk.
  revert k s Hg Hk. induction g as [g IHg] using lt_wf_ind.
  intros k. induction k as [k IHk] using lt_wf_ind. intros s -> -> Hq Hinv Hcol.
  destruct (gc_turn_progress ccc mk s Hq Hcol) as [Hq' [[_ He]|Hstep]].
  - exists 0%nat. split_and!; [|done|done]. cbn.
    destruct (cleanup (c_db s)) as [|c l]; [done|]. cbn in He.
    destruct (first_cleanup l); [by case_bool_decide|done].
  - pose proof (gc_step_inv _ _ Hstep Hinv) as Hinv'.
    pose proof (gc_step_collectable _ _ Hstep Hcol) as Hcol'.
    assert (Hnext : exists n, let d := c_db (gc_main ccc mk n (gc_turn ccc mk s).2).2 in
      cleanup d = []
      /\ (forall x, present d x -> present (c_db (gc_turn ccc mk s).2) x)
      /\ (forall x, live d x -> live (c_db (gc_turn ccc mk s).2) x)).
    { destruct (gc_step_decreases _ _ Hstep (inv_queue _ Hinv)) as [Hlt|[Heq Hlt]].
      - by apply (IHg _ Hlt _ (gc_turn ccc mk s).2 eq_refl eq_refl).
      - by apply (IHk _ Hlt (gc_turn ccc mk s).2 (eq_sym Heq) eq_refl). }
    destruct Hnext as (n & H1 & H2 & H3). exists (S n). cbn [gc_main]. rewrite bind_run.
    split_and!; [done| |].
    + intros x Hx. by apply (gc_step_shrinks _ _ _ Hstep), H2.
    + intros x Hx. by apply (gc_step_live_back _ _ _ Hstep), H3.
Qed.

(** C4. With a server that refuses nothing and tables on which no deletion fails (no versions and
    no histories, a body in [media] for every resource that has one, accounts that cover the
    bodies), finitely many turns collect all the garbage, cycles included, and nothing
    else: the queue is then empty, and the resources left are exactly those that were there
    and reachable from the root.  [gc_blocked] shows what happens without this. *)
Theorem gc_main_collects (cfg : ServerConfig) (D : DbdDriver) (L : DbdDriverLaws D)
    (K : DriverAccepts D) ccc mk s :
  quiet s -> gc_inv (c_db s) -> collectable (c_db s) ->
  exists n, let d := c_db (gc_main ccc mk n s).2 in
    cleanup d = []
    /\ forall x, present d x <-> present (c_db s) x /\ live (c_db s) x.
Proof.
  intros Hq Hinv Hcol.
  destruct (gc_drains cfg D L K ccc mk s Hq Hinv Hcol) as (n & H1 & H2 & H3).
  exists n. split; [done|]. intros x. split.
  - intros Hx. split; [by apply H2|]. apply H3.
    assert (Hd : gc_inv (c_db (gc_main ccc mk n s).2)).
    { apply (gc_main_keeps ccc mk gc_inv); [exact gc_step_inv|exact Hinv]. }
    destruct (decide (live (c_db (gc_main ccc mk n s).2) x)) as [|Hn]; [done|].
    destruct (inv_scheduled _ Hd x Hx Hn) as (q & Hqd & _).
    unfold queued in Hqd. rewrite H1 in Hqd. set_solver.
  - intros [Hp Hl].
    apply (gc_main_keeps ccc mk (fun d => live d x /\ present d x)); [|done].
    intros d d' Hstep [Hl' Hp']. destruct (gc_step_safe _ _ _ Hstep Hl'). auto.
Qed.
