(* ===== verification/Bodies.v ===== *)
(** * Bodies on disk

    The bodies are shared files named by their sha1; [sabridge_delete_resource]
    removes a file when one row of [media] is left that names it.  This file proves
    that a deletion which commits leaves every other body its file, and that one
    which is rolled back does not: the file is removed before the statement. *)
From S2P Require Import Prelude Util Db Bind Paths Resource Quota DbmsDeltav Transaction Bridge Gc GcLive.
Local Open Scope Z_scope.
Local Open Scope limestone_scope.

(** Every body of [media] has its file. *)
Definition bodies_stored (d : db) (files : list string) : Prop :=
  forall m, m ∈ media d -> m_sha1 m ∈ files.

Lemma length_one_unique {A} (f : A -> bool) (l : list A) x y :
  length (List.filter f l) = 1%nat -> x ∈ l -> y ∈ l -> f x = true -> f y = true -> x = y.
Proof.
  intros H Hx Hy Hfx Hfy.
  assert (Hx' : x ∈ List.filter f l) by (by apply elem_of_filter_bool).
  assert (Hy' : y ∈ List.filter f l) by (by apply elem_of_filter_bool).
  destruct (List.filter f l) as [|z [|]]; cbn in H; try lia.
  apply list_elem_of_singleton in Hx', Hy'. congruence.
Qed.

(** What is left of the files once the body of [r] was looked at. *)
Lemma remove_body_files {cfg : ServerConfig} r s f :
  f ∈ c_files s ->
  f ∈ c_files (sabridge_remove_body_from_disk r s).2
  \/ (sha1str r = Some f
      /\ length (List.filter (fun m => bool_decide (Some (m_sha1 m) = sha1str r))
                   (media (c_db s))) = 1%nat).
Proof.
  intros Hf. unfold sabridge_remove_body_from_disk. destruct keep_files; [by left|].
  rewrite bind_run. pose proof (reads_num_sha1_resources (sha1str r) s) as (_ & _ & [Hfs _] & _).
  assert (Hn : (dbms_num_sha1_resources (sha1str r) s).1 = 1 ->
    length (List.filter (fun m => bool_decide (Some (m_sha1 m) = sha1str r))
              (media (c_db s))) = 1%nat).
  { unfold dbms_num_sha1_resources. rewrite bind_run. cbn [fst snd mret M_ret].
    pose proof (select_result (fun d => length (List.filter (fun m =>
      bool_decide (Some (m_sha1 m) = sha1str r)) (media d))) s) as H.
    destruct (select _ s) as [[k|] ?]; cbn in *; [|lia].
    rewrite <- (H k eq_refl). lia. }
  case_bool_decide as H1; [|left; cbn [mret M_ret fst snd]; by rewrite Hfs].
  destruct (sha1str r) as [h|] eqn:Hh; [|left; cbn [mret M_ret fst snd]; by rewrite Hfs].
  unfold remove_sha1_file. rewrite bind_run. cbn. rewrite Hfs.
  destruct (decide (f = h)) as [->|Hne]; [right; by auto|].
  left. apply elem_of_filter_bool. split; [|done].
  by rewrite (proj2 (String.eqb_neq f h) Hne).
Qed.

(** A deletion none of whose statements failed leaves its file to every body that
    is still in the table, as long as the record names the body of its resource. *)
Theorem delete_resource_keeps_bodies (cfg : ServerConfig) ccc mk r s o s' :
  has_resource r = false ->
  sha1str r = m_sha1 <$> find_media (serialno r) (c_db s) ->
  sabridge_delete_resource ccc mk r s = (Ret o, s') -> c_errnum s' = false ->
  bodies_stored (c_db s) (c_files s) -> bodies_stored (c_db s') (c_files s').
Proof.
  intros Hr Hsha E He Hst.
  destruct (delete_resource_no_resource _ _ _ _ _ _ Hr E He) as (_ & _ & Ht & d' & Hd & Hdb).
  assert (Hmed : media d' = media (c_db s)).
  { destruct (has_body (resourcetype r)); [|by injection Hd as <-].
    unfold release_quota_stmt in Hd. repeat case_match; simplify_eq; done. }
  intros m Hm. rewrite Hdb, cascade_media, Hmed in Hm.
  apply elem_of_filter_bool in Hm as [Hne Hm].
  apply negb_true_iff, bool_decide_eq_false in Hne.
  unfold sabridge_delete_resource in E. rewrite obind_run in E.
  assert (Hdep : exists s1, delete_dependents ccc mk r s = (Ret None, s1)
    /\ m_sha1 m ∈ c_files s1).
  { unfold delete_dependents.
    assert (Hbody : m_sha1 m ∈ c_files (sabridge_remove_body_from_disk r s).2).
    { destruct (remove_body_files r s (m_sha1 m) (Hst m Hm)) as [?|[H1 H2]]; [done|].
      exfalso. rewrite Hsha in H1.
      destruct (find_media (serialno r) (c_db s)) as [m0|] eqn:Hm0; [|done].
      injection H1 as H1. unfold find_media in Hm0.
      pose proof (List.find_some _ _ Hm0) as [Hin Hid%bool_decide_eq_true].
      apply list_elem_of_In in Hin. rewrite Hsha in H2.
      assert (m = m0) as ->; [|by destruct Hne].
      apply (length_one_unique _ _ _ _ H2 Hm Hin); cbn; apply bool_decide_eq_true; congruence. }
    destruct (resourcetype r) as [[]|]; try done; try (by exists s; auto);
      rewrite obind_run, lift_run; cbn; eexists; split; eauto. }
  destruct Hdep as (s1 & Hdep & Hf). rewrite Hdep in E. cbn [fst snd] in E.
  rewrite lift_run in E. apply (f_equal snd) in E. cbn [snd] in E. subst s'.
  assert (Hfiles : c_files (dbms_delete_resource r s1).2 = c_files s1); [|by rewrite Hfiles].
  unfold dbms_delete_resource. rewrite bind_run.
  destruct (has_body (resourcetype r)); cbn [fst snd mret M_ret].
  - pose proof (execute_files (release_quota_stmt (serialno r)) s1) as Hx.
    destruct (execute _ s1) as [[|] s2]; cbn [fst snd] in *; [|done].
    rewrite bind_run. cbn [fst snd mret M_ret]. by unfold update; rewrite execute_files.
  - rewrite bind_run. cbn [fst snd mret M_ret]. by unfold update; rewrite execute_files.
Qed.

(** The file is removed before the statement that deletes the row: when the
    server refuses the DELETE and the transaction is rolled back, the resource and
    its row of [media] are there as before, and the body is lost. *)
Theorem rolled_back_deletion_loses_body (D : DbdDriver) (L : DbdDriverLaws D) ccc mk :
  exists (cfg : ServerConfig) r s,
    let s' := (sabridge_delete_resource ccc mk r s).2 in
    let after := (apr_dbd_transaction_end DAV_TRANSACTION_COMMIT (c_errnum s')
                    (c_db s) (c_db s')).2 in
    bodies_stored (c_db s) (c_files s)
    /\ after = c_db s /\ ~ bodies_stored after (c_files s').
Proof.
  set (d := set_media [MediaRow 9 10 (Some "text/plain"%string) "abc" 0]
              (set_resources [ResourceRow 9 "" dav_repos_RESOURCE 5 5 "" 0 0 "en-US" None] empty_db)).
  exists sample_config, (set_serialno 9 (set_sha1str (Some "abc"%string)
    (set_resourcetype (Some dav_repos_RESOURCE) zero_dbr))),
    (Conn d [false; false; true] 0 ["abc"%string] false).
  cbv zeta. split_and!.
  - intros m ->%list_elem_of_singleton. by left.
  - apply end_error.
  - set (s' := (sabridge_delete_resource _ _ _ _).2).
    assert (Hs : c_errnum s' = true /\ c_files s' = []) by (split; vm_compute; reflexivity).
    destruct Hs as [-> Hf]. rewrite end_error, Hf. intros H.
    specialize (H (MediaRow 9 10 (Some "text/plain"%string) "abc" 0) ltac:(by left)). set_solver.
Qed.
