(* ===== verification/GcExamples.v ===== *)
(** * A small repository for the witnesses of the collector

    The root holds one document and, out of reach, a collection with a document
    below it; the collection is in the queue. *)
From S2P Require Import Prelude Util Db Bind Paths Resource Quota DbmsDeltav Transaction Bridge Gc GcLive Bodies.
Local Open Scope Z_scope.
Local Open Scope limestone_scope.

Definition sample_resource (id : Z) (t : dav_repos_type) : resource_row :=
  ResourceRow id "" t 5 5 "" 0 0 "en-US" None.

Definition sample_db : db :=
  set_sequences (Sequences 100 100 100 1 1 1)
  (set_cleanup [CleanupRow 7 20]
  (set_quota [QuotaRow 5 30 1000]
  (set_media [MediaRow 9 10 (Some "text/plain"%string) "abc" 0; MediaRow 21 20 (Some "text/plain"%string) "def" 0]
  (set_binds [BindRow 1 "doc" 2 9 0; BindRow 2 "old" 20 21 0]
  (set_resources [sample_resource 2 dav_repos_COLLECTION; sample_resource 9 dav_repos_RESOURCE;
                  sample_resource 20 dav_repos_COLLECTION;
                  sample_resource 21 dav_repos_RESOURCE] empty_db))))).

Definition sample_conn : conn := Conn sample_db [] 0 ["abc"; "def"]%string false.

Definition sample_crash (r : dav_repos_resource) : M (outcome (option dav_error)) := mret Crash.
Definition sample_uri (n : Z) : string := "/v"%string.

(** The turns on this repository, evaluated. *)
Example sample_turns :
  let d := c_db (@gc_main sample_config sample_driver sample_crash sample_uri 3 sample_conn).2 in
  map r_id (resources d) = [2; 9] /\ cleanup d = []
  /\ quota d = [QuotaRow 5 10 1000]
  /\ c_files (@gc_main sample_config sample_driver sample_crash sample_uri 3 sample_conn).2
     = ["abc"%string].
Proof. vm_compute. done. Qed.

Lemma sample_live : live sample_db 9.
Proof. apply (reaches_step (binds sample_db) (BindRow 1 "doc" 2 9 0)). by left. Qed.

Lemma sample_inv : gc_inv sample_db.
Proof.
  split.
  - split; [by apply NoDup_singleton|]. intros c ->%list_elem_of_singleton. cbn. lia.
  - unfold queued. cbn. intros H%list_elem_of_singleton. done.
  - intros b [->|[->|H]%elem_of_cons]%elem_of_cons; [done|done|set_solver].
  - intros x Hx Hl. unfold present in Hx. cbn in Hx.
    assert (Hx' : x = 2 \/ x = 9 \/ x = 20 \/ x = 21) by set_solver.
    destruct Hx' as [->|[->|[->| ->]]].
    + destruct Hl. apply reaches_refl.
    + destruct Hl. apply sample_live.
    + exists 20. split; [by left|apply reaches_refl].
    + exists 20. split; [by left|].
      apply (reaches_step (binds sample_db) (BindRow 2 "old" 20 21 0)). right. by left.
Qed.

Lemma sample_collectable : collectable sample_db.
Proof.
  split.
  - intros r Hr. assert (r_type r = dav_repos_COLLECTION \/ r_type r = dav_repos_RESOURCE)
      as [-> | ->] by set_solver; done.
  - unfold media_unique. cbn. apply NoDup_cons. split; [set_solver|apply NoDup_singleton].
  - intros r Hr Hb.
    assert (r = sample_resource 2 dav_repos_COLLECTION \/ r = sample_resource 9 dav_repos_RESOURCE
      \/ r = sample_resource 20 dav_repos_COLLECTION \/ r = sample_resource 21 dav_repos_RESOURCE)
      as [->|[->|[->| ->]]] by set_solver; cbn in Hb |- *; try done; by eexists.
  - intros m Hm. assert (m_size m = 10 \/ m_size m = 20) as [-> | ->] by set_solver; lia.
  - intros q ->%list_elem_of_singleton. vm_compute. done.
Qed.

(** ** Witnesses *)

Lemma gc_main_safe_witness :
  live (c_db (@gc_main sample_config sample_driver sample_crash sample_uri 3 sample_conn).2) 9
  /\ present (c_db (@gc_main sample_config sample_driver sample_crash sample_uri 3 sample_conn).2) 9.
Proof.
  apply (gc_main_safe sample_config sample_driver sample_driver_laws sample_crash sample_uri 3
           sample_conn 9 sample_live).
  unfold present. vm_compute. right. left.
Defined.

Lemma gc_main_scheduled_witness :
  gc_inv (c_db (@gc_main sample_config sample_driver sample_crash sample_uri 1 sample_conn).2).
Proof.
  apply (gc_main_scheduled sample_config sample_driver sample_driver_laws sample_crash
           sample_uri 1 sample_conn sample_inv).
Defined.

Lemma gc_main_collects_witness :
  exists n, let d := c_db (@gc_main sample_config sample_driver sample_crash sample_uri n
                             sample_conn).2 in
    cleanup d = [] /\ forall x, present d x <-> present sample_db x /\ live sample_db x.
Proof.
  apply (gc_main_collects sample_config sample_driver sample_driver_laws sample_driver_accepts sample_crash
           sample_uri sample_conn eq_refl sample_inv sample_collectable).
Defined.

(** The document is unbound: the record the request has. *)
Definition sample_dbr : dav_repos_resource :=
  set_serialno 9 (set_uri (Some "/doc"%string) (set_has_resource true zero_dbr)).

Lemma unbind_with_gc_scheduled_witness :
  exists r s', @unbind_with_gc sample_config sample_dbr None sample_conn = (Ret (None, r), s')
    /\ binds (c_db s') = [BindRow 2 "old" 20 21 0] /\ scheduled (c_db s').
Proof.
  eexists _, _. split; [vm_compute; reflexivity|]. split; [reflexivity|].
  eapply (unbind_with_gc_scheduled sample_config sample_dbr None sample_conn).
  - vm_compute. reflexivity.
  - reflexivity.
  - apply (inv_scheduled _ sample_inv).
Defined.

(** The same repository with a version history in place of the collection. *)
Definition blocked_db : db :=
  set_resources [sample_resource 2 dav_repos_COLLECTION; sample_resource 9 dav_repos_RESOURCE;
                 sample_resource 20 dav_repos_VERSIONHISTORY;
                 sample_resource 21 dav_repos_RESOURCE] sample_db.

Lemma gc_blocked_witness :
  c_db (@gc_main sample_config sample_driver sample_crash sample_uri 5
          (Conn blocked_db [] 0 [] false)).2 = blocked_db.
Proof.
  apply (gc_blocked sample_config sample_driver sample_driver_laws sample_crash sample_uri 5
           (Conn blocked_db [] 0 [] false) (CleanupRow 7 20)).
  - reflexivity.
  - discriminate.
  - intros H. unfold live in H. destruct H as [ns H].
    assert (Hin : forall c r ns, bind_path (binds blocked_db) c ns r -> c = 2 \/ c = 9 ->
              r = 2 \/ r = 9).
    { clear. induction 1 as [c|b ns r Hb Hp IH]; [done|]. intros Hc. apply IH.
      assert (b = BindRow 1 "doc" 2 9 0 \/ b = BindRow 2 "old" 20 21 0) as [->| ->]
        by set_solver; cbn in Hc |- *; lia. }
    destruct (Hin _ _ _ H) as [He|He]; [by left|discriminate He|discriminate He].
  - left. reflexivity.
Defined.

Definition sample_body_dbr : dav_repos_resource :=
  set_serialno 21 (set_sha1str (Some "def"%string)
    (set_resourcetype (Some dav_repos_RESOURCE) zero_dbr)).

Lemma sample_bodies : bodies_stored sample_db ["abc"; "def"]%string.
Proof.
  intros m Hm.
  assert (m_sha1 m = "abc"%string \/ m_sha1 m = "def"%string) as [-> | ->] by set_solver;
    set_solver.
Qed.

Lemma delete_resource_keeps_bodies_witness :
  exists s', @sabridge_delete_resource sample_config sample_crash sample_uri sample_body_dbr
               sample_conn = (Ret None, s')
    /\ c_files s' = ["abc"%string] /\ bodies_stored (c_db s') (c_files s').
Proof.
  eexists. split; [vm_compute; reflexivity|]. split; [reflexivity|].
  apply (delete_resource_keeps_bodies sample_config sample_crash sample_uri sample_body_dbr
           sample_conn None).
  - reflexivity.
  - reflexivity.
  - vm_compute. reflexivity.
  - reflexivity.
  - exact sample_bodies.
Defined.

Lemma rolled_back_deletion_loses_body_witness :
  exists (cfg : ServerConfig) r s,
    let s' := (sabridge_delete_resource sample_crash sample_uri r s).2 in
    let after := (@apr_dbd_transaction_end sample_driver DAV_TRANSACTION_COMMIT (c_errnum s')
                    (c_db s) (c_db s')).2 in
    bodies_stored (c_db s) (c_files s)
    /\ after = c_db s /\ ~ bodies_stored after (c_files s').
Proof.
  apply (rolled_back_deletion_loses_body sample_driver sample_driver_laws).
Defined.

Lemma sample_exact : quota_exact (fun _ => 0) sample_db.
Proof. intros q ->%list_elem_of_singleton. vm_compute. reflexivity. Qed.

Lemma media_operations_quota_exact_witness :
  let r := set_serialno 9 (set_sha1str (Some "abc"%string) (set_getcontentlength 77 zero_dbr)) in
  quota_exact (fun _ => 0) (c_db (dbms_update_media_props r sample_conn).2)
  /\ quota (c_db (dbms_update_media_props r sample_conn).2) = [QuotaRow 5 97 1000].
Proof.
  cbv zeta. split; [|vm_compute; reflexivity].
  apply (media_operations_quota_exact (fun _ => 0)
           (set_serialno 9 (set_sha1str (Some "abc"%string) (set_getcontentlength 77 zero_dbr)))
           zero_dbr sample_conn sample_exact (col_unique _ sample_collectable)).
Defined.

Lemma delete_resource_quota_exact_witness :
  quota_exact (fun _ => 0) (c_db (dbms_delete_resource sample_body_dbr sample_conn).2)
  /\ quota (c_db (dbms_delete_resource sample_body_dbr sample_conn).2) = [QuotaRow 5 10 1000].
Proof.
  split; [|vm_compute; reflexivity].
  apply (delete_resource_quota_exact (fun _ => 0) sample_body_dbr sample_conn sample_exact
           (col_unique _ sample_collectable)).
  - left. reflexivity.
  - vm_compute. reflexivity.
Defined.
