(* ===== verification/Unbind.v ===== *)
(** * Removing binds without the collector ([bridge.c])

    [sabridge_unbind_resource] removes one bind and then, unless the collector does it,
    deletes what became unreachable, collection by collection; the clearing of a
    collection and the deletion of a version history call it again. *)
From S2P Require Import Prelude Util Dbd Db Bind Paths Resource DbmsDeltav Bridge Users Properties Acl Listing Request Create Versions Gc.
Local Open Scope Z_scope.
Local Open Scope limestone_scope.

Section unbind.
Context {cfg : ServerConfig}.

(** The children of a collection, one level and without access control. *)
Definition list_children (r : dav_repos_resource)
  : M (outcome (dav_error + list dav_repos_resource)) :=
  c <- sabridge_get_collection_children r 1 None ;;
  oret (match c with inl e => inl e | inr (l, _) => inr l end).

Section loop.
Variable sabridge_coll_clear_children : dav_repos_resource -> M (outcome (option dav_error)).

(** One turn of the loop: the error, or the records that are appended to the list. *)
Definition unbind_turn (iter : dav_repos_resource)
  : M (outcome (dav_error + list dav_repos_resource)) :=
  children <- (if is_collection (resourcetype iter) then list_children iter
               else oret (inr [])) ;;
  match children with
  | inl e => oret (inl e)
  | inr children =>
      e <- (match uri iter with
            | Some u => lift (dbms_delete_bind (dbr_parent_id iter) (serialno iter) (basename u))
            | None => oret None
            end) ;;
      match e with
      | Some e => oret (inl e)
      | None =>
          deleted <- sabridge_delete_if_orphaned sabridge_coll_clear_children
                       (sabridge_mk_version_uri iter) iter ;;
          oret (match deleted with
                | inl e => inl e
                | inr deleted => inr (if deleted : bool then children else [])
                end)
      end
  end.

(** The loop over the list, with [None] for an exhausted fuel. *)
Fixpoint unbind_loop (fuel : nat) (queue : list dav_repos_resource)
  : M (outcome (option (option dav_error))) :=
  match fuel, queue with
  | _, [] => oret (Some None)
  | O, _ => oret None
  | S n, iter :: rest =>
      if dbr_bind iter then unbind_loop n rest
      else
        more <- unbind_turn iter ;;
        match more with
        | inl e => oret (Some (Some e))
        | inr more => unbind_loop n (rest ++ more)
        end
  end.

(** The parent is looked up when it is not known. *)
Definition known_parent (db_r : dav_repos_resource) (pathname : option string)
  : M (outcome dav_repos_resource) :=
  match uri db_r with
  | Some _ =>
      if bool_decide (dbr_parent_id db_r = 0) then
        p <- sabridge_retrieve_parent db_r pathname ;;
        oret (set_parent_id (serialno p.1) p.2)
      else oret db_r
  | None => oret db_r
  end.

Definition unbind_with (db_r : dav_repos_resource) (pathname : option string)
  : M (outcome (option dav_error * dav_repos_resource)) :=
  if use_gc then unbind_with_gc db_r pathname
  else
    db_r <- known_parent db_r pathname ;;
    d ← get_db;
    r <- unbind_loop (S (length (binds d))) [db_r] ;;
    match r with
    | None => mret Crash
    | Some e => oret (e, db_r)
    end.
End loop.

(** [sabridge_coll_clear_children]; the error of the listing is dropped, and the list
    is then uninitialised. *)
Section clear.
Variable sabridge_unbind_resource :
  dav_repos_resource -> option string -> M (outcome (option dav_error * dav_repos_resource)).

Fixpoint clear_loop (coll : dav_repos_resource) (l : list dav_repos_resource)
  : M (outcome (option dav_error)) :=
  match l with
  | [] => oret None
  | iter :: rest =>
      e <- (if dbr_bind iter then
              _ <- lift (dbms_delete_bind (serialno coll) (serialno iter)
                           (basename (default EmptyString (uri iter)))) ;;
              oret None
            else x <- sabridge_unbind_resource iter None ;; oret x.1) ;;
      match e with
      | Some e => oret (Some e)
      | None => clear_loop coll rest
      end
  end.

Definition clear_children_with (coll : dav_repos_resource) : M (outcome (option dav_error)) :=
  children <- list_children coll ;;
  match children with
  | inl _ => mret Crash
  | inr l => clear_loop coll l
  end.
End clear.

(** The two functions call each other: [n] is the depth of the calls. *)
Fixpoint unbind_n (n : nat) (db_r : dav_repos_resource) (pathname : option string)
  : M (outcome (option dav_error * dav_repos_resource)) :=
  match n with
  | O => mret Crash
  | S n => unbind_with (clear_children_with (unbind_n n)) db_r pathname
  end.

(** Only collection versions are cleared in a deletion, and they have no children that
    are listed: one call is enough. *)
Definition sabridge_unbind_resource := unbind_n 1.
Definition sabridge_coll_clear_children := clear_children_with sabridge_unbind_resource.
End unbind.
