(* ===== verification/UnbindSpec.v ===== *)
(** * What removing a bind leaves

    Unbinding deletes no resource that can still be reached, whatever the server refuses,
    unless it is a version, which goes with its history. *)
From S2P Require Import Prelude Util Dbd Db Bind Paths Resource DbmsDeltav Bridge Users Properties Acl Listing ListingSpec Request Create Versions CreateSpec Gc Unbind.
Local Open Scope Z_scope.
Local Open Scope limestone_scope.

(** ** The depth of the calls *)

Section depth.
Context {cfg : ServerConfig}.

Lemma list_children_nothing r s :
  is_collection (resourcetype r) = false ->
  forall l, (list_children r s).1 = Ret (inr l) -> l = [].
Proof.
  intros Hc l. unfold list_children, sabridge_get_collection_children.
  rewrite (bool_decide_false (1 = 0)) by done. unfold dbms_get_collection_resource.
  destruct (has_resource r); [|done].
  assert (Hreq : requested [r] = []) by (unfold requested; cbn; by rewrite Hc, andb_false_r).
  rewrite Hreq. unfold obind. rewrite !bind_run.
  match goal with |- context [select ?f s] => pose proof (select_result f s) as Hsel;
    destruct (select f s) as [[[rows n]|] s1] end; cbn [fst snd mret M_ret oret]; [|done].
  specialize (Hsel _ eq_refl). injection Hsel as Hrows _.
  assert (Hnil : rows = []).
  { rewrite Hrows. replace (listing_rows _ _ _) with (@nil listing_row); [done|].
    unfold listing_rows. cbn. rewrite filter_bool_none; [done|].
    intros b _. by apply bool_decide_eq_false, not_elem_of_nil. }
  clear Hrows. rewrite Hnil, !bind_run. cbn. by intros [= <-].
Qed.

(** Two computations with the same results. *)
Definition same {A} (m1 m2 : M A) : Prop := forall s, m1 s = m2 s.

Lemma same_bind {A B} (m1 m2 : M A) (f1 f2 : A -> M B) :
  same m1 m2 -> (forall x, same (f1 x) (f2 x)) -> same (m1 ≫= f1) (m2 ≫= f2).
Proof. intros Hm Hf s. rewrite !bind_run, Hm. apply Hf. Qed.

Lemma same_obind {A B} (m1 m2 : M (outcome A)) (f1 f2 : A -> M (outcome B)) :
  same m1 m2 -> (forall x, same (f1 x) (f2 x)) -> same (obind m1 f1) (obind m2 f2).
Proof. intros Hm Hf. apply same_bind; [done|]. by intros [|x]. Qed.

Lemma clear_nothing f g v :
  is_collection (resourcetype v) = false -> same (clear_children_with f v) (clear_children_with g v).
Proof.
  intros Hc s. unfold clear_children_with, obind. rewrite !bind_run.
  pose proof (list_children_nothing v s Hc) as Hl.
  destruct (list_children v s) as [[|[e|l]] s1]; cbn in *; [done|done|].
  by rewrite (Hl l eq_refl).
Qed.

Lemma remove_versions_same ccc1 ccc2 l :
  (forall v, resourcetype v = Some dav_repos_COLLECTION_VERSION -> same (ccc1 v) (ccc2 v)) ->
  same (remove_versions ccc1 l) (remove_versions ccc2 l).
Proof.
  intros Hc. induction l as [|v l IH]; cbn; [done|].
  apply same_obind.
  - repeat case_bool_decide; [done| |done]. apply same_obind; [by apply Hc|done].
  - intros []. apply same_obind; [done|]. by intros [e|].
Qed.

Lemma delete_if_orphaned_same ccc1 ccc2 mk r :
  (forall v, resourcetype v = Some dav_repos_COLLECTION_VERSION -> same (ccc1 v) (ccc2 v)) ->
  same (sabridge_delete_if_orphaned ccc1 mk r) (sabridge_delete_if_orphaned ccc2 mk r).
Proof.
  intros Hc. unfold sabridge_delete_if_orphaned. apply same_bind; [done|].
  intros [[e|] [p|]]; try done. apply same_obind; [|done].
  apply same_obind; [|by intros [e|]]. unfold delete_dependents.
  destruct (resourcetype r) as [[]|]; try done. unfold sabridge_remove_vhr.
  apply same_obind; [done|]. intros [e|]; [done|]. unfold sabridge_remove_vhr_vrs.
  apply same_obind; [done|]. intros [e|l]; [done|]. by apply remove_versions_same.
Qed.

Lemma unbind_loop_same ccc1 ccc2 n queue :
  (forall v, resourcetype v = Some dav_repos_COLLECTION_VERSION -> same (ccc1 v) (ccc2 v)) ->
  same (unbind_loop ccc1 n queue) (unbind_loop ccc2 n queue).
Proof.
  intros Hc. revert queue. induction n as [|n IH]; intros [|r queue]; cbn; try done.
  destruct (dbr_bind r); [apply IH|]. apply same_obind.
  - unfold unbind_turn. apply same_obind; [done|]. intros [e|l]; [done|].
    apply same_obind; [done|]. intros [e|]; [done|].
    apply same_obind; [by apply delete_if_orphaned_same|done].
  - intros [e|more]; [done|apply IH].
Qed.

(** However deep the calls of [sabridge_unbind_resource] and [sabridge_coll_clear_children]
    are allowed to go, one level is enough: what is cleared in a deletion is a collection
    version, and no child of one is ever listed. *)
Theorem unbind_depth n r path s : unbind_n (S n) r path s = sabridge_unbind_resource r path s.
Proof.
  unfold sabridge_unbind_resource. cbn [unbind_n]. unfold unbind_with. destruct use_gc; [done|].
  apply same_obind; [done|]. intros r'. apply same_bind; [done|]. intros d.
  apply same_obind; [|done]. apply unbind_loop_same. intros v Hv. apply clear_nothing.
  by rewrite Hv.
Qed.
End depth.

(** ** Safety *)

Definition version_ids (d : db) : list Z := map ve_res (versions d).

(** [d'] has lost binds, versions and what cannot be reached. *)
Record only_garbage (d d' : db) : Prop := {
  og_binds : forall b, b ∈ binds d' -> b ∈ binds d;
  og_versions : forall v, v ∈ version_ids d' -> v ∈ version_ids d;
  og_resources : forall x, present d x -> x ∉ version_ids d -> live d' x -> present d' x
}.

Lemma live_shrinks d d' x : (forall b, b ∈ binds d' -> b ∈ binds d) -> live d' x -> live d x.
Proof. apply reaches_mono. Qed.

#[local] Instance only_garbage_preorder : PreOrder only_garbage.
Proof.
  split; [by intros d; split|]. intros x y z [B1 V1 R1] [B2 V2 R2]. split; [auto|auto|].
  intros i Hi Hv Hl. apply R2; [|by intros ?%V1|done]. apply R1; [done|done|].
  eapply live_shrinks; [|exact Hl]. done.
Qed.

Lemma only_garbage_intro d d' :
  (forall b, b ∈ binds d' -> b ∈ binds d) -> versions d' = versions d ->
  resources d' = resources d -> only_garbage d d'.
Proof.
  intros Hb Hv Hr. split; [done|unfold version_ids; by rewrite Hv|].
  unfold present. by rewrite Hr.
Qed.

Lemma cascade_version_ids id d v : v ∈ version_ids (cascade_resource id d) -> v ∈ version_ids d.
Proof.
  unfold version_ids, cascade_resource. destruct (doomed_versions _ _ _ _ _) as [vs hs].
  cbn [versions]. rewrite map_map. rewrite !elem_of_map. intros (w & <- & Hw).
  apply elem_of_filter_bool in Hw as [_ Hw]. exists w. split; [|done].
  destruct (ve_vcr w); [|done]. by case_bool_decide.
Qed.

(** The deletion of what cannot be reached, or of one of the versions at the beginning. *)
Lemma cascade_garbage d0 id d :
  only_garbage d0 d -> ~ live d id \/ id ∈ version_ids d0 -> only_garbage d0 (cascade_resource id d).
Proof.
  intros [Hb Hv Hr] Hid.
  assert (Hsub : forall b, b ∈ binds (cascade_resource id d) -> b ∈ binds d).
  { intros b. rewrite cascade_binds, elem_of_filter_bool. tauto. }
  split.
  - auto.
  - intros v ?%cascade_version_ids. auto.
  - intros x Hx Hxv Hl. pose proof (live_shrinks _ _ _ Hsub Hl) as Hl'.
    unfold present. rewrite cascade_resources, present_filter. split; [by apply Hr|].
    intros ->. by destruct Hid.
Qed.

Lemma release_stmt_tables id d d' :
  release_quota_stmt id d = Some (tt, d') ->
  binds d' = binds d /\ versions d' = versions d /\ resources d' = resources d.
Proof. unfold release_quota_stmt. intros H. repeat case_match; simplify_eq; done. Qed.

(** A deletion relative to the tables [d0] at its beginning. *)
Lemma delete_resource_garbage d0 r s :
  only_garbage d0 (c_db s) -> ~ live (c_db s) (serialno r) \/ serialno r ∈ version_ids d0 ->
  only_garbage d0 (c_db (dbms_delete_resource r s).2).
Proof.
  intros Hs Hid. unfold dbms_delete_resource. rewrite bind_run.
  set (m := if has_body (resourcetype r) then _ else _).
  assert (Hm : binds (c_db (m s).2) = binds (c_db s)
    /\ versions (c_db (m s).2) = versions (c_db s)
    /\ resources (c_db (m s).2) = resources (c_db s)).
  { unfold m. destruct (has_body _); [|done].
    destruct (execute_cases (release_quota_stmt (serialno r)) s) as [[_ ->]|([] & d & Hd & _ & ->)];
      [done|]. by apply release_stmt_tables in Hd. }
  destruct Hm as (Hb & Hv & Hr). destruct (m s) as [q s1]. cbn [fst snd mret M_ret] in *.
  assert (Hs1 : only_garbage d0 (c_db s1)).
  { transitivity (c_db s); [done|]. apply only_garbage_intro; [|done|done]. intros b. by rewrite Hb. }
  destruct q as [[]|]; cbn [fst snd mret M_ret]; [|done].
  rewrite bind_run. cbn [fst snd mret M_ret].
  destruct (update_cases (cascade_resource (serialno r)) s1) as [[_ ->]|[_ ->]]; [done|].
  apply cascade_garbage; [done|]. unfold live in *. by rewrite Hb.
Qed.

Section safety.
Context {cfg : ServerConfig}.

Lemma reads_get_vhr_versions mk vhr : Reads (dbms_get_vhr_versions mk vhr).
Proof. unfold dbms_get_vhr_versions. reads. Qed.

Lemma remove_body_db r s : c_db (sabridge_remove_body_from_disk r s).2 = c_db s.
Proof. apply remove_body_run. Qed.

Lemma remove_versions_garbage ccc d0 l s :
  (forall v s, only_garbage (c_db s) (c_db (ccc v s).2)) ->
  only_garbage d0 (c_db s) -> (forall v, v ∈ l -> serialno v ∈ version_ids d0) ->
  only_garbage d0 (c_db (remove_versions ccc l s).2).
Proof.
  intros Hccc. revert s. induction l as [|v l IH]; intros s Hs Hl; cbn [remove_versions]; [done|].
  rewrite obind_run.
  set (m := if bool_decide (resourcetype v = Some dav_repos_VERSION) then _ else _).
  assert (Hm : only_garbage d0 (c_db (m s).2)).
  { unfold m. case_bool_decide; [rewrite lift_run; cbn; by rewrite remove_body_db|].
    case_bool_decide; [|done]. rewrite obind_run. transitivity (c_db s); [done|].
    pose proof (Hccc v s) as H1. by destruct (ccc v s) as [[|e] s1]. }
  destruct (m s) as [[|[]] s1]; [done|]. cbn [fst snd] in *. rewrite obind_run, lift_run.
  cbn [fst snd]. pose proof (delete_resource_garbage d0 v s1 Hm) as Hdel.
  destruct (dbms_delete_resource v s1) as [[e|] s2]; cbn [fst snd] in *.
  - apply Hdel. right. apply Hl. left.
  - apply IH; [apply Hdel; right; apply Hl; left|]. intros w Hw. apply Hl. by right.
Qed.

Lemma vhr_versions_ids mk vhr s l v :
  (dbms_get_vhr_versions mk vhr s).1 = Ret (inr l) -> v ∈ l -> serialno v ∈ version_ids (c_db s).
Proof.
  unfold dbms_get_vhr_versions. rewrite bind_run.
  pose proof (fun r => select_result (fun d => (vhr_versions (serialno vhr) d, d)) s r) as Hsel.
  destruct (select _ s) as [[[rows d]|] s1]; cbn [fst snd mret M_ret] in *; [|done].
  specialize (Hsel _ eq_refl). injection Hsel as -> ->.
  assert (Hids : forall base vr, vr ∈ vhr_versions (serialno vhr) (c_db s) ->
            serialno (version_dbr base mk (c_db s) vr) ∈ version_ids (c_db s)).
  { intros base [w r] (w' & Hw & (r' & [= -> ->] & Hr)%elem_of_map)%elem_of_flat_map.
    apply elem_of_filter_bool in Hr as [Hr%bool_decide_eq_true _].
    destruct (version_dbr_fields base mk (c_db s) w r) as (-> & _ & _). rewrite Hr.
    unfold version_ids. apply elem_of_map. exists w. split; [done|].
    rewrite sort_versions_perm in Hw. by apply elem_of_filter_bool in Hw as [_ Hw]. }
  destruct (vhr_versions (serialno vhr) (c_db s)) as [|row rows'] eqn:Hrows; [done|].
  rewrite <- Hrows in *. destruct (sabridge_new_dbr_from_dbr vhr) as [base|]; [|done].
  set (l0 := map (version_dbr base mk (c_db s)) _).
  assert (Hl0 : forall x, x ∈ l0 -> serialno x ∈ version_ids (c_db s)).
  { intros x (vr & <- & Hvr)%elem_of_map. by apply Hids. }
  intros [= <-]. destruct (last l0) as [x|] eqn:Hlast; [|apply Hl0].
  intros [Hv|Hv]%elem_of_app.
  - apply Hl0. eapply elem_of_take in Hv as (i & Hi & _). by eapply list_elem_of_lookup_2.
  - apply list_elem_of_singleton in Hv as ->. destruct (proj1 (last_Some _ _) Hlast) as [l1 Hl1].
    apply (Hl0 x). rewrite Hl1. apply elem_of_app. right. left.
Qed.

Lemma unversion_garbage vhr s : only_garbage (c_db s) (c_db (dbms_unversion_vhr_vcrs vhr s).2).
Proof.
  assert (H : forall a b d, only_garbage d (unversion_stmt (serialno vhr) a b d)).
  { intros a b d. split; [done|done|]. intros x Hx _ _. unfold present, unversion_stmt in *. cbn.
    rewrite map_map. erewrite map_ext; [exact Hx|]. intros r. by case_bool_decide. }
  unfold dbms_unversion_vhr_vcrs. rewrite bind_run.
  set (f := unversion_stmt _ _ _). destruct (update_cases f s) as [[Hq Hd]|[Hq Hd]]; rewrite Hq.
  { cbn [mret M_ret snd]. by rewrite Hd. }
  rewrite bind_run. cbn [fst snd mret M_ret]. set (g := unversion_stmt _ _ _).
  destruct (update_cases g (update f s).2) as [[_ ->]|[_ ->]]; rewrite Hd; [apply H|].
  etransitivity; [apply H|apply H].
Qed.

Lemma delete_resource_only_garbage ccc mk r s :
  (forall v s, only_garbage (c_db s) (c_db (ccc v s).2)) -> ~ live (c_db s) (serialno r) ->
  only_garbage (c_db s) (c_db (sabridge_delete_resource ccc mk r s).2).
Proof.
  intros Hccc Hr. unfold sabridge_delete_resource. rewrite obind_run.
  assert (Hdep : only_garbage (c_db s) (c_db (delete_dependents ccc mk r s).2)).
  { unfold delete_dependents. destruct (resourcetype r) as [[]|]; try done;
      try (rewrite obind_run, lift_run; cbn; by rewrite remove_body_db).
    unfold sabridge_remove_vhr. rewrite obind_run, lift_run. cbn [fst snd].
    pose proof (unversion_garbage r s) as H1.
    destruct (dbms_unversion_vhr_vcrs r s) as [[e|] s1]; cbn [fst snd] in *; [done|].
    unfold sabridge_remove_vhr_vrs. rewrite obind_run.
    pose proof (reads_get_vhr_versions mk r s1) as (Hd & _).
    pose proof (fun l v => vhr_versions_ids mk r s1 l v) as Hids.
    destruct (dbms_get_vhr_versions mk r s1) as [[|[e|l]] s2]; cbn [fst snd] in *;
      try (cbn [mret M_ret snd]; by rewrite Hd).
    apply remove_versions_garbage; [done|by rewrite Hd|].
    intros v Hv. apply H1. by apply (Hids l). }
  destruct (delete_dependents ccc mk r s) as [[|[e|]] s1]; [done|done|]. cbn [fst snd] in *.
  rewrite lift_run. cbn [snd]. apply delete_resource_garbage; [done|]. left. intros Hl. apply Hr.
  eapply live_shrinks; [|exact Hl]. apply Hdep.
Qed.

(** Computations that leave what can be reached. *)
Definition Safe {A} (m : M A) : Prop := forall s, only_garbage (c_db s) (c_db (m s).2).

Lemma safe_reads {A} (m : M A) : Reads m -> Safe m.
Proof. intros H s. destruct (H s) as (-> & _). reflexivity. Qed.

Lemma safe_bind {A B} (m : M A) (f : A -> M B) : Safe m -> (forall x, Safe (f x)) -> Safe (m ≫= f).
Proof. intros Hm Hf s. rewrite bind_run. etransitivity; [apply Hm|apply Hf]. Qed.

Lemma safe_obind {A B} (m : M (outcome A)) (f : A -> M (outcome B)) :
  Safe m -> (forall x, Safe (f x)) -> Safe (obind m f).
Proof.
  intros Hm Hf. apply safe_bind; [done|]. intros [|x]; [apply safe_reads, reads_ret|apply Hf].
Qed.

Lemma safe_lift {A} (m : M A) : Safe m -> Safe (lift m).
Proof. intros Hm s. rewrite lift_run. apply Hm. Qed.

Lemma safe_ret {A} (x : A) : Safe (mret x).
Proof. apply safe_reads, reads_ret. Qed.

Lemma safe_oret {A} (x : A) : Safe (oret x).
Proof. apply safe_ret. Qed.

Lemma safe_delete_bind coll res name : Safe (dbms_delete_bind coll res name).
Proof.
  intros s. unfold dbms_delete_bind. rewrite bind_run. cbn [fst snd mret M_ret].
  destruct (update_cases (delete_bind_stmt coll res name) s) as [[_ ->]|[_ ->]]; [done|].
  apply only_garbage_intro; try done. intros b. cbn. rewrite elem_of_filter_bool. tauto.
Qed.

Lemma safe_insert_cleanup l : Safe (dbms_insert_cleanup_reqs l).
Proof.
  intros s. unfold dbms_insert_cleanup_reqs. destruct l as [|b l]; [done|].
  rewrite bind_run. cbn [fst snd mret M_ret].
  match goal with |- context [update ?f s] => destruct (update_cases f s) as [[_ ->]|[_ ->]] end; [done|].
  apply only_garbage_intro; rewrite ?add_cleanup_binds, ?add_cleanup_resources; try done.
  generalize (remove_dups (map resource_id (b :: l))). intros k. generalize (c_db s).
  induction k as [|i k IH]; intros d; [done|]. cbn. by rewrite IH.
Qed.

Lemma safe_delete_if_orphaned ccc mk r :
  (forall v, Safe (ccc v)) -> Safe (sabridge_delete_if_orphaned ccc mk r).
Proof.
  intros Hccc s. unfold sabridge_delete_if_orphaned. rewrite bind_run.
  destruct (shortest_path_spec ROOT_COLLECTION_ID (serialno r) s) as (p & Hp & Hdb & Hres).
  destruct (dbms_find_shortest_path _ _ s) as [p' s1]. cbn [fst snd] in *.
  injection Hp as ->. rewrite <- Hdb. destruct p as [[e|] [path|]]; try done.
  rewrite obind_run.
  assert (Hl : ~ live (c_db s1) (serialno r)) by (unfold live; rewrite Hdb; apply Hres).
  pose proof (delete_resource_only_garbage ccc mk r s1 Hccc Hl) as H.
  by destruct (sabridge_delete_resource ccc mk r s1) as [[|e] s2].
Qed.

Lemma safe_list_children r : Safe (list_children r).
Proof. apply safe_reads. unfold list_children, oret, obind. reads. Qed.

Lemma safe_unbind_turn ccc r : (forall v, Safe (ccc v)) -> Safe (unbind_turn ccc r).
Proof.
  intros Hccc. unfold unbind_turn. apply safe_obind.
  { destruct (is_collection _); [apply safe_list_children|apply safe_oret]. }
  intros [e|l]; [apply safe_oret|]. apply safe_obind.
  { destruct (uri r); [apply safe_lift, safe_delete_bind|apply safe_oret]. }
  intros [e|]; [apply safe_oret|].
  apply safe_obind; [by apply safe_delete_if_orphaned|intros; apply safe_oret].
Qed.

Lemma safe_unbind_loop ccc n queue : (forall v, Safe (ccc v)) -> Safe (unbind_loop ccc n queue).
Proof.
  intros Hccc. revert queue.
  induction n as [|n IH]; intros [|r queue]; cbn [unbind_loop]; try apply safe_oret.
  destruct (dbr_bind r); [apply IH|]. apply safe_obind; [by apply safe_unbind_turn|].
  intros [e|more]; [apply safe_oret|apply IH].
Qed.

Lemma safe_unbind_with ccc r path : (forall v, Safe (ccc v)) -> Safe (unbind_with ccc r path).
Proof.
  intros Hccc. unfold unbind_with. destruct use_gc.
  - unfold unbind_with_gc. apply safe_obind.
    + destruct (uri r); [|apply safe_oret].
      apply safe_obind; [apply safe_reads, reads_retrieve_parent|]. intros p.
      apply safe_obind; [apply safe_lift, safe_delete_bind|]. intros e. apply safe_oret.
    + intros [[e|] r1]; [apply safe_oret|].
      apply safe_obind; [apply safe_lift, safe_insert_cleanup|]. intros e. apply safe_oret.
  - apply safe_obind; [apply safe_reads; unfold known_parent, oret, obind; reads|]. intros r1.
    apply safe_bind; [apply safe_reads, reads_get_db|]. intros d.
    apply safe_obind; [by apply safe_unbind_loop|]. intros [e|]; apply safe_ret.
Qed.

Lemma safe_clear_children f coll :
  (forall r path, Safe (f r path)) -> Safe (clear_children_with f coll).
Proof.
  intros Hf. unfold clear_children_with. apply safe_obind; [apply safe_list_children|].
  intros [e|l]; [apply safe_ret|]. induction l as [|r l IH]; cbn [clear_loop]; [apply safe_oret|].
  apply safe_obind; [|intros [e|]; [apply safe_oret|done]]. destruct (dbr_bind r).
  - apply safe_obind; [apply safe_lift, safe_delete_bind|intros; apply safe_oret].
  - apply safe_obind; [apply Hf|intros; apply safe_oret].
Qed.

Lemma safe_unbind_n n r path : Safe (unbind_n n r path).
Proof.
  revert r path. induction n as [|n IH]; intros r path; cbn [unbind_n]; [apply safe_ret|].
  apply safe_unbind_with. intros v. by apply safe_clear_children.
Qed.
End safety.

(** C9. Whatever the server refuses, and with the collector or without, removing a bind deletes
    no resource that can still be reached from the root, but for versions, which go with
    their history. *)
Theorem unbind_resource_safe (cfg : ServerConfig) r path s x :
  let s' := (sabridge_unbind_resource r path s).2 in
  present (c_db s) x -> x ∉ version_ids (c_db s) -> live (c_db s') x -> present (c_db s') x.
Proof. intros s'. apply (safe_unbind_n 1 r path s). Qed.
