(* ===== verification/Copy.v ===== *)
(** * Copies ([bridge.c])

    [sabridge_copy_medium_w_create], [sabridge_copy_coll_w_create] and what they call,
    and [sabridge_get_used_bytes]. *)
From S2P Require Import Prelude Util Dbd Db Bind Resource DbmsDeltav Bridge Users Properties Acl Listing Request Create Versions Unbind.
Local Open Scope Z_scope.
Local Open Scope limestone_scope.

(** One element of the list [dav_response]: the URI and the error. *)
Definition dav_response : Type := string * dav_error.

Section copy.
Context {cfg : ServerConfig} {req : Request}.

(** The access control of a listing: the principal and the privilege, when there are
    hooks for it. *)
Definition listing_acl (acl_priv : string) : option (Z * string) :=
  if acl_hooks then Some (dav_repos_get_principal_id rec_principal, acl_priv) else None.

(** [sabridge_unbind_resource] of the record of a [dav_resource]. *)
Definition unbind_resource (res : dav_resource) : R (option dav_error * dav_resource) :=
  x ← run_out (sabridge_unbind_resource (res_dbr res) (res_pathname res));
  mret (x.1, set_dbr x.2 res).

Definition is_body_type (t : option dav_repos_type) : bool :=
  bool_decide (t = Some dav_repos_RESOURCE \/ t = Some dav_repos_VERSIONED).

(** ** A single resource *)

(** The errors of the creation and of the empty body are dropped. *)
Definition sabridge_copy_medium_w_create (r_src : dav_repos_resource) (dst : dav_resource)
  : R (option dav_error * dav_resource) :=
  let t := resourcetype (res_dbr dst) in
  dst <! (if negb (bool_decide (serialno (res_dbr dst) = 0)) && negb (is_body_type t)
             && negb (bool_decide (t = Some dav_repos_LOCKNULL))
          then dst <! unbind_resource dst ;;
               mret (None, set_dbr (set_serialno 0 (res_dbr dst)) dst)
          else mret (None, dst)) ;;
  dst ← (if bool_decide (serialno (res_dbr dst) = 0)
         then ignore (sabridge_insert_resource
                (set_dbr (set_resourcetype (Some dav_repos_RESOURCE) (res_dbr dst)) dst) false false)
         else mret dst);
  dst ← (if bool_decide (resourcetype (res_dbr dst) = Some dav_repos_LOCKNULL)
         then ignore (on_dbr dst (sabridge_create_empty_body (res_dbr dst)))
         else mret dst);
  x ← run_out (sabridge_copy_medium r_src (res_dbr dst));
  mret (x.1, set_dbr x.2 dst).

(** A NULL name is read. *)
Definition sabridge_copy_collection (src dst : dav_repos_resource)
  : R (option dav_error * dav_repos_resource) :=
  match displayname src, displayname dst with
  | Some src_name, Some dst_name =>
      dst <! (if String.eqb src_name dst_name then mret (None, dst)
              else let dst := set_displayname (Some src_name) dst in
                   keep dst (run (dbms_update_displayname dst))) ;;
      keep dst (run (sabridge_copy_dead_props (serialno src) (serialno dst)))
  | _, _ => crash
  end.

(** The part of [sabridge_copy_if_compatible] after the check-out: whether it copied. *)
Definition copy_compatible (src : dav_repos_resource) (dst : dav_resource)
  : R (option dav_error * (dav_resource * bool)) :=
  let t := resourcetype (res_dbr dst) in
  if is_body_type (resourcetype src) || bool_decide (resourcetype src = Some dav_repos_VERSION) then
    if is_body_type t || bool_decide (t = Some dav_repos_LOCKNULL) then
      dst ← (if bool_decide (t = Some dav_repos_LOCKNULL)
             then ignore (on_dbr dst (sabridge_create_empty_body (res_dbr dst)))
             else mret dst);
      x ← run_out (sabridge_copy_medium src (res_dbr dst));
      mret (x.1, (set_dbr x.2 dst, bool_decide (x.1 = None)))
    else mret (None, (dst, false))
  else if is_collection (resourcetype src) then
    if is_collection t || bool_decide (t = Some dav_repos_LOCKNULL) then
      x ← sabridge_copy_collection src (res_dbr dst);
      mret (x.1, (set_dbr x.2 dst, bool_decide (x.1 = None)))
    else mret (None, (dst, false))
  else mret (None, (dst, false)).

Definition sabridge_copy_if_compatible (src : dav_repos_resource) (dst : dav_resource)
  : R (option dav_error * (dav_resource * bool)) :=
  let checked_in := is_body_type (resourcetype src)
    && bool_decide (checked_state (res_dbr dst) = DAV_RESOURCE_CHECKED_IN) in
  if checked_in
     && negb (bool_decide (autoversion_type (res_dbr dst) = DAV_AV_CHECKOUT_CHECKIN))
  then mret (Some (dav_new_error HTTP_CONFLICT), (dst, false))
  else
    c ← (if checked_in then x ← dav_repos_checkout dst true; mret (x.1, x.2.1)
         else mret (None, dst));
    match c with
    | (Some e, dst) => mret (Some e, (dst, false))
    | (None, dst) =>
        x ← copy_compatible src dst;
        match x with
        | (Some e, d) => mret (Some e, d)
        | (None, (dst, copied)) =>
            if checked_in then
              c ← dav_repos_checkin dst;
              mret (c.1, (c.2.1, copied))
            else mret (None, (dst, copied))
        end
    end.

(** The copy of a child that has no place at the destination; the errors of the
    creations are dropped. *)
Definition sabridge_create_copy (db_r : dav_repos_resource) (copy_parent : dav_resource)
  : R (option dav_error * dav_resource) :=
  copy ← new_resource_from db_r;
  let parent := res_dbr copy_parent in
  let fresh t := set_parent (Some parent)
    (set_dbr (set_resourcetype t (set_uri None (set_displayname (displayname db_r)
                (set_parent_id (serialno parent) (res_dbr copy))))) copy) in
  if has_body (resourcetype db_r) then
    copy ← ignore (dav_repos_create_resource (fresh (Some dav_repos_RESOURCE)) true false);
    x ← run_out (sabridge_copy_medium db_r (res_dbr copy));
    let copy := set_dbr x.2 copy in
    match x.1 with
    | Some e => mret (Some e, copy)
    | None =>
        let av := av_new_children parent in
        if bool_decide (DAV_AV_CHECKOUT_CHECKIN <= av <= DAV_AV_LOCKED_CHECKOUT
                        \/ av = DAV_AV_VERSION_CONTROL)
        then dav_repos_vsn_control copy
        else mret (None, copy)
    end
  else if is_collection (resourcetype db_r) then
    copy ← ignore (dav_repos_create_resource (fresh (Some dav_repos_COLLECTION)) true false);
    x ← sabridge_copy_collection db_r (res_dbr copy);
    mret (x.1, set_dbr x.2 copy)
  else mret (None, fresh None).

(** ** The children of the destination that were not overwritten

    [tail_ok] says that [link_tail] is not NULL; it is after a listing without
    children, and the next listing writes through it. *)
Fixpoint clear_unused_loop (fuel : nat) (in_use cleared : list Z) (tail_ok : bool)
    (queue : list dav_repos_resource) : M (outcome (option (option dav_error))) :=
  match fuel, queue with
  | _, [] => oret (Some None)
  | O, _ => oret None
  | S n, iter :: rest =>
      let id := serialno iter in
      if bool_decide (id ∈ cleared) then clear_unused_loop n in_use cleared tail_ok rest
      else if bool_decide (id ∈ in_use) then
        if is_collection (resourcetype iter) then
          c <- list_children iter ;;
          match c with
          | inl _ => clear_unused_loop n in_use (id :: cleared) tail_ok rest
          | inr l =>
              if tail_ok
              then clear_unused_loop n in_use (id :: cleared) (bool_decide (l <> [])) (rest ++ l)
              else mret Crash
          end
        else clear_unused_loop n in_use (id :: cleared) tail_ok rest
      else
        x <- sabridge_unbind_resource iter None ;;
        match x.1 with
        | Some e => oret (Some (Some e))
        | None => clear_unused_loop n in_use (id :: cleared) tail_ok rest
        end
  end.

(** Every collection in use is listed once, so the list never has more records than
    there are binds and the first. *)
Definition sabridge_clear_unused (res : dav_repos_resource) (in_use : list Z)
  : M (outcome (option dav_error)) :=
  d ← get_db;
  x <- clear_unused_loop (S (length (binds d))) in_use [] true [res] ;;
  match x with
  | None => mret Crash
  | Some e => oret e
  end.

(** ** A collection with all that is below it *)

Record copy_state := CopyState {
  copy_map : gmap string dav_resource;
  dst_in_use : list Z;
  copy_binds : list dbms_bind_list;
  copy_response : list dav_response
}.

(** The record [iter->bind]: the last one before with the same identifier. *)
Definition bound_before (r_src : dav_repos_resource) (before : list dav_repos_resource)
    (iter : dav_repos_resource) : dav_repos_resource :=
  default r_src (List.find (fun r => bool_decide (serialno r = serialno iter)) before).

(** The child of the destination at the same place, when it can be overwritten. *)
Definition reuse_child (src_uri : string) (dst : dav_resource) (iter : dav_repos_resource)
    (st : copy_state) : R (option dav_error * (option dav_resource * copy_state)) :=
  let u := default "(null)"%string (uri (res_dbr dst))
           +:+ drop_string (String.length src_uri) (default EmptyString (uri iter)) in
  corr ← new_resource_from (res_dbr dst);
  g ← run_out (sabridge_get_property (set_uri (Some u) (res_dbr corr)));
  match g with
  | (Some e, _) => mret (Some e, (None, st))
  | (None, r) =>
      let id := serialno r in
      if negb (bool_decide (id = 0)) && negb (bool_decide (id ∈ dst_in_use st)) then
        c ← sabridge_copy_if_compatible iter (set_dbr r corr);
        let '(e, (child, copied)) := c in
        let response := match e with
                        | Some e => (u, e) :: copy_response st
                        | None => copy_response st
                        end in
        if copied || bool_decide (is_Some e)
        then mret (None, (Some child, CopyState (copy_map st) (id :: dst_in_use st)
                                         (copy_binds st) response))
        else mret (None, (None, CopyState (copy_map st) (dst_in_use st) (copy_binds st) response))
      else mret (None, (None, st))
  end.

(** One turn of the loop over the children of the source, [before] with the last first. *)
Definition copy_child (r_src : dav_repos_resource) (dst : dav_resource)
    (before : list dav_repos_resource) (iter : dav_repos_resource) (st : copy_state)
  : R (option dav_error * copy_state) :=
  let u := default EmptyString (uri iter) in
  match copy_map st !! get_parent_uri ap_make_dirstr_parent u with
  | None => crash
  | Some parent_copy =>
      f ← (if dbr_bind iter then
             mret (None, (copy_map st !! default EmptyString (uri (bound_before r_src before iter)), st))
           else if bool_decide (serialno (res_dbr parent_copy) ∈ dst_in_use st)
           then reuse_child (default EmptyString (uri r_src)) dst iter st
           else mret (None, (None, st)));
      match f with
      | (Some e, (_, st)) => mret (Some e, st)
      | (None, (found, st)) =>
          let reused := bool_decide (is_Some found) && negb (dbr_bind iter) in
          c ← (match found with
               | Some copy => mret (None, copy)
               | None => sabridge_create_copy iter parent_copy
               end);
          match c with
          | (Some e, _) => mret (Some e, st)
          | (None, copy) =>
              let b := BindItem 0 (serialno (res_dbr parent_copy)) (serialno (res_dbr copy))
                         (basename u) 0 None in
              mret (None, CopyState (<[u := copy]> (copy_map st)) (dst_in_use st)
                            (if reused then copy_binds st else copy_binds st ++ [b])
                            (copy_response st))
          end
      end
  end.

Fixpoint copy_children (r_src : dav_repos_resource) (dst : dav_resource)
    (before l : list dav_repos_resource) (st : copy_state) : R (option dav_error * copy_state) :=
  match l with
  | [] => mret (None, st)
  | iter :: rest =>
      st <! copy_child r_src dst before iter st ;;
      copy_children r_src dst (iter :: before) rest st
  end.

(** How the server's times are written in a statement. *)
Variable format_time : Z -> string.

(** The error of the listing is dropped, and the list is then uninitialised; a name
    that is too long for the buffer of the statement is written past its end. *)
Definition sabridge_depth_inf_copy_coll (r_src : dav_repos_resource) (dst : dav_resource)
    (response : list dav_response) : R (option dav_error * list dav_response) :=
  match uri r_src with
  | None => crash
  | Some u =>
      c ← run_out (sabridge_get_collection_children r_src DAV_INFINITY (listing_acl "read"));
      match c with
      | inl _ => crash
      | inr (l, _) =>
          x ← copy_children r_src dst [] l
                (CopyState {[u := dst]} [serialno (res_dbr dst)] [] response);
          match x with
          | (Some e, st) => mret (Some e, copy_response st)
          | (None, st) =>
              e ← run_out (sabridge_clear_unused (res_dbr dst) (dst_in_use st));
              match e, copy_binds st with
              | Some e, _ => mret (Some e, copy_response st)
              | None, [] => mret (None, copy_response st)
              | None, binds =>
                  i ← run (dbms_insert_bind_list apr_dbd_escape format_time binds);
                  match i with
                  | None => crash
                  | Some e => mret (e, copy_response st)
                  end
              end
          end
      end
  end.

(** The record that is replaced has its identifier and its URI only. *)
Definition unbind_previous (dest_prev_id : Z) (dst : dav_resource) : R (option dav_error) :=
  prev ← new_resource_from (res_dbr dst);
  x ← unbind_resource (set_dbr (set_uri (uri (res_dbr dst))
                                  (set_serialno dest_prev_id (res_dbr prev))) prev);
  mret x.1.

Definition sabridge_copy_coll_w_create (r_src : dav_repos_resource) (dst : dav_resource)
    (depth : Z) (response : list dav_response)
  : R (option dav_error * (dav_resource * list dav_response)) :=
  let r_dst := res_dbr dst in
  let prev := if is_collection (resourcetype r_dst)
                 || bool_decide (resourcetype r_dst = Some dav_repos_LOCKNULL)
              then 0 else serialno r_dst in
  let create_dest := bool_decide (serialno r_dst = 0) || negb (bool_decide (prev = 0)) in
  c ← (if create_dest then
         p ← run_out (sabridge_retrieve_parent (set_resourcetype (Some dav_repos_COLLECTION) r_dst)
                        (res_pathname dst));
         x ← sabridge_insert_resource (set_dbr (set_parent_id (serialno p.1) p.2) dst) true false;
         mret (x.1, (x.2, serialno p.1))
       else mret (None, (dst, 0)));
  match c with
  | (Some e, (dst, _)) => mret (Some e, (dst, response))
  | (None, (dst, parent)) =>
      p ← run (sabridge_copy_dead_props (serialno r_src) (serialno (res_dbr dst)));
      match p with
      | Some e => mret (Some e, (dst, response))
      | None =>
          t ← (if bool_decide (depth = DAV_INFINITY)
               then sabridge_depth_inf_copy_coll r_src dst response
               else mret (None, response));
          match t with
          | (Some e, response) => mret (Some e, (dst, response))
          | (None, response) =>
              if create_dest then
                e ← (if bool_decide (prev = 0) then mret None else unbind_previous prev dst);
                match e with
                | Some e => mret (Some e, (dst, response))
                | None =>
                    b ← run (dbms_insert_bind (serialno (res_dbr dst)) parent
                               (basename <$> uri (res_dbr dst)));
                    mret (b, (dst, response))
                end
              else mret (None, (dst, response))
          end
      end
  end.

(** ** Bit marks

    The collection of the bit marks of a resource is named by its UUID; its errors are dropped.  The
    calls of [sabridge_copy_bitmarks] are commented out. *)
Definition get_bitmarks_coll (r : dav_repos_resource) : R dav_resource :=
  coll ← new_resource_from r;
  x ← run_out (sabridge_get_property (set_uri (Some ("/bitmarks/" +:+ uuid r)) (res_dbr coll)));
  mret (set_dbr x.2 coll).

Definition is_bitmark_uri (uri : option string) : bool :=
  match uri with
  | Some u => bool_decide (10 < String.length u)%nat && String.prefix "/bitmarks/" u
  | None => false
  end.

Definition sabridge_copy_bitmarks (src dst : dav_repos_resource) : R (option dav_error) :=
  if is_bitmark_uri (uri src) then mret None
  else
    src_bitmarks_coll ← get_bitmarks_coll src;
    if bool_decide (serialno (res_dbr src_bitmarks_coll) = 0) then mret None
    else
      dst_bitmarks_coll ← get_bitmarks_coll dst;
      x ← sabridge_copy_coll_w_create (res_dbr src_bitmarks_coll) dst_bitmarks_coll DAV_INFINITY [];
      mret x.1.

(** ** The size of a tree

    The sum is an [int]; without [prin_only] the identifier of the user is not set, and
    it is read for what is not a collection. *)
Fixpoint sum_used (prin_only : bool) (user_id : Z) (l : list dav_repos_resource) (used : Z) : Z :=
  match l with
  | [] => used
  | r :: rest =>
      sum_used prin_only user_id rest
        (if negb (dbr_bind r) && has_body (resourcetype r)
            && (negb prin_only || bool_decide (owner_id r = user_id))
         then wrap32 (used + getcontentlength r) else used)
  end.

Definition sabridge_get_used_bytes (r : dav_repos_resource) (prin_only : bool) : R Z :=
  let user_id := dav_repos_get_principal_id rec_principal in
  let plain := negb (bool_decide (resourcetype r = Some dav_repos_COLLECTION)) in
  if plain && negb prin_only then crash
  else if plain && bool_decide (owner_id r = user_id) then mret (getcontentlength r)
  else
    c ← run_out (sabridge_get_collection_children r DAV_INFINITY (listing_acl "read"));
    match c with
    | inl _ => crash
    | inr (l, _) => mret (sum_used prin_only user_id l 0)
    end.
End copy.
