(* ===== verification/UnbindEnds.v ===== *)
(** * The loops over lists of records that grow end

    [sabridge_unbind_resource] and [sabridge_clear_unused] append the children they find
    to the list they walk.  Every child is one bind, and no bind is met twice. *)
From S2P Require Import Prelude Util Dbd Db Bind Paths Resource DbmsDeltav Bridge Users Properties Acl Listing ListingSpec Request Create Versions CreateSpec VersionsSpec Gc Unbind UnbindSpec Copy.
Local Open Scope Z_scope.
Local Open Scope limestone_scope.

(** ** What a deletion keeps *)

(** Binds have only gone, and the keys of the schema still hold. *)
Record pruned (d d' : db) : Prop := {
  pn_binds : binds d' `sublist_of` binds d;
  pn_joins : joins_ok d -> joins_ok d'
}.

#[export] Instance pruned_preorder : PreOrder pruned.
Proof.
  split; [by intros d; split|]. intros x y z [B1 J1] [B2 J2]. split; [by etrans|auto].
Qed.

Lemma filter_sublist {A} (f : A -> bool) (l : list A) : List.filter f l `sublist_of` l.
Proof. induction l as [|x l IH]; cbn; [done|]. destruct (f x); by constructor. Qed.

(** How many elements of a sublist satisfy a predicate. *)
Lemma count_sublist {A} (f : A -> bool) (l k : list A) :
  l `sublist_of` k -> (length (List.filter f l) <= length (List.filter f k))%nat.
Proof. induction 1 as [|x l k _ IH|x l k _ IH]; cbn; [done| |]; destruct (f x); cbn; lia. Qed.

Lemma count_imp {A} (f g : A -> bool) (l : list A) :
  (forall x, f x = true -> g x = true) ->
  (length (List.filter f l) <= length (List.filter g l))%nat.
Proof.
  intros H. induction l as [|x l IH]; cbn; [lia|].
  destruct (f x) eqn:Hf; [rewrite (H _ Hf); cbn; lia|]. destruct (g x); cbn; lia.
Qed.

Lemma count_split {A} (f g h : A -> bool) (l : list A) :
  (forall x, f x = true -> h x = true /\ g x = false) -> (forall x, g x = true -> h x = true) ->
  (length (List.filter f l) + length (List.filter g l) <= length (List.filter h l))%nat.
Proof.
  intros Hf Hg. induction l as [|x l IH]; cbn; [lia|]. destruct (f x) eqn:E.
  - destruct (Hf _ E) as [-> ->]. cbn. lia.
  - destruct (g x) eqn:E'; [rewrite (Hg _ E')|destruct (h x)]; cbn; lia.
Qed.

Lemma pruned_cascade id d : pruned d (cascade_resource id d).
Proof.
  split; [rewrite cascade_binds; apply filter_sublist|]. intros [R Md P Vc Ve Ch B].
  assert (Hb : forall b, b ∈ binds (cascade_resource id d) -> b ∈ binds d /\ b_res b <> id).
  { intros b. rewrite cascade_binds, elem_of_filter_bool, negb_true_iff, bool_decide_eq_false. tauto. }
  assert (Hr : resources (cascade_resource id d)
    = List.filter (fun r => negb (bool_decide (r_id r = id))) (resources d)) by apply cascade_resources.
  revert Hb Hr. unfold cascade_resource. destruct (doomed_versions _ _ _ _ _) as [vs hs].
  intros Hb Hr.
  assert (Hve : forall f g l, (forall w : version_row, ve_res (g w) = ve_res w) ->
            NoDup (map ve_res l) -> NoDup (map ve_res (map g (List.filter f l)))).
  { intros f g l Hg Hl. rewrite map_map. erewrite map_ext; [|exact Hg]. by apply NoDup_map_filter. }
  split; cbn [resources media principals vcrs versions] in *; try (by apply NoDup_map_filter).
  - apply Hve; [|done]. intros w. destruct (ve_vcr w); [|done]. by case_bool_decide.
  - intros b v [Hin _]%Hb Hv He. apply elem_of_map in Hv as (w & Hv & Hw).
    apply elem_of_filter_bool in Hw as [_ Hw].
    assert (Hvw : ve_res v = ve_res w).
    { rewrite <- Hv. destruct (ve_vcr w); [case_bool_decide|]; done. }
    rewrite Hvw in He |- *. etransitivity; [|exact (Ch b w Hin Hw He)].
    apply count_sublist, filter_sublist.
  - intros b [Hin Hid]%Hb. destruct (B b Hin) as (r & Hrin & Hri). exists r. split; [|done].
    rewrite elem_of_filter_bool. split; [|done].
    apply negb_true_iff, bool_decide_eq_false. congruence.
Qed.

Lemma pruned_intro d d' :
  binds d' `sublist_of` binds d -> resources d' = resources d -> media d' = media d ->
  principals d' = principals d -> vcrs d' = vcrs d -> versions d' = versions d -> pruned d d'.
Proof.
  intros Hb Hr Hm Hp Hvc Hve. split; [done|]. intros [R Md P Vc Ve Ch B].
  split; rewrite ?Hr, ?Hm, ?Hp, ?Hvc, ?Hve; try done.
  - intros b v Hin. apply Ch. by eapply elem_of_sublist.
  - intros b Hin. apply B. by eapply elem_of_sublist.
Qed.

(** A change of the types of resources. *)
Lemma pruned_unversion vhr a b d : pruned d (unversion_stmt vhr a b d).
Proof.
  split; [done|]. intros [R Md P Vc Ve Ch B].
  assert (Hid : map r_id (resources (unversion_stmt vhr a b d)) = map r_id (resources d)).
  { unfold unversion_stmt. cbn. rewrite map_map. apply map_ext. intros r. by case_bool_decide. }
  split; try done.
  - by rewrite Hid.
  - intros c Hc. destruct (B c Hc) as (r & Hr & Hri).
    assert (Hin : b_res c ∈ map r_id (resources (unversion_stmt vhr a b d))).
    { rewrite Hid. apply elem_of_map. eauto. }
    apply elem_of_map in Hin as (r' & ? & ?). eauto.
Qed.

Lemma pruned_release id d x d' : release_quota_stmt id d = Some (x, d') -> pruned d d'.
Proof.
  unfold release_quota_stmt. intros H.
  repeat case_match; simplify_eq; try reflexivity; by apply pruned_intro.
Qed.

Lemma pruned_delete_bind coll res name d : pruned d (delete_bind_stmt coll res name d).
Proof. apply pruned_intro; try done. apply filter_sublist. Qed.

Lemma pruned_cleanup l d : pruned d (add_cleanup l d).
Proof.
  revert d. induction l as [|i l IH]; intros d; [reflexivity|]. cbn.
  etransitivity; [|apply IH]. apply pruned_intro; done.
Qed.

Section pruning.
Context {cfg : ServerConfig}.

Lemma pruned_delete_resource r : Moves pruned (dbms_delete_resource r).
Proof.
  unfold dbms_delete_resource. moves.
  - by eapply pruned_release.
  - apply pruned_cascade.
Qed.

Lemma pruned_delete_bind_ coll res name : Moves pruned (dbms_delete_bind coll res name).
Proof. unfold dbms_delete_bind. moves. apply pruned_delete_bind. Qed.
Hint Resolve pruned_delete_resource pruned_delete_bind_ : moves.

Lemma pruned_list_children r : Moves pruned (list_children r).
Proof. apply moves_reads; [apply _|]. unfold list_children, oret, obind. reads. Qed.
Hint Resolve pruned_list_children : moves.

Lemma pruned_remove_body r : Moves pruned (sabridge_remove_body_from_disk r).
Proof. unfold sabridge_remove_body_from_disk, remove_sha1_file. moves. Qed.

Lemma pruned_get_vhr_versions mk r : Moves pruned (dbms_get_vhr_versions mk r).
Proof. apply moves_reads; [apply _|]. apply reads_get_vhr_versions. Qed.
Hint Resolve pruned_remove_body pruned_get_vhr_versions pruned_unversion : moves.

Section orphans.
Variable ccc : dav_repos_resource -> M (outcome (option dav_error)).
Hypothesis ccc_pruned : forall v, Moves pruned (ccc v).
Hint Resolve ccc_pruned : moves.

Lemma pruned_remove_versions l : Moves pruned (remove_versions ccc l).
Proof. induction l as [|v l IH]; cbn [remove_versions]; moves. Qed.
Hint Resolve pruned_remove_versions : moves.

Lemma pruned_dependents mk r : Moves pruned (delete_dependents ccc mk r).
Proof.
  unfold delete_dependents, sabridge_remove_vhr, sabridge_remove_vhr_vrs,
    dbms_unversion_vhr_vcrs. moves; apply pruned_unversion.
Qed.
Hint Resolve pruned_dependents : moves.

Lemma pruned_sabridge_delete mk r : Moves pruned (sabridge_delete_resource ccc mk r).
Proof. unfold sabridge_delete_resource. moves. Qed.
Hint Resolve pruned_sabridge_delete : moves.

Lemma pruned_find_path a b : Moves pruned (dbms_find_shortest_path a b).
Proof. apply moves_reads; [apply _|]. auto with lime. Qed.
Hint Resolve pruned_find_path : moves.

Lemma pruned_delete_if_orphaned mk r : Moves pruned (sabridge_delete_if_orphaned ccc mk r).
Proof. unfold sabridge_delete_if_orphaned. moves. Qed.
Hint Resolve pruned_delete_if_orphaned : moves.

Lemma pruned_unbind_turn r : Moves pruned (unbind_turn ccc r).
Proof. unfold unbind_turn. moves. Qed.
Hint Resolve pruned_unbind_turn : moves.

Lemma pruned_unbind_loop n queue : Moves pruned (unbind_loop ccc n queue).
Proof. revert queue. induction n as [|n IH]; intros [|r queue]; cbn [unbind_loop]; moves. Qed.
Hint Resolve pruned_unbind_loop : moves.

Lemma pruned_insert_cleanup l : Moves pruned (dbms_insert_cleanup_reqs l).
Proof. unfold dbms_insert_cleanup_reqs. destruct l; moves; apply pruned_cleanup. Qed.
Hint Resolve pruned_insert_cleanup : moves.

Lemma pruned_unbind_with r path : Moves pruned (unbind_with ccc r path).
Proof. unfold unbind_with, unbind_with_gc, known_parent. moves. Qed.
End orphans.

Lemma pruned_clear_children f coll :
  (forall r path, Moves pruned (f r path)) -> Moves pruned (clear_children_with f coll).
Proof.
  intros Hf. unfold clear_children_with. moves.
  match goal with |- Moves _ (clear_loop _ _ ?l) => induction l as [|r l IH] end;
    cbn [clear_loop]; moves.
Qed.

Lemma pruned_unbind_n n r path : Moves pruned (unbind_n n r path).
Proof.
  revert r path. induction n as [|n IH]; intros r path; cbn [unbind_n]; [moves|].
  apply pruned_unbind_with. intros v. by apply pruned_clear_children.
Qed.
End pruning.

(** ** Every child is one bind *)

Definition binds_of (coll : Z) (d : db) : list bind_row :=
  List.filter (fun b => bool_decide (b_coll b = coll)) (binds d).

Lemma list_children_length {cfg : ServerConfig} r s l s1 :
  joins_ok (c_db s) -> list_children r s = (Ret (inr l), s1) ->
  c_db s1 = c_db s /\ (length l <= length (binds_of (serialno r) (c_db s)))%nat.
Proof.
  intros Hj. unfold list_children, sabridge_get_collection_children. rewrite obind_run.
  rewrite bool_decide_false by done. rewrite obind_run.
  pose proof (fun next k s' => level_spec None [r] s next k s' Hj) as Hlevel.
  destruct (dbms_get_collection_resource None [r] s) as [[|[e|[next k]]] s0]; try done.
  destruct (Hlevel _ _ _ eq_refl) as (Hd & _ & Hkey). cbn [fst snd].
  assert (Hlen : (length next <= length (binds_of (serialno r) (c_db s)))%nat).
  { rewrite <- (length_map item_key), Hkey, length_map. unfold below, binds_of.
    apply count_imp. intros b [Hb _]%andb_prop. apply bool_decide_eq_true in Hb.
    apply bool_decide_eq_true. revert Hb. unfold requested. cbn.
    destruct (_ && _); set_solver. }
  rewrite bind_run. cbn [fst snd get_db]. rewrite bind_run. unfold children_fuel.
  cbn [children_loop fst snd]. pose proof (mark_level_key [serialno r] next) as Hk.
  destruct next as [|r0 next0]; [intros [= <- <-]; split; [done|cbn; lia]|].
  destruct (mark_level _ (r0 :: next0)) as [R' level].
  rewrite bool_decide_false by done. cbn [fst snd mret M_ret]. intros [= <- <-]. split; [done|].
  cbn [snd] in Hk. by rewrite <- (length_map item_key level), Hk, length_map.
Qed.

(** ** Turns of the loop *)

Definition without_coll (id : Z) (l : list bind_row) : list bind_row :=
  List.filter (fun b => negb (bool_decide (b_coll b = id))) l.

Lemma sublist_filter_mono {A} (f : A -> bool) (l k : list A) :
  l `sublist_of` k -> List.filter f l `sublist_of` List.filter f k.
Proof.
  induction 1 as [|x l k _ IH|x l k _ IH]; cbn; [done| |]; destruct (f x); try done;
    by constructor.
Qed.

Lemma delete_resource_binds r s :
  (dbms_delete_resource r s).1 = None ->
  binds (c_db (dbms_delete_resource r s).2) `sublist_of` without_coll (serialno r) (binds (c_db s)).
Proof.
  unfold dbms_delete_resource. rewrite bind_run.
  set (m := if has_body (resourcetype r) then _ else _).
  assert (Hm : binds (c_db (m s).2) = binds (c_db s)).
  { unfold m. destruct (has_body _); [|done].
    destruct (execute_cases (release_quota_stmt (serialno r)) s) as [[_ ->]|([] & d & Hd & _ & ->)];
      [done|]. by apply release_stmt_tables in Hd as [-> _]. }
  destruct (m s) as [[u|] s1]; cbn [fst snd mret M_ret] in *; [|done]. rewrite bind_run.
  destruct (update_cases (cascade_resource (serialno r)) s1) as [[-> _]|[_ Hd]]; [done|].
  intros _. cbn [snd mret M_ret]. rewrite Hd, cascade_binds, Hm. unfold without_coll.
  clear. induction (binds (c_db s)) as [|b l IH]; cbn; [done|].
  repeat case_bool_decide; cbn;
    first [done | by apply sublist_skip | by apply sublist_cons | exfalso; tauto].
Qed.

Section turns.
Context {cfg : ServerConfig}.
Variable ccc : dav_repos_resource -> M (outcome (option dav_error)).
Hypothesis ccc_pruned : forall v, Moves pruned (ccc v).

Lemma deleted_binds mk r s s' :
  sabridge_delete_if_orphaned ccc mk r s = (Ret (inr true), s') ->
  binds (c_db s') `sublist_of` without_coll (serialno r) (binds (c_db s)).
Proof.
  unfold sabridge_delete_if_orphaned. rewrite bind_run.
  pose proof (proj1 (pruned_find_path ROOT_COLLECTION_ID (serialno r) s)) as Hp.
  destruct (dbms_find_shortest_path _ _ s) as [[[e|] [p|]] s1]; cbn [fst snd] in *; try done.
  rewrite obind_run. unfold sabridge_delete_resource. rewrite obind_run.
  pose proof (proj1 (pruned_dependents ccc ccc_pruned mk r s1)) as Hd.
  destruct (delete_dependents ccc mk r s1) as [[|[e|]] s2]; cbn [fst snd] in *; try done.
  rewrite lift_run. pose proof (delete_resource_binds r s2) as Hr.
  destruct (dbms_delete_resource r s2) as [[e|] s3]; cbn [fst snd] in *; [done|].
  intros [= <-]. etrans; [by apply Hr|]. apply sublist_filter_mono.
  etrans; [apply Hd|apply Hp].
Qed.

(** What is appended is paid for by the binds that are deleted. *)
Lemma unbind_turn_measure iter s more s' :
  joins_ok (c_db s) -> unbind_turn ccc iter s = (Ret (inr more), s') ->
  joins_ok (c_db s') /\ (length more + length (binds (c_db s')) <= length (binds (c_db s)))%nat.
Proof.
  intros Hj Hrun. pose proof (proj1 (pruned_unbind_turn ccc ccc_pruned iter s)) as Hp.
  rewrite Hrun in Hp. cbn [snd] in Hp. split; [by apply Hp|]. revert Hrun.
  unfold unbind_turn. rewrite obind_run.
  set (m1 := if is_collection _ then _ else _).
  assert (Hc : match m1 s with
               | (Ret (inr l), s1) => c_db s1 = c_db s
                   /\ (length l <= length (binds_of (serialno iter) (c_db s)))%nat
               | _ => True
               end).
  { unfold m1. destruct (is_collection _); [|cbn; split; [done|lia]].
    pose proof (fun l s1 => list_children_length iter s l s1 Hj) as H.
    destruct (list_children iter s) as [[|[e|l]] s1]; try done. by apply H. }
  destruct (m1 s) as [[|[e|l]] s1]; cbn [fst snd] in *; try done.
  destruct Hc as [Hd Hl]. rewrite obind_run.
  set (m2 := match uri iter with Some _ => _ | None => _ end).
  assert (Hb : binds (c_db (m2 s1).2) `sublist_of` binds (c_db s)).
  { rewrite <- Hd. unfold m2. destruct (uri iter); [|done]. rewrite lift_run. cbn [snd]. apply pruned_delete_bind_. }
  destruct (m2 s1) as [[|[e|]] s2]; cbn [fst snd] in *; try done.
  rewrite obind_run. pose proof (fun s' => deleted_binds (sabridge_mk_version_uri iter) iter s2 s') as Hdel.
  destruct (sabridge_delete_if_orphaned _ _ _ s2) as [[|[e|[|]]] s3]; cbn; try done.
  - intros [= <- <-]. specialize (Hdel _ eq_refl). apply sublist_length in Hdel.
    pose proof (count_sublist (fun b => negb (bool_decide (b_coll b = serialno iter))) _ _ Hb) as H1.
    unfold without_coll in Hdel. unfold binds_of in Hl.
    pose proof (count_split (fun b => bool_decide (b_coll b = serialno iter))
      (fun b => negb (bool_decide (b_coll b = serialno iter))) (fun _ => true) (binds (c_db s))) as H2.
    cbn beta in H2. specialize (H2 ltac:(by intros b ->) ltac:(done)).
    rewrite (filter_bool_all (fun _ => true)) in H2 by done. lia.
  - intros [= <- <-]. cbn. apply sublist_length. apply Hp.
Qed.

Lemma unbind_loop_ends n queue s :
  joins_ok (c_db s) -> (length queue + length (binds (c_db s)) <= n)%nat ->
  (unbind_loop ccc n queue s).1 <> Ret None.
Proof.
  revert queue s. induction n as [|n IH]; intros [|r queue] s Hj Hn; cbn in Hn; try done; [lia|].
  cbn [unbind_loop]. destruct (dbr_bind r); [apply IH; [done|lia]|]. rewrite obind_run.
  pose proof (fun more s' => unbind_turn_measure r s more s' Hj) as Ht.
  destruct (unbind_turn ccc r s) as [[|[e|more]] s1]; cbn [fst snd]; try done.
  destruct (Ht _ _ eq_refl) as [Hj1 Hm]. apply IH; [done|]. rewrite length_app. lia.
Qed.
End turns.

(** C10. A resource is unbound in as many turns as there are binds and one, whatever the server
    refuses: the list of [sabridge_unbind_resource] does not grow for ever. *)
Theorem unbind_resource_ends (cfg : ServerConfig) r s :
  joins_ok (c_db s) ->
  (unbind_loop (clear_children_with (unbind_n 0)) (S (length (binds (c_db s)))) [r] s).1 <> Ret None.
Proof.
  intros Hj. apply unbind_loop_ends; [|done|cbn; lia].
  intros v. apply pruned_clear_children. intros r' path. apply pruned_unbind_n.
Qed.

(** ** The children that were not overwritten *)

(** The binds in the collections that were not listed yet. *)
Definition unlisted (cleared : list Z) (d : db) : list bind_row :=
  List.filter (fun b => bool_decide (b_coll b ∉ cleared)) (binds d).

Lemma unlisted_less id cleared d :
  id ∉ cleared ->
  (length (binds_of id d) + length (unlisted (id :: cleared) d) <= length (unlisted cleared d))%nat.
Proof.
  intros Hid. apply count_split.
  - intros b Hb%bool_decide_eq_true. rewrite bool_decide_eq_true, bool_decide_eq_false. set_solver.
  - intros b. rewrite !bool_decide_eq_true. set_solver.
Qed.

Lemma unlisted_pruned id cleared d d' :
  pruned d d' -> (length (unlisted (id :: cleared) d') <= length (unlisted cleared d))%nat.
Proof.
  intros [Hb _]. etrans; [apply count_sublist, Hb|]. apply count_imp. intros b.
  rewrite !bool_decide_eq_true. set_solver.
Qed.

Lemma clear_unused_loop_ends {cfg : ServerConfig} n in_use cleared tail_ok queue s :
  joins_ok (c_db s) -> (length queue + length (unlisted cleared (c_db s)) <= n)%nat ->
  (clear_unused_loop n in_use cleared tail_ok queue s).1 <> Ret None.
Proof.
  revert cleared tail_ok queue s.
  induction n as [|n IH]; intros cleared tail_ok [|r queue] s Hj Hn; cbn in Hn; try done; [lia|].
  cbn [clear_unused_loop]. case_bool_decide as Hc; [apply IH; [done|lia]|].
  pose proof (unlisted_pruned (serialno r) cleared) as Hless.
  case_bool_decide; [destruct (is_collection _)|].
  - rewrite obind_run. pose proof (fun l s1 => list_children_length r s l s1 Hj) as Hl.
    pose proof (proj1 (pruned_list_children r s)) as Hp.
    destruct (list_children r s) as [[|[e|l]] s1]; cbn [fst snd] in *; [done|..].
    + apply Hless in Hp as Hle. apply IH; [by apply Hp|lia].
    + destruct (Hl _ _ eq_refl) as [Hd Hlen]. destruct tail_ok; [|done].
      pose proof (unlisted_less (serialno r) cleared (c_db s) Hc).
      apply IH; [by rewrite Hd|]. rewrite length_app, Hd. lia.
  - apply IH; [done|]. pose proof (Hless _ _ (reflexivity (c_db s))). lia.
  - rewrite obind_run. pose proof (proj1 (pruned_unbind_n 1 r None s)) as Hp.
    change (unbind_n 1 r None s) with (sabridge_unbind_resource r None s) in Hp.
    destruct (sabridge_unbind_resource r None s) as [[|[[e|] r1]] s1]; cbn [fst snd] in *; try done.
    apply Hless in Hp as Hle. apply IH; [by apply Hp|lia].
Qed.

(** The list of [sabridge_clear_unused] does not grow for ever either. *)
Theorem clear_unused_ends (cfg : ServerConfig) r in_use s :
  joins_ok (c_db s) ->
  (clear_unused_loop (S (length (binds (c_db s)))) in_use [] true [r] s).1 <> Ret None.
Proof.
  intros Hj. apply clear_unused_loop_ends; [done|]. cbn. unfold unlisted.
  rewrite filter_bool_all; [lia|]. intros b _. apply bool_decide_eq_true. set_solver.
Qed.
