(* ===== verification/BindHooks.v ===== *)
(** * The hooks for binds and redirect references ([bind.c], [redirect.c]) *)
From S2P Require Import Prelude Util Dbd Mime Db Bind Resource DbmsDeltav Redirect Bridge Users Properties Acl Listing Request Create Versions Unbind Copy.
Local Open Scope Z_scope.
Local Open Scope limestone_scope.

Section bind_hooks.
Context {cfg : ServerConfig} {req : Request}.

(** The path of a body and the type of a file. *)
Variable file_dir : string.
Variable ap_no2slash : string -> string.
Variable mime_type_ext_map : string -> option string.
Variable guess_mime_type : string -> string.

Definition dav_repos_is_bindable (res : dav_resource) : bool :=
  negb (bool_decide (res_type res = DAV_RESOURCE_TYPE_HISTORY)).

(** [sabridge_get_property] of the record of a [dav_resource]. *)
Definition get_property (res : dav_resource) : R (option dav_error * dav_resource) :=
  x ← run_out (sabridge_get_property (res_dbr res));
  mret (x.1, set_dbr x.2 res).

(** The error of reading the new bind is dropped. *)
Definition dav_repos_bind_resource (res coll : dav_resource) (segment : string)
    (binding : option dav_resource) : R (option dav_error * option dav_resource) :=
  err ← run (dbms_insert_bind (serialno (res_dbr res)) (serialno (res_dbr coll)) (Some segment));
  match binding with
  | Some b =>
      b ← ignore (get_property b);
      mret (err, Some (dav_repos_update_dbr_resource b))
  | None => mret (err, None)
  end.

(** [uri] is taken away for the call, so that no bind is removed. *)
Definition unbind_overwritten (new_bind : dav_resource) : R (option dav_error * dav_resource) :=
  if exists_ new_bind then
    let u := uri (res_dbr new_bind) in
    x ← unbind_resource (set_dbr (set_uri None (res_dbr new_bind)) new_bind);
    mret (x.1, set_dbr (set_uri u (res_dbr x.2)) x.2)
  else mret (None, new_bind).

(** The type of the file is looked up again under the new name. *)
Definition refresh_mime_type (new_bind : dav_resource) : R (option dav_error * dav_resource) :=
  let r := res_dbr new_bind in
  if bool_decide (resourcetype r = Some dav_repos_RESOURCE) then
    match sha1str r ≫= generate_path file_dir ap_no2slash, uri r with
    | Some path, Some u =>
        on_dbr new_bind (dbms_update_media_props
          (set_getcontenttype (Some (get_mime_type basename mime_type_ext_map guess_mime_type u path)) r))
    | _, _ => crash
    end
  else mret (None, new_bind).

(** With the two resources. *)
Definition dav_repos_rebind_resource (coll : dav_resource) (segment : string)
    (href_res new_bind : dav_resource)
  : R (option dav_error * (dav_resource * dav_resource)) :=
  let coll_id := serialno (res_dbr coll) in
  match uri (res_dbr href_res) with
  | None => crash
  | Some u =>
      p ← run_out (sabridge_retrieve_parent (res_dbr href_res) (res_pathname href_res));
      let href_res := set_dbr p.2 href_res in
      e ← (if exists_ new_bind
           then run (dbms_delete_bind coll_id (serialno (res_dbr new_bind)) segment)
           else mret None);
      match e with
      | Some e => mret (Some e, (href_res, new_bind))
      | None =>
          pair <! keep (href_res, new_bind)
                    (run (dbms_rebind_resource (serialno p.1) (basename u) coll_id segment)) ;;
          x ← unbind_overwritten new_bind;
          pair <! mret (x.1, (href_res, x.2)) ;;
          x ← get_property pair.1;
          pair <! mret (x.1, (x.2, pair.2)) ;;
          let href_res := dav_repos_update_dbr_resource pair.1 in
          x ← get_property pair.2;
          pair <! mret (x.1, (href_res, x.2)) ;;
          x ← refresh_mime_type (dav_repos_update_dbr_resource pair.2);
          pair <! mret (x.1, (pair.1, x.2)) ;;
          keep pair (run (dbms_change_acl_parent (serialno (res_dbr pair.1)) coll_id))
      end
  end.

Definition dav_repos_unbind_resource (res : dav_resource) : R (option dav_error * dav_resource) :=
  unbind_resource res.

(** ** [redirect.c] *)

Definition dav_repos_create_redirectref (res : dav_resource) (reftarget : string)
    (t : dav_redirectref_lifetime) : R (option dav_error * dav_resource) :=
  res <! sabridge_insert_resource
           (set_dbr (set_resourcetype (Some dav_repos_REDIRECT) (res_dbr res)) res) false false ;;
  keep res (run (dbms_insert_redirectref (res_dbr res) reftarget t)).

Variable format_time : Z -> string.

Definition dav_repos_update_redirectref (res : dav_resource) (reftarget : option string)
    (t : dav_redirectref_lifetime) : R (option dav_error) :=
  run (dbms_update_redirectref apr_dbd_escape format_time (res_dbr res) reftarget t).

(** The error is dropped. *)
Definition dav_repos_get_lifetime (res : dav_resource)
  : R (option string * dav_resource) :=
  x ← ignore (on_dbr res (dbms_get_redirect_props (res_dbr res)));
  mret (redirect_lifetime (res_dbr x), x).

Definition dav_repos_get_reftarget (res : dav_resource) : R (option string * dav_resource) :=
  x ← ignore (on_dbr res (dbms_get_redirect_props (res_dbr res)));
  mret (reftarget (res_dbr x), x).
End bind_hooks.
