(* ===== verification/Repos.v ===== *)
(** * The hooks of the repository ([repos.c])

    Reading a resource, PUT, MKCOL, COPY, MOVE and DELETE, and the URIs of responses. *)
From S2P Require Import Prelude Util Dbd Mime Db Bind Resource DbmsDeltav Bridge Users Properties Acl Listing Request Create Principal Versions Unbind Copy BindHooks.
Local Open Scope Z_scope.
Local Open Scope limestone_scope.

Definition HTTP_MULTI_STATUS : Z := 207.
Definition HTTP_METHOD_NOT_ALLOWED : Z := 405.

Definition USER_PATH : string := "/users".
Definition GROUP_PATH : string := "/groups".

(** ** The URIs of responses *)

(** What precedes the first colon. *)
Fixpoint strip_port (host : string) : string :=
  match host with
  | EmptyString => EmptyString
  | String c rest => if Ascii.eqb c ":"%char then EmptyString else String c (strip_port rest)
  end.

(** [strcmp (hostname + host_len - server_len, "." server_name) == 0] *)
Definition is_subdomain (hostname server_name : string) : bool :=
  bool_decide (String.length server_name < String.length hostname)%nat
  && String.eqb (drop_string (String.length hostname - String.length server_name) hostname)
       ("." +:+ server_name).

Definition matches_server (hostname : string) (server_name : option string) : bool :=
  match server_name with
  | Some n => String.eqb hostname n || is_subdomain hostname n
  | None => false
  end.

(** The prefix is taken away as characters. *)
Definition strip_domain_path (path uri : string) : string :=
  let result := if String.prefix path uri then drop_string (String.length path) uri else uri in
  if String.eqb result EmptyString then "/" else result.

(** [note] is the path remembered for the request; without the header Host a NULL string
    is searched. *)
Definition dav_repos_response_href_transform (host server_name note : option string) (uri : string)
  : M (outcome string) :=
  match host with
  | None => mret Crash
  | Some host =>
      if matches_server (strip_port host) server_name then oret uri
      else
        path ← (match note with
                | Some p => mret (Some p)
                | None => dbms_get_domain_path host
                end);
        oret (match path with
              | Some p => strip_domain_path p uri
              | None => uri
              end)
  end.

(** ** Reading *)

Definition sabridge_getetag_dbr (r : dav_repos_resource) : option string :=
  (fun h => QUOT +:+ h +:+ QUOT) <$> sha1str r.

Definition dav_repos_getetag (res : dav_resource) : option string :=
  if exists_ res then sabridge_getetag_dbr (res_dbr res) else None.

(** The resources of one module have the same hooks; the URI is that of the record. *)
Definition dav_repos_is_same_resource (res1 res2 : dav_resource) : bool :=
  bool_decide (uri (res_dbr res1) = uri (res_dbr res2)).

Definition dav_repos_is_parent_resource (res1 res2 : dav_resource) : bool := false.

Definition dav_repos_set_collection_type (res : dav_resource) (resType : Z) : option dav_error :=
  Some (dav_new_error HTTP_FORBIDDEN).

Section repos.
Context {cfg : ServerConfig} {req : Request}.

(** [dav_repos_new_resource] *)
Definition dav_repos_new_resource (root_path : string) : dav_resource :=
  DavResource (set_root_path root_path (set_has_resource true zero_dbr)) None None
    false false false false DAV_RESOURCE_TYPE_UNKNOWN.

Definition dav_repos_get_resource (root_prefix filename path_info request_uri : string)
  : R (option dav_error * dav_resource) :=
  let res := dav_repos_new_resource (dav_repos_chomp_slash root_prefix) in
  let res := set_pathname (Some (dav_repos_chomp_slash (filename +:+ path_info))) res in
  let u := dav_repos_chomp_trailing_slash request_uri in
  res <! get_property (set_dbr (set_uri (Some u) (res_dbr res)) res) ;;
  if negb (bool_decide (serialno (res_dbr res) = 0)) then
    let res := dav_repos_update_dbr_resource res in
    mret (None, set_working (bool_decide (checked_state (res_dbr res) = DAV_RESOURCE_CHECKED_OUT)) res)
  else mret (None, set_res_type DAV_RESOURCE_TYPE_REGULAR (set_exists false res)).

(** The destination and its parent; the root has none, and the NULL pointer is read. *)
Definition dav_repos_check_dst_parent (dst : dav_resource)
  : R (option dav_error * (dav_resource * dav_resource)) :=
  p ← run_out (dav_repos_get_parent_resource (res_dbr dst) (uri (res_dbr dst)) (res_pathname dst));
  match p with
  | inl e => mret (Some e, (dst, dst))
  | inr (None, _) => crash
  | inr (Some p, r) =>
      let parent := DavResource p None None false false false false DAV_RESOURCE_TYPE_UNKNOWN in
      let parent := if bool_decide (serialno p = 0) then parent
                    else dav_repos_update_dbr_resource parent in
      mret (if negb (exists_ parent) || negb (collection parent)
            then Some (dav_new_error HTTP_CONFLICT) else None,
            (set_dbr r dst, parent))
  end.

(** ** MKCOL, COPY, MOVE and DELETE *)

Definition is_version_type (t : dav_resource_type) : bool :=
  bool_decide (t = DAV_RESOURCE_TYPE_VERSION \/ t = DAV_RESOURCE_TYPE_HISTORY).

(** A resource that is there is a lock-null one. *)
Definition dav_repos_create_collection (res : dav_resource) : R (option dav_error * dav_resource) :=
  if is_version_type (res_type res) then mret (Some (dav_new_error HTTP_CONFLICT), res)
  else
    let r := set_resourcetype (Some dav_repos_COLLECTION)
               (set_getcontenttype (Some DIR_MAGIC_TYPE) (res_dbr res)) in
    let res := set_dbr r res in
    res <! (if bool_decide (serialno r = 0) then sabridge_insert_resource res false false
            else
              res <! keep res (run (dbms_set_property r)) ;;
              parent ← new_resource_from r;
              c ← run (dbms_get_collection_props (set_serialno (dbr_parent_id r) (res_dbr parent)));
              match c with
              | (Some e, _) => mret (Some e, res)
              | (None, p) =>
                  let r := set_limebar_state (limebar_state p) (set_av_new_children (av_new_children p) r) in
                  keep (set_dbr r res) (run (dbms_insert_collection r))
              end) ;;
    mret (None, set_exists true res).

Variable format_time : Z -> string.

Definition copy_by_type (src dst : dav_resource) (depth : Z)
  : R (option dav_error * (dav_resource * list dav_response)) :=
  let r := res_dbr src in
  if has_body (resourcetype r) then
    x ← sabridge_copy_medium_w_create r dst; mret (x.1, (x.2, []))
  else if is_collection (resourcetype r) then
    sabridge_copy_coll_w_create format_time r dst depth []
  else mret (None, (dst, [])).

(** The name of the source is given to the record of the destination first. *)
Definition dav_repos_copy_resource (src dst : dav_resource) (depth : Z)
  : R (option dav_error * (dav_resource * list dav_response)) :=
  if bool_decide (res_type src = DAV_RESOURCE_TYPE_HISTORY) || is_version_type (res_type dst)
  then mret (Some (dav_new_error HTTP_METHOD_NOT_ALLOWED), (dst, []))
  else
    p ← dav_repos_check_dst_parent dst;
    match p with
    | (Some e, (dst, _)) => mret (Some e, (dst, []))
    | (None, (dst, _)) =>
        match uri (res_dbr src), uri (res_dbr dst) with
        | Some su, Some du =>
            let su := dav_repos_chomp_slash su in
            let du := dav_repos_chomp_slash du in
            let src := set_dbr (set_uri (Some su) (res_dbr src)) src in
            let dst := set_dbr (set_uri (Some du) (res_dbr dst)) dst in
            if String.eqb su du then mret (Some (dav_new_error HTTP_BAD_REQUEST), (dst, []))
            else
              let dst := set_dbr (set_displayname (displayname (res_dbr src)) (res_dbr dst)) dst in
              x ← copy_by_type src dst depth;
              mret (match x.2.2 with
                    | [] => x.1
                    | _ => Some (dav_new_error HTTP_MULTI_STATUS)
                    end, x.2)
        | _, _ => crash
        end
    end.

(** The files of bodies, for the type under the new name. *)
Variable file_dir : string.
Variable ap_no2slash : string -> string.
Variable mime_type_ext_map : string -> option string.
Variable guess_mime_type : string -> string.

Definition dav_repos_move_resource (src dst : dav_resource)
  : R (option dav_error * (dav_resource * dav_resource)) :=
  if is_version_type (res_type src) || is_version_type (res_type dst)
  then mret (Some (dav_new_error HTTP_METHOD_NOT_ALLOWED), (src, dst))
  else
    p ← dav_repos_check_dst_parent dst;
    match p with
    | (Some e, (dst, _)) => mret (Some e, (src, dst))
    | (None, (dst, parent)) =>
        match uri (res_dbr src), uri (res_dbr dst) with
        | Some su, Some du =>
            if String.eqb su du then mret (Some (dav_new_error HTTP_BAD_REQUEST), (src, dst))
            else dav_repos_rebind_resource file_dir ap_no2slash mime_type_ext_map guess_mime_type
                   parent (basename du) src dst
        | _, _ => crash
        end
    end.

Definition dav_repos_remove_resource (res : dav_resource) : R (option dav_error * dav_resource) :=
  if bool_decide (res_type res = DAV_RESOURCE_TYPE_VERSION)
  then mret (Some (dav_new_error HTTP_METHOD_NOT_ALLOWED), res)
  else
    res <! unbind_resource res ;;
    mret (None, set_exists false res).
End repos.
