(* ===== verification/Put.v ===== *)
(** * PUT ([repos.c]): the stream of a body, and the documents of users

    The file that is written is the library's; what the code reads from it is its digest,
    its length, the type the library guesses and, for a user, the parsed document. *)
From S2P Require Import Prelude Util Dbd Mime Db Bind Resource DbmsDeltav Bridge Users Properties Acl Listing Request Create Principal Versions Unbind Repos.
Local Open Scope Z_scope.
Local Open Scope limestone_scope.

(** The elements of the document, by [dav_repos_xml_get_element_no_ns_text]. *)
Record user_document := UserDocument {
  doc_password : option string;
  doc_password_hash : option string;
  doc_email : option string;
  doc_displayname : option string;
  doc_no_profile : option string;
  doc_otp : option string;
  doc_cur_password : option string
}.

Record dav_repos_user_profile := UserProfile {
  profile_id : Z;
  profile_email : option string;
  profile_username : option string;
  profile_password_hash : option string;
  profile_displayname : option string;
  profile_otp : option string
}.

(** The file of a stream. *)
Record stream_file := StreamFile {
  file_path : string;
  file_sha1 : string;
  file_length : Z;
  file_document : option user_document
}.

Definition mode_type (u : string) : dav_repos_type :=
  if String.prefix USER_PATH u then dav_repos_USER
  else if String.prefix GROUP_PATH u then dav_repos_GROUP
  else dav_repos_RESOURCE.

Section put.
Context {cfg : ServerConfig} {req : Request}.

(** [dav_principal_make_from_url] and the prefix of principals, the table [users]' check
    and the server's last message, the digest of passwords, and the hooks of the profile
    provider. *)
Variable make_from_url : string -> db -> dav_principal.
Variable href_prefix : string.
Variable email_valid : string -> bool.
Variable dbms_error : conn -> string.
Variable apr_md5 : string -> list Z.
Variable profile_create : option (dav_repos_user_profile -> option dav_error).
Variable profile_update : option (dav_repos_user_profile -> option dav_error).

Definition request_profile (hook : option (dav_repos_user_profile -> option dav_error))
    (doc : user_document) (p : dav_repos_user_profile) : option dav_error :=
  match doc_no_profile doc, hook with
  | None, Some f => f p
  | _, _ => None
  end.

(** An error that ends [dav_repos_put_user], or the error and the resource to go on with. *)
Definition user_result : Type := dav_error + option dav_error * dav_resource.

Definition bad_request : R user_result := mret (inl (dav_new_error HTTP_BAD_REQUEST)).

(** The hash the document asks for: its own, or that of its password. *)
Definition new_user_hash (doc : user_document) (email : string) : option string :=
  match doc_password_hash doc, doc_password doc with
  | Some h, _ => Some h
  | None, Some p => Some (get_password_hash apr_md5 email p)
  | None, None => None
  end.

Definition put_new_user (doc : user_document) (res : dav_resource) : R user_result :=
  match doc_email doc, doc_displayname doc with
  | None, _ | Some _, None => bad_request
  | Some email, Some name =>
      match new_user_hash doc email, uri (res_dbr res) with
      | None, _ => bad_request
      | Some _, None => crash
      | Some hash, Some u =>
          match request_profile profile_create doc
                  (UserProfile (serialno (res_dbr res)) (Some email) (Some (basename u)) (Some hash)
                     (Some name) (doc_otp doc)) with
          | Some e => mret (inl e)
          | None =>
              x ← dav_repos_create_user make_from_url href_prefix email_valid dbms_error res hash email;
              mret (inr x)
          end
      end
  end.

(** The current password is checked under the name its hash was made with; a user without
    a row has NULL for both.  The error of the password is overwritten by that of the
    address. *)
Definition put_old_user (doc : user_document) (res : dav_resource) : R user_result :=
  let r := res_dbr res in
  cur_email ← run (dbms_get_user_email (serialno r));
  match doc_cur_password doc with
  | None => bad_request
  | Some cur_passwd =>
      h ← run (dbms_get_user_pwhash (serialno r) None None);
      match h, uri r with
      | (Some cur_pwhash, Some type), Some u =>
          let cur_name := default "(null)"%string cur_email in
          let pwhash := get_password_hash apr_md5
                          (if String.eqb type "Email" then cur_name else basename u) cur_passwd in
          if negb (String.eqb cur_pwhash pwhash) then bad_request
          else
            let hash := get_password_hash apr_md5 (default cur_name (doc_email doc))
                          (default cur_passwd (doc_password doc)) in
            match request_profile profile_update doc
                    (UserProfile (serialno r) (doc_email doc) None (Some hash) None None) with
            | Some e => mret (inl e)
            | None =>
                e ← dav_repos_update_password res hash;
                e ← (match doc_email doc with
                     | Some email => run (dbms_set_user_email email_valid dbms_error (serialno r) email)
                     | None => mret e
                     end);
                mret (inr (e, res))
            end
      | _, _ => crash
      end
  end.

Definition is_given (o : option string) : bool := bool_decide (is_Some o).

(** The result of storing the name is dropped. *)
Definition put_displayname (doc : user_document) (res : dav_resource) : R dav_resource :=
  match doc_displayname doc with
  | None => mret res
  | Some n =>
      let r := set_displayname (Some n) (res_dbr res) in
      _ ← run (dbms_set_property r);
      mret (set_dbr r res)
  end.

Definition dav_repos_put_user (file : stream_file) (inserted : bool) (res : dav_resource)
  : R (option dav_error * dav_resource) :=
  match file_document file with
  | None => mret (Some (dav_new_error HTTP_BAD_REQUEST), res)
  | Some doc =>
      e ← (match doc_email doc with
           | Some email => run (sabridge_verify_user_email_unique email)
           | None => mret None
           end);
      match e with
      | Some e => mret (Some e, res)
      | None =>
          x ← (if inserted then put_new_user doc res
               else if is_given (doc_password doc) || is_given (doc_email doc)
               then put_old_user doc res
               else mret (inr (None, res)));
          match x with
          | inl e => mret (Some e, res)
          | inr (e, res) => res ← put_displayname doc res; mret (e, res)
          end
      end
  end.

(** ** The stream *)

(** The part of [dav_repos_open_stream] before the file: whether a resource was inserted. *)
Definition dav_repos_open_stream (res : dav_resource)
  : R (option dav_error * (dav_resource * bool)) :=
  let r := res_dbr res in
  if bool_decide (serialno r = 0) then
    match uri r with
    | None => crash
    | Some u =>
        let t := mode_type u in
        x ← sabridge_insert_resource (set_dbr (set_resourcetype (Some t) r) res) false
              (bool_decide (t = dav_repos_USER));
        mret (x.1, (x.2, bool_decide (x.1 = None)))
    end
  else mret (None, (res, false)).

Variable mime_type_ext_map : string -> option string.
Variable guess_mime_type : string -> string.

(** The body is moved to its place after its row was changed; a failure of the file
    system is not modelled.  The file of the body before is not removed. *)
Definition store_body (file : stream_file) (content_type : option string) (res : dav_resource)
  : R (option dav_error * dav_resource) :=
  match uri (res_dbr res) with
  | None => crash
  | Some u =>
      let t := if bool_decide (is_content_type_good content_type = 1) then content_type
               else Some (get_mime_type basename mime_type_ext_map guess_mime_type u (file_path file)) in
      let r := set_getcontentlength (file_length file)
                 (set_sha1str (Some (file_sha1 file)) (set_getcontenttype t (res_dbr res))) in
      res <! keep (set_dbr r res) (run (dbms_set_property r)) ;;
      res <! on_dbr res (dbms_update_media_props (res_dbr res)) ;;
      fs ← run get_files;
      _ ← run (set_files (if bool_decide (file_sha1 file ∈ fs) then fs else file_sha1 file :: fs));
      mret (None, res)
  end.

(** A lock-null resource becomes an ordinary one. *)
Definition fill_locknull (res : dav_resource) : R (option dav_error * dav_resource) :=
  if bool_decide (resourcetype (res_dbr res) = Some dav_repos_LOCKNULL) then
    res <! on_dbr res (sabridge_create_empty_body (res_dbr res)) ;;
    mret (None, set_dbr (set_resourcetype (Some dav_repos_RESOURCE) (res_dbr res)) res)
  else mret (None, res).

Definition dav_repos_close_stream (file : stream_file) (content_type : option string)
    (inserted commit : bool) (res : dav_resource) : R (option dav_error * dav_resource) :=
  if commit then
    res <! fill_locknull res ;;
    let t := resourcetype (res_dbr res) in
    if bool_decide (t = Some dav_repos_RESOURCE \/ t = Some dav_repos_VERSIONED)
    then store_body file content_type res
    else if bool_decide (t = Some dav_repos_USER) then dav_repos_put_user file inserted res
    else mret (None, res)
  else if inserted then
    let r := res_dbr res in
    _ ← run_out (sabridge_delete_resource sabridge_coll_clear_children (sabridge_mk_version_uri r) r);
    mret (None, res)
  else mret (None, res).
End put.
