(* ===== verification/ReposSpec.v ===== *)
(** * What COPY, PUT and the URIs of responses do

    The effect of the hooks of [repos.c] on the tables. *)
From S2P Require Import Prelude Util Dbd Mime Db Bind Resource DbmsDeltav Transaction Bridge Users Properties Acl Listing Request Create Versions CreateSpec VersionsSpec Gc Bodies Unbind UnbindEnds Copy BindHooks Repos Put.
Local Open Scope Z_scope.
Local Open Scope limestone_scope.

(** ** COPY of a single resource *)

Section copy_resource.
Context {cfg : ServerConfig} {req : Request}.

Lemma mono_create_empty_body_on res :
  MonoR (on_dbr res (sabridge_create_empty_body (res_dbr res))).
Proof. pose proof mono_create_empty_body. unfold on_dbr. moves. Qed.

Lemma mono_unbind_resource res : MonoR (unbind_resource res).
Proof.
  unfold unbind_resource. apply movesR_bind; [apply _| |intros; moves].
  apply movesR_run_out; [apply _|]. apply (mono_moves pruned), pruned_unbind_n.
Qed.

(** A resource made at a free place: its row, its bind, the body and the dead properties
    of the source, and nothing else. *)
Record copy_made (src new : Z) (bs : list bind_row) (d d' : db) : Prop := {
  cm_idents : idents d' = idents d ++ [(new, dav_repos_RESOURCE)];
  cm_binds : binds d' = binds d ++ bs;
  cm_body : body_copied src new d d';
  cm_props : props_copied src new d d';
  cm_versions : versions d' = versions d;
  cm_vcrs : vcrs d' = vcrs d;
  cm_vhrs : vhrs d' = vhrs d
}.

Lemma copy_made_intro src new bs m d d1 d2 :
  src <> new -> m_res m = new ->
  adds_rows [(new, dav_repos_RESOURCE)] bs [m] d d1 -> medium_copied src new d1 d2 ->
  copy_made src new bs d d2.
Proof.
  intros Hne Hm Ha [[Hb1 Hb2] [Hp1 Hp2] Hk].
  pose proof (content_added _ src _ _ _ _ _ (not_eq_sym Hne) Hm Ha) as Hc.
  destruct Ha as [Hpr Hv1 Hc1 Hh1 Hmd Hi1 Hbi], Hk as [Hv2 Hc2 Hh2 Hi2 Hbi2].
  split; try congruence.
  - split; [rewrite Hb1; by apply Hc|]. intros id Hid. rewrite Hb2 by done. by apply Hc.
  - split; [by rewrite Hp1, Hpr|]. intros id Hid. rewrite Hp2 by done. by rewrite Hpr.
Qed.

Lemma copy_medium_w_create_wp src dst c s :
  serialno (res_dbr dst) = 0 -> serialno src <> resources_id_seq (sequences (c_db s)) ->
  wp (sabridge_copy_medium_w_create src dst) c s (fun x _ s1 => exists bs,
    let new := resources_id_seq (sequences (c_db s)) in
    x.1 = None /\ serialno (res_dbr x.2) = new /\ uri (res_dbr x.2) = uri (res_dbr dst)
    /\ bind_rows x.2 false bs /\ copy_made (serialno src) new bs (c_db s) (c_db s1)).
Proof.
  intros Hz Hne. pose proof mono_copy_medium. pose proof mono_create_empty_body_on.
  pose proof mono_sabridge_insert_resource.
  unfold sabridge_copy_medium_w_create. rewrite Hz, (bool_decide_true _ eq_refl). cbn [negb andb].
  apply wp_unless_error; [intros; moves|]. apply wp_ret. rewrite Hz, (bool_decide_true _ eq_refl).
  apply wp_bind; [moves|]. apply wp_ignore.
  eapply wp_mono; [by apply (insert_resource_wp dav_repos_RESOURCE)|].
  intros [e x] c1 s1 (bs & ms & Hcr). cbn [snd] in *. set (new := resources_id_seq _) in *.
  pose proof (cr_serialno _ _ _ _ _ _ _ _ Hcr) as Hn. fold new in Hn.
  rewrite (cr_type _ _ _ _ _ _ _ _ Hcr), (bool_decide_false (Some _ = Some dav_repos_LOCKNULL)) by done.
  apply wp_bind; [moves|]. apply wp_ret. apply wp_bind; [moves|]. apply wp_run_out. intros y Hy He.
  destruct (copy_medium_wpm src (res_dbr x) s1 ltac:(congruence) He y Hy) as (He' & Hs & Hu & Hmc).
  apply wp_ret. exists bs. cbn. split; [done|]. split; [congruence|].
  split; [rewrite Hu; apply (cr_uri _ _ _ _ _ _ _ _ Hcr)|].
  pose proof (cr_bind _ _ _ _ _ _ _ _ Hcr) as Hb. unfold bind_rows in *. cbn [res_dbr res_parent set_dbr].
  split; [by rewrite Hu, Hs|].
  destruct (cr_body _ _ _ _ _ _ _ _ Hcr) as (m & -> & Hm & _). fold new in Hm. rewrite Hn in Hmc.
  eapply copy_made_intro; [done|exact Hm|apply (cr_rows _ _ _ _ _ _ _ _ Hcr)|exact Hmc].
Qed.

Lemma check_dst_parent_wp dst c s :
  wp (dav_repos_check_dst_parent dst) c s (fun x _ s1 => c_db s1 = c_db s
    /\ serialno (res_dbr x.2.1) = serialno (res_dbr dst)
    /\ uri (res_dbr x.2.1) = uri (res_dbr dst)).
Proof.
  unfold dav_repos_check_dst_parent. apply wp_bind; [intros; moves|]. apply wp_run_out.
  pose proof (reads_get_parent (res_dbr dst) (uri (res_dbr dst)) (res_pathname dst) s) as (Hd & _).
  intros p Hp _. assert (Hr : match p with
    | inr (_, r) => serialno r = serialno (res_dbr dst) /\ uri r = uri (res_dbr dst)
    | inl _ => True end).
  { revert Hp. unfold dav_repos_get_parent_resource. destruct (uri (res_dbr dst)) as [u|] eqn:Hu.
    - destruct (_ || _); [by intros [= <-]|]. rewrite obind_run.
      destruct (sabridge_get_property _ s) as [[|[[e|] q]] s1]; cbn; try done; intros [= <-]; [done|].
      by case_bool_decide.
    - by intros [= <-]. }
  destruct p as [e|[[p|] r]]; [by apply wp_ret| |done]. apply wp_ret. destruct Hr. by split_and!.
Qed.

Lemma mono_copy_medium_w_create src dst : MonoR (sabridge_copy_medium_w_create src dst).
Proof.
  pose proof mono_copy_medium. pose proof mono_create_empty_body_on.
  pose proof mono_sabridge_insert_resource. pose proof mono_unbind_resource.
  unfold sabridge_copy_medium_w_create. moves.
Qed.

(** The part of [dav_repos_copy_resource] after the destination's parent is found, for a
    source with a body. *)
Definition copy_body_to (fmt : Z -> string) (src dst : dav_resource) (depth : Z)
  : R (option dav_error * (dav_resource * list dav_response)) :=
  match uri (res_dbr src), uri (res_dbr dst) with
  | Some su, Some du =>
      let su := dav_repos_chomp_slash su in
      let du := dav_repos_chomp_slash du in
      let dst := set_dbr (set_uri (Some du) (res_dbr dst)) dst in
      if String.eqb su du then mret (Some (dav_new_error HTTP_BAD_REQUEST), (dst, []))
      else
        x ← sabridge_copy_medium_w_create (set_uri (Some su) (res_dbr src))
              (set_dbr (set_displayname (displayname (res_dbr src)) (res_dbr dst)) dst);
        mret (x.1, (x.2, []))
  | _, _ => crash
  end.

Lemma copy_resource_body fmt src dst depth :
  has_body (resourcetype (res_dbr src)) = true ->
  forall c s, dav_repos_copy_resource fmt src dst depth c s
    = (if bool_decide (res_type src = DAV_RESOURCE_TYPE_HISTORY) || is_version_type (res_type dst)
       then mret (Some (dav_new_error HTTP_METHOD_NOT_ALLOWED), (dst, []))
       else p ← dav_repos_check_dst_parent dst;
            match p with
            | (Some e, (dst, _)) => mret (Some e, (dst, []))
            | (None, (dst, _)) => copy_body_to fmt src dst depth
            end) c s.
Proof.
  intros Ht c s. unfold dav_repos_copy_resource. destruct (_ || _); [done|].
  unfold mbind, R_bind, obind. rewrite !bind_run.
  destruct (dav_repos_check_dst_parent dst c s) as [[|[[[e|] [d p]] c1]] s1]; cbn; try done.
  unfold copy_body_to, copy_by_type.
  destruct (uri (res_dbr src)) as [su|], (uri (res_dbr d)) as [du|]; try done. cbn.
  rewrite Ht. destruct (String.eqb _ _); [done|].
  unfold mbind, R_bind, obind. rewrite !bind_run.
  destruct (sabridge_copy_medium_w_create _ _ c1 s1) as [[|[x c2]] s2]; cbn; [done|].
  by destruct x.
Qed.

Lemma copy_resource_wp fmt src dst depth c s :
  has_body (resourcetype (res_dbr src)) = true -> serialno (res_dbr dst) = 0 ->
  let new := resources_id_seq (sequences (c_db s)) in serialno (res_dbr src) <> new ->
  wp (dav_repos_copy_resource fmt src dst depth) c s (fun x _ s1 => x.1 = None ->
    exists u id coll t, uri (res_dbr dst) = Some u
      /\ serialno (res_dbr x.2.1) = new
      /\ copy_made (serialno (res_dbr src)) new
           [BindRow id (basename (dav_repos_chomp_slash u)) coll new t] (c_db s) (c_db s1)).
Proof.
  intros Ht Hz new Hne. pose proof mono_copy_medium_w_create. unfold wp.
  rewrite (copy_resource_body fmt _ _ _ Ht). fold (wp
    (if bool_decide (res_type src = DAV_RESOURCE_TYPE_HISTORY) || is_version_type (res_type dst)
     then mret (Some (dav_new_error HTTP_METHOD_NOT_ALLOWED), (dst, []))
     else p ← dav_repos_check_dst_parent dst;
          match p with
          | (Some e, (dst, _)) => mret (Some e, (dst, []))
          | (None, (dst, _)) => copy_body_to fmt src dst depth
          end) c s).
  destruct (_ || _); [by apply wp_ret|].
  apply wp_bind; [intros [[e|] [d p]]; unfold copy_body_to; moves|].
  eapply wp_mono; [apply check_dst_parent_wp|].
  intros [[e|] [d p]] c1 s1 (Hd & Hs & Hu); cbn in Hs, Hu; [by apply wp_ret|].
  unfold copy_body_to. rewrite Hu.
  destruct (uri (res_dbr src)) as [su|], (uri (res_dbr dst)) as [u|]; try done. cbv zeta.
  destruct (String.eqb _ _); [by apply wp_ret|]. apply wp_bind; [moves|].
  eapply wp_mono; [apply copy_medium_w_create_wp; [cbn; congruence|by rewrite Hd]|].
  rewrite Hd. intros x c2 s2 (bs & He & Hn & Hux & Hb & Hc). apply wp_ret. intros _.
  unfold bind_rows in Hb. rewrite Hux in Hb. cbn in Hb, Hn. rewrite Hn in Hb.
  destruct Hb as (id & coll & t & _ & ->). fold new in Hc. eauto 8.
Qed.
End copy_resource.

(** ** PUT *)

(** The bodies of the tables after a PUT. *)
Record body_stored (id : Z) (b : Z * option string * string) (d d' : db) : Prop := {
  bs_content : content id d' = (fun _ => b) <$> content id d;
  bs_others : forall i, i <> id -> content i d' = content i d;
  bs_binds : binds d' = binds d;
  bs_properties : properties d' = properties d;
  bs_versions : versions d' = versions d
}.

Lemma find_media_update id m d d' i :
  m_res m = id ->
  media d' = map (fun x => if bool_decide (m_res x = id) then m else x) (media d) ->
  find_media i d' = if bool_decide (i = id) then (fun _ => m) <$> find_media id d
                    else find_media i d.
Proof.
  intros Hm H. unfold find_media. rewrite H. clear H. induction (media d) as [|x l IH]; cbn.
  { by case_bool_decide. }
  destruct (decide (m_res x = id)) as [E|E].
  - rewrite (bool_decide_true _ E), Hm. destruct (decide (i = id)) as [->|Hi].
    + by rewrite !(bool_decide_true (id = id)).
    + rewrite (bool_decide_false (id = i)) by congruence. rewrite IH.
      rewrite !(bool_decide_false (i = id)) by done. rewrite E.
      by rewrite (bool_decide_false (id = i)) by congruence.
  - rewrite (bool_decide_false _ E). destruct (decide (m_res x = i)) as [Ei|Ei].
    + rewrite (bool_decide_true _ Ei). by rewrite (bool_decide_false (i = id)) by congruence.
    + rewrite (bool_decide_false _ Ei). apply IH.
Qed.

Lemma update_media_stored m d d' :
  update_media_stmt m d = Some (tt, d') ->
  body_stored (m_res m) (m_size m, m_mimetype m, m_sha1 m) d d'
  /\ forall x, x ∈ media d' -> x ∈ media d \/ x = m.
Proof.
  unfold update_media_stmt. destruct (find_media (m_res m) d) as [old|] eqn:Hf.
  - destruct (charge _ _ _) as [qs|]; [|done]. intros [= <-].
    pose proof (fun i => find_media_update (m_res m) m d (set_quota qs (set_media
      (map (fun x => if bool_decide (m_res x = m_res m) then m else x) (media d)) d)) i eq_refl eq_refl)
      as Hu. split; [split; try done|].
    + unfold content. by rewrite Hu, bool_decide_true, Hf.
    + intros i Hi. unfold content. by rewrite Hu, (bool_decide_false _ Hi).
    + intros x (y & <- & Hy)%elem_of_map. case_bool_decide; auto.
  - intros [= <-]. split; [split; try done; unfold content; by rewrite Hf|auto].
Qed.

(** A statement before and one after that leave the bodies. *)
Lemma body_stored_frame id b d0 d d' d1 :
  media d = media d0 -> binds d = binds d0 -> properties d = properties d0 ->
  versions d = versions d0 -> same_tables d' d1 -> body_stored id b d d' -> body_stored id b d0 d1.
Proof.
  intros Hm Hb Hp Hv [P V _ _ M _ B] [C O Bi Pr Ve]. rewrite app_nil_r in *.
  pose proof (fun i => content_media i _ _ Hm) as K0. pose proof (fun i => content_media i _ _ M) as K1.
  split; [by rewrite K1, C, K0| |congruence..]. intros i Hi. rewrite K1, O, K0; done.
Qed.

Lemma update_media_props_wpm r s h :
  sha1str r = Some h -> wpm (dbms_update_media_props r) s (fun x s1 => x.1 = None
    /\ same_record r x.2
    /\ exists m, m_res m = serialno r /\ m_sha1 m = h
       /\ body_stored (serialno r) (getcontentlength r, getcontenttype r, h) (c_db s) (c_db s1)
       /\ forall x, x ∈ media (c_db s1) -> x ∈ media (c_db s) \/ x = m).
Proof.
  intros Hh. pose proof (fun r => mono_moves _ _ (moves_notify r)). unfold dbms_update_media_props.
  apply wpm_bind; [moves|]. intros _. cbn [time_now_str fst snd].
  apply wpm_bind; [moves|]. apply wpm_execute. intros [] d Hd Hs. apply wpm_bind; [moves|].
  intros He. rewrite (notify_ok _ _ He). apply wpm_ret.
  match goal with |- context [dbms_notify_resource_updated ?r ?s] =>
    destruct (moves_notify r s) as [Ht _] end.
  rewrite Hs in Ht. unfold update_media_of in Hd. cbn [sha1str set_updated_at] in Hd. rewrite Hh in Hd.
  apply update_media_stored in Hd as [Hst Hin]. cbn [m_res m_size m_mimetype m_sha1] in Hst.
  split; [done|]. split; [by constructor|]. eexists. split; [|split; [|split]]; cycle -1.
  - intros x Hx. apply Hin. destruct Ht as [_ _ _ _ Hm _ _]. rewrite app_nil_r in Hm.
    rewrite <- Hm. exact Hx.
  - done.
  - done.
  - eapply body_stored_frame; [..|exact Ht|exact Hst]; done.
Qed.

Section put.
Context {cfg : ServerConfig} {req : Request}.
Variable mime_type_ext_map : string -> option string.
Variable guess_mime_type : string -> string.

(** The type of a body: that of the request when it is a good one, or that of the file. *)
Definition put_type (file : stream_file) (content_type : option string) (u : string) : string :=
  if bool_decide (is_content_type_good content_type = 1) then default EmptyString content_type
  else get_mime_type basename mime_type_ext_map guess_mime_type u (file_path file).

Lemma set_property_rows r s :
  media (c_db (dbms_set_property r s).2) = media (c_db s)
  /\ binds (c_db (dbms_set_property r s).2) = binds (c_db s)
  /\ properties (c_db (dbms_set_property r s).2) = properties (c_db s)
  /\ versions (c_db (dbms_set_property r s).2) = versions (c_db s)
  /\ c_files (dbms_set_property r s).2 = c_files s.
Proof.
  unfold dbms_set_property. destruct (resourcetype r); [|done]. rewrite bind_run.
  cbn [snd mret M_ret]. match goal with |- context [update ?f s] =>
    pose proof (execute_files (fun d => Some (tt, f d)) s) as Hf;
    destruct (update_cases f s) as [[_ ->]|[_ ->]] end; by split_and!.
Qed.

Lemma update_media_files r s : c_files (dbms_update_media_props r s).2 = c_files s.
Proof.
  unfold dbms_update_media_props. rewrite bind_run. cbn [time_now_str fst snd]. rewrite bind_run.
  match goal with |- context [execute ?f ?x] => pose proof (execute_files f x) as Hf;
    destruct (execute f x) as [[[]|] s1] end; cbn [fst snd mret M_ret] in *; [|done].
  rewrite bind_run. cbn [snd mret M_ret]. unfold dbms_notify_resource_updated. rewrite bind_run.
  cbn [snd mret M_ret]. unfold update. by rewrite execute_files.
Qed.

Lemma store_body_wp file content_type res c s :
  wp (store_body mime_type_ext_map guess_mime_type file content_type res) c s (fun x _ s1 =>
    x.1 = None -> exists u, uri (res_dbr res) = Some u
    /\ body_stored (serialno (res_dbr res))
         (file_length file, Some (put_type file content_type u), file_sha1 file) (c_db s) (c_db s1)
    /\ (bodies_stored (c_db s) (c_files s) -> bodies_stored (c_db s1) (c_files s1))
    /\ forall f, f ∈ c_files s -> f ∈ c_files s1).
Proof.
  pose proof (fun r => mono_moves _ _ (moves_notify r)).
  unfold store_body. destruct (uri (res_dbr res)) as [u|] eqn:Hu; [|done]. cbv zeta.
  set (t := if bool_decide (_ = 1) then _ else _). set (r := set_getcontentlength _ _).
  apply wp_unless_error; [intros; unfold on_dbr, dbms_update_media_props; moves|].
  apply wp_keep, wp_run. intros _. destruct (set_property_rows r s) as (Hm & Hb & Hp & Hv & Hf).
  destruct (dbms_set_property r s) as [[e|] s1]; cbn [fst snd] in *; [done|].
  apply wp_unless_error; [intros; moves|]. unfold on_dbr. apply wp_bind; [intros; moves|].
  apply wp_run. intros He2. pose proof (update_media_props_wpm r s1 (file_sha1 file) eq_refl He2) as Hup.
  pose proof (update_media_files r s1) as Hfs. cbn [res_dbr set_dbr].
  destruct (dbms_update_media_props r s1) as [[e r2] s2]. cbn [fst snd] in *.
  destruct Hup as (-> & _ & m & Hmr & Hms & Hst & Hin). apply wp_ret.
  apply wp_bind; [intros; moves|]. apply wp_run. intros _. cbn [get_files fst snd].
  apply wp_bind; [intros; moves|]. apply wp_run. intros _. apply wp_ret. intros _.
  exists u. split; [done|]. cbn [set_files fst snd c_db c_files]. split; [|split].
  - eapply body_stored_frame; [exact Hm|exact Hb|exact Hp|exact Hv|reflexivity|].
    replace (Some (put_type file content_type u)) with t; [exact Hst|].
    unfold t, put_type. case_bool_decide as Hg; [|done]. by destruct content_type.
  - intros Hall x Hx. rewrite Hfs, Hf. assert (Hx' : m_sha1 x ∈ file_sha1 file :: c_files s).
    { apply Hin in Hx as [Hx| ->]; [right; apply Hall; by rewrite <- Hm|]. rewrite Hms. left. }
    case_bool_decide as Hf1; [|done]. apply elem_of_cons in Hx' as [->|]; done.
  - intros f Hin'. rewrite Hfs, Hf. case_bool_decide; [done|by right].
Qed.
End put.

(** C8. A PUT over a resource with a body: the body, its length and its type are those of the
    stream, every other body and everything else is as before, every body of the tables has
    its file, and no file is removed, so that the body before stays on disk. *)
Theorem put_spec (cfg : ServerConfig) (req : Request) make_from_url href_prefix email_valid
    dbms_error apr_md5 create update mime_type_ext_map guess_mime_type
    file content_type inserted res c s x c' s' :
  resourcetype (res_dbr res) = Some dav_repos_RESOURCE
  \/ resourcetype (res_dbr res) = Some dav_repos_VERSIONED ->
  dav_repos_close_stream make_from_url href_prefix email_valid dbms_error apr_md5 create update
    mime_type_ext_map guess_mime_type file content_type inserted true res c s = (Ret (x, c'), s') ->
  c_errnum s' = false -> x.1 = None ->
  exists u, uri (res_dbr res) = Some u
    /\ body_stored (serialno (res_dbr res))
         (file_length file, Some (put_type mime_type_ext_map guess_mime_type file content_type u),
          file_sha1 file) (c_db s) (c_db s')
    /\ (bodies_stored (c_db s) (c_files s) -> bodies_stored (c_db s') (c_files s'))
    /\ forall f, f ∈ c_files s -> f ∈ c_files s'.
Proof.
  intros Ht E He Hx.
  assert (E' : store_body mime_type_ext_map guess_mime_type file content_type res c s
               = (Ret (x, c'), s')).
  { rewrite <- E. unfold dav_repos_close_stream, fill_locknull, unless_error.
    rewrite (bool_decide_false (_ = Some dav_repos_LOCKNULL)) by (destruct Ht; congruence).
    unfold mbind at 1, R_bind, obind at 1. rewrite bind_run. cbn [fst snd mret R_ret oret M_ret].
    by rewrite (bool_decide_true _ Ht). }
  exact (wp_use _ _ _ _ _ _ _ (store_body_wp mime_type_ext_map guess_mime_type file content_type
    res c s) E' He Hx).
Qed.

(** C7. COPY of a resource with a body to a place that is free: when nothing is refused and no
    error is reported, there is one resource more, with one bind, the body and the dead
    properties of the source; nothing else of bodies, properties, binds and versions
    changes. *)
Theorem copy_resource_spec (cfg : ServerConfig) (req : Request) fmt src dst depth c s x c' s' :
  has_body (resourcetype (res_dbr src)) = true -> serialno (res_dbr dst) = 0 ->
  let new := resources_id_seq (sequences (c_db s)) in serialno (res_dbr src) <> new ->
  dav_repos_copy_resource fmt src dst depth c s = (Ret (x, c'), s') ->
  c_errnum s' = false -> x.1 = None ->
  exists u id coll t, uri (res_dbr dst) = Some u
    /\ serialno (res_dbr x.2.1) = new
    /\ copy_made (serialno (res_dbr src)) new
         [BindRow id (basename (dav_repos_chomp_slash u)) coll new t] (c_db s) (c_db s').
Proof.
  intros Ht Hz new Hne E He Hx.
  exact (wp_use _ _ _ _ _ _ _ (copy_resource_wp fmt src dst depth c s Ht Hz Hne) E He Hx).
Qed.

(** ** COPY onto a lock-null resource *)

Definition same_idents (d d' : db) : Prop := idents d' = idents d.

#[export] Instance same_idents_preorder : PreOrder same_idents.
Proof. split; [by intros d|]. intros x y z H1 H2. by transitivity (idents y). Qed.

Lemma moves_weaken {A} (Q Q' : db -> db -> Prop) (m : M A) :
  (forall d d', Q d d' -> Q' d d') -> Moves Q m -> Moves Q' m.
Proof. intros H Hm s. destruct (Hm s). split; auto. Qed.

Lemma same_tables_idents d d' : same_tables d d' -> same_idents d d'.
Proof. intros [_ _ _ _ _ H _]. by rewrite app_nil_r in H. Qed.

Lemma R_ret_bind {A B} (x : A) (f : A -> R B) c s : ((mret x : R A) ≫= f) c s = f x c s.
Proof. reflexivity. Qed.

Section locknull.
Context {cfg : ServerConfig} {req : Request}.

Lemma idents_notify r : Moves same_idents (dbms_notify_resource_updated r).
Proof. eapply moves_weaken, moves_notify. apply same_tables_idents. Qed.

Lemma idents_displayname r : Moves same_idents (dbms_update_displayname r).
Proof. eapply moves_weaken, moves_update_displayname. apply same_tables_idents. Qed.

Lemma idents_dead_props a b : Moves same_idents (sabridge_copy_dead_props a b).
Proof. eapply moves_weaken, moves_copy_dead_props. by intros d d' [_ [_ _ _ H _]]. Qed.

Lemma idents_remove_body r : Moves same_idents (sabridge_remove_body_from_disk r).
Proof. eapply moves_weaken, moves_remove_body. by intros d d' ->. Qed.
Hint Resolve idents_notify idents_displayname idents_dead_props idents_remove_body : moves.

Lemma idents_insert_media m d d' : insert_media_stmt m d = Some (tt, d') -> same_idents d d'.
Proof. intros (_ & _ & H)%insert_media_table. apply (kr_idents _ _ H). Qed.

Lemma idents_empty_body r : Moves same_idents (sabridge_create_empty_body r).
Proof.
  unfold sabridge_create_empty_body, dbms_insert_media. moves.
  destruct r0. match goal with H : insert_media_of _ _ _ = _ |- _ =>
    apply insert_media_of_some in H as (m & _ & H) end. by eapply idents_insert_media.
Qed.

Lemma idents_copy_medium src dest : Moves same_idents (sabridge_copy_medium src dest).
Proof.
  unfold sabridge_copy_medium, dbms_copy_media_props, oret. moves.
  - destruct r. match goal with H : delete_media_stmt _ _ = _ |- _ => rename H into Hd end.
    apply delete_media_table in Hd as (_ & _ & Hd). apply (kr_idents _ _ Hd).
  - destruct r. unfold copy_media_stmt in *. destruct (find_media _ _).
    + by eapply idents_insert_media.
    + by simplify_eq.
Qed.
End locknull.

(** A COPY of a body onto a lock-null resource leaves the type of its row: whatever
    happens, the rows of [resources] have the identifiers and types they had, so that the
    resource goes with its lock. *)
Theorem copy_onto_locknull (cfg : ServerConfig) (req : Request) src dst c s :
  resourcetype (res_dbr dst) = Some dav_repos_LOCKNULL -> serialno (res_dbr dst) <> 0 ->
  idents (c_db (sabridge_copy_medium_w_create src dst c s).2) = idents (c_db s).
Proof.
  intros Ht Hz. pose proof idents_copy_medium. pose proof idents_empty_body.
  assert (Hm : MovesR same_idents (
    dst ← ignore (on_dbr dst (sabridge_create_empty_body (res_dbr dst)));
    x ← run_out (sabridge_copy_medium src (res_dbr dst));
    mret (x.1, set_dbr x.2 dst))) by (unfold on_dbr; moves).
  destruct (Hm c s) as [Hs _]. rewrite <- Hs. f_equal. f_equal. f_equal.
  unfold sabridge_copy_medium_w_create. rewrite Ht, (bool_decide_false _ Hz).
  cbn [negb andb is_body_type]. rewrite (bool_decide_true (Some dav_repos_LOCKNULL = _)) by done.
  rewrite andb_false_r. unfold unless_error.
  rewrite R_ret_bind, (bool_decide_false _ Hz), R_ret_bind. by rewrite Ht, bool_decide_true.
Qed.

(** ** The URIs of responses *)

Lemma drop_string_length n s : String.length (drop_string n s) = (String.length s - n)%nat.
Proof. revert s. induction n as [|n IH]; intros [|a s]; cbn; auto. Qed.

(** No host is ever taken for a subdomain of the server: the two strings compared have
    different lengths. *)
Theorem subdomain_never hostname server_name : is_subdomain hostname server_name = false.
Proof.
  unfold is_subdomain. case_bool_decide as Hl; [|done]. cbn [andb]. apply String.eqb_neq.
  intros H. apply (f_equal String.length) in H. rewrite string_length_app in H. cbn in H.
  rewrite drop_string_length in H. lia.
Qed.
