(* ===== verification/TwoBodies.v ===== *)
(** * A resource with two bodies ([repos.c], [bridge.c], [dbms.c])

    No key of the schema keeps a resource from having two rows in [media].  A COPY onto a
    lock-null resource gives it a body and leaves its type ([copy_onto_locknull]); the PUT
    that follows takes it for a lock-null resource still and gives it another.  The
    statement that gives back the quota then has a subquery of two rows, so that the
    resource can not be deleted any more. *)
From S2P Require Import Prelude Util Dbd Mime Db Bind Resource Quota DbmsDeltav Bridge Users Properties Acl Request Create Versions CreateSpec VersionsSpec VersionExamples Copy Put ReposSpec.
Local Open Scope Z_scope.
Local Open Scope limestone_scope.

Definition bodies_of (id : Z) (d : db) : list media_row :=
  List.filter (fun m => bool_decide (m_res m = id)) (media d).

(** The owner [o] of the resource [id] has an account. *)
Definition paid_by (o id : Z) (d : db) : Prop :=
  owner_of id d = Some o /\ o ∈ map q_prin (quota d).

(** There are no fewer bodies of [id] afterwards, and the accounts and the owner stay. *)
Record grows (o id : Z) (d d' : db) : Prop := {
  gr_bodies : (length (bodies_of id d) <= length (bodies_of id d'))%nat;
  gr_quota : map q_prin (quota d') = map q_prin (quota d);
  gr_owner : owner_of id d = Some o -> owner_of id d' = Some o
}.

#[export] Instance grows_preorder o id : PreOrder (grows o id).
Proof.
  split; [by intros d; split|]. intros x y z [B1 Q1 O1] [B2 Q2 O2]. split; [lia|congruence|auto].
Qed.

Lemma grows_paid o id d d' : grows o id d d' -> paid_by o id d -> paid_by o id d'.
Proof. intros [_ Hq Ho] [H1 H2]. split; [auto|]. by rewrite Hq. Qed.

(** ** The statements *)

Lemma charge_prins owner delta l l' : charge owner delta l = Some l' -> map q_prin l' = map q_prin l.
Proof.
  unfold charge. destruct (existsb _ _); [done|]. intros [= <-]. rewrite map_map. apply map_ext.
  intros q. by case_bool_decide.
Qed.

Lemma update_media_grows o id m d d' : update_media_stmt m d = Some (tt, d') -> grows o id d d'.
Proof.
  unfold update_media_stmt. destruct (find_media _ _); [|by intros [= <-]].
  destruct (charge _ _ _) as [l|] eqn:Hc; [|done]. intros [= <-]. apply charge_prins in Hc.
  split; [|exact Hc|done]. unfold bodies_of. cbn.
  induction (media d) as [|x l' IH]; cbn; [done|].
  repeat (case_bool_decide; cbn); try lia; congruence.
Qed.

Lemma find_resource_kept f id d :
  (forall r, r_id (f r) = r_id r) -> (forall r, r_id r = id -> r_owner (f r) = r_owner r) ->
  owner_of id (set_resources (map f (resources d)) d) = owner_of id d.
Proof.
  intros Hid Ho. unfold owner_of. rewrite find_resource_map by done.
  destruct (find_resource id d) as [r|] eqn:E; [|done]. cbn. f_equal. apply Ho.
  apply find_some in E as [_ E]. by apply bool_decide_eq_true in E.
Qed.

Lemma touch_grows o id ids t d : grows o id d (touch_stmt ids t d).
Proof.
  split; [done|done|]. intros H. rewrite <- H. apply find_resource_kept; intros r; by case_bool_decide.
Qed.

Lemma grows_notify o id r : Moves (grows o id) (dbms_notify_resource_updated r).
Proof. unfold dbms_notify_resource_updated. moves. apply touch_grows. Qed.

Lemma grows_update_media o id r : Moves (grows o id) (dbms_update_media_props r).
Proof.
  pose proof (grows_notify o id). unfold dbms_update_media_props. moves.
  destruct r0. match goal with H : update_media_of _ _ _ = _ |- _ =>
    apply update_media_of_some in H as [->|(m & _ & H)] end; [done|by eapply update_media_grows].
Qed.

(** The record of the resource holds its owner. *)
Lemma grows_set_property o id r :
  (serialno r = id -> owner_id r = o) -> Moves (grows o id) (dbms_set_property r).
Proof.
  intros Ho. unfold dbms_set_property. moves. split; [done|done|]. intros H.
  unfold update_resource_stmt, owner_of in *. rewrite find_resource_map
    by (intros x; by case_bool_decide).
  destruct (find_resource id _) as [x|] eqn:E; [|done]. cbn in *.
  apply find_some in E as [_ E]. apply bool_decide_eq_true in E.
  case_bool_decide as Hs; [|done]. cbn. f_equal. apply Ho. congruence.
Qed.

Lemma insert_media_grows o id m d d' : insert_media_stmt m d = Some (tt, d') -> grows o id d d'.
Proof.
  unfold insert_media_stmt. destruct (charge _ _ _) as [l|] eqn:Hc; [|done]. intros [= <-].
  apply charge_prins in Hc. split; [|exact Hc|done]. unfold bodies_of. cbn.
  rewrite List.filter_app, length_app. lia.
Qed.

Lemma grows_empty_body o id r : Moves (grows o id) (sabridge_create_empty_body r).
Proof.
  pose proof (grows_notify o id). unfold sabridge_create_empty_body, dbms_insert_media. moves.
  destruct r0. match goal with H : insert_media_of _ _ _ = _ |- _ =>
    apply insert_media_of_some in H as (m & _ & H) end. by eapply insert_media_grows.
Qed.

(** The empty body of a lock-null resource that becomes an ordinary one. *)
Lemma empty_body_adds r s :
  c_errnum (sabridge_create_empty_body r s).2 = false ->
  length (bodies_of (serialno r) (c_db (sabridge_create_empty_body r s).2))
  = S (length (bodies_of (serialno r) (c_db s)))
  /\ same_record (set_sha1str (Some sha1_of_empty) r) (sabridge_create_empty_body r s).1.2.
Proof.
  intros He. destruct (create_empty_body_run r s He) as (r' & m & E & Hr & Hm & _ & _ & Ha).
  rewrite E. split; [|done]. unfold bodies_of. rewrite (ad_media _ _ _ _ _ Ha), List.filter_app, length_app.
  cbn. rewrite bool_decide_true by done. cbn. lia.
Qed.

Lemma empty_body_owner r s : owner_id (sabridge_create_empty_body r s).1.2 = owner_id r.
Proof.
  unfold sabridge_create_empty_body, dbms_insert_media. rewrite !bind_run.
  destruct (execute _ _) as [[x|] s1]; [|done]. cbn. rewrite bind_run.
  by destruct (dbms_notify_resource_updated _ _) as [[e|] s2].
Qed.

(** ** The deletion *)

Lemma release_two_bodies o id d :
  (2 <= length (bodies_of id d))%nat -> paid_by o id d -> release_quota_stmt id d = None.
Proof.
  intros Hn [Ho Hq]. unfold release_quota_stmt, bodies_of in *.
  destruct (List.filter _ (media d)) as [|m [|m' l]]; cbn in Hn; [lia..|].
  replace (existsb _ _) with true; [done|]. symmetry. apply existsb_exists.
  apply list_elem_of_fmap in Hq as (q & -> & Hq). exists q. split; [by apply list_elem_of_In|].
  apply bool_decide_true. by rewrite Ho.
Qed.

(** Nothing of the resource goes, whatever else fails. *)
Definition undeletable (id : Z) (d : db) : Prop :=
  forall (r : dav_repos_resource) (s : conn), serialno r = id -> has_body (resourcetype r) = true -> c_db s = d ->
  (dbms_delete_resource r s).1 = Some (dav_new_error HTTP_INTERNAL_SERVER_ERROR)
  /\ c_db (dbms_delete_resource r s).2 = d.

Lemma two_bodies_undeletable o id d :
  (2 <= length (bodies_of id d))%nat -> paid_by o id d -> undeletable id d.
Proof.
  intros Hn Ho r s <- Ht <-. unfold dbms_delete_resource. rewrite Ht, bind_run. unfold execute.
  rewrite (release_two_bodies _ _ _ Hn Ho). by destruct (c_faults s) as [|[] ?].
Qed.

(** ** PUT *)

Section put.
Context {cfg : ServerConfig} {req : Request}.
Variable mime_type_ext_map : string -> option string.
Variable guess_mime_type : string -> string.

Lemma grows_store_body file ct res :
  MovesR (grows (owner_id (res_dbr res)) (serialno (res_dbr res)))
    (store_body mime_type_ext_map guess_mime_type file ct res).
Proof.
  pose proof (grows_update_media (owner_id (res_dbr res)) (serialno (res_dbr res))) as Hu.
  unfold store_body. destruct (uri (res_dbr res)); [|moves]. cbv zeta.
  apply movesR_unless_error; [apply _| |].
  - apply movesR_keep, movesR_run, grows_set_property; [apply _..|]. done.
  - intros x. unfold on_dbr. moves.
Qed.

Lemma fill_locknull_wp res c s :
  resourcetype (res_dbr res) = Some dav_repos_LOCKNULL ->
  wp (fill_locknull res) c s (fun x _ s1 => x.1 = None ->
    (S (length (bodies_of (serialno (res_dbr res)) (c_db s)))
     <= length (bodies_of (serialno (res_dbr res)) (c_db s1)))%nat
    /\ grows (owner_id (res_dbr res)) (serialno (res_dbr res)) (c_db s) (c_db s1)
    /\ resourcetype (res_dbr x.2) = Some dav_repos_RESOURCE
    /\ serialno (res_dbr x.2) = serialno (res_dbr res) /\ owner_id (res_dbr x.2) = owner_id (res_dbr res)).
Proof.
  intros Ht. unfold fill_locknull. rewrite bool_decide_true by done.
  apply wp_unless_error; [intros; moves|]. unfold on_dbr. apply wp_bind; [intros; moves|].
  apply wp_run. intros He. destruct (empty_body_adds _ _ He) as [Hn Hr].
  pose proof (empty_body_owner (res_dbr res) s) as Hw.
  destruct (grows_empty_body (owner_id (res_dbr res)) (serialno (res_dbr res)) (res_dbr res) s) as [Hg _].
  destruct (sabridge_create_empty_body (res_dbr res) s) as [[[e|] r] s1]; cbn [fst snd] in *.
  - by apply wp_ret.
  - apply wp_ret. apply wp_ret. intros _. cbn [fst snd res_dbr set_dbr]. split_and!; [lia|done|done|..];
      destruct Hr; cbn in *; congruence.
Qed.

Lemma locknull_put_wp file ct res c s :
  resourcetype (res_dbr res) = Some dav_repos_LOCKNULL ->
  wp (unless_error (fill_locknull res) (store_body mime_type_ext_map guess_mime_type file ct)) c s
    (fun x _ s' => x.1 = None ->
    (length (bodies_of (serialno (res_dbr res)) (c_db s))
     < length (bodies_of (serialno (res_dbr res)) (c_db s')))%nat
    /\ grows (owner_id (res_dbr res)) (serialno (res_dbr res)) (c_db s) (c_db s')).
Proof.
  intros Ht. apply wp_unless_error; [intros x; eapply movesR_mono, grows_store_body|].
  eapply wp_mono; [by apply fill_locknull_wp|]. intros [[e|] r] c1 s1 H; [done|].
  destruct H as (Hn & Hg & _ & Hi & Ho); [done|]. cbn in Hi, Ho.
  eapply wp_moves; [apply (grows_store_body file ct r)|]. rewrite Hi, Ho. intros x _ s' Hs _.
  split; [|by etransitivity]. pose proof (gr_bodies _ _ _ _ Hs). lia.
Qed.

(** A lock-null resource never gets to the documents of users. *)
Lemma close_locknull make_from_url href_prefix email_valid dbms_error apr_md5 create update
    file ct inserted res c s :
  resourcetype (res_dbr res) = Some dav_repos_LOCKNULL ->
  dav_repos_close_stream make_from_url href_prefix email_valid dbms_error apr_md5 create update
    mime_type_ext_map guess_mime_type file ct inserted true res c s
  = unless_error (fill_locknull res) (store_body mime_type_ext_map guess_mime_type file ct) c s.
Proof.
  intros Ht. unfold dav_repos_close_stream, fill_locknull. rewrite bool_decide_true by done.
  unfold on_dbr, run, run_out, unless_error, mbind, R_bind, obind, lift, mret, R_ret, oret.
  rewrite !bind_run. destruct (sabridge_create_empty_body _ s) as [[[e|] r] s1]; done.
Qed.
End put.

(** C38. A PUT over a lock-null resource that has a body already, with nothing refused and no
    error: the resource can not be deleted afterwards.  The statement that gives back the
    quota has a subquery of two rows and is refused, at every later state of the server
    that has these tables. *)
Theorem locknull_put_undeletable (cfg : ServerConfig) (req : Request) make_from_url href_prefix email_valid
    dbms_error apr_md5 create update mime_type_ext_map guess_mime_type
    file content_type inserted res c s x c' s' :
  resourcetype (res_dbr res) = Some dav_repos_LOCKNULL ->
  paid_by (owner_id (res_dbr res)) (serialno (res_dbr res)) (c_db s) ->
  bodies_of (serialno (res_dbr res)) (c_db s) <> [] ->
  dav_repos_close_stream make_from_url href_prefix email_valid dbms_error apr_md5 create update
    mime_type_ext_map guess_mime_type file content_type inserted true res c s = (Ret (x, c'), s') ->
  c_errnum s' = false -> x.1 = None ->
  undeletable (serialno (res_dbr res)) (c_db s').
Proof.
  intros Ht Hp Hn E He Hx. rewrite close_locknull in E by done.
  destruct (wp_use _ _ _ _ _ _ _ (locknull_put_wp mime_type_ext_map guess_mime_type file
    content_type res c s Ht) E He Hx) as [Hl Hg].
  apply (two_bodies_undeletable (owner_id (res_dbr res))); [|by eapply grows_paid].
  destruct (bodies_of _ (c_db s)); [done|]. cbn in Hl. lia.
Qed.

Lemma some_bodies id d : length (bodies_of id d) = 1%nat -> bodies_of id d <> [].
Proof. by destruct (bodies_of id d). Qed.

(** ** A COPY and a PUT onto a lock-null resource of user 5 *)

#[local] Existing Instances sample_config draft_request.

Definition locked_name : dav_resource :=
  DavResource (set_uri (Some "/old"%string) (set_displayname (Some "old"%string)
    (set_resourcetype (Some dav_repos_LOCKNULL) (set_owner_id 5
    (set_serialno 40 (set_has_resource true zero_dbr)))))) None None
    false false false false DAV_RESOURCE_TYPE_REGULAR.

(** The site after the COPY. *)
Definition copied_onto : conn :=
  (sabridge_copy_medium_w_create draft_doc locked_name empty_cache draft).2.

#[local] Notation put_locked :=
  (dav_repos_close_stream (fun _ _ => Principal PRINCIPAL_ALL 0 "") "" (fun _ => true) (fun _ => ""%string)
    (fun _ => []) None None (fun _ => None) (fun _ => "text/html"%string)
    (StreamFile "/tmp/put" "fresh" 42 None) (Some "text/css"%string) false true locked_name).

Lemma locknull_put_undeletable_witness :
  bodies_of 40 draft_db = [] /\ length (bodies_of 40 (c_db copied_onto)) = 1%nat
  /\ exists x c s', put_locked empty_cache copied_onto = (Ret (x, c), s') /\ undeletable 40 (c_db s').
Proof.
  split; [vm_compute; reflexivity|]. split; [vm_compute; reflexivity|].
  destruct (ends_run put_locked copied_onto (fun x => bool_decide (x.1 = None)))
    as (x & c & s' & Hc & He & Hx%bool_decide_eq_true); [vm_compute; reflexivity|].
  exists x, c, s'. split; [exact Hc|].
  refine (locknull_put_undeletable sample_config draft_request (fun _ _ => Principal PRINCIPAL_ALL 0 "") ""
    (fun _ => true) (fun _ => ""%string) (fun _ => []) None None (fun _ => None)
    (fun _ => "text/html"%string) (StreamFile "/tmp/put" "fresh" 42 None) (Some "text/css"%string) false
    locked_name empty_cache copied_onto x c s' eq_refl _ _ Hc He Hx).
  - split; [vm_compute; reflexivity|]. assert (E : map q_prin (quota (c_db copied_onto)) = [5]) by (vm_compute; reflexivity).
    rewrite E. left.
  - exact (some_bodies 40 (c_db copied_onto) ltac:(vm_compute; reflexivity)).
Defined.
