(* ===== verification/ReposExamples.v ===== *)
(** * Witnesses for the hooks of the repository

    The theorems on COPY, PUT and DELETE at the site of [VersionExamples], and a tree on
    which a COPY fails. *)
From S2P Require Import Prelude Util Times Dbd Mime Db Bind Paths Resource Quota DbmsDeltav Transaction Bridge Users Properties Acl Listing ListingSpec Request Create Versions CreateSpec VersionsSpec VersionExamples Gc Bodies Unbind UnbindSpec Copy UnbindEnds BindHooks Repos Put ReposSpec.
From stdpp Require Import pretty.
Local Open Scope Z_scope.
Local Open Scope limestone_scope.

#[local] Existing Instances sample_config draft_request.

Definition new_place : dav_resource :=
  DavResource (set_uri (Some "/new"%string) (set_has_resource true zero_dbr)) None None
    false false false false DAV_RESOURCE_TYPE_REGULAR.

Lemma copy_resource_spec_witness :
  exists x c s', dav_repos_copy_resource pretty (resource_of draft_doc) new_place 0 empty_cache draft
      = (Ret (x, c), s')
    /\ exists id coll t, copy_made 10 100 [BindRow id "new" coll 100 t] draft_db (c_db s').
Proof.
  destruct (ends_run (dav_repos_copy_resource pretty (resource_of draft_doc) new_place 0) draft
    (fun x => bool_decide (x.1 = None))) as (x & c & s' & Hc & He & Hx%bool_decide_eq_true);
    [vm_compute; reflexivity|].
  exists x, c, s'. split; [exact Hc|].
  destruct (copy_resource_spec sample_config draft_request pretty (resource_of draft_doc) new_place 0
    empty_cache draft x c s' eq_refl eq_refl ltac:(discriminate) Hc He Hx)
    as (u & id & coll & t & Hu & _ & H).
  injection Hu as <-. exists id, coll, t. exact H.
Defined.

Definition old_document : dav_resource := resource_of draft_doc.
Definition stream : stream_file := StreamFile "/tmp/put" "fresh" 42 None.

#[local] Notation put_document :=
  (dav_repos_close_stream (fun _ _ => Principal PRINCIPAL_ALL 0 "") "" (fun _ => true) (fun _ => ""%string)
    (fun _ => []) None None (fun _ => None) (fun _ => "text/html"%string) stream (Some "text/css"%string)
    false true old_document).

Lemma put_spec_witness :
  exists x c s', put_document empty_cache draft = (Ret (x, c), s')
    /\ body_stored 10 (42, Some "text/css"%string, "fresh"%string) draft_db (c_db s').
Proof.
  destruct (ends_run put_document draft (fun x => bool_decide (x.1 = None)))
    as (x & c & s' & Hc & He & Hx%bool_decide_eq_true); [vm_compute; reflexivity|].
  exists x, c, s'. split; [exact Hc|].
  destruct (put_spec sample_config draft_request (fun _ _ => Principal PRINCIPAL_ALL 0 "") ""
    (fun _ => true) (fun _ => ""%string) (fun _ => []) None None (fun _ => None)
    (fun _ => "text/html"%string) stream (Some "text/css"%string) false old_document empty_cache draft
    x c s' (or_intror eq_refl) Hc He Hx) as (u & _ & H & _).
  assert (Hid : serialno (res_dbr old_document) = 10) by (vm_compute; reflexivity).
  assert (Ht : put_type (fun _ => None) (fun _ => "text/html"%string) stream (Some "text/css"%string) u
    = "text/css"%string) by (vm_compute; reflexivity).
  rewrite Hid, Ht in H. exact H.
Defined.

Definition locked_place : dav_resource :=
  DavResource (set_uri (Some "/old"%string) (set_displayname (Some "old"%string)
    (set_resourcetype (Some dav_repos_LOCKNULL)
    (set_serialno 40 (set_has_resource true zero_dbr))))) None None
    false false false false DAV_RESOURCE_TYPE_REGULAR.

Lemma copy_onto_locknull_witness :
  (exists x c s', sabridge_copy_medium_w_create draft_doc locked_place empty_cache draft
      = (Ret (x, c), s') /\ x.1 = None)
  /\ idents (c_db (sabridge_copy_medium_w_create draft_doc locked_place empty_cache draft).2)
     = idents draft_db.
Proof.
  split.
  - destruct (ends_run (sabridge_copy_medium_w_create draft_doc locked_place) draft
      (fun x => bool_decide (x.1 = None))) as (x & c & s' & Hc & He & Hx%bool_decide_eq_true);
      [vm_compute; reflexivity|]. exists x, c, s'. split; [exact Hc|exact Hx].
  - exact (copy_onto_locknull sample_config draft_request draft_doc locked_place empty_cache draft
      eq_refl ltac:(discriminate)).
Defined.

(** ** A tree and a copy of it *)

(** Two collections with the same two empty collections in them. *)
Definition tree_db : db :=
  set_sequences (Sequences 100 100 100 50 50 10)
  (set_resources (map (fun x => ResourceRow x.1 "" dav_repos_COLLECTION 5 5 x.2 0 0 "en-US" None)
     [(2, ""); (10, "src"); (11, "a"); (12, "b"); (20, "dst"); (21, "a"); (22, "b")]%string)
  (set_binds [BindRow 1 "src" 2 10 0; BindRow 2 "a" 10 11 0; BindRow 3 "b" 10 12 0;
              BindRow 4 "dst" 2 20 0; BindRow 5 "a" 20 21 0; BindRow 6 "b" 20 22 0]
  (set_collections [(2, 0); (10, 0); (11, 0); (12, 0); (20, 0); (21, 0); (22, 0)] empty_db))).

Definition tree : conn := Conn tree_db [] 60000000 [] false.

Lemma tree_joins : joins_ok tree_db.
Proof. joins_evaluated tree_db. Qed.

Definition tree_root : dav_repos_resource :=
  set_resourcetype (Some dav_repos_COLLECTION) (set_serialno 10 (set_uri (Some "/src"%string)
    (set_displayname (Some "src"%string) (set_has_resource true zero_dbr)))).

Definition tree_copy : dav_repos_resource :=
  set_resourcetype (Some dav_repos_COLLECTION) (set_serialno 20 (set_uri (Some "/dst"%string)
    (set_displayname (Some "dst"%string) (set_has_resource true zero_dbr)))).

(** The configuration without the collector. *)
Definition plain_config : ServerConfig := {|
  use_gc := false; keep_files := false; default_quota := 1000;
  apr_strtok_slash := @apr_strtok_slash sample_config;
  apr_dbd_escape := @apr_dbd_escape sample_config;
  ap_make_dirstr_parent := @ap_make_dirstr_parent sample_config;
  basename := @basename sample_config;
  apr_times := gregorian
|}.

(** The same without the second collection in the destination. *)
Definition smaller_tree : conn :=
  Conn (set_binds (take 5 (binds tree_db)) tree_db) [] 60000000 [] false.

(** A copy of a collection over one that has two of its collections, the first of them
    empty, ends in a NULL pointer: the list of what is to be cleared loses its end when the
    empty one is listed, and is written through when the next one is.  Over one that has
    the first only the copy is made. *)
Theorem copy_tree_crashes :
  let copy s := (@dav_repos_copy_resource sample_config draft_request pretty (resource_of tree_root)
                   (resource_of tree_copy) DAV_INFINITY empty_cache s).1 in
  copy tree = Crash
  /\ (@sabridge_clear_unused sample_config tree_copy [22; 21; 20] tree).1 = Crash
  /\ exists x c, copy smaller_tree = Ret (x, c) /\ x.1 = None.
Proof.
  cbv zeta. split; [vm_compute; reflexivity|]. split; [vm_compute; reflexivity|].
  destruct (ends_run (dav_repos_copy_resource pretty (resource_of tree_root)
    (resource_of tree_copy) DAV_INFINITY) smaller_tree (fun x => bool_decide (x.1 = None)))
    as (x & c & s' & Hc & _ & Hx%bool_decide_eq_true); [vm_compute; reflexivity|].
  exists x, c. rewrite Hc. split; [reflexivity|exact Hx].
Qed.

(** ** Removing a tree without the collector *)

Lemma unbind_resource_safe_witness :
  let d' := c_db (@sabridge_unbind_resource plain_config tree_root None tree).2 in
  ~ present d' 10 /\ ~ present d' 11 /\ present d' 21.
Proof.
  cbv zeta. split; [unfold present; by_evaluation|]. split; [unfold present; by_evaluation|].
  apply (unbind_resource_safe plain_config tree_root None tree 21).
  - unfold present. by_evaluation.
  - by_evaluation.
  - set (d' := c_db _). assert (Hb : binds d' = [BindRow 4 "dst" 2 20 0; BindRow 5 "a" 20 21 0;
      BindRow 6 "b" 20 22 0]) by (vm_compute; reflexivity).
    unfold live. rewrite Hb. apply (reaches_trans _ _ 20).
    + apply (reaches_step _ (BindRow 4 "dst" 2 20 0)). left.
    + apply (reaches_step _ (BindRow 5 "a" 20 21 0)). right. left.
Defined.

Lemma unbind_resource_ends_witness :
  (unbind_loop (cfg := plain_config) (clear_children_with (cfg := plain_config) (unbind_n (cfg := plain_config) 0))
     (S (length (binds tree_db))) [tree_root] tree).1 <> Ret None.
Proof. exact (unbind_resource_ends plain_config tree_root tree tree_joins). Defined.

Lemma clear_unused_ends_witness :
  (clear_unused_loop (cfg := plain_config) (S (length (binds tree_db))) [20] [] true [tree_copy] tree).1
  <> Ret None.
Proof. exact (clear_unused_ends plain_config tree_copy [20] tree tree_joins). Defined.
