(* ===== verification/Search.v ===== *)
(** * Searches ([search.c]): the request

    The XML document of a SEARCH request is read into the fragments of an SQL query,
    which the tables' server then executes.  A document is a tree of [apr_xml_elem]; the
    functions of the DAV module, APR and httpd on documents and URIs are arguments. *)
From S2P Require Import Prelude Util Numbers Dbd Db Bind Resource Bridge Users Properties Acl Listing Request.
From stdpp Require Import gmap pretty.
Local Open Scope Z_scope.
Local Open Scope limestone_scope.

Definition HTTP_OK : Z := 200.

(** An element: its name, the number of its namespace, its attributes, the text before
    its first child, and its children. *)
Inductive apr_xml_elem := XmlElem {
  elem_name : string;
  elem_ns : Z;
  elem_attr : list (string * string);
  first_cdata : option string;
  elem_children : list apr_xml_elem
}.

Definition APR_XML_NS_DAV_ID : Z := 0.

(** [dav_find_child]: the child of that name in the namespace of DAV, with the siblings
    after it, and nothing for NULL; [hash_items]: a hash in the order its iterator takes. *)
Class SearchLib := {
  dav_find_child : apr_xml_elem -> string -> list apr_xml_elem;
  dav_find_child_no_ns : apr_xml_elem -> string -> list apr_xml_elem;
  dav_xml_get_cdata : apr_xml_elem -> string;
  apr_strnatcmp : string -> string -> Z;
  apr_strtok_underscore : string -> list string;
  ap_is_url : string -> bool;
  apr_uri_path : string -> option string;
  ap_getparents : string -> string;
  hash_items : gmap string string -> list (string * string);
  dav_get_resource_from_uri : string -> R (option dav_repos_resource)
}.

(** The search context; [ns_id_hash] is that of [sctx->db_r]. *)
Record search_ctx := SearchCtx {
  where_cond : option string;
  orderby : option string;
  nresults : option string;
  sx_offset : option string;
  prop_map : gmap string string;
  bitmarks_map : gmap string string;
  namespace_map : gmap Z string;
  media_props_req : bool;
  is_bit_query : bool;
  bitmark_support_req : bool;
  b4_name : option string;
  b2_rid : Z;
  search_graph_seed : option string;
  search_graph_cond : option string;
  ns_id_hash : gmap string Z
}.

Definition new_search_ctx : search_ctx :=
  SearchCtx None None None None ∅ ∅ ∅ false false false None 0 None None ∅.

Definition set_where_cond x c := SearchCtx x (orderby c) (nresults c) (sx_offset c) (prop_map c) (bitmarks_map c) (namespace_map c) (media_props_req c) (is_bit_query c) (bitmark_support_req c) (b4_name c) (b2_rid c) (search_graph_seed c) (search_graph_cond c) (ns_id_hash c).
Definition set_orderby x c := SearchCtx (where_cond c) x (nresults c) (sx_offset c) (prop_map c) (bitmarks_map c) (namespace_map c) (media_props_req c) (is_bit_query c) (bitmark_support_req c) (b4_name c) (b2_rid c) (search_graph_seed c) (search_graph_cond c) (ns_id_hash c).
Definition set_nresults x c := SearchCtx (where_cond c) (orderby c) x (sx_offset c) (prop_map c) (bitmarks_map c) (namespace_map c) (media_props_req c) (is_bit_query c) (bitmark_support_req c) (b4_name c) (b2_rid c) (search_graph_seed c) (search_graph_cond c) (ns_id_hash c).
Definition set_offset x c := SearchCtx (where_cond c) (orderby c) (nresults c) x (prop_map c) (bitmarks_map c) (namespace_map c) (media_props_req c) (is_bit_query c) (bitmark_support_req c) (b4_name c) (b2_rid c) (search_graph_seed c) (search_graph_cond c) (ns_id_hash c).
Definition set_prop_map x c := SearchCtx (where_cond c) (orderby c) (nresults c) (sx_offset c) x (bitmarks_map c) (namespace_map c) (media_props_req c) (is_bit_query c) (bitmark_support_req c) (b4_name c) (b2_rid c) (search_graph_seed c) (search_graph_cond c) (ns_id_hash c).
Definition set_bitmarks_map x c := SearchCtx (where_cond c) (orderby c) (nresults c) (sx_offset c) (prop_map c) x (namespace_map c) (media_props_req c) (is_bit_query c) (bitmark_support_req c) (b4_name c) (b2_rid c) (search_graph_seed c) (search_graph_cond c) (ns_id_hash c).
Definition set_namespace_map x c := SearchCtx (where_cond c) (orderby c) (nresults c) (sx_offset c) (prop_map c) (bitmarks_map c) x (media_props_req c) (is_bit_query c) (bitmark_support_req c) (b4_name c) (b2_rid c) (search_graph_seed c) (search_graph_cond c) (ns_id_hash c).
Definition set_media_props_req x c := SearchCtx (where_cond c) (orderby c) (nresults c) (sx_offset c) (prop_map c) (bitmarks_map c) (namespace_map c) x (is_bit_query c) (bitmark_support_req c) (b4_name c) (b2_rid c) (search_graph_seed c) (search_graph_cond c) (ns_id_hash c).
Definition set_is_bit_query x c := SearchCtx (where_cond c) (orderby c) (nresults c) (sx_offset c) (prop_map c) (bitmarks_map c) (namespace_map c) (media_props_req c) x (bitmark_support_req c) (b4_name c) (b2_rid c) (search_graph_seed c) (search_graph_cond c) (ns_id_hash c).
Definition set_bitmark_support_req x c := SearchCtx (where_cond c) (orderby c) (nresults c) (sx_offset c) (prop_map c) (bitmarks_map c) (namespace_map c) (media_props_req c) (is_bit_query c) x (b4_name c) (b2_rid c) (search_graph_seed c) (search_graph_cond c) (ns_id_hash c).
Definition set_b4_name x c := SearchCtx (where_cond c) (orderby c) (nresults c) (sx_offset c) (prop_map c) (bitmarks_map c) (namespace_map c) (media_props_req c) (is_bit_query c) (bitmark_support_req c) x (b2_rid c) (search_graph_seed c) (search_graph_cond c) (ns_id_hash c).
Definition set_b2_rid x c := SearchCtx (where_cond c) (orderby c) (nresults c) (sx_offset c) (prop_map c) (bitmarks_map c) (namespace_map c) (media_props_req c) (is_bit_query c) (bitmark_support_req c) (b4_name c) x (search_graph_seed c) (search_graph_cond c) (ns_id_hash c).
Definition set_search_graph x y c := SearchCtx (where_cond c) (orderby c) (nresults c) (sx_offset c) (prop_map c) (bitmarks_map c) (namespace_map c) (media_props_req c) (is_bit_query c) (bitmark_support_req c) (b4_name c) (b2_rid c) x y (ns_id_hash c).
Definition set_ns_id_hash x c := SearchCtx (where_cond c) (orderby c) (nresults c) (sx_offset c) (prop_map c) (bitmarks_map c) (namespace_map c) (media_props_req c) (is_bit_query c) (bitmark_support_req c) (b4_name c) (b2_rid c) (search_graph_seed c) (search_graph_cond c) x.

(** ** Names *)

Definition get_prop_key (propname : string) (ns_id : Z) : string :=
  propname +:+ "_" +:+ pretty ns_id.

(** An index outside the array is read where it is; an element without a namespace has a
    negative one. *)
Definition get_ns_uri (namespaces : list string) (ns : Z) : option string :=
  if bool_decide (ns = APR_XML_NS_DAV_ID) then Some "DAV:"%string
  else if bool_decide (ns < 0) then None else namespaces !! Z.to_nat ns.

Definition liveprop_list : list (string * string) :=
  [("creationdate", "created_at"); ("displayname", "displayname");
   ("getcontentlanguage", "contentlanguage"); ("getcontenttype", "media.mimetype");
   ("getcontentlength", "media.size"); ("getlastmodified", "media.updated_at");
   ("getetag", "media.sha1"); ("resourcetype", "type"); ("resource-id", "resources.uuid");
   ("owner", "principals.name"); ("lastmodified", "resources.lastmodified");
   ("popularity", "resources.views"); ("coolness", "resources.coolness");
   ("edits", "resources.edits")]%string.

Definition get_liveprop_map : gmap string string := list_to_map liveprop_list.

(** The errors of [dbms_get_ns_id] are dropped. *)
Definition get_ns_id (c : search_ctx) (ns : string) : R (Z * search_ctx) := fun cache =>
  x ← dbms_get_ns_id (ns_id_hash c) cache ns;
  let '(r, h, cache) := x in
  let id := match r with inr id => id | inl _ => 0 end in
  oret ((id, set_namespace_map (<[id := ns]> (namespace_map c)) (set_ns_id_hash h c)), cache).

(** The column of a property; NULL for an unknown one of DAV. *)
Definition prop_attr_lookup (prop : apr_xml_elem) (prop_key : string) (c : search_ctx)
  : option string * search_ctx :=
  if bool_decide (elem_ns prop = APR_XML_NS_DAV_ID) then
    let attr := get_liveprop_map !! elem_name prop in
    (attr, match attr with
           | Some a => if strstr a "media." then set_media_props_req true c else c
           | None => c
           end)
  else (Some (QUOT +:+ prop_key +:+ QUOT), c).

Section search.
Context {lib : SearchLib}.

(** The namespaces of the document and the URI of the request. *)
Variable namespaces : list string.
Variable request_uri : string.

(** The number of the namespace of an element and the key of its name. *)
Definition elem_key (e : apr_xml_elem) (c : search_ctx) : R (Z * string * search_ctx) :=
  match get_ns_uri namespaces (elem_ns e) with
  | None => crash
  | Some ns =>
      x ← get_ns_id c ns;
      mret (x.1, get_prop_key (elem_name e) x.1, x.2)
  end.

(** [apr_hash_set] with NULL removes the key. *)
Definition hash_set (k : string) (v : option string) (h : gmap string string) : gmap string string :=
  match v with Some v => <[k := v]> h | None => delete k h end.

(** ** SELECT *)

Fixpoint select_props (l : list apr_xml_elem) (c : search_ctx) : R search_ctx :=
  match l with
  | [] => mret c
  | propi :: rest =>
      x ← elem_key propi c;
      let '(_, key, c) := x in
      let '(attr, c) := prop_attr_lookup propi key c in
      select_props rest (set_prop_map (hash_set key attr (prop_map c)) c)
  end.

Fixpoint select_bitmarks (l : list apr_xml_elem) (c : search_ctx) : R search_ctx :=
  match l with
  | [] => mret c
  | propi :: rest =>
      match get_ns_uri namespaces (elem_ns propi) with
      | None => crash
      | Some ns =>
          select_bitmarks rest (set_bitmarks_map (<[elem_name propi := ns]> (bitmarks_map c)) c)
      end
  end.

Fixpoint select_allprop (l : list (string * string)) (c : search_ctx) : R search_ctx :=
  match l with
  | [] => mret c
  | (propname, attr) :: rest =>
      x ← get_ns_id c "DAV:";
      let key := get_prop_key propname x.1 in
      select_allprop rest (set_media_props_req true
        (set_prop_map (<[key := attr]> (prop_map x.2)) x.2))
  end.

Definition parse_select (c : search_ctx) (select_elem : apr_xml_elem) : R (Z * search_ctx) :=
  let prop_elem := head (dav_find_child select_elem "prop") in
  let bitmark_elem := head (dav_find_child_no_ns select_elem "bitmark") in
  let allprop_elem := head (dav_find_child select_elem "allprop") in
  let no_info := match prop_elem with
                 | Some p => match elem_children p with
                             | [] => true
                             | q :: _ => negb (bool_decide (elem_children q = []))
                             end
                 | None => false
                 end in
  if no_info then mret (HTTP_BAD_REQUEST, c)
  else
    c ← (match prop_elem with
         | Some p => select_props (elem_children p) c
         | None => mret c
         end);
    c ← (match elem_children <$> bitmark_elem with
         | Some (b :: l) => c ← select_bitmarks (b :: l) c; mret (set_bitmark_support_req true c)
         | _ => mret c
         end);
    c ← (match allprop_elem with
         | Some _ => select_allprop (hash_items get_liveprop_map) c
         | None => mret c
         end);
    mret (if bool_decide (prop_elem = None) && bool_decide (allprop_elem = None)
             && negb (bitmark_support_req c)
          then HTTP_BAD_REQUEST else HTTP_OK, c).

(** ** WHERE *)

Definition get_comp_ops_map (op : string) : option string :=
  if String.eqb op "eq" then Some "="%string
  else if String.eqb op "lt" then Some "<"%string
  else if String.eqb op "gt" then Some ">"%string
  else if String.eqb op "lte" then Some "<="%string
  else if String.eqb op "gte" then Some ">="%string
  else if String.eqb op "like" then Some "LIKE"%string
  else None.

(** [apr_pstrcat (where_cond, ...)], after the NULL string is replaced. *)
Definition append_cond (text : string) (c : search_ctx) : search_ctx :=
  set_where_cond (Some (default " "%string (where_cond c) +:+ text)) c.

(** What follows the first colon, [strchr (type, ':') + 1]. *)
Fixpoint after_colon (s : string) : option string :=
  match s with
  | EmptyString => None
  | String a rest => if Ascii.eqb a ":"%char then Some rest else after_colon rest
  end.

(** The column with the cast of a typed literal; a type that is missing or has no prefix is
    a NULL that is read. *)
Definition typed_attr (literal : apr_xml_elem) (attr : string) : option string :=
  if String.eqb (elem_name literal) "typed-literal" then
    match dav_find_attr (Some (elem_attr literal)) "type" ≫= after_colon with
    | Some t => Some (attr +:+ "::" +:+ t)
    | None => None
    end
  else Some attr.

Definition parse_comp_ops (cur_elem : apr_xml_elem) (c : search_ctx) : R (Z * search_ctx) :=
  match elem_children cur_elem with
  | first :: rest =>
      match elem_children first with
      | prop :: _ =>
          x ← elem_key prop c;
          let '(ns_id, key, c) := x in
          let is_bitmark := String.eqb (elem_name first) "bitmark" in
          let '(attr, c) := if is_bitmark then (Some "value"%string, c)
                            else prop_attr_lookup prop key c in
          match get_comp_ops_map (elem_name cur_elem), attr with
          | Some op, Some attr =>
              match rest with
              | literal :: _ =>
                  match typed_attr literal attr, first_cdata literal with
                  | Some attr, Some text =>
                      mret (HTTP_OK, append_cond
                        (if is_bitmark then
                           "( resources.id IN (SELECT resource_id FROM resource_bitmarks WHERE namespace_id = "
                           +:+ pretty ns_id +:+ " AND name = '" +:+ elem_name prop +:+ "' AND " +:+ attr
                           +:+ " " +:+ op +:+ " '" +:+ text +:+ "' ))"
                         else "( " +:+ attr +:+ " " +:+ op +:+ " '" +:+ text +:+ "' )") c)
                  | _, _ => crash
                  end
              | [] => crash
              end
          | _, _ => mret (HTTP_BAD_REQUEST, c)
          end
      | [] => crash
      end
  | [] => crash
  end.

Definition parse_is_coll (c : search_ctx) : R (Z * search_ctx) :=
  mret (HTTP_OK, append_cond "( type = 'Collection' )" c).

Definition parse_is_bit (c : search_ctx) : R (Z * search_ctx) :=
  mret (HTTP_OK, append_cond "( type = 'Collection' )" (set_is_bit_query true c)).

(** The NULL of an unknown property ends the list of strings. *)
Definition parse_is_defined (cur_elem : apr_xml_elem) (c : search_ctx) : R (Z * search_ctx) :=
  match head (elem_children cur_elem) ≫= (fun e => head (elem_children e)) with
  | None => crash
  | Some prop =>
      x ← elem_key prop c;
      let '(_, key, c) := x in
      let '(attr, c) := prop_attr_lookup prop key c in
      let c := set_prop_map (hash_set key attr (prop_map c)) c in
      mret (HTTP_OK, append_cond (match attr with
                                  | Some a => "( " +:+ a +:+ " IS NOT NULL )"
                                  | None => "( "
                                  end) c)
  end.

(** The operands of [and] and [or] after the first. *)
Definition parse_operands (parse_where : apr_xml_elem -> search_ctx -> R (Z * search_ctx))
    (op : string) : list apr_xml_elem -> search_ctx -> R (Z * search_ctx) :=
  fix operands l c :=
    match l with
    | [] => mret (HTTP_OK, c)
    | e :: rest =>
        x ← parse_where e (append_cond (" " +:+ op +:+ " ") c);
        if bool_decide (x.1 = HTTP_OK) then operands rest x.2 else mret x
    end.

Definition parse_log_ops (parse_where : apr_xml_elem -> search_ctx -> R (Z * search_ctx))
    (op : string) (all_ops : list apr_xml_elem) (c : search_ctx) : R (Z * search_ctx) :=
  match all_ops with
  | [] => mret (HTTP_BAD_REQUEST, c)
  | first :: rest =>
      if bool_decide (apr_strnatcmp op "not" = 0) then
        x ← parse_where first (append_cond "( NOT " c);
        mret (x.1, append_cond " )" x.2)
      else
        x ← parse_where first (append_cond "( " c);
        if bool_decide (x.1 = HTTP_OK) then
          x ← parse_operands parse_where op rest x.2;
          if bool_decide (x.1 = HTTP_OK) then mret (x.1, append_cond " )" x.2) else mret x
        else mret x
  end.

Definition is_log_op (op : string) : bool :=
  String.eqb op "and" || String.eqb op "or" || String.eqb op "not".

(** [parse_where] with the table of [register_ops]. *)
Fixpoint parse_where (cur_elem : apr_xml_elem) (c : search_ctx) : R (Z * search_ctx) :=
  match cur_elem with
  | XmlElem op _ _ _ children =>
      if bool_decide (is_Some (get_comp_ops_map op)) then parse_comp_ops cur_elem c
      else if is_log_op op then parse_log_ops parse_where op children c
      else if String.eqb op "is-collection" then parse_is_coll c
      else if String.eqb op "is-bit" then parse_is_bit c
      else if String.eqb op "is-defined" then parse_is_defined cur_elem c
      else mret (HTTP_BAD_REQUEST, c)
  end.

(** ** FROM *)

Definition parse_depth (cur_elem : apr_xml_elem) : Z :=
  let cdata := dav_xml_get_cdata cur_elem in
  if bool_decide (apr_strnatcmp cdata "infinity" = 0) then DAV_INFINITY else atoi cdata.

Context {cfg : ServerConfig}.

(** The path of a scope: of a URL, absolute, or relative to the request. *)
Definition scope_uri (href : string) : option string :=
  if ap_is_url href then apr_uri_path href
  else match href with
       | String c _ =>
           if Ascii.eqb c SLASH then Some href
           else ap_getparents <$> apr_uri_path (request_uri +:+ "/" +:+ href)
       | EmptyString => None
       end.

(** The characters up to the [d]th slash. *)
Fixpoint up_to_slash (d : nat) (uri : string) : string :=
  match d, uri with
  | S n, String c rest =>
      String c (up_to_slash (if Ascii.eqb c SLASH then n else d) rest)
  | _, _ => EmptyString
  end.

(** The scope of a search for bits: the second bind, and the name of the fourth. *)
Definition bit_scope (uri : string) (c : search_ctx) : R (Z * search_ctx) :=
  let uri_depth := count_char SLASH uri in
  let is_bang_lime := String.prefix "/!lime/root" uri in
  if bool_decide (1 < uri_depth)%nat
     && (String.prefix "/home" uri || String.prefix "/!lime/root/home" uri)
  then
    let c := if bool_decide (uri_depth = 4%nat) && strstr uri "/bits/" && negb is_bang_lime
             then set_b4_name (Some (basename uri)) c else c in
    r ← dav_get_resource_from_uri (up_to_slash (if is_bang_lime then 5 else 3) uri);
    match r with
    | None => crash
    | Some r => mret (HTTP_OK, set_b2_rid (wrap32 (serialno r)) c)
    end
  else mret (HTTP_OK, c).

(** One row of the recursive query's start, and the condition on its depth. *)
Definition seed_fragment (r : dav_repos_resource) : string :=
  let b := pretty (wrap32 (dbr_bind_id r)) in
  "(" +:+ b +:+ ", " +:+ b +:+ ", '" +:+ default "(null)"%string (uri r) +:+ "', "
  +:+ pretty (serialno r) +:+ "::bigint, 0, ARRAY[" +:+ b +:+ "], false)".

Definition cond_fragment (r : dav_repos_resource) (depth : Z) : string :=
  let b := pretty (wrap32 (dbr_bind_id r)) in
  if bool_decide (depth = DAV_INFINITY) then "(sg.root_bind_id = " +:+ b +:+ ")"
  else "(sg.root_bind_id = " +:+ b +:+ " AND sg.depth < " +:+ pretty depth +:+ ")".

Definition join_fragment (sep : string) (old : option string) (fragment : string) : option string :=
  Some (match old with Some s => s +:+ sep +:+ fragment | None => fragment end).

Definition parse_scope (c : search_ctx) (scope_elem : apr_xml_elem) : R (Z * search_ctx) :=
  match elem_children scope_elem with
  | [] => crash
  | cur_elem :: rest =>
      let href := dav_xml_get_cdata cur_elem in
      if String.eqb href EmptyString then mret (HTTP_BAD_REQUEST, c)
      else
        match scope_uri href, rest with
        | None, _ => mret (HTTP_BAD_REQUEST, c)
        | Some _, [] => mret (HTTP_BAD_REQUEST, c)
        | Some u, depth_elem :: _ =>
            let u := if bool_decide (1 < String.length u)%nat then dav_repos_chomp_slash u else u in
            let depth := parse_depth depth_elem in
            if is_bit_query c then bit_scope u c
            else
              r ← dav_get_resource_from_uri u;
              match r with
              | None => crash
              | Some r =>
                  mret (HTTP_OK, set_search_graph
                    (join_fragment "," (search_graph_seed c) (seed_fragment r))
                    (join_fragment " OR " (search_graph_cond c) (cond_fragment r depth)) c)
              end
        end
  end.

Fixpoint parse_scopes (c : search_ctx) (l : list apr_xml_elem) : R (Z * search_ctx) :=
  match l with
  | [] => mret (HTTP_OK, c)
  | e :: rest =>
      x ← parse_scope c e;
      if bool_decide (x.1 = HTTP_OK) then parse_scopes x.2 rest else mret x
  end.

Definition parse_from (c : search_ctx) (from_elem : apr_xml_elem) : R (Z * search_ctx) :=
  match dav_find_child from_elem "scope" with
  | [] => mret (HTTP_BAD_REQUEST, c)
  | l => parse_scopes c l
  end.

(** ** ORDER BY, LIMIT and OFFSET *)

Definition append_order (text : string) (c : search_ctx) : search_ctx :=
  set_orderby (Some (default EmptyString (orderby c) +:+ text)) c.

(** An element other than [prop] is skipped; the NULL of an unknown property adds
    nothing. *)
Definition parse_order (c : search_ctx) (order_elem : apr_xml_elem) : R (Z * search_ctx) :=
  match elem_children order_elem with
  | [] => mret (HTTP_BAD_REQUEST, c)
  | prop_elem :: rest =>
      if bool_decide (apr_strnatcmp (elem_name prop_elem) "prop" = 0) then
        match elem_children prop_elem with
        | [] => mret (HTTP_BAD_REQUEST, c)
        | prop :: _ =>
            x ← elem_key prop c;
            let '(_, key, c) := x in
            let '(attr, c) := prop_attr_lookup prop key c in
            let c := append_order (default EmptyString attr) c in
            let descending := match rest with
                              | e :: _ => bool_decide (apr_strnatcmp (elem_name e) "descending" = 0)
                              | [] => false
                              end in
            mret (HTTP_OK, append_order (if descending then " DESC " else " ASC ") c)
        end
      else mret (HTTP_OK, c)
  end.

Fixpoint parse_orders (c : search_ctx) (l : list apr_xml_elem) : R (Z * search_ctx) :=
  match l with
  | [] => mret (HTTP_OK, c)
  | e :: rest =>
      x ← parse_order c e;
      if bool_decide (x.1 = HTTP_OK)
      then parse_orders (match rest with [] => x.2 | _ => append_order ", " x.2 end) rest
      else mret x
  end.

Definition parse_orderby (c : search_ctx) (orderby_elem : apr_xml_elem) : R (Z * search_ctx) :=
  match dav_find_child orderby_elem "order" with
  | [] => mret (HTTP_BAD_REQUEST, c)
  | l => parse_orders (set_orderby (Some " ORDER BY "%string) c) l
  end.

Definition parse_limit (c : search_ctx) (limit_elem : apr_xml_elem) : search_ctx :=
  match dav_find_child limit_elem "nresults" with
  | e :: _ => set_nresults (Some (dav_xml_get_cdata e)) c
  | [] => c
  end.

Definition parse_offset (c : search_ctx) (offset_elem : apr_xml_elem) : search_ctx :=
  set_offset (Some (dav_xml_get_cdata offset_elem)) c.

(** ** The whole request *)

(** [result = f(...); if (result != HTTP_OK) return result;] *)
Definition then_parse (m : R (Z * search_ctx)) (k : search_ctx -> R (Z * search_ctx))
  : R (Z * search_ctx) :=
  x ← m; if bool_decide (x.1 = HTTP_OK) then k x.2 else mret x.

Definition parse_query (root : apr_xml_elem) (c : search_ctx) : R (Z * search_ctx) :=
  match dav_find_child root "basicsearch" with
  | [] => mret (HTTP_BAD_REQUEST, c)
  | basicsearch_elem :: _ =>
      match dav_find_child basicsearch_elem "select" with
      | [] => mret (HTTP_BAD_REQUEST, c)
      | select_elem :: _ =>
          then_parse (parse_select c select_elem) (fun c =>
          then_parse (match dav_find_child basicsearch_elem "where" with
                      | [] => mret (HTTP_OK, c)
                      | w :: _ => match elem_children w with
                                  | [] => crash
                                  | e :: _ => parse_where e c
                                  end
                      end) (fun c =>
          match dav_find_child basicsearch_elem "from" with
          | [] => mret (HTTP_BAD_REQUEST, c)
          | from_elem :: _ =>
              then_parse (parse_from c from_elem) (fun c =>
              then_parse (match dav_find_child basicsearch_elem "orderby" with
                          | [] => mret (HTTP_OK, set_orderby (Some " "%string) c)
                          | o :: _ => parse_orderby c o
                          end) (fun c =>
              let c := match dav_find_child basicsearch_elem "limit" with
                       | [] => c
                       | l :: _ => parse_limit c l
                       end in
              mret (HTTP_OK, match List.find (fun e => String.eqb (elem_name e) "offset")
                                     (elem_children basicsearch_elem) with
                             | Some e => parse_offset c e
                             | None => c
                             end)))
          end))
      end
  end.
End search.
