(* ===== verification/SearchBuild.v ===== *)
(** * Searches ([search.c]): the query and the response

    The fragments of a search become the text of one query; its rows become the elements
    of a multistatus response.  The rows are the server's: a function of the text and the
    tables. *)
From S2P Require Import Prelude Util Numbers Dbd Db Bind Resource Bridge Users Properties Acl Listing Request Principal Search.
From stdpp Require Import gmap pretty.
Local Open Scope Z_scope.
Local Open Scope limestone_scope.

(** [apr_pstrcat]: a NULL ends the list of strings. *)
Fixpoint apr_pstrcat (l : list (option string)) : string :=
  match l with
  | Some s :: rest => s +:+ apr_pstrcat rest
  | _ => EmptyString
  end.

(** The name and the number of the namespace in a key; [None] is NULL for the name. *)
Definition get_prop_from_prop_key {lib : SearchLib} (prop_key : string) : option (option string * Z) :=
  match rev (apr_strtok_underscore prop_key) with
  | [] => None
  | last :: [] => Some (None, atoi last)
  | last :: before => Some (Some (String.concat EmptyString (rev before)), atoi last)
  end.

Section build.
Context {lib : SearchLib} {cfg : ServerConfig}.

(** ** The query *)

Definition recursive_select (c : search_ctx) : string :=
  apr_pstrcat [Some "WITH RECURSIVE search_graph(root_bind_id, bind_id, url, resource_id, depth, visited_binds, cycle) AS ( VALUES "%string;
    search_graph_seed c;
    Some " UNION ALL SELECT sg.root_bind_id, b.id, url || '/' || b.name, b.resource_id, sg.depth + 1, visited_binds || b.id, b.id = ANY(visited_binds) FROM binds b, search_graph sg WHERE b.collection_id = sg.resource_id AND NOT cycle AND ("%string;
    search_graph_cond c;
    Some ")) SELECT search_graph.url"%string].

Definition bitmarks_select : string :=
  "WITH resource_bitmarks AS ( SELECT resources.id AS resource_id, bitmarks.namespace_id, bitmarks.name, bitmarks.value, bitmark_resources.name AS bitmark_id FROM resources INNER JOIN binds bitmarked_resources ON bitmarked_resources.name = resources.uuid INNER JOIN binds bitmark_resources ON bitmark_resources.collection_id = bitmarked_resources.resource_id INNER JOIN properties bitmarks ON bitmarks.resource_id = bitmark_resources.resource_id AND bitmarks.value != '' AND (bitmarks.namespace_id, bitmarks.name) IN (".

(** The pairs of the bitmarks asked for, each with a comma after it. *)
Fixpoint bitmark_pairs (l : list (string * string)) (query : string) (c : search_ctx)
  : R (string * search_ctx) :=
  match l with
  | [] => mret (query, c)
  | (bm, ns) :: rest =>
      x ← get_ns_id c ns;
      bitmark_pairs rest (query +:+ "(" +:+ pretty x.1 +:+ ", '" +:+ bm +:+ "'),") x.2
  end.

(** The last character of [s] is overwritten. *)
Definition overwrite_last (c : string) (s : string) : string :=
  String.substring 0 (String.length s - 1) s +:+ c.

Definition more_columns (l : list (string * string)) (s : string) : string :=
  fold_left (fun s x => s +:+ ", " +:+ x.2) l s.

Definition build_query_select (c : search_ctx) : R (string * search_ctx) :=
  let select := if is_bit_query c
                then "SELECT '/' || b1.name || '/' || b2.name || '/' || b3.name || '/' || b4.name AS path"%string
                else recursive_select c in
  x ← (if bitmark_support_req c then
         x ← bitmark_pairs (hash_items (bitmarks_map c)) bitmarks_select c;
         mret (overwrite_last ")" x.1 +:+ ") " +:+ select, x.2)
       else mret (select, c));
  let '(select, c) := x in
  let select := more_columns (hash_items (prop_map c)) select in
  mret (if bitmark_support_req c
        then select +:+ ", concat(resource_bitmarks.name || '>' || resource_bitmarks.value || '>' || '/bitmarks/' || resources.uuid || '/' || resource_bitmarks.bitmark_id || '>' )"
        else select, c).

(** The join for a dead property; [%s] of NULL. *)
Definition dead_property_subquery (prop_key : string) (name : option string) (ns_id : Z) : string :=
  " LEFT JOIN (SELECT resource_id, value AS " +:+ QUOT +:+ prop_key +:+ QUOT
  +:+ " FROM properties WHERE name = '" +:+ default "(null)"%string name
  +:+ "' AND namespace_id = " +:+ pretty ns_id +:+ ") "
  +:+ QUOT +:+ prop_key +:+ "_table" +:+ QUOT +:+ " ON "
  +:+ QUOT +:+ prop_key +:+ "_table" +:+ QUOT +:+ ".resource_id = resources.id ".

Fixpoint dead_joins (l : list (string * string)) (from : string) (c : search_ctx)
  : R (string * search_ctx) :=
  match l with
  | [] => mret (from, c)
  | (prop_key, _) :: rest =>
      match get_prop_from_prop_key prop_key with
      | None => crash
      | Some (name, ns_id) =>
          x ← get_ns_id c "DAV:";
          dead_joins rest (if bool_decide (ns_id = x.1) then from
                           else from +:+ dead_property_subquery prop_key name ns_id) x.2
      end
  end.

Definition build_query_from (c : search_ctx) : R (string * search_ctx) :=
  let from := " FROM resources  LEFT JOIN principals ON principals.resource_id = resources.owner_id "%string in
  let from := if media_props_req c
              then from +:+ " LEFT JOIN media ON resources.id = media.resource_id " else from in
  let from := if is_bit_query c
              then from +:+ " LEFT JOIN binds b4 ON b4.resource_id = resources.id INNER JOIN binds b3 ON b4.collection_id = b3.resource_id INNER JOIN binds b2 ON b3.collection_id = b2.resource_id INNER JOIN binds b1 ON b2.collection_id = b1.resource_id"
              else from +:+ " INNER JOIN search_graph ON resources.id = search_graph.resource_id " in
  x ← dead_joins (hash_items (prop_map c)) from c;
  mret (if bitmark_support_req c
        then x.1 +:+ " LEFT JOIN resource_bitmarks ON resource_bitmarks.resource_id = resources.id"
        else x.1, x.2).

(** [sctx->where] before the conditions of the request; NULL but for a search for bits. *)
Definition bit_where (c : search_ctx) : option string :=
  let w := if is_bit_query c then
             Some (" WHERE b1.collection_id = " +:+ pretty ROOT_COLLECTION_ID
                   +:+ " AND b1.name = 'home' AND b3.name = 'bits'")
           else None in
  let w := if bool_decide (b2_rid c = 0) then w
           else Some (apr_pstrcat [w; Some (" AND b2.resource_id = " +:+ pretty (b2_rid c) +:+ " ")]) in
  match b4_name c with
  | Some n => Some (apr_pstrcat [w; Some (" AND b4.name = '" +:+ n +:+ "' ")])
  | None => w
  end.

Definition build_query_where (c : search_ctx) : string :=
  let where_ := match where_cond c, bit_where c with
                | Some cond, Some w => Some (w +:+ " AND " +:+ cond)
                | Some cond, None => Some (" WHERE " +:+ cond)
                | None, w => w
                end in
  if bitmark_support_req c then
    more_columns (hash_items (prop_map c))
      (apr_pstrcat [where_; Some (if is_bit_query c then " GROUP BY path"%string
                                  else " GROUP BY binds.id"%string)])
  else default " "%string where_.

Definition build_query_limit (c : search_ctx) : string :=
  match nresults c with Some n => " LIMIT " +:+ n | None => " " end.

Definition build_query_offset (c : search_ctx) : option string :=
  (fun o => " OFFSET " +:+ o) <$> sx_offset c.

Definition build_query (c : search_ctx) : R (string * search_ctx) :=
  s ← build_query_select c;
  f ← build_query_from s.2;
  let c := f.2 in
  mret (apr_pstrcat [Some s.1; Some f.1; Some (build_query_where c); orderby c;
                     Some (build_query_limit c); build_query_offset c], c).
End build.
