(* ===== verification/SearchResponse.v ===== *)
(** * Searches ([search.c]): the response

    The rows of the query are grouped by URI into the responses of a multistatus; the
    hook runs the whole request. *)
From S2P Require Import Prelude Util Times Dbd Db Bind Resource Bridge Users Properties Acl Listing Request Principal Search SearchBuild.
From stdpp Require Import gmap pretty.
Local Open Scope Z_scope.
Local Open Scope limestone_scope.

(** The functions of the libraries on texts: [DEBUG_CR] of the DAV module, quoting for
    XML, the URI of a response, and the forms of a time. *)
Class ResponseLib := {
  DEBUG_CR : string;
  apr_xml_quote_string : string -> string;
  dav_get_response_href : string -> string;
  apr_strftime_iso8601 : Z -> string;
  apr_rfc822_date : Z -> string
}.

Record bitmark := Bitmark {
  bm_href : option string;
  bm_name : string;
  bm_value : option string
}.

Record search_response := SearchResponse {
  sr_href : string;
  sr_propstats : string
}.

(** A row of the query: its columns, NULL for [None]. *)
Definition result_row : Type := list (option string).

Section response.
Context {lib : SearchLib} {rlib : ResponseLib} {cfg : ServerConfig}.

(** [dav_principal_make_from_url] and the prefix of principals, as in [Principal]. *)
Variable make_from_url : string -> db -> dav_principal.
Variable href_prefix : string.

(** ** One resource *)

Definition dav_repos_format_strtime (iso8601 : bool) (t : string) : string :=
  let aprtime := dav_repos_parse_time t in
  if iso8601 then apr_strftime_iso8601 aprtime else apr_rfc822_date aprtime.

(** What is written for the value of a property of DAV; [None] is NULL or an identifier
    that cannot be read. *)
Definition dav_value (name propval : string) : R string :=
  if String.eqb name "creationdate" || String.eqb name "lastmodified"
  then mret (dav_repos_format_strtime true propval)
  else if String.eqb name "getlastmodified" then mret (dav_repos_format_strtime false propval)
  else if String.eqb name "resource-id" then
    match add_hyphens_to_uuid propval with
    | Some u => mret ("<D:href>urn:uuid:" +:+ u +:+ "</D:href>")
    | None => crash
    end
  else if String.eqb name "owner" then
    owner ← dav_repos_get_prin_by_name make_from_url href_prefix (Some propval);
    mret ("<D:href>" +:+ default "(null)"%string (dav_repos_principal_to_s href_prefix owner)
          +:+ "</D:href>")
  else mret (apr_xml_quote_string propval).

Definition add_text (old : option string) (l : list (option string)) : option string :=
  Some (apr_pstrcat (Some (default " "%string old) :: l)).

(** The loop over the properties asked for; the column of the next one is [i]. *)
Fixpoint mkresponse_loop (l : list (string * string)) (i : nat) (dbrow : result_row)
    (good bad : option string) (c : search_ctx)
  : R (nat * option string * option string * search_ctx) :=
  match l with
  | [] => mret (i, good, bad, c)
  | (prop_key, _) :: rest =>
      match get_prop_from_prop_key prop_key, dbrow !! i with
      | None, _ | _, None => crash
      | Some (name, ns_id), Some propval =>
          let ns := namespace_map c !! ns_id in
          match propval with
          | None | Some EmptyString =>
              mkresponse_loop rest (S i) dbrow good
                (add_text bad [Some "<"%string; name; Some (" xmlns=" +:+ QUOT); ns; Some (QUOT +:+ "/>")]) c
          | Some v =>
              x ← get_ns_id c "DAV:";
              v ← (if bool_decide (ns_id = x.1) then
                     match name with
                     | Some n => dav_value n v
                     | None => crash
                     end
                   else mret v);
              mkresponse_loop rest (S i) dbrow
                (add_text good [Some "<"%string; name; Some (" xmlns=" +:+ QUOT); ns; Some (QUOT +:+ ">");
                                Some v; Some "</"%string; name; Some ">"%string; Some DEBUG_CR])
                bad x.2
          end
      end
  end.

Definition search_mkresponse (c : search_ctx) (dbrow : result_row)
  : R (nat * option string * option string * search_ctx) :=
  mkresponse_loop (hash_items (prop_map c)) 1 dbrow None None c.

(** ** Bitmarks *)

Variable apr_strtok_gt : string -> list string.

(** The triples of name, value and resource; the value and the resource of a name that
    was not asked for are read as names. *)
Fixpoint collect_bitmarks (fuel : nat) (tokens : list string) (h : gmap string (list bitmark))
  : gmap string (list bitmark) :=
  match fuel, tokens with
  | S n, next :: rest =>
      match h !! next with
      | Some values =>
          let b := Bitmark (rest !! 1%nat) next (rest !! 0%nat) in
          collect_bitmarks n (drop 2 rest) (<[next := values ++ [b]]> h)
      | None => collect_bitmarks n rest h
      end
  | _, _ => h
  end.

Definition read_bitmarks (text : string) (h : gmap string (list bitmark)) : gmap string (list bitmark) :=
  let tokens := apr_strtok_gt text in collect_bitmarks (length tokens) tokens h.

Definition bitmark_text (b : bitmark) : list (option string) :=
  [Some ("<bitmark>" +:+ DEBUG_CR +:+ " <href>"); dav_get_response_href <$> bm_href b;
   Some ("</href>" +:+ DEBUG_CR +:+ " <"); Some (bm_name b); Some ">"%string; bm_value b;
   Some "</"%string; Some (bm_name b); Some (">" +:+ DEBUG_CR +:+ "</bitmark>" +:+ DEBUG_CR)].

(** The texts of the bitmarks found and of those missing, in the order of the hash. *)
Definition bitmark_stats (l : list (string * string)) (h : gmap string (list bitmark))
  : option string * option string :=
  fold_left (fun gb x =>
    match h !! x.1 with
    | Some [] | None => (gb.1, add_text gb.2 [Some "<"%string; Some x.1; Some "/>"%string])
    | Some values => (fold_left (fun g b => add_text g (bitmark_text b)) values gb.1, gb.2)
    end) l (None, None).

(** ** All rows *)

Definition propstat (status : string) (props : option string) : string :=
  match props with
  | None => EmptyString
  | Some p => "<D:propstat>" +:+ DEBUG_CR +:+ "  <D:prop>" +:+ DEBUG_CR +:+ p
              +:+ "  </D:prop>" +:+ DEBUG_CR +:+ "  <D:status>HTTP/1.1 " +:+ status
              +:+ "</D:status>" +:+ DEBUG_CR +:+ "</D:propstat>" +:+ DEBUG_CR
  end.

Definition LIMEBITS_NS : string := "http://limebits.com/ns/1.0/".

Definition bitmarkstat (good bad : option string) : string :=
  let open := "<bitmarkstat xmlns=" +:+ QUOT +:+ LIMEBITS_NS +:+ QUOT +:+ ">" +:+ DEBUG_CR in
  (match good with
   | Some g => open +:+ g +:+ "  <status>HTTP/1.1 200 OK</status>" +:+ DEBUG_CR
               +:+ "</bitmarkstat>" +:+ DEBUG_CR
   | None => EmptyString
   end)
  +:+ (match bad with
       | Some b => open +:+ "  <bitmark>" +:+ DEBUG_CR +:+ b +:+ "  </bitmark>" +:+ DEBUG_CR
                   +:+ "  <status>HTTP/1.1 404 Not Found</status>" +:+ DEBUG_CR
                   +:+ "</bitmarkstat>" +:+ DEBUG_CR
       | None => EmptyString
       end).

(** What is known of the URI of the rows read last: the properties found and missing, the
    column of the bitmarks and the bitmarks. *)
Record open_response := OpenResponse {
  op_href : string;
  op_good : option string;
  op_bad : option string;
  op_bitmarks : option (gmap string (list bitmark))
}.

Definition close_response (c : search_ctx) (o : open_response) : search_response :=
  let '(good, bad) := match op_bitmarks o with
                      | Some h => bitmark_stats (hash_items (bitmarks_map c)) h
                      | None => (None, None)
                      end in
  SearchResponse (op_href o)
    (propstat "200 OK" (op_good o) +:+ propstat "404 Not Found" (op_bad o) +:+ bitmarkstat good bad).

Definition no_bitmarks (c : search_ctx) : option (gmap string (list bitmark)) :=
  if bitmark_support_req c then Some ((fun _ => []) <$> bitmarks_map c) else None.

(** The bitmarks of a row, in column [j]. *)
Definition add_row_bitmarks (j : nat) (dbrow : result_row) (o : open_response) : R open_response :=
  match op_bitmarks o with
  | None => mret o
  | Some h =>
      match dbrow !! j with
      | None => crash
      | Some None => mret o
      | Some (Some text) =>
          mret (OpenResponse (op_href o) (op_good o) (op_bad o) (Some (read_bitmarks text h)))
      end
  end.

(** The rows of one URI are together.  The URI is a concatenation of names, which are not
    NULL. *)
Fixpoint response_loop (rows : list result_row) (last : option (open_response * nat)) (c : search_ctx)
  : R (list search_response * search_ctx) :=
  match rows with
  | [] => mret (match last with Some (o, _) => [close_response c o] | None => [] end, c)
  | dbrow :: rest =>
      match head dbrow with
      | Some (Some href) =>
          let same := match last with
                      | Some (o, _) => bool_decide (apr_strnatcmp href (op_href o) = 0)
                      | None => false
                      end in
          match last, same with
          | Some (o, j), true =>
              o ← add_row_bitmarks j dbrow o;
              response_loop rest (Some (o, j)) c
          | _, _ =>
              let closed := match last with Some (o, _) => [close_response c o] | None => [] end in
              x ← search_mkresponse c dbrow;
              let '(j, good, bad, c) := x in
              o ← add_row_bitmarks j dbrow (OpenResponse href good bad (no_bitmarks c));
              y ← response_loop rest (Some (o, j)) c;
              mret (closed ++ y.1, y.2)
          end
      | _ => crash
      end
  end.

Definition build_xml_response (rows : list result_row) (c : search_ctx)
  : R (list search_response * search_ctx) :=
  response_loop rows None c.

(** ** The hook *)

(** The server's answer to the text of a query. *)
Variable server_rows : string -> db -> list result_row.

(** The query is executed when it has no parameters: a question mark in its text makes one
    that is never set, nothing is executed, and the results are a NULL that is read. *)
Definition execute_search (text : string) : R (option (list result_row)) :=
  match parameters (dbms_prepare text) with
  | [] => run (select (server_rows text))
  | _ => crash
  end.

(** [doc] is the document of the request: [None] when it cannot be parsed or has no
    root. *)
Definition dav_repos_search_resource (doc : option (list string * apr_xml_elem))
    (request_uri : string) (ns_hash : gmap string Z)
  : R (option dav_error * list search_response) :=
  match doc with
  | None => mret (Some (dav_new_error HTTP_BAD_REQUEST), [])
  | Some (namespaces, root) =>
      x ← parse_query namespaces request_uri root (set_ns_id_hash ns_hash new_search_ctx);
      if bool_decide (x.1 = HTTP_OK) then
        q ← build_query x.2;
        rows ← execute_search q.1;
        match rows with
        | None => mret (Some (dav_new_error HTTP_INTERNAL_SERVER_ERROR), [])
        | Some rows =>
            y ← build_xml_response rows q.2;
            mret (None, y.1)
        end
      else mret (Some (dav_new_error x.1), [])
  end.

(** ** The numbers of resources per value of a bitmark *)

(** The values of the sample set, quoted, each with a comma after it. *)
Fixpoint sample_texts (l : list apr_xml_elem) (value_table value_set : string)
  : option (string * string) :=
  match l with
  | [] => Some (value_table, value_set)
  | v :: rest =>
      match first_cdata v with
      | None => None
      | Some t =>
          let t := apr_dbd_escape t in
          sample_texts rest (value_table +:+ "('" +:+ t +:+ "'),") (value_set +:+ "'" +:+ t +:+ "',")
      end
  end.

Definition property_stats_query (ns_id : Z) (prop stat value_set value_table : string) : string :=
  "WITH resource_bitmarks AS ( SELECT resources.id AS resource_id, bitmarks.namespace_id, bitmarks.name, bitmarks.value, bitmark_resources.name AS bitmark_id FROM resources INNER JOIN binds bitmarked_resources ON bitmarked_resources.name = resources.uuid INNER JOIN binds bitmark_resources ON bitmark_resources.collection_id = bitmarked_resources.resource_id INNER JOIN properties bitmarks ON bitmarks.resource_id = bitmark_resources.resource_id AND bitmarks.namespace_id = "
  +:+ pretty ns_id +:+ " AND bitmarks.name = '" +:+ prop +:+ "' ) SELECT value, " +:+ stat
  +:+ "(value) - 1 FROM (SELECT resource_bitmarks.value FROM resources LEFT JOIN principals ON principals.resource_id = resources.owner_id LEFT JOIN binds b4 ON b4.resource_id = resources.id INNER JOIN binds b3 ON b4.collection_id = b3.resource_id INNER JOIN binds b2 ON b3.collection_id = b2.resource_id INNER JOIN binds b1 ON b2.collection_id = b1.resource_id LEFT JOIN resource_bitmarks ON resource_bitmarks.resource_id = resources.id WHERE b1.collection_id = 2 AND b1.name = 'home' AND b3.name = 'bits' AND ( type = 'Collection' ) AND resource_bitmarks.value IN "
  +:+ value_set +:+ " UNION ALL VALUES " +:+ value_table +:+ ") values GROUP BY value".

Fixpoint property_stats_rows (stat : string) (rows : list result_row) : option string :=
  match rows with
  | [] => Some EmptyString
  | row :: rest =>
      match row, property_stats_rows stat rest with
      | Some value :: n :: _, Some text =>
          Some ("  <LB:stat>" +:+ DEBUG_CR
            +:+ apr_pstrcat [Some ("   <LB:value>" +:+ apr_xml_quote_string value +:+ "</LB:value>" +:+ DEBUG_CR
                                   +:+ "   <LB:" +:+ stat +:+ ">"); n;
                             Some ("</LB:" +:+ stat +:+ ">" +:+ DEBUG_CR)]
            +:+ "  </LB:stat>" +:+ DEBUG_CR +:+ text)
      | _, _ => None
      end
  end.

Definition property_stats_text (ns prop stat : string) (rows : list result_row) : option string :=
  (fun text =>
    "<LB:property-stats xmlns:LB=" +:+ QUOT +:+ LIMEBITS_NS +:+ QUOT +:+ ">" +:+ DEBUG_CR
    +:+ " <LB:prop><ns1:" +:+ prop +:+ " xmlns:ns1=" +:+ QUOT +:+ ns +:+ QUOT +:+ "/></LB:prop>" +:+ DEBUG_CR
    +:+ " <LB:sample-set>" +:+ DEBUG_CR +:+ text
    +:+ " </LB:sample-set>" +:+ DEBUG_CR +:+ "</LB:property-stats>" +:+ DEBUG_CR)
  <$> property_stats_rows stat rows.

(** The error, or the body of the response. *)
Definition dav_repos_deliver_property_stats (namespaces : list string) (root : apr_xml_elem)
    (ns_hash : gmap string Z) : R (option dav_error * string) :=
  let bad_request := Some (dav_new_error HTTP_BAD_REQUEST) in
  match head (dav_find_child_no_ns root "prop") ≫= (fun e => head (elem_children e)) with
  | None => mret (bad_request, EmptyString)
  | Some prop =>
      match get_ns_uri namespaces (elem_ns prop) with
      | None => crash
      | Some ns =>
          n ← (fun cache => x ← dbms_get_ns_id ns_hash cache ns; oret (x.1.1, x.2));
          match n with
          | inl e => mret (Some e, EmptyString)
          | inr ns_id =>
              match dav_find_child_no_ns root "sample-set",
                    head (dav_find_child_no_ns root "stat") ≫= (fun e => head (elem_children e)) with
              | sample_set :: _, Some stat =>
                  match sample_texts (elem_children sample_set) " " "(" with
                  | None => crash
                  | Some (value_table, value_set) =>
                      rows ← execute_search (property_stats_query ns_id (elem_name prop) (elem_name stat)
                               (overwrite_last ")" value_set) (overwrite_last " " value_table));
                      match rows with
                      | None => mret (Some (dav_new_error HTTP_INTERNAL_SERVER_ERROR), EmptyString)
                      | Some rows =>
                          match property_stats_text ns (elem_name prop) (elem_name stat) rows with
                          | Some text => mret (None, text)
                          | None => crash
                          end
                      end
                  end
              | _, _ => mret (bad_request, EmptyString)
              end
          end
      end
  end.
End response.
