(* ===== verification/SearchSpec.v ===== *)
(** * What a search asks for and what it answers

    The text of the condition is the fully parenthesised expression of the document, the
    literals of the request are not escaped in it, and the response has one element per
    URI. *)
From S2P Require Import Prelude Util Numbers Dbd Db Bind Resource DbmsDeltav Bridge Users Properties Acl Listing Request Principal CreateSpec Search SearchBuild SearchResponse.
From stdpp Require Import gmap pretty.
Local Open Scope Z_scope.
Local Open Scope limestone_scope.

(** ** Expressions *)

Inductive condition :=
| Compare (attr op text : string)
| CompareBitmark (ns_id : Z) (name attr op text : string)
| IsCollection
| IsDefined (attr : string)
| Not (e : condition)
| Logical (op : string) (e : condition) (rest : list condition).

(** The text of an expression. *)
Fixpoint print_condition (e : condition) : string :=
  match e with
  | Compare attr op text => "( " +:+ attr +:+ " " +:+ op +:+ " '" +:+ text +:+ "' )"
  | CompareBitmark ns_id name attr op text =>
      "( resources.id IN (SELECT resource_id FROM resource_bitmarks WHERE namespace_id = "
      +:+ pretty ns_id +:+ " AND name = '" +:+ name +:+ "' AND " +:+ attr
      +:+ " " +:+ op +:+ " '" +:+ text +:+ "' ))"
  | IsCollection => "( type = 'Collection' )"
  | IsDefined attr => "( " +:+ attr +:+ " IS NOT NULL )"
  | Not e => "( NOT " +:+ print_condition e +:+ " )"
  | Logical op e rest =>
      "( " +:+ print_condition e
      +:+ String.concat EmptyString (map (fun e => " " +:+ op +:+ " " +:+ print_condition e) rest)
      +:+ " )"
  end.

(** The column of a property: that of a live property of DAV, if it is one, or the key in
    quotes. *)
Definition column (prop : apr_xml_elem) (attr : option string) : Prop :=
  if bool_decide (elem_ns prop = APR_XML_NS_DAV_ID) then attr = get_liveprop_map !! elem_name prop
  else exists id, attr = Some (QUOT +:+ get_prop_key (elem_name prop) id +:+ QUOT).

(** The expression an element stands for. *)
Inductive denotes : apr_xml_elem -> condition -> Prop :=
| denotes_compare op ns attrs cdata first prop ps literal rest sql attr attr' text :
    get_comp_ops_map op = Some sql -> elem_children first = prop :: ps ->
    elem_name first <> "bitmark"%string -> column prop (Some attr) ->
    typed_attr literal attr = Some attr' -> first_cdata literal = Some text ->
    denotes (XmlElem op ns attrs cdata (first :: literal :: rest)) (Compare attr' sql text)
| denotes_bitmark op ns attrs cdata first prop ps literal rest sql ns_id attr' text :
    get_comp_ops_map op = Some sql -> elem_children first = prop :: ps ->
    elem_name first = "bitmark"%string ->
    typed_attr literal "value" = Some attr' -> first_cdata literal = Some text ->
    denotes (XmlElem op ns attrs cdata (first :: literal :: rest))
      (CompareBitmark ns_id (elem_name prop) attr' sql text)
| denotes_collection op ns attrs cdata children :
    op = "is-collection"%string \/ op = "is-bit"%string ->
    denotes (XmlElem op ns attrs cdata children) IsCollection
| denotes_defined ns attrs cdata first prop ps rest attr :
    elem_children first = prop :: ps -> column prop (Some attr) ->
    denotes (XmlElem "is-defined" ns attrs cdata (first :: rest)) (IsDefined attr)
| denotes_not ns attrs cdata e rest c :
    denotes e c -> denotes (XmlElem "not" ns attrs cdata (e :: rest)) (Not c)
| denotes_logical op ns attrs cdata e rest c cs :
    op = "and"%string \/ op = "or"%string -> denotes e c -> Forall2 denotes rest cs ->
    denotes (XmlElem op ns attrs cdata (e :: rest)) (Logical op c cs).

(** ** Requests that are understood *)

(** A property whose namespace the document declares, and which the tables hold. *)
Definition known_ns (namespaces : list string) (prop : apr_xml_elem) : bool :=
  bool_decide (is_Some (get_ns_uri namespaces (elem_ns prop))).
Definition known_column (prop : apr_xml_elem) : bool :=
  negb (bool_decide (elem_ns prop = APR_XML_NS_DAV_ID))
  || bool_decide (is_Some (get_liveprop_map !! elem_name prop)).

(** A literal with a text, and with a prefix in its type if it has one. *)
Definition known_literal (literal : apr_xml_elem) : bool :=
  bool_decide (is_Some (first_cdata literal)) && bool_decide (is_Some (typed_attr literal "")).

(** The conditions that are understood. *)
Fixpoint supported (namespaces : list string) (e : apr_xml_elem) : bool :=
  match e with
  | XmlElem op _ _ _ children =>
      if bool_decide (is_Some (get_comp_ops_map op)) then
        match children with
        | first :: literal :: _ =>
            match elem_children first with
            | prop :: _ => known_ns namespaces prop && known_literal literal
                           && (String.eqb (elem_name first) "bitmark" || known_column prop)
            | [] => false
            end
        | _ => false
        end
      else if String.eqb op "not" then
        match children with e :: _ => supported namespaces e | [] => false end
      else if is_log_op op then
        negb (bool_decide (children = [])) && forallb (supported namespaces) children
      else if String.eqb op "is-defined" then
        match head children ≫= (fun e => head (elem_children e)) with
        | Some prop => known_ns namespaces prop && known_column prop
        | None => false
        end
      else String.eqb op "is-collection" || String.eqb op "is-bit"
  end.

(** Proves that two texts are the same up to their association. *)
Ltac texts :=
  unfold id; repeat progress (rewrite ?string_app_assoc; cbn [String.append]); reflexivity.

(** ** Results *)

(** Whatever the server answers, a result of [m] satisfies [P]. *)
Definition Post {A} (m : R A) (P : A -> Prop) : Prop :=
  forall cache s, match m cache s with (Ret (x, _), _) => P x | _ => True end.

Lemma post_ret {A} (x : A) (P : A -> Prop) : P x -> Post (mret x) P.
Proof. intros H c s. exact H. Qed.

Lemma post_crash {A} (P : A -> Prop) : Post crash P.
Proof. intros c s. exact I. Qed.

Lemma post_mono {A} (m : R A) (P Q : A -> Prop) : Post m P -> (forall x, P x -> Q x) -> Post m Q.
Proof. intros H HQ c s. specialize (H c s). destruct (m c s) as [[|[x c']] s']; auto. Qed.

Lemma post_bind {A B} (m : R A) (f : A -> R B) P : Post m (fun x => Post (f x) P) -> Post (m ≫= f) P.
Proof.
  intros H c s. specialize (H c s). unfold mbind, R_bind, obind. rewrite bind_run.
  destruct (m c s) as [[|[x c']] s']; [done|]. apply H.
Qed.

Lemma post_any {A} (m : R A) : Post m (fun _ => True).
Proof. intros c s. by destruct (m c s) as [[|[x c']] s']. Qed.

Section conditions.
Context {lib : SearchLib}.
Variable namespaces : list string.

(** What the functions that read names leave of the condition. *)
Lemma get_ns_id_post c ns : Post (get_ns_id c ns) (fun x => where_cond x.2 = where_cond c).
Proof.
  intros cache s. unfold get_ns_id. rewrite bind_run.
  by destruct (dbms_get_ns_id _ cache ns s) as [[[r h] c'] s'].
Qed.

Lemma elem_key_post e c :
  Post (elem_key namespaces e c) (fun x => exists id,
    x.1.2 = get_prop_key (elem_name e) id /\ where_cond x.2 = where_cond c).
Proof.
  unfold elem_key. destruct (get_ns_uri _ _); [|apply post_crash].
  apply post_bind. eapply post_mono; [apply get_ns_id_post|]. intros [id c'] Hc.
  apply post_ret. cbn in *. eauto.
Qed.

Lemma prop_attr_lookup_spec prop id c :
  let x := prop_attr_lookup prop (get_prop_key (elem_name prop) id) c in
  column prop x.1 /\ where_cond x.2 = where_cond c.
Proof.
  unfold prop_attr_lookup, column. case_bool_decide; cbn; [|eauto].
  split; [done|]. by repeat case_match.
Qed.

Lemma append_cond_spec t c :
  where_cond (append_cond t c) = Some (default " "%string (where_cond c) +:+ t).
Proof. done. Qed.

(** A nested induction over documents. *)
Lemma elem_ind' (P : apr_xml_elem -> Prop) :
  (forall n ns a t l, Forall P l -> P (XmlElem n ns a t l)) -> forall e, P e.
Proof.
  intros H. fix IH 1. intros [n ns a t l]. apply H. induction l as [|e l IHl]; constructor; auto.
Qed.

(** [x] is a result whose condition is that of [c] with the text of an expression of [e]. *)
Definition adds_condition (e : apr_xml_elem) (c : search_ctx) (x : Z * search_ctx) : Prop :=
  supported namespaces e = true -> x.1 = HTTP_OK -> exists E, denotes e E
    /\ where_cond x.2 = Some (default " "%string (where_cond c) +:+ print_condition E).

Lemma parse_comp_ops_post e c :
  is_Some (get_comp_ops_map (elem_name e)) ->
  Post (parse_comp_ops namespaces e c) (adds_condition e c).
Proof.
  destruct e as [n ns a t l]. intros [op Hop]. cbn in Hop. unfold parse_comp_ops. cbn [elem_children elem_name].
  destruct l as [|first rest]; [apply post_crash|].
  destruct (elem_children first) as [|prop ps] eqn:Hf; [apply post_crash|].
  apply post_bind. eapply post_mono; [apply elem_key_post|]. intros [[id k] c1] (i & Hk & Hw).
  cbn in Hk, Hw. subst k. rewrite Hop.
  pose proof (prop_attr_lookup_spec prop i c1) as [Hcol Hw2].
  destruct (prop_attr_lookup _ _ c1) as [attr c2]. cbn in Hcol, Hw2.
  destruct (String.eqb_spec (elem_name first) "bitmark") as [Hb|Hb].
  - destruct rest as [|literal rest]; [apply post_crash|].
    destruct (typed_attr literal "value") as [attr'|] eqn:Ht, (first_cdata literal) as [text|] eqn:Hx;
      try apply post_crash. apply post_ret. intros _ _. exists (CompareBitmark id (elem_name prop) attr' op text).
    split; [by econstructor|]. cbn [snd]. by rewrite append_cond_spec, Hw.
  - destruct attr as [attr|]; [|by apply post_ret].
    destruct rest as [|literal rest]; [apply post_crash|].
    destruct (typed_attr literal attr) as [attr'|] eqn:Ht, (first_cdata literal) as [text|] eqn:Hx;
      try apply post_crash. apply post_ret. intros _ _. exists (Compare attr' op text).
    split; [by econstructor|]. cbn [snd]. by rewrite append_cond_spec, Hw2, Hw.
Qed.

Lemma parse_is_defined_post e c :
  elem_name e = "is-defined"%string -> Post (parse_is_defined namespaces e c) (adds_condition e c).
Proof.
  destruct e as [n ns a t [|first rest]]; cbn; intros ->; unfold parse_is_defined; cbn; [apply post_crash|].
  destruct (elem_children first) as [|prop ps] eqn:Hf; cbn; [apply post_crash|].
  apply post_bind. eapply post_mono; [apply elem_key_post|]. intros [[id k] c1] (i & Hk & Hw).
  cbn in Hk, Hw. subst k. pose proof (prop_attr_lookup_spec prop i c1) as [Hcol Hw2].
  assert (supported namespaces (XmlElem "is-defined" ns a t (first :: rest)) = true ->
    is_Some (prop_attr_lookup prop (get_prop_key (elem_name prop) i) c1).1) as Hk.
  { cbn. rewrite Hf. cbn. intros [_ Hk]%andb_prop. revert Hk. unfold known_column, prop_attr_lookup.
    case_bool_decide; cbn; [|done]. by intros ?%bool_decide_eq_true. }
  destruct (prop_attr_lookup _ _ c1) as [attr c2]. cbn in Hcol, Hw2, Hk. apply post_ret. intros Hs _.
  destruct (Hk Hs) as [attr' ->]. exists (IsDefined attr'). split; [by econstructor|].
  cbn [snd]. rewrite append_cond_spec. cbn. by rewrite Hw2, Hw.
Qed.

(** The names of the logical operators are compared in their natural order. *)
Hypothesis natcmp_not : apr_strnatcmp "not" "not" = 0.
Hypothesis natcmp_and : apr_strnatcmp "and" "not" <> 0.
Hypothesis natcmp_or : apr_strnatcmp "or" "not" <> 0.

Definition operand_texts (op : string) (cs : list condition) : string :=
  String.concat EmptyString (map (fun e => " " +:+ op +:+ " " +:+ print_condition e) cs).

Lemma concat_cons x l : String.concat EmptyString (x :: l) = x +:+ String.concat EmptyString l.
Proof. destruct l; cbn; [by rewrite string_app_nil_r|done]. Qed.

Lemma parse_operands_post op l c :
  Forall (fun e => forall c, Post (parse_where namespaces e c) (adds_condition e c)) l ->
  Post (parse_operands (parse_where namespaces) op l c) (fun x =>
    forallb (supported namespaces) l = true -> x.1 = HTTP_OK ->
    exists cs, Forall2 denotes l cs
      /\ default " "%string (where_cond x.2)
         = default " "%string (where_cond c) +:+ operand_texts op cs).
Proof.
  intros Hl. revert c. induction Hl as [|e l He Hl IH]; intros c; cbn.
  { apply post_ret. intros _ _. exists []. split; [constructor|]. by rewrite string_app_nil_r. }
  apply post_bind. eapply post_mono; [apply He|]. intros [st c1] H1.
  unfold adds_condition in H1. cbn [fst snd] in *.
  case_bool_decide as Hs; [|by apply post_ret].
  eapply post_mono; [apply IH|]. intros x Hx [Hse Hsl]%andb_prop Hok.
  destruct (H1 Hse Hs) as (E & HE & Hw). destruct (Hx Hsl Hok) as (cs & Hcs & Hw2).
  exists (E :: cs). split; [by constructor|]. rewrite Hw2, Hw, append_cond_spec.
  unfold operand_texts. cbn [map default]. rewrite concat_cons. texts.
Qed.

Lemma log_op_cases op : is_log_op op = true ->
  op = "not"%string \/ ((op = "and"%string \/ op = "or"%string) /\ apr_strnatcmp op "not" <> 0).
Proof.
  unfold is_log_op. destruct (String.eqb_spec op "and"); [subst; auto|].
  destruct (String.eqb_spec op "or"); [subst; auto|]. destruct (String.eqb_spec op "not"); [auto|done].
Qed.

Lemma parse_log_ops_post op ns attrs cdata l c :
  Forall (fun e => forall c, Post (parse_where namespaces e c) (adds_condition e c)) l ->
  ~ is_Some (get_comp_ops_map op) -> is_log_op op = true ->
  Post (parse_log_ops (parse_where namespaces) op l c) (adds_condition (XmlElem op ns attrs cdata l) c).
Proof.
  intros IH Hc Hl. unfold adds_condition. cbn [supported]. rewrite bool_decide_eq_false_2 by done.
  unfold parse_log_ops. destruct l as [|first rest]; [apply post_ret; by intros _ ?|].
  apply Forall_cons in IH as [He IH]. destruct (log_op_cases op Hl) as [->|[Hop Hne]].
  - rewrite bool_decide_eq_true_2 by done. apply post_bind. eapply post_mono; [apply He|].
    intros [st c1] H1. apply post_ret. intros Hs Hok.
    destruct (H1 Hs Hok) as (E & HE & Hw). cbn [snd] in Hw |- *. exists (Not E). split; [by constructor|].
    rewrite append_cond_spec, Hw, append_cond_spec. cbn [default print_condition]. texts.
  - rewrite bool_decide_eq_false_2 by done. apply post_bind. eapply post_mono; [apply He|].
    intros [st c1] H1. cbn [fst snd] in *. assert (String.eqb op "not" = false) as Hn by (by destruct Hop; subst).
    rewrite Hn, Hl. case_bool_decide as Hs; [|apply post_ret; by intros _ ?].
    apply post_bind. eapply post_mono; [by apply parse_operands_post|]. intros [st2 c2] H2.
    cbn [fst snd] in *. case_bool_decide as Hs2; apply post_ret; [|by intros _ ?]. intros Hsup _.
    cbn in Hsup. apply andb_prop in Hsup as [Hs3 Hs4].
    destruct (H1 Hs3 Hs) as (E & HE & Hw). destruct (H2 Hs4 Hs2) as (cs & Hcs & Hw2).
    cbn [snd] in Hw, Hw2 |- *. exists (Logical op E cs). split; [by constructor|].
    rewrite append_cond_spec, Hw2, Hw, append_cond_spec. cbn [default print_condition]. texts.
Qed.

Lemma parse_where_post e c : Post (parse_where namespaces e c) (adds_condition e c).
Proof.
  revert c. induction e as [op ns attrs cdata l IH] using elem_ind'. intros c. cbn [parse_where].
  case_bool_decide as Hc; [by apply parse_comp_ops_post|].
  destruct (is_log_op op) eqn:Hl; [by apply parse_log_ops_post|].
  destruct (String.eqb_spec op "is-collection") as [->|H1].
  { apply post_ret. intros _ _. exists IsCollection. split; [constructor; by left|done]. }
  destruct (String.eqb_spec op "is-bit") as [->|H2].
  { apply post_ret. intros _ _. exists IsCollection. split; [constructor; by right|done]. }
  destruct (String.eqb_spec op "is-defined") as [->|H3]; [|apply post_ret; by intros _ ?].
  by apply parse_is_defined_post.
Qed.
End conditions.

(** ** Requests that are accepted

    [Completes m P]: whatever the server answers, [m] ends with a result that satisfies [P]. *)
Definition Completes {A} (m : R A) (P : A -> Prop) : Prop :=
  forall cache s, exists x cache' s', m cache s = (Ret (x, cache'), s') /\ P x.

Lemma completes_ret {A} (x : A) (P : A -> Prop) : P x -> Completes (mret x) P.
Proof. intros H c s. by eexists _, _, _. Qed.

Lemma completes_mono {A} (m : R A) (P Q : A -> Prop) : Completes m P -> (forall x, P x -> Q x) -> Completes m Q.
Proof. intros H HQ c s. destruct (H c s) as (x & c' & s' & E & HP). eauto 6. Qed.

Lemma completes_bind {A B} (m : R A) (f : A -> R B) P :
  Completes m (fun x => Completes (f x) P) -> Completes (m ≫= f) P.
Proof.
  intros H c s. destruct (H c s) as (x & c' & s' & E & HP).
  destruct (HP c' s') as (y & c2 & s2 & E2 & HQ). exists y, c2, s2. split; [|done].
  unfold mbind, R_bind, obind. rewrite bind_run, E. exact E2.
Qed.

Lemma completes_post {A} (m : R A) (P Q : A -> Prop) :
  Completes m P -> Post m Q -> Completes m (fun x => P x /\ Q x).
Proof.
  intros HP HQ c s. destruct (HP c s) as (x & c' & s' & E & Hx).
  specialize (HQ c s). rewrite E in HQ. eauto 8.
Qed.

(** What is read of a supported element does not end the search. *)
Section understood.
Context {lib : SearchLib}.
Variable namespaces : list string.

Lemma get_ns_id_total c ns : Completes (get_ns_id c ns) (fun _ => True).
Proof.
  intros cache s. unfold get_ns_id. rewrite bind_run.
  destruct (dbms_get_ns_id _ cache ns s) as [[[r h] c'] s']. by eexists _, _, _.
Qed.

Lemma elem_key_total e c : known_ns namespaces e = true -> Completes (elem_key namespaces e c) (fun _ => True).
Proof.
  unfold known_ns, elem_key. intros [ns ->]%bool_decide_eq_true. apply completes_bind.
  eapply completes_mono; [apply get_ns_id_total|]. intros x _. by apply completes_ret.
Qed.

Lemma typed_attr_some literal a : is_Some (typed_attr literal "") -> is_Some (typed_attr literal a).
Proof. unfold typed_attr. case_match; [|done]. by destruct (dav_find_attr _ _ ≫= _). Qed.

Lemma known_column_spec prop k c :
  known_column prop = true -> is_Some (prop_attr_lookup prop k c).1.
Proof.
  unfold known_column, prop_attr_lookup. case_bool_decide; cbn; [|done].
  by intros ?%bool_decide_eq_true.
Qed.

#[local] Notation is_ok := (fun x : Z * search_ctx => x.1 = HTTP_OK).

Lemma parse_comp_ops_total e c :
  is_Some (get_comp_ops_map (elem_name e)) -> supported namespaces e = true ->
  Completes (parse_comp_ops namespaces e c) is_ok.
Proof.
  destruct e as [op ns a t l]. cbn [elem_name supported]. intros Hop.
  rewrite bool_decide_eq_true_2 by done. unfold parse_comp_ops. cbn [elem_children elem_name].
  destruct l as [|first [|literal rest]]; [done..|].
  destruct (elem_children first) as [|prop ps]; [done|].
  intros [[Hns [[text Hx]%bool_decide_eq_true Ht%bool_decide_eq_true]%andb_prop]%andb_prop Hcol]%andb_prop.
  apply completes_bind. eapply completes_mono; [by apply elem_key_total|]. intros [[id k] c1] _.
  destruct Hop as [sql ->]. rewrite Hx. destruct (String.eqb (elem_name first) "bitmark").
  - destruct (typed_attr_some literal "value" Ht) as [? ->]. by apply completes_ret.
  - destruct (known_column_spec prop k c1 Hcol) as [attr Ha].
    destruct (prop_attr_lookup _ _ c1) as [at' c2]. cbn in Ha. subst at'.
    destruct (typed_attr_some literal attr Ht) as [? ->]. by apply completes_ret.
Qed.

Lemma parse_operands_total op l c :
  Forall (fun e => forall c, supported namespaces e = true -> Completes (parse_where namespaces e c) is_ok) l ->
  forallb (supported namespaces) l = true ->
  Completes (parse_operands (parse_where namespaces) op l c) is_ok.
Proof.
  intros Hl. revert c. induction Hl as [|e l He Hl IH]; intros c; cbn; [intros _; by apply completes_ret|].
  intros [H1 H2]%andb_prop. apply completes_bind. eapply completes_mono; [by apply He|].
  intros x Hx. rewrite bool_decide_eq_true_2 by done. by apply IH.
Qed.

Lemma parse_where_total e c :
  apr_strnatcmp "not" "not" = 0 -> apr_strnatcmp "and" "not" <> 0 -> apr_strnatcmp "or" "not" <> 0 ->
  supported namespaces e = true -> Completes (parse_where namespaces e c) is_ok.
Proof.
  intros Hnot Hand Hor. revert c. induction e as [op ns a t l IH] using elem_ind'.
  intros c Hs. cbn [parse_where]. case_bool_decide as Hc; [by apply parse_comp_ops_total|].
  cbn [supported] in Hs. rewrite bool_decide_eq_false_2 in Hs by done.
  destruct (String.eqb_spec op "not") as [->|Hn].
  { destruct l as [|first rest]; [done|]. apply Forall_cons in IH as [He _]. cbn [is_log_op String.eqb].
    unfold parse_log_ops. rewrite bool_decide_eq_true_2 by done. apply completes_bind.
    eapply completes_mono; [by apply He|]. intros x Hx. by apply completes_ret. }
  destruct (is_log_op op) eqn:Hl.
  { destruct l as [|first rest]; [done|]. apply Forall_cons in IH as [He IH].
    cbn in Hs. apply andb_prop in Hs as [H1 H2]. unfold parse_log_ops. rewrite bool_decide_eq_false_2.
    2: { unfold is_log_op in Hl. destruct (String.eqb_spec op "and"); [by subst|].
         destruct (String.eqb_spec op "or"); [by subst|]. by destruct (String.eqb_spec op "not"). }
    apply completes_bind. eapply completes_mono; [by apply He|]. intros x Hx.
    rewrite bool_decide_eq_true_2 by done. apply completes_bind.
    eapply completes_mono; [by apply parse_operands_total|]. intros y Hy.
    rewrite bool_decide_eq_true_2 by done. by apply completes_ret. }
  destruct (String.eqb_spec op "is-defined") as [->|Hd].
  { cbn. unfold parse_is_defined. cbn [elem_children].
    destruct (head l ≫= _) as [prop|]; [|done]. apply andb_prop in Hs as [Hs _]. apply completes_bind.
    eapply completes_mono; [by apply elem_key_total|]. intros [[id k] c1] _.
    destruct (prop_attr_lookup prop k c1). by apply completes_ret. }
  destruct (String.eqb op "is-collection"); [by apply completes_ret|].
  destruct (String.eqb op "is-bit"); [by apply completes_ret|done].
Qed.
End understood.

(** C13. A condition that is understood is accepted, and its text in the query is that of the
    expression its element denotes, fully parenthesised, after what was there before. *)
Theorem parse_where_refines {lib : SearchLib} namespaces e c cache s :
  apr_strnatcmp "not" "not" = 0 -> apr_strnatcmp "and" "not" <> 0 -> apr_strnatcmp "or" "not" <> 0 ->
  supported namespaces e = true ->
  exists c' cache' s' E,
    parse_where namespaces e c cache s = (Ret ((HTTP_OK, c'), cache'), s')
    /\ denotes e E
    /\ where_cond c' = Some (default " "%string (where_cond c) +:+ print_condition E).
Proof.
  intros Hnot Hand Hor Hs.
  pose proof (completes_post _ _ _ (parse_where_total namespaces e c Hnot Hand Hor Hs)
                (parse_where_post namespaces Hnot Hand Hor e c)) as H.
  destruct (H cache s) as ([st c'] & cache' & s' & E & Hst & HE). cbn in Hst. subst st.
  destruct (HE Hs eq_refl) as (X & HX & Hw). eauto 8.
Qed.

(** ** Conditions that are accepted and not understood *)

(** The request for the resources on which a property of DAV is defined. *)
Definition is_defined_of (name : string) : apr_xml_elem :=
  XmlElem "is-defined" APR_XML_NS_DAV_ID [] None
    [XmlElem "prop" APR_XML_NS_DAV_ID [] None [XmlElem name APR_XML_NS_DAV_ID [] None []]].

(** A property of DAV that has no column has NULL for its text, and the text of the condition
    ends there: the request is accepted and its parenthesis is not closed. *)
Theorem is_defined_unclosed {lib : SearchLib} namespaces name c cache s :
  get_liveprop_map !! name = None ->
  exists c' cache' s',
    parse_where namespaces (is_defined_of name) c cache s = (Ret ((HTTP_OK, c'), cache'), s')
    /\ where_cond c' = Some (default " "%string (where_cond c) +:+ "( ").
Proof.
  intros Hn.
  assert (Completes (parse_where namespaces (is_defined_of name) c) (fun x => x.1 = HTTP_OK
    /\ where_cond x.2 = Some (default " "%string (where_cond c) +:+ "( "))) as H.
  { apply completes_bind. eapply completes_mono.
    { apply completes_post; [by apply elem_key_total|apply elem_key_post]. }
    intros [[id k] c1] (_ & i & Hk & Hw). cbn [fst snd] in Hk, Hw. unfold prop_attr_lookup.
    rewrite bool_decide_eq_true_2 by done. cbn [elem_name]. rewrite Hn.
    apply completes_ret. split; [done|]. cbn [snd]. rewrite append_cond_spec. cbn. by rewrite Hw. }
  destruct (H cache s) as ([st c'] & cache' & s' & E & Hst & Hw). cbn in Hst, Hw. subst st.
  eauto 6.
Qed.

(** ** Literals of the request in the query *)

(** The characters of a query that are in no string literal of it. *)
Fixpoint outside_literals (inside : bool) (s : string) : string :=
  match s with
  | EmptyString => EmptyString
  | String c rest =>
      if Ascii.eqb c "'"%char then outside_literals (negb inside) rest
      else if inside then outside_literals inside rest
      else String c (outside_literals inside rest)
  end.

Definition no_quote (s : string) : bool := string_forall (fun c => negb (Ascii.eqb c "'"%char)) s.

Lemma outside_literals_app s t :
  no_quote s = true -> outside_literals false (s +:+ t) = s +:+ outside_literals false t.
Proof.
  induction s as [|a s IH]; cbn; [done|]. intros [Ha Hs]%andb_prop.
  apply negb_true_iff in Ha. rewrite Ha. by rewrite IH.
Qed.

(** The request for the resources of a display name. *)
Definition displayname_eq (text : string) : apr_xml_elem :=
  XmlElem "eq" APR_XML_NS_DAV_ID [] None
    [XmlElem "prop" APR_XML_NS_DAV_ID [] None [XmlElem "displayname" APR_XML_NS_DAV_ID [] None []];
     XmlElem "literal" APR_XML_NS_DAV_ID [] (Some text) []].

(** C14. The text of a literal is not escaped: any text without quotes can be placed by a
    request, between two quotes of its own, outside the literals of the query. *)
Theorem search_literal_not_escaped {lib : SearchLib} namespaces payload c cache s :
  no_quote payload = true -> where_cond c = None ->
  exists c' cache' s' text,
    parse_where namespaces (displayname_eq ("' ) " +:+ payload +:+ " ( '")) c cache s
      = (Ret ((HTTP_OK, c'), cache'), s')
    /\ where_cond c' = Some text
    /\ outside_literals false text = " ( displayname =  ) " +:+ payload +:+ " (  )".
Proof.
  intros Hp Hc.
  assert (Completes (parse_where namespaces (displayname_eq ("' ) " +:+ payload +:+ " ( '")) c)
    (fun x => x.1 = HTTP_OK /\ where_cond x.2 =
       Some (" ( displayname = '' ) " +:+ payload +:+ " ( '' )"))) as H.
  { apply completes_bind. eapply completes_mono.
    { apply completes_post; [by apply elem_key_total|apply elem_key_post]. }
    intros [[id k] c1] (_ & i & _ & Hw). cbn [fst snd] in Hw.
    assert (prop_attr_lookup (XmlElem "displayname" APR_XML_NS_DAV_ID [] None []) k c1
            = (Some "displayname"%string, c1)) as El by reflexivity.
    cbn [String.eqb Ascii.eqb Bool.eqb elem_name elem_children] in *. rewrite El.
    apply completes_ret. split; [done|]. cbn [snd]. rewrite append_cond_spec, Hw, Hc.
    cbn [default]. texts. }
  destruct (H cache s) as ([st c'] & cache' & s' & E & Hst & Hw). cbn in Hst, Hw. subst st.
  eexists _, _, _, _. split; [exact E|]. split; [exact Hw|]. cbn.
  by rewrite outside_literals_app.
Qed.

(** ** The key of a property *)

Definition not_underscore (c : ascii) : bool := negb (Ascii.eqb c "_"%char).
Definition without_underscores (s : string) : string := string_filter not_underscore s.

Lemma concat_app l1 l2 :
  String.concat EmptyString (l1 ++ l2) = String.concat EmptyString l1 +:+ String.concat EmptyString l2.
Proof. induction l1; cbn [app]; [done|]. rewrite !concat_cons, IHl1. texts. Qed.

Lemma concat_add_token t l :
  String.concat EmptyString (add_token t l) = t +:+ String.concat EmptyString l.
Proof. destruct t; [done|]. cbn [add_token]. by rewrite concat_cons. Qed.

(** The pieces of a text put together are the text without its separators. *)
Lemma tokens_concat s t :
  String.concat EmptyString (tokens "_" t s) = t +:+ without_underscores s.
Proof.
  revert t. induction s as [|c s IH]; intros t; cbn.
  { by rewrite concat_add_token. }
  unfold without_underscores, not_underscore. cbn. destruct (Ascii.eqb c "_"); cbn [negb].
  - rewrite concat_add_token, IH. done.
  - rewrite IH. texts.
Qed.

Lemma tokens_last s t d :
  string_forall not_underscore d = true -> d <> EmptyString ->
  tokens "_" t (s +:+ String "_" d) = tokens "_" t s ++ [d].
Proof.
  intros Hd Hne. assert (forall t, tokens "_" t d = add_token (t +:+ d) []) as Hlast.
  { clear Hne. induction d as [|c d IH]; intros u; cbn; [by rewrite string_app_nil_r|].
    cbn in Hd. apply andb_prop in Hd as [Hc Hd]. unfold not_underscore in Hc.
    apply negb_true_iff in Hc. rewrite Hc, (IH Hd). f_equal. texts. }
  revert t. induction s as [|c s IH]; intros t; cbn.
  { rewrite Hlast. cbn. by destruct t, d. }
  destruct (Ascii.eqb c "_"); rewrite IH; [|done]. by destruct t.
Qed.

Lemma digit_not_underscore n : (n < 10)%N -> not_underscore (pretty_N_char n) = true.
Proof. destruct n as [|p]; [done|]. repeat (destruct p as [p|p|]; try done; try lia). Qed.

(** A number that is not negative: its digits are no separators, and are read back. *)
Lemma pretty_number (n : Z) : 0 <= n ->
  string_forall not_underscore (pretty n) = true /\ pretty n <> EmptyString
  /\ atoi (pretty n) = wrap32 n.
Proof.
  intros Hn. destruct n as [|p|p]; [done| |lia].
  change (pretty (Z.pos p)) with (pretty_N_go (N.pos p) "").
  split; [by apply pretty_go_digits; [apply digit_not_underscore|]|].
  rewrite pretty_N_go_step by lia. split; [by apply pretty_go_nonempty|].
  rewrite <- pretty_N_go_step by lia.
  exact (f_equal wrap32 (signed_digits_pretty (Z.pos p))).
Qed.

(** The key of a property is read back as the name without its underscores, nothing for a
    name that has only underscores, and the number of the namespace. *)
Theorem prop_key_roundtrip {lib : SearchLib} name id :
  (forall s, apr_strtok_underscore s = tokens "_" EmptyString s) -> 0 <= id < 2 ^ 31 ->
  get_prop_from_prop_key (get_prop_key name id)
  = Some (match without_underscores name with EmptyString => None | s => Some s end, id).
Proof.
  intros Htok Hid. destruct (pretty_number id) as (Hd & Hne & Ha); [lia|].
  unfold get_prop_from_prop_key, get_prop_key. rewrite Htok.
  change (name +:+ "_" +:+ pretty id) with (name +:+ String "_" (pretty id)).
  rewrite tokens_last by done. rewrite rev_unit, Ha, wrap32_small by lia.
  pose proof (tokens_concat name EmptyString) as Hc. cbn in Hc.
  destruct (rev (tokens "_" "" name)) as [|t l] eqn:Er.
  { apply (f_equal (@rev _)) in Er. rewrite rev_involutive in Er. cbn in Er.
    rewrite Er in Hc. cbn in Hc. by rewrite <- Hc. }
  rewrite <- Er, rev_involutive, Hc. destruct (without_underscores name) eqn:Ew; [|done].
  pose proof (tokens_nonempty "_" EmptyString name) as Hne'.
  apply (f_equal (@rev _)) in Er. rewrite rev_involutive in Er. cbn in Er.
  rewrite Er in Hne', Hc. apply Forall_app in Hne' as [_ Hne'].
  rewrite concat_app in Hc. cbn in Hc. apply Forall_inv in Hne'. by destruct (String.concat _ _), t.
Qed.

(** ** What a search answers *)

Section answers.
Context {lib : SearchLib} {rlib : ResponseLib} {cfg : ServerConfig}.
Variable make_from_url : string -> db -> dav_principal.
Variable href_prefix : string.
Variable apr_strtok_gt : string -> list string.

#[local] Notation response_loop := (response_loop make_from_url href_prefix apr_strtok_gt).

(** A key whose value is written as it is, as a time, or quoted. *)
Definition plain_key (key : string) : bool :=
  match get_prop_from_prop_key key with
  | Some (Some name, _) => negb (String.eqb name "resource-id") && negb (String.eqb name "owner")
  | _ => false
  end.

(** The URI of a row, and a row that has a column for every property and the bitmarks. *)
Definition row_href (row : result_row) : option string :=
  match row with Some h :: _ => Some h | _ => None end.
Definition readable (c : search_ctx) (row : result_row) : bool :=
  bool_decide (is_Some (row_href row))
  && bool_decide (length (hash_items (prop_map c)) + 2 <= length row)%nat.

(** The first of every run of equal URIs. *)
Fixpoint run_heads (last : option string) (hrefs : list string) : list string :=
  match hrefs with
  | [] => []
  | h :: rest =>
      match last with
      | Some l => if bool_decide (apr_strnatcmp h l = 0) then run_heads last rest
                  else h :: run_heads (Some h) rest
      | None => h :: run_heads (Some h) rest
      end
  end.

Lemma get_ns_id_keeps c ns : Completes (get_ns_id c ns) (fun x =>
  prop_map x.2 = prop_map c /\ bitmark_support_req x.2 = bitmark_support_req c).
Proof.
  intros cache s. unfold get_ns_id. rewrite bind_run.
  destruct (dbms_get_ns_id _ cache ns s) as [[[r h] c'] s']. by eexists _, _, _.
Qed.

Lemma mkresponse_loop_total l i row good bad c :
  forallb (fun x => plain_key x.1) l = true -> (i + length l <= length row)%nat ->
  Completes (mkresponse_loop make_from_url href_prefix l i row good bad c) (fun x =>
    x.1.1.1 = (i + length l)%nat /\ prop_map x.2 = prop_map c
    /\ bitmark_support_req x.2 = bitmark_support_req c).
Proof.
  revert i good bad c. induction l as [|[key attr] l IH]; intros i good bad c Hl Hi; cbn.
  { apply completes_ret. cbn. split; [lia|done]. }
  cbn in Hl, Hi. apply andb_prop in Hl as [Hk Hl]. unfold plain_key in Hk. cbn in Hk.
  destruct (get_prop_from_prop_key key) as [[[name|] id]|]; [|done..].
  destruct (lookup_lt_is_Some_2 row i) as [v Hv]; [unfold result_row in *; lia|].
  unfold result_row in *. rewrite Hv.
  destruct v as [v|]; [destruct v as [|a v]|].
  1,3: eapply completes_mono; [apply IH; [done|lia]|]; intros x (? & ? & ?); split_and!; [lia|done..].
  apply completes_bind. eapply completes_mono; [apply get_ns_id_keeps|]. intros [dav c1] (Hp & Hb).
  cbn [fst snd] in *. apply completes_bind. apply completes_mono with (P := fun _ => True).
  { case_bool_decide; [|by apply completes_ret]. apply andb_prop in Hk as [H1 H2].
    unfold dav_value. apply negb_true_iff in H1, H2. rewrite H1, H2. by repeat case_match; apply completes_ret. }
  intros w _. eapply completes_mono; [apply IH; [done|lia]|]. intros x (? & Hx1 & Hx2).
  rewrite Hx1, Hx2, Hp, Hb. split_and!; [lia|done..].
Qed.

Lemma add_row_bitmarks_total j row o :
  (j < length row)%nat ->
  Completes (add_row_bitmarks apr_strtok_gt j row o) (fun o' => op_href o' = op_href o).
Proof.
  intros Hj. unfold add_row_bitmarks. destruct (op_bitmarks o); [|by apply completes_ret].
  destruct (lookup_lt_is_Some_2 row j) as [[t|] Hv]; [done|..]; unfold result_row in *; rewrite Hv; by apply completes_ret.
Qed.

Lemma close_response_href c o : sr_href (close_response c o) = op_href o.
Proof. unfold close_response. by destruct (match op_bitmarks o with Some _ => _ | None => _ end). Qed.

Lemma readable_same c c' rows :
  prop_map c' = prop_map c -> forallb (readable c) rows = true -> forallb (readable c') rows = true.
Proof. intros H. unfold readable. by rewrite H. Qed.

Lemma response_loop_total rows last c :
  forallb (fun x => plain_key x.1) (hash_items (prop_map c)) = true ->
  forallb (readable c) rows = true ->
  (forall o j, last = Some (o, j) -> j = S (length (hash_items (prop_map c)))) ->
  Completes (response_loop rows last c) (fun x =>
    map sr_href x.1 = match last with Some (o, _) => [op_href o] | None => [] end
                      ++ run_heads (op_href <$> (fst <$> last)) (omap row_href rows)).
Proof.
  revert last c. induction rows as [|row rows IH]; intros last c Hk Hr Hj; cbn.
  { apply completes_ret. destruct last as [[o j]|]; [|done]. cbn. by rewrite close_response_href. }
  cbn in Hr. apply andb_prop in Hr as [[[h Hh]%bool_decide_eq_true Hlen%bool_decide_eq_true]%andb_prop Hr].
  destruct row as [|[h'|] row]; try done. cbn in Hh. injection Hh as ->. cbn [head].
  set (same := match last with Some _ => _ | None => false end).
  set (closed := match last with Some (o, _) => [close_response c o] | None => [] end).
  assert (map sr_href closed = match last with Some (o, _) => [op_href o] | None => [] end) as Hclosed.
  { subst closed. destruct last as [[o j]|]; [|done]. cbn. by rewrite close_response_href. }
  assert (Completes (x ← search_mkresponse make_from_url href_prefix c (Some h :: row);
    let '(j, good, bad, c) := x in
    o ← add_row_bitmarks apr_strtok_gt j (Some h :: row) (OpenResponse h good bad (no_bitmarks c));
    y ← response_loop rows (Some (o, j)) c;
    mret (closed ++ y.1, y.2))
    (fun x => map sr_href x.1 = match last with Some (o, _) => [op_href o] | None => [] end
                                ++ h :: run_heads (Some h) (omap row_href rows))) as Hnew.
  { apply completes_bind. eapply completes_mono; [apply mkresponse_loop_total; [done|cbn in *; lia]|].
    intros [[[j good] bad] c1] (Hj1 & Hp & _). cbn [fst snd] in Hj1, Hp.
    apply completes_bind. eapply completes_mono; [apply add_row_bitmarks_total; cbn in *; lia|].
    intros o1 Ho1. apply completes_bind. eapply completes_mono.
    { apply IH; [by rewrite Hp|by eapply readable_same|]. intros o j' [= <- <-]. rewrite Hp. lia. }
    intros y Hy. apply completes_ret. cbn [fst]. rewrite map_app, Hy, Hclosed.
    cbn in Ho1 |- *. by rewrite Ho1. }
  destruct last as [[o j]|]; [|exact Hnew]. cbn in same. subst same. cbn [fmap option_fmap option_map fst row_href run_heads] in *.
  case_bool_decide; [|exact Hnew]. apply completes_bind.
  eapply completes_mono; [apply add_row_bitmarks_total; rewrite (Hj o j eq_refl); cbn in *; lia|].
  intros o1 Ho1. eapply completes_mono; [apply IH; [done|done|]|].
  { intros o2 j2 [= <- <-]. by apply (Hj o). }
  intros x Hx. rewrite Hx. cbn. by rewrite Ho1.
Qed.

(** When every row of the result can be read the response is built, and it has one element
    for every run of rows with one URI, in the order of the rows. *)
Theorem build_xml_response_spec rows c cache s :
  forallb (fun x => plain_key x.1) (hash_items (prop_map c)) = true ->
  forallb (readable c) rows = true ->
  exists responses c' cache' s',
    build_xml_response make_from_url href_prefix apr_strtok_gt rows c cache s
      = (Ret ((responses, c'), cache'), s')
    /\ map sr_href responses = run_heads None (omap row_href rows).
Proof.
  intros Hk Hr. destruct (response_loop_total rows None c Hk Hr ltac:(done) cache s)
    as ([l c'] & cache' & s' & E & H). eauto 8.
Qed.
End answers.
