(* ===== verification/SearchExamples.v ===== *)
(** * Witnesses for searches

    A library of documents and texts, and the theorems of [SearchSpec] and [SearchAnswers]
    at a request for the documents of a colour or a name. *)
From S2P Require Import Prelude Util Dbd Db Bind Resource DbmsDeltav Bridge Users Properties Acl Listing Request Principal Create Versions CreateSpec VersionsSpec VersionExamples Search SearchBuild SearchResponse SearchSpec.
From stdpp Require Import gmap pretty.
Local Open Scope Z_scope.
Local Open Scope limestone_scope.

(** The siblings from the first that satisfies [f]. *)
Fixpoint from_first {A} (f : A -> bool) (l : list A) : list A :=
  match l with
  | [] => []
  | x :: rest => if f x then l else from_first f rest
  end.

Definition sample_lib : SearchLib := {|
  dav_find_child e n := from_first (fun c => bool_decide (elem_ns c = 0) && String.eqb (elem_name c) n)
                          (elem_children e);
  dav_find_child_no_ns e n := from_first (fun c => String.eqb (elem_name c) n) (elem_children e);
  dav_xml_get_cdata e := default EmptyString (first_cdata e);
  apr_strnatcmp s t := if String.eqb s t then 0 else 1;
  apr_strtok_underscore := tokens "_" EmptyString;
  ap_is_url := String.prefix "http://";
  apr_uri_path := Some;
  ap_getparents s := s;
  hash_items := map_to_list;
  dav_get_resource_from_uri u := mret (Some (set_uri (Some u) (set_bind_id 1 (set_serialno 10 zero_dbr))))
|}.

Definition sample_responses : ResponseLib := {|
  DEBUG_CR := EmptyString;
  apr_xml_quote_string s := s;
  dav_get_response_href s := s;
  apr_strftime_iso8601 := pretty;
  apr_rfc822_date := pretty
|}.

#[local] Existing Instances sample_config draft_request sample_lib sample_responses.

Definition el (name : string) (ns : Z) (children : list apr_xml_elem) : apr_xml_elem :=
  XmlElem name ns [] None children.
Definition literal (text : string) : apr_xml_elem := XmlElem "literal" 0 [] (Some text) [].

(** (colour = red and not (size > 10)) or displayname is defined. *)
Definition red_and_small : apr_xml_elem :=
  el "or" 0
    [el "and" 0 [el "eq" 0 [el "prop" 0 [el "color" 1 []]; literal "red"];
                 el "not" 0 [el "gt" 0 [el "prop" 0 [el "getcontentlength" 0 []]; literal "10"]]];
     el "is-defined" 0 [el "prop" 0 [el "displayname" 0 []]]].

#[local] Notation declared := ["DAV:"%string; "<c"%string].

Lemma parse_where_refines_witness :
  exists c' cache' s' E,
    parse_where declared red_and_small new_search_ctx empty_cache draft = (Ret ((HTTP_OK, c'), cache'), s')
    /\ denotes red_and_small E
    /\ where_cond c' = Some (default " "%string (where_cond new_search_ctx) +:+ print_condition E).
Proof.
  apply (@parse_where_refines sample_lib declared red_and_small new_search_ctx empty_cache draft);
    vm_compute; congruence.
Defined.

Lemma search_literal_not_escaped_witness :
  exists c' cache' s' text,
    parse_where declared (displayname_eq "' ) OR true OR ( '") new_search_ctx empty_cache draft
      = (Ret ((HTTP_OK, c'), cache'), s')
    /\ where_cond c' = Some text
    /\ outside_literals false text = " ( displayname =  ) OR true OR (  )"%string.
Proof.
  apply (@search_literal_not_escaped sample_lib declared "OR true OR" new_search_ctx empty_cache draft);
    reflexivity.
Defined.

Lemma prop_key_roundtrip_witness :
  get_prop_from_prop_key (get_prop_key "last_seen" 12) = Some (Some "lastseen"%string, 12).
Proof. apply (@prop_key_roundtrip sample_lib "last_seen" 12); [done|lia]. Defined.

Definition found : search_ctx :=
  set_namespace_map {[7 := "<c"%string]}
    (set_prop_map {["color_7" := "color"%string]} new_search_ctx).
Definition found_rows : list result_row :=
  [[Some "/a"; Some "red"; None]; [Some "/a"; Some "red"; None]; [Some "/b"; None; None]]%string.

#[local] Notation nobody := (fun _ _ => Principal PRINCIPAL_ALL 0 "").

Lemma build_xml_response_spec_witness :
  exists responses c' cache' s',
    build_xml_response nobody EmptyString (tokens ">" EmptyString) found_rows found empty_cache draft
      = (Ret ((responses, c'), cache'), s')
    /\ map sr_href responses = ["/a"; "/b"]%string.
Proof.
  apply (@build_xml_response_spec sample_lib sample_responses sample_config nobody EmptyString
    (tokens ">" EmptyString) found_rows found empty_cache draft); vm_compute; reflexivity.
Defined.

(** A whole search: the resources of a display name below the root. *)
Definition search_document : apr_xml_elem :=
  el "searchrequest" 0 [el "basicsearch" 0
    [el "select" 0 [el "prop" 0 [el "displayname" 0 []]];
     el "from" 0 [el "scope" 0 [XmlElem "href" 0 [] (Some "/"%string) []; XmlElem "depth" 0 [] (Some "1"%string) []]];
     el "where" 0 [displayname_eq "doc"]]].

Example search_answers :
  match dav_repos_search_resource nobody EmptyString (tokens ">" EmptyString)
          (fun _ _ => [[Some "/doc"; Some "doc"; None]]%string) (Some (declared, search_document)) "/"%string ∅
          empty_cache draft with
  | (Ret ((err, l), _), _) => (err, map sr_href l)
  | _ => (Some (dav_new_error 0), [])
  end = (None, ["/doc"%string]).
Proof. vm_compute. reflexivity. Qed.

(** A question mark in a literal is taken for a parameter that is never set. *)
Example search_question_crashes :
  (dav_repos_search_resource nobody EmptyString (tokens ">" EmptyString) (fun _ _ => [])
     (Some (declared, el "searchrequest" 0 [el "basicsearch" 0
        [el "select" 0 [el "prop" 0 [el "displayname" 0 []]];
         el "from" 0 [el "scope" 0 [XmlElem "href" 0 [] (Some "/"%string) []; XmlElem "depth" 0 [] (Some "1"%string) []]];
         el "where" 0 [displayname_eq "who?"]]])) "/"%string ∅ empty_cache draft).1 = Crash.
Proof. vm_compute. reflexivity. Qed.
