(* ===== verification/LiveProps.v ===== *)
(** * Live properties ([liveprops.c], [deltav_liveprops.c], [binds_liveprops.c],
    [quota_liveprops.c], [redirect_liveprops.c], [search_liveprops.c],
    [support_liveprops.c])

    What is written for a live property, and how PROPPATCH changes those that can be
    changed: a value is validated, executed on the record of the resource, and committed
    to the tables or rolled back.  The resources are of this provider. *)
From S2P Require Import Prelude Util Numbers Dbd Mime Db Bind Resource Quota DbmsDeltav Redirect Bridge Users Properties Acl Request Create Principal Versions Copy Repos Search SearchBuild SearchResponse.
From stdpp Require Import gmap pretty.
Local Open Scope Z_scope.
Local Open Scope limestone_scope.

(** ** Data *)

Inductive dav_prop_insert :=
| DAV_PROP_INSERT_NOTDEF | DAV_PROP_INSERT_NOTSUPP | DAV_PROP_INSERT_NAME
| DAV_PROP_INSERT_VALUE | DAV_PROP_INSERT_SUPPORTED | DAV_PROP_INSERT_FORBIDDEN.

Inductive dav_prop_op := DAV_PROP_OP_SET | DAV_PROP_OP_DELETE.

Inductive propid :=
| DAV_PROPID_creationdate | DAV_PROPID_displayname | DAV_PROPID_getcontentlanguage
| DAV_PROPID_getcontentlength | DAV_PROPID_getcontenttype | DAV_PROPID_getetag
| DAV_PROPID_getlastmodified
| DAV_PROPID_checked_in | DAV_PROPID_checked_out | DAV_PROPID_version_history
| DAV_PROPID_checkout_fork | DAV_PROPID_checkin_fork | DAV_PROPID_auto_version
| DAV_PROPID_eclipsed_set | DAV_PROPID_predecessor_set | DAV_PROPID_successor_set
| DAV_PROPID_checkout_set | DAV_PROPID_version_name | DAV_PROPID_creator_displayname
| DAV_PROPID_comment | DAV_PROPID_root_version | DAV_PROPID_version_set
| DAV_PROPID_version_controlled_binding_set
| DAV_PROPID_resource_id | DAV_PROPID_parent_set
| DAV_PROPID_quota_used_bytes | DAV_PROPID_quota_available_bytes
| DAV_PROPID_redirect_lifetime | DAV_PROPID_reftarget
| DAV_PROPID_supported_query_grammar_set
| DAV_PROPID_supported_live_property_set | DAV_PROPID_supported_method_set
| DAV_PROPID_supported_report_set
| DAV_PROPID_owner | DAV_PROPID_supported_privilege_set
| DAV_PROPID_current_user_privilege_set | DAV_PROPID_acl | DAV_PROPID_acl_restrictions
| DAV_PROPID_inherited_acl_set | DAV_PROPID_principal_collection_set
| DAV_PROPID_group_member_set
| LB_PROPID_email_id | LB_PROPID_domain_map | LB_PROPID_used_bytes
| LB_PROPID_login_to_all_domains | LB_PROPID_auto_version_new_children
| LB_PROPID_limebar_state.

#[export] Instance propid_eq_dec : EqDecision propid.
Proof. solve_decision. Defined.
#[export] Instance dav_prop_op_eq_dec : EqDecision dav_prop_op.
Proof. solve_decision. Defined.

(** An entry of a table of properties: the index of its namespace in the provider. *)
Record dav_liveprop_spec := LivePropSpec {
  lps_ns : Z;
  lps_name : string;
  lps_propid : propid;
  is_writable : bool
}.

Definition dav_prop (name : string) (id : propid) (w : bool) : dav_liveprop_spec :=
  LivePropSpec 0 name id w.

Fixpoint get_livepropspec_from_id (lps : list dav_liveprop_spec) (id : propid)
  : option dav_liveprop_spec :=
  match lps with
  | [] => None
  | l :: rest => if bool_decide (lps_propid l = id) then Some l
                 else get_livepropspec_from_id rest id
  end.

Fixpoint list_all_liveprops (lps : list dav_liveprop_spec) : string :=
  match lps with
  | [] => EmptyString
  | l :: rest => "<D:" +:+ lps_name l +:+ "/>" +:+ list_all_liveprops rest
  end.

Definition dav_repos_props : list dav_liveprop_spec :=
  [dav_prop "creationdate" DAV_PROPID_creationdate false;
   dav_prop "displayname" DAV_PROPID_displayname true;
   dav_prop "getcontentlanguage" DAV_PROPID_getcontentlanguage true;
   dav_prop "getcontentlength" DAV_PROPID_getcontentlength false;
   dav_prop "getcontenttype" DAV_PROPID_getcontenttype true;
   dav_prop "getetag" DAV_PROPID_getetag false;
   dav_prop "getlastmodified" DAV_PROPID_getlastmodified false].

Definition dav_deltav_props : list dav_liveprop_spec :=
  [dav_prop "checked-in" DAV_PROPID_checked_in false;
   dav_prop "checked-out" DAV_PROPID_checked_out false;
   dav_prop "version-history" DAV_PROPID_version_history false;
   dav_prop "checkout-fork" DAV_PROPID_checkout_fork false;
   dav_prop "checkin-fork" DAV_PROPID_checkin_fork false;
   dav_prop "auto-version" DAV_PROPID_auto_version true;
   dav_prop "eclipsed-set" DAV_PROPID_eclipsed_set false;
   dav_prop "predecessor-set" DAV_PROPID_predecessor_set false;
   dav_prop "successor-set" DAV_PROPID_successor_set false;
   dav_prop "checkout-set" DAV_PROPID_checkout_set false;
   dav_prop "version-name" DAV_PROPID_version_name false;
   dav_prop "creator-displayname" DAV_PROPID_creator_displayname false;
   dav_prop "comment" DAV_PROPID_comment false;
   dav_prop "root-version" DAV_PROPID_root_version false;
   dav_prop "version-set" DAV_PROPID_version_set false;
   dav_prop "version-controlled-binding-set" DAV_PROPID_version_controlled_binding_set false].

Definition dav_binds_props : list dav_liveprop_spec :=
  [dav_prop "resource-id" DAV_PROPID_resource_id false;
   dav_prop "parent-set" DAV_PROPID_parent_set false].

Definition dav_quota_props : list dav_liveprop_spec :=
  [dav_prop "quota-used-bytes" DAV_PROPID_quota_used_bytes false;
   dav_prop "quota-available-bytes" DAV_PROPID_quota_available_bytes false].

Definition dav_redirect_props : list dav_liveprop_spec :=
  [dav_prop "redirect-lifetime" DAV_PROPID_redirect_lifetime false;
   dav_prop "reftarget" DAV_PROPID_reftarget false].

Definition dav_search_props : list dav_liveprop_spec :=
  [dav_prop "supported-query-grammar-set" DAV_PROPID_supported_query_grammar_set false].

Definition dav_supported_props : list dav_liveprop_spec :=
  [dav_prop "supported-live-property-set" DAV_PROPID_supported_live_property_set false;
   dav_prop "supported-method-set" DAV_PROPID_supported_method_set false;
   dav_prop "supported-report-set" DAV_PROPID_supported_report_set false].

(** What PROPPATCH keeps to take an execution back: the property, the operation and the
    old value. *)
Inductive rollback_value :=
| NoValue
| TextValue (s : string)
| MapValue (m : option (list (string * string))).
Record dav_liveprop_rollback := Rollback {
  rb_propid : propid;
  rb_operation : dav_prop_op;
  rollback_data : rollback_value
}.

Section output.
Context {rlib : ResponseLib} {cfg : ServerConfig} {req : Request}.

(** The items of a hash in the order its iterator takes, the inner text of an element, and
    what the DAV module writes for the supported options. *)
Variable items : gmap string string -> list (string * string).
Variable xml_inner_text : apr_xml_elem -> string.
Variable dav_gen_supported_options : propid -> string.
Variable apr_strtok_hyphen : string -> list string.

(** ** Common texts *)

Definition closed_tag (name value : string) : string :=
  "<D:" +:+ name +:+ ">" +:+ value +:+ "</D:" +:+ name +:+ ">".
Definition empty_tag (name : string) : string := "<D:" +:+ name +:+ "/>".

(** [<D:supported-live-property>], with the line ends some providers write. *)
Definition supported_tag (cr text : string) : string :=
  "<D:supported-live-property><D:prop>" +:+ cr +:+ text +:+ cr
  +:+ "</D:prop></D:supported-live-property>" +:+ cr.

(** ** Core properties *)

Definition DAV_REPOS_NODATA : Z := -1.

(** [dav_repos_format_strtime], on a time of the tables. *)
Definition strtime (iso8601 : bool) (t : Z) : string :=
  if iso8601 then apr_strftime_iso8601 t else apr_rfc822_date t.

Definition is_coll_type (t : option dav_repos_type) : bool :=
  bool_decide (t = Some dav_repos_COLLECTION) || bool_decide (t = Some dav_repos_VERSIONED_COLLECTION).

(** A time that was not read is 0. *)
Definition dav_repos_build_lpr_hash (db_r : dav_repos_resource) : gmap string string :=
  let h := (if bool_decide (dbr_created_at db_r = 0) then ∅
            else {["creationdate" := strtime true (dbr_created_at db_r)]}) in
  let h := if bool_decide (dbr_updated_at db_r = 0) then h
           else <["getlastmodified" := strtime false (dbr_updated_at db_r)]> h in
  let h := match displayname db_r with Some n => <["displayname" := n]> h | None => h end in
  if is_coll_type (resourcetype db_r) then h
  else
    let h := if bool_decide (getcontentlength db_r = DAV_REPOS_NODATA) then h
             else <["getcontentlength" := pretty (getcontentlength db_r)]> h in
    let h := apr_hash_set "getetag" (sabridge_getetag_dbr db_r) h in
    let h := match getcontenttype db_r with Some t => <["getcontenttype" := t]> h | None => h end in
    match getcontentlanguage db_r with Some l => <["getcontentlanguage" := l]> h | None => h end.

(** [lpr_hash] is built at the first use; the answer, the text and the hash. *)
Definition dav_repos_insert_prop (db_r : dav_repos_resource) (lpr_hash : option (gmap string string))
    (id : propid) (what : dav_prop_insert)
  : outcome (dav_prop_insert * string * option (gmap string string)) :=
  if bool_decide (serialno db_r = 0) then Ret (DAV_PROP_INSERT_NOTDEF, EmptyString, lpr_hash)
  else
    match get_livepropspec_from_id dav_repos_props id with
    | None => Crash
    | Some spec =>
        let name := lps_name spec in
        let h := default (dav_repos_build_lpr_hash db_r) lpr_hash in
        match h !! name with
        | None => Ret (DAV_PROP_INSERT_NOTDEF, EmptyString, Some h)
        | Some value =>
            Ret (what, match what with
                       | DAV_PROP_INSERT_VALUE => closed_tag name (apr_xml_quote_string value)
                       | DAV_PROP_INSERT_NAME => empty_tag name +:+ DEBUG_CR
                       | _ => supported_tag EmptyString (empty_tag name)
                       end, Some h)
        end
    end.

Definition dav_repos_is_writable (id : propid) : bool :=
  match get_livepropspec_from_id dav_repos_props id with
  | Some spec => is_writable spec
  | None => false
  end.

(** [isalpha] of the C locale. *)
Definition isalpha (c : ascii) : bool :=
  let n := N_of_ascii c in
  (N.leb 65 n && N.leb n 90) || (N.leb 97 n && N.leb n 122).

(** The loop over the characters of a tag, from the [i]th. *)
Fixpoint good_subtag (i : nat) (tag : string) : bool :=
  match tag with
  | EmptyString => true
  | String c rest => negb (bool_decide (8 < i)%nat || negb (isalpha c)) && good_subtag (S i) rest
  end.

(** 0 for a valid tag, -1 otherwise. *)
Definition validate_language_tag (lang_tag : string) : Z :=
  match apr_strtok_hyphen lang_tag with
  | [] => -1
  | tags => if forallb (good_subtag 0) tags then 0 else -1
  end.

Definition DAV_DISPLAYNAME_LIMIT : nat := 256.

(** The context is the entry of the property. *)
Definition dav_repos_patch_validate (elem : apr_xml_elem) (id : propid) (operation : dav_prop_op)
  : outcome (option dav_error * option dav_liveprop_spec) :=
  let conflict := Some (dav_new_error HTTP_CONFLICT) in
  match operation with
  | DAV_PROP_OP_DELETE => Ret (conflict, None)
  | DAV_PROP_OP_SET =>
      let context := get_livepropspec_from_id dav_repos_props id in
      match id with
      | DAV_PROPID_displayname =>
          Ret (match first_cdata elem with
               | Some t => if bool_decide (DAV_DISPLAYNAME_LIMIT < String.length t)%nat
                           then conflict else None
               | None => None
               end, context)
      | DAV_PROPID_getcontentlanguage =>
          match first_cdata elem with
          | None => Crash
          | Some t => Ret (if bool_decide (validate_language_tag t = 0) then None else conflict, context)
          end
      | DAV_PROPID_getcontenttype =>
          let data := (strip_whitespace (xml_inner_text elem)).1 in
          Ret (if bool_decide (is_content_type_good (Some data) = 0) then conflict else None, context)
      | _ => Ret (Some (dav_new_error HTTP_FORBIDDEN), context)
      end
  end.

Definition dav_repos_patch_exec (db_r : dav_repos_resource) (elem : apr_xml_elem)
    (context : dav_liveprop_spec) : option dav_error * dav_repos_resource :=
  let data := xml_inner_text elem in
  (None, match lps_propid context with
         | DAV_PROPID_displayname => set_displayname (Some data) db_r
         | DAV_PROPID_getcontentlanguage => set_getcontentlanguage (Some data) db_r
         | DAV_PROPID_getcontenttype => set_getcontenttype (Some (strip_whitespace data).1) db_r
         | _ => db_r
         end).

(** The errors are dropped. *)
Definition dav_repos_patch_commit (db_r : dav_repos_resource) (context : dav_liveprop_spec)
  : M dav_repos_resource :=
  match lps_propid context with
  | DAV_PROPID_displayname | DAV_PROPID_getcontentlanguage =>
      _ ← dbms_set_property db_r; mret db_r
  | DAV_PROPID_getcontenttype => x ← dbms_update_media_props db_r; mret x.2
  | _ => mret db_r
  end.

Definition dav_repos_patch_rollback : option dav_error := None.

(** What PROPFIND writes for all of them. *)
Definition all_props_text (what : dav_prop_insert) (h : gmap string string) : string :=
  fold_left (fun s x => s +:+ match what with
    | DAV_PROP_INSERT_VALUE => closed_tag x.1 (apr_xml_quote_string x.2) +:+ DEBUG_CR
    | DAV_PROP_INSERT_NAME | DAV_PROP_INSERT_SUPPORTED => empty_tag x.1
    | _ => EmptyString
    end) (items h) EmptyString.

Definition dav_repos_insert_all_liveprops (res : dav_resource) (lpr_hash : option (gmap string string))
    (what : dav_prop_insert) : string * option (gmap string string) :=
  if negb (exists_ res) then ("<D:resourcetype/>"%string, lpr_hash)
  else
    let h := default (dav_repos_build_lpr_hash (res_dbr res)) lpr_hash in
    let text := all_props_text what h in
    (match what with
     | DAV_PROP_INSERT_SUPPORTED => supported_tag EmptyString text
     | _ => text
     end, Some h).

(** ** Version properties *)

(** The hash that was built before, or the one built now. *)
Definition vpr_hash_of (db_r : dav_repos_resource) (vpr_hash : option (gmap string string))
  : R (option (gmap string string)) :=
  match vpr_hash with
  | Some h => mret (Some h)
  | None => sabridge_build_vpr_hash apr_xml_quote_string apr_rfc822_date db_r
  end.

Definition dav_deltav_insert_prop (res : dav_resource) (vpr_hash : option (gmap string string))
    (id : propid) (what : dav_prop_insert)
  : R (dav_prop_insert * string * option (gmap string string)) :=
  if negb (exists_ res) then mret (DAV_PROP_INSERT_NOTDEF, EmptyString, vpr_hash)
  else
    match get_livepropspec_from_id dav_deltav_props id with
    | None => crash
    | Some spec =>
        let name := lps_name spec in
        h ← vpr_hash_of (res_dbr res) vpr_hash;
        mret (match h ≫= (fun h => h !! name) with
              | None => (DAV_PROP_INSERT_NOTSUPP, EmptyString, h)
              | Some value =>
                  (what, match what with
                         | DAV_PROP_INSERT_VALUE => closed_tag name value +:+ DEBUG_CR
                         | DAV_PROP_INSERT_NAME => empty_tag name +:+ DEBUG_CR
                         | _ => supported_tag DEBUG_CR (empty_tag name)
                         end, h)
              end)
    end.

(** A property that is not in the table can be written. *)
Definition dav_deltav_is_writable (id : propid) : bool :=
  match get_livepropspec_from_id dav_deltav_props id with
  | Some spec => is_writable spec
  | None => true
  end.

(** The name of the first child, [EmptyString] without one. *)
Definition av_value (elem : apr_xml_elem) : string :=
  match elem_children elem with e :: _ => elem_name e | [] => EmptyString end.

Definition unsupported_av (v : string) : bool :=
  String.eqb v "checkout-unlocked-checkin" || String.eqb v "checkout" || String.eqb v "locked-checkout".

Definition dav_deltav_patch_validate (res : dav_resource) (elem : apr_xml_elem) (id : propid)
    (operation : dav_prop_op) : option dav_error * option dav_liveprop_spec :=
  let context := get_livepropspec_from_id dav_deltav_props id in
  (if bool_decide (id = DAV_PROPID_auto_version) then
     if versioned res && bool_decide (operation = DAV_PROP_OP_SET) then
       if String.eqb (av_value elem) "checkout-checkin" then None
       else if unsupported_av (av_value elem) then Some (dav_new_error HTTP_FORBIDDEN)
       else Some (dav_new_error HTTP_BAD_REQUEST)
     else Some (dav_new_error HTTP_FORBIDDEN)
   else None, context).

Definition av_type_of (v : string) (old : Z) : Z :=
  if String.eqb v "checkout-checkin" then DAV_AV_CHECKOUT_CHECKIN
  else if String.eqb v "checkout-unlocked-checkin" then DAV_AV_CHECKOUT_UNLOCKED_CHECKIN
  else if String.eqb v "checkout" then DAV_AV_CHECKOUT
  else if String.eqb v "locked-checkout" then DAV_AV_LOCKED_CHECKOUT
  else old.

(** The context of a rollback is left as it was for another property or operation. *)
Definition dav_deltav_patch_exec (res : dav_resource) (elem : apr_xml_elem) (operation : dav_prop_op)
    (context : dav_liveprop_spec) : outcome (dav_resource * option dav_liveprop_rollback) :=
  if bool_decide (lps_propid context = DAV_PROPID_auto_version)
     && versioned res && bool_decide (operation = DAV_PROP_OP_SET)
  then
    match elem_children elem with
    | [] => Crash
    | e :: _ =>
        let r := res_dbr res in
        Ret (set_dbr (set_autoversion_type (av_type_of (elem_name e) (autoversion_type r)) r) res,
             Some (Rollback (lps_propid context) operation (TextValue (pretty (autoversion_type r)))))
    end
  else Ret (res, None).

(** [sscanf(data, "%d", ...)]. *)
Definition scan_number (data : rollback_value) : Z :=
  match data with TextValue s => atoi s | _ => 0 end.

Definition dav_deltav_patch_commit (res : dav_resource) (ctx : option dav_liveprop_rollback)
  : R dav_resource :=
  match ctx with
  | None => crash
  | Some ctx =>
      if bool_decide (rb_propid ctx = DAV_PROPID_auto_version) && versioned res
         && bool_decide (rb_operation ctx = DAV_PROP_OP_SET)
         && negb (bool_decide (autoversion_type (res_dbr res) = scan_number (rollback_data ctx)))
      then x ← run (dbms_set_autoversion_type (res_dbr res) (autoversion_type (res_dbr res)));
           mret (set_dbr x.2 res)
      else mret res
  end.

Definition dav_deltav_patch_rollback (res : dav_resource) (ctx : option dav_liveprop_rollback)
  : outcome dav_resource :=
  match ctx with
  | None => Crash
  | Some ctx =>
      Ret (if bool_decide (rb_propid ctx = DAV_PROPID_auto_version) && versioned res
              && bool_decide (rb_operation ctx = DAV_PROP_OP_SET)
           then set_dbr (set_autoversion_type (scan_number (rollback_data ctx)) (res_dbr res)) res
           else res)
  end.

(** The hook of a name in a namespace; [None] is 0. *)
Definition dav_deltav_find_liveprop (ns_uri name : string) : option propid :=
  if String.eqb ns_uri "DAV:"
  then lps_propid <$> List.find (fun l => String.eqb (lps_name l) name) dav_deltav_props
  else None.

Definition dav_deltav_insert_all_liveprops (res : dav_resource) (what : dav_prop_insert) : R string :=
  match what with
  | DAV_PROP_INSERT_VALUE => mret EmptyString
  | _ =>
      if negb (exists_ res) then mret EmptyString
      else
        h ← sabridge_build_vpr_hash apr_xml_quote_string apr_rfc822_date (res_dbr res);
        mret (match h with
              | None => EmptyString
              | Some h =>
                  let text := fold_left (fun s x => s +:+ empty_tag x.1 +:+ DEBUG_CR) (items h) EmptyString in
                  match what with
                  | DAV_PROP_INSERT_SUPPORTED =>
                      "<D:supported-live-property>" +:+ DEBUG_CR +:+ "<D:prop>" +:+ DEBUG_CR +:+ text
                      +:+ "</D:prop>" +:+ DEBUG_CR +:+ "</D:supported-live-property>" +:+ DEBUG_CR
                  | _ => text
                  end
              end)
  end.

(** ** Properties that cannot be written *)

(** What the providers without a hash write: nothing for the name alone. *)
Definition plain_text (name : string) (what : dav_prop_insert) (value : string) : string :=
  match what with
  | DAV_PROP_INSERT_VALUE => closed_tag name value
  | DAV_PROP_INSERT_SUPPORTED => supported_tag DEBUG_CR (empty_tag name)
  | _ => EmptyString
  end.

Definition all_names (what : dav_prop_insert) (names : string) : string :=
  match what with
  | DAV_PROP_INSERT_NAME => names
  | DAV_PROP_INSERT_SUPPORTED =>
      "<D:supported-live-property><D:prop>" +:+ DEBUG_CR +:+ names +:+ DEBUG_CR
      +:+ "</D:prop></D:supported-live-property>"
  | _ => EmptyString
  end.

Definition dav_binds_insert_prop (db_r : dav_repos_resource) (id : propid) (what : dav_prop_insert)
  : outcome (dav_prop_insert * string) :=
  match resourcetype db_r with
  | None => Ret (DAV_PROP_INSERT_NOTDEF, EmptyString)
  | Some _ =>
      match get_livepropspec_from_id dav_binds_props id, what, id with
      | None, _, _ => Crash
      | Some spec, DAV_PROP_INSERT_VALUE, DAV_PROPID_resource_id =>
          match add_hyphens_to_uuid (uuid db_r) with
          | None => Crash
          | Some u => Ret (what, plain_text (lps_name spec) what ("<D:href>urn:uuid:" +:+ u +:+ "</D:href>"))
          end
      | Some spec, _, _ => Ret (what, plain_text (lps_name spec) what EmptyString)
      end
  end.

Definition regular (res : dav_resource) : bool :=
  exists_ res && bool_decide (res_type res = DAV_RESOURCE_TYPE_REGULAR).

Definition dav_binds_insert_all_liveprops (res : dav_resource) (what : dav_prop_insert) : string :=
  if regular res then all_names what ("<D:resource-id/>" +:+ DEBUG_CR +:+ "<D:parent-set/>")
  else EmptyString.

(** The error of a quota that is not there is dropped. *)
Definition dav_quota_insert_prop (res : dav_resource) (id : propid) (what : dav_prop_insert)
  : R (dav_prop_insert * string) :=
  match get_livepropspec_from_id dav_quota_props id with
  | None => mret (DAV_PROP_INSERT_NOTDEF, EmptyString)
  | Some spec =>
      if negb (regular res) then mret (DAV_PROP_INSERT_NOTDEF, EmptyString)
      else
        match what with
        | DAV_PROP_INSERT_VALUE =>
            nbytes ← (if bool_decide (id = DAV_PROPID_quota_available_bytes)
                      then x ← run (dbms_get_available_bytes (owner_id (res_dbr res))); mret x.2
                      else sabridge_get_used_bytes (res_dbr res) true);
            mret (what, closed_tag (lps_name spec) (pretty (nbytes : Z)))
        | _ => mret (what, plain_text (lps_name spec) what EmptyString)
        end
  end.

Definition dav_quota_insert_all_liveprops (res : dav_resource) (what : dav_prop_insert) : string :=
  if regular res
  then all_names what ("<D:quota-available-bytes/>" +:+ DEBUG_CR +:+ "<D:quota-used-bytes/>")
  else EmptyString.

Definition redirectref (res : dav_resource) : bool :=
  exists_ res && bool_decide (res_type res = DAV_RESOURCE_TYPE_REDIRECTREF).

(** The error of the query is dropped; a target that was not read is NULL. *)
Definition dav_redirect_insert_prop (res : dav_resource) (id : propid) (what : dav_prop_insert)
  : R (dav_prop_insert * string) :=
  match get_livepropspec_from_id dav_redirect_props id with
  | None => mret (DAV_PROP_INSERT_NOTDEF, EmptyString)
  | Some spec =>
      if negb (redirectref res) then mret (DAV_PROP_INSERT_NOTDEF, EmptyString)
      else
        match what with
        | DAV_PROP_INSERT_VALUE =>
            x ← run (dbms_get_redirect_props (res_dbr res));
            if bool_decide (id = DAV_PROPID_redirect_lifetime) then
              mret (what, closed_tag (lps_name spec)
                (if bool_decide (redirect_lifetime x.2 = Some "p"%string) then "<D:permanent/>"
                 else "<D:temporary/>"))
            else
              match reftarget x.2 with
              | None => crash
              | Some t => mret (what, closed_tag (lps_name spec)
                                  ("<D:href>" +:+ apr_xml_quote_string t +:+ "</D:href>"))
              end
        | _ => mret (what, plain_text (lps_name spec) what EmptyString)
        end
  end.

Definition dav_redirect_insert_all_liveprops (res : dav_resource) (what : dav_prop_insert) : string :=
  if redirectref res
  then all_names what ("<D:redirect-lifetime/>" +:+ DEBUG_CR +:+ "<D:reftarget/>")
  else EmptyString.

Definition dav_search_insert_prop (id : propid) (what : dav_prop_insert)
  : outcome (dav_prop_insert * string) :=
  match get_livepropspec_from_id dav_search_props id with
  | None => Crash
  | Some spec =>
      Ret (what, plain_text (lps_name spec) what
        ("<D:supported-query-grammar>" +:+ DEBUG_CR +:+ "  <D:grammar><D:basicsearch/></D:grammar>"
         +:+ DEBUG_CR +:+ "</D:supported-query-grammar>" +:+ DEBUG_CR))
  end.

Definition dav_search_insert_all_liveprops (res : dav_resource) (what : dav_prop_insert) : string :=
  if regular res then all_names what ("<D:supported-query-grammar-set/>" +:+ DEBUG_CR)
  else EmptyString.

Definition dav_supported_insert_prop (id : propid) (what : dav_prop_insert)
  : outcome (dav_prop_insert * string) :=
  match get_livepropspec_from_id dav_supported_props id with
  | None => Crash
  | Some spec =>
      Ret (what, match what with
                 | DAV_PROP_INSERT_VALUE => dav_gen_supported_options id
                 | _ => plain_text (lps_name spec) what EmptyString
                 end)
  end.

Definition dav_supported_insert_all_liveprops (res : dav_resource) (what : dav_prop_insert) : string :=
  if regular res
  then all_names what ("<D:supported-live-property-set/>" +:+ DEBUG_CR
         +:+ "<D:supported-method-set/>" +:+ DEBUG_CR +:+ "<D:supported-report-set/>" +:+ DEBUG_CR)
  else EmptyString.

(** [dav_binds_is_writable] and those of the other providers of this part. *)
Definition never_writable (id : propid) : bool := false.
End output.
