(* ===== verification/LimebitsProps.v ===== *)
(** * Properties of LimeBits ([limebits_liveprops.c])

    The e-mail address, the domains and the login of a user, the bytes used, and how the
    children of a collection are put under version control. *)
From S2P Require Import Prelude Util Dbd Mime Db Bind Resource Quota DbmsDeltav Redirect Bridge Users Properties Acl Request Create Principal Versions Copy Repos Search SearchBuild SearchResponse LiveProps.
From stdpp Require Import gmap pretty.
Local Open Scope Z_scope.
Local Open Scope limestone_scope.

Definition lb_prop (name : string) (id : propid) (w : bool) : dav_liveprop_spec :=
  LivePropSpec 1 name id w.

Definition dav_limebits_props : list dav_liveprop_spec :=
  [lb_prop "email" LB_PROPID_email_id false;
   lb_prop "domain-map" LB_PROPID_domain_map true;
   lb_prop "used-bytes" LB_PROPID_used_bytes false;
   lb_prop "login-to-all-domains" LB_PROPID_login_to_all_domains true;
   lb_prop "auto-version-new-children" LB_PROPID_auto_version_new_children true;
   lb_prop "limebar-state" LB_PROPID_limebar_state true].

Definition dav_limebits_namespace_uris : list string := ["DAV:"%string; LIMEBITS_NS].

Section limebits.
Context {rlib : ResponseLib} {cfg : ServerConfig} {req : Request}.

(** As in [Principal], [Users] and [LiveProps]; the principals a principal may also act
    as, the cache of the access check in the record, the status of a refusal, and the name
    of the file with the configuration of the server. *)
Variable make_from_url : string -> db -> dav_principal.
Variable href_prefix : string.
Variable email_valid : string -> bool.
Variable dbms_error : conn -> string.
Variable items : gmap string string -> list (string * string).
Variable xml_inner_text : apr_xml_elem -> string.
Variable dav_xml_get_cdata : apr_xml_elem -> string.
Variable principal_next : dav_principal -> list dav_principal.
Variable denied_status : Z.
Variable defn_name : string.

(** The error of the lookup of the namespace is dropped. *)
Definition is_allow_read_private_properties (db_r : dav_repos_resource)
    (ace_cache : option ace_cache_t) : R Z :=
  principal ← dav_repos_get_prin_by_name make_from_url href_prefix rec_user;
  n ← (fun cache => x ← sabridge_get_namespace_id cache LIMEBITS_NS; oret (x.1, x.2));
  let priv_ns_id := match n with inr id => id | inl _ => 0 end in
  a ← run (dbms_is_allow priv_ns_id "read-private-properties" principal (principal_next principal)
             db_r ace_cache);
  mret a.1.

Definition domain_map_to_xml (domain_map : option (list (string * string))) : option string :=
  match domain_map with
  | None => None
  | Some l =>
      fold_left (fun xmlstr x => Some (default " "%string xmlstr
        +:+ "<lb:domain-map-entry>" +:+ "<lb:domain>" +:+ x.1 +:+ "</lb:domain>"
        +:+ "<lb:path>" +:+ x.2 +:+ "</lb:path>" +:+ "</lb:domain-map-entry>")) l None
  end.

Definition new_children_text (av : Z) : option string :=
  if bool_decide (av = DAV_AV_CHECKOUT_CHECKIN) then Some "<D:checkout-checkin/>"%string
  else if bool_decide (av = DAV_AV_CHECKOUT_UNLOCKED_CHECKIN)
  then Some "<D:checkout-unlocked-checkin/>"%string
  else if bool_decide (av = DAV_AV_CHECKOUT) then Some "<D:checkout/>"%string
  else if bool_decide (av = DAV_AV_LOCKED_CHECKOUT) then Some "<D:locked-checkout/>"%string
  else if bool_decide (av = DAV_AV_VERSION_CONTROL) then Some "<lb:version-control/>"%string
  else None.

(** The value of a property and the record; [inl] for a refusal. *)
Definition limebits_value (db_r : dav_repos_resource) (ace_cache : option ace_cache_t) (id : propid)
  : R ((unit + option string) * dav_repos_resource) :=
  match id with
  | LB_PROPID_email_id =>
      a ← is_allow_read_private_properties db_r ace_cache;
      if bool_decide (a = 0) then mret (inl tt, db_r)
      else e ← run (dbms_get_user_email (serialno db_r)); mret (inr e, db_r)
  | LB_PROPID_domain_map =>
      m ← run (dbms_get_domain_map (serialno db_r));
      mret (inr (domain_map_to_xml m), db_r)
  | LB_PROPID_used_bytes =>
      n ← sabridge_get_used_bytes db_r false;
      mret (inr (Some (pretty (n : Z))), db_r)
  | LB_PROPID_login_to_all_domains =>
      a ← is_allow_read_private_properties db_r ace_cache;
      if bool_decide (a = 0) then mret (inl tt, db_r)
      else
        l ← run (dbms_get_user_login_to_all_domains (serialno db_r));
        mret (inr (Some (if l : bool then "true" else "false")%string), db_r)
  | LB_PROPID_auto_version_new_children =>
      x ← (if bool_decide (av_new_children db_r = 0) then run (dbms_get_collection_props db_r)
           else mret (None, db_r));
      mret (inr (new_children_text (av_new_children x.2)), x.2)
  | LB_PROPID_limebar_state => mret (inr (Some (default EmptyString (limebar_state db_r))), db_r)
  | _ => mret (inr (Some EmptyString), db_r)
  end.

Definition lb_tag (name namespace value : string) : string :=
  "<lb:" +:+ name +:+ " xmlns:lb='" +:+ namespace +:+ "'>" +:+ value +:+ "</lb:" +:+ name +:+ ">".

Definition dav_limebits_insert_prop (db_r : dav_repos_resource) (ace_cache : option ace_cache_t)
    (id : propid) (what : dav_prop_insert) : R (dav_prop_insert * string * dav_repos_resource) :=
  match get_livepropspec_from_id dav_limebits_props id with
  | None => crash
  | Some spec =>
      let name := lps_name spec in
      let namespace := nth (Z.to_nat (lps_ns spec)) dav_limebits_namespace_uris EmptyString in
      match what with
      | DAV_PROP_INSERT_VALUE =>
          v ← limebits_value db_r ace_cache id;
          mret (match v.1 with
                | inl _ => (DAV_PROP_INSERT_FORBIDDEN, EmptyString, v.2)
                | inr None => (DAV_PROP_INSERT_NOTSUPP, EmptyString, v.2)
                | inr (Some s) => (what, lb_tag name namespace s, v.2)
                end)
      | DAV_PROP_INSERT_SUPPORTED =>
          mret (what, supported_tag DEBUG_CR ("<lb:" +:+ name +:+ " xmlns:lb='" +:+ namespace +:+ "'/>"), db_r)
      | _ => mret (what, EmptyString, db_r)
      end
  end.

Definition dav_limebits_is_writable (id : propid) : bool := true.

(** ** PROPPATCH *)

Definition dav_limebits_patch_validate (res : dav_resource) (ace_cache : option ace_cache_t)
    (elem : apr_xml_elem) (id : propid) (operation : dav_prop_op)
  : R (option dav_error * option dav_liveprop_spec) :=
  let context := get_livepropspec_from_id dav_limebits_props id in
  let r := res_dbr res in
  let delete := bool_decide (operation = DAV_PROP_OP_DELETE) in
  let user := bool_decide (resourcetype r = Some dav_repos_USER) in
  err ← match id with
        | LB_PROPID_domain_map =>
            mret (if delete && user then Some (dav_new_error HTTP_FORBIDDEN) else None)
        | LB_PROPID_login_to_all_domains =>
            if delete && user then mret (Some (dav_new_error HTTP_FORBIDDEN))
            else
              a ← is_allow_read_private_properties r ace_cache;
              mret (if bool_decide (a = 0) then Some (dav_new_error denied_status) else None)
        | LB_PROPID_auto_version_new_children =>
            mret (if negb (collection res) || delete then None
                  else if String.eqb (av_value elem) "checkout-checkin"
                          || String.eqb (av_value elem) "version-control" then None
                  else if unsupported_av (av_value elem) then Some (dav_new_error HTTP_FORBIDDEN)
                  else Some (dav_new_error HTTP_BAD_REQUEST))
        | LB_PROPID_limebar_state =>
            mret (if delete then Some (dav_new_error HTTP_FORBIDDEN) else None)
        | _ => mret None
        end;
  mret (err, context).

Definition lb_find_child (elem : apr_xml_elem) (tagname : string) : option apr_xml_elem :=
  List.find (fun c => String.eqb (elem_name c) tagname) (elem_children elem).

(** An entry without a domain, or without a path after a good domain, is a NULL element
    that is read. *)
Fixpoint domain_map_loop (l : list apr_xml_elem) (filter : string) (h : option (gmap string string))
  : outcome (option (gmap string string)) :=
  match l with
  | [] => Ret h
  | e :: rest =>
      match dav_xml_get_cdata <$> lb_find_child e "domain" with
      | None => Crash
      | Some domain =>
          if strstr domain filter then domain_map_loop rest filter h
          else
            match dav_xml_get_cdata <$> lb_find_child e "path" with
            | None => Crash
            | Some path =>
                if strstr path "!lime" || strstr path ".." then domain_map_loop rest filter h
                else domain_map_loop rest filter (Some (<[domain := path]> (default ∅ h)))
            end
      end
  end.

Definition domain_map_elem_to_hash (elem : apr_xml_elem) (filter : string)
  : outcome (option (gmap string string)) :=
  domain_map_loop (elem_children elem) filter None.

Definition new_children_type (v : string) (old : Z) : Z :=
  if String.eqb v "checkout-checkin" then DAV_AV_CHECKOUT_CHECKIN
  else if String.eqb v "checkout-unlocked-checkin" then DAV_AV_CHECKOUT_UNLOCKED_CHECKIN
  else if String.eqb v "checkout" then DAV_AV_CHECKOUT
  else if String.eqb v "locked-checkout" then DAV_AV_LOCKED_CHECKOUT
  else if String.eqb v "version-control" then DAV_AV_VERSION_CONTROL
  else old.

(** The value to be restored of the new children is taken from [autoversion_type]. *)
Definition dav_limebits_patch_exec (db_r : dav_repos_resource) (elem : apr_xml_elem)
    (operation : dav_prop_op) (context : dav_liveprop_spec)
  : R (option dav_error * dav_repos_resource * dav_liveprop_rollback) :=
  let id := serialno db_r in
  let ctx := Rollback (lps_propid context) operation in
  let set := bool_decide (operation = DAV_PROP_OP_SET) in
  match lps_propid context with
  | LB_PROPID_domain_map =>
      old ← run (dbms_get_domain_map id);
      if set then
        match domain_map_elem_to_hash elem defn_name with
        | Crash => crash
        | Ret h => err ← run (dbms_set_domain_map id (items <$> h));
                   mret (err, db_r, ctx (MapValue old))
        end
      else mret (None, db_r, ctx (MapValue old))
  | LB_PROPID_login_to_all_domains =>
      cur_val ← run (dbms_get_user_login_to_all_domains id);
      let new_val := String.eqb (xml_inner_text elem) "true" in
      if set && negb (Bool.eqb new_val cur_val) then
        err ← run_out (dbms_set_user_login_to_all_domains id new_val);
        mret (err, db_r, ctx (TextValue (if cur_val : bool then "t" else "f")%string))
      else mret (None, db_r, ctx NoValue)
  | LB_PROPID_auto_version_new_children =>
      mret (None, set_av_new_children
                    (if set then new_children_type (av_value elem) (av_new_children db_r)
                     else DAV_AV_NONE) db_r,
            ctx (TextValue (pretty (autoversion_type db_r))))
  | LB_PROPID_limebar_state =>
      if set then
        let r := set_limebar_state (Some (xml_inner_text elem)) db_r in
        err ← run (dbms_set_limebar_state r);
        mret (err, r, ctx NoValue)
      else mret (None, db_r, ctx NoValue)
  | _ => mret (None, db_r, ctx NoValue)
  end.

Definition dav_limebits_patch_commit (res : dav_resource) (ctx : dav_liveprop_rollback) : R unit :=
  let r := res_dbr res in
  if bool_decide (rb_propid ctx = LB_PROPID_auto_version_new_children)
     && collection res && bool_decide (rb_operation ctx = DAV_PROP_OP_SET)
     && negb (bool_decide (av_new_children r = scan_number (rollback_data ctx)))
  then _ ← run (dbms_set_collection_new_children_av_type r); mret tt
  else mret tt.

(** [sabridge_set_user_email] with NULL: no row has the address NULL, and the column is
    NOT NULL. *)
Definition set_null_email (principal_id : Z) : M (option dav_error) :=
  _ ← select (fun _ => false);
  q ← execute (fun d => if bool_decide (principal_id ∈ map u_prin (users d)) then None
                        else Some (tt, d));
  email_result dbms_error q "(null)".

Definition dav_limebits_patch_rollback (db_r : dav_repos_resource) (ctx : dav_liveprop_rollback)
  : R (option dav_error) :=
  let id := serialno db_r in
  match rb_propid ctx, rollback_data ctx with
  | LB_PROPID_email_id, TextValue e => run (sabridge_set_user_email email_valid dbms_error id e)
  | LB_PROPID_email_id, _ => run (set_null_email id)
  | LB_PROPID_domain_map, MapValue m => run (dbms_set_domain_map id m)
  | LB_PROPID_domain_map, _ => run (dbms_set_domain_map id None)
  | LB_PROPID_login_to_all_domains, TextValue v =>
      run_out (dbms_set_user_login_to_all_domains id (String.prefix "t" v))
  | _, _ => mret None
  end.
End limebits.
