(* ===== verification/LivePropsSpec.v ===== *)
(** * What PROPPATCH does to live properties

    A value that is accepted is executed and committed, or rolled back to the old one. *)
From S2P Require Import Prelude Util Dbd Mime Db Bind Resource Quota DbmsDeltav Redirect Bridge Users Properties Acl Request Create Principal Versions Copy Repos Search SearchBuild SearchResponse CreateSpec SearchSpec LiveProps LimebitsProps.
From stdpp Require Import gmap pretty.
Local Open Scope Z_scope.
Local Open Scope limestone_scope.

(** ** Language tags *)

Lemma good_subtag_spec i tag :
  good_subtag i tag
  = string_forall isalpha tag && bool_decide (tag = EmptyString \/ (i + String.length tag <= 9)%nat).
Proof.
  revert i. induction tag as [|c tag IH]; intros i; cbn; [by rewrite bool_decide_eq_true_2 by auto|].
  rewrite IH. destruct (isalpha c); cbn; [|by rewrite orb_true_r].
  rewrite orb_false_r. case_bool_decide as H1; cbn.
  - rewrite (bool_decide_eq_false_2 (String c tag = _ \/ _)), andb_false_r; [done|].
    intros [|]; [done|lia].
  - f_equal. apply bool_decide_ext. destruct tag; cbn; naive_solver lia.
Qed.

Lemma good_subtags_spec l :
  Forall (fun t => t <> EmptyString) l ->
  forallb (good_subtag 0) l = true
  <-> Forall (fun t => string_forall isalpha t = true /\ (1 <= String.length t <= 9)%nat) l.
Proof.
  induction 1 as [|t l Ht Hl IH]; cbn; [by split|].
  rewrite andb_true_iff, IH, Forall_cons, good_subtag_spec, andb_true_iff, bool_decide_eq_true.
  destruct t; [done|]. cbn. naive_solver lia.
Qed.

(** The tags that are accepted: at least one piece between the hyphens, each of one to nine
    letters, where the standard has eight. *)
Theorem validate_language_tag_spec strtok tag :
  (forall s, strtok s = tokens "-" EmptyString s) ->
  validate_language_tag strtok tag = 0
  <-> tokens "-" EmptyString tag <> []
      /\ Forall (fun t => string_forall isalpha t = true /\ (1 <= String.length t <= 9)%nat)
           (tokens "-" EmptyString tag).
Proof.
  intros Hs. unfold validate_language_tag. rewrite Hs.
  pose proof (good_subtags_spec _ (tokens_nonempty "-" EmptyString tag)) as H.
  destruct (tokens "-" "" tag) as [|t l]; [naive_solver|].
  destruct (forallb _ _); naive_solver.
Qed.

(** ** Automatic versioning *)

Lemma scan_pretty n : 0 <= n < 2 ^ 31 -> scan_number (TextValue (pretty n)) = n.
Proof. intros Hn. destruct (pretty_number n) as (_ & _ & H); [lia|]. cbn. rewrite H. apply wrap32_small. lia. Qed.

(** An accepted value of DAV:auto-version: the execution changes the record, from which
    the rollback gets the old one back, and the commit writes the row of the resource,
    unless its record had the value already. *)
Theorem auto_version_patch res elem spec cache s :
  quiet s -> 0 <= autoversion_type (res_dbr res) < 2 ^ 31 ->
  dav_deltav_patch_validate res elem DAV_PROPID_auto_version DAV_PROP_OP_SET = (None, Some spec) ->
  exists res' ctx res2 cache' s',
    dav_deltav_patch_exec res elem DAV_PROP_OP_SET spec = Ret (res', Some ctx)
    /\ autoversion_type (res_dbr res') = DAV_AV_CHECKOUT_CHECKIN
    /\ dav_deltav_patch_rollback res' (Some ctx) = Ret res
    /\ dav_deltav_patch_commit res' (Some ctx) cache s = (Ret (res2, cache'), s')
    /\ autoversion_type (res_dbr res2) = DAV_AV_CHECKOUT_CHECKIN
    /\ c_db s' = if bool_decide (autoversion_type (res_dbr res) = DAV_AV_CHECKOUT_CHECKIN) then c_db s
                 else update_vcr_stmt (serialno (res_dbr res)) (fun v =>
                   VcrRow (vc_res v) (vc_checked v) (vc_vhr v) (vc_state v) DAV_AV_CHECKOUT_CHECKIN
                     (vc_checkin_on_unlock v)) (c_db s).
Proof.
  intros Hq Hr Hv. destruct s as [d f n fl e]. unfold quiet in Hq. cbn in Hq. subst f.
  unfold dav_deltav_patch_validate in Hv. apply pair_equal_spec in Hv as [Hv Hs].
  assert (spec = dav_prop "auto-version" DAV_PROPID_auto_version true) as -> by (by vm_compute in Hs; injection Hs).
  rewrite bool_decide_eq_true_2 in Hv by done. unfold dav_deltav_patch_exec. cbn [lps_propid dav_prop].
  rewrite !bool_decide_eq_true_2 by done.
  destruct (versioned res) eqn:Hver; cbn [andb] in *; [|done].
  rewrite bool_decide_eq_true_2 in Hv by done. unfold av_value in Hv.
  destruct (elem_children elem) as [|c rest]; [done|].
  destruct (String.eqb_spec (elem_name c) "checkout-checkin") as [->|]; [|by destruct (unsupported_av _)].
  change (av_type_of "checkout-checkin" (autoversion_type (res_dbr res))) with DAV_AV_CHECKOUT_CHECKIN.
  match goal with |- context [Ret (?r1, Some ?c1)] => set (res1 := r1); set (ctx := c1) end.
  assert (dav_deltav_patch_rollback res1 (Some ctx) = Ret res) as Hback.
  { unfold dav_deltav_patch_rollback. subst ctx res1. cbn [rb_propid rb_operation rollback_data versioned set_dbr].
    rewrite !bool_decide_eq_true_2, Hver, scan_pretty by done. cbn [andb]. by destruct res as [[]]. }
  exists res1, ctx. assert (dav_deltav_patch_commit res1 (Some ctx)
    = if bool_decide (autoversion_type (res_dbr res) = DAV_AV_CHECKOUT_CHECKIN) then mret res1
      else x ← run (dbms_set_autoversion_type (res_dbr res1) DAV_AV_CHECKOUT_CHECKIN);
           mret (set_dbr x.2 res1)) as Hcommit.
  { unfold dav_deltav_patch_commit. subst ctx res1. cbn [rb_propid rb_operation rollback_data versioned set_dbr].
    rewrite !bool_decide_eq_true_2, Hver, scan_pretty by done. cbn [andb].
    rewrite (bool_decide_ext (autoversion_type _ = _)
               (autoversion_type (res_dbr res) = DAV_AV_CHECKOUT_CHECKIN)) by done.
    by case_bool_decide. }
  rewrite Hcommit. case_bool_decide; eexists _, _, _; by repeat split.
Qed.

(** ** The children of a collection *)

(** The value of lb:auto-version-new-children in the record after an execution. *)
Definition children_type (elem : apr_xml_elem) (operation : dav_prop_op) (old : Z) : Z :=
  match operation with
  | DAV_PROP_OP_SET => new_children_type (av_value elem) old
  | DAV_PROP_OP_DELETE => DAV_AV_NONE
  end.

(** The values that are accepted, and every deletion, are committed without an error; but
    the row of the collection is written only for a value that is set and differs from the
    type of automatic versioning of the collection itself. *)
Theorem new_children_patch {req : Request} make_from_url href_prefix items inner cdata next denied
    defn res ace_cache elem operation cache s :
  quiet s -> collection res = true -> 0 <= autoversion_type (res_dbr res) < 2 ^ 31 ->
  operation = DAV_PROP_OP_DELETE \/ av_value elem = "checkout-checkin"%string
    \/ av_value elem = "version-control"%string ->
  let r' := set_av_new_children (children_type elem operation (av_new_children (res_dbr res))) (res_dbr res) in
  exists spec ctx s',
    dav_limebits_patch_validate make_from_url href_prefix next denied res ace_cache elem
      LB_PROPID_auto_version_new_children operation cache s = (Ret ((None, Some spec), cache), s)
    /\ dav_limebits_patch_exec items inner cdata defn (res_dbr res) elem operation spec cache s
      = (Ret ((None, r', ctx), cache), s)
    /\ dav_limebits_patch_commit (set_dbr r' res) ctx cache s = (Ret (tt, cache), s')
    /\ c_db s' =
      if bool_decide (operation = DAV_PROP_OP_SET
                      /\ av_new_children r' <> autoversion_type (res_dbr res))
      then set_collections (map (fun c =>
             if bool_decide (c.1 = serialno (res_dbr res)) then (c.1, av_new_children r') else c)
             (collections (c_db s))) (c_db s)
      else c_db s.
Proof.
  intros Hq Hc Hr Hv r'. destruct s as [d f n fl e]. unfold quiet in Hq. cbn in Hq. subst f.
  set (spec := lb_prop "auto-version-new-children" LB_PROPID_auto_version_new_children true).
  set (ctx := Rollback LB_PROPID_auto_version_new_children operation
                (TextValue (pretty (autoversion_type (res_dbr res))))).
  assert (dav_limebits_patch_commit (set_dbr r' res) ctx
    = if bool_decide (operation = DAV_PROP_OP_SET /\ av_new_children r' <> autoversion_type (res_dbr res))
      then _ ← run (dbms_set_collection_new_children_av_type r'); mret tt else mret tt) as Hcommit.
  { unfold dav_limebits_patch_commit, ctx. cbn [rb_propid rb_operation rollback_data collection set_dbr res_dbr].
    rewrite Hc, scan_pretty, bool_decide_eq_true_2 by done. cbn [andb].
    rewrite <- bool_decide_not, <- bool_decide_and. done. }
  assert (dav_limebits_patch_validate make_from_url href_prefix next denied res ace_cache elem
    LB_PROPID_auto_version_new_children operation = mret (None, Some spec)) as Hval.
  { unfold dav_limebits_patch_validate. rewrite Hc. cbn [negb orb].
    destruct operation; [|by rewrite bool_decide_eq_true_2].
    rewrite bool_decide_eq_false_2 by done. destruct Hv as [|[->| ->]]; [done|reflexivity..]. }
  exists spec, ctx. rewrite Hval, Hcommit.
  case_bool_decide; eexists; (split; [done|]); (split; [by destruct operation|]); by split.
Qed.

(** ** Taking back the settings of a user *)

Definition domain_key (x : domain_row) : Z * string := (do_prin x, do_domain x).
Definition of_user (id : Z) (x : domain_row) : bool := bool_decide (do_prin x = id).

(** The keys and references of the schema, and names that can stand in a statement. *)
Record settings_ok (d : db) : Prop := {
  so_users : NoDup (map u_prin (users d));
  so_keys : NoDup (map domain_key (user_domains d));
  so_rows : Forall (fun x => do_prin x ∈ map p_res (principals d)
    /\ (String.length (do_domain x) <= 255)%nat /\ (String.length (do_path x) <= 255)%nat
    /\ count_char QMARK (do_domain x) = 0%nat /\ count_char QMARK (do_path x) = 0%nat) (user_domains d)
}.

(** The rows of a user and of the others. *)
Definition rows_of (id : Z) (d : db) : list domain_row := List.filter (of_user id) (user_domains d).
Definition other_rows (id : Z) (d : db) : list domain_row :=
  List.filter (fun x => negb (of_user id x)) (user_domains d).

Lemma rows_split {A} (f : A -> bool) l :
  List.filter (fun x => negb (f x)) l ++ List.filter f l ≡ₚ l.
Proof.
  induction l as [|x l IH]; cbn; [done|]. destruct (f x); cbn; [|by rewrite IH].
  rewrite <- Permutation_middle. by rewrite IH.
Qed.

Lemma domains_of_rows id d :
  domains_of id (map (fun x => (do_domain x, do_path x)) (rows_of id d)) = rows_of id d.
Proof.
  unfold domains_of, rows_of. rewrite map_map. induction (user_domains d) as [|[i dom path] l IH]; [done|].
  cbn [List.filter]. destruct (of_user id (DomainRow i dom path)) eqn:Hx; [|done]. cbn [map].
  apply bool_decide_eq_true in Hx. cbn in Hx. subst i. by f_equal.
Qed.

(** Whatever map is set, the rows of the other users stay. *)
Lemma set_domain_map_others id m d n fl e :
  exists err d' e', dbms_set_domain_map id m (Conn d [] n fl e) = (err, Conn d' [] n fl e')
    /\ (err = None -> exists l, d' = set_user_domains (other_rows id d ++ domains_of id l) d
         /\ (m = None -> l = [])).
Proof.
  unfold dbms_set_domain_map. rewrite bind_run. rewrite bind_run, update_quiet. cbn [fst snd mret M_ret err_of].
  fold (of_user id). change (List.filter (fun x => negb (bool_decide (do_prin x = id))) (user_domains d))
    with (other_rows id d).
  destruct m as [[|p l]|].
  - rewrite bind_run. eexists _, _, _. split; [reflexivity|by intros H].
  - destruct (forallb _ _).
    + rewrite bind_run. unfold execute. cbn [c_faults tail c_db].
      destruct (insert_domains_stmt id (p :: l) _) as [[[] d']|] eqn:Hi; eexists _, _, _; (split; [reflexivity|]).
      * intros _. exists (p :: l). split; [|done]. unfold insert_domains_stmt in Hi.
        destruct (_ && _) in Hi; [|done]. by injection Hi as <-.
      * done.
    + eexists _, _, _. split; [reflexivity|]. intros _. exists []. by rewrite app_nil_r.
  - eexists _, _, _. split; [reflexivity|]. intros _. exists []. by rewrite app_nil_r.
Qed.

Lemma settings_rows id d x :
  settings_ok d -> In x (rows_of id d) ->
  id ∈ map p_res (principals d) /\ (String.length (do_domain x) <= 255)%nat
  /\ (String.length (do_path x) <= 255)%nat
  /\ count_char QMARK (do_domain x) = 0%nat /\ count_char QMARK (do_path x) = 0%nat.
Proof.
  intros Hok [Hx Hid]%filter_In. apply bool_decide_eq_true in Hid. subst id.
  pose proof (so_rows d Hok) as H. rewrite Forall_forall in H. apply H. by apply list_elem_of_In.
Qed.

Lemma other_rows_replaced id l d :
  List.filter (fun x => negb (of_user id x)) (other_rows id d ++ domains_of id l) = other_rows id d.
Proof.
  rewrite List.filter_app. unfold other_rows at 1. rewrite filter_filter_bool. unfold domains_of.
  assert (forall k, List.filter (fun x => negb (of_user id x)) (map (fun x => DomainRow id x.1 x.2) k) = []) as ->.
  { induction k as [|x k IHk]; [done|]. cbn. unfold of_user at 1. cbn. by rewrite bool_decide_eq_true_2. }
  rewrite app_nil_r. apply List.filter_ext. intros x. by destruct (of_user id x).
Qed.

Definition map_of (l : list domain_row) : option (list (string * string)) :=
  match map (fun x => (do_domain x, do_path x)) l with [] => None | x => Some x end.

(** The old map is accepted again when only the rows of the user have changed. *)
Lemma set_old_domains id l0 d n fl e :
  settings_ok d -> List.filter (fun x => negb (of_user id x)) l0 = other_rows id d ->
  dbms_set_domain_map id (map_of (rows_of id d)) (Conn (set_user_domains l0 d) [] n fl e)
  = (None, Conn (set_user_domains (other_rows id d ++ rows_of id d) d) [] n fl e).
Proof.
  intros Hok Hf. unfold map_of.
  unfold dbms_set_domain_map. rewrite bind_run, bind_run, update_quiet. cbn [fst snd mret M_ret err_of].
  change (set_user_domains (List.filter (fun x => negb (bool_decide (do_prin x = id)))
            (user_domains (set_user_domains l0 d))) (set_user_domains l0 d))
    with (set_user_domains (List.filter (fun x => negb (of_user id x)) l0) d).
  rewrite Hf. pose proof (domains_of_rows id d) as Hrows.
  pose proof (settings_rows id d) as Hall. specialize (fun x => Hall x Hok).
  destruct (rows_of id d) as [|y ys] eqn:Hold; [by rewrite app_nil_r|]. cbn [map] in *.
  set (m := (do_domain y, do_path y) :: map (fun x => (do_domain x, do_path x)) ys) in *.
  assert (Hm : forall p, In p m -> exists x, In x (y :: ys) /\ p = (do_domain x, do_path x)).
  { intros p [<-|[x [<- Hx]]%in_map_iff]; eexists; (split; [|done]); [by left|by right]. }
  assert (forallb (fun x => bool_decide (count_char QMARK x.1 = 0%nat)
                            && bool_decide (count_char QMARK x.2 = 0%nat)) m = true) as ->.
  { apply forallb_forall. intros p (x & Hx & ->)%Hm. cbn [fst snd].
    destruct (Hall x Hx) as (_ & _ & _ & -> & ->). done. }
  rewrite bind_run. erewrite execute_accepted; [done|done|]. unfold insert_domains_stmt. cbn [c_db user_domains set_user_domains principals].
  rewrite Hrows. fold domain_key. rewrite bool_decide_eq_true_2.
  2: { assert (map domain_key (other_rows id d ++ y :: ys) ≡ₚ map domain_key (user_domains d)) as ->;
         [|apply (so_keys d Hok)].
       apply Permutation_map. rewrite <- Hold. apply rows_split. }
  rewrite bool_decide_eq_true_2 by (destruct (Hall y (or_introl eq_refl)); done). cbn [andb].
  assert (forallb (fun x => bool_decide (String.length x.1 <= 255)%nat
                            && bool_decide (String.length x.2 <= 255)%nat) m = true) as ->.
  { apply forallb_forall. intros p (x & Hx & ->)%Hm. destruct (Hall x Hx) as (_ & H1 & H2 & _).
    cbn. by rewrite !bool_decide_eq_true_2. }
  reflexivity.
Qed.

(** The only row with a key. *)
Lemma find_key {A} (key : A -> Z) x l :
  NoDup (map key l) -> In x l -> List.find (fun y => bool_decide (key y = key x)) l = Some x.
Proof.
  induction l as [|y l IH]; [done|]. cbn. intros [Hy Hnd]%NoDup_cons [->|Hx].
  - by rewrite bool_decide_eq_true_2.
  - rewrite bool_decide_eq_false_2; [by apply IH|]. intros E. apply Hy. rewrite E.
    by apply list_elem_of_In, in_map.
Qed.

Definition with_login (b : bool) (u : user_row) : user_row :=
  UserRow (u_prin u) (u_pwhash u) (u_email u) (u_pwhash_type u) b.

(** The row of a user holds one value of [login_to_all_domains]. *)
Lemma login_restored id v d :
  NoDup (map u_prin (users d)) ->
  map_user id (with_login match find_user id d with Some u => u_login_all u | None => false end)
    (map_user id (with_login v) d) = d.
Proof.
  intros Hnd. unfold map_user. cbn [users set_users]. rewrite map_map.
  match goal with |- context [map ?f (users d)] =>
    assert (map f (users d) = users d) as ->; [|by destruct d] end.
  transitivity (map (fun x => x) (users d)); [|apply map_id]. apply map_ext_in. intros u Hu. cbv zeta.
  destruct (decide (u_prin u = id)) as [Hid|Hid];
    [|rewrite (bool_decide_eq_false_2 (u_prin u = id)) by done; by rewrite bool_decide_eq_false_2].
  rewrite (bool_decide_eq_true_2 (u_prin u = id)) by done. cbn [u_prin with_login].
  rewrite bool_decide_eq_true_2 by done. subst id. unfold find_user.
  rewrite (find_key u_prin u) by done. by destruct u.
Qed.

Lemma run_bind {A B} (m : M A) (f : A -> R B) cache s :
  (run m ≫= f) cache s = f (m s).1 cache (m s).2.
Proof.
  unfold mbind, R_bind, run, run_out, lift, obind. rewrite !bind_run. by destruct (m s).
Qed.

Lemma run_alone {A} (m : M A) cache s : run m cache s = (Ret ((m s).1, cache), (m s).2).
Proof. unfold run, run_out, lift, obind. rewrite !bind_run. by destruct (m s). Qed.

(** What an execution leaves of the domains. *)
Lemma exec_domains items inner cdata defn db_r elem operation spec cache d n fl e r' ctx cache' s1 :
  lps_propid spec = LB_PROPID_domain_map ->
  dav_limebits_patch_exec items inner cdata defn db_r elem operation spec cache (Conn d [] n fl e)
    = (Ret ((None, r', ctx), cache'), s1) ->
  let id := serialno db_r in
  r' = db_r /\ ctx = Rollback LB_PROPID_domain_map operation (MapValue (map_of (rows_of id d)))
  /\ exists l0 e1, s1 = Conn (set_user_domains l0 d) [] n fl e1
       /\ List.filter (fun x => negb (of_user id x)) l0 = other_rows id d.
Proof.
  intros Hspec E id. unfold dav_limebits_patch_exec in E. fold id in E. rewrite Hspec, run_bind in E.
  assert (dbms_get_domain_map id (Conn d [] n fl e) = (map_of (rows_of id d), Conn d [] n fl e)) as Hget.
  { unfold dbms_get_domain_map. rewrite bind_run, select_quiet. cbn [fst snd]. unfold map_of, rows_of.
    change (of_user id) with (fun x => bool_decide (do_prin x = id)). by destruct (map _ _). }
  rewrite Hget in E. cbn [fst snd] in E. destruct (bool_decide (operation = _)).
  - destruct (domain_map_elem_to_hash cdata elem defn) as [|h]; [done|].
    destruct (set_domain_map_others id (items <$> h) d n fl e) as (err & d' & e' & Hs & Hd).
    rewrite run_bind, Hs in E. cbn in E. injection E as -> <- <- _ <-.
    destruct (Hd eq_refl) as (l & -> & _). split_and!; [done..|].
    eexists _, _. split; [done|]. apply other_rows_replaced.
  - injection E as <- <- _ <-. split_and!; [done..|]. exists (user_domains d), e.
    split; [by destruct d|done].
Qed.

(** C15. The execution of a change of the domains or of the login of a user, followed by its
    rollback, leaves all tables as they were, up to the order of the domains. *)
Theorem user_settings_rollback email_valid dbms_error items inner cdata defn db_r elem operation spec
    cache s r' ctx cache' s1 :
  quiet s -> settings_ok (c_db s) ->
  lps_propid spec = LB_PROPID_domain_map \/ lps_propid spec = LB_PROPID_login_to_all_domains ->
  dav_limebits_patch_exec items inner cdata defn db_r elem operation spec cache s
    = (Ret ((None, r', ctx), cache'), s1) ->
  exists s2 l,
    dav_limebits_patch_rollback email_valid dbms_error r' ctx cache' s1 = (Ret (None, cache'), s2)
    /\ l ≡ₚ user_domains (c_db s) /\ c_db s2 = set_user_domains l (c_db s).
Proof.
  intros Hq Hok Hspec E. destruct s as [d f n fl e]. unfold quiet in Hq. cbn in Hq, Hok. subst f. cbn [c_db].
  destruct Hspec as [Hspec|Hspec].
  - destruct (exec_domains _ _ _ _ _ _ _ _ _ _ _ _ _ _ _ _ _ Hspec E) as (-> & -> & l0 & e1 & -> & Hf).
    eexists _, _. split; [|split; [apply (rows_split (of_user (serialno db_r)))|]].
    { unfold dav_limebits_patch_rollback. cbn [rb_propid rollback_data]. rewrite run_alone.
      by rewrite set_old_domains. }
    done.
  - unfold dav_limebits_patch_exec in E. rewrite Hspec, run_bind in E.
    set (id := serialno db_r) in *.
    assert (dbms_get_user_login_to_all_domains id (Conn d [] n fl e)
      = (match find_user id d with Some u => u_login_all u | None => false end, Conn d [] n fl e)) as Hget.
    { unfold dbms_get_user_login_to_all_domains. rewrite bind_run, select_quiet. by destruct (find_user id d). }
    rewrite Hget in E. cbn [fst snd] in E. set (cur := match find_user id d with Some _ => _ | None => _ end) in *.
    destruct (bool_decide _ && _).
    + injection E as <- <- <- <-.
      exists (Conn d [] n fl e), (user_domains d). split; [|split; [done|by destruct d]].
      unfold dav_limebits_patch_rollback, run_out. cbn [rb_propid rollback_data]. fold id.
      replace (String.prefix "t" (if cur then "t" else "f")) with cur by (by destruct cur).
      pose proof (login_restored id (inner elem =? "true")%string d (so_users d Hok)) as Hl.
      unfold dbms_set_user_login_to_all_domains, obind. rewrite !bind_run, update_quiet. cbn.
      f_equal. f_equal. exact Hl.
    + injection E as <- <- <- <-.
      exists (Conn d [] n fl e), (user_domains d). split; [done|split; [done|by destruct d]].
Qed.
