(* ===== verification/AclProps.v ===== *)
(** * What is shown of access control ([acl.c], [acl_liveprops.c], parts of [dbms_acl.c]
    and [principal.c])

    The entries of a resource with those it inherits, the live properties of access
    control and of groups, and the reports on principals. *)
From S2P Require Import Prelude Util Dbd Mime Db Bind Resource DbmsDeltav Bridge Groups Users Properties Acl Listing Request Create Principal Copy Search SearchResponse LiveProps.
From stdpp Require Import gmap pretty.
Local Open Scope Z_scope.
Local Open Scope limestone_scope.

(** ** Data *)

Definition dav_acl_props : list dav_liveprop_spec :=
  [dav_prop "owner" DAV_PROPID_owner false;
   dav_prop "supported-privilege-set" DAV_PROPID_supported_privilege_set false;
   dav_prop "current-user-privilege-set" DAV_PROPID_current_user_privilege_set false;
   dav_prop "acl" DAV_PROPID_acl false;
   dav_prop "acl-restrictions" DAV_PROPID_acl_restrictions false;
   dav_prop "inherited-acl-set" DAV_PROPID_inherited_acl_set false;
   dav_prop "principal-collection-set" DAV_PROPID_principal_collection_set false;
   dav_prop "group-member-set" DAV_PROPID_group_member_set true].

(** An entry as it is shown: with the URI of the resource it is inherited from. *)
Record shown_ace := ShownAce {
  shown : dav_ace;
  ace_inherited : option string
}.

(** A row of the query of [dbms_get_acl]: the entry with the name of its principal, the
    namespace of its property, one of its privileges, and the resource it is set on with
    the length of the path of that resource. *)
Record acl_row := AclRow {
  ar_ace : ace_row;
  ar_name : string;
  ar_ns : option string;
  ar_privilege : Z;
  ar_res : Z;
  ar_length : nat
}.

Definition row_key (x : acl_row) : ace_row * nat := (ar_ace x, ar_length x).

(** ** The query *)

(** The joins, with the resources the entries come from. *)
Definition joined_aces (id : Z) (d : db) : list acl_row :=
  flat_map (fun a =>
    flat_map (fun ap =>
      flat_map (fun p =>
        map (fun par => AclRow a (p_name p)
               (snd <$> List.find (fun ns => bool_decide (ns.1 = a_prop_ns a)) (namespaces d))
               ap.2 par.1 (String.length par.2))
          (List.filter (fun par => bool_decide (par.1 = a_res a)) (inherited_res id d)))
        (List.filter (fun p => bool_decide (p_res p = a_prin a)) (principals d)))
      (List.filter (fun ap => bool_decide (ap.1 = a_id a)) (dav_aces_privileges d)))
    (aces d).

(** ORDER BY protected DESC, CHAR_LENGTH(par_res_path) DESC, aces.id *)
Fixpoint insert_row (x : acl_row) (l : list acl_row) : list acl_row :=
  match l with
  | [] => [x]
  | y :: rest => if before_ace (row_key y) (row_key x) then y :: insert_row x rest else x :: l
  end.

Definition acl_rows (id : Z) (d : db) : list acl_row := foldr insert_row [] (joined_aces id d).

Definition dbms_lookup_prin_id (principal_id : Z) : M (option string) :=
  q ← select (fun d => List.find (fun p => bool_decide (p_res p = principal_id)) (principals d));
  mret (match q with Some (Some p) => Some (p_name p) | _ => None end).

Section acl_props.
Context {lib : SearchLib} {rlib : ResponseLib} {cfg : ServerConfig} {req : Request}.

(** As in [Principal]; the privilege of a type and those of two permissions, as the DAV
    module knows them, the principals one may also act as, the status of a refusal, and the
    escaping of the database driver. *)
Variable make_from_url : string -> db -> dav_principal.
Variable href_prefix : string.
Variable dav_privilege_new_by_type : Z -> string * string.
Variable permission_read_acl permission_read_current_user_privilege_set : string * string.
Variable principal_next : dav_principal -> list dav_principal.
Variable denied_status : Z.
Variable apr_dbd_escape : string -> string.

(** ** [dbms_get_acl] *)

(** A parent that cannot be found has no URI. *)
Definition inherited_uri (r : dav_repos_resource) (row : acl_row) : R (option string) :=
  if bool_decide (ar_res row = serialno r) then mret None
  else
    match sabridge_new_dbr_from_dbr r with
    | None => crash
    | Some parent => x ← run_out (sabridge_reverse_lookup (set_serialno (ar_res row) parent));
                     mret (uri x.2)
    end.

Definition row_property (row : acl_row) (old : option (option string * string))
  : option (option string * string) :=
  match a_prop_name (ar_ace row) with
  | Some n => if bool_decide (apr_strnatcmp n EmptyString = 0) then old else Some (ar_ns row, n)
  | None => old
  end.

(** The entry under construction, and those that are done. *)
Fixpoint acl_loop (r : dav_repos_resource) (rows : list acl_row) (prev_ace_id : Z)
    (pending : option shown_ace) (acl : list shown_ace) : R (list shown_ace) :=
  let done_acl := match pending with Some p => acl ++ [p] | None => acl end in
  match rows with
  | [] => mret done_acl
  | row :: rest =>
      let ace := ar_ace row in
      let same := bool_decide (prev_ace_id = a_id ace) in
      match same, pending with
      | true, None => crash
      | _, _ =>
          let '(property, privileges, inherited) :=
            match same, pending with
            | true, Some p => (ace_property (shown p), ace_privileges (shown p), ace_inherited p)
            | _, _ => (None, [], None)
            end in
          principal ← dav_repos_get_prin_by_name make_from_url href_prefix (Some (ar_name row));
          inh ← inherited_uri r row;
          acl_loop r rest (a_id ace)
            (Some (ShownAce
               (Ace principal (row_property row property)
                  (privileges ++ [dav_privilege_new_by_type (ar_privilege row)])
                  (negb (String.eqb (a_grantdeny ace) ACL_GRANT))
                  (String.eqb (a_protected ace) DB_TRUE))
               (if bool_decide (ar_res row = serialno r) then inherited else inh)))
            (if same then acl else done_acl)
      end
  end.

(** Without the owner, whose principal is looked up.  A refused query has no results to
    be counted. *)
Definition dbms_get_acl (r : dav_repos_resource) : R (list shown_ace) :=
  prin_name ← run (dbms_lookup_prin_id (owner_id r));
  _ ← dav_repos_get_prin_by_name make_from_url href_prefix prin_name;
  q ← run (select (acl_rows (serialno r)));
  match q with
  | None => crash
  | Some rows => acl_loop r rows (-1) None []
  end.

Definition dav_repos_get_current_acl (res : dav_resource) : R (list shown_ace) :=
  dbms_get_acl (res_dbr res).

(** ** DAV:acl *)

Definition with_cr (l : list string) : string := String.concat EmptyString (map (fun x => x +:+ DEBUG_CR) l).

(** A [NULL] in a format is written as such. *)
Definition format_s (s : option string) : string := default "(null)"%string s.

(** The namespace of a property that is not in the table is a NULL pointer; a principal of
    another type has no text. *)
Definition ace_head (a : dav_ace) (grant_deny : string) : outcome string :=
  let tail := "<D:" +:+ grant_deny +:+ ">" in
  match ace_property a with
  | Some (None, _) => Crash
  | Some (Some ns, name) =>
      if String.eqb ns EmptyString && String.eqb name "self"
      then Ret (with_cr ["<D:ace>"; "<D:principal>"; "<D:self/>"; "</D:principal>"]%string +:+ tail)
      else Ret (with_cr ["<D:ace>"; "<D:principal>"; "<D:property>";
                         "<R:" +:+ name +:+ " xmlns:R=" +:+ QUOT +:+ ns +:+ QUOT +:+ "/>";
                         "</D:property>"; "</D:principal>"]%string +:+ tail)
  | None =>
      match dav_repos_principal_to_s href_prefix (ace_principal a) with
      | None => Crash
      | Some url =>
          if strstr url PRINCIPAL_USER_PREFIX || strstr url PRINCIPAL_GROUP_PREFIX
          then Ret (with_cr ["<D:ace>"; "<D:principal>";
                             "<D:href>" +:+ apr_xml_quote_string url +:+ "</D:href>";
                             "</D:principal>"]%string +:+ tail)
          else Ret (with_cr ["<D:ace>"; "  <D:principal>"; "    <D:" +:+ url +:+ "/>";
                             "  </D:principal>"]%string +:+ tail)
      end
  end.

Definition privilege_text (name : string) : string :=
  "<D:privilege>" +:+ DEBUG_CR +:+ "<D:" +:+ name +:+ "/>" +:+ DEBUG_CR +:+ "</D:privilege>".

Definition ace_text (x : shown_ace) : outcome string :=
  let a := shown x in
  let grant_deny := if is_deny a then "deny"%string else "grant"%string in
  match ace_head a grant_deny with
  | Crash => Crash
  | Ret str_acehead =>
      let str_acepriv := String.concat EmptyString (map (fun p => privilege_text p.2) (ace_privileges a)) in
      let str_protected := "</D:" +:+ grant_deny +:+ ">"
        +:+ (if is_protected a then "<D:protected/>" else EmptyString) in
      let str_acebody :=
        match ace_inherited x with
        | None | Some EmptyString => "</D:ace>"%string
        | Some u => with_cr ["<D:inherited>"; "<D:href>" +:+ href_prefix +:+ apr_xml_quote_string u +:+ "</D:href>";
                             "</D:inherited>"]%string +:+ "</D:ace>"
        end in
      Ret (str_acehead +:+ str_acepriv +:+ str_protected +:+ str_acebody)
  end.

Fixpoint aces_text (acl : list shown_ace) : outcome string :=
  match acl with
  | [] => Ret EmptyString
  | x :: rest =>
      match ace_text x, aces_text rest with
      | Ret t, Ret u => Ret (t +:+ u)
      | _, _ => Crash
      end
  end.

Definition acl_build_propfind_output (res : dav_resource) : R string :=
  acl ← dav_repos_get_current_acl res;
  match aces_text acl with Crash => crash | Ret t => mret t end.

(** ** The other properties *)

(** Entries that follow one another are compared. *)
Fixpoint inherited_hrefs (last_inherited : string) (acl : list shown_ace) : string :=
  match acl with
  | [] => EmptyString
  | x :: rest =>
      match ace_inherited x with
      | Some u => if String.eqb u last_inherited then inherited_hrefs last_inherited rest
                  else "<D:href>" +:+ u +:+ "</D:href>" +:+ DEBUG_CR +:+ inherited_hrefs u rest
      | None => inherited_hrefs last_inherited rest
      end
  end.

Definition acl_inherited_acl_set (res : dav_resource) : R string :=
  acl ← dav_repos_get_current_acl res;
  mret (DEBUG_CR +:+ inherited_hrefs " " acl).

Definition acl_restrictions (res : dav_resource) : string := DEBUG_CR.

(** [dbms_get_principal_id_from_name] of NULL, which no name equals. *)
Definition principal_id_of (user : option string) : M (dav_error + Z) :=
  match user with
  | Some u => dbms_get_principal_id_from_name u
  | None =>
      q ← select (fun _ => inr 0);
      mret (default (inl (dav_new_error HTTP_INTERNAL_SERVER_ERROR)) q)
  end.

(** After an error the identifier is read that was never set. *)
Definition acl_current_user_privilege_set (res : dav_resource) : R string :=
  p ← run (principal_id_of rec_user);
  match p with
  | inl _ => crash
  | inr principal_id =>
      privileges ← run (dbms_get_privileges principal_id (serialno (res_dbr res)));
      mret (String.concat EmptyString (map (fun p =>
        "<D:privilege><D:" +:+ p.2 +:+ "/></D:privilege>" +:+ DEBUG_CR) privileges))
  end.

(** A privilege with its description, at a depth, and those it contains. *)
Definition supported_privilege (pad name description : string) (close : string) : string :=
  pad +:+ "<D:supported-privilege>" +:+ DEBUG_CR
  +:+ pad +:+ " <D:privilege><D:" +:+ name +:+ "/></D:privilege>" +:+ DEBUG_CR
  +:+ pad +:+ " <D:description xml:lang=" +:+ QUOT +:+ "en" +:+ QUOT +:+ ">" +:+ DEBUG_CR
  +:+ pad +:+ "  " +:+ description +:+ DEBUG_CR
  +:+ pad +:+ " </D:description>" +:+ DEBUG_CR +:+ close.

Definition closed_privilege (pad name description : string) : string :=
  supported_privilege pad name description (pad +:+ "</D:supported-privilege>").

Definition acl_supported_privilege_set (res : dav_resource) : string :=
  let coll := bool_decide (resourcetype (res_dbr res) = Some dav_repos_COLLECTION)
              || bool_decide (resourcetype (res_dbr res) = Some dav_repos_COLLECTION_VERSION) in
  "<D:supported-privilege>" +:+ DEBUG_CR
  +:+ " <D:privilege><D:all/></D:privilege>" +:+ DEBUG_CR
  +:+ " <D:description xml:lang=" +:+ QUOT +:+ "en" +:+ QUOT +:+ ">Any operation</D:description>" +:+ DEBUG_CR
  +:+ supported_privilege " " "write" "Write any object" EmptyString
  +:+ closed_privilege "   " "write-content" "Write resource content"
  +:+ (if coll
       then closed_privilege "   " "unbind" "Unbind a child" +:+ DEBUG_CR
            +:+ closed_privilege "   " "bind" "Bind a child" +:+ DEBUG_CR
       else EmptyString)
  +:+ closed_privilege "   " "write-acl" "Write ACL" +:+ DEBUG_CR
  +:+ closed_privilege "   " "write-properties" "Write properties" +:+ DEBUG_CR
  +:+ "  </D:supported-privilege>" +:+ DEBUG_CR +:+ DEBUG_CR
  +:+ closed_privilege "  " "unlock" "Unlock resource" +:+ DEBUG_CR +:+ DEBUG_CR
  +:+ supported_privilege "  " "read" "Read any object" EmptyString
  +:+ "   <D:supported-privilege>" +:+ DEBUG_CR
  +:+ "    <D:privilege>" +:+ DEBUG_CR
  +:+ "     <D:read-current-user-privilege-set/>" +:+ DEBUG_CR
  +:+ "    </D:privilege>" +:+ DEBUG_CR
  +:+ "    <D:description xml:lang=" +:+ QUOT +:+ "en" +:+ QUOT +:+ ">" +:+ DEBUG_CR
  +:+ "     Read current user privilege set property" +:+ DEBUG_CR
  +:+ "    </D:description>" +:+ DEBUG_CR
  +:+ "   </D:supported-privilege>" +:+ DEBUG_CR
  +:+ closed_privilege "   " "read-acl" "Allows propfind to DAV:acl" +:+ DEBUG_CR
  +:+ "  </D:supported-privilege>" +:+ DEBUG_CR
  +:+ "</D:supported-privilege>" +:+ DEBUG_CR.

(** ** Groups *)

Definition group_member_rows (group_id : Z) (d : db) : list (Z * string * dav_repos_type) :=
  flat_map (fun p =>
    flat_map (fun gm =>
      if bool_decide (gm = (group_id, p_res p))
      then map (fun r => (p_res p, p_name p, r_type r))
             (List.filter (fun r => bool_decide (r_id r = p_res p)) (resources d))
      else []) (group_members d)) (principals d).

(** A member that is neither a group nor a user has no URI. *)
Definition member_uri (m : Z * string * dav_repos_type) : string :=
  match m.2 with
  | dav_repos_GROUP => PRINCIPAL_GROUP_PREFIX +:+ m.1.2
  | dav_repos_USER => PRINCIPAL_USER_PREFIX +:+ m.1.2
  | _ => EmptyString
  end.

(** The error of the query is dropped. *)
Definition get_group_member_set (group : dav_resource) : M string :=
  q ← select (group_member_rows (serialno (res_dbr group)));
  mret (String.concat EmptyString (map (fun m =>
    default EmptyString (dav_repos_mk_href apr_xml_quote_string (Some (href_prefix +:+ member_uri m))))
    (default [] q))).

(** The prefix of users or of groups may stand anywhere; its length is cut off in front. *)
Definition get_name_from_principal_URL (principal_URL : option string) : option string :=
  match principal_URL with
  | None => None
  | Some url =>
      if String.prefix href_prefix url then
        let path := drop_string (String.length href_prefix) url in
        if strstr path PRINCIPAL_USER_PREFIX
        then Some (drop_string (String.length PRINCIPAL_USER_PREFIX) path)
        else if strstr path PRINCIPAL_GROUP_PREFIX
        then Some (drop_string (String.length PRINCIPAL_GROUP_PREFIX) path)
        else None
      else None
  end.

(** The names of the new members: the first [href] with all elements that follow it. *)
Fixpoint member_names (href_elem : list apr_xml_elem) : dav_error + list string :=
  match href_elem with
  | [] => inr []
  | e :: rest =>
      match get_name_from_principal_URL (Some (dav_xml_get_cdata e)) with
      | None => inl (dav_new_error HTTP_CONFLICT)
      | Some n => match member_names rest with inl err => inl err | inr l => inr (n :: l) end
      end
  end.

(** The whole validation: [Groups.dav_acl_patch_validate] is its part after the names. *)
Definition acl_patch_validate (r : dav_repos_resource) (elem : apr_xml_elem) (id : propid)
    (operation : dav_prop_op) : M (option dav_error * option (gmap string (option Z) * list Z)) :=
  if bool_decide (id = DAV_PROPID_group_member_set) then
    if bool_decide (resourcetype r = Some dav_repos_GROUP) && bool_decide (operation = DAV_PROP_OP_SET) then
      match member_names (dav_find_child elem "href") with
      | inl err => mret (Some err, None)
      | inr names =>
          x ← dav_acl_patch_validate apr_dbd_escape (serialno r) names;
          mret (match x with
                | (Some e, _, _) => (Some e, None)
                | (None, new_members, to_remove) => (None, Some (new_members, to_remove))
                end)
      end
    else mret (Some (dav_new_error HTTP_FORBIDDEN), None)
  else mret (None, None).

(** ** The live properties *)

(** [inl] for a refusal or a property that is not supported. *)
Definition acl_allowed (privilege : string * string) (r : dav_repos_resource)
    (ace_cache : option ace_cache_t) : R bool := fun cache =>
  (a ← run (dav_repos_is_allow privilege.1 privilege.2 rec_principal (principal_next rec_principal)
              r ace_cache cache denied_status);
   mret (negb (bool_decide (a.1 = 0)))) cache.

Definition acl_value (res : dav_resource) (ace_cache : option ace_cache_t) (id : propid)
  : R (dav_prop_insert + string) :=
  let r := res_dbr res in
  match id with
  | DAV_PROPID_owner =>
      owner ← run (dbms_lookup_prin_id (owner_id r));
      principal ← dav_repos_get_prin_by_name make_from_url href_prefix owner;
      mret (inr ("<D:href>" +:+ format_s (dav_repos_principal_to_s href_prefix principal) +:+ "</D:href>"))
  | DAV_PROPID_supported_privilege_set => mret (inr (acl_supported_privilege_set res))
  | DAV_PROPID_current_user_privilege_set =>
      a ← acl_allowed permission_read_current_user_privilege_set r ace_cache;
      if a : bool then t ← acl_current_user_privilege_set res; mret (inr t)
      else mret (inl DAV_PROP_INSERT_FORBIDDEN)
  | DAV_PROPID_acl =>
      a ← acl_allowed permission_read_acl r ace_cache;
      if a : bool then t ← acl_build_propfind_output res; mret (inr t)
      else mret (inl DAV_PROP_INSERT_FORBIDDEN)
  | DAV_PROPID_acl_restrictions => mret (inr (acl_restrictions res))
  | DAV_PROPID_inherited_acl_set => t ← acl_inherited_acl_set res; mret (inr t)
  | DAV_PROPID_principal_collection_set =>
      if bool_decide (resourcetype r = Some dav_repos_GROUP)
      then mret (inr ("<D:href>" +:+ href_prefix +:+ PRINCIPAL_USER_PREFIX +:+ "</D:href><D:href>"
                      +:+ href_prefix +:+ PRINCIPAL_GROUP_PREFIX +:+ "</D:href>"))
      else mret (inl DAV_PROP_INSERT_NOTSUPP)
  | DAV_PROPID_group_member_set => t ← run (get_group_member_set res); mret (inr t)
  | _ => mret (inr EmptyString)
  end.

Definition dav_acl_insert_prop (res : dav_resource) (ace_cache : option ace_cache_t) (id : propid)
    (what : dav_prop_insert) : R (dav_prop_insert * string) :=
  match get_livepropspec_from_id dav_acl_props id with
  | None => crash
  | Some spec =>
      let name := lps_name spec in
      if bool_decide (resourcetype (res_dbr res) = Some dav_repos_LOCKNULL)
      then mret (DAV_PROP_INSERT_NOTDEF, EmptyString)
      else
        match what with
        | DAV_PROP_INSERT_SUPPORTED => mret (what, supported_tag DEBUG_CR (empty_tag name))
        | DAV_PROP_INSERT_VALUE =>
            v ← acl_value res ace_cache id;
            mret (match v with
                  | inl answer => (answer, EmptyString)
                  | inr val => (what, closed_tag name val)
                  end)
        | _ => mret (what, EmptyString)
        end
  end.

Definition dav_acl_is_writable (id : propid) : bool :=
  match get_livepropspec_from_id dav_acl_props id with
  | Some spec => is_writable spec
  | None => false
  end.

Definition dav_acl_insert_all_liveprops (res : dav_resource) (what : dav_prop_insert) : string :=
  if regular res then
    let s := list_all_liveprops dav_acl_props in
    match what with
    | DAV_PROP_INSERT_NAME => s
    | DAV_PROP_INSERT_SUPPORTED =>
        "<D:supported-live-property><D:prop>" +:+ s +:+ "</D:prop></D:supported-live-property>"
    | _ => EmptyString
    end
  else EmptyString.
End acl_props.
