(* ===== verification/AclPropsSpec.v ===== *)
(** * The entries that are shown decide

    The list of entries of DAV:acl, read from the top, gives the answer of the check of
    access for every principal and privilege. *)
From S2P Require Import Prelude Util Dbd Mime Db Bind Paths Resource DbmsDeltav Bridge Groups Users Properties Acl Listing Request Create Principal Copy Search SearchResponse LiveProps AclProps.
From stdpp Require Import gmap pretty sorting.
Local Open Scope Z_scope.
Local Open Scope limestone_scope.

(** ** The order of the rows *)

Definition not_after (x y : acl_row) : Prop := before_ace (row_key y) (row_key x) = false.

#[export] Instance not_after_trans : Transitive not_after.
Proof. intros x y z. unfold not_after. apply before_ace_false_trans. Qed.

Lemma insert_row_perm x l : insert_row x l ≡ₚ x :: l.
Proof.
  induction l as [|y l IH]; cbn; [done|]. destruct (before_ace _ _); [|done].
  rewrite IH. apply perm_swap.
Qed.

Lemma insert_row_sorted x l : StronglySorted not_after l -> StronglySorted not_after (insert_row x l).
Proof.
  induction 1 as [|y l Hl IH Hy]; cbn; [by repeat constructor|].
  destruct (before_ace (row_key y) (row_key x)) eqn:E.
  - constructor; [done|]. rewrite insert_row_perm. constructor; [|done].
    by apply before_ace_asym.
  - constructor; [by constructor|]. constructor; [done|].
    eapply Forall_impl; [exact Hy|]. intros z Hz. by transitivity y.
Qed.

Lemma acl_rows_perm id d : acl_rows id d ≡ₚ joined_aces id d.
Proof.
  unfold acl_rows. induction (joined_aces id d) as [|x l IH]; cbn; [done|].
  by rewrite insert_row_perm, IH.
Qed.

Lemma acl_rows_sorted id d : StronglySorted not_after (acl_rows id d).
Proof.
  unfold acl_rows. induction (joined_aces id d) as [|x l IH]; cbn; [constructor|].
  by apply insert_row_sorted.
Qed.

(** The first row of a kind comes before all rows of the kind. *)
Lemma find_sorted f l x :
  StronglySorted not_after l -> List.find f l = Some x ->
  x ∈ l /\ f x = true /\ forall y, y ∈ l -> f y = true -> not_after x y.
Proof.
  induction 1 as [|y l Hl IH Hy]; cbn; [done|]. destruct (f y) eqn:E.
  - intros [= ->]. split; [by left|]. split; [done|].
    intros z [->|Hz]%elem_of_cons _; [apply before_ace_irrefl|].
    rewrite Forall_forall in Hy. by apply Hy.
  - intros Hx. destruct (IH Hx) as (Hin & Hf & Hmin). split; [by right|]. split; [done|].
    intros z [->|Hz]%elem_of_cons Hz'; [congruence|auto].
Qed.

(** ** The rows decide *)

Definition row_matches (members types : list Z) (x : acl_row) : bool :=
  bool_decide (a_prin (ar_ace x) ∈ members) && bool_decide (ar_privilege x ∈ types).

Definition rows_decide (members types : list Z) (l : list acl_row) : option bool :=
  (fun x => String.eqb (a_grantdeny (ar_ace x)) ACL_GRANT) <$> List.find (row_matches members types) l.

(** Keys and references of the tables of access control. *)
Record acl_tables_ok (d : db) : Prop := {
  ato_ids : NoDup (map a_id (aces d));
  ato_positive : Forall (fun a => 0 < a_id a) (aces d);
  ato_principals : NoDup (map p_res (principals d));
  ato_refs : Forall (fun a => a_prin a ∈ map p_res (principals d)) (aces d)
}.

Lemma joined_aces_elem id d x :
  x ∈ joined_aces id d ->
  ar_ace x ∈ aces d
  /\ (a_id (ar_ace x), ar_privilege x) ∈ dav_aces_privileges d
  /\ (exists p, p ∈ principals d /\ p_res p = a_prin (ar_ace x) /\ ar_name x = p_name p)
  /\ (exists path, (ar_res x, path) ∈ inherited_res id d /\ ar_res x = a_res (ar_ace x)
                   /\ ar_length x = String.length path).
Proof.
  unfold joined_aces. rewrite list_elem_of_In, in_flat_map.
  intros (a & Ha & (ap & Hap & (p & Hp & (par & <- & Hpar)%in_map_iff)%in_flat_map)%in_flat_map).
  apply filter_In in Hap as [Hap E1%bool_decide_eq_true], Hp as [Hp E2%bool_decide_eq_true],
    Hpar as [Hpar E3%bool_decide_eq_true].
  cbn. rewrite !list_elem_of_In. destruct ap as [i t], par as [i' path]. cbn in *. subst.
  split_and!; [done|done| |].
  - exists p. by rewrite list_elem_of_In.
  - exists path. by rewrite list_elem_of_In.
Qed.

Lemma joined_aces_intro id d a t par :
  acl_tables_ok d -> a ∈ aces d -> (a_id a, t) ∈ dav_aces_privileges d ->
  par ∈ inherited_res id d -> par.1 = a_res a ->
  exists x, x ∈ joined_aces id d /\ ar_ace x = a /\ ar_privilege x = t /\ ar_length x = String.length par.2.
Proof.
  intros Hok Ha Ht Hpar E. pose proof (ato_refs d Hok) as Hr. rewrite Forall_forall in Hr.
  destruct (proj1 (list_elem_of_fmap _ _ _) (Hr a Ha)) as (p & Hp & Hpin).
  eexists (AclRow a (p_name p) _ t par.1 (String.length par.2)). split; [|done].
  unfold joined_aces. apply list_elem_of_In, in_flat_map. exists a. split; [by apply list_elem_of_In|].
  apply in_flat_map. exists (a_id a, t). split.
  { apply filter_In. rewrite <- list_elem_of_In. split; [done|]. by apply bool_decide_eq_true. }
  apply in_flat_map. exists p. split.
  { apply filter_In. rewrite <- list_elem_of_In. split; [done|]. by apply bool_decide_eq_true. }
  apply in_map_iff. exists par. split; [reflexivity|].
  apply filter_In. rewrite <- list_elem_of_In. split; [done|]. by apply bool_decide_eq_true.
Qed.

Lemma relevant_iff p_id privs id d k :
  acl_tables_ok d ->
  k ∈ relevant_aces p_id privs id d
  <-> exists x, x ∈ joined_aces id d /\ row_key x = k /\ row_matches (membership p_id d) privs x = true.
Proof.
  intros Hok. unfold relevant_aces. rewrite list_elem_of_In, in_flat_map. split.
  - intros (a & Ha & Hk). destruct (_ && _) eqn:E; [|done].
    apply andb_true_iff in E as [Hm%bool_decide_eq_true (ap & Hap & Ht%bool_decide_eq_true)%existsb_exists].
    apply in_map_iff in Hk as (par & <- & [Hpar Hres%bool_decide_eq_true]%filter_In).
    apply list_elem_of_In in Ha; apply list_elem_of_In in Hap; apply list_elem_of_In in Hpar. destruct ap as [i t]. cbn in Ht. destruct Ht as [-> Ht].
    destruct (joined_aces_intro id d a t par) as (x & Hx & <- & <- & El); [done..|].
    exists x. split; [done|]. split; [unfold row_key; by rewrite El|].
    unfold row_matches. by rewrite !bool_decide_eq_true_2.
  - intros (x & Hx & <- & [Hm%bool_decide_eq_true Ht%bool_decide_eq_true]%andb_true_iff).
    apply joined_aces_elem in Hx as (Ha & Hap & _ & path & Hpar & Hres & El).
    exists (ar_ace x). split; [by apply list_elem_of_In|].
    assert (existsb (fun ap => bool_decide (ap.1 = a_id (ar_ace x) /\ ap.2 ∈ privs))
              (dav_aces_privileges d) = true) as ->.
    { apply existsb_exists. exists (a_id (ar_ace x), ar_privilege x).
      rewrite <- list_elem_of_In. split; [done|]. by apply bool_decide_eq_true. }
    rewrite bool_decide_eq_true_2 by done. cbn [andb]. apply in_map_iff. exists (ar_res x, path).
    split; [unfold row_key; by rewrite El|]. apply filter_In. rewrite <- list_elem_of_In.
    split; [done|]. by apply bool_decide_eq_true.
Qed.

(** Two first entries are one. *)
Lemma first_entries_same (x y : ace_row * nat) d :
  NoDup (map a_id (aces d)) -> x.1 ∈ aces d -> y.1 ∈ aces d ->
  before_ace x y = false -> before_ace y x = false -> x.1 = y.1.
Proof.
  intros Hnd Hx Hy Hxy Hyx. apply (NoDup_map_eq a_id (aces d)); [done..|].
  unfold before_ace in *.
  destruct (String.eqb (a_protected x.1) DB_TRUE), (String.eqb (a_protected y.1) DB_TRUE);
    cbn in *; try done;
    rewrite !orb_false_iff, !andb_false_iff, !bool_decide_eq_false in *; lia.
Qed.

Lemma rows_decide_granted p ns privilege id d :
  acl_tables_ok d ->
  default false (rows_decide (membership (dav_repos_get_principal_id p) d)
                   (aggregate_privileges ns privilege d) (acl_rows id d))
  = granted p ns privilege id d.
Proof.
  intros Hok. pose proof (ato_ids d Hok) as Hnd. unfold rows_decide, granted, decision.
  set (members := membership _ d). set (types := aggregate_privileges ns privilege d).
  pose proof (first_ace_spec (relevant_aces (dav_repos_get_principal_id p) types id d)) as Hf.
  pose proof (fun k => relevant_iff (dav_repos_get_principal_id p) types id d k Hok) as Hrel.
  fold members in Hrel. destruct (List.find _ (acl_rows id d)) as [x|] eqn:E; cbn [fmap option_fmap option_map default].
  - apply find_sorted in E as (Hin & Hm & Hmin); [|apply acl_rows_sorted].
    rewrite acl_rows_perm in Hin.
    assert (row_key x ∈ relevant_aces (dav_repos_get_principal_id p) types id d) as Hx
      by (apply Hrel; by exists x).
    destruct (first_ace _) as [k|]; [|rewrite Hf in Hx; set_solver].
    destruct Hf as [Hk Hkmin]. cbn. do 2 f_equal. change (ar_ace x) with (row_key x).1.
    apply Hrel in Hk as (y & Hy & <- & Hmy).
    apply (first_entries_same _ _ d); [done|apply (joined_aces_elem _ _ _ Hin)|
      apply (joined_aces_elem _ _ _ Hy)|by apply Hkmin|].
    apply Hmin; [by rewrite acl_rows_perm|done].
  - destruct (first_ace _) as [k|]; [|done]. destruct Hf as [Hk _].
    apply Hrel in Hk as (y & Hy & _ & Hmy). cbn.
    assert (In y (acl_rows id d)) as Hin by (apply list_elem_of_In; by rewrite acl_rows_perm).
    apply (find_none _ _ E) in Hin. congruence.
Qed.

(** ** Computations that read and answer

    [Answers s m P]: in the state [s], where nothing is refused, [m] gives a result with [P]
    and leaves the state, and the types of principals in the cache stay those of the
    tables. *)

Definition type_of_name (n : string) (d : db) : option dav_repos_type :=
  head (flat_map (fun p =>
        map r_type (List.filter (fun r => bool_decide (r_id r = p_res p)) (resources d)))
        (List.filter (fun p => bool_decide (p_name p = n)) (principals d))).

Definition types_cached (cache : dav_repos_cache) (d : db) : Prop :=
  forall n t, cache_principal_type cache !! n = Some t -> t = type_of_name n d.

Definition Answers {A} (s : conn) (m : R A) (P : A -> Prop) : Prop :=
  forall cache, types_cached cache (c_db s) ->
  exists x cache', m cache s = (Ret (x, cache'), s) /\ types_cached cache' (c_db s) /\ P x.

Lemma reads_leaves {A} (m : M A) s : Reads m -> quiet s -> (m s).2 = s.
Proof.
  intros Hm Hq. destruct (Hm s) as (H1 & _ & [H2 H3] & H4). destruct (H4 Hq) as [H5 H6].
  unfold quiet in Hq. destruct s, (m _).2. cbn in *. congruence.
Qed.

Lemma answers_ret {A} s (x : A) (P : A -> Prop) : P x -> Answers s (mret x) P.
Proof. intros H cache Hc. by exists x, cache. Qed.

Lemma answers_bind {A B} s (m : R A) (f : A -> R B) (P : B -> Prop) :
  Answers s m (fun x => Answers s (f x) P) -> Answers s (m ≫= f) P.
Proof.
  intros H cache Hc. destruct (H cache Hc) as (x & c1 & E & Hc1 & H1).
  destruct (H1 c1 Hc1) as (y & c2 & E2 & H2). exists y, c2. split; [|done].
  unfold mbind, R_bind, obind. rewrite bind_run, E. exact E2.
Qed.

Lemma answers_run_out {A} s (m : M (outcome A)) (x : A) (P : A -> Prop) :
  Reads m -> quiet s -> (m s).1 = Ret x -> P x -> Answers s (run_out m) P.
Proof.
  intros Hm Hq E H cache Hc. exists x, cache. split; [|done].
  unfold run_out, obind. rewrite bind_run, (reads_leaves m) by done. by rewrite E.
Qed.

Lemma answers_run {A} s (m : M A) (P : A -> Prop) :
  Reads m -> quiet s -> P (m s).1 -> Answers s (run m) P.
Proof.
  intros Hm Hq H. unfold run. apply (answers_run_out s _ (m s).1); [|done| |done].
  - unfold lift. apply reads_bind; [done|]. intros a. apply reads_ret.
  - unfold lift. by rewrite bind_run.
Qed.

Lemma answers_mono {A} s (m : R A) (P Q : A -> Prop) :
  Answers s m P -> (forall x, P x -> Q x) -> Answers s m Q.
Proof. intros H HPQ cache Hc. destruct (H cache Hc) as (x & c & ? & ? & ?). exists x, c. auto. Qed.

Lemma select_answer {A} (f : db -> A) s : quiet s -> (select f s).1 = Some (f (c_db s)).
Proof. destruct s. unfold quiet. cbn. by intros ->. Qed.

(** ** Names of principals *)

Section decides.
Context {lib : SearchLib} {req : Request}.
Variable make_from_url : string -> db -> dav_principal.
Variable href_prefix : string.
Variable new_by_type : Z -> string * string.

(** The principal a name stands for. *)
Definition principal_of_name (n : string) (d : db) : dav_principal :=
  if String.eqb n "all" then Principal PRINCIPAL_ALL 0 EmptyString
  else if String.eqb n "authenticated" then Principal PRINCIPAL_AUTHENTICATED 0 EmptyString
  else if String.eqb n "unauthenticated" then Principal PRINCIPAL_UNAUTHENTICATED 0 EmptyString
  else make_from_url (href_prefix
         +:+ (if bool_decide (type_of_name n d = Some dav_repos_GROUP) then PRINCIPAL_GROUP_PREFIX
              else PRINCIPAL_USER_PREFIX) +:+ n) d.

Lemma cached_type_answers s n :
  quiet s -> Answers s (cached_principal_type n) (fun t => t = type_of_name n (c_db s)).
Proof.
  intros Hq cache Hc. unfold cached_principal_type.
  destruct (cache_principal_type cache !! n) as [t|] eqn:E.
  - exists t, cache. split; [done|]. split; [done|]. by apply Hc.
  - exists (type_of_name n (c_db s)), (Cache (<[n := type_of_name n (c_db s)]> (cache_principal_type cache))
      (cache_namespaces cache) (cache_privileges cache)).
    split; [|split; [|done]].
    + rewrite bind_run. unfold dbms_get_principal_type_from_name. rewrite bind_run.
      assert (forall f : db -> option dav_repos_type, select f s = (Some (f (c_db s)), s)) as Hs.
      { intros f. destruct s. unfold quiet in Hq. cbn in Hq. by subst. }
      rewrite Hs. cbn [fst snd mret M_ret]. fold (type_of_name n (c_db s)).
      destruct (type_of_name n (c_db s)); reflexivity.
    + intros m t. cbn. intros [[<- <-]|[_ H]]%lookup_insert_Some; [done|by apply Hc].
Qed.

Lemma prin_by_name_answers s n :
  quiet s ->
  Answers s (dav_repos_get_prin_by_name make_from_url href_prefix (Some n))
    (fun p => p = principal_of_name n (c_db s)).
Proof.
  intros Hq. unfold dav_repos_get_prin_by_name, principal_of_name.
  repeat (case_match; [by apply answers_ret|]).
  apply answers_bind. eapply answers_mono; [by apply cached_type_answers|]. intros t ->.
  unfold principal_from_url. apply answers_bind, answers_run; [apply reads_get_db|done|].
  by apply answers_ret.
Qed.

(** ** The loop *)

Context (members types : list Z).

(** The first entry that bears on a privilege of [types] for one of [members]. *)
Definition ace_matches (x : shown_ace) : bool :=
  bool_decide (dav_repos_get_principal_id (ace_principal (shown x)) ∈ members)
  && existsb (fun t => bool_decide (new_by_type t ∈ ace_privileges (shown x))) types.

Definition acl_decides (acl : list shown_ace) : option bool :=
  (fun x => negb (is_deny (shown x))) <$> List.find ace_matches acl.

Definition first_of (a b : option bool) : option bool := match a with Some x => Some x | None => b end.

Lemma first_of_assoc a b c : first_of (first_of a b) c = first_of a (first_of b c).
Proof. by destruct a. Qed.

Lemma acl_decides_app l k : acl_decides (l ++ k) = first_of (acl_decides l) (acl_decides k).
Proof.
  unfold acl_decides. induction l as [|x l IH]; cbn; [done|]. by destruct (ace_matches x).
Qed.

Lemma acl_decides_one x :
  acl_decides [x] = if ace_matches x then Some (negb (is_deny (shown x))) else None.
Proof. unfold acl_decides. cbn. by destruct (ace_matches x). Qed.

Lemma rows_decide_cons row l :
  rows_decide members types (row :: l)
  = first_of (if row_matches members types row
              then Some (String.eqb (a_grantdeny (ar_ace row)) ACL_GRANT) else None)
      (rows_decide members types l).
Proof. unfold rows_decide. cbn. by destruct (row_matches members types row). Qed.

(** What the loop needs of a row, in the tables of the moment. *)
Record row_ok (s : conn) (r : dav_repos_resource) (row : acl_row) : Prop := {
  ro_ace : ar_ace row ∈ aces (c_db s);
  ro_name : dav_repos_get_principal_id (principal_of_name (ar_name row) (c_db s)) = a_prin (ar_ace row);
  ro_reach : reaches (binds (c_db s)) ROOT_COLLECTION_ID (ar_res row)
}.

(** The entry under construction is one of the table. *)
Definition pending_ok (s : conn) (prev : Z) (pending : option shown_ace) : Prop :=
  match pending with
  | None => prev = -1
  | Some p => exists a, a ∈ aces (c_db s) /\ prev = a_id a
      /\ is_deny (shown p) = negb (String.eqb (a_grantdeny a) ACL_GRANT)
      /\ dav_repos_get_principal_id (ace_principal (shown p)) = a_prin a
  end.

Lemma inherited_uri_answers s r row :
  quiet s -> has_resource r = true -> row_ok s r row ->
  Answers s (inherited_uri r row) (fun _ => True).
Proof.
  intros Hq Hr Hrow. unfold inherited_uri. case_bool_decide; [by apply answers_ret|].
  unfold sabridge_new_dbr_from_dbr. rewrite Hr. apply answers_bind.
  set (parent := set_serialno _ _). unfold sabridge_reverse_lookup.
  destruct (shortest_path_spec ROOT_COLLECTION_ID (serialno parent) s) as (res & E & _ & Hres).
  destruct res as [[e|] [path|]].
  - exfalso. eapply shortest_path_quiet; [exact Hq|]. by rewrite E.
  - exfalso. eapply shortest_path_quiet; [exact Hq|]. by rewrite E.
  - eapply answers_run_out; [reads|done| |by apply answers_ret].
    rewrite bind_run, E. reflexivity.
  - by destruct (Hres (ro_reach _ _ _ Hrow)).
Qed.

Lemma matches_new_privilege principal privileges property property' deny prot inherited inherited' t :
  Inj (=) (=) new_by_type ->
  ace_matches (ShownAce (Ace principal property (privileges ++ [new_by_type t]) deny prot) inherited)
  = ace_matches (ShownAce (Ace principal property' privileges deny prot) inherited')
    || bool_decide (dav_repos_get_principal_id principal ∈ members) && bool_decide (t ∈ types).
Proof.
  intros Hinj. unfold ace_matches. cbn [shown ace_principal ace_privileges].
  rewrite <- andb_orb_distrib_r. f_equal. apply eq_true_iff_eq.
  rewrite orb_true_iff, !existsb_exists, bool_decide_eq_true. split.
  - intros (u & Hu & [H|H%list_elem_of_singleton]%bool_decide_eq_true%elem_of_app).
    + left. exists u. by rewrite bool_decide_eq_true.
    + right. apply Hinj in H. subst. by apply list_elem_of_In.
  - intros [(u & Hu & H%bool_decide_eq_true)|H].
    + exists u. rewrite bool_decide_eq_true. set_solver.
    + exists t. rewrite bool_decide_eq_true. split; [by apply list_elem_of_In|set_solver].
Qed.

Definition done_with (pending : option shown_ace) (acl : list shown_ace) : list shown_ace :=
  match pending with Some p => acl ++ [p] | None => acl end.

Lemma no_privileges l : existsb (fun u => bool_decide (new_by_type u ∈ [])) l = false.
Proof. induction l as [|u l IH]; [done|]. cbn [existsb]. by rewrite bool_decide_eq_false_2, IH by set_solver. Qed.

Lemma acl_loop_answers s r rows prev pending acl :
  Inj (=) (=) new_by_type -> quiet s -> has_resource r = true ->
  NoDup (map a_id (aces (c_db s))) -> Forall (fun a => 0 < a_id a) (aces (c_db s)) ->
  Forall (row_ok s r) rows -> pending_ok s prev pending ->
  Answers s (acl_loop make_from_url href_prefix new_by_type r rows prev pending acl)
    (fun res => acl_decides res = first_of (acl_decides (done_with pending acl))
                                    (rows_decide members types rows)).
Proof.
  intros Hinj Hq Hr Hnd Hpos Hrows. revert prev pending acl.
  induction Hrows as [|row rows Hrow _ IH]; intros prev pending acl Hpend.
  { apply answers_ret. unfold done_with. by destruct (acl_decides _). }
  cbn [acl_loop]. fold (done_with pending acl). cbv zeta.
  pose proof (ro_ace _ _ _ Hrow) as Hace. pose proof (ro_name _ _ _ Hrow) as Hname.
  rewrite rows_decide_cons, <- first_of_assoc. unfold row_matches. rewrite <- Hname.
  case_bool_decide as Hsame.
  - destruct pending as [[[prin property privileges deny prot] inherited]|].
    + destruct Hpend as (a & Ha & Hid & Hdeny & Hprin). cbn in Hdeny, Hprin.
      assert (a = ar_ace row) as -> by (apply (NoDup_map_eq a_id (aces (c_db s))); congruence).
      apply answers_bind. eapply answers_mono; [by apply prin_by_name_answers|]. intros ? ->.
      apply answers_bind. eapply answers_mono; [by apply (inherited_uri_answers s r row)|]. intros inh _.
      eapply answers_mono; [apply IH; exists (ar_ace row); by repeat split|]. cbn beta. intros res ->.
      f_equal. cbn [done_with]. rewrite !acl_decides_app, first_of_assoc. f_equal.
      rewrite !acl_decides_one. cbn [shown ace_privileges].
      rewrite (matches_new_privilege _ _ _ property _ _ _ inherited) by done. cbn [is_deny].
      unfold ace_matches at 1 2. cbn [shown ace_principal ace_privileges is_deny].
      rewrite Hname, <- Hprin, negb_involutive, Hdeny, negb_involutive.
      by destruct (bool_decide _ && existsb _ _).
    + exfalso. cbn in Hpend. rewrite Forall_forall in Hpos. specialize (Hpos _ Hace). lia.
  - apply answers_bind. eapply answers_mono; [by apply prin_by_name_answers|]. intros ? ->.
    apply answers_bind. eapply answers_mono; [by apply (inherited_uri_answers s r row)|]. intros inh _.
    eapply answers_mono; [apply IH; exists (ar_ace row); by repeat split|]. cbn beta. intros res ->.
    f_equal. cbn [done_with]. rewrite acl_decides_app. f_equal. rewrite acl_decides_one.
    rewrite (matches_new_privilege _ [] _ None _ _ _ None) by done. cbn [shown is_deny].
    rewrite negb_involutive. unfold ace_matches. cbn [shown ace_principal ace_privileges].
    by rewrite no_privileges, andb_false_r.
Qed.
End decides.

(** The names of the principals of the tables stand for them, and the resources whose
    entries a resource has can be reached. *)
Definition names_resolve (make_from_url : string -> db -> dav_principal) (href_prefix : string) (d : db) : Prop :=
  forall p, p ∈ principals d ->
    dav_repos_get_principal_id (principal_of_name make_from_url href_prefix (p_name p) d) = p_res p.
Definition acl_parents_reachable (id : Z) (d : db) : Prop :=
  forall par, par ∈ inherited_res id d -> reaches (binds d) ROOT_COLLECTION_ID par.1.

Lemma acl_rows_ok make_from_url href_prefix s r :
  names_resolve make_from_url href_prefix (c_db s) ->
  acl_parents_reachable (serialno r) (c_db s) ->
  Forall (row_ok make_from_url href_prefix s r) (acl_rows (serialno r) (c_db s)).
Proof.
  intros Hnames Hreach. apply Forall_forall. intros row Hrow. rewrite acl_rows_perm in Hrow.
  apply joined_aces_elem in Hrow as (Ha & _ & (p & Hp & Hid & Hname) & path & Hpar & _).
  split; [done| |by apply (Hreach _ Hpar)].
  by rewrite Hname, Hnames.
Qed.

(** C21. With no refusal the entries of a resource can be shown, whatever their number, and the
    list shown is the rule: the first entry that bears on a privilege, for the principal
    or a group it is in, gives the answer of the check of access, and without one access
    is refused. *)
Theorem current_acl_decides {lib : SearchLib} {req : Request} make_from_url href_prefix new_by_type r ns
    privilege p also cache ace_cache s :
  Inj (=) (=) new_by_type -> quiet s -> c_errnum s = false -> has_resource r = true ->
  acl_tables_ok (c_db s) -> names_resolve make_from_url href_prefix (c_db s) ->
  acl_parents_reachable (serialno r) (c_db s) -> types_cached cache (c_db s) ->
  dav_repos_get_principal_id p <> SUPER_USER_ID ->
  cache_hit ace_cache (dav_repos_get_principal_id p) ns privilege = None ->
  exists acl cache',
    dbms_get_acl make_from_url href_prefix new_by_type r cache s = (Ret (acl, cache'), s)
    /\ (dbms_is_allow ns privilege p also r ace_cache s).1.1
       = int_of_bool (default false (acl_decides new_by_type
           (membership (dav_repos_get_principal_id p) (c_db s))
           (aggregate_privileges ns privilege (c_db s)) acl)).
Proof.
  intros Hinj Hq He Hr Hok Hnames Hreach Hc Hsu Hhit.
  assert (Answers s (dbms_get_acl make_from_url href_prefix new_by_type r) (fun acl =>
    acl_decides new_by_type (membership (dav_repos_get_principal_id p) (c_db s))
      (aggregate_privileges ns privilege (c_db s)) acl
    = rows_decide (membership (dav_repos_get_principal_id p) (c_db s))
        (aggregate_privileges ns privilege (c_db s)) (acl_rows (serialno r) (c_db s)))) as H.
  { unfold dbms_get_acl. apply answers_bind, answers_run; [unfold dbms_lookup_prin_id; reads|done|].
    apply answers_bind.
    apply (answers_mono s _ (fun _ => True) (fun _ => Answers s _ _)).
    - destruct (dbms_lookup_prin_id _ s).1 as [n|]; [|by apply answers_ret].
      eapply answers_mono; [by apply prin_by_name_answers|done].
    - intros _ _. apply answers_bind, answers_run; [apply reads_select|done|].
      rewrite select_answer by done.
      eapply answers_mono; [apply acl_loop_answers; try done; try apply Hok; by apply acl_rows_ok|].
      cbn beta. by intros acl ->. }
  destruct (H cache Hc) as (acl & cache' & E & _ & Hacl). exists acl, cache'. split; [done|].
  rewrite is_allow_result; [|done|done|].
  - cbn [fst]. by rewrite Hacl, rows_decide_granted.
  - rewrite (reads_leaves (dbms_is_allow _ _ _ _ _ _)); [done| |done].
    unfold dbms_is_allow. reads.
Qed.
