(* ===== verification/MembersShown.v ===== *)
(** * Setting the members of a group to those shown

    The URLs that DAV:group-member-set shows are read back as the names of the members,
    and a PROPPATCH with them finds nothing to add and nothing to remove. *)
From S2P Require Import Prelude Util Dbd Mime Db Bind Resource DbmsDeltav Bridge Groups GroupCounts GroupMembers Users Properties Acl Listing Request Create Principal Copy Search SearchResponse LiveProps AclProps AclPropsSpec.
From stdpp Require Import gmap.
Local Open Scope Z_scope.
Local Open Scope limestone_scope.

Lemma strstr_prefix s t : strstr (s +:+ t) s = true.
Proof. pose proof (string_prefix_app s t) as H. destruct (s +:+ t); cbn [strstr]; by rewrite H. Qed.

(** A group whose URL has the prefix of users in it is taken for a user. *)
Definition plain_member (m : Z * string * dav_repos_type) : Prop :=
  m.2 = dav_repos_USER
  \/ m.2 = dav_repos_GROUP /\ strstr (PRINCIPAL_GROUP_PREFIX +:+ m.1.2) PRINCIPAL_USER_PREFIX = false.

Lemma name_of_member_url prefix m :
  plain_member m -> get_name_from_principal_URL prefix (Some (prefix +:+ member_uri m)) = Some m.1.2.
Proof.
  intros Hm. unfold get_name_from_principal_URL. rewrite string_prefix_app, drop_string_app.
  destruct m as [[i n] t]. unfold plain_member, member_uri in *. cbn [fst snd] in *.
  destruct Hm as [->|[-> Hu]].
  - by rewrite strstr_prefix.
  - by rewrite Hu, strstr_prefix.
Qed.

Lemma member_names_shown {lib : SearchLib} prefix l elems :
  Forall plain_member l -> map dav_xml_get_cdata elems = map (fun m => prefix +:+ member_uri m) l ->
  member_names prefix elems = inr (map (fun m => m.1.2) l).
Proof.
  intros Hl. revert elems. induction Hl as [|m l Hm _ IH]; intros [|e elems]; [done..|].
  cbn [map member_names]. intros [= -> E]. by rewrite name_of_member_url, (IH elems) by done.
Qed.

(** ** The members that are listed *)

Lemma group_member_rows_spec group d n :
  principals_ok d ->
  (exists m, m ∈ group_member_rows group d /\ m.1.2 = n)
  <-> exists i, id_of d n = Some i /\ i ∈ current_members group d.
Proof.
  intros Hok. setoid_rewrite current_members_spec. unfold group_member_rows. split.
  - intros (m & Hm & <-). apply list_elem_of_In, in_flat_map in Hm as (p & Hp & Hm).
    apply in_flat_map in Hm as (gm & Hgm & Hm). case_bool_decide; [subst gm|done].
    apply in_map_iff in Hm as (r & <- & _). exists (p_res p). cbn.
    rewrite <- list_elem_of_In in Hp. apply list_elem_of_In in Hgm. split; [|done].
    apply id_of_some; [done|eauto].
  - intros (i & Hi & Hgm). apply id_of_some in Hi as (p & Hp & <- & <-); [|done].
    destruct (po_resource d Hok p Hp) as (r & Hr & Hid). exists (p_res p, p_name p, r_type r).
    split; [|done]. apply list_elem_of_In, in_flat_map. exists p. split; [by apply list_elem_of_In|].
    apply in_flat_map. exists (group, p_res p). split; [by apply list_elem_of_In|].
    rewrite bool_decide_eq_true_2 by done. apply in_map_iff. exists r. split; [done|].
    apply filter_In. split; [by apply list_elem_of_In|by apply bool_decide_eq_true].
Qed.

(** ** The changes *)

(** Names of members are taken out of the hash. *)
Lemma change_loop_members d cur names H R :
  principals_ok d -> (forall n, n ∈ names -> exists i, id_of d n = Some i /\ i ∈ cur) ->
  change_loop (map (row_of_name d cur) names) H R = (None, foldl (fun h n => delete n h) H names, R).
Proof.
  intros Hok. revert H. induction names as [|n names IH]; intros H Hn; [done|].
  destruct (Hn n) as (i & Hi & Hcur); [by left|]. cbn [map]. unfold row_of_name at 1. rewrite Hi.
  cbn [change_loop]. apply id_of_some in Hi as (p & Hp & _ & <-); [|done].
  destruct (po_resource d Hok p Hp) as (r & Hr & Hid). pose proof (po_positive d Hok r Hr).
  rewrite (bool_decide_eq_false_2 (p_res p = 0)) by lia. rewrite bool_decide_eq_true_2 by done.
  cbn [foldl]. apply IH. intros k Hk. apply Hn. by right.
Qed.

Lemma delete_all (names : list string) (h : gmap string (option Z)) :
  (forall n o, h !! n = Some o -> n ∈ names) -> foldl (fun h n => delete n h) h names = ∅.
Proof.
  intros Hh. apply map_eq. intros n. rewrite lookup_empty.
  assert (forall l (k : gmap string (option Z)), (n ∈ l \/ k !! n = None) ->
            foldl (fun h n => delete n h) k l !! n = None) as Hl.
  { induction l as [|x l IH]; intros k [Hn|Hn]; cbn; [set_solver|done| |].
    - apply IH. destruct (decide (x = n)) as [->|]; [right; apply lookup_delete_eq|left; set_solver].
    - apply IH. right. destruct (decide (x = n)) as [->|]; [apply lookup_delete_eq|by rewrite lookup_delete_ne]. }
  apply Hl. destruct (h !! n) as [o|] eqn:E; [left; by eapply Hh|by right].
Qed.

Lemma unnamed_none d names cur :
  (forall i, i ∈ cur -> exists n, n ∈ names /\ id_of d n = Some i) -> unnamed d names cur = [].
Proof.
  intros H. unfold unnamed. apply filter_bool_none. intros i Hi. apply negb_false_iff, bool_decide_eq_true.
  destruct (H i Hi) as (n & Hn & <-). apply Prelude.elem_of_map. by exists n.
Qed.

(** The members of a group, when all of them are named again. *)
Lemma validate_members esc group names s :
  quiet s -> principals_ok (c_db s) -> NoDup (group_members (c_db s)) ->
  (forall n, n ∈ names -> count_char QMARK (esc n) = 0%nat) ->
  (forall n, n ∈ names <-> exists i, id_of (c_db s) n = Some i /\ i ∈ current_members group (c_db s)) ->
  dav_acl_patch_validate esc group names s = ((None, ∅, []), s).
Proof.
  intros Hq Hok Hnd Hesc Hnames. destruct s as [d f n fl e]. unfold quiet in Hq. cbn [c_faults c_db] in *. subst f.
  unfold dav_acl_patch_validate. pose proof (elem_of_keys names) as Hkeys.
  assert (forall i, i ∈ current_members group d -> exists n, n ∈ names /\ id_of d n = Some i) as Hcur.
  { intros i Hi. pose proof Hi as Hm. apply current_members_spec in Hm.
    apply (po_members d Hok) in Hm as (p & Hp & Hid). exists (p_name p).
    assert (id_of d (p_name p) = Some i) as Hn by (apply id_of_some; eauto).
    split; [|done]. apply Hnames. by exists i. }
  case_bool_decide as Hempty.
  - assert (names = []) as -> by (destruct names; [done|]; by destruct (insert_non_empty _ _ _ Hempty)).
    rewrite bind_run. unfold dbms_get_group_members. rewrite bind_run, select_quiet. cbn [fst snd mret M_ret].
    destruct (group_member_ids_spec group d Hok Hnd) as [_ Hids].
    destruct (group_member_ids group d) as [|i l]; [by rewrite Hempty|].
    destruct (Hcur i) as (k & Hk & _); [|set_solver]. apply current_members_spec, Hids. by left.
  - unfold dbms_calculate_group_changes.
    assert (unset_parameters esc (map fst (map_to_list (new_members_hash names))) = false) as ->.
    { apply not_true_is_false. intros (k & Hk & Hc)%existsb_exists. apply list_elem_of_In in Hk.
      rewrite Hesc in Hc by (by apply Hkeys). done. }
    rewrite bind_run, select_quiet. cbn [fst snd mret M_ret]. rewrite group_change_rows_eq; [|done|by apply NoDup_edges_from].
    rewrite unnamed_none, app_nil_r.
    + rewrite change_loop_members; [|done|intros k Hk; by apply Hnames, Hkeys].
      rewrite delete_all; [done|]. intros k o Hk. apply Prelude.elem_of_map. exists (k, o).
      split; [done|]. by apply elem_of_map_to_list.
    + intros i Hi. destruct (Hcur i Hi) as (k & Hk & Hid). exists k. split; [by apply Hkeys|done].
Qed.

(** C22. The members that DAV:group-member-set shows can be set again, and then nothing is
    added and nothing is removed, unless the URL of a group reads as that of a user. *)
Theorem shown_members_roundtrip {lib : SearchLib} {rlib : ResponseLib} prefix esc res elem s :
  quiet s -> principals_ok (c_db s) -> NoDup (group_members (c_db s)) ->
  resourcetype (res_dbr res) = Some dav_repos_GROUP ->
  let group := serialno (res_dbr res) in
  let members := group_member_rows group (c_db s) in
  Forall plain_member members ->
  (forall m, m ∈ members -> count_char QMARK (esc m.1.2) = 0%nat) ->
  map dav_xml_get_cdata (dav_find_child elem "href") = map (fun m => prefix +:+ member_uri m) members ->
  get_group_member_set prefix res s
    = (String.concat EmptyString (map (fun m =>
         "<D:href>" +:+ apr_xml_quote_string (prefix +:+ member_uri m) +:+ "</D:href>") members), s)
  /\ acl_patch_validate prefix esc (res_dbr res) elem DAV_PROPID_group_member_set DAV_PROP_OP_SET s
     = ((None, Some (∅, [])), s)
  /\ dav_acl_patch_exec group ∅ [] s = (Ret None, s).
Proof.
  intros Hq Hok Hnd Ht group members Hplain Hesc Hcdata. split_and!.
  - destruct s as [d f n fl e]. unfold quiet in Hq. cbn in Hq. subst f. reflexivity.
  - unfold acl_patch_validate. rewrite !bool_decide_eq_true_2 by done. cbn [andb].
    rewrite (member_names_shown prefix members) by done. rewrite bind_run.
    rewrite validate_members; [done|done|done|done| |].
    + intros n Hn. apply Prelude.elem_of_map in Hn as (m & <- & Hm). by apply Hesc.
    + intros n. rewrite <- group_member_rows_spec by done. rewrite Prelude.elem_of_map. naive_solver.
  - reflexivity.
Qed.
