(* ===== verification/PrincipalReports.v ===== *)
(** * Reports on principals ([acl.c])

    The four reports of access control, and the entries that follow a property which
    names a principal. *)
From S2P Require Import Prelude Util Dbd Mime Db Bind Resource DbmsDeltav Bridge Groups Users Properties Acl Listing Request Create Principal Copy Repos Search SearchResponse LiveProps.
From stdpp Require Import gmap pretty.
Local Open Scope Z_scope.
Local Open Scope limestone_scope.

Definition SUPERUSER_PRINCIPAL_ID : Z := 1.

(** SELECT DISTINCT name ... WHERE aces.resource_id = ? *)
Definition ace_principal_names (id : Z) (d : db) : list string :=
  remove_dups (flat_map (fun p =>
    map (fun _ => p_name p)
      (List.filter (fun a => bool_decide (a_prin a = p_res p) && bool_decide (a_res a = id)) (aces d)))
    (principals d)).

Section reports.
Context {lib : SearchLib} {rlib : ResponseLib} {cfg : ServerConfig} {req : Request}.

(** As in [Principal]. *)
Variable make_from_url : string -> db -> dav_principal.
Variable href_prefix : string.

Fixpoint resolve_principals (names : list string) : R unit :=
  match names with
  | [] => mret tt
  | n :: rest =>
      _ ← dav_repos_get_prin_by_name make_from_url href_prefix (Some n);
      resolve_principals rest
  end.

(** The list is assigned to the parameter, so that the caller does not see it. *)
Definition dbms_get_principals (r : dav_repos_resource) (principals : list dav_repos_resource)
  : R (list dav_repos_resource) :=
  q ← run (select (ace_principal_names (serialno r)));
  match q with
  | None => crash
  | Some names => _ ← resolve_principals names; mret principals
  end.

(** ** Texts *)

Definition multistatus (body : string) : string :=
  "<D:multistatus xmlns:D=" +:+ QUOT +:+ "DAV:" +:+ QUOT +:+ ">" +:+ DEBUG_CR +:+ body +:+ "</D:multistatus>".

Definition status_ok : string := "<D:status>HTTP/1.1 200 OK</D:status>" +:+ DEBUG_CR.

(** A property without a value is a NULL text, and a record without its hash a NULL one. *)
Fixpoint prop_values (lpr_hash : option (gmap string string)) (l : list apr_xml_elem) : outcome string :=
  match l with
  | [] => Ret EmptyString
  | e :: rest =>
      match lpr_hash ≫= (fun h => h !! elem_name e) with
      | None => Crash
      | Some val =>
          match prop_values lpr_hash rest with
          | Crash => Crash
          | Ret t => Ret (closed_tag (elem_name e) (apr_xml_quote_string val) +:+ DEBUG_CR +:+ t)
          end
      end
  end.

(** The response for a record; [props] is NULL once its children have been gone through. *)
Definition prop_response (uri : option string) (lpr_hash : option (gmap string string))
    (props : option apr_xml_elem) : outcome string :=
  match dav_repos_mk_href apr_xml_quote_string uri, props with
  | Some href, Some p =>
      match prop_values lpr_hash (elem_children p) with
      | Crash => Crash
      | Ret values => Ret ("<D:response>" +:+ href +:+ "<D:propstat><D:prop>" +:+ values
                           +:+ "</D:prop>" +:+ status_ok +:+ "</D:propstat></D:response>")
      end
  | _, _ => Crash
  end.

(** ** The reports: the status of the response and its text *)

Fixpoint prop_set_responses (principals : list dav_repos_resource) (props : option apr_xml_elem)
  : R string :=
  match principals with
  | [] => mret EmptyString
  | p :: rest =>
      x ← run_out (sabridge_get_property p);
      match prop_response (uri x.2) (Some (dav_repos_build_lpr_hash x.2)) props with
      | Crash => crash
      | Ret t => u ← prop_set_responses rest None; mret (t +:+ u)
      end
  end.

Definition dav_repos_deliver_acl_principal_prop_set (res : dav_resource) (root : apr_xml_elem)
  : R (Z * string) :=
  let props := head (dav_find_child root "prop") in
  principals ← dbms_get_principals (res_dbr res) [];
  t ← prop_set_responses principals props;
  mret (HTTP_MULTI_STATUS, multistatus t).

(** A child without a name, or without a URI when it matches, is a NULL text. *)
Fixpoint match_responses (principal_properties : option apr_xml_elem) (principal_id : Z)
    (req_username : string) (l : list dav_repos_resource) : outcome string :=
  match l with
  | [] => Ret EmptyString
  | r :: rest =>
      let matches :=
        match principal_properties, displayname r with
        | Some e, _ => Ret (String.eqb (elem_name e) "owner" && bool_decide (owner_id r = principal_id))
        | None, Some n => Ret (String.eqb n req_username)
        | None, None => Crash
        end in
      match matches, match_responses principal_properties principal_id req_username rest with
      | Ret true, Ret t =>
          match uri r with
          | None => Crash
          | Some u => Ret ("<D:response><D:href>" +:+ apr_xml_quote_string u +:+ "</D:href>" +:+ DEBUG_CR
                           +:+ status_ok +:+ "</D:response>" +:+ t)
          end
      | Ret false, Ret t => Ret t
      | _, _ => Crash
      end
  end.

(** The error of the listing is dropped, and there are no children then. *)
Definition listed_children (db_r : dav_repos_resource) (depth : Z) : R (list dav_repos_resource) :=
  c ← run_out (sabridge_get_collection_children db_r depth (listing_acl "read"));
  mret (match c with inl _ => [] | inr (l, _) => l end).

Definition dav_repos_deliver_principal_match (res : dav_resource) (root : apr_xml_elem)
  : R (option dav_error * option (Z * string)) :=
  let req_username := default "unauthenticated"%string rec_user in
  p ← run (dbms_get_principal_id_from_name req_username);
  match p with
  | inl e => mret (Some e, None)
  | inr principal_id =>
      children ← listed_children (res_dbr res) DAV_INFINITY;
      match match_responses (head (dav_find_child root "principal-property")) principal_id
              req_username children with
      | Crash => crash
      | Ret t => mret (None, Some (HTTP_MULTI_STATUS, multistatus t))
      end
  end.

(** Whether a record has all the texts that are searched for; its hash is built by the
    first of them. *)
Fixpoint property_search (l : list apr_xml_elem) (r : dav_repos_resource)
    (lpr_hash : option (gmap string string)) : outcome (bool * option (gmap string string)) :=
  match l with
  | [] => Ret (true, lpr_hash)
  | elem :: rest =>
      if String.eqb (elem_name elem) "property-search" then
        let h := dav_repos_build_lpr_hash r in
        match (p ← head (dav_find_child elem "prop"); e ← head (elem_children p); h !! elem_name e),
              (m ← head (dav_find_child elem "match"); first_cdata m) with
        | Some val, Some text => if strstr val text then property_search rest r (Some h)
                                 else Ret (false, Some h)
        | _, _ => Crash
        end
      else property_search rest r lpr_hash
  end.

Fixpoint search_responses (search : list apr_xml_elem) (props : option apr_xml_elem)
    (l : list dav_repos_resource) : outcome string :=
  match l with
  | [] => Ret EmptyString
  | r :: rest =>
      match property_search search r None with
      | Crash => Crash
      | Ret (false, _) => search_responses search props rest
      | Ret (true, h) =>
          match prop_response (uri r) h props, search_responses search None rest with
          | Ret t, Ret u => Ret (t +:+ u)
          | _, _ => Crash
          end
      end
  end.

Definition dav_repos_deliver_principal_property_search (res : dav_resource) (root : apr_xml_elem)
  : R (Z * string) :=
  let db_r := res_dbr res in
  let props := head (dav_find_child root "prop") in
  children ← listed_children db_r 1;
  match head (dav_find_child root "principal-property-search") with
  | None => crash
  | Some search =>
      match search_responses (elem_children search) props (db_r :: children) with
      | Crash => crash
      | Ret t => mret (HTTP_MULTI_STATUS, multistatus t)
      end
  end.

(** The status of the response is left as it is. *)
Definition dav_repos_deliver_principal_search_property_set : string :=
  "<D:principal-search-property-set xmlns:D=" +:+ QUOT +:+ "DAV:" +:+ QUOT +:+ ">" +:+ DEBUG_CR
  +:+ "<D:principal-search-property>" +:+ DEBUG_CR +:+ "<D:prop>" +:+ DEBUG_CR
  +:+ "<D:displayname/>" +:+ DEBUG_CR +:+ "</D:prop>" +:+ DEBUG_CR
  +:+ "<D:description xml:lang=" +:+ QUOT +:+ "en" +:+ QUOT +:+ ">Full name</D:description>" +:+ DEBUG_CR
  +:+ "</D:principal-search-property>" +:+ DEBUG_CR
  +:+ "</D:principal-search-property-set>" +:+ DEBUG_CR.

(** ** A property that names a principal *)

(** With the hash of namespaces of the record; the errors are dropped. *)
Definition dav_repos_update_principal_property_aces (res : dav_resource) (ns name value : string)
    (ns_id_hash : gmap string Z) : R (gmap string Z) :=
  principal ← principal_from_url make_from_url value;
  let id := dav_repos_get_principal_id principal in
  let principal_id := if bool_decide (id <= 0) then SUPERUSER_PRINCIPAL_ID else id in
  n ← (fun cache => x <- lift (dbms_get_ns_id ns_id_hash cache ns) ;; oret (x.1, x.2));
  match n.1 with
  | inl _ => mret n.2
  | inr ns_id =>
      _ ← run (dbms_update_principal_property_aces (serialno (res_dbr res)) ns_id name principal_id);
      mret n.2
  end.
End reports.
