(* ===== verification/Reports.v ===== *)
(** * Reports on versions ([version.c])

    The tree of the versions of a resource, properties with the resources their values
    refer to, and the search for the resources of given histories; and the choice among
    all reports. *)
From S2P Require Import Prelude Util Dbd Mime Db Bind Resource DbmsDeltav Bridge Users Properties Acl Listing Request Create Principal Versions Copy Repos Search SearchBuild SearchResponse LiveProps AclProps PrincipalReports.
From stdpp Require Import gmap.
Local Open Scope Z_scope.
Local Open Scope limestone_scope.

(** What a report leaves: an error, the status it gave the response, and the text sent. *)
Record report := Report {
  rep_error : option dav_error;
  rep_status : option Z;
  rep_text : string
}.

Definition failed (e : dav_error) : report := Report (Some e) None EmptyString.
Definition no_report : report := failed (dav_new_error HTTP_INTERNAL_SERVER_ERROR).

(** The reports that OPTIONS announces. *)
Definition avail_reports : list (string * string) :=
  [("DAV:", "version-tree"); ("DAV:", "expand-property"); ("DAV:", "locate-by-history")]%string.

Definition dav_repos_avail_reports (res : dav_resource) : list (string * string) :=
  if bool_decide (res_type res = DAV_RESOURCE_TYPE_REGULAR) then avail_reports else [].

Definition dav_repos_get_vsn_options : list string :=
  ["version-control,checkout, checkin, report"; "uncheckout,version-controlled-collection"]%string.

Section reports.
Context {lib : SearchLib} {rlib : ResponseLib} {cfg : ServerConfig} {req : Request}.

(** As in [Principal] and [SearchResponse]; the header of the DAV module, whether an
    element is the root of a report, and the parser of XML: whether it takes a text, and the root
    of its document. *)
Variable make_from_url : string -> db -> dav_principal.
Variable href_prefix : string.
Variable server_rows : string -> db -> list result_row.
Variable DAV_XML_HEADER : string.
Variable dav_validate_root : apr_xml_elem -> string -> bool.
Variable apr_xml_parser_feed : string -> bool.
Variable apr_xml_parser_done : string -> option apr_xml_elem.

(** ** The properties asked for *)

(** The names are linked in front of one another, and the list is then reversed. *)
Definition dav_repos_build_report_elem (root : apr_xml_elem) : list string :=
  match head (dav_find_child root "prop") with
  | None => []
  | Some elem =>
      let linked := fold_left (fun root e => elem_name e :: root) (elem_children elem) [] in
      fold_left (fun ret name => name :: ret) linked []
  end.

(** ** version-tree *)

Definition prop_line (name value : string) : string := closed_tag name value +:+ DEBUG_CR.

(** The properties that are found, and the names of the others; a version without its hash
    is a NULL pointer. *)
Fixpoint found_props (h : option (gmap string string)) (names : list string)
  : outcome (string * list string) :=
  match names with
  | [] => Ret (EmptyString, [])
  | name :: rest =>
      match h, found_props h rest with
      | Some m, Ret (text, missing) =>
          match m !! name with
          | None => Ret (text, name :: missing)
          | Some val => Ret (prop_line name val +:+ text, missing)
          end
      | _, _ => Crash
      end
  end.

Definition propstat_text (props status : string) : string :=
  "<D:propstat><D:prop>" +:+ DEBUG_CR +:+ props +:+ "</D:prop>" +:+ DEBUG_CR
  +:+ "<D:status>HTTP/1.1 " +:+ status +:+ "</D:status>" +:+ DEBUG_CR +:+ "</D:propstat>" +:+ DEBUG_CR.

Definition version_response (uri text : string) (missing : list string) : string :=
  "<D:response>" +:+ DEBUG_CR +:+ "<D:href>" +:+ uri +:+ "</D:href>" +:+ DEBUG_CR
  +:+ propstat_text text "200 OK"
  +:+ (match missing with
       | [] => EmptyString
       | _ => propstat_text (String.concat EmptyString (map (fun n => empty_tag n +:+ DEBUG_CR) missing))
                "404 Not Found"
       end)
  +:+ "</D:response>" +:+ DEBUG_CR.

(** A version without a URI is left out. *)
Fixpoint version_responses (names : list string) (vrs : list dav_repos_resource) : R string :=
  match vrs with
  | [] => mret EmptyString
  | v :: rest =>
      match uri v with
      | None => version_responses names rest
      | Some u =>
          h ← sabridge_build_vpr_hash apr_xml_quote_string apr_rfc822_date v;
          match found_props h names with
          | Crash => crash
          | Ret (text, missing) =>
              t ← version_responses names rest;
              mret (version_response u text missing +:+ t)
          end
      end
  end.

Definition dav_repos_deliver_version_tree_report (res : dav_resource) (root : apr_xml_elem) : R report :=
  let db_r := res_dbr res in
  match sabridge_new_dbr_from_dbr db_r with
  | None => crash
  | Some vhr =>
      x ← run_out (sabridge_get_property (set_serialno (vhr_id db_r) vhr));
      match x with
      | (Some e, _) => mret (failed e)
      | (None, vhr) =>
          v ← run_out (dbms_get_vhr_versions (sabridge_mk_version_uri vhr) vhr);
          match v, dav_repos_build_report_elem root with
          | inl e, _ => mret (failed e)
          | inr _, [] => mret no_report
          | inr vrs, names =>
              t ← version_responses names vrs;
              mret (Report None (Some HTTP_MULTI_STATUS)
                (DAV_XML_HEADER +:+ DEBUG_CR +:+ "<D:multistatus xmlns:D=" +:+ QUOT +:+ "DAV:" +:+ QUOT
                 +:+ ">" +:+ DEBUG_CR +:+ t +:+ "</D:multistatus>" +:+ DEBUG_CR))
          end
      end
  end.

(** ** expand-property *)

(** The texts of the locks are set by the walk only, never in the records of a report.  With the hash of version
    properties, which is built at the first use. *)
Definition dav_repos_get_prop_value (db_r : dav_repos_resource) (vpr_hash : option (gmap string string))
    (namespace propname : string) : R (option string * option (gmap string string)) :=
  if negb (String.eqb namespace "DAV:") || String.eqb propname "lockdiscovery"
     || String.eqb propname "supportedlock"
  then mret (None, vpr_hash)
  else
    match dav_repos_build_lpr_hash db_r !! propname with
    | Some v => mret (Some v, vpr_hash)
    | None =>
        h ← vpr_hash_of db_r vpr_hash;
        match h with
        | None => crash
        | Some m => mret (m !! propname, h)
        end
    end.

(** What an expansion leaves: an error and the text sent; [None] for an exhausted fuel. *)
Definition expansion : Type := option (option dav_error * string).

(** The text is sent before what [k] sends, which runs unless there was an error. *)
Definition then_send (x : expansion) (k : R expansion) : R expansion :=
  match x with
  | None => mret None
  | Some (Some e, t) => mret (Some (Some e, t))
  | Some (None, t) =>
      y ← k;
      mret ((fun z => (z.1, t +:+ z.2)) <$> y)
  end.

Section recurse.
(** The call for a resource and an element. *)
Variable recurse : dav_repos_resource -> R expansion.

Fixpoint expand_hrefs (db_r : dav_repos_resource) (href_elems : list apr_xml_elem) : R expansion :=
  match href_elems with
  | [] => mret (Some (None, EmptyString))
  | e :: rest =>
      match sabridge_new_dbr_from_dbr db_r with
      | None => crash
      | Some new_db_r =>
          x ← run_out (sabridge_get_property (set_uri (Some (dav_xml_get_cdata e)) new_db_r));
          match x with
          | (Some err, _) => mret (Some (Some err, EmptyString))
          | (None, new_db_r) =>
              y ← recurse new_db_r;
              then_send y (expand_hrefs db_r rest)
          end
      end
  end.

(** The value of a property, expanded when it holds references; a parser that took the
    text but gives no document leaves the pointer unset. *)
Definition expand_value (db_r : dav_repos_resource) (prop_value : option string) : R expansion :=
  match prop_value with
  | None => mret (Some (None, EmptyString))
  | Some value =>
      let hrefs := "<D:hrefs xmlns:D=" +:+ QUOT +:+ "DAV:" +:+ QUOT +:+ ">" +:+ value +:+ "</D:hrefs>" in
      if negb (apr_xml_parser_feed hrefs) then mret (Some (None, value))
      else
        match apr_xml_parser_done hrefs with
        | None => crash
        | Some root =>
            match dav_find_child root "href" with
            | [] => mret (Some (None, value))
            | href_elems => expand_hrefs db_r href_elems
            end
        end
  end.
End recurse.

Definition send (t : string) : expansion := Some (None, t).

(** The elements after the first property, whatever their names; [call r e] expands the
    element [e] for [r]. *)
Fixpoint expand_properties (call : dav_repos_resource -> apr_xml_elem -> R expansion)
    (db_r : dav_repos_resource) (vpr_hash : option (gmap string string)) (children : list apr_xml_elem)
  : R expansion :=
  match children with
  | [] => mret (send EmptyString)
  | c :: rest =>
      match find_attr (elem_attr c) "name" with
      | None => mret (Some (Some (dav_new_error HTTP_BAD_REQUEST), EmptyString))
      | Some prop_name =>
          let ns_name := default "DAV:"%string (find_attr (elem_attr c) "namespace") in
          v ← dav_repos_get_prop_value db_r vpr_hash ns_name prop_name;
          x ← expand_value (fun r => call r c) db_r v.1;
          y ← then_send (send ("<D:prop><D:" +:+ prop_name +:+ ">")) (mret x);
          then_send y
            (z ← expand_properties call db_r v.2 rest;
             then_send (send ("</D:" +:+ prop_name +:+ "></D:prop>")) (mret z))
      end
  end.

(** A record without a URI is a NULL text. *)
Fixpoint dav_repos_expand_property_recurse (fuel : nat) (db_r : dav_repos_resource)
    (elem : apr_xml_elem) : R expansion :=
  match fuel with
  | O => mret None
  | S n =>
      match uri db_r with
      | None => crash
      | Some u =>
          x ← expand_properties (dav_repos_expand_property_recurse n) db_r None
                (dav_find_child elem "property");
          y ← then_send (send ("<D:response><D:href>" +:+ u +:+ "</D:href><D:propstat>")) (mret x);
          then_send y (mret (send "<D:status>HTTP/1.1 200 OK</D:status></D:propstat></D:response>"))
      end
  end.

(** The levels of a document. *)
Fixpoint elem_depth (e : apr_xml_elem) : nat :=
  match e with XmlElem _ _ _ _ children => S (list_max (map elem_depth children)) end.

Definition dav_repos_deliver_expand_property_report (res : dav_resource) (root : apr_xml_elem) : R report :=
  x ← dav_repos_expand_property_recurse (elem_depth root) (res_dbr res) root;
  match x with
  | None => crash
  | Some (err, t) =>
      mret (Report err (Some HTTP_MULTI_STATUS)
        (DAV_XML_HEADER +:+ DEBUG_CR +:+ "<D:multistatus xmlns:D=" +:+ QUOT +:+ "DAV:" +:+ QUOT
         +:+ ">" +:+ DEBUG_CR +:+ t
         +:+ (match err with Some _ => EmptyString | None => "</D:multistatus>" end)))
  end.

(** ** locate-by-history *)

(** The identifiers of the histories of the first [href] and of the elements after it. *)
Fixpoint history_ids (db_r : dav_repos_resource) (hrefs : list apr_xml_elem)
  : R (dav_error + list Z) :=
  match hrefs with
  | [] => mret (inr [])
  | e :: rest =>
      match sabridge_new_dbr_from_dbr db_r with
      | None => crash
      | Some vhr =>
          x ← run_out (sabridge_get_property (set_uri (Some (dav_xml_get_cdata e)) vhr));
          match x with
          | (Some err, _) => mret (inl err)
          | (None, vhr) =>
              l ← history_ids db_r rest;
              mret (match l with inl err => inl err | inr ids => inr (serialno vhr :: ids) end)
          end
      end
  end.

(** A property that is not found is written as NULL; the hash is built again for each. *)
Fixpoint history_props (r : dav_repos_resource) (names : list string) : R string :=
  match names with
  | [] => mret EmptyString
  | name :: rest =>
      h ← sabridge_build_vpr_hash apr_xml_quote_string apr_rfc822_date r;
      match h with
      | None => crash
      | Some m =>
          t ← history_props r rest;
          mret (prop_line name (format_s (m !! name)) +:+ t)
      end
  end.

Definition is_vcr_of (ids : list Z) (r : dav_repos_resource) : bool :=
  (bool_decide (resourcetype r = Some dav_repos_VERSIONED)
   || bool_decide (resourcetype r = Some dav_repos_VERSIONED_COLLECTION))
  && bool_decide (vhr_id r ∈ ids).

Fixpoint located_responses (root : string) (ids : list Z) (names : list string)
    (l : list dav_repos_resource) : R string :=
  match l with
  | [] => mret EmptyString
  | r :: rest =>
      if is_vcr_of ids r then
        match dav_repos_mk_href apr_xml_quote_string (uri r) with
        | None => crash
        | Some href =>
            values ← history_props (set_root_path root r) names;
            t ← located_responses root ids names rest;
            mret ("<D:response>" +:+ href +:+ "<D:propstat><D:prop>" +:+ values +:+ "</D:prop>"
                  +:+ status_ok +:+ "</D:propstat></D:response>" +:+ t)
        end
      else located_responses root ids names rest
  end.

(** Without the set of histories a NULL element is read. *)
Definition dav_repos_deliver_locate_by_history (res : dav_resource) (root : apr_xml_elem) : R report :=
  let db_r := res_dbr res in
  match head (dav_find_child root "version-history-set") with
  | None => crash
  | Some version_history_set =>
      ids ← history_ids db_r (dav_find_child version_history_set "href");
      match ids with
      | inl e => mret (failed e)
      | inr ids =>
          c ← run_out (sabridge_get_collection_children db_r 1 None);
          match c with
          | inl e => mret (failed e)
          | inr (children, _) =>
              t ← located_responses (root_path db_r) ids (dav_repos_build_report_elem root) children;
              mret (Report None (Some HTTP_MULTI_STATUS) (multistatus t))
          end
      end
  end.

(** ** The choice *)

Definition sent (x : Z * string) : report := Report None (Some x.1) x.2.

Definition dav_repos_deliver_report (res : dav_resource) (doc : option (list string * apr_xml_elem))
    (ns_id_hash : gmap string Z) : R report :=
  match doc with
  | None => mret no_report
  | Some (namespaces, root) =>
      if dav_validate_root root "version-tree" then dav_repos_deliver_version_tree_report res root
      else if dav_validate_root root "expand-property"
      then dav_repos_deliver_expand_property_report res root
      else if dav_validate_root root "locate-by-history"
      then dav_repos_deliver_locate_by_history res root
      else if dav_validate_root root "acl-principal-prop-set"
      then x ← dav_repos_deliver_acl_principal_prop_set make_from_url href_prefix res root;
           mret (sent x)
      else if dav_validate_root root "principal-match"
      then x ← dav_repos_deliver_principal_match res root;
           mret (match x with
                 | (Some e, _) => failed e
                 | (None, Some y) => sent y
                 | (None, None) => Report None None EmptyString
                 end)
      else if dav_validate_root root "principal-property-search"
      then x ← dav_repos_deliver_principal_property_search res root; mret (sent x)
      else if dav_validate_root root "principal-search-property-set"
      then mret (Report None None dav_repos_deliver_principal_search_property_set)
      else if String.eqb (elem_name root) "property-stats"
      then x ← dav_repos_deliver_property_stats server_rows namespaces root ns_id_hash;
           mret (match x with
                 | (Some e, _) => failed e
                 | (None, t) => Report None (Some HTTP_OK) t
                 end)
      else mret no_report
  end.
End reports.
