(* ===== verification/ReportsSpec.v ===== *)
(** * Reports end

    The expansion of properties follows references to other resources, which may lead
    back; it ends because each step goes one level down in the document. *)
From S2P Require Import Prelude Util Dbd Mime Db Bind Resource DbmsDeltav Bridge Users Properties Acl Listing Request Create Principal Versions CreateSpec VersionsSpec VersionExamples Copy Repos Search SearchBuild SearchResponse SearchSpec SearchExamples LiveProps AclProps PrincipalReports Reports.
From stdpp Require Import gmap pretty.
Local Open Scope Z_scope.
Local Open Scope limestone_scope.

Lemma bind_ext {A B} (m m' : R A) (f f' : A -> R B) cache s :
  m cache s = m' cache s -> (forall x c t, f x c t = f' x c t) -> (m ≫= f) cache s = (m' ≫= f') cache s.
Proof.
  intros Hm Hf. unfold mbind, R_bind, obind. rewrite !bind_run, Hm.
  destruct (m' cache s) as [[|[x c]] t]; [done|]. apply Hf.
Qed.

Lemma list_max_elem x l : x ∈ l -> (x <= list_max l)%nat.
Proof.
  intros H. pose proof (proj1 (list_max_le l (list_max l)) (Nat.le_refl _)) as Hl.
  rewrite Forall_forall in Hl. by apply Hl.
Qed.

Lemma child_depth e c : c ∈ elem_children e -> (elem_depth c < elem_depth e)%nat.
Proof.
  destruct e as [name ns attr text children]. cbn. intros Hc.
  assert (elem_depth c ∈ map elem_depth children) as H by (apply Prelude.elem_of_map; by exists c).
  apply list_max_elem in H. lia.
Qed.

Section ends.
Context {lib : SearchLib} {rlib : ResponseLib} {cfg : ServerConfig} {req : Request}.
Variable feed : string -> bool.
Variable parsed : string -> option apr_xml_elem.

(** What the DAV module finds is a child with the siblings after it. *)
Hypothesis find_child_suffix : forall e n, exists before, elem_children e = before ++ dav_find_child e n.

Lemma find_child_elem e n c : c ∈ dav_find_child e n -> c ∈ elem_children e.
Proof. destruct (find_child_suffix e n) as [before ->]. set_solver. Qed.

(** Two calls that agree. *)
Definition agree (m m' : R expansion) : Prop := forall cache s, m cache s = m' cache s.
Definition not_exhausted (m : R expansion) : Prop := Post m (fun x => x <> None).

Lemma then_send_agree x (k k' : R expansion) : agree k k' -> agree (then_send x k) (then_send x k').
Proof.
  intros H cache s. destruct x as [[[e|] t]|]; [done| |done]. by apply bind_ext.
Qed.

Lemma then_send_post x (k : R expansion) : x <> None -> not_exhausted k -> not_exhausted (then_send x k).
Proof.
  intros Hx Hk. destruct x as [[[e|] t]|]; [by apply post_ret| |done].
  apply post_bind. eapply post_mono; [exact Hk|]. intros [z|] Hz; by apply post_ret.
Qed.

Lemma expand_hrefs_agree (f f' : dav_repos_resource -> R expansion) r l :
  (forall x, agree (f x) (f' x)) -> agree (expand_hrefs f r l) (expand_hrefs f' r l).
Proof.
  intros Hf. induction l as [|e l IH]; intros cache s; [done|]. cbn [expand_hrefs].
  destruct (sabridge_new_dbr_from_dbr r) as [n|]; [|done]. apply bind_ext; [done|].
  intros [[err|] n'] c t; [done|]. apply bind_ext; [apply Hf|]. intros y c' t'.
  by apply then_send_agree.
Qed.

Lemma expand_hrefs_post (f : dav_repos_resource -> R expansion) r l :
  (forall x, not_exhausted (f x)) -> not_exhausted (expand_hrefs f r l).
Proof.
  intros Hf. induction l as [|e l IH]; [by apply post_ret|]. cbn [expand_hrefs].
  destruct (sabridge_new_dbr_from_dbr r) as [n|]; [|apply post_crash].
  apply post_bind. eapply post_mono; [apply post_any|]. intros [[err|] n'] _; [by apply post_ret|].
  apply post_bind. eapply post_mono; [apply Hf|]. intros y Hy. by apply then_send_post.
Qed.

Lemma expand_value_agree (f f' : dav_repos_resource -> R expansion) r v :
  (forall x, agree (f x) (f' x)) ->
  agree (expand_value feed parsed f r v) (expand_value feed parsed f' r v).
Proof.
  intros Hf cache s. unfold expand_value. destruct v as [value|]; [|done].
  destruct (negb _); [done|]. destruct (parsed _) as [root|]; [|done].
  destruct (dav_find_child root "href") as [|e l]; [done|]. by apply expand_hrefs_agree.
Qed.

Lemma expand_value_post (f : dav_repos_resource -> R expansion) r v :
  (forall x, not_exhausted (f x)) -> not_exhausted (expand_value feed parsed f r v).
Proof.
  intros Hf. unfold expand_value. destruct v as [value|]; [|by apply post_ret].
  destruct (negb _); [by apply post_ret|]. destruct (parsed _) as [root|]; [|apply post_crash].
  destruct (dav_find_child root "href") as [|e l]; [by apply post_ret|]. by apply expand_hrefs_post.
Qed.

Lemma expand_properties_agree call call' r h l :
  (forall x c, c ∈ l -> agree (call x c) (call' x c)) ->
  agree (expand_properties feed parsed call r h l) (expand_properties feed parsed call' r h l).
Proof.
  revert h. induction l as [|e l IH]; intros h Hc cache s; [done|]. cbn [expand_properties].
  destruct (find_attr (elem_attr e) "name") as [name|]; [|done].
  apply bind_ext; [done|]. intros v c t.
  apply bind_ext; [apply expand_value_agree; intros x; apply Hc; by left|]. intros x c1 t1.
  apply bind_ext; [done|]. intros y c2 t2. apply then_send_agree. intros c3 t3.
  apply bind_ext; [apply IH; intros z k Hk; apply Hc; by right|done].
Qed.

Lemma expand_properties_post call r h l :
  (forall x c, c ∈ l -> not_exhausted (call x c)) ->
  not_exhausted (expand_properties feed parsed call r h l).
Proof.
  revert h. induction l as [|e l IH]; intros h Hc; [by apply post_ret|]. cbn [expand_properties].
  destruct (find_attr (elem_attr e) "name") as [name|]; [|by apply post_ret].
  apply post_bind. eapply post_mono; [apply post_any|]. intros v _.
  apply post_bind. eapply post_mono; [apply expand_value_post; intros x; apply Hc; by left|]. intros x Hx.
  apply post_bind. eapply post_mono; [apply then_send_post; [done|by apply post_ret]|]. intros y Hy.
  apply then_send_post; [done|]. apply post_bind.
  eapply post_mono; [apply IH; intros z k Hk; apply Hc; by right|]. intros z Hz.
  apply then_send_post; [done|by apply post_ret].
Qed.

Lemma recurse_agree fuel fuel' r elem :
  (elem_depth elem <= fuel)%nat -> (elem_depth elem <= fuel')%nat ->
  agree (dav_repos_expand_property_recurse feed parsed fuel r elem)
        (dav_repos_expand_property_recurse feed parsed fuel' r elem).
Proof.
  revert fuel' r elem. induction fuel as [|n IH]; intros [|n'] r elem H H' cache s;
    try (destruct elem; cbn in *; lia).
  cbn [dav_repos_expand_property_recurse]. destruct (uri r) as [u|]; [|done].
  apply bind_ext; [|done]. apply expand_properties_agree. intros x c Hc.
  apply find_child_elem, child_depth in Hc. apply IH; lia.
Qed.

Lemma recurse_post fuel r elem :
  (elem_depth elem <= fuel)%nat ->
  not_exhausted (dav_repos_expand_property_recurse feed parsed fuel r elem).
Proof.
  revert r elem. induction fuel as [|n IH]; intros r elem H; [destruct elem; cbn in *; lia|].
  cbn [dav_repos_expand_property_recurse]. destruct (uri r) as [u|]; [|apply post_crash].
  apply post_bind. eapply post_mono.
  { apply expand_properties_post. intros x c Hc. apply find_child_elem, child_depth in Hc. apply IH. lia. }
  intros x Hx. apply post_bind. eapply post_mono; [apply then_send_post; [done|by apply post_ret]|].
  intros y Hy. apply then_send_post; [done|by apply post_ret].
Qed.

(** C23. The expansion never runs out of levels, and more of them change nothing: whatever the
    tables hold, references that lead in circles included, and whatever the server
    refuses, the report ends. *)
Theorem expand_property_ends fuel r elem cache s :
  (elem_depth elem <= fuel)%nat ->
  dav_repos_expand_property_recurse feed parsed fuel r elem cache s
    = dav_repos_expand_property_recurse feed parsed (elem_depth elem) r elem cache s
  /\ match (dav_repos_expand_property_recurse feed parsed fuel r elem cache s).1 with
     | Ret (x, _) => x <> None
     | Crash => True
     end.
Proof.
  intros Hf. split; [by apply recurse_agree|]. pose proof (recurse_post fuel r elem Hf cache s) as H.
  by destruct (dav_repos_expand_property_recurse _ _ _ _ _ _ _) as [[|[x c]] s'].
Qed.
End ends.
