(* ===== verification/PropExamples.v ===== *)
(** * Witnesses for the live properties, those of access control, and reports

    The checked-out document, whose properties refer to its version and, in the parsed
    text, back to itself; a user with two domains; a document below the root with entries
    of its own and inherited ones, and a group of a user and a group. *)
From S2P Require Import Prelude Util Dbd Mime Db Bind Paths Resource DbmsDeltav Bridge Groups GroupCounts GroupMembers Users Properties Acl Listing Request Create Principal Versions CreateSpec VersionsSpec VersionExamples Copy Repos Search SearchBuild SearchResponse SearchSpec SearchExamples LiveProps LimebitsProps LivePropsSpec AclProps AclPropsSpec MembersShown PrincipalReports Reports ReportsSpec.
From stdpp Require Import gmap pretty.
Local Open Scope Z_scope.
Local Open Scope limestone_scope.

#[local] Existing Instances sample_config draft_request sample_lib sample_responses.

(** ** Changes of live properties *)

#[local] Notation split_tag := (tokens "-" EmptyString).

Lemma validate_language_tag_spec_witness :
  validate_language_tag split_tag "en-abcdefghi" = 0
  <-> split_tag "en-abcdefghi" <> []
      /\ Forall (fun t => string_forall isalpha t = true /\ (1 <= String.length t <= 9)%nat)
           (split_tag "en-abcdefghi").
Proof. apply (validate_language_tag_spec split_tag). reflexivity. Defined.

(** Nine letters, and hyphens without letters, are accepted; ten letters and digits are not. *)
Example language_tags :
  map (validate_language_tag split_tag) ["en-US"; "abcdefghi"; "-en--"; "abcdefghij"; "de-1996"; "-"]%string
  = [0; 0; 0; -1; -1; -1].
Proof. reflexivity. Qed.

Definition checkin_value : apr_xml_elem := el "auto-version" 0 [el "checkout-checkin" 0 []].

Definition versioned_doc : dav_resource :=
  resource_of (set_autoversion_type DAV_AV_VERSION_CONTROL draft_doc).

#[local] Notation av_spec := (dav_prop "auto-version" DAV_PROPID_auto_version true).

Lemma auto_version_patch_witness :
  exists res' ctx res2 cache' s',
    dav_deltav_patch_exec versioned_doc checkin_value DAV_PROP_OP_SET av_spec = Ret (res', Some ctx)
    /\ autoversion_type (res_dbr res') = DAV_AV_CHECKOUT_CHECKIN
    /\ dav_deltav_patch_rollback res' (Some ctx) = Ret versioned_doc
    /\ dav_deltav_patch_commit res' (Some ctx) empty_cache draft = (Ret (res2, cache'), s')
    /\ autoversion_type (res_dbr res2) = DAV_AV_CHECKOUT_CHECKIN
    /\ c_db s' = if bool_decide (autoversion_type (res_dbr versioned_doc) = DAV_AV_CHECKOUT_CHECKIN)
                 then c_db draft
                 else update_vcr_stmt (serialno (res_dbr versioned_doc)) (fun v =>
                   VcrRow (vc_res v) (vc_checked v) (vc_vhr v) (vc_state v) DAV_AV_CHECKOUT_CHECKIN
                     (vc_checkin_on_unlock v)) (c_db draft).
Proof.
  apply (auto_version_patch versioned_doc checkin_value av_spec empty_cache draft);
    [reflexivity | by vm_compute | by vm_compute].
Defined.

Definition home : dav_resource :=
  resource_of (set_serialno 2 (set_resourcetype (Some dav_repos_COLLECTION) (set_has_resource true zero_dbr))).

(** Two texts of an element: its own, and nothing below it. *)
#[local] Notation cdata := (fun e => default EmptyString (first_cdata e)).
#[local] Notation only_self := (fun p : dav_principal => [p]).
#[local] Notation nobody := (fun _ _ => Principal PRINCIPAL_ALL 0 "").

Lemma new_children_patch_witness :
  let e := el "auto-version-new-children" 1 [el "version-control" 1 []] in
  let r' := set_av_new_children (children_type e DAV_PROP_OP_SET (av_new_children (res_dbr home)))
              (res_dbr home) in
  exists spec ctx s',
    dav_limebits_patch_validate nobody EmptyString only_self 403 home None e
      LB_PROPID_auto_version_new_children DAV_PROP_OP_SET empty_cache draft
      = (Ret ((None, Some spec), empty_cache), draft)
    /\ dav_limebits_patch_exec map_to_list cdata cdata "lime" (res_dbr home) e DAV_PROP_OP_SET spec
         empty_cache draft
      = (Ret ((None, r', ctx), empty_cache), draft)
    /\ dav_limebits_patch_commit (set_dbr r' home) ctx empty_cache draft = (Ret (tt, empty_cache), s')
    /\ c_db s' =
      if bool_decide (DAV_PROP_OP_SET = DAV_PROP_OP_SET
                      /\ av_new_children r' <> autoversion_type (res_dbr home))
      then set_collections (map (fun c =>
             if bool_decide (c.1 = serialno (res_dbr home)) then (c.1, av_new_children r') else c)
             (collections (c_db draft))) (c_db draft)
      else c_db draft.
Proof.
  apply (new_children_patch nobody EmptyString map_to_list cdata cdata only_self 403 "lime" home None
           (el "auto-version-new-children" 1 [el "version-control" 1 []]));
    [reflexivity | reflexivity | by vm_compute | right; right; reflexivity].
Defined.

(** The user 5 has two domains, and may not log in to all of them. *)
Definition settings_db : db :=
  set_principals [PrincipalRow 5 "ann"; PrincipalRow 6 "bob"]
  (set_users [UserRow 5 "" (Some "ann@x.org") "md5" false; UserRow 6 "" None "md5" true]
  (set_user_domains [DomainRow 5 "a.org" "/home/ann/a"; DomainRow 6 "c.org" "/home/bob";
                     DomainRow 5 "b.org" "/home/ann/b"] draft_db)).
Definition settings : conn := Conn settings_db [] 60000000 [] false.

Definition ann_record : dav_repos_resource :=
  set_serialno 5 (set_resourcetype (Some dav_repos_USER) (set_has_resource true zero_dbr)).

Definition entry (domain path : string) : apr_xml_elem :=
  el "domain-map-entry" 1 [XmlElem "domain" 1 [] (Some domain) []; XmlElem "path" 1 [] (Some path) []].

Definition new_map : apr_xml_elem :=
  el "domain-map" 1 [entry "d.org" "/home/ann/d"; entry "x.lime.org" "/"; entry "e.org" "/../bob"].

#[local] Notation map_spec := (lb_prop "domain-map" LB_PROPID_domain_map true).
#[local] Notation map_exec :=
  (dav_limebits_patch_exec map_to_list cdata cdata "lime" ann_record new_map DAV_PROP_OP_SET map_spec
     empty_cache settings).

(** Of the three entries only the first is stored. *)
Example new_map_stored :
  user_domains (c_db map_exec.2) = [DomainRow 6 "c.org" "/home/bob"; DomainRow 5 "d.org" "/home/ann/d"]%string.
Proof. vm_compute. reflexivity. Qed.

Lemma settings_ok_sample : settings_ok settings_db.
Proof. split; refine (bool_decide_unpack _ _); by vm_compute. Qed.

Lemma user_settings_rollback_witness :
  exists s2 l,
    dav_limebits_patch_rollback (fun _ => true) (fun _ => EmptyString) ann_record
      (Rollback LB_PROPID_domain_map DAV_PROP_OP_SET
         (MapValue (Some [("a.org", "/home/ann/a"); ("b.org", "/home/ann/b")]%string)))
      empty_cache map_exec.2 = (Ret (None, empty_cache), s2)
    /\ l ≡ₚ user_domains settings_db /\ c_db s2 = set_user_domains l settings_db.
Proof.
  apply (user_settings_rollback (fun _ => true) (fun _ => EmptyString) map_to_list cdata cdata "lime"
           ann_record new_map DAV_PROP_OP_SET map_spec empty_cache settings);
    [reflexivity | exact settings_ok_sample | left; reflexivity | vm_compute; reflexivity].
Defined.

(** ** What is shown of access control *)

(** User 6 is in group 7, which may read and write below the root; the document denies him
    to write, and the owner has all privileges. *)
Definition shown_db : db :=
  set_resources [ResourceRow 2 "" dav_repos_COLLECTION 5 5 "" 0 0 "en-US" None;
                 ResourceRow 5 "" dav_repos_USER 5 5 "ann" 0 0 "en-US" None;
                 ResourceRow 6 "" dav_repos_USER 6 6 "bob" 0 0 "en-US" None;
                 ResourceRow 7 "" dav_repos_GROUP 5 5 "staff" 0 0 "en-US" None;
                 ResourceRow 8 "" dav_repos_GROUP 5 5 "team" 0 0 "en-US" None;
                 ResourceRow 20 "" dav_repos_RESOURCE 5 5 "doc" 0 0 "en-US" None]
  (set_binds [BindRow 1 "doc" 2 20 0]
  (set_namespaces [(1, "DAV:"%string)]
  (set_acl_privileges [PrivilegeRow 1 1 "all" 1 6; PrivilegeRow 2 1 "read" 2 3;
                       PrivilegeRow 3 1 "write" 4 5]
  (set_acl_inheritance [(2, "2"%string); (20, "2,20"%string)]
  (set_principals [PrincipalRow 5 "ann"; PrincipalRow 6 "bob"; PrincipalRow 7 "staff"; PrincipalRow 8 "team"]
  (set_group_members [(7, 6); (7, 8)]
  (set_transitive_group_members [TgmRow 7 6 1]
  (set_aces [AceRow 40 "G" "t" 20 5 1 (Some "owner"%string); AceRow 41 "G" "f" 2 7 0 None;
             AceRow 42 "D" "f" 20 6 0 None]
  (set_dav_aces_privileges [(40, 1); (41, 2); (41, 3); (42, 3)] empty_db))))))))).

Definition shown_site : conn := Conn shown_db [] 0 [] false.
Definition shown_doc : dav_repos_resource :=
  set_owner_id 5 (set_serialno 20 (set_resourcetype (Some dav_repos_RESOURCE) (set_has_resource true zero_dbr))).

(** The principal whose name ends the URL, and the number of a privilege as its name. *)
Definition by_basename (url : string) (d : db) : dav_principal :=
  match List.find (fun p => String.eqb (p_name p) (basename url)) (principals d) with
  | Some p => Principal PRINCIPAL_HREF (p_res p) (drop_string (String.length "http://h") url)
  | None => Principal PRINCIPAL_OTHER 0 EmptyString
  end.
Definition numbered (t : Z) : string * string := ("DAV:"%string, pretty t).

#[export] Instance numbered_inj : Inj (=) (=) numbered.
Proof. intros x y [= H]. by apply (inj pretty) in H. Qed.

#[local] Notation bob := (Principal PRINCIPAL_HREF 6 "/users/bob").

Lemma all_elem {A} (P : A -> Prop) l : Forall P l -> forall x, x ∈ l -> P x.
Proof. apply Forall_forall. Qed.

Lemma key_elem {A} (f : A -> Z) l k : k ∈ map f l -> exists x, x ∈ l /\ f x = k.
Proof. intros (x & <- & Hx)%Prelude.elem_of_map. by exists x. Qed.

Lemma shown_tables_ok : acl_tables_ok shown_db.
Proof. split; refine (bool_decide_unpack _ _); vm_compute; exact I. Qed.

Lemma current_acl_decides_witness :
  exists acl cache',
    dbms_get_acl by_basename "http://h" numbered shown_doc empty_cache shown_site
      = (Ret (acl, cache'), shown_site)
    /\ (dbms_is_allow 1 "write" bob [] shown_doc None shown_site).1.1
       = int_of_bool (default false (acl_decides numbered (membership 6 shown_db)
           (aggregate_privileges 1 "write" shown_db) acl)).
Proof.
  apply (current_acl_decides by_basename "http://h" numbered shown_doc 1 "write" bob [] empty_cache None
           shown_site); [apply _|reflexivity|reflexivity|reflexivity|exact shown_tables_ok| | | |discriminate|reflexivity].
  - refine (all_elem _ _ (bool_decide_unpack _ _)). vm_compute. exact I.
  - refine (all_elem _ _ (bool_decide_unpack _ _)). vm_compute. exact I.
  - intros n t H. cbn in H. by rewrite lookup_empty in H.
Defined.

(** Bob may not write, and the list says so before it comes to his group. *)
Example shown_order :
  match dbms_get_acl by_basename "http://h" numbered shown_doc empty_cache shown_site with
  | (Ret (acl, _), _) => map (fun x => (principal_serialno (ace_principal (shown x)), is_deny (shown x), ace_inherited x)) acl
  | _ => []
  end = [(5, false, None); (6, true, None); (7, false, Some "/"%string)].
Proof. vm_compute. reflexivity. Qed.

(** *** The members of a group *)

Definition staff_group : dav_resource :=
  resource_of (set_serialno 7 (set_resourcetype (Some dav_repos_GROUP) (set_has_resource true zero_dbr))).

Definition member_hrefs : apr_xml_elem :=
  el "group-member-set" 0 [XmlElem "href" 0 [] (Some "http://h/users/bob"%string) [];
                           XmlElem "href" 0 [] (Some "http://h/groups/team"%string) []].

Lemma shown_principals_ok : principals_ok shown_db.
Proof.
  split; try (refine (bool_decide_unpack _ _); vm_compute; exact I).
  - refine (all_elem _ _ (bool_decide_unpack _ _)). vm_compute. exact I.
  - intros p Hp. apply key_elem. refine (all_elem (fun p => p_res p ∈ map r_id (resources shown_db)) _ (bool_decide_unpack _ _) p Hp). vm_compute. exact I.
  - refine (all_elem _ _ (bool_decide_unpack _ _)). vm_compute. exact I.
  - intros g m Hm. apply key_elem.
    refine (all_elem (fun x => x.2 ∈ map p_res (principals shown_db)) _ (bool_decide_unpack _ _) (g, m) Hm).
    vm_compute. exact I.
Qed.

Lemma shown_members_plain : Forall plain_member (group_member_rows 7 shown_db).
Proof. vm_compute. repeat apply Forall_cons_2; [by left|by right|by apply Forall_nil_2]. Qed.

Lemma shown_members_unmarked m : m ∈ group_member_rows 7 shown_db -> count_char QMARK m.1.2 = 0%nat.
Proof.
  intros Hm. refine (all_elem (fun m => count_char QMARK m.1.2 = 0%nat) _ (bool_decide_unpack _ _) m Hm).
  vm_compute. exact I.
Qed.

Lemma shown_members_single : NoDup (group_members shown_db).
Proof. refine (bool_decide_unpack _ _). vm_compute. exact I. Qed.

Lemma shown_members_roundtrip_witness :
  let members := group_member_rows 7 shown_db in
  get_group_member_set "http://h" staff_group shown_site
    = (String.concat EmptyString (map (fun m =>
         "<D:href>" +:+ apr_xml_quote_string ("http://h" +:+ member_uri m) +:+ "</D:href>") members), shown_site)
  /\ acl_patch_validate "http://h" (fun s => s) (res_dbr staff_group) member_hrefs
       DAV_PROPID_group_member_set DAV_PROP_OP_SET shown_site
     = ((None, Some (∅, [])), shown_site)
  /\ dav_acl_patch_exec 7 ∅ [] shown_site = (Ret None, shown_site).
Proof.
  apply (shown_members_roundtrip "http://h" (fun s => s) staff_group member_hrefs shown_site);
    [reflexivity|exact shown_principals_ok|exact shown_members_single|reflexivity|
     exact shown_members_plain|exact shown_members_unmarked|vm_compute; reflexivity].
Defined.

(** *** The reports

    No principal is listed by the first, and none by the second when a property is asked
    for. *)
Definition prop_request : apr_xml_elem := el "acl-principal-prop-set" 0 [el "prop" 0 [el "displayname" 0 []]].
Definition owner_request : apr_xml_elem :=
  el "principal-match" 0 [el "principal-property" 0 [el "owner" 0 []]].

Definition shown_root : dav_resource :=
  resource_of (set_uri (Some "/"%string) (set_serialno 2 (set_resourcetype (Some dav_repos_COLLECTION)
    (set_has_resource true zero_dbr)))).

Example reports_are_empty :
  (match dav_repos_deliver_acl_principal_prop_set by_basename "http://h"
           (resource_of shown_doc) prop_request empty_cache shown_site with
   | (Ret (x, _), _) => Some x
   | _ => None
   end,
   match dav_repos_deliver_principal_match shown_root owner_request empty_cache shown_site with
   | (Ret (_, x, _), _) => x
   | _ => None
   end)
  = (Some (HTTP_MULTI_STATUS, multistatus EmptyString), Some (HTTP_MULTI_STATUS, multistatus EmptyString)).
Proof. vm_compute. reflexivity. Qed.

(** ** Reports *)

Lemma from_first_suffix {A} (f : A -> bool) l : exists before, l = before ++ from_first f l.
Proof.
  induction l as [|x l [before IH]]; [by exists []|]. cbn. destruct (f x); [by exists []|].
  exists (x :: before). cbn. by f_equal.
Qed.

Definition property (name : string) (children : list apr_xml_elem) : apr_xml_elem :=
  XmlElem "property" 0 [("name"%string, name)] None children.

(** checked-out, and the name of what it refers to. *)
Definition expand_request : apr_xml_elem :=
  el "expand-property" 0 [property "checked-out" [property "displayname" []]; property "colour" []].

(** Every text holds a reference to the document. *)
#[local] Notation takes := (fun _ : string => true).
#[local] Notation refers_back :=
  (fun _ : string => Some (el "hrefs" 0 [XmlElem "href" 0 [] (Some "/doc"%string) []])).

Lemma expand_property_ends_witness :
  dav_repos_expand_property_recurse takes refers_back 5 draft_doc expand_request empty_cache draft
    = dav_repos_expand_property_recurse takes refers_back (elem_depth expand_request) draft_doc
        expand_request empty_cache draft
  /\ match (dav_repos_expand_property_recurse takes refers_back 5 draft_doc expand_request empty_cache draft).1 with
     | Ret (x, _) => x <> None
     | Crash => True
     end.
Proof.
  apply (expand_property_ends takes refers_back); [|vm_compute; lia].
  intros e n. apply from_first_suffix.
Defined.

Example expanded :
  match dav_repos_expand_property_recurse (fun _ => false) refers_back 3 draft_doc expand_request empty_cache draft with
  | (Ret (Some (err, t), _), _) => Some (err, t)
  | _ => None
  end
  = Some (None, "<D:response><D:href>/doc</D:href><D:propstat><D:prop><D:checked-out><D:href>/history/25/1</D:href></D:checked-out></D:prop><D:prop><D:colour></D:colour></D:prop><D:status>HTTP/1.1 200 OK</D:status></D:propstat></D:response>"%string).
Proof. vm_compute. reflexivity. Qed.
