(* ===== verification/Walk.v ===== *)
(** * Walks and GET ([repos.c], [props.c], [lock.c], [bridge.c])

    The walk over the resources below a collection that the methods of the server are
    built on, and what a GET delivers. *)
From S2P Require Import Prelude Util Dbd Mime Db Bind Resource DbmsDeltav Bridge Users Properties Acl Listing Request Create Principal Versions Locks Copy Repos Search SearchBuild SearchResponse LiveProps.
From stdpp Require Import gmap.
Local Open Scope Z_scope.
Local Open Scope limestone_scope.

(** ** Locks of a record *)

Definition debug_line {rlib : ResponseLib} (s : string) : string := s +:+ DEBUG_CR.

Definition lock_entry {rlib : ResponseLib} (scope : string) : string :=
  debug_line "<D:lockentry>"
  +:+ debug_line ("<D:lockscope><D:" +:+ scope +:+ "/></D:lockscope>")
  +:+ debug_line "<D:locktype><D:write/></D:locktype>"
  +:+ debug_line "</D:lockentry>".

Definition dav_repos_get_supportedlock {rlib : ResponseLib} : string :=
  DEBUG_CR +:+ lock_entry "exclusive" +:+ lock_entry "shared".

(** What a PROPFIND asks for, when the walk is for one. *)
Inductive propfind := DAV_PROPFIND_IS_ALLPROP | DAV_PROPFIND_IS_PROPNAME | DAV_PROPFIND_IS_PROP.

#[export] Instance propfind_eq_dec : EqDecision propfind.
Proof. solve_decision. Defined.

(** The resource of a call with the properties that the walk has put into its record. *)
Record dav_walk_resource := WalkResource {
  wres_resource : dav_resource;
  wres_lpr_hash : option (gmap string string);
  wres_lockdiscovery : option string;
  wres_supportedlock : option string
}.

(** A record of a listing has a resource of its own. *)
Definition listed_resource (r : dav_repos_resource) : dav_resource :=
  DavResource r None None false false false false DAV_RESOURCE_TYPE_UNKNOWN.

Section walk.
Context {lib : SearchLib} {rlib : ResponseLib} {cfg : ServerConfig} {req : Request}.
Context {Response : Type}.

(** The parameters of the walk: whether access is checked, whether resources that were
    seen before are passed over, the kind of a PROPFIND, and whether there is a database of locks
    and a place for the responses.  The query of locks and the text of a list of them are
    those of the DAV module. *)
Variables walktype_auth walktype_ignore_binds : bool.
Variable propfind_type : option propfind.
Variables has_lockdb has_response : bool.
Variable dav_lock_query : dav_repos_resource -> R (option dav_error * list dav_lock).
Variable dav_lock_get_activelock : list dav_lock -> string.

(** The walker: for a resource, whether it is a collection, and the responses so far, an
    error and the responses; [None] is the list without an element. *)
Variable func : dav_walk_resource -> bool -> option Response -> R (option dav_error * option Response).

Definition dav_repos_insert_lock_prop (r : dav_repos_resource)
  : R (option dav_error * (option string * option string)) :=
  if has_lockdb then
    q ← dav_lock_query r;
    match q with
    | (Some e, _) => mret (Some (DavError (err_status e) None), (None, None))
    | (None, locks) =>
        mret (None, (match locks with [] => None | _ => Some (dav_lock_get_activelock locks) end,
                     Some dav_repos_get_supportedlock))
    end
  else mret (None, (None, None)).

(** One turn but for the call; the error of the locks is dropped. *)
Definition walk_resource (res : dav_resource) : R dav_walk_resource :=
  let res := dav_repos_update_dbr_resource res in
  let r := res_dbr res in
  let lpr := match propfind_type with Some _ => Some (dav_repos_build_lpr_hash r) | None => None end in
  match propfind_type with
  | Some DAV_PROPFIND_IS_PROPNAME | Some DAV_PROPFIND_IS_PROP =>
      x ← dav_repos_insert_lock_prop r;
      mret (WalkResource res lpr x.2.1 x.2.2)
  | _ => mret (WalkResource res lpr None None)
  end.

(** The loop; after an error the responses are those of the walker, if it has any. *)
Fixpoint walk_loop (l : list dav_resource) (response : option Response)
  : R (option dav_error * option Response) :=
  match l with
  | [] => mret (None, response)
  | res :: rest =>
      if walktype_ignore_binds && dbr_bind (res_dbr res) then walk_loop rest response
      else
        wres ← walk_resource res;
        x ← func wres (is_collection (resourcetype (res_dbr (wres_resource wres))))
              (if has_response then response else None);
        match x with
        | (Some e, r) =>
            mret (Some e, if has_response then match r with Some _ => r | None => response end
                          else None)
        | (None, r) => walk_loop rest (if has_response then r else None)
        end
  end.

(** The chain starts with the record of the root. *)
Definition dav_repos_walk (root : dav_resource) (depth : Z) : R (option dav_error * option Response) :=
  let r := res_dbr root in
  if is_collection (resourcetype r) && negb (bool_decide (depth = 0)) then
    c ← run_out (sabridge_get_collection_children r depth
                   (if walktype_auth then listing_acl "read" else None));
    match c with
    | inl e => mret (Some e, None)
    | inr (children, _) => walk_loop (root :: map listed_resource children) None
    end
  else walk_loop [root] None.
End walk.

(** ** Streams *)

(** Whether a body was stored before, how many bytes the file takes, and where a change of
    position ends: [p] holds no position when it is given to the library. *)
Definition dav_repos_write_stream (put_stream_done : bool) (written : option Z) (bufsize : Z)
  : option dav_error :=
  if put_stream_done then None
  else if bool_decide (written = Some bufsize) then None
  else Some (dav_new_error HTTP_INTERNAL_SERVER_ERROR).

Definition dav_repos_seek_stream (put_stream_done : bool) (apr_file_seek : Z -> option Z)
    (p abs_pos : Z) : option dav_error :=
  if put_stream_done then None
  else if bool_decide (apr_file_seek p = Some abs_pos) then None
  else Some (dav_new_error HTTP_INTERNAL_SERVER_ERROR).

(** ** Headers *)

(** The time of the last change in microseconds, the tag, the ranges and the type. *)
Record headers := Headers {
  h_mtime : Z;
  h_etag : option string;
  h_accept_ranges : bool;
  h_content_type : option string
}.

(** Without a resource nothing is set.  The time of the record is a number already. *)
Definition dav_repos_set_headers (content_type : option string) (res : dav_resource) : option headers :=
  let r := res_dbr res in
  if exists_ res then
    let mtime := dbr_updated_at r in
    Some (if bool_decide (resourcetype r = Some dav_repos_COLLECTION)
          then Headers mtime None false (Some "text/html"%string)
          else Headers mtime (dav_repos_getetag res) true
                 (match getcontenttype r with Some t => Some t | None => content_type end))
  else None.

(** ** GET *)

Definition bytes_of (s : string) : list Z :=
  map (fun c => Z.of_N (N_of_ascii c)) (list_ascii_of_string s).
Definition text_of (l : list Z) : string :=
  string_of_list_ascii (map (fun b => ascii_of_N (Z.to_N b)) l).
Definition reverse_text (s : string) : string := text_of (reverse_string (bytes_of s)).

Definition anchor (href token : string) : string :=
  "<A HREF=" +:+ QUOT +:+ href +:+ QUOT +:+ ">" +:+ token +:+ "</A>".

(** The tokens from the second on; [uri] is the text so far. *)
Fixpoint pretty_parents (tokens : list string) (href pretty_uri : string) : string :=
  match tokens with
  | [] => pretty_uri
  | token :: rest =>
      let href := href +:+ "../" in
      pretty_parents rest href (anchor href (reverse_text token) +:+ " > " +:+ pretty_uri)
  end.

Section get.
Context {cfg : ServerConfig} {req : Request}.

(** A text without a name is a NULL pointer. *)
Definition pretty_print_uri (req_uri : string) : option string :=
  let uri := reverse_text req_uri in
  match apr_strtok_slash uri with
  | [] => None
  | token :: rest =>
      let token := reverse_text token in
      let href := if String.prefix "/" uri then "./"%string else "./" +:+ token +:+ "/" in
      Some (pretty_parents rest href (anchor href token))
  end.

(** The directory of the bodies; the URI of the request with its arguments, whether it is a request
    of the server itself, the style sheet, and whether the filters take a response. *)
Variable file_dir : string.
Variable ap_no2slash : string -> string.
Variable r_uri : string.
Variable r_args : option string.
Variable r_main : bool.
Variable dav_get_response_href : string -> string.
Variable css_uri : option string.
Variable VERSION : string.
Variable pass_brigade : bool.

(** What is sent: the text of a page, or a part of a file. *)
Inductive delivery :=
| Page (text : string)
| FileBody (path : string) (length : Z).

(** Without a digest a NULL pointer is read. *)
Definition sabridge_deliver (r : dav_repos_resource) : R (option dav_error * option delivery) :=
  match sha1str r ≫= generate_path file_dir ap_no2slash with
  | None => crash
  | Some filename =>
      files ← run get_files;
      if bool_decide (sha1str r ∈ map Some files) then
        mret (if pass_brigade then None else Some (dav_new_error HTTP_INTERNAL_SERVER_ERROR),
              Some (FileBody filename (getcontentlength r)))
      else mret (Some (dav_new_error HTTP_INTERNAL_SERVER_ERROR), None)
  end.

Definition page_head : string :=
  "<!DOCTYPE HTML PUBLIC " +:+ QUOT +:+ "-//W3C//DTD HTML 3.2 Final//EN" +:+ QUOT +:+ "><html>" +:+ LF
  +:+ (match css_uri with
       | None => EmptyString
       | Some u => "<head> <link href=" +:+ QUOT +:+ u +:+ QUOT +:+ " rel=" +:+ QUOT +:+ "stylesheet" +:+ QUOT
                   +:+ "media=" +:+ QUOT +:+ "screen" +:+ QUOT +:+ " type=" +:+ QUOT +:+ "text/css" +:+ QUOT
                   +:+ "/></head> " +:+ LF
       end)
  +:+ "<body>" +:+ LF +:+ " <h2>" +:+ default "(null)"%string (pretty_print_uri r_uri) +:+ "</h2>" +:+ LF
  +:+ LF +:+ "<ul>" +:+ LF
  +:+ "<li><a href=" +:+ QUOT +:+ "../" +:+ QUOT +:+ "><small>../</small></a><br>" +:+ LF.

(** A line of the page; every child has a URI. *)
Definition child_line (r : dav_repos_resource) : string :=
  let slash := if bool_decide (resourcetype r = Some dav_repos_COLLECTION) then "/"%string else EmptyString in
  let name := basename (default EmptyString (uri r)) +:+ slash in
  "<li><A HREF=" +:+ QUOT +:+ name +:+ QUOT +:+ ">" +:+ name +:+ "</A><BR>" +:+ LF.

Definition page_tail : string :=
  " </ul>" +:+ LF +:+ " <hr noshade><em>Powered by Limestone " +:+ VERSION +:+ ".</em>" +:+ LF
  +:+ "</body></html>".

Definition HTTP_MOVED_PERMANENTLY : Z := 301.

(** The error, the header [Location] and what is sent. *)
Definition dav_repos_deliver (res : dav_resource)
  : R (option dav_error * option string * option delivery) :=
  let r := res_dbr res in
  if is_collection (resourcetype r) then
    if negb r_main && negb (bool_decide (last_char r_uri = Some SLASH)) then
      mret (Some (dav_new_error HTTP_MOVED_PERMANENTLY),
            Some (dav_get_response_href r_uri +:+ "/"
                  +:+ match r_args with Some a => "?" +:+ a | None => EmptyString end), None)
    else
      c ← run_out (sabridge_get_collection_children r 1 None);
      match c, uri r with
      | inl e, _ => mret (Some e, None, None)
      | inr _, None => crash
      | inr (children, _), Some _ =>
          let page := page_head +:+ String.concat EmptyString (map child_line children) +:+ page_tail in
          mret (if pass_brigade then None else Some (dav_new_error HTTP_INTERNAL_SERVER_ERROR), None,
                Some (Page page))
      end
  else
    x ← sabridge_deliver r;
    mret (x.1, None, x.2).
End get.
