(* ===== verification/WalkSpec.v ===== *)
(** * What a walk visits

    With the flag for binds, a walk without end calls the walker once for the root and
    once for every resource that a visible bind of a visited collection leads to. *)
From S2P Require Import Prelude Util Dbd Mime Db Bind Resource DbmsDeltav Bridge Users Properties Acl Listing ListingSpec Request Create Principal Versions CreateSpec VersionsSpec VersionExamples Locks Copy Repos Search SearchBuild SearchResponse SearchSpec SearchExamples LiveProps Walk.
Local Open Scope Z_scope.
Local Open Scope limestone_scope.

(** ** Each resource once *)

(** The resources of a listing that were not seen before. *)
Definition unmarked (l : list dav_repos_resource) : list Z :=
  map serialno (List.filter (fun r => negb (dbr_bind r)) l).

Lemma unmarked_cons b r l :
  unmarked (set_bind b r :: l) = (if b then [] else [serialno r]) ++ unmarked l.
Proof. unfold unmarked. cbn. change (dbr_bind (set_bind b r)) with b. by destruct b. Qed.

Lemma unmarked_app l l' : unmarked (l ++ l') = unmarked l ++ unmarked l'.
Proof. unfold unmarked. by rewrite List.filter_app, map_app. Qed.

(** Beyond those of [R] the resources of the list are unmarked in it once. *)
Record once (R : list Z) (l : list dav_repos_resource) : Prop := Once {
  once_nodup : NoDup (unmarked l);
  once_new x : x ∈ unmarked l -> x ∉ R;
  once_all x : x ∈ map serialno l -> x ∈ R \/ x ∈ unmarked l
}.

Lemma once_nil R : once R [].
Proof. split; [constructor|set_solver|set_solver]. Qed.

Lemma mark_level_once R l : once R (mark_level R l).2.
Proof.
  revert R. induction l as [|r l IH]; intros R; [apply once_nil|]. cbn.
  destruct (IH (serialno r :: R)) as [H1 H2 H3].
  destruct (mark_level (serialno r :: R) l) as [R' l'] eqn:E. cbn in *.
  split; rewrite ?unmarked_cons.
  - case_bool_decide; cbn; [done|]. constructor; [|done]. intros Hin%H2. set_solver.
  - intros x. case_bool_decide; cbn; [intros Hx%H2; set_solver|].
    intros [->|Hx%H2]%elem_of_cons; set_solver.
  - intros x [->|Hx]%elem_of_cons.
    + case_bool_decide; [by left|]. right. cbn. by left.
    + destruct (H3 x Hx) as [[->|Hr]%elem_of_cons|Hu]; [|by left|right; set_solver].
      case_bool_decide; [by left|]. right. cbn. by left.
Qed.

Lemma once_app R l l' :
  once R l -> (forall R', (forall x, x ∈ R' <-> x ∈ R \/ x ∈ map serialno l) -> once R' l') ->
  once R (l ++ l').
Proof.
  intros [H1 H2 H3] H. destruct (H (R ++ map serialno l)) as [K1 K2 K3]; [set_solver|].
  assert (Hsub : forall x, x ∈ unmarked l -> x ∈ map serialno l).
  { intros x. unfold unmarked. rewrite !elem_of_map. intros (r & <- & Hr%elem_of_filter_bool).
    exists r. tauto. }
  split; rewrite ?unmarked_app.
  - apply NoDup_app. split_and!; [done|set_solver|done].
  - intros x [Hx|Hx]%elem_of_app; [by apply H2|]. apply K2 in Hx. set_solver.
  - intros x. rewrite map_app, !elem_of_app. intros [Hx|Hx].
    + destruct (H3 x Hx); tauto.
    + destruct (K3 x Hx) as [[?|Hl]%elem_of_app|?]; [tauto| |tauto]. destruct (H3 x Hl); tauto.
Qed.

Lemma mark_level_serials R l : map serialno (mark_level R l).2 = map serialno l.
Proof.
  pose proof (mark_level_key R l) as H. apply (f_equal (map (fun k => k.1.2))) in H.
  by rewrite !map_map in H.
Qed.

Lemma children_loop_once n acl R next total s l t s' :
  children_loop n DAV_INFINITY acl R next total s = (Some (Ret (inr (l, t))), s') -> once R l.
Proof.
  revert R next total s l t s'. induction n as [|n IH]; intros R next total s l t s'; [done|].
  cbn [children_loop]. destruct next as [|r0 next0] eqn:Enext.
  { intros [= <- _ _]. apply once_nil. }
  rewrite <- Enext. clear Enext r0 next0.
  pose proof (mark_level_once R next) as Hm. pose proof (mark_level_retrieved R next) as Hr.
  pose proof (mark_level_serials R next) as Hs.
  destruct (mark_level R next) as [R' level] eqn:Em. cbn [fst snd] in *.
  rewrite bool_decide_true by done. rewrite bind_run.
  destruct (dbms_get_collection_resource acl level s) as [[|[e|[next' k]]] s1]; cbn; [done..|].
  rewrite bind_run.
  destruct (children_loop n DAV_INFINITY acl R' next' _ s1) as [[[|[e|[l' t']]]|] s2] eqn:Er;
    cbn; try done.
  intros [= <- _ _]. apply once_app; [done|]. intros R2 HR2. apply IH in Er as [K1 K2 K3].
  assert (Heq : forall x, x ∈ R2 <-> x ∈ R') by (intros x; rewrite HR2, Hr, Hs; tauto).
  split; [done| |]; intros x; rewrite Heq; [apply K2|apply K3].
Qed.

Lemma children_once r acl s l t s' :
  sabridge_get_collection_children r DAV_INFINITY acl s = (Ret (inr (l, t)), s') -> once [serialno r] l.
Proof.
  unfold sabridge_get_collection_children, obind. rewrite bool_decide_false by done.
  rewrite bind_run. destruct (dbms_get_collection_resource acl [r] s) as [[|[e|[head n]]] s1]; cbn [fst snd];
    [done..|].
  rewrite !bind_run. cbn [get_db fst snd].
  destruct (children_loop (children_fuel (c_db s1)) DAV_INFINITY acl [serialno r] head n s1) as [[[|[e|[l' t']]]|] s2] eqn:El; cbn; try done.
  intros [= -> _ _]. by eapply children_loop_once.
Qed.

(** ** No refusal *)

Lemma level_quiet acl chain s :
  quiet s ->
  (dbms_get_collection_resource acl chain s).2 = s
  /\ forall e, (dbms_get_collection_resource acl chain s).1 <> Ret (inl e).
Proof.
  destruct s as [d f now files e0]. unfold quiet. cbn. intros ->.
  unfold dbms_get_collection_resource. destruct chain as [|r chain]; [done|].
  destruct (has_resource r); [|done]. by rewrite bind_run, select_quiet.
Qed.

Lemma children_loop_quiet n depth acl R next total s :
  quiet s ->
  (children_loop n depth acl R next total s).2 = s
  /\ forall e, (children_loop n depth acl R next total s).1 <> Some (Ret (inl e)).
Proof.
  revert R next total. induction n as [|n IH]; intros R next total Hq; [done|].
  cbn [children_loop]. destruct next as [|r0 next0]; [done|].
  destruct (mark_level R (r0 :: next0)) as [R' level]. case_bool_decide; [|done].
  rewrite bind_run. destruct (level_quiet acl level s Hq) as [Hs He].
  destruct (dbms_get_collection_resource acl level s) as [[|[e|[next' k]]] s1]; cbn in *; subst s1;
    [done|by destruct (He e)|].
  rewrite bind_run. destruct (IH R' next' (match next' with [] => total | _ => total + k end) Hq) as [H1 H2].
  destruct (children_loop n depth acl R' next' _ s) as [[[|[e|[l' t']]]|] s2]; cbn in *; subst s2;
    (split; [done|]); try done.
Qed.

Lemma children_quiet r acl s :
  quiet s -> joins_ok (c_db s) -> has_resource r = true -> dbr_bind r = false ->
  is_collection (resourcetype r) = true ->
  exists l t, sabridge_get_collection_children r DAV_INFINITY acl s = (Ret (inr (l, t)), s).
Proof.
  intros Hq Hj Hr Hb Hc. pose proof (get_collection_children_spec acl r s Hj Hr Hb Hc) as H.
  assert (Hs : (sabridge_get_collection_children r DAV_INFINITY acl s).2 = s
    /\ forall e, (sabridge_get_collection_children r DAV_INFINITY acl s).1 <> Ret (inl e)).
  { unfold sabridge_get_collection_children, obind. rewrite bool_decide_false by done.
    rewrite bind_run. destruct (level_quiet acl [r] s Hq) as [Hs He].
    destruct (dbms_get_collection_resource acl [r] s) as [[|[e|[head n]]] s1]; cbn [fst snd] in *; subst s1;
      [done|by destruct (He e)|].
    rewrite !bind_run. cbn [get_db fst snd].
    destruct (children_loop_quiet (children_fuel (c_db s)) DAV_INFINITY acl [serialno r] head n s Hq) as [H1 H2].
    destruct (children_loop (children_fuel (c_db s)) DAV_INFINITY acl [serialno r] head n s) as [[[|[e|[l' t']]]|] s2]; cbn in *; subst s2; try done.
    by destruct (H2 e). }
  destruct (sabridge_get_collection_children r DAV_INFINITY acl s) as [[|[e|[l t]]] s'];
    cbn in Hs; destruct Hs as [-> He]; [done|by destruct (He e)|by exists l, t].
Qed.

(** ** The walk *)

Section walk_spec.
Context {lib : SearchLib} {rlib : ResponseLib} {cfg : ServerConfig} {req : Request}.
Context {Response : Type}.
Variables (auth has_lockdb : bool) (pf : option propfind).
Variable dav_lock_query : dav_repos_resource -> R (option dav_error * list dav_lock).
Variable activelock : list dav_lock -> string.

(** The query of locks returns. *)
Definition query_answers : Prop :=
  forall r cache s, exists x cache' s', dav_lock_query r cache s = (Ret (x, cache'), s').

(** A walker without errors, that adds to the responses. *)
Variable note : dav_walk_resource -> option Response -> option Response.
Definition noting (w : dav_walk_resource) (is_coll : bool) (r : option Response)
  : R (option dav_error * option Response) := mret (None, note w r).

Definition visited_id (w : dav_walk_resource) : Z := serialno (res_dbr (wres_resource w)).

Lemma insert_lock_prop_answers r cache s :
  query_answers ->
  exists x cache' s', dav_repos_insert_lock_prop has_lockdb dav_lock_query activelock r cache s
                      = (Ret (x, cache'), s').
Proof.
  intros Hq. unfold dav_repos_insert_lock_prop. destruct has_lockdb; [|by eexists _, _, _].
  destruct (Hq r cache s) as ([[e|] locks] & cache' & s' & Hr);
    unfold mbind, R_bind, obind; rewrite bind_run, Hr; by eexists _, _, _.
Qed.

Lemma walk_resource_spec res cache s :
  query_answers ->
  exists w cache' s', walk_resource pf has_lockdb dav_lock_query activelock res cache s
                      = (Ret (w, cache'), s') /\ visited_id w = serialno (res_dbr res).
Proof.
  intros Hq. unfold walk_resource, visited_id.
  destruct (insert_lock_prop_answers (res_dbr (dav_repos_update_dbr_resource res)) cache s Hq)
    as (x & cache' & s' & Hx).
  destruct pf as [[]|]; cbv zeta; unfold mbind, R_bind, obind; rewrite ?bind_run, ?Hx;
    eexists _, _, _; (split; [reflexivity|]); cbn [wres_resource fst]; by rewrite update_dbr_resource_dbr.
Qed.

Lemma walk_loop_spec l acc cache s :
  query_answers ->
  exists ws cache' s',
    walk_loop true pf has_lockdb true dav_lock_query activelock noting l acc cache s
      = (Ret ((None, fold_left (fun acc w => note w acc) ws acc), cache'), s')
    /\ map visited_id ws = unmarked (map res_dbr l).
Proof.
  intros Hq. revert acc cache s. induction l as [|res l IH]; intros acc cache s.
  { by exists [], cache, s. }
  cbn [walk_loop map]. unfold unmarked. cbn [List.filter].
  destruct (dbr_bind (res_dbr res)); cbn [negb andb]; [apply IH|].
  destruct (walk_resource_spec res cache s Hq) as (w & c1 & s1 & Hw & Hid).
  destruct (IH (note w acc) c1 s1) as (ws & c2 & s2 & Hws & Hids).
  exists (w :: ws), c2, s2. split; [|cbn; by rewrite Hid, Hids].
  unfold mbind, R_bind, obind. rewrite bind_run, Hw. cbn [fst snd]. by rewrite bind_run.
Qed.

(** The root, and what a visible bind of a visited collection leads to. *)
Definition walked (acl : option (Z * string)) (d : db) (root x : Z) : Prop :=
  x = root \/ exists b, b ∈ binds d /\ visible acl d b = true /\ expanded acl d root (b_coll b)
                        /\ b_res b = x.

Definition walk_acl : option (Z * string) := if auth then listing_acl "read" else None.

Lemma listed_serials l acl d F x :
  map item_key l ≡ₚ map bind_key (below acl d F) ->
  x ∈ map serialno l <-> exists b, b ∈ below acl d F /\ b_res b = x.
Proof.
  intros Hk. apply (Permutation_map (fun k => k.1.2)) in Hk. rewrite !map_map in Hk.
  change (map (fun x => (item_key x).1.2) l) with (map serialno l) in Hk. rewrite Hk, elem_of_map.
  split; intros (b & H1 & H2); by exists b.
Qed.

(** C19. With nothing refused, a walk to an infinite depth that ignores further binds ends,
    round any cycle, with the responses that the walker makes for the root and for each
    resource that can be reached from it over visible binds, each of them once. *)
Theorem walk_visits_once root cache s :
  let r := res_dbr root in
  query_answers -> quiet s -> joins_ok (c_db s) -> has_resource r = true -> dbr_bind r = false ->
  is_collection (resourcetype r) = true ->
  exists ws cache' s',
    dav_repos_walk auth true pf has_lockdb true dav_lock_query activelock noting root DAV_INFINITY cache s
      = (Ret ((None, fold_left (fun acc w => note w acc) ws None), cache'), s')
    /\ NoDup (map visited_id ws)
    /\ (forall x, x ∈ map visited_id ws <-> walked walk_acl (c_db s) (serialno r) x).
Proof.
  intros r Hl Hq Hj Hr Hb Hc. fold walk_acl.
  destruct (children_quiet r walk_acl s Hq Hj Hr Hb Hc) as (l & t & Hlist).
  pose proof (get_collection_children_spec walk_acl r s Hj Hr Hb Hc) as H.
  rewrite Hlist in H. destruct H as (_ & F & HF & Hk).
  destruct (children_once _ _ _ _ _ _ Hlist) as [H1 H2 H3].
  destruct (walk_loop_spec (root :: map listed_resource l) None cache s Hl) as (ws & c' & s' & Hw & Hids).
  exists ws, c', s'.
  assert (Hv : map visited_id ws = serialno r :: unmarked l).
  { rewrite Hids. cbn [map]. rewrite map_map. change (fun x => res_dbr (listed_resource x)) with (fun x : dav_repos_resource => x).
    rewrite map_id. unfold unmarked. cbn [List.filter]. unfold r in Hb. by rewrite Hb. }
  split_and!.
  - unfold dav_repos_walk. fold r. rewrite Hc, bool_decide_false by done. cbn [andb negb].
    unfold mbind, R_bind, obind, run_out. fold walk_acl.
    rewrite bind_run. unfold obind. rewrite bind_run, Hlist. exact Hw.
  - rewrite Hv. constructor; [|done]. intros Hin%H2. set_solver.
  - intros x. rewrite Hv, elem_of_cons. unfold walked. split.
    + intros [Hx|Hx]; [by left|right].
      assert (Hin : x ∈ map serialno l).
      { unfold unmarked in Hx. apply elem_of_map in Hx as (y & <- & [_ Hy]%elem_of_filter_bool).
        apply elem_of_map. by exists y. }
      apply (listed_serials _ _ _ _ _ Hk) in Hin as (b & (Hb1 & Hb2 & Hv')%elem_of_below & Hx').
      exists b. by rewrite <- HF.
    + intros [Hx|(b & Hb1 & Hv' & He & Hx)]; [by left|].
      assert (Hin : x ∈ map serialno l).
      { apply (listed_serials _ _ _ _ _ Hk). exists b. rewrite elem_of_below, HF. done. }
      destruct (H3 x Hin) as [?%list_elem_of_singleton|?]; [by left|by right].
Qed.
End walk_spec.
