(* ===== verification/FolderExamples.v ===== *)
(** * A small site for the witnesses of listings, locks and walks

    A collection with a document and, in it, a bind back to the root; the collection
    is locked to infinity by its owner, and the document has a lock whose time is
    over. *)
From S2P Require Import Prelude Util Times Dbd Mime Db Bind Resource DbmsDeltav Bridge Users Properties Acl Listing ListingSpec Request Create Principal Versions CreateSpec VersionsSpec VersionExamples Locks LocksSpec LockRemoval Copy Repos Search SearchBuild SearchResponse SearchSpec SearchExamples LiveProps Walk WalkSpec.
From stdpp Require Import gmap.
Local Open Scope Z_scope.
Local Open Scope limestone_scope.

#[local] Existing Instances sample_config draft_request sample_lib sample_responses.

(** ** Listings and locks *)

Definition folder_db : db :=
  set_sequences (Sequences 100 100 100 50 50 10)
  (set_resources [ResourceRow 2 "" dav_repos_COLLECTION 5 5 "" 0 0 "en-US" None;
                  ResourceRow 10 "" dav_repos_COLLECTION 5 5 "" 0 0 "en-US" None;
                  ResourceRow 11 "" dav_repos_RESOURCE 5 5 "" 0 0 "en-US" None]
  (set_binds [BindRow 1 "a" 2 10 0; BindRow 2 "doc" 10 11 0; BindRow 3 "up" 10 2 0]
  (set_principals [PrincipalRow 5 "ann"; PrincipalRow 6 "bob"]
  (set_users [UserRow 5 "" None "" true; UserRow 6 "" None "" true]
  (set_acl_privileges [PrivilegeRow 2 1 "read" 2 3]
  (set_acl_inheritance [(2, "2"%string); (11, "2,11"%string)]
  (set_aces [AceRow 40 "D" "t" 2 6 0 None; AceRow 41 "G" "f" 11 6 0 None]
  (set_dav_aces_privileges [(40, 2); (41, 2)]
  (set_locks [LockRow 1 "aaaa" 10 5 "X" DAV_INFINITY INF_TIME_STR "" "/a";
              LockRow 2 "bbbb" 11 5 "S" 0 "1970-01-01 00:00:05" "" "/a/doc"]
  (set_locks_resources [(1, 10); (1, 11); (2, 11)]
   empty_db)))))))))).

Definition folder : conn := Conn folder_db [] 60000000 [] false.
Definition folder_root : dav_repos_resource :=
  set_uri (Some "/"%string) (set_resourcetype (Some dav_repos_COLLECTION)
    (set_serialno 2 (set_has_resource true zero_dbr))).
Definition folder_doc : dav_repos_resource :=
  set_uri (Some "/a/doc"%string) (set_resourcetype (Some dav_repos_RESOURCE)
    (set_serialno 11 (set_has_resource true zero_dbr))).

(** *** Listings *)

Lemma folder_joins : joins_ok folder_db.
Proof. joins_evaluated folder_db. Qed.

(** The whole listing, evaluated: the bind back to the root is listed and not
    followed. *)
Lemma get_collection_children_spec_witness :
  match sabridge_get_collection_children folder_root DAV_INFINITY None folder with
  | (Crash, _) => False
  | (Ret (inl _), s') => c_db s' = folder_db
  | (Ret (inr (l, _)), s') =>
      c_db s' = folder_db
      /\ exists F, (forall x, x ∈ F <-> expanded None folder_db (serialno folder_root) x)
           /\ map item_key l ≡ₚ map bind_key (below None folder_db F)
  end.
Proof. apply (get_collection_children_spec None folder_root folder folder_joins); reflexivity. Defined.

Example folder_listing :
  match (sabridge_get_collection_children folder_root DAV_INFINITY None folder).1 with
  | Ret (inr (l, _)) => map uri l = [Some "/a"; Some "/a/doc"; Some "/a/up"]%string
  | _ => False
  end.
Proof. vm_compute. done. Qed.

(** A listing and an access check disagree: the check has a protected entry go before
    every other, the listing has the entry of the nearest resource go first.  Bob,
    who is denied the document by a protected entry of the root, is shown it because
    of the entry of the document. *)
Theorem listing_shows_refused :
  visible (Some (6, "read"%string)) folder_db (BindRow 2 "doc" 10 11 0) = true
  /\ (dbms_is_allow 1 "read" (Principal PRINCIPAL_HREF 6 "users/bob") [] folder_doc None folder).1.1
     = 0.
Proof. split; vm_compute; reflexivity. Qed.

(** *** Locks *)

Lemma folder_owners : owners_ok folder_db.
Proof.
  intros l r Hl Hr Ht. assert (r_type r = dav_repos_COLLECTION \/ r_type r = dav_repos_RESOURCE)
    as [E|E] by set_solver; by rewrite E in Ht.
Qed.

(** The document is locked from above; its own lock is over and goes. *)
Lemma get_locks_spec_witness :
  exists ls s', dav_repos_get_locks folder_doc true folder = (Ret (None, ls), s')
    /\ map (fun l => (lock_uuid l, lock_res_id l)) ls = [("aaaa"%string, 10)]
    /\ map l_uuid (locks (c_db s')) = ["aaaa"%string]
    /\ (forall l, l ∈ locks (c_db s') -> l ∈ locks folder_db).
Proof.
  eexists _, _. split; [vm_compute; reflexivity|]. split; [reflexivity|]. split; [reflexivity|].
  refine (proj1 (proj2 (get_locks_spec (cfg := sample_config) folder_doc folder
    (match (dav_repos_get_locks folder_doc true folder).1 with Ret x => x.2 | _ => [] end)
    (dav_repos_get_locks folder_doc true folder).2 folder_owners _ _))).
  - by_evaluation.
  - vm_compute. reflexivity.
Defined.

Definition bob_lock : dav_lock :=
  Lock "cccc" DAV_LOCKSCOPE_SHARED DAV_LOCKREC_DIRECT 0 90 (Some "bob at work"%string) "bob"
    "/a/doc" 11 0 None.

Lemma append_locks_discovered_witness :
  let s' := (@dav_repos_append_locks sample_config folder_doc false [bob_lock] folder).2 in
  let ls := match (dav_repos_get_locks folder_doc true s').1 with Ret x => x.2 | _ => [] end in
  exists m, m ∈ ls /\ lock_uuid m = "cccc"%string /\ lock_timeout m = 90
    /\ lock_lockroot m = root_path folder_doc +:+ "/a/doc".
Proof.
  intros s' ls.
  assert (H : exists m, m ∈ ls /\ [50] = [lock_lock_id m]
    /\ lock_uuid m = lock_uuid bob_lock /\ lock_scope m = lock_scope bob_lock
    /\ lock_rec m = DAV_LOCKREC_DIRECT /\ lock_res_id m = serialno folder_doc
    /\ lock_depth m = 0 /\ lock_timeout m = time_kept (lock_timeout bob_lock)
    /\ lock_auth_user m = lock_auth_user bob_lock
    /\ lock_owner m = Some "bob at work"%string
    /\ lock_lockroot m = root_path folder_doc +:+ "/a/doc").
  { apply (append_locks_discovered (cfg := sample_config) gregorian_laws folder_doc bob_lock folder
      [set_lock_id 50 bob_lock] s' s' ls (dav_repos_get_locks folder_doc true s').2).
    - discriminate.
    - split; vm_compute; discriminate.
    - vm_compute. reflexivity.
    - reflexivity.
    - vm_compute. reflexivity.
    - vm_compute. reflexivity. }
  destruct H as (m & H1 & _ & H2 & _ & _ & _ & _ & H3 & _ & _ & H4). exists m. auto.
Defined.

(** Removing "/a/d" takes the lock of "/a/doc" with it. *)
Lemma remove_direct_locks_spec_witness :
  string_forall like_plain "/a/d" = true
  /\ let s' := (dbms_remove_direct_locks_w_prefix "/a/d" folder).2 in
     map l_uuid (locks (c_db s')) = ["aaaa"%string]
     /\ forall l, l ∈ locks (c_db s')
          <-> l ∈ locks folder_db /\ String.prefix "/a/d" (l_lockroot l) = false.
Proof.
  split; [reflexivity|]. split; [reflexivity|].
  apply (remove_direct_locks_spec "/a/d" folder eq_refl).
Defined.

(** The document is reached from the root only through the bind that is taken away,
    and keeps the lock of the collection. *)
Definition early : conn := Conn folder_db [] 1000000 [] false.

Lemma remove_indirect_keeps_witness :
  exists s', @sabridge_remove_indirect_locks_d_inf sample_config folder_doc None early
             = (Ret None, s')
    /\ locks_resources (c_db s') = [(1, 10); (1, 11); (2, 11)].
Proof.
  eexists. split; [vm_compute; reflexivity|].
  apply (remove_indirect_keeps (cfg := sample_config) folder_doc None early None).
  - intros x l n Hl. cbn in Hl. apply elem_of_cons in Hl as [->|Hl]; [reflexivity|].
    apply list_elem_of_singleton in Hl as ->. reflexivity.
  - vm_compute. reflexivity.
Defined.

(** ** A walk round a cycle: the walker is called three times *)

Definition folder_top : dav_resource :=
  DavResource folder_root None None true true false false DAV_RESOURCE_TYPE_REGULAR.

(** The responses are the identifiers visited. *)
Definition note_id (w : dav_walk_resource) (r : option (list Z)) : option (list Z) :=
  Some (default [] r ++ [visited_id w]).

Definition no_locks (r : dav_repos_resource) : R (option dav_error * list dav_lock) := mret (None, []).

Definition folder_walk : R (option dav_error * option (list Z)) :=
  dav_repos_walk false true (Some DAV_PROPFIND_IS_PROP) true true no_locks (fun _ => EmptyString)
    (noting note_id) folder_top DAV_INFINITY.

Lemma walk_visits_once_witness :
  exists ws cache' s',
    folder_walk empty_cache folder = (Ret ((None, fold_left (fun acc w => note_id w acc) ws None), cache'), s')
    /\ NoDup (map visited_id ws)
    /\ (forall x, x ∈ map visited_id ws <-> walked None folder_db (serialno folder_root) x).
Proof.
  apply (walk_visits_once false true (Some DAV_PROPFIND_IS_PROP) no_locks (fun _ => EmptyString) note_id
           folder_top empty_cache folder).
  - intros r cache s. by eexists _, _, _.
  - reflexivity.
  - apply folder_joins.
  - reflexivity.
  - reflexivity.
  - reflexivity.
Defined.

Example visited :
  match (folder_walk empty_cache folder).1 with Ret (x, _) => x | Crash => (None, None) end
  = (None, Some [2; 10; 11]).
Proof. vm_compute. reflexivity. Qed.

(** The heading of a page: each part of the path leads upwards; the root has none. *)
#[local] Instance slash_config : ServerConfig := {
  use_gc := false; keep_files := false; default_quota := 0;
  apr_strtok_slash := tokens SLASH "";
  apr_dbd_escape := fun s => s; ap_make_dirstr_parent := fun s => s; basename := fun s => s;
  apr_times := gregorian
}.

Example headings :
  pretty_print_uri "/a/bc" = Some (anchor "./bc/../" "a" +:+ " > " +:+ anchor "./bc/" "bc")
  /\ pretty_print_uri "/a/bc/" = Some (anchor "./../" "a" +:+ " > " +:+ anchor "./" "bc")
  /\ pretty_print_uri "/" = None.
Proof. vm_compute. auto. Qed.
