(* ===== verification/DeadProps.v ===== *)
(** * The names of the dead properties of a resource ([props.c])

    The server walks over the names with [first_name] and [next_name]; a name is read
    back from the key of the hash. *)
From S2P Require Import Prelude Util Db Resource Properties.
From stdpp Require Import gmap.
Local Open Scope Z_scope.
Local Open Scope limestone_scope.

(** [dav_prop_name]: a missing part is a NULL pointer. *)
Record dav_prop_name := PropName { pn_ns : option string; pn_name : option string }.

Definition no_name : dav_prop_name := PropName None None.

Section names.
(** The pieces of a text between tabulators, and the entries of a hash in the order in which
    they are visited. *)
Variable apr_strtok_tab : string -> list string.
Variable apr_hash_entries : gmap string dav_repos_property -> list (string * dav_repos_property).

Definition dav_repos_get_ns_name_key (key : option string) : dav_prop_name :=
  match key with
  | None => no_name
  | Some k => let pieces := apr_strtok_tab k in PropName (head pieces) (head (tail pieces))
  end.

(** The name at an index, the entries from the current one on. *)
Definition name_at (index : list (string * dav_repos_property)) : dav_prop_name :=
  dav_repos_get_ns_name_key (fst <$> head index).

(** The index is set; an empty hash has none. *)
Definition dav_repos_db_first_name (pr_hash : gmap string dav_repos_property)
  : dav_prop_name * list (string * dav_repos_property) :=
  let index := apr_hash_entries pr_hash in (name_at index, index).

Definition dav_repos_db_next_name (index : list (string * dav_repos_property))
  : dav_prop_name * list (string * dav_repos_property) :=
  (name_at (tail index), tail index).

(** The names that [n] calls after the first give. *)
Fixpoint next_names (n : nat) (index : list (string * dav_repos_property)) : list dav_prop_name :=
  match n with
  | O => []
  | S n => let '(name, index) := dav_repos_db_next_name index in name :: next_names n index
  end.

Definition names_in_turn (pr_hash : gmap string dav_repos_property) : list dav_prop_name :=
  let '(name, index) := dav_repos_db_first_name pr_hash in name :: next_names (size pr_hash) index.

(** ** Names and keys *)

(** What is documented of the two functions. *)
Hypothesis strtok_pieces : forall s, apr_strtok_tab s = tokens TAB EmptyString s.
Hypothesis entries_all : forall h, apr_hash_entries h ≡ₚ map_to_list h.

Definition no_tab (s : string) : bool := string_forall (fun c => negb (Ascii.eqb c TAB)) s.

(** A namespace or a name with a tabulator cannot be told from another; a name is not
    empty. *)
Definition plain_name (p : dav_repos_property) : Prop :=
  no_tab (prop_namespace_name p) = true /\ no_tab (prop_name p) = true /\ prop_name p <> EmptyString.

(** The name that is reported: a property without a namespace has a blank one. *)
Definition shown_name (p : dav_repos_property) : dav_prop_name :=
  PropName (Some (if String.eqb (prop_namespace_name p) EmptyString then NULL_NAMESPACE
                  else prop_namespace_name p)) (Some (prop_name p)).

Lemma tokens_plain t s : no_tab s = true -> tokens TAB t s = add_token (t +:+ s) [].
Proof.
  revert t. induction s as [|c s IH]; intros t; cbn; [by rewrite string_app_nil_r|].
  intros [Hc Hs]%andb_prop. destruct (Ascii.eqb c TAB); [done|].
  rewrite IH by done. by rewrite string_app_assoc.
Qed.

Lemma tokens_split t s r :
  no_tab s = true -> tokens TAB t (s +:+ String TAB r) = add_token (t +:+ s) (tokens TAB "" r).
Proof.
  revert t. induction s as [|c s IH]; intros t; cbn; [by rewrite string_app_nil_r|].
  intros [Hc Hs]%andb_prop. destruct (Ascii.eqb c TAB); [done|].
  rewrite IH by done. by rewrite string_app_assoc.
Qed.

Definition key_of (p : dav_repos_property) : string :=
  (if String.eqb (prop_namespace_name p) EmptyString then NULL_NAMESPACE
   else prop_namespace_name p) +:+ String TAB (prop_name p).

Lemma build_key p :
  dav_repos_build_ns_name_key (Some (prop_namespace_name p)) (Some (prop_name p)) = Some (key_of p).
Proof.
  unfold key_of. cbn. destruct (prop_namespace_name p); cbn; [by rewrite decide_True|].
  by rewrite decide_False.
Qed.

Lemma name_of_key p : plain_name p -> dav_repos_get_ns_name_key (Some (key_of p)) = shown_name p.
Proof.
  intros (Hns & Hname & Hne). unfold dav_repos_get_ns_name_key, key_of, shown_name.
  rewrite strtok_pieces. destruct (String.eqb_spec (prop_namespace_name p) "") as [He|He].
  - rewrite tokens_split by done. cbn. rewrite tokens_plain by done. cbn.
    by destruct (prop_name p).
  - rewrite tokens_split by done. rewrite tokens_plain by done. cbn.
    destruct (prop_namespace_name p); [done|]. by destruct (prop_name p).
Qed.

(** ** The walk over the names *)

Lemma next_names_all index :
  index <> [] ->
  name_at index :: next_names (length index) index
  = map (fun e => dav_repos_get_ns_name_key (Some e.1)) index ++ [no_name].
Proof.
  induction index as [|e index IH]; [done|]. intros _. cbn [length next_names map app].
  f_equal. cbn. destruct index as [|e' index]; [done|]. by apply IH.
Qed.
Lemma pr_hash_of_snoc l p : pr_hash_of (l ++ [p]) = <[key_of p := p]> (pr_hash_of l).
Proof. unfold pr_hash_of. rewrite fold_left_app. cbn [fold_left]. by rewrite build_key. Qed.

Lemma pr_hash_of_entry l k q : pr_hash_of l !! k = Some q -> k = key_of q /\ q ∈ l.
Proof.
  induction l as [|p l IH] using rev_ind; [done|]. rewrite pr_hash_of_snoc.
  rewrite lookup_insert_Some. intros [[<- <-]|[_ H]]; [set_solver|]. destruct (IH H). set_solver.
Qed.

Lemma pr_hash_of_key l p : p ∈ l -> is_Some (pr_hash_of l !! key_of p).
Proof.
  induction l as [|q l IH] using rev_ind; [set_solver|]. rewrite pr_hash_of_snoc.
  rewrite elem_of_app, list_elem_of_singleton. intros [H| ->]; apply lookup_insert_is_Some'; auto.
Qed.

Lemma shown_name_key p q : shown_name p = shown_name q -> key_of p = key_of q.
Proof. unfold shown_name, key_of. intros [= -> ->]. done. Qed.

(** The walk over the names of a hash gives every name of a property once and ends. *)
Theorem all_names_spec l :
  Forall plain_name l ->
  exists names, names_in_turn (pr_hash_of l) = names ++ [no_name]
    /\ NoDup names /\ forall n, n ∈ names <-> exists p, p ∈ l /\ n = shown_name p.
Proof.
  intros Hl. rewrite Forall_forall in Hl. set (index := apr_hash_entries (pr_hash_of l)).
  assert (Hin : forall k q, (k, q) ∈ index <-> pr_hash_of l !! k = Some q).
  { intros k q. unfold index. by rewrite entries_all, elem_of_map_to_list. }
  assert (Hname : forall e, e ∈ index -> dav_repos_get_ns_name_key (Some e.1) = shown_name e.2
                                        /\ e.2 ∈ l /\ e.1 = key_of e.2).
  { intros [k q] Hq. apply Hin, pr_hash_of_entry in Hq as [-> Hq]. cbn [fst snd]. by rewrite name_of_key by auto. }
  exists (map (fun e => shown_name e.2) index). split_and!.
  - unfold names_in_turn, dav_repos_db_first_name. fold index.
    replace (size (pr_hash_of l)) with (length index)
      by (unfold index; rewrite entries_all; apply length_map_to_list).
    destruct (decide (index = [])) as [->|Hne]; [done|]. rewrite next_names_all by done. f_equal.
    apply map_ext_in. intros e He. by apply Hname, list_elem_of_In.
  - assert (Hnd : NoDup (map fst index)) by (unfold index; rewrite entries_all; apply NoDup_fst_map_to_list).
    clear Hin. induction index as [|e index IH]; [constructor|]. cbn in *.
    apply NoDup_cons in Hnd as [He Hnd]. constructor; [|apply IH; [|done]; intros; apply Hname; by right].
    rewrite Prelude.elem_of_map. intros (e' & Heq & He'). apply He, list_elem_of_In, in_map_iff.
    exists e'. split; [|by apply list_elem_of_In].
    destruct (Hname e ltac:(by left)) as (_ & _ & ->), (Hname e' ltac:(by right)) as (_ & _ & ->).
    by apply shown_name_key.
  - intros n. rewrite Prelude.elem_of_map. split.
    + intros ([k q] & <- & He). exists q. split; [|done]. by apply Hname in He as (_ & ? & _).
    + intros (p & Hp & ->). destruct (pr_hash_of_key l p Hp) as [q Hq]. exists (key_of p, q).
      split; [|by apply Hin]. apply pr_hash_of_entry in Hq as [Hk Hq].
      cbn. rewrite <- !name_of_key, Hk by auto. done.
Qed.
End names.

(** ** Example *)

Definition two_properties : list dav_repos_property :=
  [Property 3 "colour" "" "" "http://x"; Property 1 "size" "" "" ""]%string.

Lemma all_names_spec_witness :
  exists names, names_in_turn (tokens TAB "") map_to_list (pr_hash_of two_properties) = names ++ [no_name]
    /\ NoDup names /\ forall n, n ∈ names <-> exists p, p ∈ two_properties /\ n = shown_name p.
Proof.
  apply (all_names_spec (tokens TAB "") map_to_list); [done|done|].
  repeat constructor; done.
Defined.

Example names_listed :
  names_in_turn (tokens TAB "") map_to_list (pr_hash_of two_properties)
  = [PropName (Some "http://x") (Some "colour"); PropName (Some " ") (Some "size"); no_name]%string.
Proof. vm_compute. reflexivity. Qed.
