(* ===== verification/LockHooks.v ===== *)
(** * Locks of URLs without a resource ([lock.c])

    A LOCK of an unmapped URL makes a resource that holds the lock; a later PUT or MKCOL
    gives it its type.  The resource of a lock is found from its token. *)
From S2P Require Import Prelude Util Times Dbd Db Bind Resource Quota DbmsDeltav Bridge Users Properties Acl Listing Request Create Principal Versions CreateSpec VersionsSpec VersionExamples Locks Copy Repos.
Local Open Scope Z_scope.
Local Open Scope limestone_scope.

Definition set_res_id (id : Z) (l : dav_lock) : dav_lock :=
  Lock (lock_uuid l) (lock_scope l) (lock_rec l) (lock_depth l) (lock_timeout l)
    (lock_owner l) (lock_auth_user l) (lock_lockroot l) id (lock_lock_id l) (post_bind_uri l).

Section hooks.
Context {cfg : ServerConfig} {req : Request}.

(** Whether the method may make such resources; for the path of a request, the name of
    its file and the rest of its path, as the server finds them for a request of its own. *)
Variable use_locknull : bool.
Variable ap_sub_req_lookup_uri : string -> string * string.

Definition dav_repos_remove_locknull_state (res : dav_resource) : R (option dav_error * dav_resource) :=
  if bool_decide (res_type res = DAV_RESOURCE_TYPE_REGULAR) then
    let new_restype :=
      if collection res
      then if versioned res then dav_repos_VERSIONED_COLLECTION else dav_repos_COLLECTION
      else if versioned res then dav_repos_VERSIONED else dav_repos_RESOURCE in
    res <! (if acl_hooks then dav_repos_create_initial_acl rec_principal res else mret (None, res)) ;;
    on_dbr res (dbms_update_resource_type (res_dbr res) new_restype)
  else mret (Some (dav_new_error HTTP_INTERNAL_SERVER_ERROR), res).

(** The resource that is locked: without one, one that holds the lock, or a new file whose
    error is dropped. *)
Definition resource_to_lock (res : dav_resource) : R (option dav_error * dav_resource) :=
  let r := res_dbr res in
  if negb (bool_decide (serialno r = 0)) then mret (None, res)
  else if use_locknull then
    res <! sabridge_insert_resource (set_dbr (set_resourcetype (Some dav_repos_LOCKNULL) r) res)
             false true ;;
    let res := dav_repos_update_dbr_resource res in
    if acl_hooks then dav_repos_inherit_aces res else mret (None, res)
  else
    res ← ignore (dav_repos_create_resource (set_collection false res) false false);
    mret (None, res).

Definition dav_repos_create_lock (res : dav_resource)
  : R (option dav_error * (dav_resource * option dav_lock)) :=
  x ← resource_to_lock res;
  match x with
  | (Some e, res) => mret (Some e, (res, None))
  | (None, res) =>
      d ← run get_db;
      match get_new_plain_uuid (apr_uuid d) with
      | None => crash
      | Some u =>
          mret (None, (res, Some (set_res_id (serialno (res_dbr res)) (dav_repos_alloc_lock u))))
      end
  end.

(** The error of the search for the lock is dropped, and so is that of the resource. *)
Definition dav_repos_lookup_resource (start_res : dav_resource) (locktoken : option string)
  : R (dav_error + dav_resource) :=
  x ← run_out (dav_repos_find_lock (res_dbr start_res) locktoken);
  match x.2 with
  | [] => mret (inl (dav_new_error HTTP_CONFLICT))
  | lock :: _ =>
      let root := root_path (res_dbr start_res) in
      let u := root +:+ lock_lockroot lock in
      let '(filename, path_info) := ap_sub_req_lookup_uri u in
      y ← dav_repos_get_resource root filename path_info u;
      mret (inr y.2)
  end.

(** ** What the creation of a lock does *)

#[local] Instance same_res_preorder : PreOrder same_res.
Proof.
  split; [by intros x; split|]. intros x y z [H1 H2] [H3 H4]. split; [by etransitivity|congruence].
Qed.

Lemma inherit_aces_steps res : Steps res (dav_repos_inherit_aces res).
Proof.
  intros c s. unfold dav_repos_inherit_aces. apply wp_bind.
  { intros p. apply (movesR_mono same_tables). moves. }
  eapply wp_mono; [apply get_parent_id_record|]. intros [p r'] c2 s2 [Hr Hd]. cbn in *.
  case_bool_decide; [apply wp_ret; by rewrite Hd|].
  eapply wp_mono; [apply (steps_keep r' r'); [reflexivity|apply moves_inherit_parent]|].
  intros x c3 s3 [H2 H3]. rewrite Hd in H3. split; [by etransitivity|done].
Qed.

(** Steps after a creation that keep the record and the tables. *)
Lemma created_steps t db res d bs ms res1 d1 res2 d2 :
  created t db res d bs ms res1 d1 -> same_res res1 res2 -> same_tables d1 d2 ->
  created t db res d bs ms res2 d2.
Proof.
  intros [] [Hr Hp] Ht.
  constructor; rewrite ?(sr_serialno _ _ Hr), ?(sr_uri _ _ Hr), ?(sr_type _ _ Hr),
    ?(sr_displayname _ _ Hr), ?(sr_sha1 _ _ Hr); try done.
  - unfold bind_rows in *. by rewrite (sr_uri _ _ Hr), (sr_serialno _ _ Hr), Hp.
  - rewrite <- (app_nil_r [_]), <- (app_nil_r bs), <- (app_nil_r ms). by eapply adds_trans.
Qed.

(** The resource that is made for a lock. *)
Definition lock_type : dav_repos_type := if use_locknull then dav_repos_LOCKNULL else dav_repos_RESOURCE.

Lemma resource_to_lock_wp res c s :
  serialno (res_dbr res) = 0 -> resourcetype (res_dbr res) = None ->
  wp (resource_to_lock res) c s (fun x _ s1 => exists bs ms,
    created lock_type false res (c_db s) bs ms x.2 (c_db s1)).
Proof.
  intros H0 Ht. unfold resource_to_lock, lock_type. rewrite bool_decide_true by done. cbn [negb].
  pose proof mono_sabridge_insert_resource as Hmono.
  pose proof (fun r => movesR_mono _ _ (moves_inherit_aces r)) as Hinh.
  destruct use_locknull.
  - apply wp_unless_error; [moves|].
    eapply wp_mono; [by apply (insert_resource_wp dav_repos_LOCKNULL)|].
    intros [e x] c1 s1 (bs & ms & H). cbn in H.
    assert (H' : created dav_repos_LOCKNULL false res (c_db s) bs ms
                   (dav_repos_update_dbr_resource x) (c_db s1)).
    { eapply created_ext; [..|exact H]; try done; [apply update_dbr_resource_dbr|].
      apply update_dbr_resource_parent. }
    destruct e as [e|].
    { exists bs, ms. by eapply created_ext; [..|exact H]. }
    destruct acl_hooks; [|apply wp_ret; by exists bs, ms].
    eapply wp_mono; [apply inherit_aces_steps|]. intros y c2 s2 [Hr Hd].
    exists bs, ms. by eapply created_steps.
  - apply wp_bind; [moves|]. apply wp_ignore. unfold dav_repos_create_resource. cbn [collection set_collection].
    change (res_dbr (set_collection false res)) with (res_dbr res). rewrite Ht.
    apply wp_unless_error; [moves|].
    eapply wp_mono; [by apply (insert_resource_wp dav_repos_RESOURCE)|].
    intros [[e|] x] c1 s1 (bs & ms & H); repeat apply wp_ret; exists bs, ms; cbn [snd];
      eapply created_ext; try exact H; try done; [apply update_dbr_resource_dbr|].
    apply update_dbr_resource_parent.
Qed.
End hooks.

(** C20. A LOCK of an unmapped URL that succeeds makes exactly one resource, under the next
    identifier, with its bind and no other change of the name space: one that only holds
    the lock, or an empty file when the method does not know such resources; and the new
    lock is that of the resource made. *)
Theorem create_lock_spec {cfg : ServerConfig} {req : Request} use_locknull res cache s x cache' s' :
  serialno (res_dbr res) = 0 -> resourcetype (res_dbr res) = None ->
  dav_repos_create_lock use_locknull res cache s = (Ret ((None, x), cache'), s') ->
  c_errnum s' = false ->
  exists bs ms l, created (lock_type use_locknull) false res (c_db s) bs ms x.1 (c_db s')
    /\ x.2 = Some l /\ lock_res_id l = resources_id_seq (sequences (c_db s)).
Proof.
  intros H0 Ht E He.
  assert (H : wp (dav_repos_create_lock use_locknull res) cache s (fun y _ s1 =>
    y.1 = None -> exists bs ms l,
      created (lock_type use_locknull) false res (c_db s) bs ms y.2.1 (c_db s1)
      /\ y.2.2 = Some l /\ lock_res_id l = resources_id_seq (sequences (c_db s)))).
  { unfold dav_repos_create_lock. apply wp_bind; [moves|].
    eapply wp_mono; [by apply resource_to_lock_wp|]. intros [[e|] res1] c1 s1 (bs & ms & H); cbn in H.
    - by apply wp_ret.
    - apply wp_bind; [moves|]. apply wp_run. intros _. cbn [get_db fst snd].
      destruct (get_new_plain_uuid _) as [u|]; [|done]. apply wp_ret. intros _.
      exists bs, ms, (set_res_id (serialno (res_dbr res1)) (dav_repos_alloc_lock u)).
      split_and!; [done|done|]. cbn. apply H. }
  exact (wp_use _ _ _ _ _ _ _ H E He eq_refl).
Qed.

(** ** A lock on a new URL *)

Section example.
#[local] Existing Instances sample_config draft_request.

Definition unmapped : dav_resource :=
  set_dbr (set_resourcetype None (res_dbr new_file)) new_file.

Lemma create_lock_spec_witness :
  exists x c s' bs ms l, dav_repos_create_lock true unmapped empty_cache draft = (Ret ((None, x), c), s')
    /\ created dav_repos_LOCKNULL false unmapped draft_db bs ms x.1 (c_db s')
    /\ x.2 = Some l /\ lock_res_id l = resources_id_seq (sequences draft_db).
Proof.
  destruct (ends_run (dav_repos_create_lock true unmapped) draft (fun x => bool_decide (x.1 = None)))
    as ([e x] & c & s' & Hc & He & Hx); [vm_compute; reflexivity|].
  cbn in Hx. apply bool_decide_eq_true in Hx. subst e.
  destruct (create_lock_spec true unmapped empty_cache draft x c s' eq_refl eq_refl Hc He)
    as (bs & ms & l & H).
  exists x, c, s', bs, ms, l. split; [exact Hc|exact H].
Defined.
End example.
