(* ===== verification/Config.v ===== *)
(** * The configuration of a server ([mod_dav_repos.c])

    The directives fill a record for the main server and one for each virtual host; the
    record a virtual host works with is their merge. *)
From S2P Require Import Prelude Util Numbers Db Search.
From stdpp Require Import gmap.
Local Open Scope Z_scope.
Local Open Scope limestone_scope.

Inductive dbms_kind := DB_UNKNOWN | MYSQL | PGSQL.

#[export] Instance dbms_kind_eq_dec : EqDecision dbms_kind.
Proof. solve_decision. Defined.

(** A string that is not set is NULL; a flag is an [int]. *)
Record dav_repos_server_conf := ServerConf {
  cf_tmp_dir : option string;
  cf_file_dir : option string;
  cf_db_driver : option string;
  cf_dbms : dbms_kind;
  cf_db_params : option string;
  cf_use_gc : Z;
  cf_keep_files : Z;
  cf_css_uri : option string;
  cf_xsl_403_uri : option string;
  cf_quota : Z;
  cf_profile_provider : option string
}.

Definition dav_repos_create_server_config : dav_repos_server_conf :=
  ServerConf None None None DB_UNKNOWN None 0 1 None None (10 * 1024 * 1024) None.

(** ** Merging *)

Definition inherit_pointer (parent child : option string) : option string :=
  match child with Some _ => child | None => parent end.
Definition inherit_int (parent child : Z) : Z := if bool_decide (child = 0) then parent else child.
Definition inherit_dbms (parent child : dbms_kind) : dbms_kind :=
  match child with DB_UNKNOWN => parent | _ => child end.

(** The provider of profiles is not among the fields that are merged. *)
Definition dav_repos_merge_server_config (parent child : dav_repos_server_conf) : dav_repos_server_conf :=
  {| cf_tmp_dir := inherit_pointer (cf_tmp_dir parent) (cf_tmp_dir child);
     cf_file_dir := inherit_pointer (cf_file_dir parent) (cf_file_dir child);
     cf_db_driver := inherit_pointer (cf_db_driver parent) (cf_db_driver child);
     cf_dbms := inherit_dbms (cf_dbms parent) (cf_dbms child);
     cf_db_params := inherit_pointer (cf_db_params parent) (cf_db_params child);
     cf_use_gc := inherit_int (cf_use_gc parent) (cf_use_gc child);
     cf_keep_files := inherit_int (cf_keep_files parent) (cf_keep_files child);
     cf_css_uri := inherit_pointer (cf_css_uri parent) (cf_css_uri child);
     cf_xsl_403_uri := inherit_pointer (cf_xsl_403_uri parent) (cf_xsl_403_uri child);
     cf_quota := inherit_int (cf_quota parent) (cf_quota child);
     cf_profile_provider := None |}.

(** ** Directives *)

Inductive directive :=
| DAVDBMSTmpDir (arg1 : string)
| DAVDBMSFileDir (arg1 : string)
| DBDriver (arg1 : string)
| DBDParams (arg1 : string)
| DAVLimestoneUseGC
| DAVLimestoneKeepFiles (flag : bool)
| DAVLimestoneIndexCSS (arg1 : string)
| DAVLimestoneXSL403 (arg1 : string)
| DAVLimestoneUserQuota (arg1 : string)
| DAVLimestoneProfileProvider (arg1 : string).

Section directives.
(** The comparison of texts without case, and the providers that are registered. *)
Variable strcasecmp : string -> string -> bool.
Variable ap_lookup_provider : string -> option string.

Definition set_driver (arg1 : string) (k : dbms_kind) (c : dav_repos_server_conf) : dav_repos_server_conf :=
  ServerConf (cf_tmp_dir c) (cf_file_dir c) (Some arg1) k (cf_db_params c) (cf_use_gc c)
    (cf_keep_files c) (cf_css_uri c) (cf_xsl_403_uri c) (cf_quota c) (cf_profile_provider c).

(** The name of a driver that is not known is stored all the same. *)
Definition dav_repos_dbd_driver_cmd (arg1 : string) (c : dav_repos_server_conf)
  : dav_repos_server_conf * option string :=
  if strcasecmp arg1 "mysql" then (set_driver arg1 MYSQL c, None)
  else if strcasecmp arg1 "pgsql" then (set_driver arg1 PGSQL c, None)
  else (set_driver arg1 (cf_dbms c) c, Some "This database driver is not supported"%string).

(** The handlers of the directives, with the error that stops the server. *)
Definition apply_directive (x : directive) (c : dav_repos_server_conf)
  : dav_repos_server_conf * option string :=
  let 'ServerConf tmp file driver dbms params gc keep css xsl quota provider := c in
  match x with
  | DAVDBMSTmpDir a => (ServerConf (Some a) file driver dbms params gc keep css xsl quota provider, None)
  | DAVDBMSFileDir a => (ServerConf tmp (Some a) driver dbms params gc keep css xsl quota provider, None)
  | DBDriver a => dav_repos_dbd_driver_cmd a c
  | DBDParams a => (ServerConf tmp file driver dbms (Some a) gc keep css xsl quota provider, None)
  | DAVLimestoneUseGC => (ServerConf tmp file driver dbms params 1 keep css xsl quota provider, None)
  | DAVLimestoneKeepFiles flag =>
      (ServerConf tmp file driver dbms params gc (if flag then 1 else 0) css xsl quota provider, None)
  | DAVLimestoneIndexCSS a => (ServerConf tmp file driver dbms params gc keep (Some a) xsl quota provider, None)
  | DAVLimestoneXSL403 a => (ServerConf tmp file driver dbms params gc keep css (Some a) quota provider, None)
  | DAVLimestoneUserQuota a => (ServerConf tmp file driver dbms params gc keep css xsl (atoi a) provider, None)
  | DAVLimestoneProfileProvider a =>
      (ServerConf tmp file driver dbms params gc keep css xsl quota (ap_lookup_provider a), None)
  end.

Definition configured (l : list directive) : dav_repos_server_conf :=
  fold_left (fun c x => (apply_directive x c).1) l dav_repos_create_server_config.

(** ** What a virtual host works with *)

(** The last value that a directive of the list gives. *)
Definition last_given {A} (f : directive -> option A) (l : list directive) : option A := last (omap f l).

Definition gives_file_dir (x : directive) : option string :=
  match x with DAVDBMSFileDir a => Some a | _ => None end.
Definition gives_keep_files (x : directive) : option bool :=
  match x with DAVLimestoneKeepFiles flag => Some flag | _ => None end.
Definition gives_quota (x : directive) : option Z :=
  match x with DAVLimestoneUserQuota a => Some (atoi a) | _ => None end.
Definition gives_gc (x : directive) : option unit :=
  match x with DAVLimestoneUseGC => Some tt | _ => None end.

(** A field that one kind of directive sets. *)
Lemma configured_field {A B} (field : dav_repos_server_conf -> B) (f : directive -> option A) (g : A -> B) l :
  (forall x c, field (apply_directive x c).1 = match f x with Some a => g a | None => field c end) ->
  field (configured l) = match last_given f l with
                         | Some a => g a
                         | None => field dav_repos_create_server_config
                         end.
Proof.
  intros H. unfold configured, last_given. induction l as [|x l IH] using rev_ind; [done|].
  rewrite fold_left_app, omap_app. cbn. rewrite H. destruct (f x) as [a|]; cbn.
  - by rewrite last_snoc.
  - by rewrite app_nil_r.
Qed.

Ltac field_of_directive :=
  intros [] []; cbn; try done; unfold dav_repos_dbd_driver_cmd; by repeat case_match.

(** The settings of a virtual host: a directory is its own or else that of the main
    server; files are deleted only when both say so, since a flag that is off cannot be
    told from one that is not given and the default is on; the quota of the main server
    counts only when the virtual host has the quota 0, since the default is one; and there
    is no provider of profiles, whatever the directives say. *)
Theorem merged_settings main_server virtual_host :
  let c := dav_repos_merge_server_config (configured main_server) (configured virtual_host) in
  cf_file_dir c = match last_given gives_file_dir virtual_host with
                  | Some a => Some a
                  | None => last_given gives_file_dir main_server
                  end
  /\ cf_use_gc c = (match last_given gives_gc virtual_host, last_given gives_gc main_server with
                    | None, None => 0
                    | _, _ => 1
                    end)
  /\ cf_keep_files c = (match last_given gives_keep_files virtual_host, last_given gives_keep_files main_server with
                        | Some false, Some false => 0
                        | _, _ => 1
                        end)
  /\ cf_quota c = (let q := default 10485760 (last_given gives_quota virtual_host) in
                   if bool_decide (q = 0) then default 10485760 (last_given gives_quota main_server) else q)
  /\ cf_profile_provider c = None.
Proof.
  pose proof (fun l => configured_field cf_file_dir gives_file_dir Some l ltac:(field_of_directive)) as Hd.
  pose proof (fun l => configured_field cf_use_gc gives_gc (fun _ => 1) l ltac:(field_of_directive)) as Hg.
  pose proof (fun l => configured_field cf_keep_files gives_keep_files (fun b : bool => if b then 1 else 0) l
    ltac:(field_of_directive)) as Hk.
  pose proof (fun l => configured_field cf_quota gives_quota (fun q => q) l ltac:(field_of_directive)) as Hq.
  cbn zeta. cbn [dav_repos_merge_server_config cf_file_dir cf_use_gc cf_keep_files cf_quota cf_profile_provider].
  rewrite !Hd, !Hg, !Hk, !Hq. unfold inherit_pointer, inherit_int. split_and!.
  - by repeat case_match.
  - by destruct (last_given gives_gc virtual_host), (last_given gives_gc main_server).
  - by destruct (last_given gives_keep_files virtual_host) as [[]|],
      (last_given gives_keep_files main_server) as [[]|].
  - by destruct (last_given gives_quota virtual_host), (last_given gives_quota main_server).
  - done.
Qed.
End directives.

(** ** The types of files *)

Section types.
(** The next word of a line with what is left after it and the blanks, and lower case. *)
Variable ap_getword_conf : string -> string * string.
Variable ap_str_tolower : string -> string.

(** The extensions of a line; every word takes a character at least. *)
Fixpoint add_extensions (fuel : nat) (ll ct : string) (m : gmap string string) : gmap string string :=
  match fuel with
  | O => m
  | S n =>
      match ll with
      | EmptyString => m
      | _ => let '(ext, ll) := ap_getword_conf ll in
             add_extensions n ll ct (<[ap_str_tolower ext := ct]> m)
      end
  end.

Definition add_types_line (m : gmap string string) (l : string) : gmap string string :=
  if String.prefix "#" l then m
  else let '(ct, ll) := ap_getword_conf l in add_extensions (String.length l) ll ct m.

(** The file of types; without it the server does not start. *)
Definition dav_repos_post_config (types_file : option (list string)) : Z + gmap string string :=
  match types_file with
  | None => inl HTTP_INTERNAL_SERVER_ERROR
  | Some lines => inr (fold_left add_types_line lines ∅)
  end.
End types.

(** ** Servers and requests *)

(** The servers that get a collector. *)
Definition dav_repos_pre_mpm (servers : list dav_repos_server_conf) : list dav_repos_server_conf :=
  List.filter (fun c => negb (bool_decide (cf_use_gc c = 0)) && negb (bool_decide (cf_dbms c = DB_UNKNOWN)))
    servers.

(** The record of a request is that of its server, copied when the database is opened for the first
    time; a request of the server itself takes that of its request. *)
Definition dav_repos_get_db (dbms_opendb : dav_repos_server_conf -> bool)
    (request_config : option dav_repos_server_conf) (server : dav_repos_server_conf)
  : option dav_repos_server_conf :=
  match request_config with
  | Some db => Some db
  | None => if dbms_opendb server then Some server else None
  end.

Definition dav_repos_create_request (main_config own_config : option dav_repos_server_conf)
  : option dav_repos_server_conf :=
  match main_config with Some db => Some db | None => own_config end.
