(* ===== verification/Session.v ===== *)
(** * The session with the database ([dbms.c], [dbms_dbd.c], [dbms_transaction.c], [bridge.c])

    The opening of a connection and the statements without tables: the identifier of the
    request, the isolation level, constraints.  Each function gives, with its result, the
    texts it hands to the driver in their order; [None] is an access outside a
    buffer ([Dbd]). *)
From S2P Require Import Prelude Util Dbd DbmsDeltav Config.
Local Open Scope Z_scope.

Section session.
(** The escaping of a literal and the answer to a text: 0 when it is accepted. *)
Variable apr_dbd_escape : string -> string.
Variable answer : driver_call -> Z.

Definition execute_call (q : dav_repos_query) : option (Z * list driver_call) :=
  match dbms_execute answer q with
  | None => None
  | Some (e, _, NoCall) => Some (e, [])
  | Some (e, _, call) => Some (e, [call])
  end.

(** A statement without parameters that is reported as an error of the server. *)
Definition execute_text (text : string) : option (option dav_error * list driver_call) :=
  match execute_call (dbms_prepare text) with
  | None => None
  | Some (e, calls) =>
      Some (if decide (e = 0) then None else Some (dav_new_error HTTP_INTERNAL_SERVER_ERROR), calls)
  end.

(** The identifier of the request as a statement, for the log of the server. *)
Definition dbms_select_unique_id (unique_id : string)
  : option (option dav_error * list driver_call) :=
  let q := dbms_prepare "SELECT ?" in
  let q := (dbms_set_string apr_dbd_escape q 1 (Some ("UNIQUE_ID " +:+ unique_id))).2 in
  match execute_call q with
  | None => None
  | Some (e, calls) =>
      Some (if decide (e = 0) then None else Some (dav_new_error HTTP_INTERNAL_SERVER_ERROR), calls)
  end.

(** ** Isolation levels *)

Inductive xaction_iso_level := READ_UNCOMMITTED | READ_COMMITTED | REPEATABLE_READ | SERIALIZABLE.

Definition iso_level_text (level : xaction_iso_level) : string :=
  match level with
  | READ_UNCOMMITTED => "READ UNCOMMITTED"
  | READ_COMMITTED => "READ COMMITTED"
  | REPEATABLE_READ => "REPEATABLE READ"
  | SERIALIZABLE => "SERIALIZABLE"
  end.

(** [apr_pstrcat] ends at the first NULL: without a known server the text is empty. *)
Definition iso_level_query (dbms : dbms_kind) (level : xaction_iso_level) : string :=
  match dbms with
  | PGSQL => "SET SESSION CHARACTERISTICS AS TRANSACTION ISOLATION LEVEL " +:+ iso_level_text level
  | MYSQL => "SET SESSION TRANSACTION ISOLATION LEVEL " +:+ iso_level_text level
  | DB_UNKNOWN => EmptyString
  end.

Definition dbms_set_session_xaction_iso_level (dbms : dbms_kind) (level : xaction_iso_level)
  : option (Z * list driver_call) :=
  execute_call (dbms_prepare (iso_level_query dbms level)).

(** The second function for levels, which nothing calls; they count from 1. *)
Definition transaction_levels : list string :=
  ["SET SESSION TRANSACTION LEVEL READ UNCOMMITTED";
   "SET SESSION TRANSACTION LEVEL READ COMMITTED";
   "SET SESSION TRANSACTION LEVEL REPEATABLE READ";
   "SET SESSION TRANSACTION LEVEL SERIALIZABLE"]%string.

Definition dbms_set_isolation_level (level : Z) : option (Z * list driver_call) :=
  let level := if bool_decide (4 < level) || bool_decide (level < 1) then 4 else level in
  match transaction_levels !! Z.to_nat (level - 1) with
  | None => None
  | Some text =>
      match execute_call (dbms_prepare text) with
      | None => None
      | Some (e, calls) => Some (if decide (e = 0) then 0 else -1, calls)
      end
  end.

(** ** The connection *)

(** A connection is taken from the pool of httpd for a request, or opened with the
    driver's name and parameters and then closed again by [dbms_closedb]. *)
Inductive connection := Pooled | Opened.

Definition dbms_api_opendb (ap_dbd_acquire : bool) : option connection :=
  if ap_dbd_acquire then Some Pooled else None.

Definition dbms_api_opendb_params (apr_dbd_get_driver apr_dbd_open : bool) : option connection :=
  if apr_dbd_get_driver then if apr_dbd_open then Some Opened else None else None.

Definition dbms_api_closedb (db : connection) : bool :=
  match db with Pooled => false | Opened => true end.

Definition dbms_closedb (db : connection) : bool := dbms_api_closedb db.

(** What the request gives: whether a connection of the pool could be had, and the identifier
    [mod_unique_id] leaves in its environment; without a request the driver is loaded and
    opened. *)
Inductive open_source :=
| OfRequest (ap_dbd_acquire : bool) (unique_id : option string)
| OfParams (apr_dbd_get_driver apr_dbd_open : bool).

Definition dbms_opendb (dbms : dbms_kind) (src : open_source)
  : option (Z * option connection * list driver_call) :=
  let '(db, first) :=
    match src with
    | OfRequest acquired unique_id =>
        let db := dbms_api_opendb acquired in
        (db, match db, unique_id with
             | Some _, Some id => dbms_select_unique_id id
             | _, _ => Some (None, [])
             end)
    | OfParams has_driver opened =>
        (dbms_api_opendb_params has_driver opened, Some (None, []))
    end in
  match first with
  | None => None
  | Some (_, calls) =>
      match db with
      | None => Some (-1, db, calls)
      | Some _ =>
          match dbms_set_session_xaction_iso_level dbms SERIALIZABLE with
          | None => None
          | Some (e, more) => Some (if decide (e = 0) then 0 else -1, db, calls ++ more)
          end
      end
  end.

(** ** Constraints *)

(** The text is NULL for an unknown server. *)
Definition dbms_drop_constraint (dbms : dbms_kind) (table constraint : string)
  : outcome (option (option dav_error * list driver_call)) :=
  match dbms with
  | PGSQL => Ret (execute_text ("ALTER TABLE " +:+ table +:+ " DROP CONSTRAINT " +:+ constraint))
  | MYSQL => Ret (execute_text ("ALTER TABLE " +:+ table +:+ " DROP FOREIGN KEY `" +:+ constraint +:+ "`"))
  | DB_UNKNOWN => Crash
  end.

Definition dbms_add_constraint (table constraint : string)
  : option (option dav_error * list driver_call) :=
  execute_text ("ALTER TABLE " +:+ table +:+ " ADD " +:+ constraint).

Definition dbms_defer_all_constraints : option (option dav_error * list driver_call) :=
  execute_text "SET CONSTRAINTS ALL DEFERRED".

(** ** Lemmas *)

Lemma execute_call_plain text :
  count_char QMARK text = 0%nat ->
  execute_call (dbms_prepare text)
  = let call := if is_select_text text then AprDbdSelect text else AprDbdQuery text in
    Some (answer call, [call]).
Proof.
  intros Hq. unfold execute_call, dbms_execute, dbms_prepare. rewrite Hq. cbn.
  unfold build_escquery. rewrite decide_True by done. cbn. by destruct (is_select_text text).
Qed.

Lemma set_level_call dbms level :
  let call := AprDbdQuery (iso_level_query dbms level) in
  dbms_set_session_xaction_iso_level dbms level = Some (answer call, [call]).
Proof.
  unfold dbms_set_session_xaction_iso_level. rewrite execute_call_plain by (by destruct dbms, level).
  by destruct dbms, level; vm_compute.
Qed.

(** The texts before the level: the identifier of the request, when there is one. *)
Definition unique_id_calls (src : open_source) : list driver_call :=
  match src with
  | OfRequest true (Some id) =>
      [AprDbdSelect ("SELECT '" +:+ apr_dbd_escape ("UNIQUE_ID " +:+ id) +:+ "'")]
  | _ => []
  end.

Definition connected (src : open_source) : option connection :=
  match src with
  | OfRequest acquired _ => dbms_api_opendb acquired
  | OfParams has_driver opened => dbms_api_opendb_params has_driver opened
  end.

Lemma select_unique_id_call id :
  string_forall not_nul (apr_dbd_escape ("UNIQUE_ID " +:+ id)) = true ->
  fits ("SELECT '" +:+ apr_dbd_escape ("UNIQUE_ID " +:+ id) +:+ "'") ->
  let call := AprDbdSelect ("SELECT '" +:+ apr_dbd_escape ("UNIQUE_ID " +:+ id) +:+ "'") in
  exists err, dbms_select_unique_id id = Some (err, [call]).
Proof.
  intros Hn Hfit call. unfold dbms_select_unique_id. set (e := apr_dbd_escape _) in *.
  set (p := String QUOTE (e +:+ String QUOTE "")).
  change ((dbms_set_string apr_dbd_escape (dbms_prepare "SELECT ?") 1 (Some ("UNIQUE_ID " +:+ id))).2)
    with (Query "SELECT ?" 1 [Some p] DAV_REPOS_STATE_PREPARED false).
  assert (substitute "SELECT ?" [p] = "SELECT '" +:+ e +:+ "'") as Hs.
  { cbn. by rewrite string_app_nil_r. }
  assert (string_forall not_nul (substitute "SELECT ?" [p]) = true) as Hnul.
  { rewrite Hs. cbn. by rewrite string_forall_app, Hn. }
  unfold execute_call, dbms_execute.
  change [Some p] with (Some <$> [p]). cbn [query_string parameters].
  rewrite full_length_of, (build_escquery_ok "SELECT ?" [p]); [|done|done|by rewrite Hs|done|done].
  rewrite Hs. cbn. by eexists.
Qed.

(** The identifier of the request makes a text that fits a buffer. *)
Definition short_id (src : open_source) : Prop :=
  match src with
  | OfRequest _ (Some id) => fits ("SELECT '" +:+ apr_dbd_escape ("UNIQUE_ID " +:+ id) +:+ "'")
  | _ => True
  end.

(** The first part of the opening. *)
Lemma open_source_calls src :
  (forall s, string_forall not_nul (apr_dbd_escape s) = true) -> short_id src ->
  exists err, match src with
              | OfRequest acquired unique_id =>
                  (dbms_api_opendb acquired,
                   match dbms_api_opendb acquired, unique_id with
                   | Some _, Some id => dbms_select_unique_id id
                   | _, _ => Some (None, [])
                   end)
              | OfParams has_driver opened =>
                  (dbms_api_opendb_params has_driver opened, Some (None, []))
              end = (connected src, Some (err, unique_id_calls src)).
Proof.
  intros Hn Hs. destruct src as [[] [id|]|? ?]; try by exists None.
  destruct (select_unique_id_call id (Hn _) Hs) as (err & Hc). exists err. cbn. by rewrite Hc.
Qed.

(** A connection is reported open exactly when there is one and the server accepts the
    serializable level.  The level is then the last text sent, after the identifier of
    the request, whose refusal is ignored. *)
Theorem opendb_serializable dbms src :
  (forall s, string_forall not_nul (apr_dbd_escape s) = true) -> short_id src ->
  let level := AprDbdQuery (iso_level_query dbms SERIALIZABLE) in
  dbms_opendb dbms src
  = Some (if decide (is_Some (connected src) /\ answer level = 0) then 0 else -1, connected src,
          unique_id_calls src ++ if decide (is_Some (connected src)) then [level] else []).
Proof.
  intros Hn Hs level. unfold dbms_opendb. destruct (open_source_calls src Hn Hs) as (err & ->).
  destruct (connected src) as [db|].
  - rewrite set_level_call. fold level. rewrite (decide_True (P := is_Some (Some db))) by done.
    do 3 f_equal. destruct (decide (answer level = 0)); [rewrite decide_True|rewrite decide_False];
      [done|by split|done|by intros []].
  - rewrite (decide_False (P := is_Some None)) by (by intros []).
    rewrite decide_False by (by intros [[? [=]] _]). by rewrite app_nil_r.
Qed.
End session.

Lemma opendb_serializable_witness :
  let level := AprDbdQuery "SET SESSION CHARACTERISTICS AS TRANSACTION ISOLATION LEVEL SERIALIZABLE" in
  dbms_opendb (fun _ => "id"%string) (fun _ => 0) PGSQL (OfRequest true (Some "VzLk"%string))
  = Some (0, Some Pooled, [AprDbdSelect "SELECT 'id'"; level]).
Proof.
  exact (opendb_serializable (fun _ => "id"%string) (fun _ => 0) PGSQL
           (OfRequest true (Some "VzLk"%string)) (fun _ => eq_refl) eq_refl).
Defined.
