(* ===== verification/Adduser.v ===== *)
(** * The command line tool ([adduser.c])

    It sends a request PUT for a new user.  The buffers of neon, the escaping of paths, the
    request and the parsing of the command line are those of libraries: classes and
    arguments. *)
From S2P Require Import Numbers Prelude Util Db DbmsDeltav Users Search.
From stdpp Require Import pretty.
Local Open Scope Z_scope.
Local Open Scope limestone_scope.

(** ** Numbers *)

Definition LONG_MAX : Z := 2 ^ 63 - 1.
Definition INT_MAX : Z := 2 ^ 31 - 1.

(** The digits at the front of a text: their value, whether there is one, and the rest. *)
Fixpoint take_digits (acc : Z) (s : string) : Z * string :=
  match s with
  | EmptyString => (acc, EmptyString)
  | String c rest =>
      match digit c with
      | Some d => take_digits (10 * acc + d) rest
      | None => (acc, s)
      end
  end.

Definition starts_with_digit (s : string) : bool :=
  match s with String c _ => bool_decide (is_Some (digit c)) | EmptyString => false end.

(** [strtol] in base 10: the value, kept within the type, and the text at the end pointer. *)
Definition strtol (str : string) : Z * string :=
  let s := skip_spaces str in
  let '(neg, t) :=
    match s with
    | String c rest =>
        if Ascii.eqb c "-"%char then (true, rest)
        else if Ascii.eqb c "+"%char then (false, rest) else (false, s)
    | EmptyString => (false, s)
    end in
  if starts_with_digit t then
    let '(v, rest) := take_digits 0 t in
    ((if neg : bool then Z.max (- v) (- LONG_MAX - 1) else Z.min v LONG_MAX), rest)
  else (0, str).

Definition atonni (str : string) : Z :=
  let '(value, rest) := strtol str in
  if negb (bool_decide (rest = EmptyString)) || bool_decide (value < 0) || bool_decide (value > INT_MAX)
  then -1 else value.

(** ** Escaping *)

(** The allocated bytes, and how many hold the string and its terminator. *)
Record ne_buffer := NeBuffer { nb_data : list ascii; nb_used : nat }.

Definition nb_text (b : ne_buffer) : string := c_string (nb_data b).

Class Neon := {
  ne_buffer_create : ne_buffer;
  ne_buffer_zappend : ne_buffer -> string -> ne_buffer;
  ne_buffer_altered : ne_buffer -> ne_buffer
}.

(** A string with its terminator, of the length that the buffer gives. *)
Definition buffer_ok (b : ne_buffer) : Prop :=
  nb_used b = S (String.length (nb_text b)) /\ (nb_used b <= length (nb_data b))%nat.

(** What is documented: a new buffer is empty, a text is appended, and the length is found
    again after a change of the bytes.  Nothing is said of the bytes after the string. *)
Class NeonLaws (neon : Neon) : Prop := {
  create_ok : buffer_ok ne_buffer_create /\ nb_text ne_buffer_create = EmptyString;
  zappend_ok b s : buffer_ok b -> string_forall not_nul s = true ->
    buffer_ok (ne_buffer_zappend b s) /\ nb_text (ne_buffer_zappend b s) = nb_text b +:+ s;
  altered_ok b : NUL ∈ nb_data b ->
    ne_buffer_altered b = NeBuffer (nb_data b) (S (String.length (nb_text b)))
}.

Definition AMP_ESCAPED : string := "&amp;".
Definition LT_ESCAPED : string := "&lt;".
Definition GT_ESCAPED : string := "&gt;".

Section adduser.
Context {neon : Neon}.

(** Without a terminator the length is looked for past the end of the memory. *)
Definition buffer_altered (buf : ne_buffer) : outcome ne_buffer :=
  if bool_decide (NUL ∈ nb_data buf) then Ret (ne_buffer_altered buf) else Crash.

Definition append_escaped_text (buf : ne_buffer) (escaped : string) (altered : bool)
  : outcome ne_buffer :=
  match (if altered then buffer_altered buf else Ret buf) with
  | Crash => Crash
  | Ret buf => Ret (ne_buffer_zappend buf escaped)
  end.

(** [*p = c] for the byte at an index of the buffer. *)
Definition write_byte (buf : ne_buffer) (p : Z) (c : ascii) : outcome ne_buffer :=
  if bool_decide (0 <= p < Z.of_nat (length (nb_data buf)))
  then Ret (NeBuffer (<[Z.to_nat p := c]> (nb_data buf)) (nb_used buf))
  else Crash.

Definition escaped_char (c : ascii) : option string :=
  if Ascii.eqb c "&"%char then Some AMP_ESCAPED
  else if Ascii.eqb c "<"%char then Some LT_ESCAPED
  else if Ascii.eqb c ">"%char then Some GT_ESCAPED
  else None.

Fixpoint escape_loop (psrc : string) (buf : ne_buffer) (pdest : Z) (altered : bool)
  : outcome (ne_buffer * Z * bool) :=
  match psrc with
  | EmptyString => Ret (buf, pdest, altered)
  | String c rest =>
      match escaped_char c with
      | Some escaped =>
          match append_escaped_text buf escaped altered with
          | Crash => Crash
          | Ret buf => escape_loop rest buf pdest false
          end
      | None =>
          let pdest := if altered then pdest else Z.of_nat (nb_used buf) - 1 in
          match write_byte buf pdest c with
          | Crash => Crash
          | Ret buf => escape_loop rest buf (pdest + 1) true
          end
      end
  end.

(** [pdest] is set before it is used. *)
Definition escape_xml_text (text : string) : outcome string :=
  match escape_loop text ne_buffer_create 0 false with
  | Crash => Crash
  | Ret (buf, _, false) => Ret (nb_text buf)
  | Ret (buf, pdest, true) =>
      match write_byte buf pdest NUL with
      | Crash => Crash
      | Ret buf =>
          match buffer_altered buf with Crash => Crash | Ret buf => Ret (nb_text buf) end
      end
  end.

(** ** The request *)

Definition ne_buffer_concat (buf : ne_buffer) (l : list string) : ne_buffer :=
  fold_left ne_buffer_zappend l buf.

Definition user_elements (name password : string) : list string :=
  ["<?xml version=" +:+ QUOT +:+ "1.0" +:+ QUOT +:+ " encoding=" +:+ QUOT +:+ "utf-8" +:+ QUOT +:+ " ?>" +:+ LF
   +:+ "<lb:user xmlns:lb='http://limebits.com/ns/1.0/' xmlns:D='DAV:'>" +:+ LF
   +:+ "  <lb:name>"; name; "</lb:name>" +:+ LF +:+ "  <lb:password>"; password; "</lb:password>" +:+ LF;
   "  <lb:email>"; name; "@limebits.com</lb:email>" +:+ LF]%string.

Definition new_user_put_body (name password : string) (displayname : option string) : outcome string :=
  match escape_xml_text name, escape_xml_text password with
  | Ret escaped_name, Ret escaped_password =>
      let buf := ne_buffer_concat ne_buffer_create (user_elements escaped_name escaped_password) in
      let body b := Ret (nb_text (ne_buffer_zappend b ("</lb:user>" +:+ LF))) in
      match displayname with
      | None => body buf
      | Some d =>
          match escape_xml_text d with
          | Crash => Crash
          | Ret escaped =>
              body (ne_buffer_concat buf ["  <D:displayname>"; escaped; "</D:displayname>" +:+ LF]%string)
          end
      end
  | _, _ => Crash
  end.

Definition user_path_prefix : string := "/users/".

(** The escaping of paths. *)
Variable ne_path_escape : string -> string.

Definition user_path (name : string) : string :=
  ne_path_escape (nb_text (ne_buffer_concat ne_buffer_create [user_path_prefix; name])).

(** ** The program *)

(** One turn of [getopt_long]. *)
Inductive opt :=
| OPT_DISPLAYNAME (optarg : string)
| OPT_EXISTS_OK
| OPT_HOST (optarg : string)
| OPT_PASSWORD (optarg : string)
| OPT_PORT (optarg : string)
| OPT_HELP
| OPT_UNKNOWN
| OPT_OTHER.

Record arguments := Arguments_of {
  arg_displayname : option string;
  arg_exists_ok : bool;
  arg_host : string;
  arg_password : option string;
  arg_port : Z
}.

Definition default_arguments : arguments := Arguments_of None false "localhost" None 8080.

(** The exit status with what is written to the standard output and to the standard error. *)
Record exit := Exit { exit_status : Z; stdout : string; stderr : string }.

Record put_request := PutRequest {
  pr_host : string;
  pr_port : Z;
  pr_path : string;
  pr_headers : list (string * string);
  pr_body : string
}.

(** The options and the arguments that are left, and the dispatch of a request: the text of
    an error, or the code, the class and the phrase of the status. *)
Variable getopt_long : list string -> list opt * list string.
Variable ne_request_dispatch : put_request -> string + Z * Z * string.

Definition help_text (exec_name : string) : string :=
  "usage: " +:+ exec_name +:+ " -p password [OPTION] username" +:+ LF
  +:+ "Create a user on a LimeStone server." +:+ LF +:+ LF
  +:+ "Mandatory arguments to long options are mandatory for short options too." +:+ LF
  +:+ "   -e, --exists-ok" +:+ String TAB "return success even if the user already exists" +:+ LF
  +:+ "   -p, --password=STRING" +:+ String TAB "user password (required)" +:+ LF
  +:+ "   -d, --displayname=STRING" +:+ String TAB "user's display name" +:+ LF
  +:+ "   -h, --host=HOSTNAME" +:+ String TAB "LimeStone server's hostname (default: localhost)" +:+ LF
  +:+ "   -P, --port=NUM" +:+ String TAB "port that LimeStone server listens on (default: 8080)" +:+ LF
  +:+ "       --help" +:+ String TAB "display this help and exit" +:+ LF.

Definition print_help (exec_name : string) (status : Z) : exit :=
  Exit status EmptyString (help_text exec_name).

(** The loop over the options: the arguments, or an early end. *)
Fixpoint parse_options (exec_name : string) (s : arguments) (opts : list opt)
  : outcome (exit + arguments) :=
  match opts with
  | [] => Ret (inr s)
  | o :: rest =>
      let go s := parse_options exec_name s rest in
      match o with
      | OPT_DISPLAYNAME a => go (Arguments_of (Some a) (arg_exists_ok s) (arg_host s) (arg_password s) (arg_port s))
      | OPT_EXISTS_OK => go (Arguments_of (arg_displayname s) true (arg_host s) (arg_password s) (arg_port s))
      | OPT_HOST a => go (Arguments_of (arg_displayname s) (arg_exists_ok s) a (arg_password s) (arg_port s))
      | OPT_PASSWORD a => go (Arguments_of (arg_displayname s) (arg_exists_ok s) (arg_host s) (Some a) (arg_port s))
      | OPT_PORT a =>
          let port := atonni a in
          if bool_decide (port < 0)
          then Ret (inl (Exit 1 EmptyString ("invalid port: " +:+ a +:+ LF)))
          else go (Arguments_of (arg_displayname s) (arg_exists_ok s) (arg_host s) (arg_password s) port)
      | OPT_HELP => Ret (inl (print_help exec_name 0))
      | OPT_UNKNOWN => Ret (inl (print_help exec_name 1))
      | OPT_OTHER => Crash
      end
  end.

Definition report_status (exists_ok : bool) (answer : string + Z * Z * string) : exit :=
  match answer with
  | inl error => Exit 1 EmptyString ("Request failed: " +:+ error +:+ LF)
  | inr (code, klass, reason_phrase) =>
      let line := pretty code +:+ " " +:+ reason_phrase +:+ LF in
      if bool_decide (klass = 2) || (exists_ok && bool_decide (code = 412))
      then Exit 0 line EmptyString else Exit 1 EmptyString line
  end.

Definition main (exec_name : string) (args : list string) : outcome exit :=
  let '(opts, rest) := getopt_long args in
  match parse_options exec_name default_arguments opts with
  | Crash => Crash
  | Ret (inl e) => Ret e
  | Ret (inr s) =>
      match rest, arg_password s with
      | [name], Some password =>
          match new_user_put_body name password (arg_displayname s) with
          | Crash => Crash
          | Ret body =>
              Ret (report_status (arg_exists_ok s)
                (ne_request_dispatch
                   (PutRequest (arg_host s) (arg_port s) (user_path name)
                      [("If-None-Match", "*")]%string body)))
          end
      | _, _ => Ret (print_help exec_name 1)
      end
  end.
End adduser.
