(* ===== verification/AdduserSpec.v ===== *)
(** * Escaping in the command line tool

    Where the escaping of a text stays inside its buffer, and what it returns. *)
From S2P Require Import Numbers Prelude Util Db DbmsDeltav Search Adduser.
From stdpp Require Import pretty.
Local Open Scope Z_scope.
Local Open Scope limestone_scope.

Definition special (c : ascii) : bool := bool_decide (is_Some (escaped_char c)).
Definition plain (c : ascii) : bool := negb (special c) && not_nul c.

(** The text with the three characters replaced. *)
Fixpoint escaped (s : string) : string :=
  match s with
  | EmptyString => EmptyString
  | String c r => default (String c EmptyString) (escaped_char c) +:+ escaped r
  end.

(** ** Memory *)

Lemma c_string_app s l :
  string_forall not_nul s = true -> c_string (list_ascii_of_string s ++ l) = s +:+ c_string l.
Proof.
  induction s as [|c s IH]; [done|]. cbn. unfold not_nul at 1. intros H.
  apply andb_prop in H as [Hc Hs]. destruct (Ascii.eqb c NUL); [done|]. by rewrite IH.
Qed.

Lemma c_string_not_nul l : string_forall not_nul (c_string l) = true.
Proof.
  induction l as [|c l IH]; [done|]. cbn. destruct (Ascii.eqb c NUL) eqn:E; [done|].
  cbn. unfold not_nul at 1. by rewrite E.
Qed.

Lemma c_string_split l :
  (String.length (c_string l) < length l)%nat ->
  exists rest, l = list_ascii_of_string (c_string l) ++ NUL :: rest.
Proof.
  induction l as [|c l IH]; cbn; [lia|]. destruct (Ascii.eqb c NUL) eqn:E.
  - intros _. apply Ascii.eqb_eq in E as ->. by exists l.
  - cbn. intros H. destruct IH as [rest Hr]; [lia|]. exists rest. by rewrite <- Hr.
Qed.

Lemma nul_in_iff l : NUL ∈ l <-> (String.length (c_string l) < length l)%nat.
Proof.
  induction l as [|c l IH]; cbn; [set_solver by lia|].
  destruct (Ascii.eqb_spec c NUL) as [->|Hc]; cbn; [set_solver by lia|].
  rewrite elem_of_cons, IH. split; [intros [?|?]; [congruence|lia]|intros; right; lia].
Qed.

Lemma list_ascii_length s : length (list_ascii_of_string s) = String.length s.
Proof. induction s; cbn; congruence. Qed.

(** Characters stored from an index on. *)
Definition overwrite (i : nat) (p : string) (l : list ascii) : list ascii :=
  take i l ++ list_ascii_of_string p ++ drop (i + String.length p) l.

Lemma overwrite_length i p l :
  (i + String.length p <= length l)%nat -> length (overwrite i p l) = length l.
Proof.
  intros H. unfold overwrite. rewrite !length_app, length_take, list_ascii_length, length_drop. lia.
Qed.

Lemma overwrite_cons i c p l :
  (i + S (String.length p) <= length l)%nat ->
  overwrite (S i) p (<[i := c]> l) = overwrite i (String c p) l.
Proof.
  intros H. unfold overwrite. cbn [list_ascii_of_string String.length].
  rewrite insert_take_drop by lia.
  rewrite take_app, drop_app, !length_take, (Nat.min_l i), take_take, (drop_ge (take i l))
    by (rewrite ?length_take; lia).
  replace (S i - i)%nat with 1%nat by lia.
  replace (S i + String.length p - i)%nat with (S (String.length p)) by lia.
  rewrite (Nat.min_r (S i) i) by lia. cbn [take drop app]. rewrite drop_drop, <- app_assoc. cbn.
  by replace (i + S (String.length p))%nat with (S (i + String.length p)) by lia.
Qed.

Lemma overwrite_snoc i p x l :
  (i + String.length p < length l)%nat ->
  <[(i + String.length p)%nat := x]> (overwrite i p l)
  = take i l ++ list_ascii_of_string p ++ x :: drop (i + String.length p + 1) l.
Proof.
  intros H. unfold overwrite. rewrite insert_app_r_alt by (rewrite length_take; lia).
  rewrite length_take, Nat.min_l by lia.
  rewrite insert_app_r_alt by (rewrite list_ascii_length; lia). rewrite list_ascii_length.
  replace (i + String.length p - i - String.length p)%nat with 0%nat by lia.
  destruct (drop (i + String.length p) l) as [|y k] eqn:E.
  - apply (f_equal length) in E. rewrite length_drop in E. cbn in E. lia.
  - replace (drop (i + String.length p + 1) l) with k; [done|].
    by rewrite <- drop_drop, E.
Qed.

Lemma escaped_app s t : escaped (s +:+ t) = escaped s +:+ escaped t.
Proof. induction s as [|c s IH]; [done|]. cbn. by rewrite IH, string_app_assoc. Qed.

Lemma escaped_plain p : string_forall plain p = true -> escaped p = p.
Proof.
  induction p as [|c p IH]; [done|]. cbn. unfold plain at 1, special.
  intros [[Hc _]%andb_prop Hp]%andb_prop. rewrite IH by done.
  by destruct (escaped_char c).
Qed.

Section escape.
Context {neon : Neon} {laws : NeonLaws neon}.

(** ** Runs of plain characters *)

Lemma plain_not_special c : plain c = true -> escaped_char c = None.
Proof.
  unfold plain, special. intros [H _]%andb_prop. by destruct (escaped_char c).
Qed.

Lemma write_byte_spec b i c :
  (i < length (nb_data b))%nat ->
  write_byte b (Z.of_nat i) c = Ret (NeBuffer (<[i := c]> (nb_data b)) (nb_used b)).
Proof. intros H. unfold write_byte. rewrite bool_decide_true, Nat2Z.id by lia. done. Qed.

Lemma plain_run p rest b i :
  string_forall plain p = true -> (i + String.length p <= length (nb_data b))%nat ->
  escape_loop (p +:+ rest) b (Z.of_nat i) true
  = escape_loop rest (NeBuffer (overwrite i p (nb_data b)) (nb_used b))
      (Z.of_nat (i + String.length p)) true.
Proof.
  revert b i. induction p as [|c p IH]; intros b i Hp Hi.
  - unfold overwrite. cbn. rewrite Nat.add_0_r, take_drop. by destruct b.
  - cbn [string_forall] in Hp. apply andb_prop in Hp as [Hc Hp]. cbn [String.length] in *.
    cbn [String.append escape_loop]. rewrite plain_not_special, write_byte_spec by (done || lia).
    replace (Z.of_nat i + 1) with (Z.of_nat (S i)) by lia.
    rewrite IH by (cbn [nb_data]; rewrite ?length_insert; (done || lia)). cbn [nb_data nb_used].
    rewrite overwrite_cons by lia. by replace (S i + String.length p)%nat with (i + S (String.length p))%nat by lia.
Qed.

Lemma plain_overrun p rest b i :
  string_forall plain p = true -> (i <= length (nb_data b) < i + String.length p)%nat ->
  escape_loop (p +:+ rest) b (Z.of_nat i) true = Crash.
Proof.
  revert b i. induction p as [|c p IH]; intros b i Hp Hi; cbn [String.length] in *; [lia|].
  cbn [string_forall] in Hp. apply andb_prop in Hp as [Hc Hp].
  cbn [String.append escape_loop]. rewrite plain_not_special by done.
  destruct (decide (i < length (nb_data b))%nat) as [Hlt|Hge].
  - rewrite write_byte_spec by done. replace (Z.of_nat i + 1) with (Z.of_nat (S i)) by lia.
    apply IH; [done|]. cbn [nb_data]. rewrite length_insert. lia.
  - unfold write_byte. rewrite bool_decide_false by lia. done.
Qed.

Lemma plain_start c p rest b :
  plain c = true -> (1 <= nb_used b)%nat ->
  escape_loop (String c p +:+ rest) b 0 false
  = escape_loop (String c p +:+ rest) b (Z.of_nat (nb_used b - 1)) true.
Proof.
  intros Hc Hu. cbn [String.append escape_loop]. rewrite plain_not_special by done.
  by replace (Z.of_nat (nb_used b) - 1) with (Z.of_nat (nb_used b - 1)) by lia.
Qed.

(** ** Runs of special characters *)

Fixpoint append_specials (s : string) (b : ne_buffer) : ne_buffer :=
  match s with
  | EmptyString => b
  | String c r => append_specials r (ne_buffer_zappend b (default EmptyString (escaped_char c)))
  end.

Lemma escaped_char_not_nul c e : escaped_char c = Some e -> string_forall not_nul e = true.
Proof. unfold escaped_char. repeat case_match; intros [= <-]; reflexivity. Qed.

Lemma special_run s rest b x :
  string_forall special s = true -> buffer_ok b ->
  escape_loop (s +:+ rest) b x false = escape_loop rest (append_specials s b) x false
  /\ buffer_ok (append_specials s b) /\ nb_text (append_specials s b) = nb_text b +:+ escaped s.
Proof.
  revert b. induction s as [|c s IH]; intros b Hs Hb; [by cbn; rewrite string_app_nil_r|].
  cbn [string_forall] in Hs. apply andb_prop in Hs as [Hc Hs].
  apply bool_decide_eq_true in Hc as [e He].
  destruct (zappend_ok b e Hb (escaped_char_not_nul c e He)) as [Hok Ht].
  cbn [String.append escape_loop append_specials escaped]. rewrite He. cbn.
  destruct (IH _ Hs Hok) as (-> & Hok' & ->). by rewrite Ht, string_app_assoc.
Qed.

(** ** The theorem *)

(** The memory after a string of a buffer that is extended by [n] characters. *)
Definition stale (b : ne_buffer) (n : nat) : list ascii := drop (nb_used b - 1 + n) (nb_data b).

Lemma overwritten_text b p rest :
  buffer_ok b -> string_forall plain p = true ->
  c_string (take (nb_used b - 1) (nb_data b) ++ list_ascii_of_string p ++ rest)
  = nb_text b +:+ p +:+ c_string rest.
Proof.
  intros [Hu Hl] Hp. unfold nb_text in *.
  destruct (c_string_split (nb_data b)) as [l Hd]; [lia|].
  assert (take (nb_used b - 1) (nb_data b) = list_ascii_of_string (c_string (nb_data b))) as ->.
  { rewrite Hd at 1. rewrite Hu. cbn. rewrite Nat.sub_0_r, take_app_length'; [done|].
    symmetry. apply list_ascii_length. }
  rewrite c_string_app, c_string_app; [done| |apply c_string_not_nul].
  revert Hp. clear. induction p as [|c p IH]; [done|]. cbn. unfold plain at 1.
  intros [[_ ->]%andb_prop Hp]%andb_prop. by apply IH.
Qed.

(** The end of the escaping after plain characters, and a special character after them. *)
Lemma escape_end b p :
  buffer_ok b -> string_forall plain p = true ->
  match escape_loop p b 0 false with
  | Crash => Crash
  | Ret (buf, _, false) => Ret (nb_text buf)
  | Ret (buf, pdest, true) =>
      match write_byte buf pdest NUL with
      | Crash => Crash
      | Ret buf => match buffer_altered buf with Crash => Crash | Ret buf => Ret (nb_text buf) end
      end
  end
  = (if bool_decide (nb_used b + String.length p <= length (nb_data b))%nat
     then Ret (nb_text b +:+ p) else Crash).
Proof.
  intros Hb Hp. pose proof Hb as [Hu Hl]. destruct p as [|c p].
  { cbn. by rewrite bool_decide_true, string_app_nil_r by lia. }
  pose proof Hp as [Hc _]%andb_prop. set (i := (nb_used b - 1)%nat).
  rewrite <- (string_app_nil_r (String c p)) at 1. rewrite plain_start by (done || lia). fold i.
  case_bool_decide as Hfit.
  - rewrite plain_run by (done || lia). cbn [escape_loop].
    rewrite write_byte_spec by (cbn [nb_data]; rewrite overwrite_length; lia). cbn [nb_data nb_used].
    rewrite overwrite_snoc by lia. unfold buffer_altered.
    rewrite bool_decide_true by (cbn [nb_data]; set_solver).
    rewrite altered_ok by (cbn [nb_data]; set_solver). unfold nb_text at 1. cbn [nb_data].
    unfold i. rewrite overwritten_text by done. cbn [c_string]. by rewrite Ascii.eqb_refl, string_app_nil_r.
  - destruct (decide (i + String.length (String c p) <= length (nb_data b))%nat) as [Hle|Hgt].
    + rewrite plain_run by (done || lia). cbn [escape_loop]. unfold write_byte.
      rewrite bool_decide_false; [done|]. cbn [nb_data]. rewrite overwrite_length by lia. lia.
    + rewrite plain_overrun; [done|done|]. lia.
Qed.

Lemma escape_middle b p c :
  buffer_ok b -> string_forall plain p = true -> special c = true -> p <> "" ->
  match escape_loop (p +:+ String c "") b 0 false with
  | Crash => Crash
  | Ret (buf, _, false) => Ret (nb_text buf)
  | Ret (buf, pdest, true) =>
      match write_byte buf pdest NUL with
      | Crash => Crash
      | Ret buf => match buffer_altered buf with Crash => Crash | Ret buf => Ret (nb_text buf) end
      end
  end
  = (if bool_decide (NUL ∈ stale b (String.length p))
     then Ret ((nb_text b +:+ p) +:+ c_string (stale b (String.length p)) +:+ escaped (String c ""))
     else Crash).
Proof.
  intros Hb Hp [e He]%bool_decide_eq_true Hne. pose proof Hb as [Hu Hl].
  destruct p as [|c' p]; [done|]. pose proof Hp as [Hc _]%andb_prop. unfold stale.
  set (i := (nb_used b - 1)%nat). rewrite plain_start by (done || lia). fold i.
  destruct (decide (i + String.length (String c' p) <= length (nb_data b))%nat) as [Hle|Hgt].
  2:{ rewrite plain_overrun by (done || lia). rewrite drop_ge by lia. done. }
  rewrite plain_run by (done || lia). cbn [escape_loop escaped]. rewrite He. cbn [default].
  unfold append_escaped_text, buffer_altered. cbn [nb_data].
  pose proof (overwritten_text b (String c' p) (drop (i + String.length (String c' p)) (nb_data b)) Hb Hp)
    as Htext. fold i in Htext. fold (overwrite i (String c' p) (nb_data b)) in Htext.
  assert (NUL ∈ overwrite i (String c' p) (nb_data b)
          <-> NUL ∈ drop (i + String.length (String c' p)) (nb_data b)) as Hnul.
  { rewrite !nul_in_iff, Htext, overwrite_length, !string_length_app, length_drop by done.
    unfold nb_text, i in *. lia. }
  destruct (decide (NUL ∈ drop (i + String.length (String c' p)) (nb_data b))) as [Hin|Hout].
  2:{ by rewrite !bool_decide_false by tauto. }
  rewrite !bool_decide_true by tauto. rewrite altered_ok by (cbn [nb_data]; tauto). cbn [nb_data].
  destruct (zappend_ok (NeBuffer (overwrite i (String c' p) (nb_data b))
    (S (String.length (nb_text (NeBuffer (overwrite i (String c' p) (nb_data b)) (nb_used b)))))) e)
    as [_ Hz]; [|by eapply escaped_char_not_nul|].
  { apply Hnul, nul_in_iff in Hin. split; [done|]. unfold nb_text. cbn [nb_data nb_used]. lia. }
  cbn [escape_loop]. rewrite Hz. unfold nb_text at 1. cbn [nb_data]. rewrite Htext.
  by rewrite string_app_nil_r, !string_app_assoc.
Qed.

(** C24. A text of special characters and then plain ones is escaped exactly when the plain ones
    and their terminator fit into the memory that is left, since the buffer is not extended
    for them; a longer text is written outside of it.  With a special character after the
    plain ones the result has in between what the memory held up to the next NUL. *)
Theorem escape_bounds s p c :
  string_forall special s = true -> string_forall plain p = true -> special c = true ->
  let b := append_specials s ne_buffer_create in
  escape_xml_text (s +:+ p)
    = (if bool_decide (nb_used b + String.length p <= length (nb_data b))%nat
       then Ret (escaped (s +:+ p)) else Crash)
  /\ (p <> "" ->
     escape_xml_text (s +:+ p +:+ String c "")
     = if bool_decide (NUL ∈ stale b (String.length p))
       then Ret (escaped (s +:+ p) +:+ c_string (stale b (String.length p)) +:+ escaped (String c ""))
       else Crash).
Proof.
  intros Hs Hp Hc b. destruct create_ok as [Hok Ht].
  assert (buffer_ok b /\ nb_text b = escaped s) as [Hb Hbt].
  { destruct (special_run s "" _ 0 Hs Hok) as (_ & H & H'). by rewrite Ht in H'. }
  rewrite escaped_app, (escaped_plain p) by done. rewrite <- Hbt. unfold escape_xml_text. split.
  - destruct (special_run s p _ 0 Hs Hok) as (-> & _ & _). fold b. by apply escape_end.
  - intros Hne. destruct (special_run s (p +:+ String c "") _ 0 Hs Hok) as (-> & _ & _). fold b.
    by apply escape_middle.
Qed.
End escape.

(** ** Examples *)

(** New memory holds the letter Z; there is room for four characters. *)
#[local] Instance sample_neon : Neon := {
  ne_buffer_create := NeBuffer (NUL :: replicate 4 "Z"%char) 1;
  ne_buffer_zappend b s :=
    NeBuffer (list_ascii_of_string (nb_text b +:+ s) ++ NUL :: replicate 4 "Z"%char)
      (S (String.length (nb_text b +:+ s)));
  ne_buffer_altered b := NeBuffer (nb_data b) (S (String.length (nb_text b)))
}.

#[local] Instance sample_neon_laws : NeonLaws sample_neon.
Proof.
  split; [split; [|done]|intros b s Hb Hs|done].
  { split; [done|]. cbn. lia. }
  assert (nb_text (ne_buffer_zappend b s) = nb_text b +:+ s) as Ht.
  { unfold nb_text at 1. cbn [nb_data ne_buffer_zappend sample_neon]. rewrite c_string_app.
    - cbn. by rewrite string_app_nil_r.
    - rewrite string_forall_app, Hs. unfold nb_text. by rewrite c_string_not_nul. }
  split; [|done]. split; [by rewrite Ht|]. cbn [nb_data nb_used ne_buffer_zappend sample_neon].
  rewrite length_app, list_ascii_length. cbn. lia.
Qed.

Lemma escape_bounds_witness :
  let b := append_specials "<&" ne_buffer_create in
  escape_xml_text "<&bob"
    = (if bool_decide (nb_used b + 3 <= length (nb_data b))%nat
       then Ret (escaped "<&bob") else Crash)
  /\ ("bob"%string <> ""%string ->
     escape_xml_text "<&bob>"
     = if bool_decide (NUL ∈ stale b 3)
       then Ret (escaped "<&bob" +:+ c_string (stale b 3) +:+ escaped ">")
       else Crash).
Proof. apply (escape_bounds "<&" "bob" ">"%char); vm_compute; reflexivity. Defined.

Example escaped_texts :
  map escape_xml_text ["&<"; "anna"; "annas"; "a&b"]%string
  = [Ret "&amp;&lt;"%string; Ret "anna"%string; Crash; Crash].
Proof. vm_compute. reflexivity. Qed.

(** An empty text is the port 0. *)
Example ports : map atonni ["8080"; "-1"; "80a"; "2147483648"; ""]%string = [8080; -1; -1; -1; 0].
Proof. vm_compute. reflexivity. Qed.
