(* ===== verification/Examples.v ===== *)
(** * A small site for the witnesses of properties, access control and versions *)
From S2P Require Import Prelude Util Db Bind Resource DbmsDeltav Bridge Properties Acl.
From Stdlib Require Import Sorted.
Local Open Scope Z_scope.

(** A document of user 5, with two versions, two dead properties and an entry for
    its owner; user 6 is in group 7. *)
Definition site_db : db :=
  set_sequences (Sequences 100 100 100 1 50 10)
  (set_resources [ResourceRow 20 "" dav_repos_VERSIONED 5 5 "doc" 0 0 "en-US" None;
                  ResourceRow 30 "" dav_repos_VERSION 5 5 "doc" 0 0 "en-US" None;
                  ResourceRow 31 "" dav_repos_VERSION 5 5 "doc" 0 0 "en-US" None]
  (set_quota [QuotaRow 5 6 1000]
  (set_properties [PropertyRow 1 "color" 20 "<c" "red"; PropertyRow 1 "size" 31 "<s" "big"]
  (set_namespaces [(1, "DAV:"%string)]
  (set_acl_privileges [PrivilegeRow 1 1 "all" 1 6; PrivilegeRow 2 1 "read" 2 3;
                       PrivilegeRow 3 1 "write" 4 5]
  (set_acl_inheritance [(2, "2"%string); (20, "2,20"%string)]
  (set_principals [PrincipalRow 5 "ann"; PrincipalRow 6 "bob"; PrincipalRow 7 "staff"]
  (set_transitive_group_members [TgmRow 7 6 1]
  (set_aces [AceRow 40 "G" "t" 20 5 1 (Some "owner"%string); AceRow 41 "G" "f" 2 7 0 None;
             AceRow 42 "D" "f" 20 6 0 None]
  (set_dav_aces_privileges [(40, 1); (41, 2); (41, 3); (42, 3)]
  (set_vcrs [VcrRow 20 31 25 "I" 0 0]
  (set_versions [VersionRow 31 2 (Some 20) 25; VersionRow 30 1 (Some 20) 25]
   empty_db)))))))))))).

Definition site : conn := Conn site_db [] 0 [] false.
Definition doc : dav_repos_resource :=
  set_owner_id 5 (set_serialno 20 (set_has_resource true zero_dbr)).
Definition bob : dav_principal := Principal PRINCIPAL_HREF 6 "users/bob".
Definition ann : dav_principal := Principal PRINCIPAL_HREF 5 "users/ann".

(** ** Versions *)

Lemma set_checkin_out_readback_witness :
  exists r' s', dbms_set_checkin_out doc DAV_RESOURCE_CHECKED_OUT 1 site = (None, r', s')
    /\ checked_state r' = DAV_RESOURCE_CHECKED_OUT /\ checked_id r' = 30 /\ vr_num r' = 1
    /\ forall r0, serialno r0 = 20 ->
         exists r1, (dbms_get_vcr_props r0 s').1 = (None, r1)
           /\ checked_state r1 = DAV_RESOURCE_CHECKED_OUT /\ checked_id r1 = 30 /\ vr_num r1 = 1.
Proof.
  apply (set_checkin_out_readback doc DAV_RESOURCE_CHECKED_OUT 1
    (VersionRow 30 1 (Some 20) 25) (VcrRow 20 31 25 "I" 0 0) site).
  - reflexivity.
  - by_evaluation.
  - discriminate.
  - reflexivity.
  - reflexivity.
  - reflexivity.
Defined.

Lemma get_vhr_versions_spec_witness :
  let vhr := set_serialno 25 doc in
  let l := match (dbms_get_vhr_versions (fun _ => ""%string) vhr site).1 with
           | Ret (inr l) => l | _ => [] end in
  vhr_versions 25 site_db <> []
  /\ map (fun r => (serialno r, version r)) l = [(30, 1); (31, 2)]
  /\ StronglySorted Z.le (map version l)
  /\ forall i r, l !! i = Some r -> lastversion r = bool_decide (S i = length l).
Proof.
  intros vhr l. apply (get_vhr_versions_spec (fun _ => ""%string) vhr site l). vm_compute. reflexivity.
Defined.

(** ** Dead properties *)

Lemma set_dead_property_spec_witness :
  let pr := Property 1 "color" "<c" "blue" "DAV:" in
  (dbms_set_dead_property doc pr site).1 = None
  /\ property_set (is_prop 20 "color" 1) "<c" "blue" (properties site_db)
       (properties (c_db (dbms_set_dead_property doc pr site).2)).
Proof. apply set_dead_property_spec. vm_compute. reflexivity. Defined.

Lemma get_ns_id_spec_witness :
  let out := dbms_get_ns_id ∅ empty_cache "urn:x" site in
  exists id, out.1.1.1 = inr id /\ out.1.1.2 !! "urn:x"%string = Some id
    /\ (id, "urn:x"%string) ∈ namespaces (c_db out.2)
    /\ ns_wf (c_db out.2) /\ ns_coherent out.1.1.2 (c_db out.2)
    /\ ns_coherent (cache_namespaces out.1.2) (c_db out.2)
    /\ (forall x, x ∈ namespaces site_db -> x ∈ namespaces (c_db out.2)).
Proof.
  intros out. apply (get_ns_id_spec ∅ empty_cache "urn:x" site).
  - split; [by_evaluation|]. intros id n H. cbn in H. set_unfold in H.
    destruct H as [[= -> ->]|[]]. split; reflexivity.
  - reflexivity.
  - intros n id H. by rewrite lookup_empty in H.
  - intros n id H. cbn in H. by rewrite lookup_empty in H.
  - unfold out. vm_compute. reflexivity.
  - unfold out. vm_compute. reflexivity.
Defined.

(** ** Access control *)

(** Bob is in the group that may write below the root, but an entry nearer to the
    document denies him. *)
Lemma is_allow_spec_witness :
  (dbms_is_allow 1 "write" bob [] doc None site).1 = (0, Some (AceCache 6 1 "write" false))
  /\ (dbms_is_allow 1 "read" bob [] doc None site).1 = (1, Some (AceCache 6 1 "read" true)).
Proof.
  split.
  - apply (is_allow_spec 1 "write" bob [] doc None site); [discriminate|reflexivity|].
    vm_compute. reflexivity.
  - apply (is_allow_spec 1 "read" bob [] doc None site); [discriminate|reflexivity|].
    vm_compute. reflexivity.
Defined.

Lemma is_allow_refused_allows_witness :
  (dav_repos_is_allow "DAV:" "write" bob [] doc None (Cache ∅ {["DAV:"%string := 1]} ∅) 403
     (Conn site_db [true] 0 [] false)).1
  = (HTTP_INTERNAL_SERVER_ERROR, None).
Proof. apply (is_allow_refused_allows 1); [discriminate|reflexivity|reflexivity]. Defined.

Lemma get_privileges_are_allowed_witness :
  ("DAV:"%string, "read"%string) ∈ (dbms_get_privileges 6 20 site).1
  <-> granted bob 1 "read" 20 site_db = true.
Proof.
  apply (get_privileges_are_allowed bob 20 (PrivilegeRow 2 1 "read" 2 3) "DAV:" site).
  - by_evaluation.
  - split; [by_evaluation|]. intros id n H. cbn in H. set_unfold in H.
    destruct H as [[= -> ->]|[]]. split; reflexivity.
  - cbn. right. left.
  - cbn. left.
  - reflexivity.
Defined.

Definition sample_by_name (n : string) : dav_principal := Principal PRINCIPAL_HREF 5 n.
Definition sample_by_type (i : Z) : string * string := ("DAV:"%string, "owner-right"%string).
Definition request : list dav_ace :=
  [Ace bob None [("DAV:"%string, "read"%string)] false false;
   Ace ann None [("DAV:"%string, "write"%string)] false false].

Lemma set_acl_spec_witness :
  let out := @dav_repos_set_acl sample_config sample_by_name sample_by_type "/users/"
               ∅ empty_cache doc request site in
  (exists rows,
    aces (c_db out.2) = [AceRow 40 "G" "t" 20 5 1 (Some "owner"%string);
                         AceRow 41 "G" "f" 2 7 0 None] ++ rows
    /\ map a_id rows = [50; 51]
    /\ Forall2 (row_of_ace doc) request rows)
  /\ ~ @conflict_between sample_config "/users/" request request
  /\ ~ @conflict_between sample_config "/users/" request
         (map (ace_of_row sample_by_name sample_by_type)
            (protected_rows 20 (delete_own_stmt 20 site_db))).
Proof.
  intros out.
  apply (set_acl_spec sample_config sample_by_name sample_by_type "/users/" ∅ empty_cache
    doc request site out.1.1.2 out.1.2 out.2).
  vm_compute. reflexivity.
Defined.
